(* ===== verification/_CoqProject ===== *)
-Q . S2P
Prelude.v
Pmm.v
Heap.v
Paging.v
Scheduler.v
KeyboardBuffer.v
Net.v
NetStack.v
Tcp.v
NetReceive.v
NetSafety.v
Fat32.v
FatVolume.v
FatFiles.v
FatDirs.v
FatApi.v
Cpu.v
Console.v
Vga.v
Ports.v
Ata.v
Drivers.v
Rtl8139.v
Pci.v
Graphics.v
BootAnim.v
Boot.v
Terminal.v
Gui.v
Input.v
Ps2.v
Syscall.v
SyscallProofs.v
KernelMain.v
KernelBoot.v
KernelRun.v
KernelCalls.v
