(* ===== verification/Prelude.v ===== *)
(** * LaylaOS: a verification library for the kernel

    LaylaOS is a 32-bit x86 kernel in C++ (src/src): it boots from a multiboot loader,
    sets up segments, interrupts, a heap, a frame allocator and paging, finds its devices
    on the PCI bus, mounts a FAT32 volume, brings up a small network stack, and runs
    ring 3 programs that reach it through interrupt 0x80, with a terminal in VGA graphics
    mode.  This library translates that code into executable definitions and proves what
    makes each part correct.  Definitions keep the names of the source.

    ** How the code is modelled

    - A [w]-bit integer is a [Z]; each operation that can leave its range is followed by
      the wrap-around of its type ([u8], [u16], [u32], [i8], [i32], [not32]).
    - An object is a record, an array a list.  An access outside an array, through a null
      pointer, a division by zero or a loop without end has no defined behaviour in C++:
      fallible code returns [result], and such a step is a value of [fault].  A theorem
      that concludes [= Ok ...] therefore also says that none of these happens.
    - Loops with a counter are [for_result] (the counter and its bounds as in the code).
      Loops without one take fuel: the heap walk ([heap_fuel]: a heap of [n] bytes has at
      most [n / 13] chunks), the checksum folding (3 rounds, from the 32-bit sum), the
      FAT chain walks (the chains proved about are finite and the fuel is a hypothesis
      that covers them; [directory_search_termination] gives the bound and shows that a
      cyclic chain has none), string scans, Newton's iteration (33 rounds, since the
      distance to the root halves), and the memory map walk (an entry takes at least four
      bytes).  Polling loops of the drivers have the bound of the code, 2^20.
    - Shared memory is explicit where the code shares it: page tables live in one physical
      memory that all directories point into, the terminal, the key buffer and the
      scheduler are one state for the drivers and the system calls.  User memory
      ([Sys.mem]) and the kernel heap are separate address spaces of the model; in the code
      they share one, and the calls that store through an unchecked pointer could reach the
      kernel.  The theorems on such calls therefore ask for buffers in user memory, and
      [kernel_keeps_running] shows that the memory that changes, the heap objects and the
      pool of page tables occupy disjoint addresses.
    - A system call that sleeps takes the interrupts that arrive as a list.  Each comes back
      to the halted call or, when the timer dispatched another process, leaves it: the
      scheduler does not save a blocked context, so the call is abandoned ([Sys.wait_until]).
    - Hardware is reached through the class [Ports.PortIO]; [Ports.Attached] says that a
      machine has a given device at given ports.  Drivers are written over the interface,
      and the theorems hold for every machine with the device.  The devices (ATA drive,
      PCI configuration mechanism, RTL8139 registers, VGA registers) are written from
      their documented behaviour, in the file of their driver.
    - What a buffer holds before it is written, addresses the linker chooses, and the
      interrupt stubs in assembly are parameters.

    ** Files, components, theorems

    Memory.
    - Pmm.v: memory/pmm.cpp.  The bitmap allocator refines a set of free frames
      ([pmm_refines_spec]); [Class FrameAllocator] is what paging relies on.
    - Heap.v: memory/memorymanagement.cpp, allocator.cpp.  First fit with coalescing
      refines a list of blocks that tile the heap ([heap_refines_spec]); allocations are
      exclusive ([malloc_exclusive]), and memory given back is usable again.
    - Paging.v: memory/paging.cpp, against a model of the MMU walk: [MapPage_correct],
      [kernel_identity_map], [lookup_agrees_with_mmu], [delete_user_directory], and
      [user_tables_shared] (user directories are not isolated).

    Processor and processes.
    - Cpu.v: arch/i386/gdt.cpp, tss.cpp, interrupts.cpp: descriptor and gate tables
      decode to what they must mean ([idt_correct]), interrupts reach their handler and
      are acknowledged ([interrupt_dispatch]).
    - Scheduler.v: kernel/process.cpp, scheduler.cpp: round robin as a refinement,
      every ready process runs ([ready_process_runs]), preemption restores contexts, and
      what goes wrong for a process blocked in the kernel.
    - KeyboardBuffer.v: kernel/keyboard_buffer.cpp: a bounded queue.

    Network.
    - Net.v, NetStack.v, Tcp.v, NetReceive.v: net/*.cpp and the data path of
      drivers/rtl8139.cpp: checksums, ARP, IPv4, ICMP, UDP, TCP.  Theorems run both ends:
      a datagram, a segment or an echo request put on the wire by one host is delivered
      or answered by the other; the TCP states move along the transition relation only.
    - NetSafety.v: the host is a typed state (buffer lengths, field widths).  Every
      operation of the stack preserves it within the limits the code does not check
      ([network_type_safety]), and the receive interrupt returns for any frames whose length fields fit ([network_input_safe]);
      without that condition it does not ([udp_length_overreads]).

    Storage.
    - Fat32.v (code of fs/fat32.cpp, mbr.cpp), FatVolume.v (sectors, the FAT and its
      copies), FatFiles.v (cluster chains), FatDirs.v (directories), FatApi.v (names,
      files): reading returns what was written, deleting frees exactly the file.
    - Ata.v: drivers/ata.cpp at port level; [ata_implements_disk] shows that it provides
      the sector reads and writes the file system is built on.

    Devices and start-up.
    - Ports.v (arch/i386/port.h), Drivers.v (drivers/driver.cpp), Rtl8139.v (set-up of
      drivers/rtl8139.cpp), Pci.v (drivers/pci.cpp: probing restores the configuration
      space, the scan finds exactly the supported functions), Boot.v (kernel/kernel.cpp:
      memory map, heap and frame pool, driver lookup, mounting), BootAnim.v
      (ui/boot_anim.cpp, with its integer square root).

    User interface and system calls.
    - Console.v: an endless sheet of paper as the specification of a scrolling screen,
      [Class Console] and what printing on any console shows.  Vga.v (text half of
      ui/vga.cpp) and Terminal.v (ui/terminal.cpp) are instances.
    - Graphics.v: graphics half of ui/vga.cpp, drawing as pictures, the mode switch on
      the VGA registers.  Gui.v: ui/gui.cpp over [Class WidgetOps].
    - Input.v: drivers/keyboard.cpp, mouse.cpp, from scan codes to the terminal.  Ps2.v:
      the set-up of the mouse against the keyboard controller.
    - Syscall.v: kernel/syscall.cpp, all calls and the dispatcher, over the state of the
      components above; SyscallProofs.v: typing a line wakes the reader with this line
      as long as no other process takes the processor, and what happens when one does
      ([typed_line_read]); files written and read through user memory, printing, receiving
      with its timeout, exit.

    The whole system.
    - KernelMain.v: [kernelMain] of kernel/kernel.cpp as the composition of its phases,
      ending in one record of everything start-up leaves.  KernelBoot.v: on a machine with
      enough memory ([bootable]) it returns, in a state the theorems above start from
      ([booted]), and the first tick enters the shell ([kernel_boots]).
    - KernelRun.v: the dispatch of Cpu.v with the real handlers, system calls and page
      fault report ([interrupt]).  An abstract machine of key modifiers, terminal session,
      process table and user memory says what hardware interrupts mean.  KernelCalls.v:
      what the calls that neither wait nor touch files mean to it; any sequence of
      interrupts, such calls and work of the program after start-up shows exactly that,
      changes no memory but the program's own and cannot make the kernel fail
      ([kernel_keeps_running], which lists the inputs it excludes).

    ** Not modelled

    The assembly (loader.s, interrupts.s, gdt.s, the user programs) and the linker
    script; the delay loops, which only pass time.  When [new] returns null during
    start-up the constructor writes through it, which is the fault [BadPointer] of
    KernelMain.v; [bootable] asks for a heap where this does not happen, and for one that
    keeps clear of the first program, since the code does not separate the two.  Class
    sizes, addresses of static objects and the contents of memory before it is written
    are parameters of [kernelMain].  Interrupts arrive between the operations modelled
    here, not inside them, since handlers run with interrupts disabled; the one exception is
    the waiting loop of a system call, which takes its interrupts as described above.

    ** Further work

    The waiting calls and the file calls as steps of [kernel_keeps_running] (they have
    theorems of their own in SyscallProofs.v and FatApi.v); multi-sector writes, which the
    file system does not use; the receive ring of the network card against a card that
    fills it. *)

From stdpp Require Import base numbers list gmap sets.
From Stdlib Require Import ZArith Lia.

#[global] Open Scope Z_scope.

(** Keep arithmetic folded under [cbn]. *)
#[global] Arguments Z.testbit : simpl never.
#[global] Arguments Z.land : simpl never.
#[global] Arguments Z.lor : simpl never.
#[global] Arguments Z.shiftl : simpl never.
#[global] Arguments Z.shiftr : simpl never.
#[global] Arguments Z.div : simpl never.
#[global] Arguments Z.modulo : simpl never.
#[global] Arguments Z.pow : simpl never.
#[global] Arguments Z.mul : simpl never.
#[global] Arguments Z.add : simpl never.
#[global] Arguments Z.sub : simpl never.
#[global] Arguments replicate : simpl never.

(** * Machine integers

    A [w]-bit unsigned integer of the C++ code is a [Z] in [0, 2^w); every
    operation that can leave that range is followed by the wrap-around of its
    type. *)

Definition u8 (z : Z) : Z := z mod 2 ^ 8.
Definition u16 (z : Z) : Z := z mod 2 ^ 16.
Definition u32 (z : Z) : Z := z mod 2 ^ 32.

(** Two's complement reading of an 8- and of a 32-bit pattern. *)
Definition i8 (z : Z) : Z := (z + 2 ^ 7) mod 2 ^ 8 - 2 ^ 7.
Definition i32 (z : Z) : Z := (z + 2 ^ 31) mod 2 ^ 32 - 2 ^ 31.

(** The C++ operator [~] on [uint32_t] and [uint16_t]. *)
Definition not32 (z : Z) : Z := u32 (Z.lnot z).
Definition not16 (z : Z) : Z := u16 (Z.lnot z).

Definition is_u8 (z : Z) : Prop := 0 <= z < 2 ^ 8.
Definition is_u16 (z : Z) : Prop := 0 <= z < 2 ^ 16.
Definition is_u32 (z : Z) : Prop := 0 <= z < 2 ^ 32.

Create HintDb layla.

Lemma u8_bounds z : is_u8 (u8 z).
Proof. apply Z.mod_pos_bound. lia. Qed.
Lemma u16_bounds z : is_u16 (u16 z).
Proof. apply Z.mod_pos_bound. lia. Qed.
Lemma u32_bounds z : is_u32 (u32 z).
Proof. apply Z.mod_pos_bound. lia. Qed.
#[export] Hint Resolve u8_bounds u16_bounds u32_bounds : layla.

Lemma u8_small z : is_u8 z -> u8 z = z.
Proof. apply Z.mod_small. Qed.
Lemma u16_small z : is_u16 z -> u16 z = z.
Proof. apply Z.mod_small. Qed.
Lemma u32_small z : is_u32 z -> u32 z = z.
Proof. apply Z.mod_small. Qed.

(** A literal is in the range of its width. *)
Ltac u32_lit := split; [apply Z.leb_le | apply Z.ltb_lt]; vm_compute; reflexivity.

(** Decide a goal about machine integers whose values are known to be in
    range: the ranges are unfolded and the constants normalised for [lia]. *)
Ltac zify_words :=
  unfold is_u8, is_u16, is_u32 in *;
  change (2 ^ 7) with 128 in *; change (2 ^ 8) with 256 in *;
  change (2 ^ 12) with 4096 in *; change (2 ^ 16) with 65536 in *;
  change (2 ^ 31) with 2147483648 in *; change (2 ^ 32) with 4294967296 in *.
Ltac word :=
  unfold u8, u16, u32, i8, i32 in *; zify_words;
  try lia; Z.div_mod_to_equations; lia.

Lemma i32_small z : -2 ^ 31 <= z < 2 ^ 31 -> i32 z = z.
Proof. intros H. unfold i32. rewrite Z.mod_small; zify_words; lia. Qed.

(** * Bits *)

Lemma testbit_u32 z i : 0 <= i -> Z.testbit (u32 z) i = (i <? 32) && Z.testbit z i.
Proof.
  intros Hi. unfold u32. destruct (Z.ltb_spec i 32); cbn.
  - apply Z.mod_pow2_bits_low. lia.
  - apply Z.mod_pow2_bits_high. lia.
Qed.

Lemma testbit_not32 z i : 0 <= i < 32 -> Z.testbit (not32 z) i = negb (Z.testbit z i).
Proof.
  intros Hi. unfold not32. rewrite testbit_u32 by lia.
  rewrite Z.lnot_spec by lia. destruct (Z.ltb_spec i 32); [done | lia].
Qed.

(** A number whose set bits all lie below [n] is below [2^n]. *)
Lemma bits_below_lt z n :
  0 <= n -> 0 <= z -> (forall i, n <= i -> Z.testbit z i = false) -> z < 2 ^ n.
Proof.
  intros Hn Hz Hb. rewrite <- (Z.mod_small z (2 ^ (Z.max n (Z.log2 z + 1)))).
  2: { split; [done|]. destruct (decide (z = 0)) as [->|]; [lia|].
       eapply Z.lt_le_trans; [apply Z.log2_spec; lia|].
       apply Z.pow_le_mono_r; lia. }
  replace (z mod _) with (z mod 2 ^ n); [apply Z.mod_pos_bound; lia|].
  apply Z.bits_inj'. intros i Hi.
  destruct (decide (i < n)).
  - rewrite !Z.mod_pow2_bits_low by lia. done.
  - rewrite Z.mod_pow2_bits_high by lia.
    destruct (decide (i < Z.max n (Z.log2 z + 1))).
    + rewrite Z.mod_pow2_bits_low by lia. rewrite Hb; [done | lia].
    + rewrite Z.mod_pow2_bits_high by lia. done.
Qed.

Lemma testbit_above z n i : 0 <= z < 2 ^ n -> n <= i -> Z.testbit z i = false.
Proof.
  intros Hz Hi. destruct (decide (0 <= n)).
  - rewrite <- (Z.mod_small z (2 ^ n)) by done. apply Z.mod_pow2_bits_high. lia.
  - rewrite Z.pow_neg_r in Hz by lia. lia.
Qed.

Lemma is_u32_bits z : is_u32 z <-> 0 <= z /\ forall i, 32 <= i -> Z.testbit z i = false.
Proof.
  split.
  - intros H. split; [apply H|]. intros i Hi. by apply (testbit_above z 32).
  - intros [H1 H2]. split; [done|]. by apply (bits_below_lt z 32).
Qed.

Lemma lor_u32 a b : is_u32 a -> is_u32 b -> is_u32 (Z.lor a b).
Proof.
  rewrite !is_u32_bits. intros [? Ha] [? Hb]. split; [by apply Z.lor_nonneg|].
  intros i Hi. by rewrite Z.lor_spec, Ha, Hb.
Qed.

Lemma land_u32 a b : is_u32 a -> 0 <= b -> is_u32 (Z.land a b).
Proof.
  rewrite !is_u32_bits. intros [? Ha] Hb. split; [apply Z.land_nonneg; by left|].
  intros i Hi. by rewrite Z.land_spec, Ha.
Qed.
#[export] Hint Resolve lor_u32 land_u32 : layla.

(** [x & (1u << b)] tests bit [b]. *)
Lemma land_pow2_eqb x b : 0 <= b -> (Z.land x (2 ^ b) =? 0) = negb (Z.testbit x b).
Proof.
  intros Hb. destruct (Z.eqb_spec (Z.land x (2 ^ b)) 0) as [E|E].
  - apply (f_equal (fun z => Z.testbit z b)) in E.
    rewrite Z.land_spec, Z.pow2_bits_true, Z.bits_0, andb_true_r in E by done.
    by rewrite E.
  - destruct (Z.testbit x b) eqn:Hx; [done|]. exfalso. apply E.
    apply Z.bits_inj'. intros i Hi. rewrite Z.land_spec, Z.bits_0.
    destruct (decide (i = b)) as [->|]; [by rewrite Hx|].
    rewrite Z.pow2_bits_false, andb_false_r by lia. done.
Qed.

Lemma shiftl_1_u32 b : 0 <= b < 32 -> u32 (Z.shiftl 1 b) = 2 ^ b.
Proof.
  intros Hb. rewrite Z.shiftl_1_l. apply u32_small. split; [lia|].
  apply Z.pow_lt_mono_r; lia.
Qed.

(** Numbers split at bit 12, the page offset. *)
Lemma land_low12 x : Z.land x 0xFFF = x mod 4096.
Proof. change 0xFFF with (Z.ones 12). rewrite Z.land_ones by lia. done. Qed.

Lemma land_high20 x : is_u32 x -> Z.land x 0xFFFFF000 = x / 4096 * 4096.
Proof.
  intros Hx. change 4096 with (2 ^ 12). rewrite <- Z.shiftr_div_pow2, <- Z.shiftl_mul_pow2 by lia.
  apply Z.bits_inj'. intros i Hi. rewrite Z.land_spec.
  change 0xFFFFF000 with (Z.shiftl (Z.ones 20) 12).
  rewrite !Z.shiftl_spec by lia. destruct (decide (i < 12)).
  - rewrite !(Z.testbit_neg_r _ (i - 12)) by lia. apply andb_false_r.
  - rewrite Z.shiftr_spec by lia. replace (i - 12 + 12) with i by lia.
    destruct (decide (i < 32)).
    + rewrite Z.ones_spec_low by lia. apply andb_true_r.
    + rewrite (testbit_above x 32) by (done || lia). done.
Qed.

(** Bits side by side add up. *)
Lemma lor_add f k n : 0 <= n -> 0 <= k < 2 ^ n -> Z.lor (f * 2 ^ n) k = f * 2 ^ n + k.
Proof.
  intros Hn Hk. assert (E : Z.land (f * 2 ^ n) k = 0).
  { apply Z.bits_inj'. intros i Hi. rewrite Z.land_spec, Z.bits_0.
    rewrite <- Z.shiftl_mul_pow2 by lia.
    rewrite Z.shiftl_spec by lia. destruct (decide (i < n)).
    - by rewrite Z.testbit_neg_r by lia.
    - rewrite (testbit_above k n) by lia. apply andb_false_r. }
  rewrite Z.add_nocarry_lxor by done. symmetry. by apply Z.lxor_lor.
Qed.

(** A mask selects a field. *)
Lemma land_mask x m n :
  0 <= m -> 0 <= n -> Z.land x (Z.ones n * 2 ^ m) = x / 2 ^ m mod 2 ^ n * 2 ^ m.
Proof.
  intros Hm Hn. apply Z.bits_inj'. intros i Hi.
  rewrite Z.land_spec, <- !Z.shiftl_mul_pow2, !Z.shiftl_spec by lia.
  destruct (decide (i < m)) as [|Hge].
  - rewrite !(Z.testbit_neg_r _ (i - m)) by lia. apply andb_false_r.
  - rewrite Z.testbit_ones by lia. destruct (Z.ltb_spec (i - m) n), (Z.leb_spec 0 (i - m)); try lia; cbn.
    + rewrite Z.mod_pow2_bits_low, Z.div_pow2_bits by lia.
      rewrite andb_true_r. f_equal. lia.
    + rewrite Z.mod_pow2_bits_high by lia. apply andb_false_r.
Qed.

Lemma lor_page f k : 0 <= k < 4096 -> Z.lor (f * 4096) k = f * 4096 + k.
Proof. intros Hk. by apply (lor_add f k 12). Qed.

Lemma testbit_page f k i : 0 <= k < 4096 -> 0 <= i < 12 ->
  Z.testbit (f * 4096 + k) i = Z.testbit k i.
Proof.
  intros Hk Hi. rewrite <- lor_page, Z.lor_spec by done.
  change (f * 4096) with (f * 2 ^ 12). rewrite <- Z.shiftl_mul_pow2 by lia.
  rewrite Z.shiftl_spec, Z.testbit_neg_r by lia. done.
Qed.

Lemma page_div f k : 0 <= k < 4096 -> (f * 4096 + k) / 4096 = f.
Proof. intros. Z.div_mod_to_equations. lia. Qed.

Lemma testbit_mod4096 x i : 0 <= i < 12 -> Z.testbit (x mod 4096) i = Z.testbit x i.
Proof. intros. change 4096 with (2 ^ 12). apply Z.mod_pow2_bits_low. lia. Qed.

(** * Faults and results

    A C++ access outside an object, through a null pointer or a loop that is
    cut off has no defined behaviour: the model makes it a value. *)

Inductive fault :=
  | OutOfBounds   (** an array access outside the array *)
  | BadPointer    (** an access through a pointer to no object *)
  | OutOfFuel     (** the loop did not finish within the fuel *)
  | DivideError.  (** a division by zero *)

Inductive result (A : Type) :=
  | Ok (a : A)
  | Err (e : fault).
Arguments Ok {A} _.
Arguments Err {A} _.

#[global] Instance result_ret : MRet result := fun A a => Ok a.
#[global] Instance result_bind : MBind result :=
  fun A B f m => match m with Ok a => f a | Err e => Err e end.

Lemma result_bind_Ok {A B} (f : A -> result B) a : (Ok a ≫= f) = f a.
Proof. done. Qed.

Lemma result_bind_inv {A B} (m : result A) (f : A -> result B) b :
  m ≫= f = Ok b -> exists a, m = Ok a /\ f a = Ok b.
Proof. destruct m; [|done]. intros H. by exists a. Qed.

#[global] Instance fault_eq_dec : EqDecision fault.
Proof. solve_decision. Defined.
#[global] Instance result_eq_dec {A} `{EqDecision A} : EqDecision (result A).
Proof. solve_decision. Defined.

(** Break a successful monadic computation into its steps. *)
Ltac inv_result :=
  repeat match goal with
  | H : (_ ≫= _) = Ok _ |- _ =>
      let x := fresh "x" in let E := fresh "E" in
      apply result_bind_inv in H as (x & E & H); cbn beta in H
  | H : Ok _ = Ok _ |- _ => injection H as H; subst
  | H : Err _ = Ok _ |- _ => discriminate H
  | H : Ok _ = Err _ |- _ => discriminate H
  end.

(** The same, opening the pairs the computations return. *)
Ltac inv_pairs :=
  repeat (inv_result;
          match goal with x : (_ * _)%type |- _ => destruct x; cbn beta iota in * end);
  inv_result.

(** * Arrays *)

Section arrays.
Context {A : Type}.
Implicit Types (l : list A) (i : Z) (x : A).

(** [l[i]] and [l[i] = x]; an index outside the array is a fault. *)
Definition arr_get l i : result A :=
  if i <? 0 then Err OutOfBounds
  else match l !! Z.to_nat i with
       | Some x => Ok x
       | None => Err OutOfBounds
       end.

Definition arr_set l i x : result (list A) :=
  if (i <? 0) || (Z.of_nat (length l) <=? i) then Err OutOfBounds
  else Ok (<[Z.to_nat i := x]> l).

Lemma arr_get_Ok l i x : arr_get l i = Ok x <-> 0 <= i /\ l !! Z.to_nat i = Some x.
Proof.
  unfold arr_get. destruct (Z.ltb_spec i 0).
  - split; [done | lia].
  - destruct (l !! Z.to_nat i); split; naive_solver.
Qed.

Lemma arr_get_in_range l i :
  0 <= i < Z.of_nat (length l) -> exists x, arr_get l i = Ok x.
Proof.
  intros H. destruct (lookup_lt_is_Some_2 l (Z.to_nat i)) as [x Hx]; [lia|].
  exists x. apply arr_get_Ok. by split; [lia|].
Qed.

Lemma arr_get_out l i :
  ~ (0 <= i < Z.of_nat (length l)) -> arr_get l i = Err OutOfBounds.
Proof.
  intros H. unfold arr_get. destruct (Z.ltb_spec i 0); [done|].
  rewrite (proj2 (lookup_ge_None l (Z.to_nat i))); [done | lia].
Qed.

Lemma arr_set_in_range l i x :
  0 <= i < Z.of_nat (length l) -> arr_set l i x = Ok (<[Z.to_nat i := x]> l).
Proof.
  intros H. unfold arr_set.
  destruct (Z.ltb_spec i 0), (Z.leb_spec (Z.of_nat (length l)) i); (done || lia).
Qed.

Lemma arr_set_Ok l i x l' :
  arr_set l i x = Ok l' <->
  0 <= i < Z.of_nat (length l) /\ l' = <[Z.to_nat i := x]> l.
Proof.
  unfold arr_set.
  destruct (Z.ltb_spec i 0), (Z.leb_spec (Z.of_nat (length l)) i); cbn;
    split; intros; (lia || naive_solver).
Qed.

Lemma arr_set_out l i x : Z.of_nat (length l) <= i -> arr_set l i x = Err OutOfBounds.
Proof.
  intros H. unfold arr_set.
  destruct (Z.ltb_spec i 0), (Z.leb_spec (Z.of_nat (length l)) i); cbn; (done || lia).
Qed.
End arrays.

(** * Loops

    [for (i = lo; i < hi; i++)] over an explicit state, with a body that
    cannot fault ([for_range]) and with one that can ([for_result]). *)

Definition for_range {S : Type} (lo hi : Z) (body : Z -> S -> S) (s : S) : S :=
  foldl (fun s i => body i s) s (seqZ lo (hi - lo)).

Fixpoint fold_result {A S : Type} (body : A -> S -> result S) (l : list A) (s : S)
    : result S :=
  match l with
  | [] => Ok s
  | x :: l => s' ← body x s; fold_result body l s'
  end.

Definition for_result {S : Type} (lo hi : Z) (body : Z -> S -> result S) (s : S)
    : result S :=
  fold_result body (seqZ lo (hi - lo)) s.

Lemma fold_result_app {A S : Type} (body : A -> S -> result S) l1 l2 s :
  fold_result body (l1 ++ l2) s = (s ← fold_result body l1 s; fold_result body l2 s).
Proof.
  revert s. induction l1 as [|x l1 IH]; intros s; [done|]. cbn.
  destruct (body x s); cbn; [apply IH | done].
Qed.

Section loops.
Context {S : Type}.

(** Loop invariant rules. *)
Lemma for_range_inv (P : Z -> S -> Prop) lo hi body s :
  lo <= hi ->
  P lo s ->
  (forall i s, lo <= i < hi -> P i s -> P (i + 1) (body i s)) ->
  P hi (for_range lo hi body s).
Proof.
  intros Hle H0 Hstep. unfold for_range.
  remember (Z.to_nat (hi - lo)) as n eqn:Hn.
  replace (hi - lo) with (Z.of_nat n) by lia.
  assert (Hhi : hi = lo + Z.of_nat n) by lia. clear Hn.
  revert lo s Hle H0 Hstep Hhi. induction n as [|n IH]; intros lo s Hle H0 Hstep Hhi.
  - cbn. by replace hi with lo by lia.
  - rewrite seqZ_cons by lia. cbn.
    replace (Z.pred (Z.of_nat (Datatypes.S n))) with (Z.of_nat n) by lia.
    apply IH; [lia | | | lia].
    + replace (Z.succ lo) with (lo + 1) by lia. apply Hstep; [lia | done].
    + intros i s' Hi. apply Hstep. lia.
Qed.

Lemma for_result_inv (P : Z -> S -> Prop) lo hi body s :
  lo <= hi ->
  P lo s ->
  (forall i s, lo <= i < hi -> P i s -> exists s', body i s = Ok s' /\ P (i + 1) s') ->
  exists s', for_result lo hi body s = Ok s' /\ P hi s'.
Proof.
  intros Hle H0 Hstep. unfold for_result.
  remember (Z.to_nat (hi - lo)) as n eqn:Hn.
  replace (hi - lo) with (Z.of_nat n) by lia.
  assert (Hhi : hi = lo + Z.of_nat n) by lia. clear Hn.
  revert lo s Hle H0 Hstep Hhi. induction n as [|n IH]; intros lo s Hle H0 Hstep Hhi.
  - cbn. exists s. by replace hi with lo by lia.
  - rewrite seqZ_cons by lia. cbn.
    replace (Z.pred (Z.of_nat (Datatypes.S n))) with (Z.of_nat n) by lia.
    destruct (Hstep lo s) as (s' & -> & HP); [lia | done |]. cbn.
    apply IH; [lia | | | lia].
    + by replace (Z.succ lo) with (lo + 1) by lia.
    + intros i s'' Hi. apply Hstep. lia.
Qed.
End loops.

(** * Total correctness

    [returns m P]: [m] ends without a fault in a value that satisfies [P].  The rules
    follow the shape of the code. *)

Definition returns {A} (m : result A) (P : A -> Prop) : Prop := exists a, m = Ok a /\ P a.

Lemma returns_Ok {A} (a : A) (P : A -> Prop) : P a -> returns (Ok a) P.
Proof. intros H. by exists a. Qed.

Lemma returns_mono {A} (m : result A) (P Q : A -> Prop) :
  returns m P -> (forall a, P a -> Q a) -> returns m Q.
Proof. intros (a & -> & H) HPQ. exists a. auto. Qed.

Lemma returns_bind {A B} (m : result A) (f : A -> result B) (P : A -> Prop) (Q : B -> Prop) :
  returns m P -> (forall a, P a -> returns (f a) Q) -> returns (m ≫= f) Q.
Proof. intros (a & -> & H) Hf. by apply Hf. Qed.

Lemma returns_if {A} (b : bool) (m1 m2 : result A) (P : A -> Prop) :
  (b = true -> returns m1 P) -> (b = false -> returns m2 P) -> returns (if b then m1 else m2) P.
Proof. destruct b; auto. Qed.

Lemma returns_fold {A S} (body : A -> S -> result S) (l : list A) (I : S -> Prop) s :
  I s -> (forall x s, x ∈ l -> I s -> returns (body x s) I) -> returns (fold_result body l s) I.
Proof.
  revert s. induction l as [|x l IH]; intros s Hs Hb; [by exists s|]. cbn [fold_result].
  apply (returns_bind _ _ I); [apply Hb; [set_solver | done]|].
  intros s' Hs'. apply IH; [done|]. intros y s'' Hy. apply Hb. set_solver.
Qed.

(** The first step of a computation, by a lemma on it. *)
Ltac step_with L := eapply returns_bind; [apply L|]; cbn beta.

(** Split on the comparisons of the goal, dropping the impossible cases. *)
Ltac case_tests :=
  repeat (match goal with
  | |- context [?a <=? ?b] => destruct (Z.leb_spec a b)
  | |- context [?a <? ?b] => destruct (Z.ltb_spec a b)
  | |- context [?a =? ?b] => destruct (Z.eqb_spec a b)
  end; cbn [andb orb negb]; try done; try (exfalso; lia)).

(** Reason about the first loop of the goal with an invariant. *)
Ltac loop_with P s' E H :=
  match goal with
  | |- context [for_result ?lo ?hi ?body ?s] => destruct (for_result_inv P lo hi body s) as (s' & E & H)
  end.

(** * Lists *)

Lemma filter_none {A} (P : A -> Prop) `{!forall x, Decision (P x)} (l : list A) :
  (forall x, x ∈ l -> ~ P x) -> filter P l = [].
Proof.
  induction l as [|x l IH]; intros Hn; [done|]. rewrite filter_cons, decide_False.
  - apply IH. set_solver.
  - apply Hn. set_solver.
Qed.

Lemma filter_ext_in {A} (P Q : A -> Prop) `{!forall x, Decision (P x)} `{!forall x, Decision (Q x)}
    (l : list A) :
  (forall x, x ∈ l -> P x <-> Q x) -> filter P l = filter Q l.
Proof.
  induction l as [|x l IH]; intros HPQ; [done|]. rewrite !filter_cons.
  rewrite IH by (intros y Hy; apply HPQ; set_solver).
  assert (E : P x <-> Q x) by (apply HPQ; set_solver).
  destruct (decide (P x)), (decide (Q x)); tauto.
Qed.

(** A filter that also drops the first element found. *)
Lemma filter_pop {A} (P Q : A -> Prop) `{!forall x, Decision (P x)} `{!forall x, Decision (Q x)}
    (l : list A) x r :
  NoDup l -> filter P l = x :: r -> (forall k, k ∈ l -> Q k <-> P k /\ k <> x) -> filter Q l = r.
Proof.
  induction l as [|y l IH]; intros Hnd Hf HQ; [done|].
  apply NoDup_cons in Hnd as [Hy Hnd]. rewrite filter_cons in Hf. rewrite filter_cons.
  assert (HQy : Q y <-> P y /\ y <> x) by (apply HQ; set_solver).
  destruct (decide (P y)).
  - injection Hf as -> Hf. rewrite decide_False by tauto. rewrite <- Hf. apply filter_ext_in.
    intros k Hk. rewrite HQ by set_solver. split; [tauto|]. intros Hp. split; [done|]. by intros ->.
  - rewrite decide_False by tauto. apply IH; [done | done |]. intros k Hk. apply HQ. set_solver.
Qed.
