(* ===== verification/Pmm.v ===== *)
(** Physical frame allocator: src/src/memory/pmm.cpp.

    [Pmm.state] holds the three static members of [PhysicalMemoryManager]: the
    bitmap words (a set bit marks a used frame), the number of frames and the
    cached number of free frames.  The abstract state is the finite set of free
    frames, [Pmm.free_set]; each operation is proved to act on it as a set
    operation and to keep the cached counter equal to its size. *)

From stdpp Require Import base numbers list gmap sets.
From Stdlib Require Import ZArith Lia.
From S2P Require Import Prelude.

Module Pmm.

(** ** The code *)

Record state := mkPmm {
  bitmap : list Z;
  total_frames : Z;
  free_frames : Z;
}.

Definition set_bitmap (s : state) (bm : list Z) : state :=
  mkPmm bm (total_frames s) (free_frames s).
Definition set_free_frames (s : state) (n : Z) : state :=
  mkPmm (bitmap s) (total_frames s) n.

(** [Init(bitmap_base, mem_size)]; [base] is the word array at [bitmap_base]. *)
Definition Init (base : list Z) (mem_size : Z) : result state :=
  let total := mem_size / 4096 in
  let dwords := u32 (total + 31) / 32 in
  bm ← for_result 0 dwords (fun i bm => arr_set bm i 0xFFFFFFFF) base;
  Ok (mkPmm bm total 0).

Definition SetBit (s : state) (frame : Z) : result state :=
  w ← arr_get (bitmap s) (frame / 32);
  bm ← arr_set (bitmap s) (frame / 32) (Z.lor w (u32 (Z.shiftl 1 (frame mod 32))));
  Ok (set_bitmap s bm).

Definition ClearBit (s : state) (frame : Z) : result state :=
  w ← arr_get (bitmap s) (frame / 32);
  bm ← arr_set (bitmap s) (frame / 32)
         (Z.land w (not32 (u32 (Z.shiftl 1 (frame mod 32)))));
  Ok (set_bitmap s bm).

Definition TestBit (s : state) (frame : Z) : result bool :=
  w ← arr_get (bitmap s) (frame / 32);
  Ok (negb (Z.land w (u32 (Z.shiftl 1 (frame mod 32))) =? 0)).

(** The inner loop of [FirstFree]: bits [b .. b+n-1] of the inverted word [i]. *)
Fixpoint first_bit (n : nat) (b : Z) (inv i total : Z) : option Z :=
  match n with
  | O => None
  | S n =>
      if negb (Z.land inv (u32 (Z.shiftl 1 b)) =? 0) then
        let frame := u32 (i * 32 + b) in
        if frame <? total then Some frame else first_bit n (b + 1) inv i total
      else first_bit n (b + 1) inv i total
  end.

(** The outer loop of [FirstFree]: words [i .. i+n-1]. *)
Fixpoint first_word (n : nat) (i : Z) (s : state) : result Z :=
  match n with
  | O => Ok (-1)
  | S n =>
      w ← arr_get (bitmap s) i;
      if negb (w =? 0xFFFFFFFF) then
        match first_bit 32 0 (not32 w) i (total_frames s) with
        | Some frame => Ok (i32 frame)
        | None => first_word n (i + 1) s
        end
      else first_word n (i + 1) s
  end.

Definition FirstFree (s : state) : result Z :=
  let dwords := u32 (total_frames s + 31) / 32 in
  first_word (Z.to_nat dwords) 0 s.

(** Returns the address of a frame, 0 when there is none. *)
Definition AllocFrame (s : state) : result (Z * state) :=
  frame ← FirstFree s;
  if frame <? 0 then Ok (0, s)
  else
    s ← SetBit s frame;
    let s := if free_frames s >? 0 then set_free_frames s (free_frames s - 1) else s in
    Ok (u32 (frame * 4096), s).

Definition FreeFrame (s : state) (addr : Z) : result state :=
  s ← ClearBit s (addr / 4096);
  Ok (set_free_frames s (u32 (free_frames s + 1))).

Definition MarkUsed (s : state) (addr length : Z) : result state :=
  let start := addr / 4096 in
  let fin := u32 (addr + length + 4095) / 4096 in
  for_result start (Z.min fin (total_frames s))
    (fun i s =>
       used ← TestBit s i;
       let s := if negb used && (free_frames s >? 0)
                then set_free_frames s (free_frames s - 1) else s in
       SetBit s i) s.

Definition MarkFree (s : state) (addr length : Z) : result state :=
  let start := addr / 4096 in
  let fin := u32 (addr + length) / 4096 in
  for_result start (Z.min fin (total_frames s))
    (fun i s =>
       used ← TestBit s i;
       let s := if (used : bool) then set_free_frames s (u32 (free_frames s + 1)) else s in
       ClearBit s i) s.

Definition FreeFrameCount (s : state) : Z := free_frames s.
Definition TotalFrameCount (s : state) : Z := total_frames s.

(** ** The abstract state *)

Definition is_free (s : state) (f : Z) : bool :=
  negb (Z.testbit (bitmap s !!! Z.to_nat (f / 32)) (f mod 32)).

Definition free_set (s : state) : gset Z :=
  list_to_set (filter (fun f => is_free s f = true) (seqZ 0 (total_frames s))).

(** Words in range, at most 2^20 frames, and a bitmap that covers them. *)
Record shape (s : state) : Prop := {
  shape_words : Forall is_u32 (bitmap s);
  shape_total : 0 <= total_frames s <= 2 ^ 20;
  shape_len : (total_frames s + 31) / 32 <= Z.of_nat (length (bitmap s));
}.

(** The cached counter is the number of free frames. *)
Record inv (s : state) : Prop := {
  inv_shape : shape s;
  inv_count : free_frames s = Z.of_nat (size (free_set s));
}.

Lemma elem_of_free_set s f :
  f ∈ free_set s <-> 0 <= f < total_frames s /\ is_free s f = true.
Proof.
  unfold free_set. rewrite elem_of_list_to_set, list_elem_of_filter, elem_of_seqZ.
  rewrite Z.add_0_l. tauto.
Qed.

Lemma free_set_bound s : Z.of_nat (size (free_set s)) <= Z.max 0 (total_frames s).
Proof.
  transitivity (Z.of_nat (size (list_to_set (C := gset Z) (seqZ 0 (total_frames s))))).
  - apply inj_le, subseteq_size. intros f Hf. apply elem_of_free_set in Hf.
    apply elem_of_list_to_set, elem_of_seqZ. lia.
  - rewrite size_list_to_set by apply NoDup_seqZ. rewrite length_seqZ. lia.
Qed.

(** ** Single frames *)

Lemma frame_index s f :
  shape s -> 0 <= f < total_frames s ->
  0 <= f / 32 < Z.of_nat (length (bitmap s)) /\ 0 <= f mod 32 < 32.
Proof. intros [_ Ht Hl] Hf. Z.div_mod_to_equations. lia. Qed.

Lemma get_word s f :
  shape s -> 0 <= f < total_frames s ->
  arr_get (bitmap s) (f / 32) = Ok (bitmap s !!! Z.to_nat (f / 32)) /\
  is_u32 (bitmap s !!! Z.to_nat (f / 32)).
Proof.
  intros Hs Hf. destruct (frame_index s f Hs Hf) as [Hi _].
  destruct (lookup_lt_is_Some_2 (bitmap s) (Z.to_nat (f / 32))) as [w Hw]; [lia|].
  rewrite (list_lookup_total_correct _ _ _ Hw). split.
  - apply arr_get_Ok. split; [lia | done].
  - eapply Forall_lookup_1; [apply Hs | exact Hw].
Qed.

Lemma TestBit_spec s f :
  shape s -> 0 <= f < total_frames s -> TestBit s f = Ok (negb (is_free s f)).
Proof.
  intros Hs Hf. destruct (get_word s f Hs Hf) as [E _].
  destruct (frame_index s f Hs Hf) as [_ Hm].
  unfold TestBit, is_free. rewrite E; cbn.
  rewrite shiftl_1_u32, land_pow2_eqb by lia. by destruct (Z.testbit _ _).
Qed.

(** Replacing the word of frame [f] by one that differs at [f]'s bit only. *)
Lemma put_word s f w' b :
  shape s -> 0 <= f < total_frames s -> is_u32 w' ->
  (forall i, 0 <= i < 32 ->
     Z.testbit w' i = if decide (i = f mod 32) then negb b
                      else Z.testbit (bitmap s !!! Z.to_nat (f / 32)) i) ->
  exists bm, arr_set (bitmap s) (f / 32) w' = Ok bm /\
    shape (set_bitmap s bm) /\
    forall g, 0 <= g -> is_free (set_bitmap s bm) g = if decide (g = f) then b else is_free s g.
Proof.
  intros Hs Hf Hw Hbits. destruct (frame_index s f Hs Hf) as [Hi Hm].
  eexists. split; [by apply arr_set_in_range|]. split.
  - destruct Hs. split; cbn; [|done|by rewrite length_insert].
    by apply Forall_insert.
  - intros g Hg. unfold is_free. cbn.
    destruct (decide (g / 32 = f / 32)) as [E|E].
    + rewrite E, list_lookup_total_insert_eq by lia.
      rewrite Hbits by (Z.div_mod_to_equations; lia).
      destruct (decide (g mod 32 = f mod 32)) as [E'|E'].
      * rewrite decide_True by (Z.div_mod_to_equations; lia).
        by destruct b.
      * rewrite decide_False by (intros ->; lia). done.
    + rewrite list_lookup_total_insert_ne by (Z.div_mod_to_equations; lia).
      rewrite decide_False by (intros ->; lia). done.
Qed.

Lemma SetBit_spec s f :
  shape s -> 0 <= f < total_frames s ->
  exists s', SetBit s f = Ok s' /\ shape s' /\
    total_frames s' = total_frames s /\ free_frames s' = free_frames s /\
    free_set s' = free_set s ∖ {[ f ]}.
Proof.
  intros Hs Hf. destruct (get_word s f Hs Hf) as [E Hw].
  destruct (frame_index s f Hs Hf) as [Hi Hm].
  set (w := bitmap s !!! Z.to_nat (f / 32)) in *.
  destruct (put_word s f (Z.lor w (u32 (Z.shiftl 1 (f mod 32)))) false)
    as (bm & Hset & Hsh & Hfree); auto with layla.
  { intros i Hib. rewrite shiftl_1_u32, Z.lor_spec by lia. case_decide.
    - subst i. rewrite Z.pow2_bits_true by lia. apply orb_true_r.
    - rewrite Z.pow2_bits_false by lia. apply orb_false_r. }
  exists (set_bitmap s bm). unfold SetBit. rewrite E; cbn. rewrite Hset; cbn.
  repeat (split; [done|]). apply leibniz_equiv. intros g.
  rewrite elem_of_difference, elem_of_singleton, !elem_of_free_set. cbn.
  split.
  - intros [Hg Hfg]. rewrite Hfree in Hfg by lia. case_decide; naive_solver.
  - intros [[Hg Hfg] Hne]. rewrite Hfree, decide_False by (done || lia). done.
Qed.

Lemma ClearBit_spec s f :
  shape s -> 0 <= f < total_frames s ->
  exists s', ClearBit s f = Ok s' /\ shape s' /\
    total_frames s' = total_frames s /\ free_frames s' = free_frames s /\
    free_set s' = {[ f ]} ∪ free_set s.
Proof.
  intros Hs Hf. destruct (get_word s f Hs Hf) as [E Hw].
  destruct (frame_index s f Hs Hf) as [Hi Hm].
  set (w := bitmap s !!! Z.to_nat (f / 32)) in *.
  destruct (put_word s f (Z.land w (not32 (u32 (Z.shiftl 1 (f mod 32))))) true)
    as (bm & Hset & Hsh & Hfree); [done | done | | |].
  { apply land_u32; [done|]. apply u32_bounds. }
  { intros i Hib. rewrite shiftl_1_u32, Z.land_spec, testbit_not32 by lia. case_decide.
    - subst i. rewrite Z.pow2_bits_true by lia. apply andb_false_r.
    - rewrite Z.pow2_bits_false by lia. apply andb_true_r. }
  exists (set_bitmap s bm). unfold ClearBit. rewrite E; cbn. rewrite Hset; cbn.
  repeat (split; [done|]). apply leibniz_equiv. intros g.
  rewrite elem_of_union, elem_of_singleton, !elem_of_free_set. cbn.
  split.
  - intros [Hg Hfg]. rewrite Hfree in Hfg by lia. case_decide; naive_solver.
  - intros [->|[Hg Hfg]].
    + rewrite Hfree, decide_True by (done || lia). done.
    + rewrite Hfree by lia. case_decide; naive_solver.
Qed.

(** ** The search for a free frame *)

Lemma first_bit_spec n b inv i total :
  0 <= b -> b + Z.of_nat n <= 32 -> 0 <= i < 2 ^ 20 ->
  match first_bit n b inv i total with
  | Some f => exists c, b <= c < b + Z.of_nat n /\ f = i * 32 + c /\ f < total /\
      Z.testbit inv c = true /\ (forall d, b <= d < c -> i * 32 + d < total ->
                                  Z.testbit inv d = false)
  | None => forall d, b <= d < b + Z.of_nat n -> i * 32 + d < total ->
              Z.testbit inv d = false
  end.
Proof.
  revert b. induction n as [|n IH]; intros b Hb Hn Hi; [cbn; intros; lia|].
  cbn [first_bit]. rewrite shiftl_1_u32, land_pow2_eqb, negb_involutive by lia.
  specialize (IH (b + 1) ltac:(lia) ltac:(lia) Hi).
  assert (Hu : u32 (i * 32 + b) = i * 32 + b) by (apply u32_small; zify_words; lia).
  assert (Hskip : (i * 32 + b < total -> Z.testbit inv b = false) ->
    match first_bit n (b + 1) inv i total with
    | Some f => exists c, b <= c < b + Z.of_nat (S n) /\ f = i * 32 + c /\ f < total /\
        Z.testbit inv c = true /\ (forall d, b <= d < c -> i * 32 + d < total ->
                                    Z.testbit inv d = false)
    | None => forall d, b <= d < b + Z.of_nat (S n) -> i * 32 + d < total ->
                Z.testbit inv d = false
    end).
  { intros Hbit. destruct (first_bit n (b + 1) inv i total) as [f|].
    - destruct IH as (c & Hc & Hf & Hft & Hbc & Hd). exists c.
      repeat (split; [done || lia|]). intros d Hd1 Hd2.
      destruct (decide (d = b)) as [->|]; [by apply Hbit | apply Hd; lia].
    - intros d Hd1 Hd2.
      destruct (decide (d = b)) as [->|]; [by apply Hbit | apply IH; lia]. }
  destruct (Z.testbit inv b) eqn:Hbit; cbn; [|by apply Hskip].
  rewrite Hu. destruct (Z.ltb_spec (i * 32 + b) total); [|apply Hskip; lia].
  exists b. repeat (split; [done || lia|]). intros; lia.
Qed.

Lemma is_free_word s i b :
  0 <= b < 32 -> is_free s (i * 32 + b) = negb (Z.testbit (bitmap s !!! Z.to_nat i) b).
Proof.
  intros Hb. unfold is_free.
  replace ((i * 32 + b) / 32) with i by (Z.div_mod_to_equations; lia).
  by replace ((i * 32 + b) mod 32) with b by (Z.div_mod_to_equations; lia).
Qed.

Definition found (s : state) (lo r : Z) : Prop :=
  (r = -1 /\ forall f, lo <= f < total_frames s -> is_free s f = false) \/
  (lo <= r < total_frames s /\ is_free s r = true /\
   forall f, lo <= f < r -> is_free s f = false).

Lemma first_word_spec s n i :
  shape s -> 0 <= i -> i + Z.of_nat n = (total_frames s + 31) / 32 ->
  exists r, first_word n i s = Ok r /\ found s (i * 32) r.
Proof.
  intros Hs. revert i. induction n as [|n IH]; intros i Hi Hn.
  { exists (-1). split; [done|]. left. split; [done|]. intros f Hf.
    exfalso. revert Hn Hf. Z.div_mod_to_equations. lia. }
  pose proof Hs as [_ Ht Hlen]. change (2 ^ 20) with 1048576 in Ht.
  assert (Hi20 : 0 <= i < 2 ^ 20) by (change (2 ^ 20) with 1048576; Z.div_mod_to_equations; lia).
  assert (Hfi : 0 <= i * 32 < total_frames s) by (Z.div_mod_to_equations; lia).
  destruct (get_word s (i * 32) Hs Hfi) as [Hw Hu].
  rewrite Z.div_mul in Hw, Hu by lia. set (w := bitmap s !!! Z.to_nat i) in *.
  assert (Hnext : (forall b, 0 <= b < 32 -> i * 32 + b < total_frames s ->
                     is_free s (i * 32 + b) = false) ->
                  exists r, first_word n (i + 1) s = Ok r /\ found s (i * 32) r).
  { intros Hb. destruct (IH (i + 1)) as (r & Hr & Hfound); [lia|lia|].
    assert (Hlow : forall f, i * 32 <= f < (i + 1) * 32 -> f < total_frames s ->
                     is_free s f = false).
    { intros f Hf Hft. replace f with (i * 32 + (f - i * 32)) by lia. apply Hb; lia. }
    exists r. split; [done|]. destruct Hfound as [[-> Hall]|(Hr' & Hfr & Hall)].
    - left. split; [done|]. intros f Hf.
      destruct (decide (f < (i + 1) * 32)); [apply Hlow | apply Hall]; lia.
    - right. split; [lia|]. split; [done|]. intros f Hf.
      destruct (decide (f < (i + 1) * 32)); [apply Hlow | apply Hall]; lia. }
  cbn [first_word]. rewrite Hw, result_bind_Ok.
  destruct (Z.eqb_spec w 0xFFFFFFFF) as [Ew|Ew]; cbn [negb].
  - apply Hnext. intros b Hb _. rewrite is_free_word by done. fold w. rewrite Ew.
    change 0xFFFFFFFF with (Z.ones 32). by rewrite Z.ones_spec_low.
  - pose proof (first_bit_spec 32 0 (not32 w) i (total_frames s)
      ltac:(lia) ltac:(lia) Hi20) as Hfb.
    destruct (first_bit 32 0 (not32 w) i (total_frames s)) as [f|].
    + destruct Hfb as (c & Hc & -> & Hft & Hbit & Hlow).
      exists (i * 32 + c). split.
      { f_equal. unfold i32. rewrite Z.mod_small; zify_words; lia. }
      right. split; [lia|]. rewrite testbit_not32 in Hbit by lia. split.
      * rewrite is_free_word by lia. done.
      * intros f Hf. replace f with (i * 32 + (f - i * 32)) by lia.
        rewrite is_free_word by lia. rewrite <- testbit_not32 by lia.
        apply Hlow; lia.
    + apply Hnext. intros b Hb Hbt. rewrite is_free_word by done.
      rewrite <- testbit_not32 by lia. apply Hfb; lia.
Qed.

Lemma dwords_small s :
  shape s -> u32 (total_frames s + 31) / 32 = (total_frames s + 31) / 32.
Proof.
  intros [_ Ht _]. rewrite u32_small; [done|].
  change (2 ^ 20) with 1048576 in Ht. zify_words. lia.
Qed.

Lemma FirstFree_spec s :
  shape s -> exists r, FirstFree s = Ok r /\ found s 0 r.
Proof.
  intros Hs. unfold FirstFree. rewrite dwords_small by done.
  pose proof (shape_total s Hs).
  apply (first_word_spec s _ 0 Hs); Z.div_mod_to_equations; lia.
Qed.

(** ** The operations on the set of free frames *)

Lemma inv_set_free s n :
  shape s -> n = Z.of_nat (size (free_set s)) -> inv (set_free_frames s n).
Proof. intros [] ->. split; [by split | done]. Qed.

Lemma size_remove (X : gset Z) f : f ∈ X -> Z.of_nat (size (X ∖ {[f]})) = Z.of_nat (size X) - 1.
Proof.
  intros Hf. pose proof (size_union_alt {[f]} (X ∖ {[f]})) as E.
  rewrite <- union_difference_L in E by set_solver.
  rewrite difference_twice_L, size_singleton in E. lia.
Qed.

Lemma size_add (X : gset Z) f : f ∉ X -> Z.of_nat (size ({[f]} ∪ X)) = Z.of_nat (size X) + 1.
Proof. intros Hf. rewrite size_union, size_singleton by set_solver. lia. Qed.

Lemma inv_u32 s : inv s -> 0 <= free_frames s <= 2 ^ 20.
Proof.
  intros [[_ Ht _] ->]. pose proof (free_set_bound s). lia.
Qed.

(** Allocation is "take the least element of the set of free
    frames": with the invariant, [AllocFrame] never faults; it returns 0 and
    changes nothing exactly when no frame is free, and otherwise returns the
    address of the least free frame, removes that frame from the set and keeps
    the cached counter exact. *)
Lemma AllocFrame_refines s :
  inv s ->
  (free_set s = ∅ /\ AllocFrame s = Ok (0, s)) \/
  (exists f s', AllocFrame s = Ok (f * 4096, s') /\
     f ∈ free_set s /\ (forall g, g ∈ free_set s -> f <= g) /\
     free_set s' = free_set s ∖ {[ f ]} /\
     total_frames s' = total_frames s /\ inv s').
Proof.
  intros Hinv. pose proof (inv_u32 s Hinv) as Hu. destruct Hinv as [Hs Hc].
  unfold AllocFrame. destruct (FirstFree_spec s Hs) as (r & -> & Hfound). cbn.
  destruct Hfound as [[-> Hall]|(Hr & Hfr & Hmin)].
  - left. split; [|done]. apply leibniz_equiv. intros f.
    rewrite elem_of_free_set. split; [|set_solver].
    intros [Hf Hfree]. rewrite Hall in Hfree; [done | lia].
  - right. assert (Hin : r ∈ free_set s) by (by apply elem_of_free_set).
    destruct (SetBit_spec s r Hs Hr) as (s' & Hset & Hs' & Ht & Hff & Hfs).
    destruct (Z.ltb_spec r 0); [lia|]. rewrite Hset; cbn.
    pose proof (size_remove _ _ Hin). rewrite Hff.
    destruct (Z.gtb_spec (free_frames s) 0) as [Hpos|Hpos].
    2: lia.
    exists r. eexists. split.
    { repeat f_equal. apply u32_small. pose proof (shape_total s Hs).
      change (2 ^ 20) with 1048576 in *. zify_words. lia. }
    split; [done|]. split.
    { intros g Hg. apply elem_of_free_set in Hg as [Hg Hgf].
      destruct (Z.le_gt_cases r g); [done|]. rewrite Hmin in Hgf; [done | lia]. }
    split; [done|]. split; [done|]. apply inv_set_free; [done|].
    rewrite Hfs. lia.
Qed.

Lemma FreeFrame_acts s addr :
  inv s -> 0 <= addr / 4096 < total_frames s ->
  exists s', FreeFrame s addr = Ok s' /\ shape s' /\
    free_set s' = {[ addr / 4096 ]} ∪ free_set s /\
    total_frames s' = total_frames s /\ free_frames s' = free_frames s + 1.
Proof.
  intros Hinv Hf. pose proof (inv_u32 s Hinv) as Hu. destruct Hinv as [Hs Hc].
  destruct (ClearBit_spec s _ Hs Hf) as (s' & Hclr & Hs' & Ht & Hff & Hfs).
  unfold FreeFrame. rewrite Hclr; cbn. eexists. split; [done|].
  split; [by destruct Hs'|]. split; [done|]. split; [done|]. cbn. rewrite Hff.
  apply u32_small. change (2 ^ 20) with 1048576 in Hu. zify_words. lia.
Qed.

(** Releasing a frame that is in use adds exactly that frame to the set of
    free frames and keeps the counter exact, so a later allocation may return
    it; no other frame changes. *)
Lemma FreeFrame_refines s addr :
  inv s -> 0 <= addr / 4096 < total_frames s -> addr / 4096 ∉ free_set s ->
  exists s', FreeFrame s addr = Ok s' /\
    free_set s' = {[ addr / 4096 ]} ∪ free_set s /\
    total_frames s' = total_frames s /\ inv s'.
Proof.
  intros Hinv Hf Hused.
  destruct (FreeFrame_acts s addr Hinv Hf) as (s' & -> & Hs' & Hfs & Ht & Hff).
  exists s'. do 4 (split; [done|]).
  rewrite Hff, Hfs, size_add by done. destruct Hinv. lia.
Qed.

(** [FreeFrame] does not look at the bit it clears: releasing a frame that
    is already free leaves the set of free frames alone but still increments the
    counter, which then exceeds the number of free frames. *)
Theorem FreeFrame_double_free s addr :
  inv s -> addr / 4096 ∈ free_set s ->
  exists s', FreeFrame s addr = Ok s' /\ free_set s' = free_set s /\
    FreeFrameCount s' = Z.of_nat (size (free_set s')) + 1.
Proof.
  intros Hinv Hin. pose proof Hin as [Hf _]%elem_of_free_set.
  destruct (FreeFrame_acts s addr Hinv Hf) as (s' & -> & Hs' & Hfs & Ht & Hff).
  assert (E : free_set s' = free_set s) by set_solver.
  exists s'. repeat (split; [done|]). unfold FreeFrameCount.
  rewrite Hff, E. destruct Hinv. lia.
Qed.

(** The set of frames [lo .. hi-1]. *)
Definition frames (lo hi : Z) : gset Z := list_to_set (seqZ lo (hi - lo)).

Lemma elem_of_frames lo hi f : f ∈ frames lo hi <-> lo <= f < hi.
Proof. unfold frames. rewrite elem_of_list_to_set, elem_of_seqZ. lia. Qed.

Lemma frames_snoc lo i : lo <= i -> frames lo (i + 1) = {[ i ]} ∪ frames lo i.
Proof.
  intros H. apply leibniz_equiv. intros f.
  rewrite elem_of_union, elem_of_singleton, !elem_of_frames. lia.
Qed.

Lemma frames_empty lo hi : hi <= lo -> frames lo hi = ∅.
Proof. intros H. apply leibniz_equiv. intros f. rewrite elem_of_frames. set_solver by lia. Qed.

(** A loop over frames that performs one set operation per frame. *)
Lemma frame_loop s lo hi (body : Z -> state -> result state)
    (act : gset Z -> gset Z -> gset Z) :
  inv s -> 0 <= lo ->
  act ∅ (free_set s) = free_set s ->
  (forall i s1, inv s1 -> total_frames s1 = total_frames s ->
     lo <= i < Z.min hi (total_frames s) ->
     free_set s1 = act (frames lo i) (free_set s) ->
     exists s2, body i s1 = Ok s2 /\ inv s2 /\ total_frames s2 = total_frames s /\
       free_set s2 = act ({[ i ]} ∪ frames lo i) (free_set s)) ->
  exists s', for_result lo (Z.min hi (total_frames s)) body s = Ok s' /\ inv s' /\
    total_frames s' = total_frames s /\
    free_set s' = act (frames lo (Z.min hi (total_frames s))) (free_set s).
Proof.
  intros Hinv Hlo Hact Hbody. set (e := Z.min hi (total_frames s)).
  destruct (decide (lo <= e)) as [Hle|Hgt].
  - destruct (for_result_inv (fun i s1 => inv s1 /\ total_frames s1 = total_frames s /\
        free_set s1 = act (frames lo i) (free_set s)) lo e body s) as (s' & E & H); [done| |..].
    + rewrite frames_empty by lia. by rewrite Hact.
    + intros i s1 Hi (H1 & H2 & H3).
      destruct (Hbody i s1) as (s2 & -> & H4 & H5 & H6); [done..|].
      exists s2. rewrite frames_snoc by lia. done.
    + exists s'. by destruct H as (? & ? & ?).
  - exists s. unfold for_result. rewrite seqZ_nil by lia.
    rewrite frames_empty by lia. by rewrite Hact.
Qed.

(** [MarkFree] adds to the set of free frames exactly the existing frames
    numbered from [addr / 4096] to [(addr + length) / 4096 - 1], frames already
    free included, and keeps the counter exact. *)
Lemma MarkFree_refines s addr length :
  inv s -> is_u32 addr -> 0 <= length -> is_u32 (addr + length) ->
  exists s', MarkFree s addr length = Ok s' /\ inv s' /\
    total_frames s' = total_frames s /\
    free_set s' = frames (addr / 4096) (Z.min ((addr + length) / 4096) (total_frames s))
                  ∪ free_set s.
Proof.
  intros Hinv Ha Hl Hal. unfold MarkFree. rewrite u32_small by done.
  apply (frame_loop s _ _ _ (fun X Y => X ∪ Y));
    [done | zify_words; apply Z.div_pos; lia | set_solver |].
  intros i s1 Hi1 Ht Hi Hfs. pose proof (inv_u32 s1 Hi1) as Hu. destruct Hi1 as [Hs1 Hc].
  assert (Hir : 0 <= i < total_frames s1) by (zify_words; Z.div_mod_to_equations; lia).
  rewrite TestBit_spec by done. cbn [mbind result_bind].
  destruct (is_free s1 i) eqn:Hfree; cbn [negb].
  - destruct (ClearBit_spec s1 i Hs1 Hir) as (s2 & -> & Hs2 & Ht2 & Hff & Hfs2).
    assert (i ∈ free_set s1) by (by apply elem_of_free_set).
    assert (E : free_set s2 = free_set s1) by set_solver.
    exists s2. split; [done|]. split; [split; [done | congruence]|]. split; [congruence | set_solver].
  - assert (Hs1' : shape (set_free_frames s1 (u32 (free_frames s1 + 1)))) by (by destruct Hs1).
    destruct (ClearBit_spec _ i Hs1' Hir) as (s2 & -> & Hs2 & Ht2 & Hff & Hfs2).
    assert (i ∉ free_set s1) by (rewrite elem_of_free_set; intros []; congruence).
    exists s2. change (free_set (set_free_frames _ _)) with (free_set s1) in Hfs2.
    change (2 ^ 20) with 1048576 in Hu.
    split; [done|]. split; [split; [done|]|by rewrite Ht2; split; [|set_solver]].
    rewrite Hff, Hfs2, size_add by done. cbn. rewrite u32_small by (zify_words; lia). lia.
Qed.

(** [MarkUsed] removes from the set of free frames every frame the byte
    range touches (the end is rounded up) and keeps the counter exact. *)
Lemma MarkUsed_refines s addr length :
  inv s -> is_u32 addr -> 0 <= length -> is_u32 (addr + length + 4095) ->
  exists s', MarkUsed s addr length = Ok s' /\ inv s' /\
    total_frames s' = total_frames s /\
    free_set s' = free_set s ∖
      frames (addr / 4096) (Z.min ((addr + length + 4095) / 4096) (total_frames s)).
Proof.
  intros Hinv Ha Hl Hal. unfold MarkUsed. rewrite u32_small by done.
  apply (frame_loop s _ _ _ (fun X Y => Y ∖ X));
    [done | zify_words; apply Z.div_pos; lia | set_solver |].
  intros i s1 Hi1 Ht Hi Hfs. pose proof (inv_u32 s1 Hi1) as Hu. destruct Hi1 as [Hs1 Hc].
  assert (Hir : 0 <= i < total_frames s1) by (zify_words; Z.div_mod_to_equations; lia).
  rewrite TestBit_spec by done. cbn [mbind result_bind]. rewrite negb_involutive.
  destruct (is_free s1 i) eqn:Hfree.
  - assert (Hin : i ∈ free_set s1) by (by apply elem_of_free_set).
    pose proof (size_remove _ _ Hin) as Hsz. cbn [andb].
    destruct (Z.gtb_spec (free_frames s1) 0) as [Hp|Hp].
    2: lia.
    assert (Hs1' : shape (set_free_frames s1 (free_frames s1 - 1))) by (by destruct Hs1).
    destruct (SetBit_spec _ i Hs1' Hir) as (s2 & -> & Hs2 & Ht2 & Hff & Hfs2).
    change (free_set (set_free_frames _ _)) with (free_set s1) in Hfs2.
    exists s2. split; [done|].
    split; [split; [done|]|by rewrite Ht2; split; [|set_solver]].
    rewrite Hff, Hfs2. cbn. lia.
  - cbn [andb]. destruct (SetBit_spec s1 i Hs1 Hir) as (s2 & -> & Hs2 & Ht2 & Hff & Hfs2).
    assert (i ∉ free_set s1) by (rewrite elem_of_free_set; intros []; congruence).
    assert (E : free_set s2 = free_set s1) by set_solver.
    exists s2. split; [done|]. split; [split; [done | congruence]|]. split; [congruence | set_solver].
Qed.

(** ** The abstract allocator and the refinement

    The specification keeps only the number of frames and the set of free
    frames. *)

Inductive op :=
  | OpAlloc
  | OpFree (addr : Z)
  | OpMarkUsed (addr length : Z)
  | OpMarkFree (addr length : Z).

(** Least element of a set of frames below [total]. *)
Definition least (total : Z) (X : gset Z) : option Z :=
  head (filter (fun f => f ∈ X) (seqZ 0 total)).

Definition spec_step (total : Z) (o : op) (X : gset Z) : Z * gset Z :=
  match o with
  | OpAlloc =>
      match least total X with
      | None => (0, X)
      | Some f => (f * 4096, X ∖ {[ f ]})
      end
  | OpFree addr => (0, {[ addr / 4096 ]} ∪ X)
  | OpMarkUsed addr len =>
      (0, X ∖ frames (addr / 4096) (Z.min ((addr + len + 4095) / 4096) total))
  | OpMarkFree addr len =>
      (0, frames (addr / 4096) (Z.min ((addr + len) / 4096) total) ∪ X)
  end.

(** What a caller may ask: no double free, no address outside the machine. *)
Definition allowed (total : Z) (o : op) (X : gset Z) : Prop :=
  match o with
  | OpAlloc => True
  | OpFree addr => 0 <= addr / 4096 < total /\ addr / 4096 ∉ X
  | OpMarkUsed addr len => is_u32 addr /\ 0 <= len /\ is_u32 (addr + len + 4095)
  | OpMarkFree addr len => is_u32 addr /\ 0 <= len /\ is_u32 (addr + len)
  end.

Definition impl_step (o : op) (s : state) : result (Z * state) :=
  match o with
  | OpAlloc => AllocFrame s
  | OpFree addr => s ← FreeFrame s addr; Ok (0, s)
  | OpMarkUsed addr len => s ← MarkUsed s addr len; Ok (0, s)
  | OpMarkFree addr len => s ← MarkFree s addr len; Ok (0, s)
  end.

Fixpoint spec_run (total : Z) (os : list op) (X : gset Z) : list Z * gset Z :=
  match os with
  | [] => ([], X)
  | o :: os =>
      let '(r, X) := spec_step total o X in
      let '(rs, X) := spec_run total os X in (r :: rs, X)
  end.

Fixpoint allowed_run (total : Z) (os : list op) (X : gset Z) : Prop :=
  match os with
  | [] => True
  | o :: os => allowed total o X /\ allowed_run total os (spec_step total o X).2
  end.

Fixpoint impl_run (os : list op) (s : state) : result (list Z * state) :=
  match os with
  | [] => Ok ([], s)
  | o :: os =>
      '(r, s) ← impl_step o s;
      '(rs, s) ← impl_run os s;
      Ok (r :: rs, s)
  end.

Lemma least_unique total X f :
  0 <= f < total -> f ∈ X -> (forall g, g ∈ X -> f <= g) -> least total X = Some f.
Proof.
  intros Hf Hin Hmin. unfold least.
  replace total with (f + (total - f)) by lia.
  rewrite seqZ_app, filter_app by lia.
  replace (filter (fun g => g ∈ X) (seqZ 0 f)) with (@nil Z).
  - rewrite Z.add_0_l, seqZ_cons by lia. cbn. by rewrite decide_True.
  - symmetry. apply filter_none.
    intros g Hg Hg'. apply elem_of_seqZ in Hg. apply Hmin in Hg'. lia.
Qed.

Lemma least_empty total : least total ∅ = None.
Proof.
  unfold least. rewrite filter_none; [done|]. set_solver.
Qed.

Lemma step_refines o s :
  inv s -> allowed (total_frames s) o (free_set s) ->
  exists s', impl_step o s = Ok ((spec_step (total_frames s) o (free_set s)).1, s') /\
    free_set s' = (spec_step (total_frames s) o (free_set s)).2 /\
    total_frames s' = total_frames s /\ inv s'.
Proof.
  intros Hinv. destruct o as [|addr|addr len|addr len]; cbn.
  - intros _. destruct (AllocFrame_refines s Hinv)
      as [[E ->]|(f & s' & -> & Hin & Hmin & Hfs & Ht & Hinv')].
    + exists s. rewrite !E, least_empty. done.
    + exists s'. rewrite (least_unique _ _ f); [done | | done | done].
      by apply elem_of_free_set in Hin as [? _].
  - intros [Hf Hu]. destruct (FreeFrame_refines s addr Hinv Hf Hu) as (s' & -> & Hfs & Ht & Hi).
    by exists s'.
  - intros (Ha & Hl & Hal).
    destruct (MarkUsed_refines s addr len Hinv Ha Hl Hal) as (s' & -> & Hi & Ht & Hfs).
    by exists s'.
  - intros (Ha & Hl & Hal).
    destruct (MarkFree_refines s addr len Hinv Ha Hl Hal) as (s' & -> & Hi & Ht & Hfs).
    by exists s'.
Qed.

(** C3: The bitmap allocator implements the abstract frame allocator.  From any
    state with the invariant, every allowed sequence of allocations (which take
    the least free frame, or 0 when none is left), releases and range markings
    runs without an access outside the bitmap, returns the addresses the
    specification returns, ends with the specification's set of free frames and
    keeps the cached counter equal to its size. *)
Theorem pmm_refines_spec os s :
  inv s -> allowed_run (total_frames s) os (free_set s) ->
  exists s', impl_run os s = Ok ((spec_run (total_frames s) os (free_set s)).1, s') /\
    free_set s' = (spec_run (total_frames s) os (free_set s)).2 /\
    FreeFrameCount s' = Z.of_nat (size (free_set s')) /\ inv s'.
Proof.
  revert s. induction os as [|o os IH]; intros s Hinv Hal; cbn.
  - exists s. split; [done|]. split; [done|]. split; [apply Hinv | done].
  - destruct Hal as [Ho Hos].
    destruct (step_refines o s Hinv Ho) as (s1 & -> & Hfs & Ht & Hinv1). cbn.
    rewrite <- Hfs, <- Ht in Hos. destruct (IH s1 Hinv1 Hos) as (s' & -> & Hfs' & Hc & Hinv').
    cbn. rewrite Hfs, Ht in Hfs'. rewrite Hfs, Ht.
    destruct (spec_step _ _ _) as [r X]. cbn in *.
    destruct (spec_run _ _ _) as [rs X']. cbn in *. by exists s'.
Qed.

(** A machine of four frames with frames 1 and 3 free. *)
Definition sample : state := mkPmm [0xFFFFFFF5] 4 2.

Lemma sample_inv : inv sample.
Proof.
  split.
  - split; [|vm_compute; split; discriminate|vm_compute; discriminate].
    repeat constructor; vm_compute; (discriminate || reflexivity).
  - vm_compute. reflexivity.
Qed.

Lemma pmm_refines_spec_witness :
  exists s', impl_run [OpAlloc; OpAlloc; OpAlloc; OpFree 4096; OpAlloc] sample
               = Ok ([4096; 12288; 0; 0; 4096], s') /\ free_set s' = ∅.
Proof.
  destruct (pmm_refines_spec [OpAlloc; OpAlloc; OpAlloc; OpFree 4096; OpAlloc] sample)
    as (s' & E & Hfs & _); [apply sample_inv | vm_compute; intuition discriminate |].
  exists s'. split; [exact E | exact Hfs].
Defined.

Lemma FreeFrame_double_free_witness :
  exists s', FreeFrame sample 4096 = Ok s' /\ free_set s' = free_set sample /\
    FreeFrameCount s' = Z.of_nat (size (free_set s')) + 1.
Proof.
  apply (FreeFrame_double_free sample 4096 sample_inv). vm_compute. reflexivity.
Defined.

(** [Init] is memory safe and marks everything used: with the kernel's
    32768-word [pmm_bitmap] and any 32-bit memory size, every word written is
    inside the array, no frame is free afterwards and the invariant holds. *)
Theorem Init_safe base mem_size :
  length base = Z.to_nat 32768 -> Forall is_u32 base -> is_u32 mem_size ->
  exists s, Init base mem_size = Ok s /\ inv s /\ free_set s = ∅ /\
    TotalFrameCount s = mem_size / 4096.
Proof.
  intros Hlen Hbase Hm. unfold Init.
  assert (Ht : 0 <= mem_size / 4096 < 1048576) by (zify_words; Z.div_mod_to_equations; lia).
  set (total := mem_size / 4096) in *.
  rewrite (u32_small (total + 31)) by (zify_words; lia).
  assert (Hd : 0 <= (total + 31) / 32 <= 32768) by (Z.div_mod_to_equations; lia).
  destruct (for_result_inv (fun i bm => length bm = length base /\ Forall is_u32 bm /\
      forall j, 0 <= j < i -> bm !!! Z.to_nat j = 0xFFFFFFFF)
    0 ((total + 31) / 32) (fun i bm => arr_set bm i 0xFFFFFFFF) base)
    as (bm & -> & Hl & Hw & Hall); [lia | | |].
  { split; [done|]. split; [done|]. lia. }
  { intros i bm Hi (Hl & Hw & Hall). eexists. split; [apply arr_set_in_range; lia|].
    rewrite length_insert. split; [done|]. split.
    - apply Forall_insert; [done | split; vm_compute; (discriminate || reflexivity)].
    - intros j Hj. destruct (decide (j = i)) as [->|].
      + apply list_lookup_total_insert_eq. lia.
      + rewrite list_lookup_total_insert_ne by lia. apply Hall. lia. }
  cbn. eexists. split; [done|].
  assert (Hfs : free_set (mkPmm bm total 0) = ∅).
  { apply leibniz_equiv. intros f. rewrite elem_of_free_set. cbn. split; [|set_solver].
    intros [Hf Hfree]. unfold is_free in Hfree. cbn in Hfree.
    rewrite Hall in Hfree by (Z.div_mod_to_equations; lia).
    change 0xFFFFFFFF with (Z.ones 32) in Hfree.
    rewrite Z.ones_spec_low in Hfree; [done|]. Z.div_mod_to_equations; lia. }
  split; [|done]. split.
  - split; cbn; [done | change (2 ^ 20) with 1048576; lia |]. rewrite Hl, Hlen. lia.
  - rewrite Hfs. done.
Qed.

Lemma Init_safe_witness :
  exists s, Init (replicate (Z.to_nat 32768) 0) 0x1000000 = Ok s /\ inv s /\
    free_set s = ∅ /\ TotalFrameCount s = 4096.
Proof.
  apply (Init_safe (replicate (Z.to_nat 32768) 0) 0x1000000).
  - apply length_replicate.
  - apply Forall_replicate. split; vm_compute; (discriminate || reflexivity).
  - split; vm_compute; (discriminate || reflexivity).
Defined.

End Pmm.

(** ** The interface the paging code relies on

    What the page-table code may assume of its source of frames, and the proof
    that the bitmap allocator provides it. *)

Class FrameAllocator (S : Type) := {
  fa_alloc : S -> result (Z * S);
  fa_free : S -> Z -> result S;
  fa_avail : S -> gset Z;          (** the numbers of the free frames *)
  fa_total : S -> Z;               (** the number of frames managed *)
  fa_ok : S -> Prop;
  fa_total_bound : forall s, fa_ok s -> fa_total s <= 2 ^ 20;
  fa_range : forall s f, fa_ok s -> f ∈ fa_avail s -> 0 <= f < fa_total s;
  fa_alloc_spec : forall s, fa_ok s ->
    (fa_avail s = ∅ /\ fa_alloc s = Ok (0, s)) \/
    (exists f s', fa_alloc s = Ok (f * 4096, s') /\ f ∈ fa_avail s /\
       fa_avail s' = fa_avail s ∖ {[ f ]} /\ fa_total s' = fa_total s /\ fa_ok s');
  fa_free_spec : forall s f, fa_ok s -> 0 <= f < fa_total s -> f ∉ fa_avail s ->
    exists s', fa_free s (f * 4096) = Ok s' /\ fa_avail s' = {[ f ]} ∪ fa_avail s /\
      fa_total s' = fa_total s /\ fa_ok s';
}.

Lemma pmm_total_bound s : Pmm.inv s -> Pmm.total_frames s <= 2 ^ 20.
Proof. intros Hs. apply (Pmm.shape_total s (Pmm.inv_shape s Hs)). Qed.

Lemma pmm_range s f : Pmm.inv s -> f ∈ Pmm.free_set s -> 0 <= f < Pmm.total_frames s.
Proof. intros Hs Hf. apply Pmm.elem_of_free_set in Hf. lia. Qed.

Lemma pmm_alloc_spec s :
  Pmm.inv s ->
  (Pmm.free_set s = ∅ /\ Pmm.AllocFrame s = Ok (0, s)) \/
  (exists f s', Pmm.AllocFrame s = Ok (f * 4096, s') /\ f ∈ Pmm.free_set s /\
     Pmm.free_set s' = Pmm.free_set s ∖ {[ f ]} /\
     Pmm.total_frames s' = Pmm.total_frames s /\ Pmm.inv s').
Proof.
  intros Hs. destruct (Pmm.AllocFrame_refines s Hs)
    as [?|(f & s' & ? & ? & _ & ? & ? & ?)]; [by left | right; by exists f, s'].
Qed.

Lemma pmm_free_spec s f :
  Pmm.inv s -> 0 <= f < Pmm.total_frames s -> f ∉ Pmm.free_set s ->
  exists s', Pmm.FreeFrame s (f * 4096) = Ok s' /\
    Pmm.free_set s' = {[ f ]} ∪ Pmm.free_set s /\
    Pmm.total_frames s' = Pmm.total_frames s /\ Pmm.inv s'.
Proof.
  intros Hs Hf Hn. pose proof (Pmm.FreeFrame_refines s (f * 4096) Hs) as H.
  rewrite Z.div_mul in H by lia. by apply H.
Qed.

#[export] Instance pmm_frame_allocator : FrameAllocator Pmm.state := {|
  fa_alloc := Pmm.AllocFrame;
  fa_free := Pmm.FreeFrame;
  fa_avail := Pmm.free_set;
  fa_total := Pmm.total_frames;
  fa_ok := Pmm.inv;
  fa_total_bound := pmm_total_bound;
  fa_range := pmm_range;
  fa_alloc_spec := pmm_alloc_spec;
  fa_free_spec := pmm_free_spec;
|}.
