(* ===== verification/Heap.v ===== *)
(** Kernel heap: src/src/memory/memorymanagement.cpp and allocator.cpp.

    [Heap.MemoryManager] is the class; the memory it manages is a map from an
    address to the [MemoryChunk] header stored there (the headers are the only
    bytes the code reads or writes).  Headers that a merge makes unreachable stay
    in memory, as in the code.  The abstract heap is the list of blocks in address
    order; [heap_inv] says that the doubly linked headers represent such a list,
    that the blocks tile the managed range without a gap, and that no two
    neighbours are both free. *)

From stdpp Require Import base numbers list gmap sets.
From Stdlib Require Import ZArith Lia.
From S2P Require Import Prelude.

Module Heap.

(** ** The code *)

Record MemoryChunk := mkChunk {
  prev : Z;
  next : Z;
  allocated : bool;
  csize : Z;
}.

(** [sizeof(MemoryChunk)]: two pointers, a [bool] and a [uint32_t], packed. *)
Definition sizeof_chunk : Z := 13.

Record MemoryManager := mkMM {
  first : Z;
  mem : gmap Z MemoryChunk;
}.

Definition load (m : MemoryManager) (a : Z) : result MemoryChunk :=
  match mem m !! a with Some c => Ok c | None => Err BadPointer end.

Definition store (m : MemoryManager) (a : Z) (c : MemoryChunk) : MemoryManager :=
  mkMM (first m) (<[a := c]> (mem m)).

(** [p->prev = v], [p->next = v], [p->allocated = v] and [p->size = v]. *)
Definition set_prev (m : MemoryManager) (a v : Z) : result MemoryManager :=
  c ← load m a; Ok (store m a (mkChunk v (next c) (allocated c) (csize c))).
Definition set_next (m : MemoryManager) (a v : Z) : result MemoryManager :=
  c ← load m a; Ok (store m a (mkChunk (prev c) v (allocated c) (csize c))).
Definition set_allocated (m : MemoryManager) (a : Z) (v : bool) : result MemoryManager :=
  c ← load m a; Ok (store m a (mkChunk (prev c) (next c) v (csize c))).
Definition set_size (m : MemoryManager) (a v : Z) : result MemoryManager :=
  c ← load m a; Ok (store m a (mkChunk (prev c) (next c) (allocated c) v)).

(** The constructor writes the first header over raw memory. *)
Definition MemoryManager_new (start size : Z) : MemoryManager :=
  mkMM start {[ start := mkChunk 0 0 false (u32 (size - sizeof_chunk)) ]}.

(** The body of the loop of [malloc] for a chunk that is taken. *)
Definition take_chunk (m : MemoryManager) (chunk size : Z) : result (Z * MemoryManager) :=
  c ← load m chunk;
  m ← (if csize c >? u32 (size + sizeof_chunk) then
         let new_chunk := u32 (chunk + sizeof_chunk + size) in
         let m := store m new_chunk
                    (mkChunk chunk (next c) false (u32 (csize c - size - sizeof_chunk))) in
         m ← (if next c =? 0 then Ok m else set_prev m (next c) new_chunk);
         m ← set_next m chunk new_chunk;
         set_size m chunk size
       else Ok m);
  m ← set_allocated m chunk true;
  Ok (u32 (chunk + sizeof_chunk), m).

(** The loop of [malloc] from [chunk] on. *)
Fixpoint malloc_from (fuel : nat) (m : MemoryManager) (chunk size : Z)
    : result (Z * MemoryManager) :=
  if chunk =? 0 then Ok (0, m)
  else match fuel with
       | O => Err OutOfFuel
       | S fuel =>
           c ← load m chunk;
           if allocated c || (csize c <? size) then malloc_from fuel m (next c) size
           else take_chunk m chunk size
       end.

Definition malloc (fuel : nat) (m : MemoryManager) (size : Z) : result (Z * MemoryManager) :=
  malloc_from fuel m (first m) size.

(** [free], in three steps: the flag, the merge with the next chunk, the merge
    with the previous one. *)
Definition merge_next (m : MemoryManager) (chunk : Z) : result MemoryManager :=
  c ← load m chunk;
  if next c =? 0 then Ok m
  else
    n ← load m (next c);
    if allocated n then Ok m
    else
      m ← set_size m chunk (u32 (csize c + (sizeof_chunk + csize n)));
      m ← set_next m chunk (next n);
      if next n =? 0 then Ok m else set_prev m (next n) chunk.

Definition merge_prev (m : MemoryManager) (chunk : Z) : result MemoryManager :=
  c ← load m chunk;
  if prev c =? 0 then Ok m
  else
    p ← load m (prev c);
    if allocated p then Ok m
    else
      m ← set_size m (prev c) (u32 (csize p + (sizeof_chunk + csize c)));
      m ← set_next m (prev c) (next c);
      if next c =? 0 then Ok m else set_prev m (next c) (prev c).

Definition free (m : MemoryManager) (ptr : Z) : result MemoryManager :=
  let chunk := u32 (ptr - sizeof_chunk) in
  m ← set_allocated m chunk false;
  m ← merge_next m chunk;
  merge_prev m chunk.

(** The global operators of allocator.cpp go through [active_memory_manager];
    [None] is the null pointer it starts as. *)
Definition operator_new (fuel : nat) (active : option MemoryManager) (size : Z)
    : result (Z * option MemoryManager) :=
  match active with
  | None => Err BadPointer
  | Some m => '(p, m) ← malloc fuel m size; Ok (p, Some m)
  end.

Definition operator_delete (active : option MemoryManager) (ptr : Z)
    : result (option MemoryManager) :=
  match active with
  | None => Err BadPointer
  | Some m => m ← free m ptr; Ok (Some m)
  end.

(** ** The abstract heap *)

Record block := mkBlock { baddr : Z; bsize : Z; bused : bool }.

#[global] Instance block_eq_dec : EqDecision block.
Proof. solve_decision. Defined.

(** Address of the first header of a list of blocks, [q] for none, and of the
    last one, [p] for none. *)
Definition head_addr (q : Z) (bs : list block) : Z :=
  match bs with [] => q | b :: _ => baddr b end.

Fixpoint last_addr (p : Z) (bs : list block) : Z :=
  match bs with [] => p | b :: bs => last_addr (baddr b) bs end.

(** The headers of [bs] are linked in both directions; [p] is the header before
    them and [q] the header after them. *)
Fixpoint chain (mm : gmap Z MemoryChunk) (p : Z) (bs : list block) (q : Z) : Prop :=
  match bs with
  | [] => True
  | b :: bs =>
      mm !! baddr b = Some (mkChunk p (head_addr q bs) (bused b) (bsize b)) /\
      chain mm (baddr b) bs q
  end.

(** The blocks, header and payload, tile [lo, hi). *)
Fixpoint tiles (lo hi : Z) (bs : list block) : Prop :=
  match bs with
  | [] => lo = hi
  | b :: bs => baddr b = lo /\ 0 <= bsize b /\ tiles (lo + sizeof_chunk + bsize b) hi bs
  end.

(** No two neighbours are both free. *)
Fixpoint coalesced (bs : list block) : Prop :=
  match bs with
  | b :: (b2 :: _) as bs' => (bused b || bused b2) = true /\ coalesced bs'
  | _ => True
  end.

Record heap_inv (lo hi : Z) (m : MemoryManager) (bs : list block) : Prop := {
  inv_lo : 0 < lo;
  inv_hi : hi < 2 ^ 32 - sizeof_chunk;
  inv_first : first m = lo;
  inv_some : bs <> [];
  inv_chain : chain (mem m) 0 bs 0;
  inv_tiles : tiles lo hi bs;
  inv_coalesced : coalesced bs;
}.

(** First-fit allocation on the list. *)
Fixpoint spec_malloc (n : Z) (bs : list block) : option (Z * list block) :=
  match bs with
  | [] => None
  | b :: bs =>
      if bused b || (bsize b <? n) then
        '(p, bs') ← spec_malloc n bs; Some (p, b :: bs')
      else if bsize b >? n + sizeof_chunk then
        Some (baddr b + sizeof_chunk,
              mkBlock (baddr b) n true ::
              mkBlock (baddr b + sizeof_chunk + n) (bsize b - n - sizeof_chunk) false :: bs)
      else Some (baddr b + sizeof_chunk, mkBlock (baddr b) (bsize b) true :: bs)
  end.

(** Merge every run of free neighbours. *)
Fixpoint coalesce (bs : list block) : list block :=
  match bs with
  | [] => []
  | b :: bs =>
      match coalesce bs with
      | [] => [b]
      | b2 :: r =>
          if bused b || bused b2 then b :: b2 :: r
          else mkBlock (baddr b) (bsize b + sizeof_chunk + bsize b2) false :: r
      end
  end.

Definition release (p : Z) (b : block) : block :=
  if baddr b + sizeof_chunk =? p then mkBlock (baddr b) (bsize b) false else b.

Definition spec_free (p : Z) (bs : list block) : list block :=
  coalesce (release p <$> bs).

(** [p] is the payload of a used block. *)
Definition live (p : Z) (bs : list block) : Prop :=
  exists b, b ∈ bs /\ bused b = true /\ baddr b + sizeof_chunk = p.

(** ** Lists of blocks *)

Lemma tiles_app lo hi l1 l2 :
  tiles lo hi (l1 ++ l2) <-> exists mid, tiles lo mid l1 /\ tiles mid hi l2.
Proof.
  revert lo. induction l1 as [|b l1 IH]; intros lo; cbn.
  - split; [intros H; by exists lo | by intros (? & <- & ?)].
  - rewrite IH. split.
    + intros (? & ? & mid & ? & ?). by exists mid.
    + intros (mid & (? & ? & ?) & ?). split; [done|]. split; [done|]. by exists mid.
Qed.

Lemma tiles_le lo hi bs : tiles lo hi bs -> lo <= hi.
Proof.
  revert lo. induction bs as [|b bs IH]; intros lo; cbn; [lia|].
  intros (<- & ? & H%IH). unfold sizeof_chunk in *. lia.
Qed.

Lemma tiles_bounds lo hi bs b :
  tiles lo hi bs -> b ∈ bs ->
  lo <= baddr b /\ 0 <= bsize b /\ baddr b + sizeof_chunk + bsize b <= hi.
Proof.
  revert lo. induction bs as [|b' bs IH]; intros lo; cbn; [set_solver|].
  intros (<- & Hs & Ht) [->|Hin]%elem_of_cons.
  - apply tiles_le in Ht. lia.
  - destruct (IH _ Ht Hin) as (? & ? & ?). unfold sizeof_chunk in *. lia.
Qed.

(** A block in the middle separates the blocks before it from those after it. *)
Lemma tiles_split lo hi l b r :
  tiles lo hi (l ++ b :: r) ->
  lo <= baddr b /\ 0 <= bsize b /\ baddr b + sizeof_chunk + bsize b <= hi /\
  tiles lo (baddr b) l /\ tiles (baddr b + sizeof_chunk + bsize b) hi r /\
  (forall x, x ∈ l -> lo <= baddr x /\ 0 <= bsize x /\ baddr x + sizeof_chunk + bsize x <= baddr b) /\
  (forall x, x ∈ r -> baddr b + sizeof_chunk + bsize b <= baddr x).
Proof.
  intros H. pose proof (tiles_bounds _ _ _ b H ltac:(set_solver)) as (? & ? & ?).
  apply tiles_app in H as (mid & Hl & <- & ? & Hr). do 5 (split; [done|]). split.
  - intros x Hx. by apply (tiles_bounds lo _ l).
  - intros x Hx. by destruct (tiles_bounds _ _ _ x Hr Hx) as (? & ? & ?).
Qed.

Lemma coalesced_cons b bs :
  coalesced (b :: bs) <->
  match bs with [] => True | b2 :: _ => (bused b || bused b2) = true end /\ coalesced bs.
Proof. destruct bs; cbn; tauto. Qed.

Lemma coalesced_app_r l r : coalesced (l ++ r) -> coalesced r.
Proof. induction l as [|b l IH]; [done|]. intros [_ H]%coalesced_cons. by apply IH. Qed.

(** ** Chains of headers *)

Lemma head_addr_app q l1 l2 : head_addr q (l1 ++ l2) = head_addr (head_addr q l2) l1.
Proof. by destruct l1. Qed.

Lemma last_addr_app p l1 l2 : last_addr p (l1 ++ l2) = last_addr (last_addr p l1) l2.
Proof. revert p. induction l1 as [|b l1 IH]; intros p; [done|]. apply IH. Qed.

Lemma chain_app mm p l1 l2 q :
  chain mm p (l1 ++ l2) q <->
  chain mm p l1 (head_addr q l2) /\ chain mm (last_addr p l1) l2 q.
Proof.
  revert p. induction l1 as [|b l1 IH]; intros p; cbn; [tauto|].
  rewrite IH, head_addr_app. tauto.
Qed.

Lemma chain_frame mm mm' p bs q :
  (forall x, x ∈ bs -> mm' !! baddr x = mm !! baddr x) ->
  chain mm p bs q -> chain mm' p bs q.
Proof.
  revert p. induction bs as [|b bs IH]; intros p Hf; cbn; [done|].
  intros [Hb Hc]. split; [rewrite Hf by set_solver; done|].
  apply IH; [intros x Hx; apply Hf; set_solver | done].
Qed.

(** A segment keeps its shape when its first header gets a new [prev]. *)
Lemma chain_new_prev mm mm' p p' b bs q :
  chain mm p (b :: bs) q ->
  mm' !! baddr b = Some (mkChunk p' (head_addr q bs) (bused b) (bsize b)) ->
  (forall x, x ∈ bs -> mm' !! baddr x = mm !! baddr x) ->
  chain mm' p' (b :: bs) q.
Proof. intros [_ Hc] Hb Hf. split; [done|]. by apply (chain_frame mm). Qed.

Lemma load_chain m p l b r q :
  chain (mem m) p (l ++ b :: r) q ->
  load m (baddr b) = Ok (mkChunk (last_addr p l) (head_addr q r) (bused b) (bsize b)).
Proof. intros [_ [H _]]%chain_app. unfold load. by rewrite H. Qed.

Lemma last_addr_in p l :
  last_addr p l = p \/ exists x, x ∈ l /\ last_addr p l = baddr x.
Proof.
  revert p. induction l as [|b l IH]; intros p; cbn; [by left|].
  right. destruct (IH (baddr b)) as [->|(x & ? & ->)].
  - exists b. set_solver.
  - exists x. set_solver.
Qed.

Lemma load_store_eq m a c : load (store m a c) a = Ok c.
Proof. unfold load, store. cbn. by rewrite lookup_insert_eq. Qed.

Lemma load_store_ne m a a' c : a <> a' -> load (store m a c) a' = load m a'.
Proof. intros H. unfold load, store. cbn. by rewrite lookup_insert_ne. Qed.

(** Symbolic execution of header reads and writes: reads through pending stores
    are resolved by comparing addresses. *)
Ltac heap_step :=
  first [ rewrite load_store_eq | rewrite load_store_ne by lia ];
  cbn [mbind result_bind prev next allocated csize].
Ltac heap_exec := unfold set_prev, set_next, set_size, set_allocated; repeat heap_step.

(** Reads of the final map at an address. *)
Ltac map_exec := cbn [mem store first];
  repeat first [ rewrite lookup_insert_eq | rewrite lookup_insert_ne by lia ].

(** ** Allocation *)

(** What replaces the block [b] when [n] bytes are taken from it. *)
Definition place (n : Z) (b : block) : list block :=
  if bsize b >? n + sizeof_chunk then
    [mkBlock (baddr b) n true;
     mkBlock (baddr b + sizeof_chunk + n) (bsize b - n - sizeof_chunk) false]
  else [mkBlock (baddr b) (bsize b) true].

Definition unfit (n : Z) (b : block) : bool := bused b || (bsize b <? n).

Lemma spec_malloc_None n bs :
  spec_malloc n bs = None <-> forall b, b ∈ bs -> unfit n b = true.
Proof.
  induction bs as [|b bs IH]; cbn; [set_solver|]. fold (unfit n b).
  destruct (unfit n b) eqn:E.
  - destruct (spec_malloc n bs) as [[p bs']|]; cbn.
    + split; [done|]. intros H. exfalso.
      enough (Some (p, bs') = None) by done. apply IH. set_solver.
    + split; [|done]. intros _ x [->|Hx]%elem_of_cons; [done | by apply IH].
  - split; [by destruct (bsize b >? _)|]. intros H. rewrite H in E; [done | set_solver].
Qed.

Lemma spec_malloc_Some n l b r :
  (forall x, x ∈ l -> unfit n x = true) -> unfit n b = false ->
  spec_malloc n (l ++ b :: r) = Some (baddr b + sizeof_chunk, l ++ place n b ++ r).
Proof.
  intros Hl Hb. induction l as [|x l IH]; cbn.
  - fold (unfit n b). rewrite Hb. unfold place. by destruct (bsize b >? _).
  - fold (unfit n x). rewrite (Hl x) by set_solver.
    rewrite IH by (intros; apply Hl; set_solver). done.
Qed.

(** Every list of blocks has a first fit or none. *)
Lemma first_fit n bs :
  (forall b, b ∈ bs -> unfit n b = true) \/
  exists l b r, bs = l ++ b :: r /\ (forall x, x ∈ l -> unfit n x = true) /\
    unfit n b = false.
Proof.
  induction bs as [|b bs IH]; [left; set_solver|].
  destruct (unfit n b) eqn:E.
  - destruct IH as [H|(l & c & r & -> & Hl & Hc)]; [left; set_solver|].
    right. exists (b :: l), c, r. set_solver.
  - right. exists [], b, bs. set_solver.
Qed.

(** The loop skips the blocks that do not fit. *)
Lemma malloc_from_skip m n p l r q fuel :
  chain (mem m) p (l ++ r) q ->
  (forall x, x ∈ l -> 0 < baddr x /\ unfit n x = true) ->
  malloc_from (length l + fuel) m (head_addr q (l ++ r)) n =
  malloc_from fuel m (head_addr q r) n.
Proof.
  revert p. induction l as [|b l IH]; intros p Hc Hl; [done|].
  destruct Hc as [Hb Hc]. destruct (Hl b) as [Hpos Hfit]; [set_solver|].
  cbn. destruct (Z.eqb_spec (baddr b) 0); [lia|].
  unfold load. rewrite Hb. cbn. fold (unfit n b). rewrite Hfit.
  apply (IH (baddr b)); [done|]. intros x Hx. apply Hl. set_solver.
Qed.

Lemma place_tiles n b hi :
  0 <= n -> unfit n b = false ->
  0 <= bsize b -> hi = baddr b + sizeof_chunk + bsize b -> tiles (baddr b) hi (place n b).
Proof.
  unfold unfit, place, sizeof_chunk. intros Hn Hu Hb ->.
  apply orb_false_iff in Hu as [_ Hu]. apply Z.ltb_ge in Hu.
  destruct (Z.gtb_spec (bsize b) (n + 13)); cbn; unfold sizeof_chunk; lia.
Qed.

(** Taking a block rewrites the headers into those of the new list. *)
Lemma take_chunk_spec lo hi m n l b r :
  0 < lo -> hi < 2 ^ 32 - sizeof_chunk ->
  chain (mem m) 0 (l ++ b :: r) 0 -> tiles lo hi (l ++ b :: r) ->
  0 <= n -> unfit n b = false ->
  exists m', take_chunk m (baddr b) n = Ok (baddr b + sizeof_chunk, m') /\
    first m' = first m /\ chain (mem m') 0 (l ++ place n b ++ r) 0.
Proof.
  intros Hlo Hhi Hc Ht Hn Hu.
  apply tiles_split in Ht as (Ha & Hs & He & _ & Hr & Hbl & Hbr).
  unfold unfit in Hu. apply orb_false_iff in Hu as [Hub Hfit]. apply Z.ltb_ge in Hfit.
  unfold take_chunk, place. pose proof (load_chain _ _ _ _ _ _ Hc) as Hload.
  apply chain_app in Hc as [Hcl [Hcb Hcr]].
  unfold sizeof_chunk in *. rewrite Hload. cbn [mbind result_bind next csize].
  rewrite (u32_small (n + 13)) by (zify_words; lia).
  rewrite (u32_small (baddr b + 13)) by (zify_words; lia).
  destruct (Z.gtb_spec (bsize b) (n + 13)).
  - rewrite (u32_small (baddr b + 13 + n)) by (zify_words; lia).
    rewrite (u32_small (bsize b - n - 13)) by (zify_words; lia).
    set (a := baddr b) in *. set (nc := a + 13 + n) in *.
    destruct r as [|r0 r]; cbn [head_addr].
    + cbn [Z.eqb]. cbn [mbind result_bind]. heap_exec. rewrite Hload.
      cbn [mbind result_bind prev next allocated csize]. heap_exec.
      eexists. split; [done|]. split; [done|].
      apply chain_app. cbn [head_addr app]. split.
      * eapply chain_frame; [|done]. intros x Hx. specialize (Hbl x Hx). map_exec.
        done.
      * cbn [chain head_addr baddr bused bsize]. unfold nc, a in *. map_exec. done.
    + pose proof (Hbr r0 ltac:(set_solver)) as Hr0.
      destruct Hr as (Er0 & Hsr0 & Htr).
      destruct (Z.eqb_spec (baddr r0) 0); [lia|].
      assert (Hload0 : load m (baddr r0) =
        Ok (mkChunk a (head_addr 0 r) (bused r0) (bsize r0))).
      { unfold load. destruct Hcr as [-> _]. done. }
      unfold set_prev. heap_step. rewrite Hload0.
      cbn [mbind result_bind prev next allocated csize]. heap_exec. rewrite Hload.
      cbn [mbind result_bind prev next allocated csize]. heap_exec.
      eexists. split; [done|]. split; [done|].
      apply chain_app. cbn [head_addr app]. split.
      * eapply chain_frame; [|done]. intros x Hx. specialize (Hbl x Hx). map_exec.
        done.
      * cbn [chain head_addr baddr bused bsize]. split; [map_exec; done|].
        split; [unfold nc; map_exec; done|].
        eapply (chain_new_prev (mem m) _ a); [done|map_exec; done|].
        intros x Hx. destruct (tiles_bounds _ _ _ x Htr Hx) as (Hlx & _ & _).
        unfold sizeof_chunk in Hlx. map_exec. done.
  - cbn [mbind result_bind]. unfold set_allocated. rewrite Hload.
    cbn [mbind result_bind prev next allocated csize].
    eexists. split; [done|]. split; [done|].
    apply chain_app. cbn [head_addr app]. split.
    + eapply chain_frame; [|done]. intros x Hx. specialize (Hbl x Hx).
      destruct (Z.eq_dec (baddr x) (baddr b)) as [E|]; [|map_exec; done]. lia.
    + cbn. split; [by rewrite lookup_insert_eq|]. eapply chain_frame; [|done].
      intros x Hx. specialize (Hbr x Hx). map_exec. done.
Qed.

Lemma coalesced_mid l b r :
  coalesced (l ++ b :: r) <-> coalesced (l ++ [b]) /\ coalesced (b :: r).
Proof.
  induction l as [|x l IH]; [cbn [app]; split; [done | by intros [_ ?]]|].
  cbn [app]. rewrite (coalesced_cons x (l ++ b :: r)), (coalesced_cons x (l ++ [b])), IH.
  destruct l; cbn [app]; tauto.
Qed.

Lemma coalesced_snoc_used l b b' :
  (bused b = true -> bused b' = true) -> coalesced (l ++ [b]) -> coalesced (l ++ [b']).
Proof.
  intros Hb. induction l as [|x l IH]; [done|]. cbn [app]. rewrite !coalesced_cons.
  intros [H1 H2]. split; [|by apply IH]. destruct l; cbn in *; [|done].
  apply orb_true_iff in H1. apply orb_true_iff. tauto.
Qed.

Lemma coalesced_head_used b b' r :
  (bused b = true -> bused b' = true) -> coalesced (b :: r) -> coalesced (b' :: r).
Proof.
  intros Hb. rewrite !coalesced_cons. destruct r; [done|].
  rewrite !orb_true_iff. tauto.
Qed.

Lemma place_coalesced n l b r :
  bused b = false -> coalesced (l ++ b :: r) -> coalesced (l ++ place n b ++ r).
Proof.
  intros Hb [Hl Hr]%coalesced_mid. unfold place.
  destruct (bsize b >? n + sizeof_chunk); cbn [app]; apply coalesced_mid.
  - split; [by apply (coalesced_snoc_used l b)|].
    apply coalesced_cons. split; [done|].
    apply (coalesced_head_used b); [by rewrite Hb | done].
  - split; [by apply (coalesced_snoc_used l b)|]. by apply (coalesced_head_used b).
Qed.

(** With one unit of fuel per block [malloc] returns, and it refines first fit. *)
Lemma malloc_acts lo hi m bs n fuel :
  heap_inv lo hi m bs -> 0 <= n -> (length bs <= fuel)%nat ->
  match spec_malloc n bs with
  | None => malloc fuel m n = Ok (0, m)
  | Some (p, bs') => exists m', malloc fuel m n = Ok (p, m') /\ heap_inv lo hi m' bs'
  end.
Proof.
  intros [Hlo Hhi Hfirst Hsome Hc Ht Hco] Hn Hfuel.
  assert (Hpos : forall x, x ∈ bs -> 0 < baddr x).
  { intros x Hx. destruct (tiles_bounds _ _ _ _ Ht Hx). lia. }
  unfold malloc. rewrite Hfirst.
  assert (lo = head_addr 0 bs) as -> by (destruct bs; [done | symmetry; apply Ht]).
  destruct (first_fit n bs) as [Hnone|(l & b & r & -> & Hl & Hb)].
  - rewrite (proj2 (spec_malloc_None n bs)) by done.
    replace fuel with (length bs + (fuel - length bs))%nat by lia.
    pose proof (malloc_from_skip m n 0 bs [] 0 (fuel - length bs)) as E.
    rewrite app_nil_r in E. rewrite E by auto.
    cbn. by destruct (fuel - length bs)%nat.
  - rewrite spec_malloc_Some by done.
    rewrite length_app in Hfuel. cbn in Hfuel.
    replace fuel with (length l + S (fuel - length l - 1))%nat by lia.
    rewrite malloc_from_skip with (p := 0); [|done|intros x Hx; split; [apply Hpos; set_solver | auto]].
    cbn [malloc_from head_addr].
    destruct (Z.eqb_spec (baddr b) 0); [specialize (Hpos b ltac:(set_solver)); lia|].
    rewrite (load_chain _ _ _ _ _ _ Hc). cbn [mbind result_bind allocated csize].
    fold (unfit n b). rewrite Hb.
    destruct (take_chunk_spec _ _ m n l b r Hlo Hhi Hc Ht Hn Hb) as (m' & -> & Hf' & Hc').
    exists m'. split; [done|].
    apply orb_false_iff in Hb as Hb'. destruct Hb' as [Hused _].
    pose proof (tiles_split _ _ _ _ _ Ht) as (_ & Hsz & _ & Htl & Htr & _).
    split; [done | done | by rewrite Hf' | | done | |by apply place_coalesced].
    + unfold place. destruct l, (bsize b >? _); done.
    + apply tiles_app. exists (baddr b). split; [done|].
      apply tiles_app. eexists. split; [|exact Htr]. by apply place_tiles.
Qed.

(** ** Release *)

Definition join (b n : block) : block :=
  mkBlock (baddr b) (bsize b + sizeof_chunk + bsize n) false.

(** The shared tail of the two merges: the header at [b] swallows the next one. *)
Lemma absorb_spec lo hi m l b n r :
  0 < lo -> hi < 2 ^ 32 - sizeof_chunk ->
  chain (mem m) 0 (l ++ b :: n :: r) 0 -> tiles lo hi (l ++ b :: n :: r) ->
  bused b = false ->
  exists m',
    (m ← set_size m (baddr b) (u32 (bsize b + (sizeof_chunk + bsize n)));
     m ← set_next m (baddr b) (head_addr 0 r);
     if head_addr 0 r =? 0 then Ok m else set_prev m (head_addr 0 r) (baddr b)) = Ok m' /\
    first m' = first m /\ chain (mem m') 0 (l ++ join b n :: r) 0.
Proof.
  intros Hlo Hhi Hc Ht Hb. pose proof (load_chain _ _ _ _ _ _ Hc) as Hload.
  apply chain_app in Hc as [Hcl [Hcb [Hcn Hcr]]].
  apply tiles_split in Ht as (Ha & Hs & He & _ & Hr & Hbl & Hbr).
  destruct Hr as (En & Hsn & Htr). unfold sizeof_chunk in *.
  pose proof (tiles_le _ _ _ Htr) as Hle.
  rewrite u32_small by (zify_words; lia). replace (bsize b + (13 + bsize n)) with
    (bsize b + 13 + bsize n) by lia.
  unfold set_size. rewrite Hload. cbn [mbind result_bind prev next allocated csize].
  unfold set_next. heap_step. rewrite Hb. destruct r as [|r0 r]; cbn [head_addr].
  - cbn [Z.eqb]. eexists. split; [done|]. split; [done|].
    apply chain_app. cbn [head_addr app]. split.
    + eapply chain_frame; [|done]. intros x Hx. specialize (Hbl x Hx). map_exec. done.
    + cbn. split; [by rewrite lookup_insert_eq | done].
  - destruct Htr as (Er0 & Hs0 & Htr). destruct (Z.eqb_spec (baddr r0) 0); [lia|].
    assert (Hload0 : load m (baddr r0) =
      Ok (mkChunk (baddr n) (head_addr 0 r) (bused r0) (bsize r0))).
    { unfold load. destruct Hcr as [-> _]. done. }
    unfold set_prev. do 2 heap_step. rewrite Hload0.
    cbn [mbind result_bind prev next allocated csize].
    eexists. split; [done|]. split; [done|].
    apply chain_app. cbn [head_addr app]. split.
    + eapply chain_frame; [|done]. intros x Hx. specialize (Hbl x Hx). map_exec. done.
    + unfold join, sizeof_chunk. cbn [chain head_addr baddr bused bsize].
      split; [map_exec; done|].
      eapply (chain_new_prev (mem m) _ (baddr n)); [done|map_exec; done|].
      intros x Hx. destruct (tiles_bounds _ _ _ x Htr Hx) as (Hlx & _ & _).
      unfold sizeof_chunk in Hlx. map_exec. done.
Qed.

(** What [merge_next] makes of the blocks from [b] on, and [merge_prev] of the
    blocks up to it. *)
Definition with_next (b : block) (r : list block) : list block :=
  match r with
  | n :: r' => if bused n then b :: r else join b n :: r'
  | [] => [b]
  end.

Lemma merge_next_spec lo hi m l b r :
  0 < lo -> hi < 2 ^ 32 - sizeof_chunk ->
  chain (mem m) 0 (l ++ b :: r) 0 -> tiles lo hi (l ++ b :: r) -> bused b = false ->
  exists m', merge_next m (baddr b) = Ok m' /\ first m' = first m /\
    chain (mem m') 0 (l ++ with_next b r) 0.
Proof.
  intros Hlo Hhi Hc Ht Hb. unfold merge_next. rewrite (load_chain _ _ _ _ _ _ Hc).
  cbn [mbind result_bind next csize]. destruct r as [|n r]; cbn [head_addr with_next].
  { by exists m. }
  pose proof (tiles_bounds _ _ _ n Ht ltac:(set_solver)) as (Hn & _ & _).
  destruct (Z.eqb_spec (baddr n) 0); [lia|].
  pose proof Hc as Hc2. replace (l ++ b :: n :: r) with ((l ++ [b]) ++ n :: r) in Hc2
    by (by rewrite <- app_assoc).
  rewrite (load_chain _ _ _ _ _ _ Hc2). cbn [mbind result_bind next csize allocated].
  destruct (bused n); [by exists m|]. by apply (absorb_spec lo hi).
Qed.

Lemma merge_prev_spec lo hi m l b r :
  0 < lo -> hi < 2 ^ 32 - sizeof_chunk ->
  chain (mem m) 0 (l ++ b :: r) 0 -> tiles lo hi (l ++ b :: r) -> bused b = false ->
  exists m', merge_prev m (baddr b) = Ok m' /\ first m' = first m /\
    ((l = [] \/ (exists l' p, l = l' ++ [p] /\ bused p = true)) /\
       chain (mem m') 0 (l ++ b :: r) 0 \/
     exists l' p, l = l' ++ [p] /\ bused p = false /\
       chain (mem m') 0 (l' ++ join p b :: r) 0).
Proof.
  intros Hlo Hhi Hc Ht Hb. unfold merge_prev. rewrite (load_chain _ _ _ _ _ _ Hc).
  cbn [mbind result_bind next prev csize].
  destruct l as [|p l' _] using rev_ind.
  { cbn. exists m. split; [done|]. split; [done|]. left. split; [by left | done]. }
  rewrite last_addr_app. cbn [last_addr].
  pose proof (tiles_bounds _ _ _ p Ht ltac:(set_solver)) as (Hp & _ & _).
  destruct (Z.eqb_spec (baddr p) 0); [lia|].
  rewrite <- app_assoc in Hc, Ht. cbn [app] in Hc, Ht.
  rewrite (load_chain _ _ _ _ _ _ Hc). cbn [mbind result_bind csize allocated].
  destruct (bused p) eqn:Hup.
  - exists m. split; [done|]. split; [done|]. left. split; [right; by exists l', p|].
    rewrite <- app_assoc. done.
  - destruct (absorb_spec lo hi m l' p b r) as (m' & Hex & Hf & Hch); [done..|].
    exists m'. split; [exact Hex|]. split; [done|]. right. by exists l', p.
Qed.

Lemma coalesce_id bs : coalesced bs -> coalesce bs = bs.
Proof.
  induction bs as [|b bs IH]; [done|]. intros [Hb Hbs]%coalesced_cons. cbn.
  rewrite IH by done. destruct bs; [done|]. by rewrite Hb.
Qed.

Lemma coalesce_coalesced bs : coalesced (coalesce bs).
Proof.
  induction bs as [|b bs IH]; [done|]. cbn.
  destruct (coalesce bs) as [|b2 r]; [done|].
  destruct (bused b || bused b2) eqn:E; apply coalesced_cons.
  - done.
  - apply orb_false_iff in E as [_ E]. apply coalesced_cons in IH as [IH IHr].
    split; [|done]. destruct r; [done|]. cbn. by rewrite E in IH.
Qed.

Lemma coalesce_app l x : coalesce (l ++ x) = coalesce (l ++ coalesce x).
Proof.
  induction l as [|b l IH]; cbn; [|by rewrite IH].
  symmetry. apply coalesce_id, coalesce_coalesced.
Qed.

Lemma tiles_coalesce lo hi bs : tiles lo hi bs -> tiles lo hi (coalesce bs).
Proof.
  revert lo. induction bs as [|b bs IH]; intros lo; [done|].
  intros (<- & Hs & Ht%IH). cbn. destruct (coalesce bs) as [|b2 r]; [done|].
  destruct (bused b || bused b2); [done|]. destruct Ht as (E & ? & Hr). cbn.
  unfold sizeof_chunk in *. split; [done|]. split; [lia|].
  by replace (baddr b + 13 + (bsize b + 13 + bsize b2)) with
    (baddr b + 13 + bsize b + 13 + bsize b2) by lia.
Qed.

Lemma release_split lo hi l b r :
  tiles lo hi (l ++ b :: r) ->
  release (baddr b + sizeof_chunk) <$> (l ++ b :: r) =
  l ++ mkBlock (baddr b) (bsize b) false :: r.
Proof.
  intros Ht. apply tiles_split in Ht as (_ & Hs & _ & _ & _ & Hl & Hr).
  assert (Hid : forall xs : list block, (forall x, x ∈ xs -> baddr x <> baddr b) ->
    release (baddr b + sizeof_chunk) <$> xs = xs).
  { intros xs. induction xs as [|x xs IH]; intros H; [done|]. cbn. f_equal.
    - unfold release. destruct (Z.eqb_spec (baddr x + sizeof_chunk) (baddr b + sizeof_chunk));
        [|done]. exfalso. apply (H x); [set_solver | lia].
    - apply IH. intros y Hy. apply H. set_solver. }
  unfold sizeof_chunk in *. rewrite fmap_app, fmap_cons, !Hid.
  - unfold release, sizeof_chunk. by rewrite Z.eqb_refl.
  - intros x Hx. specialize (Hr x Hx). lia.
  - intros x Hx. specialize (Hl x Hx). lia.
Qed.

(** Clearing the flag of a block. *)
Lemma set_free_spec lo hi m l b r :
  chain (mem m) 0 (l ++ b :: r) 0 -> tiles lo hi (l ++ b :: r) ->
  exists m', set_allocated m (baddr b) false = Ok m' /\ first m' = first m /\
    chain (mem m') 0 (l ++ mkBlock (baddr b) (bsize b) false :: r) 0.
Proof.
  intros Hc Ht. unfold set_allocated. rewrite (load_chain _ _ _ _ _ _ Hc). cbn.
  eexists. split; [done|]. split; [done|].
  apply tiles_split in Ht as (_ & Hs & _ & _ & _ & Hl & Hr). unfold sizeof_chunk in *.
  apply chain_app in Hc as [Hcl [_ Hcr]]. apply chain_app. cbn. split; [|split].
  - eapply chain_frame; [|done]. intros x Hx. specialize (Hl x Hx). map_exec. done.
  - by rewrite lookup_insert_eq.
  - eapply chain_frame; [|done]. intros x Hx. specialize (Hr x Hx). map_exec. done.
Qed.

Lemma coalesce_release l b r :
  bused b = false -> coalesced r ->
  coalesce (l ++ b :: r) = coalesce (l ++ with_next b r).
Proof.
  intros Hb Hr. rewrite coalesce_app. cbn. rewrite (coalesce_id r) by done.
  destruct r as [|n r]; cbn; [done|]. rewrite Hb. cbn. by destruct (bused n).
Qed.

Lemma with_next_coalesced b r : bused b = false -> coalesced r -> coalesced (with_next b r).
Proof.
  intros Hb Hr. destruct r as [|n r]; [done|]. cbn. destruct (bused n) eqn:Hn.
  - apply coalesced_cons. split; [by rewrite Hn, orb_true_r | done].
  - apply (coalesced_head_used n); [by rewrite Hn | done].
Qed.

Lemma with_next_head b r :
  bused b = false ->
  exists b' r', with_next b r = b' :: r' /\ baddr b' = baddr b /\ bused b' = false.
Proof.
  intros Hb. destruct r as [|n r]; cbn; [by exists b, []|].
  destruct (bused n); eexists _, _; done.
Qed.

Lemma tiles_with_next lo hi l b r :
  tiles lo hi (l ++ b :: r) -> tiles lo hi (l ++ with_next b r).
Proof.
  intros (mid & Hl & Hb)%tiles_app. apply tiles_app. exists mid. split; [done|].
  destruct r as [|n r]; [done|]. cbn [with_next]. destruct (bused n); [done|].
  destruct Hb as (<- & ? & En & ? & Hr). unfold join, sizeof_chunk in *. cbn.
  split; [done|]. split; [lia|]. unfold sizeof_chunk.
  by replace (baddr b + 13 + (bsize b + 13 + bsize n)) with
    (baddr b + 13 + bsize b + 13 + bsize n) by lia.
Qed.

(** Releasing a live pointer never faults and refines "clear the flag, then
    merge the free neighbours". *)
Lemma free_acts lo hi m bs p :
  heap_inv lo hi m bs -> live p bs ->
  exists m', free m p = Ok m' /\ heap_inv lo hi m' (spec_free p bs).
Proof.
  intros [Hlo Hhi Hfirst Hsome Hc Ht Hco] (b & (l & r & ->)%list_elem_of_split & Hub & <-).
  pose proof (tiles_split _ _ _ _ _ Ht) as (Hab & Hs & He & _).
  unfold free, spec_free. unfold sizeof_chunk in *.
  replace (baddr b + 13 - 13) with (baddr b) by lia.
  rewrite u32_small by (zify_words; lia).
  pose proof (release_split _ _ _ _ _ Ht) as Hrel. unfold sizeof_chunk in Hrel.
  rewrite Hrel. clear Hrel.
  destruct (set_free_spec _ _ _ _ _ _ Hc Ht) as (m1 & -> & Hf1 & Hc1).
  cbn [mbind result_bind]. set (b0 := mkBlock (baddr b) (bsize b) false) in *.
  change (baddr b) with (baddr b0).
  assert (Ht0 : tiles lo hi (l ++ b0 :: r)) by (by apply tiles_app in Ht; apply tiles_app).
  destruct (merge_next_spec lo hi m1 l b0 r) as (m2 & -> & Hf2 & Hc2); [done..|].
  cbn [mbind result_bind]. apply coalesced_mid in Hco as [Hcol Hcor].
  apply coalesced_cons in Hcor as [_ Hcor].
  rewrite coalesce_release by done.
  pose proof (tiles_with_next _ _ _ _ _ Ht0) as Ht2.
  pose proof (with_next_coalesced b0 r eq_refl Hcor) as Hco2.
  destruct (with_next_head b0 r eq_refl) as (b1 & r1 & E1 & Ea & Hb1).
  rewrite E1 in *. rewrite <- Ea.
  destruct (merge_prev_spec lo hi m2 l b1 r1) as (m3 & -> & Hf3 & Hcase); [done..|].
  exists m3. split; [done|].
  assert (Hne : coalesce (l ++ b1 :: r1) <> []).
  { destruct l as [|x l]; cbn; destruct (coalesce _); try done; by destruct (_ || _). }
  split; [done | done | by rewrite Hf3, Hf2, Hf1 | done | | by apply tiles_coalesce
         | apply coalesce_coalesced].
  destruct Hcase as [[Hl Hc3]|(l' & q & -> & Hq & Hc3)].
  - rewrite coalesce_id; [done|]. apply coalesced_mid. split; [|done].
    destruct Hl as [->|(l' & q & -> & Hq)]; [done|].
    rewrite <- app_assoc in *. apply coalesced_mid. apply coalesced_mid in Hcol as [Hcol _].
    split; [done|]. cbn. by rewrite Hq.
  - rewrite <- app_assoc in *. cbn [app] in *. rewrite coalesce_app.
    assert (E : coalesce (q :: b1 :: r1) = join q b1 :: r1).
    { change (coalesce (q :: b1 :: r1)) with
        (match coalesce (b1 :: r1) with
         | [] => [q]
         | b2 :: r => if bused q || bused b2 then q :: b2 :: r
                      else mkBlock (baddr q) (bsize q + sizeof_chunk + bsize b2) false :: r
         end). rewrite (coalesce_id (b1 :: r1)) by done. by rewrite Hq, Hb1. }
    rewrite E, coalesce_id; [done|]. apply coalesced_mid.
    apply coalesced_mid in Hcol as [Hcol _]. split.
    + apply (coalesced_snoc_used l' q); [by rewrite Hq | done].
    + by apply (coalesced_head_used b1); [rewrite Hb1|].
Qed.

(** ** The abstract heap and the refinement *)

Lemma tiles_length lo hi bs : tiles lo hi bs -> sizeof_chunk * Z.of_nat (length bs) <= hi - lo.
Proof.
  revert lo. induction bs as [|b bs IH]; intros lo; cbn [length]; [cbn; lia|].
  intros (<- & Hs & H%IH). unfold sizeof_chunk in *. lia.
Qed.

(** Each block takes at least a header: this much fuel is enough for the loop of
    [malloc] over any heap on [lo, hi). *)
Definition heap_fuel (lo hi : Z) : nat := Z.to_nat ((hi - lo) / sizeof_chunk).

Lemma heap_fuel_enough lo hi m bs : heap_inv lo hi m bs -> (length bs <= heap_fuel lo hi)%nat.
Proof.
  intros H. pose proof (tiles_length _ _ _ (inv_tiles _ _ _ _ H)) as Hl.
  unfold heap_fuel, sizeof_chunk in *. Z.div_mod_to_equations. lia.
Qed.

Lemma new_inv start size :
  0 < start -> sizeof_chunk <= size -> start + size < 2 ^ 32 - sizeof_chunk ->
  heap_inv start (start + size) (MemoryManager_new start size)
    [mkBlock start (size - sizeof_chunk) false].
Proof.
  intros H1 H2 H3. unfold sizeof_chunk in *. split; cbn; try done.
  - unfold sizeof_chunk. rewrite u32_small by (zify_words; lia).
    by rewrite lookup_singleton_eq.
  - unfold sizeof_chunk. lia.
Qed.

Inductive op := OpMalloc (n : Z) | OpFree (p : Z).

Definition spec_step (o : op) (bs : list block) : Z * list block :=
  match o with
  | OpMalloc n => match spec_malloc n bs with Some (p, bs') => (p, bs') | None => (0, bs) end
  | OpFree p => (0, spec_free p bs)
  end.

(** A caller may ask for any size and release what is live. *)
Definition allowed (o : op) (bs : list block) : Prop :=
  match o with OpMalloc n => is_u32 n | OpFree p => live p bs end.

Fixpoint spec_run (os : list op) (bs : list block) : list Z * list block :=
  match os with
  | [] => ([], bs)
  | o :: os =>
      let '(r, bs) := spec_step o bs in
      let '(rs, bs) := spec_run os bs in (r :: rs, bs)
  end.

Fixpoint allowed_run (os : list op) (bs : list block) : Prop :=
  match os with
  | [] => True
  | o :: os => allowed o bs /\ allowed_run os (spec_step o bs).2
  end.

Definition impl_step (fuel : nat) (o : op) (m : MemoryManager) : result (Z * MemoryManager) :=
  match o with
  | OpMalloc n => malloc fuel m n
  | OpFree p => m ← free m p; Ok (0, m)
  end.

Fixpoint impl_run (fuel : nat) (os : list op) (m : MemoryManager)
    : result (list Z * MemoryManager) :=
  match os with
  | [] => Ok ([], m)
  | o :: os =>
      '(r, m) ← impl_step fuel o m;
      '(rs, m) ← impl_run fuel os m;
      Ok (r :: rs, m)
  end.

Lemma step_acts lo hi o m bs :
  heap_inv lo hi m bs -> allowed o bs ->
  exists m', impl_step (heap_fuel lo hi) o m = Ok ((spec_step o bs).1, m') /\
    heap_inv lo hi m' (spec_step o bs).2.
Proof.
  intros Hinv Hal. pose proof (heap_fuel_enough _ _ _ _ Hinv) as Hf.
  destruct o as [n|p]; cbn in *.
  - pose proof (malloc_acts lo hi m bs n _ Hinv (proj1 Hal) Hf) as H.
    destruct (spec_malloc n bs) as [[p bs']|]; [done|]. by exists m.
  - destruct (free_acts lo hi m bs p Hinv Hal) as (m' & -> & Hm'). by exists m'.
Qed.

Lemma run_acts lo hi os m bs :
  heap_inv lo hi m bs -> allowed_run os bs ->
  exists m', impl_run (heap_fuel lo hi) os m = Ok ((spec_run os bs).1, m') /\
    heap_inv lo hi m' (spec_run os bs).2.
Proof.
  revert m bs. induction os as [|o os IH]; intros m bs Hinv Hal; cbn.
  - by exists m.
  - destruct Hal as [Ho Hos].
    destruct (step_acts lo hi o m bs Hinv Ho) as (m1 & -> & Hinv1). cbn.
    destruct (IH m1 _ Hinv1 Hos) as (m' & -> & Hinv'). cbn.
    destruct (spec_step o bs) as [r bs1]. cbn in *.
    destruct (spec_run os bs1) as [rs bs2]. by exists m'.
Qed.

(** C4: The linked-list heap implements the abstract first-fit heap.  From the
    state the constructor makes, every sequence of allocations of any size and
    releases of live pointers runs to completion without a bad pointer, returns
    the addresses first fit over the list of blocks returns (0 when no free block
    is large enough) and ends with headers that represent the specification's
    blocks: doubly linked, tiling the managed range and fully merged. *)
Theorem heap_refines_spec start size os :
  0 < start -> sizeof_chunk <= size -> start + size < 2 ^ 32 - sizeof_chunk ->
  allowed_run os [mkBlock start (size - sizeof_chunk) false] ->
  exists m', impl_run (heap_fuel start (start + size)) os (MemoryManager_new start size) =
      Ok ((spec_run os [mkBlock start (size - sizeof_chunk) false]).1, m') /\
    heap_inv start (start + size) m' (spec_run os [mkBlock start (size - sizeof_chunk) false]).2.
Proof. intros H1 H2 H3 Hal. apply run_acts; [by apply new_inv | done]. Qed.

Lemma heap_refines_spec_witness :
  exists m', impl_run (heap_fuel 4096 (4096 + 200))
      [OpMalloc 20; OpMalloc 50; OpFree 4109; OpMalloc 10; OpMalloc 500]
      (MemoryManager_new 4096 200) = Ok ([4109; 4142; 0; 4109; 0], m') /\
    heap_inv 4096 (4096 + 200) m'
      [mkBlock 4096 20 true; mkBlock 4129 50 true; mkBlock 4192 91 false].
Proof.
  apply (heap_refines_spec 4096 200
    [OpMalloc 20; OpMalloc 50; OpFree 4109; OpMalloc 10; OpMalloc 500]);
    unfold sizeof_chunk; [lia | lia | lia |].
  cbn [allowed_run]. split; [vm_compute; split; [discriminate | done]|].
  split; [vm_compute; split; [discriminate | done]|]. split.
  { exists (mkBlock 4096 20 true). split; [left|]. vm_compute. done. }
  vm_compute. repeat split; discriminate.
Defined.

(** The bytes of a block's payload. *)
Definition payload (b : block) (x : Z) : Prop :=
  baddr b + sizeof_chunk <= x < baddr b + sizeof_chunk + bsize b.
Definition header (b : block) (x : Z) : Prop := baddr b <= x < baddr b + sizeof_chunk.

Lemma tiles_disjoint lo hi bs b c x :
  tiles lo hi bs -> b ∈ bs -> c ∈ bs ->
  baddr b <= x < baddr b + sizeof_chunk + bsize b ->
  baddr c <= x < baddr c + sizeof_chunk + bsize c -> b = c.
Proof.
  revert lo. induction bs as [|d bs IH]; intros lo; [set_solver|].
  intros (<- & Hs & Ht) Hb Hc Hbx Hcx. unfold sizeof_chunk in *.
  apply elem_of_cons in Hb as [->|Hb]; apply elem_of_cons in Hc as [->|Hc]; [done|..].
  - destruct (tiles_bounds _ _ _ c Ht Hc). unfold sizeof_chunk in *. lia.
  - destruct (tiles_bounds _ _ _ b Ht Hb). unfold sizeof_chunk in *. lia.
  - by eapply IH.
Qed.

(** C5: Memory handed out is exclusive.  When [malloc] returns a block of [n]
    bytes at [p], the bytes [p .. p+n-1] lie inside the heap, belong to no
    payload that was live before and hold no chunk header of the new heap. *)
Theorem malloc_exclusive lo hi m bs n fuel p m' :
  heap_inv lo hi m bs -> is_u32 n -> (length bs <= fuel)%nat ->
  malloc fuel m n = Ok (p, m') -> p <> 0 ->
  (forall x, p <= x < p + n -> lo <= x < hi /\
     forall b, b ∈ bs -> bused b = true -> ~ payload b x) /\
  exists bs', heap_inv lo hi m' bs' /\ live p bs' /\
    forall x b, p <= x < p + n -> b ∈ bs' -> ~ header b x.
Proof.
  intros Hinv Hn Hfuel Hm Hp.
  pose proof (malloc_acts lo hi m bs n fuel Hinv (proj1 Hn) Hfuel) as Hacts.
  destruct (first_fit n bs) as [Hnone|(l & b & r & -> & Hl & Hb)].
  { rewrite (proj2 (spec_malloc_None n bs)) in Hacts by done. congruence. }
  rewrite spec_malloc_Some in Hacts by done.
  destruct Hacts as (m1 & Hm1 & Hinv1). rewrite Hm in Hm1. injection Hm1 as -> <-.
  apply orb_false_iff in Hb as Hb'. destruct Hb' as [Hub Hfit]. apply Z.ltb_ge in Hfit.
  pose proof (inv_tiles _ _ _ _ Hinv) as Ht. pose proof (inv_tiles _ _ _ _ Hinv1) as Ht1.
  assert (Hbnd := tiles_bounds _ _ _ b Ht ltac:(set_solver)).
  assert (exists c, c ∈ place n b /\ baddr c = baddr b /\ bused c = true /\ n <= bsize c)
    as (c & Hcin & Hca & Hcu & Hcn).
  { unfold place. destruct (bsize b >? _); eexists; (split; [by left|]); cbn; lia. }
  unfold sizeof_chunk in *. split.
  - intros x Hx. split; [lia|]. intros d Hd Hdu [Hd1 Hd2]. unfold sizeof_chunk in *.
    enough (d = b) by congruence.
    apply (tiles_disjoint _ _ _ d b x Ht); unfold sizeof_chunk; [done | set_solver | lia | lia].
  - exists (l ++ place n b ++ r). split; [done|]. split.
    + exists c. split; [set_solver|]. split; [done|]. unfold sizeof_chunk. lia.
    + intros x d Hx Hd [Hd1 Hd2]. unfold sizeof_chunk in *.
      destruct (tiles_bounds _ _ _ d Ht1 Hd) as (_ & Hds & _).
      enough (d = c) as -> by lia.
      apply (tiles_disjoint _ _ _ d c x Ht1); unfold sizeof_chunk; [done | set_solver | lia | lia].
Qed.

(** A heap of 200 bytes after one allocation of 20. *)
Definition sample_after : MemoryManager :=
  match malloc 15 (MemoryManager_new 4096 200) 20 with
  | Ok (_, m) => m
  | Err _ => MemoryManager_new 4096 200
  end.

Lemma malloc_exclusive_witness :
  malloc 15 (MemoryManager_new 4096 200) 20 = Ok (4109, sample_after) /\
  exists bs', heap_inv 4096 4296 sample_after bs' /\ live 4109 bs'.
Proof.
  split; [vm_compute; reflexivity|].
  destruct (malloc_exclusive 4096 4296 (MemoryManager_new 4096 200)
    [mkBlock 4096 187 false] 20 15 4109 sample_after) as (_ & bs' & H1 & H2 & _);
    [apply (new_inv 4096 200); unfold sizeof_chunk; lia
    | vm_compute; split; [discriminate | done] | cbn; lia | vm_compute; reflexivity | lia |].
  exists bs'. split; [exact H1 | exact H2].
Defined.

Lemma malloc_then_free lo hi m bs n fuel p m1 :
  heap_inv lo hi m bs -> is_u32 n -> (length bs <= fuel)%nat ->
  malloc fuel m n = Ok (p, m1) -> p <> 0 ->
  exists m2, free m1 p = Ok m2 /\ heap_inv lo hi m2 bs.
Proof.
  intros Hinv Hn Hfuel Hm Hp.
  pose proof (malloc_acts lo hi m bs n fuel Hinv (proj1 Hn) Hfuel) as Hacts.
  destruct (first_fit n bs) as [Hnone|(l & b & r & -> & Hl & Hb)].
  { rewrite (proj2 (spec_malloc_None n bs)) in Hacts by done. congruence. }
  rewrite spec_malloc_Some in Hacts by done.
  destruct Hacts as (m' & Hm' & Hinv1). rewrite Hm in Hm'. injection Hm' as -> <-.
  apply orb_false_iff in Hb as [Hub Hfit].
  destruct (free_acts lo hi m1 _ (baddr b + sizeof_chunk) Hinv1) as (m2 & Hfree & Hinv2).
  { exists (mkBlock (baddr b) (if bsize b >? n + sizeof_chunk then n else bsize b) true).
    split; [|done]. unfold place. destruct (bsize b >? _); set_solver. }
  exists m2. split; [done|]. replace (l ++ b :: r) with
    (spec_free (baddr b + sizeof_chunk) (l ++ place n b ++ r)); [done|].
  pose proof (inv_tiles _ _ _ _ Hinv1) as Ht1. pose proof (inv_coalesced _ _ _ _ Hinv) as Hco.
  unfold spec_free, place in *.
  destruct (bsize b >? n + sizeof_chunk); cbn [app] in *.
  - rewrite (release_split lo hi l (mkBlock (baddr b) n true)) by done.
    cbn [baddr bsize]. rewrite coalesce_app. apply coalesced_mid in Hco as Hco2. destruct Hco2 as [_ Hbr].
    set (u := mkBlock (baddr b) n false) in *. set (f := mkBlock _ (_ - _) false) in *.
    assert (Hfr : coalesced (f :: r)) by (by apply (coalesced_head_used b); [rewrite Hub|]).
    pose proof (coalesce_release [] u (f :: r) eq_refl Hfr) as E. cbn [app] in E.
    rewrite E. cbn [with_next]. change (bused f) with false. cbv iota.
    replace (join u f) with b.
    + by rewrite (coalesce_id (b :: r)), coalesce_id.
    + destruct b. unfold join, u, f. cbn in *. subst. f_equal. lia.
  - rewrite (release_split lo hi l (mkBlock (baddr b) (bsize b) true)) by done.
    cbn [baddr bsize]. replace (mkBlock _ _ false) with b by (destruct b; cbn in *; by subst).
    by rewrite coalesce_id.
Qed.

(** Allocation followed by release is the identity on the heap: whatever
    block was split comes back whole, so the headers again represent the very
    same list of blocks. *)
Theorem malloc_free_roundtrip lo hi m bs n fuel p m1 :
  heap_inv lo hi m bs -> is_u32 n -> (length bs <= fuel)%nat ->
  malloc fuel m n = Ok (p, m1) -> p <> 0 ->
  exists m2, free m1 p = Ok m2 /\ heap_inv lo hi m2 bs.
Proof. apply malloc_then_free. Qed.

Lemma malloc_free_roundtrip_witness :
  exists m2, free sample_after 4109 = Ok m2 /\
    heap_inv 4096 4296 m2 [mkBlock 4096 187 false].
Proof.
  destruct (malloc_free_roundtrip 4096 4296 (MemoryManager_new 4096 200)
    [mkBlock 4096 187 false] 20 15 4109 sample_after) as (m2 & H1 & H2);
    [apply (new_inv 4096 200); unfold sizeof_chunk; lia
    | vm_compute; split; [discriminate | done] | cbn; lia | vm_compute; reflexivity | lia |].
  exists m2. split; [exact H1 | exact H2].
Defined.

(** No fragmentation survives its cause.  In any reachable heap in which
    nothing is live, the memory holds one free chunk spanning the whole managed
    range, so a request for all of it succeeds. *)
Theorem heap_reclaimed lo hi m bs :
  heap_inv lo hi m bs -> (forall p, ~ live p bs) ->
  mem m !! first m = Some (mkChunk 0 0 false (hi - lo - sizeof_chunk)) /\
  exists m', malloc (heap_fuel lo hi) m (hi - lo - sizeof_chunk) = Ok (lo + sizeof_chunk, m').
Proof.
  intros Hinv Hdead. pose proof (heap_fuel_enough _ _ _ _ Hinv) as Hfuel.
  pose proof Hinv as [Hlo Hhi Hfirst Hsome Hc Ht Hco].
  assert (Hfree : forall b, b ∈ bs -> bused b = false).
  { intros b Hb. destruct (bused b) eqn:Hu; [|done]. exfalso.
    apply (Hdead (baddr b + sizeof_chunk)). by exists b. }
  destruct bs as [|b [|b2 bs]]; [done| |].
  2: { apply coalesced_cons in Hco as [Hco _]. rewrite !Hfree in Hco by set_solver. done. }
  destruct Hc as [Hb _]. destruct Ht as (Ea & Hs & Eh). cbn [tiles] in Eh.
  rewrite (Hfree b) in Hb by set_solver. unfold sizeof_chunk in *.
  assert (Esz : bsize b = hi - lo - 13) by lia. split.
  - rewrite Hfirst, <- Ea, Hb. cbn. do 2 f_equal. lia.
  - pose proof (malloc_acts lo hi m [b] (hi - lo - 13) (heap_fuel lo hi)) as H.
    rewrite (spec_malloc_Some _ [] b []) in H.
    + replace (lo + 13) with (baddr b + 13) by lia.
      destruct H as (m' & -> & _); [done|lia|done|by exists m'].
    + set_solver.
    + unfold unfit. rewrite (Hfree b) by set_solver. cbn. apply Z.ltb_ge. lia.
Qed.

Lemma heap_reclaimed_witness :
  exists m', malloc (heap_fuel 4096 4296) (MemoryManager_new 4096 200) 187 = Ok (4109, m').
Proof.
  apply (heap_reclaimed 4096 4296 (MemoryManager_new 4096 200) [mkBlock 4096 187 false]).
  - apply (new_inv 4096 200); unfold sizeof_chunk; lia.
  - intros p (b & Hb & Hu & _). apply list_elem_of_singleton in Hb. subst. discriminate.
Defined.

End Heap.
