(* ===== verification/Paging.v ===== *)
(** Page directories: src/src/memory/paging.cpp and paging.h.

    Physical memory holds frames of 1024 words; page directories and page tables
    live in frames, so two directories that name the same table share it.  A
    [PageDirectory] object keeps the frame of its directory and the addresses of
    its tables; objects live at the addresses [operator new] returned.  The frame
    allocator is any instance of [FrameAllocator]: the bitmap allocator of Pmm.v
    is one.

    [mmu] is the two-level page walk the processor does; the theorems relate what
    the code writes to what the processor then translates. *)

From stdpp Require Import base numbers list gmap sets.
From Stdlib Require Import ZArith Lia.
From S2P Require Import Prelude Pmm.

Module Paging.

Definition PAGE_PRESENT : Z := 0x001.
Definition PAGE_WRITE : Z := 0x002.
Definition PAGE_USER : Z := 0x004.
Definition PAGE_KERNEL : Z := Z.lor PAGE_PRESENT PAGE_WRITE.
Definition PAGE_USER_RW : Z := Z.lor (Z.lor PAGE_PRESENT PAGE_WRITE) PAGE_USER.

Section code.
Context {S : Type} `{FA : FrameAllocator S}.

(** ** The code *)

Record PageDirectory := mkDir {
  phys_dir : Z;
  page_tables : list Z;
}.

Record vm := mkVm {
  phys : gmap Z (list Z);          (** frames: address to 1024 words *)
  pmm : S;
  dirs : gmap Z PageDirectory;     (** the directory objects *)
  kernel_dir : Z;                  (** [PagingManager::kernel_dir], 0 for null *)
  cr3 : Z;
  paging_on : bool;
}.

Definition set_phys (v : vm) x := mkVm x (pmm v) (dirs v) (kernel_dir v) (cr3 v) (paging_on v).
Definition set_pmm (v : vm) x := mkVm (phys v) x (dirs v) (kernel_dir v) (cr3 v) (paging_on v).
Definition set_dirs (v : vm) x := mkVm (phys v) (pmm v) x (kernel_dir v) (cr3 v) (paging_on v).
Definition set_kernel_dir (v : vm) x := mkVm (phys v) (pmm v) (dirs v) x (cr3 v) (paging_on v).

Definition get_dir (v : vm) (this : Z) : result PageDirectory :=
  match dirs v !! this with Some d => Ok d | None => Err BadPointer end.

(** [frame[i]] and [frame[i] = w] for a frame address. *)
Definition load32 (v : vm) (frame i : Z) : result Z :=
  match phys v !! frame with Some t => arr_get t i | None => Err BadPointer end.

Definition store32 (v : vm) (frame i w : Z) : result vm :=
  match phys v !! frame with
  | Some t => t ← arr_set t i w; Ok (set_phys v (<[frame := t]> (phys v)))
  | None => Err BadPointer
  end.

(** [memzero32(frame, 1024)] *)
Definition memzero32 (v : vm) (frame : Z) : vm :=
  set_phys v (<[frame := replicate 1024 0]> (phys v)).

(** The constructor, on the object at [this]. *)
Definition PageDirectory_new (v : vm) (this : Z) : result vm :=
  '(frame, a) ← fa_alloc (pmm v);
  let v := memzero32 (set_pmm v a) frame in
  Ok (set_dirs v (<[this := mkDir frame (replicate 1024 0)]> (dirs v))).

(** The destructor and the release of the object. *)
Definition PageDirectory_delete (v : vm) (this : Z) : result vm :=
  d ← get_dir v this;
  a ← for_result 0 1024 (fun i a =>
        t ← arr_get (page_tables d) i;
        if t =? 0 then Ok a
        else
          kpt ← (if negb (kernel_dir v =? 0) && negb (this =? kernel_dir v)
                 then k ← get_dir v (kernel_dir v); arr_get (page_tables k) i
                 else Ok 0);
          if t =? kpt then Ok a else fa_free a t) (pmm v);
  a ← fa_free a (phys_dir d);
  Ok (set_dirs (set_pmm v a) (delete this (dirs v))).

(** Returns the address of the table, 0 when no frame is left. *)
Definition GetOrCreatePageTable (v : vm) (this pd_index flags : Z) : result (Z * vm) :=
  d ← get_dir v this;
  pde ← load32 v (phys_dir d) pd_index;
  if negb (Z.land pde PAGE_PRESENT =? 0) then
    v ← (if negb (Z.land flags PAGE_USER =? 0)
         then store32 v (phys_dir d) pd_index (Z.lor pde PAGE_USER) else Ok v);
    t ← arr_get (page_tables d) pd_index;
    Ok (t, v)
  else
    '(frame, a) ← fa_alloc (pmm v);
    let v := set_pmm v a in
    if frame =? 0 then Ok (0, v)
    else
      let v := memzero32 v frame in
      v ← store32 v (phys_dir d) pd_index
            (Z.lor (Z.lor (Z.lor frame PAGE_PRESENT) PAGE_WRITE) (Z.land flags PAGE_USER));
      ts ← arr_set (page_tables d) pd_index frame;
      Ok (frame, set_dirs v (<[this := mkDir (phys_dir d) ts]> (dirs v))).

Definition pd_index (va : Z) : Z := Z.shiftr va 22.
Definition pt_index (va : Z) : Z := Z.land (Z.shiftr va 12) 0x3FF.

Definition MapPage (v : vm) (this virtual_addr physical_addr flags : Z) : result vm :=
  '(pt, v) ← GetOrCreatePageTable v this (pd_index virtual_addr) flags;
  if pt =? 0 then Ok v
  else store32 v pt (pt_index virtual_addr)
         (Z.lor (Z.land physical_addr 0xFFFFF000) (Z.land flags 0xFFF)).

(** The common prefix of [UnmapPage], [GetPhysical] and [IsMapped]: the table of
    [va], 0 when there is none. *)
Definition find_table (v : vm) (d : PageDirectory) (va : Z) : result Z :=
  pde ← load32 v (phys_dir d) (pd_index va);
  if Z.land pde PAGE_PRESENT =? 0 then Ok 0
  else arr_get (page_tables d) (pd_index va).

Definition UnmapPage (v : vm) (this va : Z) : result vm :=
  d ← get_dir v this;
  t ← find_table v d va;
  if t =? 0 then Ok v else store32 v t (pt_index va) 0.

Definition GetPhysical (v : vm) (this va : Z) : result Z :=
  d ← get_dir v this;
  t ← find_table v d va;
  if t =? 0 then Ok 0
  else
    pte ← load32 v t (pt_index va);
    if Z.land pte PAGE_PRESENT =? 0 then Ok 0
    else Ok (Z.lor (Z.land pte 0xFFFFF000) (Z.land va 0xFFF)).

Definition IsMapped (v : vm) (this va : Z) : result bool :=
  d ← get_dir v this;
  t ← find_table v d va;
  if t =? 0 then Ok false
  else
    pte ← load32 v t (pt_index va);
    Ok (negb (Z.land pte PAGE_PRESENT =? 0)).

Definition GetCR3 (v : vm) (this : Z) : result Z :=
  d ← get_dir v this; Ok (phys_dir d).

(** [this] is the object [new PageDirectory()] returned. *)
Definition CreateKernel (v : vm) (this : Z) : result vm :=
  v ← PageDirectory_new v this;
  for_result 0 (0x01000000 / 0x1000)
    (fun page v => MapPage v this (page * 0x1000) (page * 0x1000) PAGE_KERNEL) v.

Definition CreateUser (v : vm) (this : Z) : result vm :=
  v ← PageDirectory_new v this;
  for_result 0 1024
    (fun i v =>
       k ← get_dir v (kernel_dir v);
       d ← get_dir v this;
       pde ← load32 v (phys_dir k) i;
       v ← store32 v (phys_dir d) i pde;
       t ← arr_get (page_tables k) i;
       ts ← arr_set (page_tables d) i t;
       Ok (set_dirs v (<[this := mkDir (phys_dir d) ts]> (dirs v)))) v.

Definition PagingManager_Init (v : vm) (this : Z) : result vm :=
  v ← CreateKernel v this; Ok (set_kernel_dir v this).

Definition Enable (v : vm) (dir : Z) : result vm :=
  c ← GetCR3 v dir;
  Ok (mkVm (phys v) (pmm v) (dirs v) (kernel_dir v) c true).

Definition SwitchDirectory (v : vm) (dir : Z) : result vm :=
  c ← GetCR3 v dir;
  Ok (mkVm (phys v) (pmm v) (dirs v) (kernel_dir v) c (paging_on v)).

Definition GetKernelDirectory (v : vm) : Z := kernel_dir v.

(** ** The processor's page walk

    A present directory entry names a table, a present table entry names a frame;
    the access rights are the conjunction of both levels. *)

Record translation := mkTr { tr_addr : Z; tr_write : bool; tr_user : bool }.

Definition mmu (v : vm) (root va : Z) : option translation :=
  pd ← phys v !! root;
  pde ← pd !! Z.to_nat (va / 2 ^ 22);
  if negb (Z.testbit pde 0) then None
  else
    pt ← phys v !! (pde / 4096 * 4096);
    pte ← pt !! Z.to_nat (va / 4096 mod 1024);
    if negb (Z.testbit pte 0) then None
    else Some (mkTr (pte / 4096 * 4096 + va mod 4096)
                 (Z.testbit pde 1 && Z.testbit pte 1)
                 (Z.testbit pde 2 && Z.testbit pte 2)).

End code.
Arguments vm : clear implicits.

(** ** Well-formed paging structures *)

Section proofs.
Context {S : Type} `{FA : FrameAllocator S}.
Implicit Types (v : vm S) (d : PageDirectory).

Lemma pd_index_div va : pd_index va = va / 2 ^ 22.
Proof. unfold pd_index. apply Z.shiftr_div_pow2. lia. Qed.

Lemma pt_index_div va : pt_index va = va / 4096 mod 1024.
Proof.
  unfold pt_index. rewrite Z.shiftr_div_pow2 by lia. change 0x3FF with (Z.ones 10).
  rewrite Z.land_ones by lia. done.
Qed.

Lemma indices va : is_u32 va -> 0 <= pd_index va < 1024 /\ 0 <= pt_index va < 1024.
Proof.
  intros H. rewrite pd_index_div, pt_index_div. change (2 ^ 22) with 4194304.
  zify_words. Z.div_mod_to_equations. lia.
Qed.

Lemma same_page va va' :
  is_u32 va -> is_u32 va' ->
  (pd_index va = pd_index va' /\ pt_index va = pt_index va') <-> va / 4096 = va' / 4096.
Proof.
  intros H H'. rewrite !pd_index_div, !pt_index_div. change (2 ^ 22) with 4194304.
  zify_words. split; [intros [? ?]|intros ?]; Z.div_mod_to_equations; lia.
Qed.

Definition table_at v (a : Z) (t : list Z) : Prop :=
  phys v !! a = Some t /\ length t = 1024%nat /\ Forall is_u32 t.

(** An aligned frame in use that holds 1024 words. *)
Record frame_ok v (a : Z) : Prop := {
  fo_range : 0 < a < 2 ^ 32;
  fo_owned : a / 4096 < fa_total (pmm v);
  fo_align : a / 4096 * 4096 = a;
  fo_table : exists t, table_at v a t;
  fo_used : a / 4096 ∉ fa_avail (pmm v);
}.

(** Entry [i] of the directory, and the table the object records for it. *)
Definition pde v d (i : Z) : Z :=
  match phys v !! phys_dir d with Some t => t !!! Z.to_nat i | None => 0 end.
Definition tab d (i : Z) : Z := page_tables d !!! Z.to_nat i.

(** The entry that maps [va], 0 when there is no table for it. *)
Definition leaf v d (va : Z) : Z :=
  if Z.testbit (pde v d (pd_index va)) 0 then
    match phys v !! tab d (pd_index va) with
    | Some t => t !!! Z.to_nat (pt_index va)
    | None => 0
    end
  else 0.

Record dir_wf v d : Prop := {
  dw_root : frame_ok v (phys_dir d);
  dw_len : length (page_tables d) = 1024%nat;
  dw_tab : forall i, 0 <= i < 1024 ->
    if Z.testbit (pde v d i) 0
    then frame_ok v (tab d i) /\ pde v d i / 4096 * 4096 = tab d i /\
         Z.testbit (pde v d i) 1 = true
    else tab d i = 0;
}.

Record vm_wf v : Prop := {
  vw_fa : fa_ok (pmm v);
  vw_zero : 0 ∉ fa_avail (pmm v);
  vw_dir : forall k d, dirs v !! k = Some d -> dir_wf v d;
  vw_roots : forall k1 k2 d1 d2, dirs v !! k1 = Some d1 -> dirs v !! k2 = Some d2 ->
    phys_dir d1 = phys_dir d2 -> k1 = k2;
  vw_apart : forall k1 k2 d1 d2 i, dirs v !! k1 = Some d1 -> dirs v !! k2 = Some d2 ->
    0 <= i < 1024 -> tab d1 i <> phys_dir d2;
  vw_share : forall k1 k2 d1 d2 i j, dirs v !! k1 = Some d1 -> dirs v !! k2 = Some d2 ->
    0 <= i < 1024 -> 0 <= j < 1024 -> tab d1 i <> 0 -> tab d1 i = tab d2 j -> i = j;
}.

(** Reads and writes of words in well-formed frames. *)

Lemma load32_ok v a t i :
  table_at v a t -> 0 <= i < 1024 -> load32 v a i = Ok (t !!! Z.to_nat i).
Proof.
  intros (Ht & Hl & _) Hi. unfold load32. rewrite Ht. apply arr_get_Ok.
  split; [lia|]. apply list_lookup_lookup_total_lt. lia.
Qed.

Lemma table_word v a t i : table_at v a t -> 0 <= i < 1024 -> is_u32 (t !!! Z.to_nat i).
Proof.
  intros (_ & Hl & Hu) Hi. eapply Forall_lookup_1; [done|].
  apply list_lookup_lookup_total_lt. lia.
Qed.

Definition put v (a i w : Z) : vm S :=
  match phys v !! a with
  | Some t => set_phys v (<[a := <[Z.to_nat i := w]> t]> (phys v))
  | None => v
  end.

Lemma store32_put v a t i w :
  table_at v a t -> 0 <= i < 1024 -> store32 v a i w = Ok (put v a i w).
Proof.
  intros (Ht & Hl & _) Hi. unfold store32, put. rewrite Ht.
  rewrite arr_set_in_range by lia. done.
Qed.

Lemma put_table v a t i w b tb :
  table_at v a t -> 0 <= i < 1024 -> is_u32 w -> table_at v b tb ->
  table_at (put v a i w) b (if decide (b = a) then <[Z.to_nat i := w]> t else tb).
Proof.
  intros (Ht & Hl & Hu) Hi Hw (Hb & Hlb & Hub). unfold put, table_at. rewrite Ht. cbn.
  case_decide as E.
  - subst b. rewrite lookup_insert_eq, length_insert. split; [done|].
    split; [done|]. by apply Forall_insert.
  - by rewrite lookup_insert_ne.
Qed.

Lemma put_frame_ok v a t i w b :
  table_at v a t -> 0 <= i < 1024 -> is_u32 w -> frame_ok v b -> frame_ok (put v a i w) b.
Proof.
  intros Ht Hi Hw [Hr Ho Ha [tb Hb] Hu].
  assert (Ep : pmm (put v a i w) = pmm v) by (unfold put; by destruct (phys v !! a)).
  split; rewrite ?Ep; [done | done | done | | done]. eexists. by apply put_table.
Qed.

Lemma put_pde v a t i w d j :
  table_at v a t -> 0 <= i < 1024 -> frame_ok v (phys_dir d) -> 0 <= j ->
  pde (put v a i w) d j =
  if decide (phys_dir d = a /\ j = i) then w else pde v d j.
Proof.
  intros (Ht & Hl & _) Hi [_ _ _ [td (Htd & _)] _] Hj. unfold pde, put. rewrite Ht. cbn.
  destruct (decide (phys_dir d = a)) as [E|E].
  - rewrite E, lookup_insert_eq, Ht. destruct (decide (j = i)) as [->|].
    + rewrite decide_True by done. apply list_lookup_total_insert_eq. lia.
    + rewrite decide_False by tauto. apply list_lookup_total_insert_ne. lia.
  - rewrite lookup_insert_ne, decide_False by (tauto || done). done.
Qed.

Lemma put_same v a i w :
  pmm (put v a i w) = pmm v /\ dirs (put v a i w) = dirs v /\
  kernel_dir (put v a i w) = kernel_dir v.
Proof. unfold put. by destruct (phys v !! a). Qed.

(** *** The walk on a well-formed directory *)

Lemma mmu_leaf v d va :
  dir_wf v d -> is_u32 va ->
  mmu v (phys_dir d) va =
  if Z.testbit (leaf v d va) 0
  then Some (mkTr (leaf v d va / 4096 * 4096 + va mod 4096)
               (Z.testbit (leaf v d va) 1)
               (Z.testbit (pde v d (pd_index va)) 2 && Z.testbit (leaf v d va) 2))
  else None.
Proof.
  intros [[_ _ _ [td (Htd & Hltd & _)] _] Hlen Htab] Hva.
  destruct (indices va Hva) as [Hi Hj]. specialize (Htab _ Hi).
  unfold mmu. rewrite <- pd_index_div, <- pt_index_div, Htd. cbn.
  rewrite list_lookup_lookup_total_lt by lia. cbn.
  unfold leaf, pde in *. rewrite Htd in *.
  destruct (Z.testbit (td !!! _) 0) eqn:Hp; cbn; [|done].
  destruct Htab as ([_ _ _ [tt (Htt & Hltt & _)] _] & -> & ->).
  rewrite Htt. cbn. rewrite list_lookup_lookup_total_lt by lia. cbn.
  by destruct (Z.testbit (tt !!! _) 0).
Qed.

Lemma find_table_ok v d va :
  dir_wf v d -> is_u32 va -> find_table v d va = Ok (tab d (pd_index va)).
Proof.
  intros [[_ _ _ [td Htd] _] Hlen Htab] Hva. destruct (indices va Hva) as [Hi _].
  unfold find_table. rewrite (load32_ok _ _ td) by done. cbn [mbind result_bind].
  change PAGE_PRESENT with (2 ^ 0). rewrite land_pow2_eqb by lia.
  specialize (Htab _ Hi). unfold pde in Htab. destruct Htd as (Htd & _). rewrite Htd in Htab.
  destruct (Z.testbit _ 0); cbn.
  - apply arr_get_Ok. split; [lia|]. apply list_lookup_lookup_total_lt. lia.
  - by rewrite Htab.
Qed.

Lemma leaf_no_table v d va :
  dir_wf v d -> is_u32 va -> tab d (pd_index va) = 0 -> leaf v d va = 0.
Proof.
  intros [_ _ Htab] Hva E. destruct (indices va Hva) as [Hi _]. specialize (Htab _ Hi).
  unfold leaf. destruct (Z.testbit _ 0); [|done].
  destruct Htab as ([Hr _ _ _ _] & _). lia.
Qed.

Lemma leaf_table v d va :
  dir_wf v d -> is_u32 va -> tab d (pd_index va) <> 0 ->
  Z.testbit (pde v d (pd_index va)) 0 = true /\
  exists t, table_at v (tab d (pd_index va)) t /\
    leaf v d va = t !!! Z.to_nat (pt_index va) /\
    load32 v (tab d (pd_index va)) (pt_index va) = Ok (leaf v d va).
Proof.
  intros [_ _ Htab] Hva E. destruct (indices va Hva) as [Hi Hj]. specialize (Htab _ Hi).
  unfold leaf. destruct (Z.testbit _ 0); [|done]. split; [done|].
  destruct Htab as ([_ _ _ [t Ht] _] & _). exists t. split; [done|].
  rewrite (load32_ok _ _ t) by done. destruct Ht as (-> & _). done.
Qed.

Lemma leaf_u32 v d va : dir_wf v d -> is_u32 va -> is_u32 (leaf v d va).
Proof.
  intros Hd Hva. destruct (decide (tab d (pd_index va) = 0)) as [E|E].
  - rewrite leaf_no_table by done. zify_words. lia.
  - destruct (leaf_table v d va Hd Hva E) as (_ & t & Ht & -> & _).
    eapply table_word; [done|]. apply (indices va Hva).
Qed.

(** C9: The software lookups agree with the processor.  On a well-formed
    directory, [IsMapped] holds exactly when the page walk from [GetCR3]
    translates the address, and [GetPhysical] returns the address the walk
    yields, 0 when it faults. *)
Theorem lookup_agrees_with_mmu v this d va :
  vm_wf v -> dirs v !! this = Some d -> is_u32 va ->
  exists root, GetCR3 v this = Ok root /\
    IsMapped v this va = Ok (match mmu v root va with Some _ => true | None => false end) /\
    GetPhysical v this va = Ok (match mmu v root va with Some tr => tr_addr tr | None => 0 end).
Proof.
  intros Hwf Hd Hva. pose proof (vw_dir v Hwf _ _ Hd) as Hdw.
  exists (phys_dir d). unfold GetCR3, IsMapped, GetPhysical, get_dir. rewrite Hd.
  cbn [mbind result_bind]. split; [done|].
  rewrite find_table_ok, mmu_leaf by done. cbn [mbind result_bind].
  destruct (Z.eqb_spec (tab d (pd_index va)) 0) as [E|E].
  { rewrite leaf_no_table by done. by rewrite Z.bits_0. }
  destruct (leaf_table v d va Hdw Hva E) as (_ & t & Ht & _ & ->). cbn [mbind result_bind].
  change PAGE_PRESENT with (2 ^ 0). rewrite land_pow2_eqb, negb_involutive by lia.
  pose proof (leaf_u32 v d va Hdw Hva) as Hu.
  destruct (Z.testbit (leaf v d va) 0); cbn; [|done]. split; [done|].
  rewrite land_low12, land_high20 by done. f_equal. apply lor_page.
  apply Z.mod_pos_bound. lia.
Qed.

(** *** Writing a word of a frame *)

(** Writing [w] at entry [i] of frame [a] keeps [d] well formed when [a] is not
    its directory, or when [w] names the same table with the same present and
    write bits. *)
Lemma put_dir_wf v a t i w d :
  table_at v a t -> 0 <= i < 1024 -> is_u32 w -> dir_wf v d ->
  (phys_dir d = a -> w / 4096 = pde v d i / 4096 /\
     Z.testbit w 0 = Z.testbit (pde v d i) 0 /\ Z.testbit w 1 = Z.testbit (pde v d i) 1) ->
  dir_wf (put v a i w) d.
Proof.
  intros Ht Hi Hw [Hroot Hlen Htab] Hsame.
  split; [by apply (put_frame_ok _ _ t) | done |].
  intros j Hj. rewrite (put_pde _ _ t) by (done || lia). specialize (Htab j Hj).
  case_decide as E.
  - destruct E as [E ->]. destruct (Hsame E) as (-> & -> & ->).
    destruct (Z.testbit _ 0); [|done]. destruct Htab as (Hf & ? & ?).
    split; [by apply (put_frame_ok _ _ t) | done].
  - destruct (Z.testbit _ 0); [|done]. destruct Htab as (Hf & ? & ?).
    split; [by apply (put_frame_ok _ _ t) | done].
Qed.

Lemma put_vm_wf v a t i w :
  vm_wf v -> table_at v a t -> 0 <= i < 1024 -> is_u32 w ->
  (forall k d, dirs v !! k = Some d -> phys_dir d = a ->
     w / 4096 = pde v d i / 4096 /\
     Z.testbit w 0 = Z.testbit (pde v d i) 0 /\ Z.testbit w 1 = Z.testbit (pde v d i) 1) ->
  vm_wf (put v a i w).
Proof.
  intros [Hfa Hz Hd Hr Ha Hs] Ht Hi Hw Hsame.
  destruct (put_same v a i w) as (Ep & Ed & Ek).
  split; rewrite ?Ep, ?Ed; try done.
  intros k d Hk. apply (put_dir_wf _ _ t); [done | done | done | by eapply Hd |].
  by apply (Hsame k).
Qed.

(** A write in a page table changes the entries that table serves, in every
    directory that names it, and nothing else. *)
Lemma put_leaf_table v a t j w d va :
  dir_wf v d -> is_u32 va -> table_at v a t -> 0 <= j < 1024 -> a <> phys_dir d -> a <> 0 ->
  leaf (put v a j w) d va =
  if decide (tab d (pd_index va) = a /\ pt_index va = j) then w else leaf v d va.
Proof.
  intros Hd Hva Ht Hj Hne H0. destruct (indices va Hva) as [Hi Hj'].
  pose proof (dw_tab v d Hd _ Hi) as Htab. pose proof (dw_root v d Hd) as Hroot.
  unfold leaf. rewrite (put_pde _ _ t) by (done || lia). rewrite decide_False by intuition congruence.
  destruct (Z.testbit (pde v d (pd_index va)) 0).
  - destruct Htab as ([_ _ _ [tt (Htt & Hlt & _)] _] & _ & _).
    destruct Ht as (Hta & Hla & _). unfold put. rewrite Hta. cbn.
    destruct (decide (tab d (pd_index va) = a)) as [E|E].
    + rewrite E, lookup_insert_eq, Hta. destruct (decide (pt_index va = j)) as [->|].
      * rewrite decide_True by done. apply list_lookup_total_insert_eq. lia.
      * rewrite decide_False by tauto. apply list_lookup_total_insert_ne. lia.
    + rewrite lookup_insert_ne, decide_False by (tauto || done). done.
  - rewrite decide_False; [done|]. intros [E _]. congruence.
Qed.

(** A write in a directory that keeps the table and the present bit changes no
    mapping. *)
Lemma put_leaf_dir v k d2 i w d va t :
  vm_wf v -> dirs v !! k = Some d2 -> dir_wf v d -> is_u32 va ->
  (exists k', dirs v !! k' = Some d) ->
  table_at v (phys_dir d2) t -> 0 <= i < 1024 ->
  Z.testbit w 0 = Z.testbit (pde v d2 i) 0 ->
  leaf (put v (phys_dir d2) i w) d va = leaf v d va.
Proof.
  intros Hwf Hk Hd Hva [k' Hk'] Ht Hi Hw. destruct (indices va Hva) as [Hpi _].
  pose proof (dw_root v d Hd) as Hroot. unfold leaf.
  rewrite (put_pde _ _ t) by (done || lia).
  assert (Hsel : Z.testbit (if decide (phys_dir d = phys_dir d2 /\ pd_index va = i)
            then w else pde v d (pd_index va)) 0 = Z.testbit (pde v d (pd_index va)) 0).
  { case_decide as E; [|done]. destruct E as [E ->].
    assert (k' = k) as -> by (by eapply (vw_roots v Hwf)).
    rewrite Hw. congruence. }
  rewrite Hsel. destruct (Z.testbit (pde v d (pd_index va)) 0); [|done].
  destruct Ht as (Ht & _). unfold put. rewrite Ht. cbn.
  rewrite lookup_insert_ne; [done|]. intros E. symmetry in E. revert E.
  by eapply (vw_apart v Hwf).
Qed.

(** *** Finding or creating the table *)

(** The two words the code builds. *)
Lemma new_pde_bits f flags :
  0 <= f ->
  let w := Z.lor (Z.lor (Z.lor (f * 4096) PAGE_PRESENT) PAGE_WRITE) (Z.land flags PAGE_USER) in
  w / 4096 = f /\ Z.testbit w 0 = true /\ Z.testbit w 1 = true /\
  Z.testbit w 2 = Z.testbit flags 2 /\ w <= f * 4096 + 7 /\ 0 <= w.
Proof.
  intros Hf. cbv zeta. rewrite <- !Z.lor_assoc.
  set (k := Z.lor PAGE_PRESENT (Z.lor PAGE_WRITE (Z.land flags PAGE_USER))).
  assert (Hk : 0 <= k < 8 /\ Z.testbit k 0 = true /\ Z.testbit k 1 = true /\
               Z.testbit k 2 = Z.testbit flags 2).
  { unfold k. destruct (Z.testbit flags 2) eqn:E.
    - replace (Z.land flags PAGE_USER) with 4; [done|].
      apply Z.bits_inj'. intros i Hi. rewrite Z.land_spec. change PAGE_USER with (2 ^ 2).
      change 4 with (2 ^ 2). rewrite Z.pow2_bits_eqb by lia.
      destruct (Z.eqb_spec 2 i) as [<-|]; [by rewrite E | by rewrite andb_false_r].
    - replace (Z.land flags PAGE_USER) with 0; [done|]. symmetry. apply Z.eqb_eq.
      change PAGE_USER with (2 ^ 2). rewrite land_pow2_eqb by lia. by rewrite E. }
  destruct Hk as (Hk & H0 & H1 & H2).
  rewrite lor_page by lia. rewrite page_div, !testbit_page by lia.
  repeat split; (done || lia).
Qed.

Lemma user_pde_bits w :
  is_u32 w ->
  Z.lor w PAGE_USER / 4096 = w / 4096 /\
  Z.testbit (Z.lor w PAGE_USER) 0 = Z.testbit w 0 /\
  Z.testbit (Z.lor w PAGE_USER) 1 = Z.testbit w 1 /\
  Z.testbit (Z.lor w PAGE_USER) 2 = true /\ is_u32 (Z.lor w PAGE_USER).
Proof.
  intros Hw. split.
  { change 4096 with (2 ^ 12). rewrite <- !Z.shiftr_div_pow2, Z.shiftr_lor by lia.
    change (Z.shiftr PAGE_USER 12) with 0. apply Z.lor_0_r. }
  rewrite !Z.lor_spec. split; [apply orb_false_r|]. split; [apply orb_false_r|].
  split; [apply orb_true_r|]. apply lor_u32; [done|]. split; vm_compute; (done || discriminate).
Qed.

Lemma new_pte_bits pa flags :
  is_u32 pa ->
  let w := Z.lor (Z.land pa 0xFFFFF000) (Z.land flags 0xFFF) in
  w / 4096 = pa / 4096 /\ (forall i, 0 <= i < 12 -> Z.testbit w i = Z.testbit flags i) /\
  is_u32 w.
Proof.
  intros Hpa. cbv zeta. rewrite land_high20, land_low12 by done.
  assert (0 <= flags mod 4096 < 4096) by (apply Z.mod_pos_bound; lia).
  rewrite lor_page, page_div by done. split; [done|]. split.
  - intros i Hi. rewrite testbit_page by done. by apply testbit_mod4096.
  - zify_words. Z.div_mod_to_equations. lia.
Qed.

Lemma present_tab v d i :
  dir_wf v d -> 0 <= i < 1024 -> Z.testbit (pde v d i) 0 = negb (tab d i =? 0).
Proof.
  intros Hd Hi. pose proof (dw_tab v d Hd i Hi) as Ht. destruct (Z.testbit _ 0).
  - destruct Ht as ([Hr _ _ _ _] & _). destruct (Z.eqb_spec (tab d i) 0); [lia | done].
  - by rewrite Ht.
Qed.

(** What a successful [GetOrCreatePageTable] on entry [i] of the object at [k]
    does: the object becomes [d'], whose entry [i] has a table. *)
Record got_table v (k : Z) d i flags v' d' : Prop := {
  gt_wf : vm_wf v';
  gt_dirs : dirs v' = <[k := d']> (dirs v);
  gt_kernel : kernel_dir v' = kernel_dir v;
  gt_root : phys_dir d' = phys_dir d;
  gt_tab : tab d' i <> 0;
  gt_tabs : forall j, 0 <= j < 1024 -> j <> i -> tab d' j = tab d j;
  gt_kept : tab d i <> 0 -> d' = d /\ pmm v' = pmm v;
  gt_new : tab d i = 0 -> exists f, f ∈ fa_avail (pmm v) /\ tab d' i = f * 4096 /\
             fa_avail (pmm v') = fa_avail (pmm v) ∖ {[ f ]};
  gt_leaf : forall va, is_u32 va -> leaf v' d' va = leaf v d va;
  gt_leaf_other : forall k2 d2 va, k2 <> k -> dirs v !! k2 = Some d2 -> is_u32 va ->
             leaf v' d2 va = leaf v d2 va;
  gt_user : Z.testbit flags 2 = true -> Z.testbit (pde v' d' i) 2 = true;
  gt_pde_same : Z.testbit flags 2 = false -> tab d i <> 0 -> pde v' d' i = pde v d i;
  gt_pde : forall j, 0 <= j < 1024 -> j <> i -> pde v' d' j = pde v d j;
  gt_pde_other : forall k2 d2 j, k2 <> k -> dirs v !! k2 = Some d2 -> 0 <= j < 1024 ->
             pde v' d2 j = pde v d2 j;
}.

Lemma get_table_present v k d i flags :
  vm_wf v -> dirs v !! k = Some d -> 0 <= i < 1024 -> tab d i <> 0 ->
  exists v', GetOrCreatePageTable v k i flags = Ok (tab d i, v') /\
    got_table v k d i flags v' d.
Proof.
  intros Hwf Hk Hi Ht. pose proof (vw_dir v Hwf _ _ Hk) as Hd.
  pose proof (dw_root v d Hd) as [_ _ _ [td Htd] _].
  unfold GetOrCreatePageTable, get_dir. rewrite Hk. cbn [mbind result_bind].
  rewrite (load32_ok _ _ td) by done. cbn [mbind result_bind].
  assert (Epde : td !!! Z.to_nat i = pde v d i).
  { unfold pde. destruct Htd as (-> & _). done. }
  rewrite Epde. change PAGE_PRESENT with (2 ^ 0). rewrite land_pow2_eqb by lia.
  pose proof (present_tab v d i Hd Hi) as Hp. destruct (Z.eqb_spec (tab d i) 0); [done|].
  cbn in Hp. rewrite Hp. cbn [negb].
  change (Z.land flags PAGE_USER) with (Z.land flags (2 ^ 2)). rewrite land_pow2_eqb by lia.
  assert (Harr : arr_get (page_tables d) i = Ok (tab d i)).
  { apply arr_get_Ok. split; [lia|]. apply list_lookup_lookup_total_lt.
    rewrite (dw_len v d Hd). lia. }
  destruct (Z.testbit flags 2) eqn:Hf; cbn [negb].
  - rewrite (store32_put _ _ td) by done. cbn [mbind result_bind]. rewrite Harr. cbn.
    set (w := Z.lor (pde v d i) PAGE_USER).
    assert (Hu : is_u32 (pde v d i)) by (rewrite <- Epde; by eapply table_word).
    destruct (user_pde_bits _ Hu) as (W1 & W2 & W3 & W4 & W5). fold w in W1, W2, W3, W4, W5.
    eexists. split; [done|].
    destruct (put_same v (phys_dir d) i w) as (Ep & Ed & Ek).
    assert (Hroots : forall k2 d2, k2 <> k -> dirs v !! k2 = Some d2 -> phys_dir d2 <> phys_dir d).
    { intros k2 d2 Hne Hk2 E. apply Hne. by eapply (vw_roots v Hwf). }
    split; rewrite ?Ep, ?Ed, ?Ek; try done.
    + apply (put_vm_wf _ _ td); [done..|]. intros k2 d2 Hk2 E.
      assert (k2 = k) as -> by (by eapply (vw_roots v Hwf)).
      rewrite Hk in Hk2. injection Hk2 as <-. done.
    + by rewrite insert_id.
    + intros va Hva. by eapply (put_leaf_dir v k d); eauto.
    + intros k2 d2 va Hne Hk2 Hva.
      eapply (put_leaf_dir v k d); eauto. by eapply (vw_dir v Hwf).
    + intros _. rewrite (put_pde _ _ td), decide_True by (done || lia || apply Hd). done.
    + congruence.
    + intros j Hj Hne. rewrite (put_pde _ _ td) by (done || lia || apply Hd).
      rewrite decide_False by tauto. done.
    + intros k2 d2 j Hne Hk2 Hj.
      rewrite (put_pde _ _ td) by (done || lia || apply (vw_dir v Hwf _ _ Hk2)).
      rewrite decide_False; [done|]. intros [E _]. by eapply Hroots.
  - cbn [mbind result_bind]. rewrite Harr. cbn. exists v. split; [done|].
    split; try done; [by rewrite insert_id | congruence].
Qed.

(** A frame the allocator hands out belongs to no directory. *)
Lemma fresh_frame v f a :
  vm_wf v -> f ∈ fa_avail (pmm v) -> frame_ok v a -> a <> f * 4096.
Proof.
  intros Hwf Hf [_ _ Ha _ Hu] ->. apply Hu. by rewrite Z.div_mul by lia.
Qed.

(** No directory names a free frame as a table. *)
Lemma fresh_tab v f k d j :
  vm_wf v -> f ∈ fa_avail (pmm v) -> dirs v !! k = Some d -> 0 <= j < 1024 ->
  tab d j <> f * 4096.
Proof.
  intros Hwf Hf Hk Hj. pose proof (vw_dir v Hwf _ _ Hk) as Hd.
  pose proof (dw_tab v d Hd j Hj) as Ht. destruct (Z.testbit _ 0).
  - apply (fresh_frame v f); [done | done | apply Ht].
  - rewrite Ht. pose proof (vw_zero v Hwf) as Hz. intros E.
    assert (f = 0) by lia. by subst.
Qed.

(** Everything in use survives an allocation and the clearing of the new frame. *)
Definition grab v (f : Z) (s : S) : vm S := memzero32 (set_pmm v s) (f * 4096).

Lemma grab_frame_ok v f s a :
  vm_wf v -> f ∈ fa_avail (pmm v) -> fa_avail s ⊆ fa_avail (pmm v) ->
  fa_total s = fa_total (pmm v) ->
  frame_ok v a -> frame_ok (grab v f s) a.
Proof.
  intros Hwf Hf Hs Htot Hok. pose proof (fresh_frame v f a Hwf Hf Hok) as Hne.
  destruct Hok as [Hr Ho Ha [t Ht] Hu]. split; [done | cbn; lia | done | |set_solver].
  exists t. unfold table_at, grab, memzero32. cbn. by rewrite lookup_insert_ne.
Qed.

Lemma grab_new v f s :
  vm_wf v -> f ∈ fa_avail (pmm v) -> fa_avail s = fa_avail (pmm v) ∖ {[ f ]} ->
  fa_total s = fa_total (pmm v) ->
  frame_ok (grab v f s) (f * 4096) /\ table_at (grab v f s) (f * 4096) (replicate 1024 0).
Proof.
  intros Hwf Hf Hs Htot. pose proof (fa_range _ _ (vw_fa v Hwf) Hf) as Hr.
  pose proof (fa_total_bound _ (vw_fa v Hwf)) as Hb. change (2 ^ 20) with 1048576 in Hb.
  pose proof (vw_zero v Hwf) as Hz.
  assert (f <> 0) by (intros ->; done).
  assert (Hta : table_at (grab v f s) (f * 4096) (replicate 1024 0)).
  { unfold table_at, grab, memzero32. cbn [phys set_phys set_pmm]. rewrite lookup_insert_eq.
    split; [done|]. split; [done|]. apply Forall_replicate. zify_words. lia. }
  split; [|done].
  split; [zify_words; lia | cbn; rewrite Z.div_mul; lia | by rewrite Z.div_mul by lia | by eexists |].
  cbn. rewrite Hs, Z.div_mul by lia. set_solver.
Qed.

Lemma grab_pde v f s d j :
  vm_wf v -> f ∈ fa_avail (pmm v) -> frame_ok v (phys_dir d) ->
  pde (grab v f s) d j = pde v d j.
Proof.
  intros Hwf Hf Hok. pose proof (fresh_frame v f _ Hwf Hf Hok) as Hne.
  unfold pde, grab, memzero32. cbn. by rewrite lookup_insert_ne.
Qed.

Lemma grab_dir_wf v f s d :
  vm_wf v -> f ∈ fa_avail (pmm v) -> fa_avail s ⊆ fa_avail (pmm v) ->
  fa_total s = fa_total (pmm v) ->
  dir_wf v d -> dir_wf (grab v f s) d.
Proof.
  intros Hwf Hf Hs Htot [Hr Hl Ht]. split; [by apply grab_frame_ok | done |].
  intros i Hi. rewrite grab_pde by done. specialize (Ht i Hi).
  destruct (Z.testbit _ 0); [|done]. destruct Ht as (H1 & H2).
  split; [by apply grab_frame_ok | done].
Qed.

Lemma grab_leaf v f s d va :
  vm_wf v -> f ∈ fa_avail (pmm v) -> dir_wf v d -> is_u32 va ->
  leaf (grab v f s) d va = leaf v d va.
Proof.
  intros Hwf Hf Hd Hva. destruct (indices va Hva) as [Hi _].
  unfold leaf. rewrite grab_pde by (done || apply Hd).
  pose proof (dw_tab v d Hd _ Hi) as Ht. destruct (Z.testbit _ 0); [|done].
  destruct Ht as (Hok & _). pose proof (fresh_frame v f _ Hwf Hf Hok) as Hne.
  unfold grab, memzero32. cbn. by rewrite lookup_insert_ne.
Qed.

Lemma grab_vm_wf v f s :
  vm_wf v -> fa_ok s -> f ∈ fa_avail (pmm v) -> fa_avail s = fa_avail (pmm v) ∖ {[ f ]} ->
  fa_total s = fa_total (pmm v) -> vm_wf (grab v f s).
Proof.
  intros Hwf Hs Hf Ha Htot. pose proof Hwf as [H1 H2 H3 H4 H5 H6].
  split; cbn; [done | set_solver | | done | done | done].
  intros k d Hk. apply grab_dir_wf; [done | done | set_solver | done | by eapply H3].
Qed.

Lemma frame_ok_ext v v' a :
  phys v' = phys v -> pmm v' = pmm v -> frame_ok v a -> frame_ok v' a.
Proof. 
  intros E1 E2 [? ? ? [t Ht] ?]. split; rewrite ?E2; [done | done | done | | done].
  exists t. unfold table_at in *. by rewrite E1.
Qed.

Lemma dir_wf_ext v v' d :
  phys v' = phys v -> pmm v' = pmm v -> dir_wf v d -> dir_wf v' d.
Proof.
  intros E1 E2 [Hr Hl Ht]. split; [by apply (frame_ok_ext v) | done |].
  intros i Hi. specialize (Ht i Hi). unfold pde in *. rewrite E1.
  destruct (Z.testbit _ 0); [|done]. destruct Ht as (? & ?).
  split; [by apply (frame_ok_ext v) | done].
Qed.

(** The empty entry [i] of the directory [d] becomes [w] and the object records
    the table [t] for it. *)
Section entry.
Context (v : vm S) (k : Z) (d : PageDirectory) (i w t : Z).
Context (Hwf : vm_wf v) (Hk : dirs v !! k = Some d) (Hi : 0 <= i < 1024).
Context (Habs : tab d i = 0) (Hw : is_u32 w).
Context (Hent : if Z.testbit w 0
  then frame_ok v t /\ w / 4096 * 4096 = t /\ Z.testbit w 1 = true else t = 0).
Context (Hroot : forall k2 d2, dirs v !! k2 = Some d2 -> t <> phys_dir d2).
Context (Hown : t <> 0 -> forall k2 d2 j,
  dirs v !! k2 = Some d2 -> 0 <= j < 1024 -> tab d2 j = t -> j = i).

Let d' := mkDir (phys_dir d) (<[Z.to_nat i := t]> (page_tables d)).
Let v2 := put v (phys_dir d) i w.
Let v' := set_dirs v2 (<[k := d']> (dirs v2)).

Lemma entry_root : dir_wf v d /\ exists td, table_at v (phys_dir d) td.
Proof using All. pose proof (vw_dir v Hwf _ _ Hk) as Hd. split; [done|]. apply Hd. Qed.

Lemma entry_tab j : 0 <= j < 1024 -> tab d' j = if decide (j = i) then t else tab d j.
Proof using All.
  destruct entry_root as (Hd & _). intros Hj. unfold tab, d'. cbn.
  case_decide as E.
  - subst j. apply list_lookup_total_insert_eq. rewrite (dw_len v d Hd). lia.
  - apply list_lookup_total_insert_ne. lia.
Qed.

Lemma entry_pde d2 j :
  frame_ok v (phys_dir d2) -> 0 <= j < 1024 ->
  pde v' d2 j = if decide (phys_dir d2 = phys_dir d /\ j = i) then w else pde v d2 j.
Proof using All.
  destruct entry_root as (Hd & [td Htd]). intros Hr Hj.
  change (pde v' d2 j) with (pde v2 d2 j). unfold v2.
  rewrite (put_pde _ _ td) by (done || lia). done.
Qed.

Lemma entry_frame_ok a : frame_ok v a -> frame_ok v' a.
Proof using All.
  destruct entry_root as (_ & [td Htd]). intros H.
  apply (frame_ok_ext v2); [done | done |]. by apply (put_frame_ok _ _ td).
Qed.

Lemma entry_other_wf k2 d2 : k2 <> k -> dirs v !! k2 = Some d2 -> dir_wf v' d2.
Proof using All.
  destruct entry_root as (_ & [td Htd]). intros Hne Hk2.
  apply (dir_wf_ext v2); [done | done |].
  apply (put_dir_wf _ _ td); [done | done | done | by eapply (vw_dir v Hwf) |].
  intros E. exfalso. apply Hne. by eapply (vw_roots v Hwf).
Qed.

Lemma entry_self_wf : dir_wf v' d'.
Proof using All.
  destruct entry_root as (Hd & [td Htd]). pose proof (dw_root v d Hd) as Hr.
  split; cbn; [by apply entry_frame_ok | rewrite length_insert; apply Hd |].
  intros j Hj. rewrite entry_tab by done.
  change (pde v' d' j) with (pde v' d j). rewrite entry_pde by done.
  destruct (decide (j = i)) as [->|Hji].
  - rewrite decide_True by done. pose proof Hent as He. pose proof entry_frame_ok as Hfo.
    destruct (Z.testbit w 0); [|done].
    destruct He as (? & ? & ?). split; [by apply Hfo | done].
  - rewrite decide_False by tauto. pose proof (dw_tab v d Hd j Hj) as Ht.
    destruct (Z.testbit (pde v d j) 0); [|done]. destruct Ht as (Hfo & ?).
    split; [by apply entry_frame_ok | done].
Qed.

Lemma entry_dirs : dirs v' = <[k := d']> (dirs v).
Proof using All. unfold v', v2. cbn. by destruct (put_same v (phys_dir d) i w) as (_ & -> & _). Qed.

Lemma entry_dir k2 d2 :
  dirs v' !! k2 = Some d2 -> (k2 = k /\ d2 = d') \/ (k2 <> k /\ dirs v !! k2 = Some d2).
Proof using All.
  rewrite entry_dirs. destruct (decide (k2 = k)) as [->|Hne].
  - rewrite lookup_insert_eq. intros [= <-]. by left.
  - rewrite lookup_insert_ne by done. by right.
Qed.

Lemma entry_same : pmm v' = pmm v /\ kernel_dir v' = kernel_dir v.
Proof using All. unfold v', v2. cbn. split; apply put_same. Qed.

Lemma entry_vm_wf : vm_wf v'.
Proof using All.
  destruct entry_root as (Hd & _). destruct entry_same as [Epm _].
  split; [rewrite Epm; apply Hwf | rewrite Epm; apply Hwf | ..].
  - intros k2 d2 [[-> ->]|[? ?]]%entry_dir; [apply entry_self_wf | by eapply entry_other_wf].
  - intros k1 k2 d1 d2 [[-> ->]|[? ?]]%entry_dir [[-> ->]|[? ?]]%entry_dir E;
      cbn in E; [done | | |]; by eapply (vw_roots v Hwf).
  - intros k1 k2 d1 d2 j [[-> ->]|[? ?]]%entry_dir [[-> ->]|[? ?]]%entry_dir Hj; cbn;
      rewrite ?entry_tab by done; try case_decide;
      first [by eapply Hroot | by eapply (vw_apart v Hwf)].
  - intros k1 k2 d1 d2 j1 j2 [[-> ->]|[? H1]]%entry_dir [[-> ->]|[? H2]]%entry_dir Hj1 Hj2;
      rewrite ?entry_tab by done; repeat case_decide; subst; intros Hnz E; try done;
      try (refine (vw_share v Hwf _ _ _ _ _ _ _ _ _ _ Hnz E); done).
    + symmetry. by apply (Hown Hnz k d).
    + apply (Hown ltac:(congruence) k d); done.
    + symmetry. by apply (Hown Hnz k2 d2).
    + apply (Hown ltac:(congruence) k1 d1); done.
Qed.

(** Frames other than the directory are as before. *)
Lemma entry_phys a : a <> phys_dir d -> phys v' !! a = phys v !! a.
Proof using All.
  intros Ha. destruct entry_root as (_ & [td (Htd & _)]).
  unfold v', v2, put. cbn. rewrite Htd. cbn. by rewrite lookup_insert_ne.
Qed.

Lemma entry_leaf_other k2 d2 va :
  k2 <> k -> dirs v !! k2 = Some d2 -> is_u32 va -> leaf v' d2 va = leaf v d2 va.
Proof using All.
  intros Hne Hk2 Hva. pose proof (vw_dir v Hwf _ _ Hk2) as Hd2.
  destruct (indices va Hva) as [Hpi _].
  unfold leaf. rewrite entry_pde by (done || apply Hd2).
  rewrite decide_False by (intros [E _]; apply Hne; by eapply (vw_roots v Hwf)).
  rewrite entry_phys by (by eapply (vw_apart v Hwf)). done.
Qed.

Lemma entry_leaf va :
  is_u32 va ->
  leaf v' d' va =
  if decide (pd_index va = i)
  then if Z.testbit w 0
       then match phys v !! t with Some x => x !!! Z.to_nat (pt_index va) | None => 0 end
       else 0
  else leaf v d va.
Proof using All.
  intros Hva. destruct entry_root as (Hd & _).
  pose proof (dw_root v d Hd) as Hr. destruct (indices va Hva) as [Hpi _].
  unfold leaf. rewrite entry_tab by done.
  change (pde v' d' (pd_index va)) with (pde v' d (pd_index va)). rewrite entry_pde by done.
  destruct (decide (pd_index va = i)) as [E|E].
  - rewrite decide_True by done. rewrite entry_phys by (by eapply Hroot). done.
  - rewrite decide_False by tauto.
    rewrite entry_phys by (by eapply (vw_apart v Hwf)). done.
Qed.

End entry.

(** A new table, entered in the directory: nothing else of the address spaces changes. *)
Lemma new_table_got v k d i flags f s :
  vm_wf v -> dirs v !! k = Some d -> 0 <= i < 1024 -> tab d i = 0 -> f ∈ fa_avail (pmm v) -> 0 < f ->
  fa_avail s = fa_avail (pmm v) ∖ {[ f ]} -> fa_total s = fa_total (pmm v) -> fa_ok s ->
  let w := Z.lor (Z.lor (Z.lor (f * 4096) PAGE_PRESENT) PAGE_WRITE) (Z.land flags PAGE_USER) in
  let d' := mkDir (phys_dir d) (<[Z.to_nat i := f * 4096]> (page_tables d)) in
  let v2 := put (grab v f s) (phys_dir d) i w in
  tab d' i = f * 4096 /\ got_table v k d i flags (set_dirs v2 (<[k := d']> (dirs v2))) d'.
Proof.
  intros Hwf Hk Hi Ht Hf Hpos Hs Htot Hok w d' v2. pose proof (vw_dir v Hwf _ _ Hk) as Hd.
  pose proof (fa_range _ _ (vw_fa v Hwf) Hf) as Hfr. pose proof (vw_zero v Hwf) as Hz.
  pose proof (grab_vm_wf v f s Hwf Hok Hf Hs Htot) as Hwf1.
  destruct (grab_new v f s Hwf Hf Hs Htot) as [Hnew (Hnt & _)].
  assert (Hd1 : dir_wf (grab v f s) d) by (by eapply (vw_dir _ Hwf1)).
  destruct (new_pde_bits f flags ltac:(lia)) as (W1 & W2 & W3 & W4 & W5 & W6).
  fold w in W1, W2, W3, W4, W5, W6.
  pose proof (fa_total_bound _ (vw_fa v Hwf)) as Hb. change (2 ^ 20) with 1048576 in Hb.
  assert (Hw : is_u32 w) by (zify_words; lia).
  assert (Hent : if Z.testbit w 0 then frame_ok (grab v f s) (f * 4096) /\
      w / 4096 * 4096 = f * 4096 /\ Z.testbit w 1 = true else f * 4096 = 0)
    by (rewrite W2, W1; done).
  assert (Hroot : forall k2 d2, dirs (grab v f s) !! k2 = Some d2 -> f * 4096 <> phys_dir d2).
  { intros k2 d2 Hk2 E. symmetry in E. revert E. apply (fresh_frame v f); [done..|].
    apply (vw_dir v Hwf _ _ Hk2). }
  assert (Hown : f * 4096 <> 0 -> forall k2 d2 j, dirs (grab v f s) !! k2 = Some d2 ->
      0 <= j < 1024 -> tab d2 j = f * 4096 -> j = i).
  { intros _ k2 d2 j Hk2 Hj E. exfalso. revert E. by apply (fresh_tab v f k2). }
  assert (Htab : forall j, 0 <= j < 1024 -> tab d' j = if decide (j = i) then f * 4096 else tab d j)
    by exact (entry_tab (grab v f s) k d i w _ Hwf1 Hk Hi Ht Hw Hent Hroot Hown).
  assert (Hti : tab d' i = f * 4096) by (rewrite Htab by done; by rewrite decide_True).
  split; [exact Hti|].
  pose proof (entry_pde (grab v f s) k d i w _ Hwf1 Hk Hi Ht Hw Hent Hroot Hown) as Hpde.
  destruct (entry_same (grab v f s) k d i w _ Hwf1 Hk Hi Ht Hw Hent Hroot Hown) as [Epm Ek].
  fold d' in Hpde, Epm, Ek.
  split.
  - exact (entry_vm_wf (grab v f s) k d i w _ Hwf1 Hk Hi Ht Hw Hent Hroot Hown).
  - exact (entry_dirs (grab v f s) k d i w _ Hwf1 Hk Hi Ht Hw Hent Hroot Hown).
  - exact Ek.
  - done.
  - lia.
  - intros j Hj Hne'. rewrite Htab by done. by rewrite decide_False.
  - done.
  - intros _. exists f. split; [done|]. split; [done|]. rewrite <- Hs. f_equal. exact Epm.
  - intros va Hva. etransitivity;
      [by apply (entry_leaf (grab v f s) k d i w _ Hwf1 Hk Hi Ht Hw Hent Hroot Hown va)|].
    rewrite W2, Hnt, grab_leaf by done. case_decide as E; [|done].
    rewrite leaf_no_table by congruence. apply lookup_total_replicate_2.
    destruct (indices va Hva). lia.
  - intros k2 d2 va Hne' Hk2 Hva. etransitivity;
      [by apply (entry_leaf_other (grab v f s) k d i w _ Hwf1 Hk Hi Ht Hw Hent Hroot Hown k2 d2 va)|].
    apply grab_leaf; [done | done | by eapply (vw_dir v Hwf) | done].
  - intros Hfl. rewrite (Hpde d') by (done || apply Hd1). rewrite decide_True by done.
    by rewrite W4.
  - done.
  - intros j Hj Hne'. rewrite (Hpde d') by (done || apply Hd1).
    rewrite decide_False by tauto. rewrite grab_pde by (done || apply Hd). done.
  - intros k2 d2 j Hne' Hk2 Hj. pose proof (vw_dir v Hwf _ _ Hk2) as Hd2.
    rewrite Hpde by (done || apply (vw_dir _ Hwf1 _ _ Hk2)).
    rewrite grab_pde by (done || apply Hd2).
    rewrite decide_False; [done|]. intros [E _]. apply Hne'. by eapply (vw_roots v Hwf).
Qed.

Lemma get_table_absent v k d i flags :
  vm_wf v -> dirs v !! k = Some d -> 0 <= i < 1024 -> tab d i = 0 ->
  if decide (fa_avail (pmm v) = ∅)
  then GetOrCreatePageTable v k i flags = Ok (0, v)
  else exists v' d', GetOrCreatePageTable v k i flags = Ok (tab d' i, v') /\
       got_table v k d i flags v' d'.
Proof.
  intros Hwf Hk Hi Ht. pose proof (vw_dir v Hwf _ _ Hk) as Hd.
  pose proof (dw_root v d Hd) as [_ _ _ [td Htd] _].
  unfold GetOrCreatePageTable, get_dir. rewrite Hk. cbn [mbind result_bind].
  rewrite (load32_ok _ _ td) by done. cbn [mbind result_bind].
  assert (Epde : td !!! Z.to_nat i = pde v d i).
  { unfold pde. destruct Htd as (-> & _). done. }
  rewrite Epde. change PAGE_PRESENT with (2 ^ 0). rewrite land_pow2_eqb by lia.
  rewrite (present_tab v d i Hd Hi), Ht. cbn [Z.eqb negb].
  destruct (fa_alloc_spec (pmm v) (vw_fa v Hwf)) as [[He Ha]|(f & s & Ha & Hf & Hs & Htot & Hok)].
  { rewrite decide_True by done. rewrite Ha. cbn. by destruct v. }
  rewrite decide_False by set_solver. rewrite Ha. cbn [mbind result_bind].
  pose proof (fa_range _ _ (vw_fa v Hwf) Hf) as Hfr. pose proof (vw_zero v Hwf) as Hz.
  assert (0 < f) by (destruct (decide (f = 0)); [by subst | lia]).
  pose proof (grab_vm_wf v f s Hwf Hok Hf Hs Htot) as Hwf1.
  assert (Hd1 : dir_wf (grab v f s) d) by (by eapply (vw_dir _ Hwf1)).
  destruct (dw_root _ _ Hd1) as [_ _ _ [td1 Htd1] _].
  destruct (Z.eqb_spec (f * 4096) 0); [lia|].
  change (memzero32 (set_pmm v s) (f * 4096)) with (grab v f s).
  change (2 ^ 0) with PAGE_PRESENT.
  rewrite (store32_put _ _ td1) by done. cbn [mbind result_bind].
  rewrite arr_set_in_range by (rewrite (dw_len v d Hd); lia). cbn [mbind result_bind].
  destruct (new_table_got v k d i flags f s) as [Hti Hgot]; [done..|].
  eexists _, _. split; [|exact Hgot]. by rewrite Hti.
Qed.

(** *** Mapping and unmapping a page *)

Lemma pte_index_eq va va' :
  is_u32 va -> is_u32 va' -> va' / 4096 <> va / 4096 ->
  pd_index va' = pd_index va -> pt_index va' <> pt_index va.
Proof. intros H H' Hne E1 E2. apply Hne. by apply same_page. Qed.

(** The table that serves [va] in [d] gets the word [w] for it. *)
Lemma put_pte v k d va w :
  vm_wf v -> dirs v !! k = Some d -> is_u32 va -> is_u32 w -> tab d (pd_index va) <> 0 ->
  let v' := put v (tab d (pd_index va)) (pt_index va) w in
  store32 v (tab d (pd_index va)) (pt_index va) w = Ok v' /\ vm_wf v' /\
  (forall k2 d2 j, dirs v !! k2 = Some d2 -> 0 <= j < 1024 -> pde v' d2 j = pde v d2 j) /\
  (forall k2 d2 va', dirs v !! k2 = Some d2 -> is_u32 va' ->
     leaf v' d2 va' =
     if decide (tab d2 (pd_index va) = tab d (pd_index va) /\ va' / 4096 = va / 4096)
     then w else leaf v d2 va').
Proof.
  intros Hwf Hk Hva Hw Ht. destruct (indices va Hva) as [Hi Hj].
  pose proof (vw_dir v Hwf _ _ Hk) as Hd.
  destruct (leaf_table v d va Hd Hva Ht) as (_ & t & Hta & _). cbv zeta.
  split; [by apply (store32_put _ _ t)|].
  assert (Hne : forall k2 d2, dirs v !! k2 = Some d2 -> phys_dir d2 <> tab d (pd_index va)).
  { intros k2 d2 Hk2 E. symmetry in E. revert E. by eapply (vw_apart v Hwf). }
  split.
  { apply (put_vm_wf _ _ t); [done..|]. intros k2 d2 Hk2 E. by destruct (Hne k2 d2 Hk2). }
  split.
  { intros k2 d2 j Hk2 Hj2. rewrite (put_pde _ _ t) by (done || lia || apply (vw_dir v Hwf _ _ Hk2)).
    rewrite decide_False; [done|]. intros [E _]. by destruct (Hne k2 d2 Hk2). }
  intros k2 d2 va' Hk2 Hva'. destruct (indices va' Hva') as [Hi' Hj'].
  rewrite (put_leaf_table _ _ t) by
    (done || (by eapply (vw_dir v Hwf)) || (intros E; by destruct (Hne k2 d2 Hk2))).
  destruct (decide (tab d2 (pd_index va') = tab d (pd_index va) /\ pt_index va' = pt_index va))
    as [[E1 E2]|E].
  - assert (Ei : pd_index va = pd_index va').
    { refine (vw_share v Hwf k k2 d d2 _ _ Hk Hk2 Hi Hi' Ht _). done. }
    rewrite decide_True; [done|]. rewrite Ei. split; [by rewrite <- Ei in E1 |- *|].
    by apply same_page.
  - rewrite decide_False; [done|]. intros [E1 E2]. apply E.
    apply same_page in E2 as [E2 E3]; [|done..]. by rewrite E2, E3.
Qed.

Lemma mmu_by_leaf v v' k k' d d' va va' :
  vm_wf v -> vm_wf v' -> dirs v !! k = Some d -> dirs v' !! k' = Some d' ->
  is_u32 va -> is_u32 va' -> va' mod 4096 = va mod 4096 ->
  leaf v' d' va' = leaf v d va ->
  (Z.testbit (leaf v d va) 0 = true ->
   Z.testbit (pde v' d' (pd_index va')) 2 = Z.testbit (pde v d (pd_index va)) 2) ->
  mmu v' (phys_dir d') va' = mmu v (phys_dir d) va.
Proof.
  intros Hwf Hwf' Hk Hk' Hva Hva' Em El Eu.
  rewrite !mmu_leaf by (done || by eapply vw_dir). rewrite El, Em.
  destruct (Z.testbit (leaf v d va) 0) eqn:E; [|done]. by rewrite Eu.
Qed.

(** Forgetting the user bit. *)
Definition place (t : option translation) : option (Z * bool) :=
  (fun x => (tr_addr x, tr_write x)) <$> t.

(** What a successful [MapPage] does. *)
Record page_mapped v (k : Z) d va w flags v' d' : Prop := {
  pm_wf : vm_wf v';
  pm_dirs : dirs v' = <[k := d']> (dirs v);
  pm_kernel : kernel_dir v' = kernel_dir v;
  pm_root : phys_dir d' = phys_dir d;
  pm_avail : if tab d (pd_index va) =? 0
    then exists f, f ∈ fa_avail (pmm v) /\ fa_avail (pmm v') = fa_avail (pmm v) ∖ {[ f ]}
    else pmm v' = pmm v;
  pm_tab : tab d' (pd_index va) <> 0;
  pm_tabs : forall j, 0 <= j < 1024 -> j <> pd_index va -> tab d' j = tab d j;
  pm_leaf : forall va', is_u32 va' ->
    leaf v' d' va' = if decide (va' / 4096 = va / 4096) then w else leaf v d va';
  pm_leaf_other : forall k2 d2 va', k2 <> k -> dirs v !! k2 = Some d2 -> is_u32 va' ->
    leaf v' d2 va' =
    if decide (tab d2 (pd_index va) = tab d' (pd_index va) /\ va' / 4096 = va / 4096)
    then w else leaf v d2 va';
  pm_shared : forall k2 d2, k2 <> k -> dirs v !! k2 = Some d2 ->
    tab d2 (pd_index va) = tab d' (pd_index va) <->
    (tab d2 (pd_index va) = tab d (pd_index va) /\ tab d (pd_index va) <> 0);
  pm_user : Z.testbit flags 2 = true -> Z.testbit (pde v' d' (pd_index va)) 2 = true;
  pm_pde_same : Z.testbit flags 2 = false -> tab d (pd_index va) <> 0 ->
    pde v' d' (pd_index va) = pde v d (pd_index va);
  pm_pde : forall j, 0 <= j < 1024 -> j <> pd_index va -> pde v' d' j = pde v d j;
  pm_pde_other : forall k2 d2 j, k2 <> k -> dirs v !! k2 = Some d2 -> 0 <= j < 1024 ->
    pde v' d2 j = pde v d2 j;
}.

Lemma got_then_put v k d va flags w v1 d1 :
  vm_wf v -> dirs v !! k = Some d -> is_u32 va -> is_u32 w ->
  got_table v k d (pd_index va) flags v1 d1 ->
  exists v', store32 v1 (tab d1 (pd_index va)) (pt_index va) w = Ok v' /\
    page_mapped v k d va w flags v' d1.
Proof.
  intros Hwf Hk Hva Hw G. destruct (indices va Hva) as [Hi _].
  pose proof (gt_wf _ _ _ _ _ _ _ G) as Hwf1. pose proof (gt_dirs _ _ _ _ _ _ _ G) as Hdirs.
  assert (Hk1 : dirs v1 !! k = Some d1) by (rewrite Hdirs; apply lookup_insert_eq).
  assert (Hk2' : forall k2 d2, k2 <> k -> dirs v !! k2 = Some d2 -> dirs v1 !! k2 = Some d2)
    by (intros; rewrite Hdirs; by rewrite lookup_insert_ne).
  destruct (put_pte v1 k d1 va w Hwf1 Hk1 Hva Hw (gt_tab _ _ _ _ _ _ _ G))
    as (Hst & Hwf' & Hpde & Hleaf).
  eexists. split; [exact Hst|]. clear Hst.
  destruct (put_same v1 (tab d1 (pd_index va)) (pt_index va) w) as (Ep & Ed & Ek).
  split; rewrite ?Ed, ?Ek, ?Ep; try (done || apply G).
  - destruct (Z.eqb_spec (tab d (pd_index va)) 0) as [E|E].
    + destruct (gt_new _ _ _ _ _ _ _ G E) as (f & ? & _ & ?). by exists f.
    + by apply (gt_kept _ _ _ _ _ _ _ G).
  - intros va' Hva'. rewrite (Hleaf k d1) by done. case_decide as E1; case_decide as E2; try tauto.
    by apply (gt_leaf _ _ _ _ _ _ _ G).
  - intros k2 d2 va' Hne Hk2 Hva'. rewrite (Hleaf k2 d2) by eauto.
    case_decide; [done|]. by eapply (gt_leaf_other _ _ _ _ _ _ _ G).
  - intros k2 d2 Hne Hk2. destruct (decide (tab d (pd_index va) = 0)) as [E|E].
    + split; [|tauto]. intros E2. exfalso.
      destruct (gt_new _ _ _ _ _ _ _ G E) as (f & Hf & Ef & _).
      rewrite Ef in E2. revert E2. by apply (fresh_tab v f k2 d2).
    + destruct (gt_kept _ _ _ _ _ _ _ G E) as [-> _]. tauto.
  - intros Hfl. rewrite (Hpde k d1) by done. by apply (gt_user _ _ _ _ _ _ _ G).
  - intros Hfl Ht. rewrite (Hpde k d1) by done. by apply (gt_pde_same _ _ _ _ _ _ _ G).
  - intros j Hj Hne. rewrite (Hpde k d1) by done. by apply (gt_pde _ _ _ _ _ _ _ G).
  - intros k2 d2 j Hne Hk2 Hj. rewrite (Hpde k2 d2) by eauto.
    by eapply (gt_pde_other _ _ _ _ _ _ _ G).
Qed.

Definition new_pte (pa flags : Z) : Z := Z.lor (Z.land pa 0xFFFFF000) (Z.land flags 0xFFF).

Lemma MapPage_acts v k d va pa flags :
  vm_wf v -> dirs v !! k = Some d -> is_u32 va -> is_u32 pa ->
  if decide (tab d (pd_index va) = 0 /\ fa_avail (pmm v) = ∅)
  then MapPage v k va pa flags = Ok v
  else exists v' d', MapPage v k va pa flags = Ok v' /\
         page_mapped v k d va (new_pte pa flags) flags v' d'.
Proof.
  intros Hwf Hk Hva Hpa. destruct (indices va Hva) as [Hi _].
  destruct (new_pte_bits pa flags Hpa) as (_ & _ & Hw).
  assert (Hgot : forall v1 d1,
    GetOrCreatePageTable v k (pd_index va) flags = Ok (tab d1 (pd_index va), v1) ->
    got_table v k d (pd_index va) flags v1 d1 ->
    exists v' d', MapPage v k va pa flags = Ok v' /\
      page_mapped v k d va (new_pte pa flags) flags v' d').
  { intros v1 d1 E G. destruct (got_then_put v k d va flags _ v1 d1 Hwf Hk Hva Hw G)
      as (v' & Hst & Hm).
    exists v', d1. split; [|done]. unfold MapPage. rewrite E. cbn [mbind result_bind].
    pose proof (gt_tab _ _ _ _ _ _ _ G).
    destruct (Z.eqb_spec (tab d1 (pd_index va)) 0); [done|]. exact Hst. }
  destruct (decide (tab d (pd_index va) = 0)) as [E|E].
  - pose proof (get_table_absent v k d _ flags Hwf Hk Hi E) as Hg.
    destruct (decide (fa_avail (pmm v) = ∅)) as [Ea|Ea].
    + rewrite decide_True by done. unfold MapPage. by rewrite Hg.
    + rewrite decide_False by tauto. destruct Hg as (v1 & d1 & Hg & G). by eapply Hgot.
  - rewrite decide_False by tauto.
    destruct (get_table_present v k d _ flags Hwf Hk Hi E) as (v1 & Hg & G). by eapply Hgot.
Qed.

Lemma page_mapped_mmu v k d va pa flags v' d' :
  vm_wf v -> dirs v !! k = Some d -> is_u32 va -> is_u32 pa ->
  page_mapped v k d va (new_pte pa flags) flags v' d' ->
  mmu v' (phys_dir d) va =
  if Z.testbit flags 0
  then Some (mkTr (pa / 4096 * 4096 + va mod 4096) (Z.testbit flags 1) (Z.testbit flags 2))
  else None.
Proof.
  intros Hwf Hk Hva Hpa Hm. pose proof (pm_wf _ _ _ _ _ _ _ _ Hm) as Hwf'.
  assert (Hk' : dirs v' !! k = Some d')
    by (rewrite (pm_dirs _ _ _ _ _ _ _ _ Hm); apply lookup_insert_eq).
  rewrite <- (pm_root _ _ _ _ _ _ _ _ Hm).
  rewrite mmu_leaf by (done || by eapply vw_dir).
  rewrite (pm_leaf _ _ _ _ _ _ _ _ Hm), decide_True by done.
  destruct (new_pte_bits pa flags Hpa) as (W1 & W2 & _). fold (new_pte pa flags) in W1, W2.
  rewrite W1, !W2 by lia. destruct (Z.testbit flags 0); [|done]. do 2 f_equal.
  destruct (Z.testbit flags 2) eqn:E; [|apply andb_false_r].
  by rewrite (pm_user _ _ _ _ _ _ _ _ Hm).
Qed.

(** The other pages of the directory: mapping a user page opens the directory entry to user
    programs, so the pages under it get the user right their own table entry has. *)
Definition opened v d va flags va' : option translation :=
  if (pd_index va' =? pd_index va) && Z.testbit flags 2
  then (fun x => mkTr (tr_addr x) (tr_write x) (Z.testbit (leaf v d va') 2)) <$> mmu v (phys_dir d) va'
  else mmu v (phys_dir d) va'.

Lemma page_mapped_others v k d va w flags v' d' va' :
  vm_wf v -> dirs v !! k = Some d -> is_u32 va -> is_u32 va' -> va' / 4096 <> va / 4096 ->
  page_mapped v k d va w flags v' d' ->
  mmu v' (phys_dir d) va' = opened v d va flags va'.
Proof.
  intros Hwf Hk Hva Hva' Hne Hm. pose proof (pm_wf _ _ _ _ _ _ _ _ Hm) as Hwf'.
  pose proof (vw_dir v Hwf _ _ Hk) as Hd. destruct (indices va' Hva') as [Hi' _].
  assert (Hk' : dirs v' !! k = Some d')
    by (rewrite (pm_dirs _ _ _ _ _ _ _ _ Hm); apply lookup_insert_eq).
  assert (El : leaf v' d' va' = leaf v d va')
    by (rewrite (pm_leaf _ _ _ _ _ _ _ _ Hm), decide_False; done).
  unfold opened. rewrite <- (pm_root _ _ _ _ _ _ _ _ Hm) at 1.
  destruct (Z.eqb_spec (pd_index va') (pd_index va)) as [Ei|Ei]; cbn [andb].
  - destruct (Z.testbit flags 2) eqn:Hfl.
    + rewrite !mmu_leaf by (done || by eapply vw_dir).
      rewrite El, Ei, (pm_user _ _ _ _ _ _ _ _ Hm) by done.
      by destruct (Z.testbit (leaf v d va') 0).
    + eapply mmu_by_leaf; [done..|]. intros Hp.
      rewrite Ei, (pm_pde_same _ _ _ _ _ _ _ _ Hm); [done | done |].
      rewrite <- Ei. intros E. rewrite leaf_no_table, Z.bits_0 in Hp by done. done.
  - eapply mmu_by_leaf; [done..|]. intros _. by rewrite (pm_pde _ _ _ _ _ _ _ _ Hm).
Qed.

(** Through another directory only a shared table shows the change. *)
Lemma page_mapped_elsewhere v k d va w flags v' d' k2 d2 va' :
  vm_wf v -> is_u32 va -> is_u32 va' -> k2 <> k ->
  page_mapped v k d va w flags v' d' -> dirs v !! k2 = Some d2 ->
  tab d2 (pd_index va) <> tab d (pd_index va) \/ tab d (pd_index va) = 0 \/
    va' / 4096 <> va / 4096 ->
  mmu v' (phys_dir d2) va' = mmu v (phys_dir d2) va'.
Proof.
  intros Hwf Hva Hva' Hne Hm Hk2 Hsep. pose proof (pm_wf _ _ _ _ _ _ _ _ Hm) as Hwf'.
  destruct (indices va' Hva') as [Hi' _].
  assert (Hk' : dirs v' !! k2 = Some d2)
    by (rewrite (pm_dirs _ _ _ _ _ _ _ _ Hm); by rewrite lookup_insert_ne).
  eapply mmu_by_leaf; [done..| |].
  - rewrite (pm_leaf_other _ _ _ _ _ _ _ _ Hm k2 d2) by done.
    rewrite decide_False; [done|]. intros [E1 E2].
    apply (pm_shared _ _ _ _ _ _ _ _ Hm k2 d2) in E1; [|done..]. tauto.
  - intros _. by rewrite (pm_pde_other _ _ _ _ _ _ _ _ Hm k2 d2).
Qed.

(** The same page through a directory that shares the table. *)
Lemma page_mapped_shared v k d va pa flags v' d' k2 d2 :
  vm_wf v -> is_u32 va -> is_u32 pa -> k2 <> k ->
  page_mapped v k d va (new_pte pa flags) flags v' d' -> dirs v !! k2 = Some d2 ->
  tab d2 (pd_index va) = tab d (pd_index va) -> tab d (pd_index va) <> 0 ->
  mmu v' (phys_dir d2) va =
  if Z.testbit flags 0
  then Some (mkTr (pa / 4096 * 4096 + va mod 4096) (Z.testbit flags 1)
               (Z.testbit (pde v d2 (pd_index va)) 2 && Z.testbit flags 2))
  else None.
Proof.
  intros Hwf Hva Hpa Hne Hm Hk2 Ht Hnz. pose proof (pm_wf _ _ _ _ _ _ _ _ Hm) as Hwf'.
  destruct (indices va Hva) as [Hi _].
  assert (Hk' : dirs v' !! k2 = Some d2)
    by (rewrite (pm_dirs _ _ _ _ _ _ _ _ Hm); by rewrite lookup_insert_ne).
  rewrite mmu_leaf by (done || by eapply vw_dir).
  rewrite (pm_leaf_other _ _ _ _ _ _ _ _ Hm k2 d2), decide_True;
    [|split; [|done]; by apply (pm_shared _ _ _ _ _ _ _ _ Hm k2 d2) | done..].
  rewrite (pm_pde_other _ _ _ _ _ _ _ _ Hm k2 d2) by done.
  destruct (new_pte_bits pa flags Hpa) as (W1 & W2 & _). fold (new_pte pa flags) in W1, W2.
  by rewrite W1, !W2 by lia.
Qed.

(** C6: Mapping a page.  On well-formed paging structures [MapPage] returns;
    with no table for the address and no free frame it changes nothing.
    Otherwise the processor then translates the page to the frame of
    [physical_addr] with exactly the write and user rights of [flags] (and
    faults when [flags] is not present).  Every other page of the directory keeps
    its frame and its write right; it keeps its user right too, except that a
    mapping with the user flag opens the directory entry, after which the pages
    under that entry have the user right of their own table entry.  A directory
    that shares the table sees the new translation of the page, narrowed by its
    own directory entry, and no other change; the other directories see no
    change, and the structures stay well formed. *)
Theorem MapPage_correct v k d va pa flags :
  vm_wf v -> dirs v !! k = Some d -> is_u32 va -> is_u32 pa ->
  (tab d (pd_index va) = 0 /\ fa_avail (pmm v) = ∅ /\ MapPage v k va pa flags = Ok v) \/
  (exists v', MapPage v k va pa flags = Ok v' /\ vm_wf v' /\
     mmu v' (phys_dir d) va =
       (if Z.testbit flags 0
        then Some (mkTr (pa / 4096 * 4096 + va mod 4096) (Z.testbit flags 1) (Z.testbit flags 2))
        else None) /\
     (forall va', is_u32 va' -> va' / 4096 <> va / 4096 ->
        mmu v' (phys_dir d) va' = opened v d va flags va') /\
     (forall k2 d2 va', k2 <> k -> dirs v !! k2 = Some d2 -> is_u32 va' ->
        tab d2 (pd_index va) <> tab d (pd_index va) \/ tab d (pd_index va) = 0 \/
          va' / 4096 <> va / 4096 ->
        mmu v' (phys_dir d2) va' = mmu v (phys_dir d2) va') /\
     (forall k2 d2, k2 <> k -> dirs v !! k2 = Some d2 ->
        tab d2 (pd_index va) = tab d (pd_index va) -> tab d (pd_index va) <> 0 ->
        mmu v' (phys_dir d2) va =
          (if Z.testbit flags 0
           then Some (mkTr (pa / 4096 * 4096 + va mod 4096) (Z.testbit flags 1)
                        (Z.testbit (pde v d2 (pd_index va)) 2 && Z.testbit flags 2))
           else None))).
Proof.
  intros Hwf Hk Hva Hpa. pose proof (MapPage_acts v k d va pa flags Hwf Hk Hva Hpa) as H.
  case_decide as E; [left; tauto|]. right. destruct H as (v' & d' & HM & Hm).
  exists v'. split; [done|]. split; [apply Hm|]. split; [by eapply page_mapped_mmu|].
  split; [intros va' ? ?; by apply (page_mapped_others v k d va (new_pte pa flags) flags v' d' va' Hwf Hk Hva)|].
  split; [intros k2 d2 va' ? ? ? ?; by eapply (page_mapped_elsewhere v k d va _ flags v' d' k2 d2)|].
  intros k2 d2 ? ? ? ?. by eapply (page_mapped_shared v k d va pa flags v' d' k2 d2).
Qed.

(** Unmapping a page.  [UnmapPage] returns, the processor then faults on
    every address of the page, the other pages of the directory keep their whole
    translation, and the structures stay well formed. *)
Theorem UnmapPage_correct v k d va :
  vm_wf v -> dirs v !! k = Some d -> is_u32 va ->
  exists v', UnmapPage v k va = Ok v' /\ vm_wf v' /\ pmm v' = pmm v /\
    forall va', is_u32 va' ->
      mmu v' (phys_dir d) va' =
      if va' / 4096 =? va / 4096 then None else mmu v (phys_dir d) va'.
Proof.
  intros Hwf Hk Hva. pose proof (vw_dir v Hwf _ _ Hk) as Hd. destruct (indices va Hva) as [Hi _].
  unfold UnmapPage, get_dir. rewrite Hk. cbn [mbind result_bind].
  rewrite find_table_ok by done. cbn [mbind result_bind].
  destruct (Z.eqb_spec (tab d (pd_index va)) 0) as [E|E].
  - exists v. split; [done|]. split; [done|]. split; [done|]. intros va' Hva'.
    destruct (Z.eqb_spec (va' / 4096) (va / 4096)) as [Ep|]; [|done].
    apply same_page in Ep as [Ep _]; [|done..].
    rewrite mmu_leaf, leaf_no_table, Z.bits_0 by congruence. done.
  - destruct (put_pte v k d va 0 Hwf Hk Hva ltac:(zify_words; lia) E) as (Hst & Hwf' & Hpde & Hleaf).
    eexists. split; [exact Hst|]. split; [done|]. split; [apply put_same|].
    intros va' Hva'. destruct (indices va' Hva') as [Hi' _].
    set (v' := put _ _ _ _) in *.
    assert (Hk' : dirs v' !! k = Some d).
    { unfold v'. by destruct (put_same v (tab d (pd_index va)) (pt_index va) 0) as (_ & -> & _). }
    specialize (Hleaf k d va' Hk Hva').
    destruct (Z.eqb_spec (va' / 4096) (va / 4096)) as [Ep|Ep].
    + rewrite decide_True in Hleaf by done.
      rewrite mmu_leaf, Hleaf, Z.bits_0 by (done || by eapply vw_dir). done.
    + rewrite decide_False in Hleaf by tauto.
      eapply mmu_by_leaf; [done..|]. intros _. by rewrite (Hpde k d).
Qed.

(** *** Creating directories *)

(** A new directory maps nothing and takes one frame. *)
Record dir_made v (k : Z) v' d : Prop := {
  dm_wf : vm_wf v';
  dm_dirs : dirs v' = <[k := d]> (dirs v);
  dm_kernel : kernel_dir v' = kernel_dir v;
  dm_avail : exists f, f ∈ fa_avail (pmm v) /\ phys_dir d = f * 4096 /\
    fa_avail (pmm v') = fa_avail (pmm v) ∖ {[ f ]};
  dm_tab : forall j, 0 <= j < 1024 -> tab d j = 0;
  dm_leaf_other : forall k2 d2 va, k2 <> k -> dirs v !! k2 = Some d2 -> is_u32 va ->
    leaf v' d2 va = leaf v d2 va;
  dm_pde_other : forall k2 d2 j, k2 <> k -> dirs v !! k2 = Some d2 ->
    pde v' d2 j = pde v d2 j;
}.

Lemma new_dir_acts v k :
  vm_wf v -> dirs v !! k = None -> fa_avail (pmm v) <> ∅ ->
  exists v' d, PageDirectory_new v k = Ok v' /\ dir_made v k v' d.
Proof.
  intros Hwf Hk Hne. unfold PageDirectory_new.
  destruct (fa_alloc_spec (pmm v) (vw_fa v Hwf)) as [[? _]|(f & s & Ha & Hf & Hs & Htot & Hok)]; [done|].
  rewrite Ha. cbn [mbind result_bind].
  change (memzero32 (set_pmm v s) (f * 4096)) with (grab v f s).
  pose proof (grab_vm_wf v f s Hwf Hok Hf Hs Htot) as Hwf1.
  destruct (grab_new v f s Hwf Hf Hs Htot) as [Hnew (Hnt & _)].
  set (d := mkDir (f * 4096) (replicate 1024 0)).
  assert (Htab : forall j, 0 <= j < 1024 -> tab d j = 0).
  { intros j Hj. unfold tab, d. cbn. apply lookup_total_replicate_2. lia. }
  assert (Hother : forall k2 d2, dirs v !! k2 = Some d2 -> k2 <> k) by congruence.
  assert (Hfresh : forall k2 d2, dirs v !! k2 = Some d2 -> phys_dir d2 <> f * 4096).
  { intros k2 d2 Hk2. apply (fresh_frame v f); [done..|]. apply (vw_dir v Hwf _ _ Hk2). }
  eexists _, d. split; [reflexivity|]. split; cbn [dirs set_dirs kernel_dir pmm].
  - destruct Hwf1 as [H1 H2 H3 H4 H5 H6].
    assert (Hcase : forall k2 d2, <[k := d]> (dirs v) !! k2 = Some d2 ->
      (k2 = k /\ d2 = d) \/ (k2 <> k /\ dirs v !! k2 = Some d2)).
    { intros k2 d2. destruct (decide (k2 = k)) as [->|].
      - rewrite lookup_insert_eq. intros [= <-]. by left.
      - rewrite lookup_insert_ne by done. by right. }
    split; cbn [dirs set_dirs pmm]; [done | done | ..].
    + intros k2 d2 [[-> ->]|[? ?]]%Hcase;
        (apply (dir_wf_ext (grab v f s)); [done | done |]); [|by eapply H3].
      split; [done | apply length_replicate |]. intros j Hj.
      unfold pde, d. cbn [phys_dir]. rewrite Hnt, lookup_total_replicate_2 by lia.
      by rewrite Z.bits_0, Htab.
    + intros k1 k2 d1 d2 [[-> ->]|[? Hk1]]%Hcase [[-> ->]|[? Hk2]]%Hcase E; [done | | |by eapply H4].
      * by destruct (Hfresh _ _ Hk2).
      * by destruct (Hfresh _ _ Hk1).
    + intros k1 k2 d1 d2 j [[-> ->]|[? Hk1]]%Hcase [[-> ->]|[? Hk2]]%Hcase Hj;
        [| | |by apply (H5 k1 k2)].
      * rewrite Htab by done. cbn. destruct Hnew. lia.
      * rewrite Htab by done. destruct (dw_root _ _ (H3 _ _ Hk2)). lia.
      * cbn. by eapply fresh_tab.
    + intros k1 k2 d1 d2 j1 j2 [[-> ->]|[? Hk1]]%Hcase [[-> ->]|[? Hk2]]%Hcase Hj1 Hj2 Hnz E;
        try (rewrite Htab in Hnz by done; done); [|by eapply (H6 k1 k2 d1 d2)].
      exfalso. rewrite (Htab j2) in E by done. done.
  - done.
  - done.
  - exists f. done.
  - done.
  - intros k2 d2 va _ Hk2 Hva.
    exact (grab_leaf v f s d2 va Hwf Hf (vw_dir v Hwf _ _ Hk2) Hva).
  - intros k2 d2 j _ Hk2.
    exact (grab_pde v f s d2 j Hwf Hf (dw_root _ _ (vw_dir v Hwf _ _ Hk2))).
Qed.

(** The loop of [CreateKernel] after [n] pages. *)
Record identity_upto v0 (k root n : Z) v d : Prop := {
  iu_wf : vm_wf v;
  iu_dirs : dirs v = <[k := d]> (dirs v0);
  iu_root : phys_dir d = root;
  iu_tab : forall i, 0 <= i < 1024 -> tab d i <> 0 <-> i < (n + 1023) / 1024;
  iu_avail : Z.of_nat (size (fa_avail (pmm v))) =
    Z.of_nat (size (fa_avail (pmm v0))) - 1 - (n + 1023) / 1024;
  iu_leaf : forall va, is_u32 va ->
    leaf v d va = if va / 4096 <? n then new_pte (va / 4096 * 4096) PAGE_KERNEL else 0;
}.

Lemma size_take (X Y : gset Z) f :
  f ∈ X -> Y = X ∖ {[ f ]} -> Z.of_nat (size Y) = Z.of_nat (size X) - 1.
Proof.
  intros Hf ->. assert (size X <> 0%nat) by (rewrite size_non_empty_iff; set_solver).
  rewrite size_difference by set_solver. rewrite size_singleton. lia.
Qed.

Lemma identity_step v0 k root n v d :
  0 <= n < 4096 -> 5 <= Z.of_nat (size (fa_avail (pmm v0))) ->
  identity_upto v0 k root n v d ->
  exists v' d', MapPage v k (n * 0x1000) (n * 0x1000) PAGE_KERNEL = Ok v' /\
    identity_upto v0 k root (n + 1) v' d'.
Proof.
  intros Hn H5 [Hwf Hdirs Hroot Htab Hav Hleaf].
  assert (Hu : is_u32 (n * 4096)) by (zify_words; lia).
  assert (Hk : dirs v !! k = Some d) by (rewrite Hdirs; apply lookup_insert_eq).
  assert (Hpi : pd_index (n * 4096) = n / 1024).
  { rewrite pd_index_div. change (2 ^ 22) with (4096 * 1024).
    rewrite <- Z.div_div, Z.div_mul by lia. done. }
  pose proof (MapPage_acts v k d _ _ PAGE_KERNEL Hwf Hk Hu Hu) as H.
  assert (Hi : 0 <= n / 1024 < 1024) by (Z.div_mod_to_equations; lia).
  rewrite decide_False in H.
  2:{ rewrite Hpi. intros [Ht He]. assert (~ n / 1024 < (n + 1023) / 1024) by
        (rewrite <- (Htab _ Hi); tauto).
      apply (f_equal size) in He. rewrite size_empty in He.
      rewrite He in Hav. Z.div_mod_to_equations. lia. }
  destruct H as (v' & d' & HM & Hm). exists v', d'. split; [exact HM|].
  split.
  - apply Hm.
  - rewrite (pm_dirs _ _ _ _ _ _ _ _ Hm), Hdirs. apply insert_insert_eq.
  - by rewrite (pm_root _ _ _ _ _ _ _ _ Hm).
  - intros i Hi'. destruct (decide (i = n / 1024)) as [->|Hne].
    + rewrite <- Hpi at 1. split; [intros _; Z.div_mod_to_equations; lia|].
      intros _. apply Hm.
    + rewrite (pm_tabs _ _ _ _ _ _ _ _ Hm) by (rewrite ?Hpi; done).
      rewrite Htab by done. Z.div_mod_to_equations. lia.
  - pose proof (pm_avail _ _ _ _ _ _ _ _ Hm) as Ha. rewrite Hpi in Ha.
    specialize (Htab _ Hi). destruct (Z.eqb_spec (tab d (n / 1024)) 0) as [E|E].
    + destruct Ha as (f & Hf & Ha). rewrite (size_take _ _ _ Hf Ha).
      assert (~ n / 1024 < (n + 1023) / 1024) by tauto.
      Z.div_mod_to_equations. lia.
    + rewrite Ha, Hav. assert (n / 1024 < (n + 1023) / 1024) by tauto.
      Z.div_mod_to_equations. lia.
  - intros va Hva. rewrite (pm_leaf _ _ _ _ _ _ _ _ Hm) by done.
    rewrite Z.div_mul by lia. case_decide as E.
    + destruct (Z.ltb_spec (va / 4096) (n + 1)); [by rewrite E | lia].
    + rewrite Hleaf by done.
      destruct (Z.ltb_spec (va / 4096) (n + 1)), (Z.ltb_spec (va / 4096) n); (done || lia).
Qed.

Lemma new_pte_kernel pa :
  is_u32 pa ->
  new_pte pa PAGE_KERNEL / 4096 = pa / 4096 /\ Z.testbit (new_pte pa PAGE_KERNEL) 0 = true /\
  Z.testbit (new_pte pa PAGE_KERNEL) 1 = true /\ Z.testbit (new_pte pa PAGE_KERNEL) 2 = false.
Proof.
  intros H. destruct (new_pte_bits pa PAGE_KERNEL H) as (W & B & _). fold (new_pte pa PAGE_KERNEL) in *.
  by rewrite !B by lia.
Qed.

(** The kernel directory [PagingManager::Init] leaves. *)
Lemma Init_acts v this :
  vm_wf v -> dirs v !! this = None -> 5 <= Z.of_nat (size (fa_avail (pmm v))) ->
  exists v1 d root, PagingManager_Init v this = Ok (set_kernel_dir v1 this) /\
    identity_upto v this root 4096 v1 d.
Proof.
  intros Hwf Hk H5.
  destruct (new_dir_acts v this Hwf Hk) as (va0 & d0 & Hn & Hm).
  { intros E. rewrite E, size_empty in H5. lia. }
  assert (H0 : exists d, identity_upto v this (phys_dir d0) 0 va0 d).
  { exists d0. pose proof (dm_wf _ _ _ _ Hm) as Hwf0.
    assert (Hk0 : dirs va0 !! this = Some d0)
      by (rewrite (dm_dirs _ _ _ _ Hm); apply lookup_insert_eq).
    split; [done | apply Hm | done | | |].
    - intros i Hi. rewrite (dm_tab _ _ _ _ Hm) by done. change ((0 + 1023) / 1024) with 0. lia.
    - destruct (dm_avail _ _ _ _ Hm) as (f & Hf & _ & Ha).
      rewrite (size_take _ _ _ Hf Ha). change ((0 + 1023) / 1024) with 0. lia.
    - intros va Hva. destruct (indices va Hva) as [Hi _].
      rewrite leaf_no_table; [|by eapply (vw_dir _ Hwf0) | done | by apply (dm_tab _ _ _ _ Hm)].
      destruct (Z.ltb_spec (va / 4096) 0); [|done]. zify_words. Z.div_mod_to_equations. lia. }
  destruct (for_result_inv (fun n s => exists d, identity_upto v this (phys_dir d0) n s d)
    0 (0x01000000 / 0x1000) (fun page v => MapPage v this (page * 0x1000) (page * 0x1000) PAGE_KERNEL)
    va0) as (v1 & Hr & d & Hd); [by vm_compute | done | |].
  { intros n s Hn' (dn & Hdn). change (0x01000000 / 0x1000) with 4096 in Hn'.
    destruct (identity_step _ _ _ _ _ _ Hn' H5 Hdn) as (s' & d' & ? & ?). eauto. }
  exists v1, d, (phys_dir d0). split; [|exact Hd].
  unfold PagingManager_Init, CreateKernel. rewrite Hn. cbn [mbind result_bind]. by rewrite Hr.
Qed.

Lemma wf_ext v v' :
  phys v' = phys v -> pmm v' = pmm v -> dirs v' = dirs v -> vm_wf v -> vm_wf v'.
Proof.
  intros E1 E2 E3 [W1 W2 W3 W4 W5 W6]. split; rewrite ?E2, ?E3; try done.
  intros k d Hd. eapply (dir_wf_ext v); eauto.
Qed.

(** C7: The kernel's address space.  With five free frames [PagingManager::Init]
    builds the kernel directory; once [Enable] has loaded it, the processor maps
    each address below 16 MiB to itself, writable and not accessible to user
    code, and faults on every other address. *)
Theorem kernel_identity_map v this :
  vm_wf v -> dirs v !! this = None -> 5 <= Z.of_nat (size (fa_avail (pmm v))) ->
  exists v1 v2, PagingManager_Init v this = Ok v1 /\
    Enable v1 (GetKernelDirectory v1) = Ok v2 /\ vm_wf v2 /\ paging_on v2 = true /\
    forall va, is_u32 va ->
      mmu v2 (cr3 v2) va = if va <? 0x1000000 then Some (mkTr va true false) else None.
Proof.
  intros Hwf Hk H5. destruct (Init_acts v this Hwf Hk H5) as (v1 & d & root & HI & Hd).
  destruct Hd as [Hwf1 Hdirs Hroot _ _ Hleaf].
  assert (Hk1 : dirs v1 !! this = Some d) by (rewrite Hdirs; apply lookup_insert_eq).
  exists (set_kernel_dir v1 this), (mkVm (phys v1) (pmm v1) (dirs v1) this (phys_dir d) true).
  split; [done|].
  split; [unfold Enable, GetCR3, get_dir, GetKernelDirectory; cbn; by rewrite Hk1|].
  split; [by apply (wf_ext v1)|].
  split; [done|]. intros va Hva. cbn [cr3]. change (mmu _ (phys_dir d) va) with (mmu v1 (phys_dir d) va).
  rewrite mmu_leaf by (done || by eapply vw_dir). rewrite Hleaf by done.
  assert (Hr' : is_u32 (va / 4096 * 4096)) by (zify_words; Z.div_mod_to_equations; lia).
  destruct (new_pte_kernel _ Hr') as (K1 & K2 & K3 & K4).
  destruct (Z.ltb_spec (va / 4096) 4096), (Z.ltb_spec va 0x1000000);
    try (exfalso; Z.div_mod_to_equations; lia).
  - rewrite K1, K2, K3, K4, Z.div_mul, andb_false_r by lia. do 2 f_equal.
    Z.div_mod_to_equations; lia.
  - by rewrite Z.bits_0.
Qed.

(** The loop of [CreateUser] after [n] entries, copying from the kernel's [kd]. *)
Record copied_upto v1 (k root : Z) kd (n : Z) v d : Prop := {
  cu_wf : vm_wf v;
  cu_dirs : dirs v = <[k := d]> (dirs v1);
  cu_same : pmm v = pmm v1 /\ kernel_dir v = kernel_dir v1;
  cu_root : phys_dir d = root;
  cu_tab : forall j, 0 <= j < 1024 -> tab d j = if j <? n then tab kd j else 0;
  cu_pde : forall j, 0 <= j < 1024 -> j < n -> pde v d j = pde v kd j;
  cu_leaf_other : forall k2 d2 va, k2 <> k -> dirs v1 !! k2 = Some d2 -> is_u32 va ->
    leaf v d2 va = leaf v1 d2 va;
  cu_pde_other : forall k2 d2 j, k2 <> k -> dirs v1 !! k2 = Some d2 -> 0 <= j < 1024 ->
    pde v d2 j = pde v1 d2 j;
}.

Definition copy_entry (k : Z) (i : Z) (v : vm S) : result (vm S) :=
  kd ← get_dir v (kernel_dir v);
  d ← get_dir v k;
  pde ← load32 v (phys_dir kd) i;
  v ← store32 v (phys_dir d) i pde;
  t ← arr_get (page_tables kd) i;
  ts ← arr_set (page_tables d) i t;
  Ok (set_dirs v (<[k := mkDir (phys_dir d) ts]> (dirs v))).

Lemma copy_step v1 k root kd n v d :
  0 <= n < 1024 -> dirs v1 !! kernel_dir v1 = Some kd -> kernel_dir v1 <> k ->
  copied_upto v1 k root kd n v d ->
  exists v' d', copy_entry k n v = Ok v' /\ copied_upto v1 k root kd (n + 1) v' d'.
Proof.
  intros Hn Hkd1 Hne [Hwf Hdirs [Hpm Hkn] Hroot Htab Hpde Hleafo Hpdeo].
  assert (Hk : dirs v !! k = Some d) by (rewrite Hdirs; apply lookup_insert_eq).
  assert (Hkd : dirs v !! kernel_dir v1 = Some kd) by (rewrite Hdirs; by rewrite lookup_insert_ne).
  pose proof (vw_dir v Hwf _ _ Hk) as Hd. pose proof (vw_dir v Hwf _ _ Hkd) as Hdk.
  destruct (dw_root _ _ Hd) as [_ _ _ [td Htd] _]. destruct (dw_root _ _ Hdk) as [Hkr _ _ [tk Htk] _].
  assert (Ek : tk !!! Z.to_nat n = pde v kd n) by (unfold pde; by destruct Htk as (-> & _)).
  assert (Hw : is_u32 (pde v kd n)) by (rewrite <- Ek; by eapply table_word).
  assert (Ht : tab d n = 0) by (rewrite Htab by done; by rewrite Z.ltb_irrefl).
  assert (Hroots : forall k2 d2, dirs v !! k2 = Some d2 -> tab kd n <> phys_dir d2)
    by (intros k2 d2 Hk2; by eapply (vw_apart v Hwf)).
  assert (Hown : tab kd n <> 0 -> forall k2 d2 j, dirs v !! k2 = Some d2 ->
      0 <= j < 1024 -> tab d2 j = tab kd n -> j = n).
  { intros Hnz k2 d2 j Hk2 Hj E. symmetry.
    refine (vw_share v Hwf _ _ _ _ _ _ Hkd Hk2 Hn Hj Hnz _). done. }
  unfold copy_entry, get_dir. rewrite Hkn, Hkd. cbn [mbind result_bind]. rewrite Hk.
  cbn [mbind result_bind]. rewrite (load32_ok _ _ tk) by done. cbn [mbind result_bind].
  rewrite (store32_put _ _ td) by done. cbn [mbind result_bind].
  assert (Harr : arr_get (page_tables kd) n = Ok (tab kd n)).
  { apply arr_get_Ok. split; [lia|]. apply list_lookup_lookup_total_lt.
    rewrite (dw_len v kd Hdk). lia. }
  rewrite Harr. cbn [mbind result_bind].
  rewrite arr_set_in_range by (rewrite (dw_len v d Hd); lia). cbn [mbind result_bind]. rewrite Ek.
  eexists _, _. split; [reflexivity|].
  pose proof (dw_tab v kd Hdk n Hn) as Hent.
  pose proof (entry_tab v k d n _ _ Hwf Hk Hn Ht Hw Hent Hroots Hown) as Etab.
  pose proof (entry_pde v k d n _ _ Hwf Hk Hn Ht Hw Hent Hroots Hown) as Epde.
  pose proof (entry_same v k d n _ _ Hwf Hk Hn Ht Hw Hent Hroots Hown) as [Esp Esk].
  assert (Hdiff : phys_dir kd <> phys_dir d).
  { intros E. apply Hne. by eapply (vw_roots v Hwf). }
  split.
  - exact (entry_vm_wf v k d n _ _ Hwf Hk Hn Ht Hw Hent Hroots Hown).
  - etransitivity; [exact (entry_dirs v k d n _ _ Hwf Hk Hn Ht Hw Hent Hroots Hown)|].
    rewrite Hdirs. apply insert_insert_eq.
  - rewrite <- Hpm, <- Hkn. done.
  - done.
  - intros j Hj. rewrite Etab by done. rewrite Htab by done.
    destruct (decide (j = n)) as [E|E], (Z.ltb_spec j n), (Z.ltb_spec j (n + 1));
      (done || lia || by rewrite E).
  - intros j Hj Hjn. rewrite (Epde kd) by (done || apply Hdk).
    rewrite (decide_False (P := phys_dir kd = phys_dir d /\ j = n)) by tauto.
    rewrite Epde by (done || apply Hd). cbn [phys_dir].
    destruct (decide (j = n)) as [->|].
    + by rewrite decide_True.
    + rewrite decide_False by tauto. change (pde v d j = pde v kd j). apply Hpde; [done | lia].
  - intros k2 d2 va Hk2 Hd2 Hva. etransitivity; [|by apply (Hleafo k2 d2)].
    apply (entry_leaf_other v k d n _ _ Hwf Hk Hn Ht Hw Hent Hroots Hown k2 d2); [done | | done].
    rewrite Hdirs. by rewrite lookup_insert_ne.
  - intros k2 d2 j Hk2 Hd2 Hj.
    assert (Hv2 : dirs v !! k2 = Some d2) by (rewrite Hdirs; by rewrite lookup_insert_ne).
    rewrite Epde by (done || apply (vw_dir v Hwf _ _ Hv2)).
    rewrite decide_False by (intros [E _]; apply Hk2; by eapply (vw_roots v Hwf)).
    by apply (Hpdeo k2).
Qed.

Lemma CreateUser_acts v k kd :
  vm_wf v -> dirs v !! k = None -> dirs v !! kernel_dir v = Some kd ->
  fa_avail (pmm v) <> ∅ ->
  exists v' d, CreateUser v k = Ok v' /\ vm_wf v' /\ dirs v' = <[k := d]> (dirs v) /\
    kernel_dir v' = kernel_dir v /\
    (exists f, f ∈ fa_avail (pmm v) /\ phys_dir d = f * 4096 /\
       fa_avail (pmm v') = fa_avail (pmm v) ∖ {[ f ]}) /\
    (forall j, 0 <= j < 1024 -> tab d j = tab kd j /\ pde v' d j = pde v' kd j) /\
    (forall va, is_u32 va -> leaf v' d va = leaf v kd va) /\
    (forall k2 d2 va, dirs v !! k2 = Some d2 -> is_u32 va ->
       mmu v' (phys_dir d2) va = mmu v (phys_dir d2) va).
Proof.
  intros Hwf Hk Hkd Hne. assert (Hkk : kernel_dir v <> k) by congruence.
  destruct (new_dir_acts v k Hwf Hk Hne) as (v1 & d1 & Hn & Hm).
  assert (Hkd1 : dirs v1 !! kernel_dir v1 = Some kd).
  { rewrite (dm_kernel _ _ _ _ Hm), (dm_dirs _ _ _ _ Hm). by rewrite lookup_insert_ne. }
  assert (Hkk1 : kernel_dir v1 <> k) by (by rewrite (dm_kernel _ _ _ _ Hm)).
  assert (H0 : exists d, copied_upto v1 k (phys_dir d1) kd 0 v1 d).
  { exists d1. split; try (done || apply Hm).
    - rewrite (dm_dirs _ _ _ _ Hm). by rewrite insert_insert_eq.
    - intros j Hj. rewrite (dm_tab _ _ _ _ Hm) by done.
      destruct (Z.ltb_spec j 0); [lia | done].
    - lia. }
  destruct (for_result_inv (fun n s => exists d, copied_upto v1 k (phys_dir d1) kd n s d)
    0 1024 (copy_entry k) v1 ltac:(lia) H0) as (v' & Hr & d & Hc).
  { intros n s Hn' (dn & Hdn).
    destruct (copy_step _ _ _ _ _ _ _ Hn' Hkd1 Hkk1 Hdn) as (s' & d' & ? & ?). eauto. }
  exists v', d. split; [unfold CreateUser; rewrite Hn; exact Hr|].
  destruct Hc as [Hwf' Hdirs [Hpm Hkn] Hroot Htab Hpde Hlo Hpo].
  split; [done|]. split.
  { rewrite Hdirs, (dm_dirs _ _ _ _ Hm). apply insert_insert_eq. }
  split; [by rewrite Hkn, (dm_kernel _ _ _ _ Hm)|].
  split. { rewrite Hpm, Hroot. apply Hm. }
  assert (Hent : forall j, 0 <= j < 1024 -> tab d j = tab kd j /\ pde v' d j = pde v' kd j).
  { intros j Hj. rewrite Htab by done. destruct (Z.ltb_spec j 1024); [|lia].
    split; [done|]. apply Hpde; lia. }
  split; [done|]. split.
  { intros va Hva. destruct (indices va Hva) as [Hi _]. destruct (Hent _ Hi) as [Et Ep].
    transitivity (leaf v' kd va); [unfold leaf; by rewrite Et, Ep|].
    rewrite (Hlo (kernel_dir v1) kd) by done. by apply (dm_leaf_other _ _ _ _ Hm (kernel_dir v)). }
  intros k2 d2 va Hk2 Hva. assert (Hk2k : k2 <> k) by congruence.
  assert (Hk21 : dirs v1 !! k2 = Some d2)
    by (rewrite (dm_dirs _ _ _ _ Hm); by rewrite lookup_insert_ne).
  destruct (indices va Hva) as [Hi _].
  apply (mmu_by_leaf v v' k2 k2); try done.
  - rewrite Hdirs. by rewrite lookup_insert_ne.
  - rewrite (Hlo k2 d2) by done. by apply (dm_leaf_other _ _ _ _ Hm k2).
  - intros _. rewrite (Hpo k2 d2) by done. by rewrite (dm_pde_other _ _ _ _ Hm k2).
Qed.

Lemma same_entries_mmu v k1 k2 d1 d2 va :
  vm_wf v -> dirs v !! k1 = Some d1 -> dirs v !! k2 = Some d2 -> is_u32 va ->
  tab d1 (pd_index va) = tab d2 (pd_index va) ->
  pde v d1 (pd_index va) = pde v d2 (pd_index va) ->
  mmu v (phys_dir d1) va = mmu v (phys_dir d2) va.
Proof.
  intros Hwf H1 H2 Hva Et Ep. apply (mmu_by_leaf v v k2 k1); try done.
  - unfold leaf. by rewrite Et, Ep.
  - intros _. by rewrite Ep.
Qed.

(** C10: A user directory starts as the kernel's address space and shares its page
    tables.  [CreateUser] succeeds with a free frame, the new directory translates
    every address as the kernel directory does, and a page the user directory
    then maps inside a 4 MiB region the kernel has a table for is mapped to the
    same frame in the kernel's own address space. *)
Theorem user_tables_shared v k kd va pa flags :
  vm_wf v -> dirs v !! k = None -> dirs v !! kernel_dir v = Some kd ->
  fa_avail (pmm v) <> ∅ -> is_u32 va -> is_u32 pa ->
  tab kd (pd_index va) <> 0 -> Z.testbit flags 0 = true ->
  exists v1 d v2, CreateUser v k = Ok v1 /\ dirs v1 !! k = Some d /\
    (forall va', is_u32 va' -> mmu v1 (phys_dir d) va' = mmu v (phys_dir kd) va') /\
    MapPage v1 k va pa flags = Ok v2 /\
    place (mmu v2 (phys_dir kd) va) =
      Some (pa / 4096 * 4096 + va mod 4096, Z.testbit flags 1).
Proof.
  intros Hwf Hk Hkd Hne Hva Hpa Ht Hp. assert (Hkk : kernel_dir v <> k) by congruence.
  destruct (CreateUser_acts v k kd Hwf Hk Hkd Hne)
    as (v1 & d & Hc & Hwf1 & Hd1 & Hkn & _ & Hent & _ & Hold).
  assert (Hk1 : dirs v1 !! k = Some d) by (rewrite Hd1; apply lookup_insert_eq).
  assert (Hkd1 : dirs v1 !! kernel_dir v = Some kd) by (rewrite Hd1; by rewrite lookup_insert_ne).
  destruct (indices va Hva) as [Hi _]. destruct (Hent _ Hi) as [Et _].
  pose proof (MapPage_acts v1 k d va pa flags Hwf1 Hk1 Hva Hpa) as H.
  rewrite decide_False in H by (rewrite Et; tauto).
  destruct H as (v2 & d2 & HM & Hm). exists v1, d, v2.
  split; [done|]. split; [done|]. split.
  { intros va' Hva'. destruct (indices va' Hva') as [Hi' _]. destruct (Hent _ Hi').
    rewrite <- (Hold (kernel_dir v) kd) by done. by eapply same_entries_mmu. }
  split; [done|].
  assert (Hkd2 : dirs v2 !! kernel_dir v = Some kd)
    by (rewrite (pm_dirs _ _ _ _ _ _ _ _ Hm); by rewrite lookup_insert_ne).
  rewrite mmu_leaf by (done || by eapply (vw_dir _ (pm_wf _ _ _ _ _ _ _ _ Hm))).
  rewrite (pm_leaf_other _ _ _ _ _ _ _ _ Hm (kernel_dir v) kd) by done.
  rewrite decide_True.
  2:{ split; [|done]. apply (pm_shared _ _ _ _ _ _ _ _ Hm (kernel_dir v) kd); [done..|].
      rewrite Et. done. }
  destruct (new_pte_bits pa flags Hpa) as (W1 & W2 & _). fold (new_pte pa flags) in W1, W2.
  by rewrite W1, !W2, Hp by lia.
Qed.

(** *** Releasing a directory *)

(** The frames the destructor of [d] releases before index [n]: its tables that
    are not the kernel's. *)
Definition private_frame d kd (n f : Z) : Prop :=
  exists j, 0 <= j < n /\ tab d j <> 0 /\ tab d j <> tab kd j /\ f = tab d j / 4096.

Definition release_entry v (d kd : PageDirectory) (k i : Z) (a : S) : result S :=
  t ← arr_get (page_tables d) i;
  if t =? 0 then Ok a
  else
    kpt ← (if negb (kernel_dir v =? 0) && negb (k =? kernel_dir v)
           then kd ← get_dir v (kernel_dir v); arr_get (page_tables kd) i else Ok 0);
    if t =? kpt then Ok a else fa_free a t.

Lemma release_step v k d kd n a :
  vm_wf v -> dirs v !! k = Some d -> dirs v !! kernel_dir v = Some kd ->
  kernel_dir v <> 0 -> kernel_dir v <> k -> 0 <= n < 1024 ->
  fa_ok a -> fa_total a = fa_total (pmm v) ->
  (forall f, f ∈ fa_avail a <-> f ∈ fa_avail (pmm v) \/ private_frame d kd n f) ->
  exists a', release_entry v d kd k n a = Ok a' /\ fa_ok a' /\
    fa_total a' = fa_total (pmm v) /\
    (forall f, f ∈ fa_avail a' <-> f ∈ fa_avail (pmm v) \/ private_frame d kd (n + 1) f).
Proof.
  intros Hwf Hk Hkd Hk0 Hkk Hn Hok Htot Hav.
  pose proof (vw_dir v Hwf _ _ Hk) as Hd. pose proof (vw_dir v Hwf _ _ Hkd) as Hdk.
  assert (Harr : forall x, dir_wf v x -> arr_get (page_tables x) n = Ok (tab x n)).
  { intros x Hx. apply arr_get_Ok. split; [lia|]. apply list_lookup_lookup_total_lt.
    rewrite (dw_len v x Hx). lia. }
  assert (Hext : forall f, private_frame d kd (n + 1) f <->
    private_frame d kd n f \/ (tab d n <> 0 /\ tab d n <> tab kd n /\ f = tab d n / 4096)).
  { intros f. split.
    - intros (j & Hj & ?). destruct (decide (j = n)) as [->|]; [by right|].
      left. exists j. split; [lia | done].
    - intros [(j & Hj & ?)|?]; [exists j | exists n]; (split; [lia | done]). }
  unfold release_entry. rewrite Harr by done. cbn [mbind result_bind].
  destruct (Z.eqb_spec (tab d n) 0) as [E|E].
  { exists a. split; [done|]. split; [done|]. split; [done|].
    intros f. rewrite Hav, Hext. tauto. }
  destruct (Z.eqb_spec (kernel_dir v) 0); [done|].
  destruct (Z.eqb_spec k (kernel_dir v)); [congruence|]. cbn [negb andb].
  unfold get_dir. rewrite Hkd. cbn [mbind result_bind]. rewrite Harr by done. cbn [mbind result_bind].
  destruct (Z.eqb_spec (tab d n) (tab kd n)) as [E2|E2].
  { exists a. split; [done|]. split; [done|]. split; [done|].
    intros f. rewrite Hav, Hext. tauto. }
  pose proof (dw_tab v d Hd n Hn) as Ht. rewrite (present_tab v d n Hd Hn) in Ht.
  destruct (Z.eqb_spec (tab d n) 0); [done|]. cbn in Ht. destruct Ht as ([Hr Ho Hal _ Hu] & _).
  destruct (fa_free_spec a (tab d n / 4096)) as (a' & Hf & Ha' & Ht' & Hok'); [done | | |].
  { rewrite Htot. split; [apply Z.div_pos; lia | done]. }
  { rewrite Hav. intros [?|(j & Hj & Hj0 & _ & Ej)]; [done|].
    assert (Hjt : tab d n = tab d j).
    { pose proof (dw_tab v d Hd j ltac:(lia)) as Htj. rewrite (present_tab v d j Hd ltac:(lia)) in Htj.
      destruct (Z.eqb_spec (tab d j) 0); [done|]. cbn in Htj.
      destruct Htj as ([_ _ Halj _ _] & _). congruence. }
    assert (n = j); [|lia].
    refine (vw_share v Hwf k k d d n j Hk Hk Hn _ E Hjt). lia. }
  rewrite Hal in Hf. exists a'. split; [done|]. split; [done|]. split; [congruence|].
  intros f. rewrite Ha', Hext, elem_of_union, elem_of_singleton, Hav. tauto.
Qed.

(** The directories that stay are well formed after the release. *)
Lemma delete_keeps_wf v k d kd a :
  vm_wf v -> dirs v !! k = Some d -> fa_ok a -> fa_total a = fa_total (pmm v) ->
  (forall f, f ∈ fa_avail a <->
     f ∈ fa_avail (pmm v) \/ f = phys_dir d / 4096 \/ private_frame d kd 1024 f) ->
  (forall k2 d2 j, k2 <> k -> dirs v !! k2 = Some d2 -> 0 <= j < 1024 ->
     tab d j <> 0 -> tab d2 j = tab d j -> tab d j = tab kd j) ->
  vm_wf (set_dirs (set_pmm v a) (delete k (dirs v))).
Proof.
  intros Hwf Hk Hok Htot Hav Hpriv. pose proof (vw_dir v Hwf _ _ Hk) as Hd.
  assert (Hcase : forall k2 d2, delete k (dirs v) !! k2 = Some d2 -> k2 <> k /\ dirs v !! k2 = Some d2)
    by (intros k2 d2 [? ?]%lookup_delete_Some; done).
  assert (Halign : forall j, 0 <= j < 1024 -> tab d j <> 0 -> tab d j / 4096 * 4096 = tab d j).
  { intros j Hj Hj0. pose proof (dw_tab v d Hd j Hj) as Ht. rewrite (present_tab v d j Hd Hj) in Ht.
    destruct (Z.eqb_spec (tab d j) 0); [done|]. by destruct Ht as ([] & _). }
  assert (Hkeep : forall x, frame_ok v x -> x <> phys_dir d ->
    (forall j, 0 <= j < 1024 -> tab d j <> 0 -> x = tab d j -> tab d j = tab kd j) ->
    frame_ok (set_dirs (set_pmm v a) (delete k (dirs v))) x).
  { intros x [Hr Ho Ha Hx Hu] Hroot Htabs. split; [done | cbn; lia | done | done |].
    cbn. rewrite Hav. intros [?|[E|(j & Hj & Hj0 & Hjk & E)]]; [done | |].
    - apply Hroot. destruct (dw_root v d Hd) as [_ _ Hal _ _]. congruence.
    - apply Hjk, Htabs; [done..|]. rewrite <- (Halign j) by done. congruence. }
  split; cbn; [done | | | | |].
  - rewrite Hav. intros [?|[E|(j & Hj & Hj0 & _ & E)]]; [by apply (vw_zero v Hwf) | |].
    + destruct (dw_root v d Hd) as [Hr _ Hal _ _]. lia.
    + specialize (Halign j Hj Hj0). lia.
  - intros k2 d2 [Hne Hk2]%Hcase. destruct (vw_dir v Hwf _ _ Hk2) as [Hr Hl Ht].
    split; [|done|].
    + apply Hkeep; [done | |].
      * intros E. apply Hne. by eapply (vw_roots v Hwf).
      * intros j Hj _ E. symmetry in E. by destruct (vw_apart v Hwf k k2 d d2 j Hk Hk2 Hj).
    + intros i Hi. specialize (Ht i Hi). change (pde (set_dirs _ _) d2 i) with (pde v d2 i).
      destruct (Z.testbit (pde v d2 i) 0); [|done]. destruct Ht as (Hf & ?). split; [|done].
      apply Hkeep; [done | by eapply (vw_apart v Hwf) |].
      intros j Hj Hj0 E. assert (j = i) as ->; [|by eapply (Hpriv k2 d2)].
      refine (vw_share v Hwf k k2 d d2 j i Hk Hk2 Hj Hi Hj0 _). done.
  - intros k1 k2 d1 d2 [? H1]%Hcase [? H2]%Hcase. by eapply (vw_roots v Hwf).
  - intros k1 k2 d1 d2 i [? H1]%Hcase [? H2]%Hcase. by eapply (vw_apart v Hwf).
  - intros k1 k2 d1 d2 i j [? H1]%Hcase [? H2]%Hcase. by eapply (vw_share v Hwf).
Qed.

(** C8: Releasing a user directory.  The destructor of a directory that is not
    the kernel's returns; the frames that become free are exactly that of the
    directory and those of the tables it does not share with the kernel, and the
    structures stay well formed when no third directory names one of these. *)
Theorem delete_user_directory v k d kd :
  vm_wf v -> dirs v !! k = Some d -> dirs v !! kernel_dir v = Some kd ->
  kernel_dir v <> 0 -> kernel_dir v <> k ->
  exists v', PageDirectory_delete v k = Ok v' /\ dirs v' = delete k (dirs v) /\
    (forall f, f ∈ fa_avail (pmm v') <->
       f ∈ fa_avail (pmm v) \/ f = phys_dir d / 4096 \/ private_frame d kd 1024 f) /\
    ((forall k2 d2 j, k2 <> k -> dirs v !! k2 = Some d2 -> 0 <= j < 1024 ->
        tab d j <> 0 -> tab d2 j = tab d j -> tab d j = tab kd j) -> vm_wf v').
Proof.
  intros Hwf Hk Hkd Hk0 Hkk. pose proof (vw_dir v Hwf _ _ Hk) as Hd.
  destruct (for_result_inv (fun n a => fa_ok a /\ fa_total a = fa_total (pmm v) /\
      forall f, f ∈ fa_avail a <-> f ∈ fa_avail (pmm v) \/ private_frame d kd n f)
    0 1024 (release_entry v d kd k) (pmm v)) as (a & Hr & Hok & Htot & Hav); [lia | | |].
  { split; [apply Hwf|]. split; [done|]. intros f. split; [tauto|].
    intros [?|(j & Hj & _)]; [done | lia]. }
  { intros n a Hn (Ha1 & Ha2 & Ha3).
    by destruct (release_step v k d kd n a Hwf Hk Hkd Hk0 Hkk Hn Ha1 Ha2 Ha3) as (a' & ? & ?); eauto. }
  destruct (dw_root v d Hd) as [Hrr Hro Hra _ Hru].
  destruct (fa_free_spec a (phys_dir d / 4096)) as (a' & Hf & Ha' & Htot' & Hok'); [done | | |].
  { rewrite Htot. split; [apply Z.div_pos; lia | done]. }
  { rewrite Hav. intros [?|(j & Hj & Hj0 & _ & Ej)]; [done|].
    pose proof (dw_tab v d Hd j Hj) as Htj. rewrite (present_tab v d j Hd Hj) in Htj.
    destruct (Z.eqb_spec (tab d j) 0); [done|]. cbn in Htj.
    destruct Htj as ([_ _ Halj _ _] & _). apply (vw_apart v Hwf k k d d j Hk Hk Hj). congruence. }
  rewrite Hra in Hf.
  exists (set_dirs (set_pmm v a') (delete k (dirs v))). split.
  { unfold PageDirectory_delete, get_dir. rewrite Hk. cbn [mbind result_bind].
    unfold release_entry, get_dir in Hr. rewrite Hr. cbn [mbind result_bind]. rewrite Hf. done. }
  assert (Hfree : forall f, f ∈ fa_avail a' <->
    f ∈ fa_avail (pmm v) \/ f = phys_dir d / 4096 \/ private_frame d kd 1024 f).
  { intros f. rewrite Ha', elem_of_union, elem_of_singleton, Hav. tauto. }
  split; [done|]. split; [exact Hfree|]. intros Hpriv.
  apply (delete_keeps_wf v k d kd a'); (done || congruence).
Qed.

End proofs.

(** ** Witnesses

    A machine of 32 frames of which only frame 0 is taken, over the bitmap
    allocator. *)

Section witnesses.

Definition small_pmm : Pmm.state := Pmm.mkPmm [1] 32 31.

Definition blank : vm Pmm.state := mkVm ∅ small_pmm ∅ 0 0 false.

Lemma small_pmm_inv : Pmm.inv small_pmm.
Proof.
  split.
  - split; [|vm_compute; split; discriminate|vm_compute; discriminate].
    repeat constructor; vm_compute; (discriminate || reflexivity).
  - vm_compute. reflexivity.
Qed.

Lemma blank_wf : vm_wf blank.
Proof.
  split; cbn; [exact small_pmm_inv | | intros * H; rewrite lookup_empty in H; discriminate H ..].
  apply (bool_decide_unpack _). vm_compute. exact I.
Qed.

(** The machine after [PagingManager::Init], the kernel directory at address 1. *)
Lemma sample_kernel :
  exists (v : vm Pmm.state) kd, vm_wf v /\ kernel_dir v = 1 /\ dirs v !! 1 = Some kd /\
    dirs v !! 2 = None /\ fa_avail (pmm v) <> ∅ /\ forall j, 0 <= j < 4 -> tab kd j <> 0.
Proof.
  destruct (Init_acts blank 1 blank_wf eq_refl ltac:(vm_compute; discriminate))
    as (v & d & root & _ & [W Hd _ Ht Ha _]).
  exists (set_kernel_dir v 1), d. split; [by apply (wf_ext v)|]. split; [done|].
  change (dirs (set_kernel_dir v 1)) with (dirs v).
  change (pmm (set_kernel_dir v 1)) with (pmm v). rewrite Hd.
  split; [done|]. split; [done|]. split.
  - intros E. rewrite E, size_empty in Ha.
    assert (Es : Z.of_nat (size (fa_avail (pmm blank))) = 31) by (vm_compute; reflexivity).
    rewrite Es in Ha. vm_compute in Ha. discriminate Ha.
  - intros j Hj. apply Ht; [lia|]. change ((4096 + 1023) / 1024) with 4. lia.
Qed.

Lemma lookup_agrees_with_mmu_witness :
  exists (v : vm Pmm.state) root, GetCR3 v 1 = Ok root /\
    IsMapped v 1 0 = Ok (match mmu v root 0 with Some _ => true | None => false end).
Proof.
  destruct sample_kernel as (v & kd & W & _ & K & _).
  destruct (lookup_agrees_with_mmu v 1 kd 0 W K ltac:(u32_lit))
    as (root & R & M & _).
  exists v, root. split; [exact R | exact M].
Defined.

Lemma MapPage_correct_witness :
  exists (v v' : vm Pmm.state) root, MapPage v 1 0x3000 0x5000 PAGE_USER_RW = Ok v' /\
    mmu v' root 0x3004 = Some (mkTr 0x5004 true true).
Proof.
  destruct sample_kernel as (v & kd & W & _ & K & _ & Hne & Ht).
  destruct (MapPage_correct v 1 kd 0x3004 0x5000 PAGE_USER_RW W K
    ltac:(u32_lit)
    ltac:(u32_lit)) as [(E & _)|(v' & M & _ & T & _)].
  - exfalso. exact (Ht 0 ltac:(lia) E).
  - exists v, v', (phys_dir kd). split; [exact M | exact T].
Defined.

Lemma UnmapPage_correct_witness :
  exists (v v' : vm Pmm.state) root, UnmapPage v 1 0 = Ok v' /\ mmu v' root 0x10 = None.
Proof.
  destruct sample_kernel as (v & kd & W & _ & K & _).
  destruct (UnmapPage_correct v 1 kd 0 W K ltac:(u32_lit))
    as (v' & U & _ & _ & M).
  exists v, v', (phys_dir kd). split; [exact U|].
  exact (M 0x10 ltac:(u32_lit)).
Defined.

Lemma kernel_identity_map_witness :
  exists v1 v2, PagingManager_Init blank 1 = Ok v1 /\ Enable v1 (GetKernelDirectory v1) = Ok v2 /\
    mmu v2 (cr3 v2) 0xB8000 = Some (mkTr 0xB8000 true false).
Proof.
  destruct (kernel_identity_map blank 1 blank_wf eq_refl ltac:(vm_compute; discriminate))
    as (v1 & v2 & H1 & H2 & _ & _ & M).
  exists v1, v2. split; [exact H1|]. split; [exact H2|].
  rewrite M by (u32_lit). reflexivity.
Defined.

Lemma user_tables_shared_witness :
  exists (v v1 v2 : vm Pmm.state) root, CreateUser v 2 = Ok v1 /\
    MapPage v1 2 0x3000 0x5000 PAGE_USER_RW = Ok v2 /\
    place (mmu v2 root 0x3000) = Some (0x5000, true).
Proof.
  destruct sample_kernel as (v & kd & W & Ek & K & N & Hne & Ht).
  destruct (user_tables_shared v 2 kd 0x3000 0x5000 PAGE_USER_RW W N
    ltac:(rewrite Ek; exact K) Hne
    ltac:(u32_lit)
    ltac:(u32_lit) (Ht 0 ltac:(lia)) eq_refl)
    as (v1 & d & v2 & C & _ & _ & M & P).
  exists v, v1, v2, (phys_dir kd). split; [exact C|]. split; [exact M | exact P].
Defined.

(** Creating a user directory and releasing it gives every frame back. *)
Lemma delete_user_directory_witness :
  exists (v v1 v2 : vm Pmm.state), CreateUser v 2 = Ok v1 /\ PageDirectory_delete v1 2 = Ok v2 /\
    (forall f, f ∈ fa_avail (pmm v2) <-> f ∈ fa_avail (pmm v)).
Proof.
  destruct sample_kernel as (v & kd & W & Ek & K & N & Hne & Ht).
  destruct (CreateUser_acts v 2 kd W N ltac:(rewrite Ek; exact K) Hne)
    as (v1 & d & C & W1 & D1 & Ek1 & (f & Hf & Er & Ha) & Hent & _).
  destruct (delete_user_directory v1 2 d kd W1) as (v2 & Del & _ & Hav & _).
  - rewrite D1. apply lookup_insert_eq.
  - rewrite D1, Ek1, Ek. rewrite lookup_insert_ne by discriminate. exact K.
  - rewrite Ek1, Ek. discriminate.
  - rewrite Ek1, Ek. discriminate.
  - exists v, v1, v2. split; [exact C|]. split; [exact Del|].
    intros g. rewrite Hav, Ha, Er, Z.div_mul by discriminate. split.
    + intros [G|[->|(j & Hj & _ & Hd & _)]]; [set_solver | exact Hf |].
      destruct Hd. apply Hent. exact Hj.
    + intros G. destruct (decide (g = f)) as [->|]; [by right; left | left; set_solver].
Defined.

End witnesses.

End Paging.
