(* ===== verification/Scheduler.v ===== *)
(** Processes and the round-robin scheduler: src/src/kernel/process.{h,cpp} and
    scheduler.{h,cpp}.

    [Process] objects live at the addresses [operator new] returned, the
    scheduler's table holds their addresses.  The theorems relate [Schedule] to
    an abstract round-robin step on the list of processes, and show that a ready
    process is run within one round, that a preempted process resumes where it
    was, and that a process that blocks inside a system call does not. *)

From stdpp Require Import base numbers list gmap sets.
From Stdlib Require Import ZArith Lia.
From S2P Require Import Prelude Pmm Paging.

Module Sched.

Inductive ProcessState :=
  | PROCESS_RUNNING
  | PROCESS_READY
  | PROCESS_BLOCKED
  | PROCESS_DEAD.

#[export] Instance ProcessState_eq_dec : EqDecision ProcessState.
Proof. solve_decision. Defined.

(** Of [CPUState] only [esp] and [ss] are ever written or read. *)
Record Process := mkProc {
  pid : Z;
  state : ProcessState;
  cpu_esp : Z;
  cpu_ss : Z;
  page_dir : Z;
  exit_code : Z;
  parent_pid : Z;
  wait_pid : Z;
  kernel_stack : list Z;         (** 1024 words *)
}.

Definition set_state (p : Process) (st : ProcessState) : Process :=
  mkProc (pid p) st (cpu_esp p) (cpu_ss p) (page_dir p) (exit_code p) (parent_pid p)
    (wait_pid p) (kernel_stack p).
Definition set_esp (p : Process) (e : Z) : Process :=
  mkProc (pid p) (state p) e (cpu_ss p) (page_dir p) (exit_code p) (parent_pid p)
    (wait_pid p) (kernel_stack p).
Definition set_wait (p : Process) (w : Z) : Process :=
  mkProc (pid p) (state p) (cpu_esp p) (cpu_ss p) (page_dir p) (exit_code p) (parent_pid p)
    w (kernel_stack p).
Definition set_exit_code (p : Process) (c : Z) : Process :=
  mkProc (pid p) (state p) (cpu_esp p) (cpu_ss p) (page_dir p) c (parent_pid p)
    (wait_pid p) (kernel_stack p).
Definition set_parent (p : Process) (c : Z) : Process :=
  mkProc (pid p) (state p) (cpu_esp p) (cpu_ss p) (page_dir p) (exit_code p) c
    (wait_pid p) (kernel_stack p).

#[export] Instance Process_inhabited : Inhabited Process :=
  populate (mkProc 0 PROCESS_DEAD 0 0 0 0 0 0 []).

Definition MAX_PROCESSES : Z := 16.
Definition KERNEL_STACK_SIZE : Z := 4096.

(** [kernel_stack] follows eighteen 32-bit fields. *)
Definition KernelStackTop (this : Z) : Z := u32 (this + 72 + KERNEL_STACK_SIZE).

Section code.
Context {S : Type} `{FA : FrameAllocator S}.

(** ** Creating a process *)

(** [*(--kstack) = w], the pointer being an index in the stack. *)
Definition kpush (w : Z) (st : Z * list Z) : result (Z * list Z) :=
  let i := st.1 - 1 in s ← arr_set st.2 i w; Ok (i, s).

(** The frames of [iret], [popa] and the segment registers, in push order. *)
Definition initial_frame (entry_point user_stack_top : Z) : list Z :=
  [0x23; user_stack_top; 0x202; 0x1B; entry_point;
   0; 0; 0; 0; 0; 0; 0; 0;
   0x23; 0x23; 0x23; 0x23; 0x10].

Definition user_stack_base (pid : Z) : Z := u32 (0x00C00000 + pid * 0x10000).

(** [for (addr = lo; addr < hi; addr += 0x1000) MapPage(addr, addr, PAGE_USER_RW)] *)
Definition map_user_range (v : Paging.vm S) (dir lo hi : Z) : result (Paging.vm S) :=
  for_result 0 ((hi - lo) / 0x1000)
    (fun i v => Paging.MapPage v dir (lo + i * 0x1000) (lo + i * 0x1000) Paging.PAGE_USER_RW) v.

(** The constructor on the object at [this]; [stack0] is what the object's memory
    held, [dir] the object [new PageDirectory()] returns in [CreateUser]. *)
Definition Process_new (v : Paging.vm S) (this dir entry_point pid : Z) (stack0 : list Z)
    : result (Process * Paging.vm S) :=
  '(sp, stack) ← fold_result kpush (initial_frame entry_point (user_stack_base pid))
                   (KERNEL_STACK_SIZE / 4, stack0);
  let esp := u32 (KernelStackTop this - KERNEL_STACK_SIZE + 4 * sp) in
  '(pd, v) ← (if negb (Paging.GetKernelDirectory v =? 0) then
                v ← Paging.CreateUser v dir;
                v ← map_user_range v dir 0x00400000 0x00500000;
                let stack_base := user_stack_base pid in
                v ← map_user_range v dir (u32 (stack_base - 0x10000)) stack_base;
                Ok (dir, v)
              else Ok (0, v));
  Ok (mkProc pid PROCESS_READY esp 0x10 pd 0 (-1) (-1) stack, v).

Definition Process_delete (v : Paging.vm S) (p : Process) : result (Paging.vm S) :=
  if negb (page_dir p =? 0) && negb (page_dir p =? Paging.GetKernelDirectory v)
  then Paging.PageDirectory_delete v (page_dir p)
  else Ok v.

(** ** The scheduler *)

Record sched := mkSched {
  objs : gmap Z Process;           (** the process objects by address *)
  processes : list Z;
  process_count : Z;
  current_index : Z;
  tss_esp0 : Z;
  pit_ticks : Z;
  mm : Paging.vm S;
}.

Definition Scheduler_new (objs : gmap Z Process) (esp0 : Z) (mm : Paging.vm S) : sched :=
  mkSched objs (replicate 16 0) 0 (-1) esp0 0 mm.

Definition with_objs (s : sched) x :=
  mkSched x (processes s) (process_count s) (current_index s) (tss_esp0 s) (pit_ticks s) (mm s).

(** [*p] and [*p = q] *)
Definition deref (s : sched) (a : Z) : result Process :=
  match objs s !! a with Some p => Ok p | None => Err BadPointer end.
Definition assign (s : sched) (a : Z) (p : Process) : sched :=
  with_objs s (<[a := p]> (objs s)).

Definition AddProcess (s : sched) (p : Z) : result sched :=
  if process_count s >=? MAX_PROCESSES then Ok s
  else
    pr ← deref s p;
    let s := assign s p (set_state pr PROCESS_READY) in
    ps ← arr_set (processes s) (process_count s) p;
    Ok (mkSched (objs s) ps (process_count s + 1) (current_index s) (tss_esp0 s)
          (pit_ticks s) (mm s)).

(** The search: iterations [i] to [process_count], [n] of them left. *)
Fixpoint find_ready (n : nat) (s : sched) (i : Z) : result Z :=
  match n with
  | O => Ok (current_index s)
  | Datatypes.S n =>
      let idx := Z.rem (current_index s + i) (process_count s) in
      a ← arr_get (processes s) idx;
      p ← deref s a;
      if decide (state p = PROCESS_READY) then Ok idx else find_ready n s (i + 1)
  end.

Definition Schedule (s : sched) (esp : Z) : result (Z * sched) :=
  let orig_index := current_index s in
  '(was_running, s) ←
    (if current_index s >=? 0 then
       a ← arr_get (processes s) (current_index s);
       cur ← deref s a;
       if decide (state cur = PROCESS_RUNNING)
       then Ok (true, assign s a (set_esp (set_state cur PROCESS_READY) esp))
       else Ok (false, s)
     else Ok (false, s));
  found ← find_ready (Z.to_nat (process_count s)) s 1;
  if found >=? 0 then
    a ← arr_get (processes s) found;
    next ← deref s a;
    if decide (state next = PROCESS_READY) then
      let s := assign s a (set_state next PROCESS_RUNNING) in
      v ← (if negb (page_dir next =? 0) then Paging.SwitchDirectory (mm s) (page_dir next)
           else Ok (mm s));
      let s := mkSched (objs s) (processes s) (process_count s) found (KernelStackTop a)
                 (pit_ticks s) v in
      if negb was_running && (found =? orig_index) then Ok (esp, s)
      else Ok (cpu_esp next, s)
    else Ok (esp, s)
  else Ok (esp, s).

(** [SchedulerTimer::HandleInterrupt] *)
Definition TimerInterrupt (s : sched) (esp : Z) : result (Z * sched) :=
  Schedule (mkSched (objs s) (processes s) (process_count s) (current_index s) (tss_esp0 s)
              (u32 (pit_ticks s + 1)) (mm s)) esp.

(** 0 for a null pointer. *)
Definition GetActive (s : sched) : result Z :=
  if current_index s <? 0 then Ok 0 else arr_get (processes s) (current_index s).

Fixpoint find_process (n : nat) (s : sched) (i target : Z) : result Z :=
  match n with
  | O => Ok 0
  | Datatypes.S n =>
      a ← arr_get (processes s) i;
      if a =? 0 then find_process n s (i + 1) target
      else
        p ← deref s a;
        if i32 (pid p) =? target then Ok a else find_process n s (i + 1) target
  end.

Definition FindProcess (s : sched) (target : Z) : result Z :=
  find_process (Z.to_nat (process_count s)) s 0 target.

Definition WakeParent (s : sched) (child_pid : Z) : result sched :=
  for_result 0 (process_count s)
    (fun i s =>
       a ← arr_get (processes s) i;
       if a =? 0 then Ok s
       else
         p ← deref s a;
         if bool_decide (state p = PROCESS_BLOCKED) && (wait_pid p =? child_pid)
         then Ok (assign s a (set_wait (set_state p PROCESS_READY) (-1)))
         else Ok s) s.

Definition NextPID (s : sched) : result Z :=
  m ← for_result 0 (process_count s)
    (fun i m =>
       a ← arr_get (processes s) i;
       if a =? 0 then Ok m
       else p ← deref s a; Ok (if i32 (pid p) >? m then i32 (pid p) else m)) 0;
  Ok (i32 (m + 1)).

End code.
Arguments sched : clear implicits.

(** ** The table as a list of processes *)

Section proofs.
Context {S : Type} `{FA : FrameAllocator S}.
Implicit Types (s : sched S) (ps : list Process).

Definition addrs s : list Z := take (Z.to_nat (process_count s)) (processes s).
Definition procs s : list Process := (fun a => objs s !!! a) <$> addrs s.

Record sched_inv s : Prop := {
  si_len : length (processes s) = 16%nat;
  si_count : 0 <= process_count s <= MAX_PROCESSES;
  si_cur : -1 <= current_index s;
  si_cur_lt : current_index s = -1 \/ current_index s < process_count s;
  si_nodup : NoDup (addrs s);
  si_objs : forall a, a ∈ addrs s -> a <> 0 /\ is_Some (objs s !! a);
  si_run : forall i p, procs s !! i = Some p -> state p = PROCESS_RUNNING ->
    Z.of_nat i = current_index s;
  si_dirs : forall p, p ∈ procs s ->
    page_dir p = 0 \/ is_Some (Paging.dirs (mm s) !! page_dir p);
}.

Lemma addrs_length s : sched_inv s -> Z.of_nat (length (addrs s)) = process_count s.
Proof.
  intros H. unfold addrs. rewrite length_take, (si_len s H).
  pose proof (si_count s H). unfold MAX_PROCESSES in *. lia.
Qed.

Lemma procs_length s : sched_inv s -> Z.of_nat (length (procs s)) = process_count s.
Proof. intros H. unfold procs. rewrite length_fmap. by apply addrs_length. Qed.

(** Slot [i] of the table. *)
Lemma slot_ok s i :
  sched_inv s -> 0 <= i < process_count s ->
  exists a p, arr_get (processes s) i = Ok a /\ deref s a = Ok p /\ a <> 0 /\
    addrs s !! Z.to_nat i = Some a /\ procs s !! Z.to_nat i = Some p /\ objs s !! a = Some p.
Proof.
  intros H Hi. pose proof (addrs_length s H) as Hl.
  destruct (lookup_lt_is_Some_2 (addrs s) (Z.to_nat i)) as [a Ha]; [lia|].
  destruct (si_objs s H a) as [Hne [p Hp]]; [by eapply list_elem_of_lookup_2|].
  exists a, p. unfold addrs in Ha. rewrite lookup_take in Ha.
  rewrite decide_True in Ha by lia.
  split; [apply arr_get_Ok; split; [lia | done]|]. split; [unfold deref; by rewrite Hp|].
  split; [done|]. split; [unfold addrs; rewrite lookup_take, decide_True by lia; done|].
  split; [|done]. unfold procs. rewrite list_lookup_fmap. unfold addrs.
  rewrite lookup_take, decide_True, Ha by lia. cbn. f_equal. by apply lookup_total_correct.
Qed.

Lemma procs_assign s i a q :
  NoDup (addrs s) -> addrs s !! i = Some a ->
  procs (assign s a q) = <[i := q]> (procs s).
Proof.
  intros Hnd Ha. apply list_eq. intros j. unfold procs. change (addrs (assign s a q)) with (addrs s).
  destruct (decide (j = i)) as [->|Hne].
  - rewrite list_lookup_insert_eq by (rewrite length_fmap; by eapply lookup_lt_Some).
    rewrite list_lookup_fmap, Ha. cbn. f_equal. apply lookup_total_insert_eq.
  - rewrite list_lookup_insert_ne by done. rewrite !list_lookup_fmap.
    destruct (addrs s !! j) as [b|] eqn:Hb; cbn; [|done]. f_equal.
    apply lookup_total_insert_ne. intros ->. apply Hne. by eapply NoDup_lookup.
Qed.

(** Writing an object of the table keeps the shape of the table. *)
Lemma assign_objs s a q b :
  is_Some (objs s !! b) -> is_Some (objs (assign s a q) !! b).
Proof.
  intros H. cbn. destruct (decide (b = a)) as [->|]; [rewrite lookup_insert_eq | rewrite lookup_insert_ne]; eauto.
Qed.

Lemma inv_assign s i a p q :
  sched_inv s -> addrs s !! i = Some a -> procs s !! i = Some p ->
  page_dir q = page_dir p ->
  (state q = PROCESS_RUNNING -> Z.of_nat i = current_index s) ->
  sched_inv (assign s a q).
Proof.
  intros H Ha Hp Hd Hr. pose proof H as [H1 H2 H3 H4 H5 H6 H7 H8].
  pose proof (procs_assign s i a q H5 Ha) as E.
  split; try done.
  - intros b Hb. destruct (H6 b Hb). split; [done | by apply assign_objs].
  - intros j pj. rewrite E. intros [(-> & <- & _)|[? Hj]]%list_lookup_insert_Some; [done|].
    by eapply H7.
  - intros pj. rewrite E. intros (j & Hj)%list_elem_of_lookup_1.
    apply list_lookup_insert_Some in Hj as [(_ & <- & _)|[_ Hj]].
    + rewrite Hd. apply H8. by eapply list_elem_of_lookup_2.
    + apply H8. by eapply list_elem_of_lookup_2.
Qed.

(** ** The abstract round-robin step *)

Definition ready_at ps (i : Z) : bool :=
  match ps !! Z.to_nat i with
  | Some p => bool_decide (state p = PROCESS_READY)
  | None => false
  end.

(** The indices in the order the search visits them. *)
Definition rotation (n cur : Z) : list Z := (fun k => (cur + k) mod n) <$> seqZ 1 n.

Definition next_ready ps (cur : Z) : option Z :=
  List.find (ready_at ps) (rotation (Z.of_nat (length ps)) cur).

(** A running process is put back with its stack pointer. *)
Definition preempt ps (cur esp : Z) : bool * list Process :=
  match (if cur <? 0 then None else ps !! Z.to_nat cur) with
  | Some p =>
      if decide (state p = PROCESS_RUNNING)
      then (true, <[Z.to_nat cur := set_esp (set_state p PROCESS_READY) esp]> ps)
      else (false, ps)
  | None => (false, ps)
  end.

(** The value returned, the processes and the current index. *)
Definition rr_step ps (cur esp : Z) : Z * list Process * Z :=
  let '(was_running, ps1) := preempt ps cur esp in
  match next_ready ps1 cur with
  | Some j =>
      let p := ps1 !!! Z.to_nat j in
      (if negb was_running && (j =? cur) then esp else cpu_esp p,
       <[Z.to_nat j := set_state p PROCESS_RUNNING]> ps1, j)
  | None => (esp, ps1, cur)
  end.

Lemma rotation_range n cur j : 0 < n -> j ∈ rotation n cur -> 0 <= j < n.
Proof.
  intros Hn (k & -> & _)%list_elem_of_fmap. by apply Z.mod_pos_bound.
Qed.

Lemma next_ready_Some ps cur j :
  next_ready ps cur = Some j ->
  0 <= j < Z.of_nat (length ps) /\ ready_at ps j = true.
Proof.
  intros H. apply List.find_some in H as [Hin Hr]. split; [|done].
  destruct ps as [|p ps]; [done|]. apply (rotation_range _ cur); [cbn; lia|].
  by apply list_elem_of_In.
Qed.

Lemma find_ready_spec s n i :
  sched_inv s -> 0 <= current_index s + i -> process_count s <> 0 ->
  find_ready n s i =
  Ok (default (current_index s)
        (List.find (ready_at (procs s))
           ((fun k => (current_index s + k) mod process_count s) <$> seqZ i (Z.of_nat n)))).
Proof.
  intros H Hi Hc. revert i Hi. induction n as [|n IH]; intros i Hi; [done|].
  pose proof (si_count s H) as Hcnt. cbn [find_ready].
  rewrite seqZ_cons by lia. replace (Z.pred (Z.of_nat (Datatypes.S n))) with (Z.of_nat n) by lia.
  cbn [fmap list_fmap List.find]. rewrite Z.rem_mod_nonneg by lia.
  set (idx := (current_index s + i) mod process_count s).
  assert (Hidx : 0 <= idx < process_count s) by (apply Z.mod_pos_bound; lia).
  destruct (slot_ok s idx H Hidx) as (a & p & -> & Hd & _ & _ & Hp & _).
  cbn [mbind result_bind]. rewrite Hd. cbn [mbind result_bind].
  unfold ready_at at 1. rewrite Hp. case_decide as E.
  - by rewrite bool_decide_true.
  - rewrite bool_decide_false by done. replace (Z.succ i) with (i + 1) by lia.
    apply IH. lia.
Qed.

Lemma find_ready_next s :
  sched_inv s ->
  find_ready (Z.to_nat (process_count s)) s 1 =
  Ok (default (current_index s) (next_ready (procs s) (current_index s))).
Proof.
  intros H. unfold next_ready. rewrite (procs_length s H). pose proof (si_count s H).
  destruct (decide (process_count s = 0)) as [E|E].
  - rewrite E. done.
  - rewrite find_ready_spec by (done || (pose proof (si_cur s H); lia)).
    unfold rotation. by rewrite Z2Nat.id by lia.
Qed.

(** The first half of [Schedule]. *)
Lemma preempt_refines s esp :
  sched_inv s ->
  exists s1,
    (if current_index s >=? 0 then
       a ← arr_get (processes s) (current_index s);
       cur ← deref s a;
       if decide (state cur = PROCESS_RUNNING)
       then Ok (true, assign s a (set_esp (set_state cur PROCESS_READY) esp))
       else Ok (false, s)
     else Ok (false, s)) = Ok ((preempt (procs s) (current_index s) esp).1, s1) /\
    sched_inv s1 /\ procs s1 = (preempt (procs s) (current_index s) esp).2 /\
    (forall p, p ∈ procs s1 -> state p <> PROCESS_RUNNING) /\
    processes s1 = processes s /\ process_count s1 = process_count s /\
    current_index s1 = current_index s /\ mm s1 = mm s /\ pit_ticks s1 = pit_ticks s /\
    tss_esp0 s1 = tss_esp0 s.
Proof.
  intros H. unfold preempt.
  destruct (Z.geb_spec (current_index s) 0), (Z.ltb_spec (current_index s) 0); try lia.
  - pose proof (si_cur_lt s H) as [|Hlt]; [lia|].
    destruct (slot_ok s (current_index s) H) as (a & p & -> & Hd & _ & Ha & Hp & _); [lia|].
    cbn [mbind result_bind]. rewrite Hd. cbn [mbind result_bind]. rewrite Hp.
    case_decide as E.
    + eexists. split; [done|].
      split; [eapply inv_assign; [done | exact Ha | exact Hp | done | done]|].
      pose proof (procs_assign s _ a (set_esp (set_state p PROCESS_READY) esp)
        (si_nodup s H) Ha) as Ep.
      split; [done|]. split; [|done].
      rewrite Ep. intros q (j & Hj)%list_elem_of_lookup_1.
      apply list_lookup_insert_Some in Hj as [(_ & <- & _)|[Hne Hj]]; [done|].
      intros Hr. pose proof (si_run s H _ _ Hj Hr). lia.
    + exists s. split; [done|]. split; [done|]. split; [done|]. split; [|done].
      intros q (j & Hj)%list_elem_of_lookup_1 Hr.
      pose proof (si_run s H _ _ Hj Hr) as Ej. rewrite <- Ej, Nat2Z.id, Hj in Hp. congruence.
  - exists s. split; [done|]. split; [done|]. split; [done|]. split; [|done].
    intros q (j & Hj)%list_elem_of_lookup_1 Hr. pose proof (si_run s H _ _ Hj Hr). lia.
Qed.

(** With nothing running the current index can move. *)
Lemma inv_move s j e t v :
  sched_inv s -> (forall p, p ∈ procs s -> state p <> PROCESS_RUNNING) ->
  0 <= j < process_count s -> Paging.dirs v = Paging.dirs (mm s) ->
  sched_inv (mkSched (objs s) (processes s) (process_count s) j e t v).
Proof.
  intros [H1 H2 H3 H4 H5 H6 H7 H8] Hn Hj Ev. split; cbn; try done; [lia | right; lia | |].
  - intros i p Hp Hr. destruct (Hn p); [|done]. by eapply list_elem_of_lookup_2.
  - rewrite Ev. done.
Qed.

Definition same_table s s' : Prop :=
  processes s' = processes s /\ process_count s' = process_count s.

(** The page directory and the kernel stack the processor uses are those of the
    process at [j]. *)
Definition dispatched s (j : Z) : Prop :=
  exists a p, addrs s !! Z.to_nat j = Some a /\ procs s !! Z.to_nat j = Some p /\
    tss_esp0 s = KernelStackTop a /\
    (page_dir p <> 0 -> exists d, Paging.dirs (mm s) !! page_dir p = Some d /\
       Paging.cr3 (mm s) = Paging.phys_dir d).

Lemma Schedule_acts s esp :
  sched_inv s ->
  exists s', Schedule s esp = Ok ((rr_step (procs s) (current_index s) esp).1.1, s') /\
    sched_inv s' /\ same_table s s' /\
    procs s' = (rr_step (procs s) (current_index s) esp).1.2 /\
    current_index s' = (rr_step (procs s) (current_index s) esp).2 /\
    match next_ready (preempt (procs s) (current_index s) esp).2 (current_index s) with
    | Some j => dispatched s' j
    | None => True
    end.
Proof.
  intros H. unfold Schedule.
  destruct (preempt_refines s esp H) as (s1 & -> & H1 & Ep & Hnr & Et & Ec & Ecur & Emm & _).
  cbn [mbind result_bind]. rewrite (find_ready_next s1 H1). cbn [mbind result_bind].
  rewrite Ecur, Ep. unfold rr_step.
  destruct (preempt (procs s) (current_index s) esp) as [was ps1] eqn:Epre. cbn [fst snd] in *.
  destruct (next_ready ps1 (current_index s)) as [j|] eqn:En; unfold default; cbn [from_option id]; try unfold id.
  - apply next_ready_Some in En as [Hj Hr].
    assert (Hl : Z.of_nat (length ps1) = process_count s1) by (rewrite <- Ep; by apply procs_length).
    destruct (Z.geb_spec j 0); [|lia].
    destruct (slot_ok s1 j H1) as (a & p & -> & Hd & _ & Ha & Hp & _); [lia|].
    cbn [mbind result_bind]. rewrite Hd. cbn [mbind result_bind].
    unfold ready_at in Hr. rewrite <- Ep, Hp in Hr. apply bool_decide_eq_true in Hr.
    rewrite decide_True by done. cbn [assign with_objs mm].
    assert (Hv : exists v, (if negb (page_dir p =? 0)
        then Paging.SwitchDirectory (mm s1) (page_dir p) else Ok (mm s1)) = Ok v /\
        Paging.dirs v = Paging.dirs (mm s1) /\
        (page_dir p <> 0 -> exists d, Paging.dirs v !! page_dir p = Some d /\
           Paging.cr3 v = Paging.phys_dir d)).
    { destruct (Z.eqb_spec (page_dir p) 0) as [E|E]; cbn; [by exists (mm s1)|].
      destruct (si_dirs s1 H1 p) as [|[d Hdir]]; [by eapply list_elem_of_lookup_2 | done |].
      unfold Paging.SwitchDirectory, Paging.GetCR3, Paging.get_dir. rewrite Hdir. cbn.
      eexists. split; [done|]. split; [done|]. eauto. }
    destruct Hv as (v & -> & Hdirs & Hcr). cbn [mbind result_bind].
    rewrite (list_lookup_total_correct ps1 (Z.to_nat j) p) by (by rewrite <- Ep).
    set (s2 := mkSched (objs s1) (processes s1) (process_count s1) j (KernelStackTop a)
                 (pit_ticks s1) v).
    assert (H2 : sched_inv s2) by (apply inv_move; [done | done | lia | done]).
    assert (H3 : sched_inv (assign s2 a (set_state p PROCESS_RUNNING))).
    { eapply inv_assign; [done | exact Ha | exact Hp | done |]. cbn. intros _. lia. }
    pose proof (procs_assign s2 _ a (set_state p PROCESS_RUNNING) (si_nodup s2 H2) Ha) as Ep2.
    exists (assign s2 a (set_state p PROCESS_RUNNING)).
    split; [by destruct (negb was && (j =? current_index s))|].
    split; [done|]. split; [done|]. change (procs s2) with (procs s1) in Ep2.
    split; [by rewrite Ep2, Ep|]. split; [done|].
    exists a, (set_state p PROCESS_RUNNING). split; [done|]. split; [|done].
    rewrite Ep2. apply list_lookup_insert_eq. by eapply lookup_lt_Some.
  - assert (Hnone : forall i, 0 <= i < process_count s1 -> i = current_index s ->
      ready_at ps1 i = false).
    { intros i Hi Hic. apply (List.find_none _ _ En).
      apply list_elem_of_In, list_elem_of_fmap. exists (Z.of_nat (length ps1)).
      rewrite <- Ep, procs_length by done. split; [|apply elem_of_seqZ; lia].
      replace (current_index s + process_count s1) with (i + 1 * process_count s1) by lia.
      rewrite Z.mod_add, Z.mod_small by lia. done. }
    exists s1. split; [|done]. destruct (Z.geb_spec (current_index s) 0); [|done].
    destruct (si_cur_lt s1 H1) as [|Hlt]; [lia|]. rewrite Ecur in Hlt.
    destruct (slot_ok s1 (current_index s) H1) as (a & p & -> & Hd & _ & _ & Hp & _); [lia|].
    cbn [mbind result_bind]. rewrite Hd. cbn [mbind result_bind].
    specialize (Hnone (current_index s) ltac:(lia) eq_refl). unfold ready_at in Hnone.
    rewrite <- Ep, Hp in Hnone. apply bool_decide_eq_false in Hnone.
    by rewrite decide_False.
Qed.

(** C11: The scheduler is round robin.  On every well-formed table [Schedule]
    returns without a bad access and does exactly the abstract step: the running
    process goes back to ready with its stack pointer, the first ready process
    after it in cyclic order becomes the only running one, its saved stack
    pointer is returned, and the processor is left with that process's page
    directory and kernel stack.  The table stays well formed. *)
Theorem Schedule_round_robin s esp :
  sched_inv s ->
  exists s', Schedule s esp = Ok ((rr_step (procs s) (current_index s) esp).1.1, s') /\
    sched_inv s' /\ same_table s s' /\
    procs s' = (rr_step (procs s) (current_index s) esp).1.2 /\
    current_index s' = (rr_step (procs s) (current_index s) esp).2 /\
    match next_ready (preempt (procs s) (current_index s) esp).2 (current_index s) with
    | Some j => dispatched s' j
    | None => True
    end.
Proof. apply Schedule_acts. Qed.

(** ** Fairness *)

(** How far the search goes before it looks at [j]. *)
Definition distance (n cur j : Z) : Z := (j - cur - 1) mod n.

Lemma find_first {A} (f : A -> bool) (l : list A) (k : nat) x :
  l !! k = Some x -> f x = true ->
  exists m y, (m <= k)%nat /\ l !! m = Some y /\ f y = true /\ List.find f l = Some y.
Proof.
  revert k. induction l as [|z l IH]; intros k Hk Hx; [done|]. cbn.
  destruct (f z) eqn:Ez.
  - exists 0%nat, z. split; [lia | done].
  - destruct k as [|k]; cbn in Hk; [congruence|].
    destruct (IH k Hk Hx) as (m & y & Hm & Hy & ? & ?). exists (Datatypes.S m), y. split; [lia | done].
Qed.

Lemma rotation_lookup n cur k :
  0 <= Z.of_nat k < n -> rotation n cur !! k = Some ((cur + 1 + Z.of_nat k) mod n).
Proof.
  intros Hk. unfold rotation. rewrite list_lookup_fmap, lookup_seqZ_lt by lia. cbn.
  do 2 f_equal. lia.
Qed.

(** The search stops at [j] or before it, and then [j] is closer. *)
Lemma next_ready_closer ps cur j :
  ready_at ps j = true -> 0 <= j < Z.of_nat (length ps) ->
  exists x, next_ready ps cur = Some x /\
    (x = j \/ distance (Z.of_nat (length ps)) x j < distance (Z.of_nat (length ps)) cur j).
Proof.
  intros Hr Hj. set (n := Z.of_nat (length ps)) in *.
  assert (Hd : 0 <= distance n cur j < n) by (apply Z.mod_pos_bound; lia).
  assert (Hat : rotation n cur !! Z.to_nat (distance n cur j) = Some j).
  { rewrite rotation_lookup by lia. f_equal. rewrite Z2Nat.id by lia. unfold distance.
    rewrite Zplus_mod_idemp_r. replace (cur + 1 + (j - cur - 1)) with j by lia.
    by apply Z.mod_small. }
  destruct (find_first _ _ _ _ Hat Hr) as (m & x & Hm & Hx & _ & Hf).
  exists x. split; [exact Hf|]. rewrite rotation_lookup in Hx by lia.
  injection Hx as Ex. destruct (decide (m = Z.to_nat (distance n cur j))) as [Em|Em].
  - left. rewrite <- Ex, Em, Z2Nat.id by lia. unfold distance.
    rewrite Zplus_mod_idemp_r. replace (cur + 1 + (j - cur - 1)) with j by lia.
    by apply Z.mod_small.
  - right. subst x. unfold distance at 1.
    replace (j - (cur + 1 + Z.of_nat m) mod n - 1) with
      ((j - 1) - (cur + 1 + Z.of_nat m) mod n) by lia.
    rewrite Zminus_mod_idemp_r.
    assert (E : (j - 1 - (cur + 1 + Z.of_nat m)) mod n = distance n cur j - Z.of_nat m - 1).
    { unfold distance in *. replace (j - 1 - (cur + 1 + Z.of_nat m)) with
        ((j - cur - 1) - (Z.of_nat m + 1)) by lia.
      rewrite <- Zminus_mod_idemp_l. rewrite Z.mod_small by lia. lia. }
    rewrite E. lia.
Qed.

Lemma preempt_lookup ps cur esp j p :
  ps !! j = Some p -> state p <> PROCESS_RUNNING -> (preempt ps cur esp).2 !! j = Some p.
Proof.
  intros Hp Hn. unfold preempt. destruct (cur <? 0); [done|].
  destruct (ps !! Z.to_nat cur) as [q|] eqn:Hq; [|done]. case_decide; [|done].
  cbn. rewrite list_lookup_insert_ne; [done|]. intros <-. congruence.
Qed.

Lemma preempt_length ps cur esp : length (preempt ps cur esp).2 = length ps.
Proof.
  unfold preempt. destruct (if cur <? 0 then None else _); [|done].
  case_decide; [|done]. apply length_insert.
Qed.

(** A process that neither runs nor is chosen is untouched. *)
Lemma rr_step_kept ps cur esp j p :
  ps !! j = Some p -> state p <> PROCESS_RUNNING ->
  (rr_step ps cur esp).2 <> Z.of_nat j \/ state p <> PROCESS_READY ->
  (rr_step ps cur esp).1.2 !! j = Some p.
Proof.
  intros Hp Hn Hc. pose proof (preempt_lookup ps cur esp j p Hp Hn) as H1.
  unfold rr_step in *. destruct (preempt ps cur esp) as [was ps1]. cbn [snd] in H1.
  destruct (next_ready ps1 cur) as [x|] eqn:En; cbn in *; [|done].
  apply next_ready_Some in En as [Hx Hr].
  rewrite list_lookup_insert_ne; [done|]. intros <-.
  destruct Hc as [Hc|Hc]; [lia|]. unfold ready_at in Hr. rewrite H1 in Hr.
  by apply bool_decide_eq_true in Hr.
Qed.

(** The chosen process runs from its saved stack pointer. *)
Lemma rr_step_chosen ps cur esp j p :
  ps !! Z.to_nat j = Some p -> state p = PROCESS_READY -> j <> cur ->
  (rr_step ps cur esp).2 = j ->
  (rr_step ps cur esp).1.1 = cpu_esp p /\
  (rr_step ps cur esp).1.2 !! Z.to_nat j = Some (set_state p PROCESS_RUNNING).
Proof.
  intros Hp Hr Hne. pose proof (preempt_lookup ps cur esp _ p Hp ltac:(congruence)) as H1.
  unfold rr_step in *. destruct (preempt ps cur esp) as [was ps1]. cbn [snd] in H1.
  destruct (next_ready ps1 cur) as [x|] eqn:En; cbn; intros ->; [|done].
  rewrite (list_lookup_total_correct _ _ _ H1).
  destruct (Z.eqb_spec j cur); [done|]. rewrite andb_false_r. split; [done|].
  apply list_lookup_insert_eq. by eapply lookup_lt_Some.
Qed.

Definition bump s : sched S :=
  mkSched (objs s) (processes s) (process_count s) (current_index s) (tss_esp0 s)
    (u32 (pit_ticks s + 1)) (mm s).

Lemma bump_inv s : sched_inv s -> sched_inv (bump s).
Proof. by intros [? ? ? ? ? ? ? ?]. Qed.

(** A process is current and no process, itself included, is ready or running. *)
Definition idle s : Prop :=
  0 <= current_index s /\ Forall (fun p => state p <> PROCESS_READY /\ state p <> PROCESS_RUNNING) (procs s).

Lemma idle_next s : idle s -> next_ready (procs s) (current_index s) = None.
Proof.
  intros [_ Hp]. destruct (next_ready _ _) as [j|] eqn:E; [|done]. apply next_ready_Some in E as [_ E].
  unfold ready_at in E. destruct (procs s !! Z.to_nat j) as [p|] eqn:Ep; [|done].
  apply bool_decide_eq_true in E. destruct (Forall_lookup_1 _ _ _ _ Hp Ep). done.
Qed.

(** A tick then only counts and comes back. *)
Lemma idle_tick s esp : sched_inv s -> idle s -> TimerInterrupt s esp = Ok (esp, bump s).
Proof.
  intros H Hi. unfold TimerInterrupt. change (mkSched _ _ _ _ _ _ _) with (bump s).
  pose proof (bump_inv s H) as H'. unfold Schedule. change (current_index (bump s)) with (current_index s) in *.
  pose proof Hi as [Hc Hp]. destruct (Z.geb_spec (current_index s) 0); [|lia].
  assert (Hlt : current_index s < process_count s) by (destruct (si_cur_lt s H); lia).
  destruct (slot_ok (bump s) (current_index s) H') as (a & p & Ea & Hd & _ & _ & Hpr & _); [done|].
  destruct (Forall_lookup_1 _ _ _ _ Hp Hpr) as [Hnr Hnn].
  rewrite Ea. cbn [mbind result_bind]. rewrite Hd. cbn [mbind result_bind]. rewrite decide_False by done.
  cbn [mbind result_bind]. rewrite (find_ready_next (bump s) H').
  change (procs (bump s)) with (procs s). change (current_index (bump s)) with (current_index s).
  rewrite (idle_next s Hi). cbn [default from_option mbind result_bind].
  destruct (Z.geb_spec (current_index s) 0); [|lia]. rewrite Ea. cbn [mbind result_bind]. rewrite Hd. cbn [mbind result_bind].
  by rewrite decide_False.
Qed.

(** With the current process blocked and another one ready, a tick goes to the next ready
    process and leaves the entry of the blocked one as it was. *)
Lemma tick_away s esp p j :
  sched_inv s -> 0 <= current_index s -> procs s !! Z.to_nat (current_index s) = Some p ->
  state p = PROCESS_BLOCKED -> 0 <= j -> ready_at (procs s) j = true ->
  exists s' q, TimerInterrupt s esp = Ok (cpu_esp q, s') /\ q ∈ procs s /\ state q = PROCESS_READY /\
    sched_inv s' /\ current_index s' <> current_index s /\ procs s' !! Z.to_nat (current_index s) = Some p.
Proof.
  intros H Hc Hp Hb Hj Hr. destruct (Schedule_acts (bump s) esp (bump_inv s H)) as (s' & E & Hi & _ & Ep & Ec & _).
  change (Schedule (bump s) esp) with (TimerInterrupt s esp) in E.
  change (procs (bump s)) with (procs s) in *. change (current_index (bump s)) with (current_index s) in *.
  assert (Hpre : preempt (procs s) (current_index s) esp = (false, procs s)).
  { unfold preempt. rewrite (proj2 (Z.ltb_ge _ 0)), Hp, decide_False by (congruence || lia). done. }
  assert (Hl : j < Z.of_nat (length (procs s))).
  { unfold ready_at in Hr. destruct (procs s !! Z.to_nat j) eqn:Ej; [|done]. apply lookup_lt_Some in Ej. lia. }
  destruct (next_ready_closer (procs s) (current_index s) j Hr ltac:(lia)) as (x & Hx & _).
  unfold rr_step in *. rewrite Hpre, Hx in *. cbn [fst snd negb andb] in *.
  apply next_ready_Some in Hx as [Hxl Hxr]. unfold ready_at in Hxr.
  destruct (procs s !! Z.to_nat x) as [q|] eqn:Eq; [|done]. apply bool_decide_eq_true in Hxr.
  assert (Hne : x <> current_index s) by (intros ->; congruence).
  rewrite (proj2 (Z.eqb_neq x _)) in E by done. rewrite (list_lookup_total_correct _ _ _ Eq) in E.
  exists s', q. split; [done|]. split; [by eapply list_elem_of_lookup_2|]. split; [done|]. split; [done|].
  rewrite Ec, Ep. split; [done|]. rewrite list_lookup_insert_ne by lia. exact Hp.
Qed.

Lemma tick_closer s esp j :
  sched_inv s -> 0 <= j < process_count s -> ready_at (procs s) j = true ->
  exists r s', TimerInterrupt s esp = Ok (r, s') /\ sched_inv s' /\ same_table s s' /\
    ((current_index s' = j /\
      exists p, procs s' !! Z.to_nat j = Some p /\ state p = PROCESS_RUNNING) \/
     (ready_at (procs s') j = true /\
      distance (process_count s) (current_index s') j <
      distance (process_count s) (current_index s) j)).
Proof.
  intros H Hj Hr. destruct (Schedule_acts (bump s) esp (bump_inv s H))
    as (s' & HS & H' & Ht & Ep & Ec & _).
  eexists _, s'. split; [exact HS|]. split; [done|]. split; [done|].
  change (procs (bump s)) with (procs s) in *.
  change (current_index (bump s)) with (current_index s) in *.
  pose proof (procs_length s H) as Hl.
  unfold ready_at in Hr. destruct (procs s !! Z.to_nat j) as [p|] eqn:Hp; [|done].
  apply bool_decide_eq_true in Hr.
  pose proof (preempt_lookup _ (current_index s) esp _ p Hp ltac:(congruence)) as H1.
  destruct (next_ready_closer (preempt (procs s) (current_index s) esp).2 (current_index s) j)
    as (x & Hx & Hcl).
  { unfold ready_at. rewrite H1. by apply bool_decide_eq_true. }
  { rewrite preempt_length. lia. }
  rewrite preempt_length, Hl in Hcl.
  assert (Ex : (rr_step (procs s) (current_index s) esp).2 = x).
  { unfold rr_step. destruct (preempt _ _ _) as [was ps1]. cbn in Hx. by rewrite Hx. }
  rewrite Ec, Ex. destruct (decide (x = j)) as [->|Hne].
  - left. split; [done|]. rewrite Ep. unfold rr_step.
    destruct (preempt _ _ _) as [was ps1]. cbn in Hx, H1. rewrite Hx. cbn.
    eexists. split; [apply list_lookup_insert_eq; by eapply lookup_lt_Some | done].
  - right. destruct Hcl as [|Hcl]; [done|]. split; [|done].
    unfold ready_at. rewrite Ep, (rr_step_kept _ _ _ _ p); [by apply bool_decide_eq_true | done | congruence |].
    left. rewrite Ex. lia.
Qed.

(** Timer interrupts with the stack pointers [es]. *)
Fixpoint run_ticks s (es : list Z) : result (sched S) :=
  match es with
  | [] => Ok s
  | e :: es => '(_, s') ← TimerInterrupt s e; run_ticks s' es
  end.

Lemma runs_before s j es :
  sched_inv s -> 0 <= j < process_count s -> ready_at (procs s) j = true ->
  distance (process_count s) (current_index s) j < Z.of_nat (length es) ->
  exists k s', (k <= length es)%nat /\ run_ticks s (take k es) = Ok s' /\
    current_index s' = j /\
    exists p, procs s' !! Z.to_nat j = Some p /\ state p = PROCESS_RUNNING.
Proof.
  revert s. induction es as [|e es IH]; intros s H Hj Hr Hd.
  - cbn in Hd. pose proof (Z.mod_pos_bound (j - current_index s - 1) (process_count s)).
    unfold distance in Hd. lia.
  - destruct (tick_closer s e j H Hj Hr) as (r & s1 & HT & H1 & [_ Ec] & [[Ecur Hp]|[Hr1 Hd1]]).
    + exists 1%nat, s1. cbn. rewrite HT. cbn. rewrite take_0. split; [lia | done].
    + destruct (IH s1) as (k & s' & Hk & HR & ?); [done | by rewrite Ec | done | |].
      { rewrite Ec. cbn in Hd. lia. }
      exists (Datatypes.S k), s'. cbn. rewrite HT. cbn. split; [lia | done].
Qed.

(** C12: No ready process starves.  On a well-formed table with [n] processes, in
    any [n] timer interrupts some interrupt dispatches the given ready process. *)
Theorem ready_process_runs s j es :
  sched_inv s -> 0 <= j < process_count s -> ready_at (procs s) j = true ->
  Z.of_nat (length es) = process_count s ->
  exists k s', (k <= length es)%nat /\ run_ticks s (take k es) = Ok s' /\
    current_index s' = j /\
    exists p, procs s' !! Z.to_nat j = Some p /\ state p = PROCESS_RUNNING.
Proof.
  intros H Hj Hr He. apply runs_before; [done..|]. rewrite He.
  apply Z.mod_pos_bound. lia.
Qed.

(** ** Waking, adding and finding processes *)

Definition wake (c : Z) (p : Process) : Process :=
  if bool_decide (state p = PROCESS_BLOCKED) && (wait_pid p =? c)
  then set_wait (set_state p PROCESS_READY) (-1) else p.

Lemma WakeParent_acts s c :
  sched_inv s ->
  exists s', WakeParent s c = Ok s' /\ sched_inv s' /\ same_table s s' /\
    current_index s' = current_index s /\ mm s' = mm s /\ procs s' = wake c <$> procs s.
Proof.
  intros H. unfold WakeParent.
  destruct (for_result_inv (fun i s' => sched_inv s' /\ same_table s s' /\
      current_index s' = current_index s /\ mm s' = mm s /\
      forall k, procs s' !! k =
        if decide (Z.of_nat k < i) then wake c <$> procs s !! k else procs s !! k)
    0 (process_count s) (fun i s =>
       a ← arr_get (processes s) i;
       if a =? 0 then Ok s
       else
         p ← deref s a;
         if bool_decide (state p = PROCESS_BLOCKED) && (wait_pid p =? c)
         then Ok (assign s a (set_wait (set_state p PROCESS_READY) (-1)))
         else Ok s) s) as (s' & HR & H' & Ht & Ec & Em & Hp).
  - apply (si_count s H).
  - split; [done|]. split; [done|]. split; [done|]. split; [done|]. intros k.
    case_decide; [lia | done].
  - intros i si Hi (Hsi & [Etab Ecnt] & Ec & Em & Hp).
    destruct (slot_ok si i Hsi) as (a & p & -> & Hd & Hne & Ha & Hpi & _); [lia|].
    cbn [mbind result_bind]. destruct (Z.eqb_spec a 0); [done|].
    rewrite Hd. cbn [mbind result_bind].
    assert (Hold : procs s !! Z.to_nat i = Some p).
    { rewrite <- Hpi, Hp. case_decide; [lia | done]. }
    destruct (bool_decide (state p = PROCESS_BLOCKED) && (wait_pid p =? c)) eqn:Eb.
    + eexists. split; [done|].
      split; [eapply inv_assign; [done | exact Ha | exact Hpi | done | done]|].
      split; [done|]. split; [done|]. split; [done|]. intros k.
      rewrite (procs_assign si _ a _ (si_nodup si Hsi) Ha).
      destruct (decide (k = Z.to_nat i)) as [->|Hk].
      * rewrite list_lookup_insert_eq by (by eapply lookup_lt_Some).
        rewrite decide_True by lia. rewrite Hold. cbn. unfold wake. by rewrite Eb.
      * rewrite list_lookup_insert_ne by done. rewrite Hp.
        repeat case_decide; (done || lia).
    + exists si. split; [done|]. split; [done|]. split; [done|]. split; [done|].
      split; [done|]. intros k. rewrite Hp. destruct (decide (k = Z.to_nat i)) as [->|Hk].
      * rewrite decide_False, decide_True by lia. rewrite Hold. cbn. unfold wake. by rewrite Eb.
      * repeat case_decide; (done || lia).
  - exists s'. split; [done|]. split; [done|]. split; [done|]. split; [done|]. split; [done|].
    apply list_eq. intros k. rewrite Hp, list_lookup_fmap. case_decide as Ek; [done|].
    rewrite (lookup_ge_None_2 (procs s)); [done|]. pose proof (procs_length s H). lia.
Qed.

Lemma AddProcess_acts s a p :
  sched_inv s -> objs s !! a = Some p -> a <> 0 -> a ∉ addrs s ->
  page_dir p = 0 \/ is_Some (Paging.dirs (mm s) !! page_dir p) ->
  exists s', AddProcess s a = Ok s' /\ sched_inv s' /\ current_index s' = current_index s /\
    procs s' = if process_count s >=? MAX_PROCESSES then procs s
               else procs s ++ [set_state p PROCESS_READY].
Proof.
  intros H Hp Ha Hn Hdir. unfold AddProcess, MAX_PROCESSES in *.
  pose proof (si_count s H) as Hcnt. unfold MAX_PROCESSES in Hcnt.
  destruct (Z.geb_spec (process_count s) 16); [by exists s|].
  unfold deref. rewrite Hp. cbn [mbind result_bind]. cbn [assign with_objs processes process_count].
  rewrite arr_set_in_range by (rewrite (si_len s H); lia). cbn [mbind result_bind].
  eexists. split; [done|].
  set (s1 := mkSched _ _ _ _ _ _ _).
  assert (Ea : addrs s1 = addrs s ++ [a]).
  { unfold addrs, s1. cbn. replace (Z.to_nat (process_count s + 1)) with
      (Datatypes.S (Z.to_nat (process_count s))) by lia.
    erewrite take_S_r; [|apply list_lookup_insert_eq; rewrite (si_len s H); lia].
    f_equal. by rewrite take_insert_ge. }
  assert (Ep : procs s1 = procs s ++ [set_state p PROCESS_READY]).
  { unfold procs. rewrite Ea, fmap_app. cbn. rewrite lookup_total_insert_eq. f_equal.
    apply list_fmap_ext. intros i b Hb. apply lookup_total_insert_ne. intros <-.
    apply Hn. by eapply list_elem_of_lookup_2. }
  split; [|done]. split.
  - cbn. rewrite length_insert. apply H.
  - cbn. unfold MAX_PROCESSES. lia.
  - apply H.
  - cbn. destruct (si_cur_lt s H); [by left | right; lia].
  - rewrite Ea. apply NoDup_app. split; [apply H|]. split; [set_solver | apply NoDup_singleton].
  - intros b. rewrite Ea, elem_of_app, list_elem_of_singleton. intros [Hb|Hb].
    + destruct (si_objs s H b Hb). split; [done | by apply assign_objs].
    + subst b. split; [done|]. cbn. rewrite lookup_insert_eq. eauto.
  - intros i q. rewrite Ep. intros [Hq|[_ Hq]]%lookup_app_Some Hr; [by eapply (si_run s H)|].
    apply list_lookup_singleton_Some in Hq as [_ <-]. done.
  - intros q. rewrite Ep, elem_of_app, list_elem_of_singleton.
    intros [Hq| ->]; [by apply (si_dirs s H) | done].
Qed.

(** ** Resuming *)

(** What can happen to the table between two dispatches of a process. *)
Inductive event s : sched S -> Prop :=
  | ev_tick e r s' : TimerInterrupt s e = Ok (r, s') -> event s s'
  | ev_wake c s' : WakeParent s c = Ok s' -> event s s'
  | ev_add a p s' : objs s !! a = Some p -> a <> 0 -> a ∉ addrs s ->
      page_dir p = 0 \/ is_Some (Paging.dirs (mm s) !! page_dir p) ->
      AddProcess s a = Ok s' -> event s s'.

(** Process [i] is ready, saved with stack pointer [e], and another is current. *)
Definition parked (i e : Z) s : Prop :=
  sched_inv s /\ 0 <= i /\ current_index s <> i /\
  exists p, procs s !! Z.to_nat i = Some p /\ state p = PROCESS_READY /\ cpu_esp p = e.

Lemma tick_inv s e r s' :
  sched_inv s -> TimerInterrupt s e = Ok (r, s') ->
  sched_inv s' /\ r = (rr_step (procs s) (current_index s) e).1.1 /\
  procs s' = (rr_step (procs s) (current_index s) e).1.2 /\
  current_index s' = (rr_step (procs s) (current_index s) e).2.
Proof.
  intros H HT. destruct (Schedule_acts (bump s) e (bump_inv s H)) as (s1 & HS & H1 & _ & Ep & Ec & _).
  change (Schedule (bump s) e) with (TimerInterrupt s e) in HS. rewrite HT in HS.
  injection HS as -> ->. done.
Qed.

Lemma parked_event i e s s' :
  parked i e s -> event s s' -> current_index s' <> i -> parked i e s'.
Proof.
  intros (H & Hi & Hc & p & Hp & Hr & He) Hev Hc'. destruct Hev as [x r s' HT|c s' HW|a q s' Hq Ha Hn Hd HA].
  - destruct (tick_inv s x r s' H HT) as (H' & _ & Ep & Ec).
    split; [done|]. split; [done|]. split; [done|]. exists p. split; [|done].
    rewrite Ep. apply rr_step_kept; [done | congruence |]. left. rewrite <- Ec. lia.
  - destruct (WakeParent_acts s c H) as (s1 & HW1 & H1 & _ & _ & _ & Ep).
    rewrite HW in HW1. injection HW1 as <-.
    split; [done|]. split; [done|]. split; [done|]. exists p. split; [|done].
    rewrite Ep, list_lookup_fmap, Hp. cbn. unfold wake. rewrite Hr. done.
  - destruct (AddProcess_acts s a q H Hq Ha Hn Hd) as (s1 & HA1 & H1 & _ & Ep).
    rewrite HA in HA1. injection HA1 as <-.
    split; [done|]. split; [done|]. split; [done|]. exists p. split; [|done].
    rewrite Ep. destruct (_ >=? _); [done|]. by apply lookup_app_l_Some.
Qed.

Lemma parked_dispatch i e s x r s' :
  parked i e s -> TimerInterrupt s x = Ok (r, s') -> current_index s' = i -> r = e.
Proof.
  intros (H & Hi & Hc & p & Hp & Hr & He) HT Hc'.
  destruct (tick_inv s x r s' H HT) as (_ & -> & _ & Ec).
  destruct (rr_step_chosen (procs s) (current_index s) x i p) as [-> _]; [done..| |done].
  congruence.
Qed.

(** C13: A preempted process resumes where it was.  When a timer interrupt with
    stack pointer [e] takes the processor from the running process [i], then,
    whatever interrupts, wake-ups and new processes follow, the interrupt that
    next dispatches [i] returns [e]. *)
Theorem preempted_process_resumes s i p e r1 s1 s2 x r s3 :
  sched_inv s -> current_index s = i -> 0 <= i ->
  procs s !! Z.to_nat i = Some p -> state p = PROCESS_RUNNING ->
  TimerInterrupt s e = Ok (r1, s1) ->
  current_index s1 <> i ->
  rtc (fun a b => event a b /\ current_index b <> i) s1 s2 ->
  TimerInterrupt s2 x = Ok (r, s3) -> current_index s3 = i ->
  r = e.
Proof.
  intros H Hc Hi Hp Hr HT Hne Hrun. assert (Hpk : parked i e s1).
  { destruct (tick_inv s e r1 s1 H HT) as (H1 & _ & Ep & Ec).
    split; [done|]. split; [done|]. split; [done|].
    exists (set_esp (set_state p PROCESS_READY) e). split; [|done].
    rewrite Ep. rewrite Ec in Hne. unfold rr_step, preempt in *.
    destruct (Z.ltb_spec (current_index s) 0); [lia|]. rewrite Hc, Hp in *.
    rewrite decide_True in * by done.
    destruct (next_ready _ _) as [j|] eqn:En; cbn in *; [|done].
    apply next_ready_Some in En as [Hj _].
    rewrite list_lookup_insert_ne by lia. apply list_lookup_insert_eq. by eapply lookup_lt_Some. }
  clear HT Hne Hr Hp Hc H. induction Hrun as [s1|s1 s1' s2 [Hev Hne] _ IH].
  - by apply parked_dispatch.
  - apply IH. by eapply parked_event.
Qed.

(** C15: A process that blocks inside a system call loses its place.  When the
    current process is blocked, the timer interrupt that dispatches another
    process does not store the stack pointer [e] of the blocked one; once
    [WakeParent] has made it ready, the interrupt that dispatches it returns the
    stack pointer saved before, whatever [e] was. *)
Theorem blocked_process_context_lost s i j p e :
  sched_inv s -> current_index s = i -> 0 <= i ->
  procs s !! Z.to_nat i = Some p -> state p = PROCESS_BLOCKED ->
  0 <= j < process_count s -> ready_at (procs s) j = true ->
  exists r s1 s2, TimerInterrupt s e = Ok (r, s1) /\ current_index s1 <> i /\
    WakeParent s1 (wait_pid p) = Ok s2 /\
    forall x r' s3, TimerInterrupt s2 x = Ok (r', s3) -> current_index s3 = i ->
      r' = cpu_esp p.
Proof.
  intros H Hc Hi Hp Hb Hj Hr.
  destruct (Schedule_acts (bump s) e (bump_inv s H)) as (s1 & HS & _).
  change (Schedule (bump s) e) with (TimerInterrupt s e) in HS.
  destruct (tick_inv s e _ s1 H HS) as (H1 & _ & Ep & Ec).
  assert (Hp1 : procs s1 !! Z.to_nat i = Some p).
  { rewrite Ep. apply rr_step_kept; [done | congruence | right; congruence]. }
  assert (Hpre : preempt (procs s) (current_index s) e = (false, procs s)).
  { unfold preempt. destruct (Z.ltb_spec (current_index s) 0); [lia|].
    rewrite Hc, Hp, decide_False by congruence. done. }
  assert (Hne : current_index s1 <> i).
  { rewrite Ec. unfold rr_step. rewrite Hpre.
    destruct (next_ready_closer (procs s) (current_index s) j) as (x & Hx & _);
      [done | by rewrite procs_length |].
    rewrite Hx. cbn. apply next_ready_Some in Hx as [_ Hx]. intros ->.
    unfold ready_at in Hx. rewrite Hp in Hx. apply bool_decide_eq_true in Hx. congruence. }
  destruct (WakeParent_acts s1 (wait_pid p) H1) as (s2 & HW & H2 & _ & Ec2 & _ & Ep2).
  eexists _, s1, s2. split; [exact HS|]. split; [done|]. split; [done|].
  intros x r' s3 HT Hc3. apply (parked_dispatch i _ s2 x r' s3); [|done|done].
  split; [done|]. split; [done|]. split; [by rewrite Ec2|].
  exists (set_wait (set_state p PROCESS_READY) (-1)). split; [|done].
  rewrite Ep2, list_lookup_fmap, Hp1. cbn. unfold wake.
  rewrite bool_decide_true, Z.eqb_refl by done. done.
Qed.

(** ** Process identifiers *)

Lemma max_pid s :
  sched_inv s ->
  exists m, for_result 0 (process_count s)
    (fun i m =>
       a ← arr_get (processes s) i;
       if a =? 0 then Ok m
       else p ← deref s a; Ok (if i32 (pid p) >? m then i32 (pid p) else m)) 0 = Ok m /\
    0 <= m /\ (forall p, p ∈ procs s -> i32 (pid p) <= m) /\
    (m = 0 \/ exists p, p ∈ procs s /\ m = i32 (pid p)).
Proof.
  intros H. destruct (for_result_inv (fun i m => 0 <= m /\
      (forall k p, Z.of_nat k < i -> procs s !! k = Some p -> i32 (pid p) <= m) /\
      (m = 0 \/ exists p, p ∈ procs s /\ m = i32 (pid p)))
    0 (process_count s) (fun i m =>
       a ← arr_get (processes s) i;
       if a =? 0 then Ok m
       else p ← deref s a; Ok (if i32 (pid p) >? m then i32 (pid p) else m)) 0)
    as (m & HR & H0 & Hall & Hex).
  - apply (si_count s H).
  - split; [lia|]. split; [lia | by left].
  - intros i m Hi (H0 & Hall & Hex).
    destruct (slot_ok s i H) as (a & p & -> & Hd & Hne & _ & Hp & _); [lia|].
    cbn [mbind result_bind]. destruct (Z.eqb_spec a 0); [done|].
    rewrite Hd. cbn [mbind result_bind]. eexists. split; [done|].
    assert (Hstep : forall m', m <= m' -> i32 (pid p) <= m' ->
      forall k q, Z.of_nat k < i + 1 -> procs s !! k = Some q -> i32 (pid q) <= m').
    { intros m' Hm Hpm k q Hk Hq. destruct (decide (Z.of_nat k = i)) as [E|E].
      - rewrite <- E, Nat2Z.id, Hq in Hp. injection Hp as ->. done.
      - specialize (Hall k q ltac:(lia) Hq). lia. }
    destruct (Z.gtb_spec (i32 (pid p)) m).
    + split; [lia|]. split; [apply Hstep; lia|]. right. exists p. split; [|done].
      by eapply list_elem_of_lookup_2.
    + split; [lia|]. split; [apply Hstep; lia | done].
  - exists m. split; [done|]. split; [done|]. split; [|done].
    intros p (k & Hk)%list_elem_of_lookup_1. apply (Hall k); [|done].
    apply lookup_lt_Some in Hk. pose proof (procs_length s H). lia.
Qed.

Lemma find_process_none s n i t :
  sched_inv s -> 0 <= i -> i + Z.of_nat n <= process_count s ->
  (forall p, p ∈ procs s -> i32 (pid p) <> t) -> find_process n s i t = Ok 0.
Proof.
  intros H Hi Hn Ht. revert i Hi Hn. induction n as [|n IH]; intros i Hi Hn; [done|].
  cbn [find_process].
  destruct (slot_ok s i H) as (a & p & -> & Hd & Hne & _ & Hp & _); [lia|].
  cbn [mbind result_bind]. destruct (Z.eqb_spec a 0); [done|].
  rewrite Hd. cbn [mbind result_bind].
  destruct (Z.eqb_spec (i32 (pid p)) t) as [E|E].
  - exfalso. apply (Ht p); [by eapply list_elem_of_lookup_2 | done].
  - apply IH; lia.
Qed.

(** [NextPID] is fresh.  While no process has the largest 32-bit identifier,
    [NextPID] returns a positive number that [FindProcess] does not find. *)
Theorem NextPID_fresh s :
  sched_inv s -> (forall p, p ∈ procs s -> i32 (pid p) < 2 ^ 31 - 1) ->
  exists m, NextPID s = Ok m /\ 1 <= m < 2 ^ 31 /\ FindProcess s m = Ok 0 /\
    forall p, p ∈ procs s -> pid p <> m.
Proof.
  intros H Hb. destruct (max_pid s H) as (m & HR & H0 & Hall & Hex).
  assert (Hm : m < 2 ^ 31 - 1) by (destruct Hex as [->|(p & Hp & ->)]; [zify_words; lia | by apply Hb]).
  assert (E : i32 (m + 1) = m + 1) by (rewrite i32_small; zify_words; lia).
  exists (m + 1). unfold NextPID. rewrite HR. cbn [mbind result_bind]. rewrite E.
  split; [done|]. split; [lia|]. split.
  - apply find_process_none; [done | lia | pose proof (si_count s H); lia |].
    intros p Hp. specialize (Hall p Hp). lia.
  - intros p Hp Ep. specialize (Hall p Hp). rewrite Ep, E in Hall. lia.
Qed.

(** ** The first dispatch of a process *)

(** The words the interrupt return path and [iret] pop, from the lowest address. *)
Record frame := mkFrame {
  f_ss : Z; f_gs : Z; f_fs : Z; f_es : Z; f_ds : Z;
  f_edi : Z; f_esi : Z; f_ebp : Z; f_esp_ignored : Z;
  f_ebx : Z; f_edx : Z; f_ecx : Z; f_eax : Z;
  f_eip : Z; f_cs : Z; f_eflags : Z; f_user_esp : Z; f_user_ss : Z;
}.

Definition pop_frame (stack : list Z) (sp : nat) : option frame :=
  match take 18 (drop sp stack) with
  | [a; b; c; d; e; f; g; h; i; j; k; l; m; n; o; p; q; r] =>
      Some (mkFrame a b c d e f g h i j k l m n o p q r)
  | _ => None
  end.

(** Pushing the words of [ws] leaves them in reverse order from the new index. *)
Lemma kpush_all ws n stack :
  (length ws <= n)%nat -> (n <= length stack)%nat ->
  exists stack', fold_result kpush ws (Z.of_nat n, stack) =
      Ok (Z.of_nat (n - length ws), stack') /\
    length stack' = length stack /\
    take (length ws) (drop (n - length ws) stack') = reverse ws /\
    drop n stack' = drop n stack.
Proof.
  revert n stack. induction ws as [|w ws IH]; intros n stack Hw Hn; cbn [length] in *.
  - exists stack. rewrite Nat.sub_0_r, take_0. done.
  - cbn [fold_result]. unfold kpush at 2. cbn [fst snd]. cbv zeta.
    rewrite arr_set_in_range by lia. cbn [mbind result_bind].
    replace (Z.of_nat n - 1) with (Z.of_nat (n - 1)) by lia. rewrite Nat2Z.id.
    destruct (IH (n - 1)%nat (<[(n - 1)%nat := w]> stack)) as (st & -> & Hl & Ht & Hd);
      [lia | rewrite length_insert; lia |].
    rewrite length_insert in Hl. exists st.
    replace (n - Datatypes.S (length ws))%nat with (n - 1 - length ws)%nat by lia.
    split; [done|]. split; [done|].
    assert (Hw' : st !! (n - 1)%nat = Some w).
    { pose proof (f_equal (fun l => l !! 0%nat) Hd) as E. cbn in E.
      rewrite !lookup_drop, Nat.add_0_r in E. rewrite E.
      apply list_lookup_insert_eq. lia. }
    split.
    + rewrite reverse_cons, <- Ht.
      rewrite (take_S_r _ (length ws) w); [done|].
      rewrite lookup_drop. by replace (n - 1 - length ws + length ws)%nat with (n - 1)%nat by lia.
    + apply (f_equal (drop 1)) in Hd. rewrite !drop_drop in Hd.
      replace (n - 1 + 1)%nat with n in Hd by lia. rewrite Hd.
      rewrite drop_insert_lt by lia. done.
Qed.

(** Mapping [n] user pages from [lo] on, in a directory that has their tables. *)
Record user_range (v0 : Paging.vm S) (k : Z) (d0 : Paging.PageDirectory) (lo n : Z) (v : Paging.vm S) d : Prop := {
  ur_wf : Paging.vm_wf v;
  ur_dir : Paging.dirs v !! k = Some d;
  ur_root : Paging.phys_dir d = Paging.phys_dir d0;
  ur_tab : forall j, 0 <= j < 1024 -> Paging.tab d0 j <> 0 -> Paging.tab d j <> 0;
  ur_leaf : forall va, is_u32 va -> Paging.leaf v d va =
    if (lo / 4096 <=? va / 4096) && (va / 4096 <? lo / 4096 + n)
    then Paging.new_pte (va / 4096 * 4096) Paging.PAGE_USER_RW else Paging.leaf v0 d0 va;
  ur_user : forall j, 0 <= j < 1024 ->
    Z.testbit (Paging.pde v0 d0 j) 2 = true -> Z.testbit (Paging.pde v d j) 2 = true;
  ur_mapped : forall va, is_u32 va -> lo / 4096 <= va / 4096 < lo / 4096 + n ->
    Z.testbit (Paging.pde v d (Paging.pd_index va)) 2 = true;
}.

Lemma user_range_step v0 k d0 lo n v d :
  0 <= lo -> lo mod 4096 = 0 -> 0 <= n -> lo + (n + 1) * 4096 <= 2 ^ 32 ->
  Paging.tab d0 (Paging.pd_index (lo + n * 0x1000)) <> 0 ->
  user_range v0 k d0 lo n v d ->
  exists v' d', Paging.MapPage v k (lo + n * 0x1000) (lo + n * 0x1000) Paging.PAGE_USER_RW = Ok v' /\
    user_range v0 k d0 lo (n + 1) v' d'.
Proof.
  intros Hlo Hal Hn Hhi Ht0 [Hwf Hk Hroot Htab Hleaf Huser Hmap].
  set (pg := lo + n * 0x1000) in *.
  assert (Hu : is_u32 pg) by (subst pg; zify_words; lia).
  assert (Hpg : pg / 4096 = lo / 4096 + n)
    by (subst pg; rewrite Z.div_add by lia; done).
  assert (Hpage : pg / 4096 * 4096 = pg) by (subst pg; Z.div_mod_to_equations; lia).
  destruct (Paging.indices pg Hu) as [Hi _].
  pose proof (Paging.MapPage_acts v k d pg pg Paging.PAGE_USER_RW Hwf Hk Hu Hu) as HM.
  rewrite decide_False in HM by (intros [E _]; by apply (Htab _ Hi Ht0)).
  destruct HM as (v' & d' & HM & Hm). exists v', d'. split; [done|].
  assert (Hub : forall j, 0 <= j < 1024 -> Z.testbit (Paging.pde v d j) 2 = true ->
    Z.testbit (Paging.pde v' d' j) 2 = true).
  { intros j Hj Hb. destruct (decide (j = Paging.pd_index pg)) as [->|Hne].
    - by apply (Paging.pm_user _ _ _ _ _ _ _ _ Hm).
    - by rewrite (Paging.pm_pde _ _ _ _ _ _ _ _ Hm). }
  split.
  - apply Hm.
  - rewrite (Paging.pm_dirs _ _ _ _ _ _ _ _ Hm). apply lookup_insert_eq.
  - by rewrite (Paging.pm_root _ _ _ _ _ _ _ _ Hm).
  - intros j Hj Hj0. destruct (decide (j = Paging.pd_index pg)) as [->|Hne].
    + apply (Paging.pm_tab _ _ _ _ _ _ _ _ Hm).
    + rewrite (Paging.pm_tabs _ _ _ _ _ _ _ _ Hm) by done. by apply Htab.
  - intros va Hva. rewrite (Paging.pm_leaf _ _ _ _ _ _ _ _ Hm), Hleaf, Hpg by done.
    case_decide as E.
    + rewrite E. destruct (Z.leb_spec (lo / 4096) (lo / 4096 + n)); [|lia].
      destruct (Z.ltb_spec (lo / 4096 + n) (lo / 4096 + (n + 1))); [|lia]. cbn.
      by rewrite <- Hpg, Hpage.
    + destruct (Z.leb_spec (lo / 4096) (va / 4096)); cbn; [|done].
      destruct (Z.ltb_spec (va / 4096) (lo / 4096 + n)),
        (Z.ltb_spec (va / 4096) (lo / 4096 + (n + 1))); (done || lia).
  - intros j Hj Hb. apply Hub; [done|]. by apply Huser.
  - intros va Hva Hr. destruct (Paging.indices va Hva) as [Hiv _].
    destruct (decide (va / 4096 = pg / 4096)) as [E|E].
    + apply Paging.same_page in E as [-> _]; [|done..].
      by apply (Paging.pm_user _ _ _ _ _ _ _ _ Hm).
    + apply Hub; [done|]. apply Hmap; [done | lia].
Qed.

Lemma map_user_range_acts v k d lo hi :
  Paging.vm_wf v -> Paging.dirs v !! k = Some d ->
  0 <= lo <= hi -> hi <= 2 ^ 32 -> lo mod 4096 = 0 -> hi mod 4096 = 0 ->
  (forall va, lo <= va < hi -> Paging.tab d (Paging.pd_index va) <> 0) ->
  exists v' d', map_user_range v k lo hi = Ok v' /\
    user_range v k d lo (hi / 4096 - lo / 4096) v' d'.
Proof.
  intros Hwf Hk Hlh Hhi Hal Hah Ht. unfold map_user_range.
  replace ((hi - lo) / 0x1000) with (hi / 4096 - lo / 4096) by (Z.div_mod_to_equations; lia).
  destruct (for_result_inv (fun n v' => exists d', user_range v k d lo n v' d')
    0 (hi / 4096 - lo / 4096) (fun i v => Paging.MapPage v k (lo + i * 0x1000) (lo + i * 0x1000)
      Paging.PAGE_USER_RW) v) as (v' & HR & d' & Hd').
  - Z.div_mod_to_equations; lia.
  - exists d. split; try done.
    + intros va Hva. rewrite Z.add_0_r.
      destruct (Z.leb_spec (lo / 4096) (va / 4096)), (Z.ltb_spec (va / 4096) (lo / 4096));
        (done || lia).
    + intros va Hva Hr. lia.
  - intros n s Hn (dn & Hdn).
    destruct (user_range_step v k d lo n s dn) as (s' & d' & ? & ?);
      [lia | done | lia | Z.div_mod_to_equations; lia | | done | eauto].
    apply Ht. Z.div_mod_to_equations; lia.
  - eauto.
Qed.

(** The user may read and write [va], at the same physical address. *)
Definition user_page (v : Paging.vm S) (root va : Z) : Prop :=
  Paging.mmu v root va = Some (Paging.mkTr va true true).

Lemma user_leaf_mmu v k d va :
  Paging.vm_wf v -> Paging.dirs v !! k = Some d -> is_u32 va ->
  Paging.leaf v d va = Paging.new_pte (va / 4096 * 4096) Paging.PAGE_USER_RW ->
  Z.testbit (Paging.pde v d (Paging.pd_index va)) 2 = true ->
  user_page v (Paging.phys_dir d) va.
Proof.
  intros Hwf Hk Hva El Eu. unfold user_page.
  rewrite Paging.mmu_leaf by (done || by eapply (Paging.vw_dir v Hwf)). rewrite El, Eu.
  assert (Hp : is_u32 (va / 4096 * 4096)) by (zify_words; Z.div_mod_to_equations; lia).
  destruct (Paging.new_pte_bits _ Paging.PAGE_USER_RW Hp) as (W1 & W2 & _).
  fold (Paging.new_pte (va / 4096 * 4096) Paging.PAGE_USER_RW) in W1, W2.
  rewrite W1, !W2, Z.div_mul by lia. cbn. do 2 f_equal. Z.div_mod_to_equations; lia.
Qed.

Lemma pd_index_range va lo hi :
  is_u32 va -> lo * 4194304 <= va < hi * 4194304 -> lo <= Paging.pd_index va < hi.
Proof.
  intros Hva H. rewrite Paging.pd_index_div. change (2 ^ 22) with 4194304.
  Z.div_mod_to_equations; lia.
Qed.

(** The two loops of the constructor. *)
Lemma map_process_pages v k d base :
  Paging.vm_wf v -> Paging.dirs v !! k = Some d ->
  (forall j, 1 <= j < 4 -> Paging.tab d j <> 0) ->
  0x00C10000 <= base <= 0x01000000 -> base mod 4096 = 0 ->
  exists v1 v2 d2, map_user_range v k 0x00400000 0x00500000 = Ok v1 /\
    map_user_range v1 k (u32 (base - 0x10000)) base = Ok v2 /\
    Paging.vm_wf v2 /\ Paging.dirs v2 !! k = Some d2 /\
    (forall va, 0x00400000 <= va < 0x00500000 \/ base - 0x10000 <= va < base ->
      user_page v2 (Paging.phys_dir d2) va) /\
    (forall va, is_u32 va -> ~ (0x00400000 <= va < 0x00500000 \/ base - 0x10000 <= va < base) ->
      Paging.leaf v2 d2 va = Paging.leaf v d va).
Proof.
  intros Hwf Hk Ht Hb Hal.
  assert (Htab : forall va, 0x00400000 <= va < 0x01000000 -> Paging.tab d (Paging.pd_index va) <> 0).
  { intros va Hva. apply Ht, pd_index_range; [zify_words; lia | lia]. }
  destruct (map_user_range_acts v k d 0x00400000 0x00500000 Hwf Hk) as (v1 & d1 & H1 & R1);
    [lia | lia | done | done | intros va ?; apply Htab; lia |].
  assert (E : u32 (base - 0x10000) = base - 0x10000) by (apply u32_small; zify_words; lia).
  destruct (map_user_range_acts v1 k d1 (base - 0x10000) base (ur_wf _ _ _ _ _ _ _ R1)
    (ur_dir _ _ _ _ _ _ _ R1)) as (v2 & d2 & H2 & R2);
    [lia | lia | Z.div_mod_to_equations; lia | done | |].
  { intros va Hva. apply (ur_tab _ _ _ _ _ _ _ R1); [|apply Htab; lia].
    apply Paging.indices. zify_words; lia. }
  exists v1, v2, d2. rewrite E. split; [done|]. split; [done|]. split; [apply R2|].
  split; [apply R2|].
  assert (Hleaf : forall va, is_u32 va -> Paging.leaf v2 d2 va =
    if ((base - 0x10000) / 4096 <=? va / 4096) && (va / 4096 <? base / 4096) ||
       (1024 <=? va / 4096) && (va / 4096 <? 1280)
    then Paging.new_pte (va / 4096 * 4096) Paging.PAGE_USER_RW else Paging.leaf v d va).
  { intros va Hu. rewrite (ur_leaf _ _ _ _ _ _ _ R2), (ur_leaf _ _ _ _ _ _ _ R1) by done.
    rewrite Z.add_sub_assoc, Z.add_simpl_l. change (0x400000 / 4096) with 1024. change (1024 + (0x500000 / 4096 - 1024)) with 1280.
    by destruct (_ && _), (_ && _). }
  split; [|intros va Hu Hva; rewrite Hleaf by done; case_tests; exfalso; Z.div_mod_to_equations; lia].
  intros va Hva. assert (Hu : is_u32 va) by (zify_words; lia). destruct (Paging.indices va Hu) as [Hi _].
  apply (user_leaf_mmu v2 k); [apply R2 | apply R2 | done | |].
  - rewrite Hleaf by done. case_tests; exfalso; Z.div_mod_to_equations; lia.
  - destruct Hva as [Hva|Hva].
    + apply (ur_user _ _ _ _ _ _ _ R2); [done|].
      apply (ur_mapped _ _ _ _ _ _ _ R1); [done|]. Z.div_mod_to_equations; lia.
    + apply (ur_mapped _ _ _ _ _ _ _ R2); [done|]. Z.div_mod_to_equations; lia.
Qed.

(** The constructor, and what it leaves of the address space it starts from. *)
Lemma Process_new_acts v this dir entry n stack0 kd :
  Paging.vm_wf v -> Paging.kernel_dir v <> 0 ->
  Paging.dirs v !! Paging.kernel_dir v = Some kd -> Paging.dirs v !! dir = None ->
  fa_avail (Paging.pmm v) <> ∅ -> (forall j, 1 <= j < 4 -> Paging.tab kd j <> 0) ->
  length stack0 = 1024%nat -> 0 <= this -> this + 4168 < 2 ^ 32 -> 1 <= n <= 64 ->
  exists p v' d, Process_new v this dir entry n stack0 = Ok (p, v') /\
    Paging.vm_wf v' /\ Paging.dirs v' !! page_dir p = Some d /\
    pid p = n /\ state p = PROCESS_READY /\
    pop_frame (kernel_stack p)
      (Z.to_nat ((cpu_esp p - (KernelStackTop this - KERNEL_STACK_SIZE)) / 4)) =
      Some (mkFrame 0x10 0x23 0x23 0x23 0x23 0 0 0 0 0 0 0 0 entry 0x1B 0x202
              (0x00C00000 + n * 0x10000) 0x23) /\
    (forall va, 0x00400000 <= va < 0x00500000 \/
        0x00C00000 + (n - 1) * 0x10000 <= va < 0x00C00000 + n * 0x10000 ->
      user_page v' (Paging.phys_dir d) va) /\
    (forall va, is_u32 va -> ~ (0x00400000 <= va < 0x00500000 \/
        0x00C00000 + (n - 1) * 0x10000 <= va < 0x00C00000 + n * 0x10000) ->
      Paging.leaf v' d va = Paging.leaf v kd va).
Proof.
  intros Hwf Hk0 Hkd Hnew Hav Htab Hlen Ht0 Ht1 Hn.
  assert (Hbase : user_stack_base n = 0x00C00000 + n * 0x10000)
    by (apply u32_small; zify_words; lia).
  destruct (kpush_all (initial_frame entry (user_stack_base n)) 1024 stack0)
    as (st & Hpush & Hl & Hst & _); [cbn; lia | lia |].
  destruct (Paging.CreateUser_acts v dir kd Hwf Hnew Hkd Hav)
    as (v1 & d1 & HC & Hwf1 & Hdirs & _ & _ & Hent & Hlf & _).
  destruct (map_process_pages v1 dir d1 (user_stack_base n)) as (v2 & v3 & d3 & H2 & H3 & Hwf3 & Hd3 & Hu & Ho).
  { done. }
  { rewrite Hdirs. apply lookup_insert_eq. }
  { intros j Hj. destruct (Hent j) as [-> _]; [lia | by apply Htab]. }
  { lia. }
  { rewrite Hbase. Z.div_mod_to_equations; lia. }
  unfold Process_new. change (KERNEL_STACK_SIZE / 4) with (Z.of_nat 1024). rewrite Hpush.
  cbn [mbind result_bind]. destruct (Z.eqb_spec (Paging.GetKernelDirectory v) 0); [done|]. cbn [negb].
  rewrite HC. cbn [mbind result_bind]. rewrite H2. cbn [mbind result_bind]. rewrite H3.
  cbn [mbind result_bind].
  eexists _, v3, d3. split; [reflexivity|]. split; [done|]. split; [done|].
  split; [done|]. split; [done|]. cbn [cpu_esp kernel_stack]. split.
  - unfold KernelStackTop, KERNEL_STACK_SIZE.
    change (Z.of_nat (1024 - length (initial_frame entry (user_stack_base n)))) with 1006.
    rewrite (u32_small (this + 72 + 4096)) by (zify_words; lia).
    rewrite u32_small by (zify_words; lia).
    replace ((this + 72 + 4096 - 4096 + 4 * 1006 - (this + 72 + 4096 - 4096)) / 4) with 1006
      by (Z.div_mod_to_equations; lia).
    unfold pop_frame. change (take 18 (drop (Z.to_nat 1006) st) =
      reverse (initial_frame entry (user_stack_base n))) in Hst.
    rewrite Hst, <- Hbase. reflexivity.
  - split; [intros va Hva; apply Hu; lia|]. intros va Hva Hn'. rewrite Ho by (done || lia). by apply Hlf.
Qed.

(** C14: A new process starts in user mode at its entry point.  Under a kernel
    directory that has tables for 4 to 16 MiB, with a free frame and an identifier
    whose stack lies below 16 MiB, the constructor returns a ready process.  The
    frame its stack pointer names makes the interrupt return path enter
    [entry_point] in ring 3 with interrupts enabled on the process's own stack,
    and in its address space the program area and that stack are mapped,
    writable and accessible to user code. *)
Theorem Process_new_enters_user v this dir entry n stack0 kd :
  Paging.vm_wf v -> Paging.kernel_dir v <> 0 ->
  Paging.dirs v !! Paging.kernel_dir v = Some kd -> Paging.dirs v !! dir = None ->
  fa_avail (Paging.pmm v) <> ∅ -> (forall j, 1 <= j < 4 -> Paging.tab kd j <> 0) ->
  length stack0 = 1024%nat -> 0 <= this -> this + 4168 < 2 ^ 32 -> 1 <= n <= 64 ->
  exists p v' d, Process_new v this dir entry n stack0 = Ok (p, v') /\
    Paging.vm_wf v' /\ Paging.dirs v' !! page_dir p = Some d /\
    pid p = n /\ state p = PROCESS_READY /\
    pop_frame (kernel_stack p)
      (Z.to_nat ((cpu_esp p - (KernelStackTop this - KERNEL_STACK_SIZE)) / 4)) =
      Some (mkFrame 0x10 0x23 0x23 0x23 0x23 0 0 0 0 0 0 0 0 entry 0x1B 0x202
              (0x00C00000 + n * 0x10000) 0x23) /\
    forall va, 0x00400000 <= va < 0x00500000 \/
        0x00C00000 + (n - 1) * 0x10000 <= va < 0x00C00000 + n * 0x10000 ->
      user_page v' (Paging.phys_dir d) va.
Proof.
  intros. destruct (Process_new_acts v this dir entry n stack0 kd) as (p & v' & d & E & W & Hd & Hp & Hs & Hf & Hu & _);
    [done..|]. by exists p, v', d.
Qed.

End proofs.

(** ** Witnesses

    Three processes: the first running, the second ready, the third blocked
    reading the keyboard. *)

Definition sample_proc (n : Z) (st : ProcessState) (e w : Z) : Process :=
  mkProc n st e 0x10 0 0 (-1) w [].

Definition sample_table (first : Process) : sched Pmm.state :=
  mkSched {[ 100 := first; 200 := sample_proc 2 PROCESS_READY 2000 (-1);
             300 := sample_proc 3 PROCESS_BLOCKED 3000 (-2) ]}
    ([100; 200; 300] ++ replicate 13 0) 3 0 0 0 Paging.blank.

Lemma sample_table_inv first : page_dir first = 0 -> sched_inv (sample_table first).
Proof.
  intros Hd. assert (Ep : procs (sample_table first) =
    [first; sample_proc 2 PROCESS_READY 2000 (-1); sample_proc 3 PROCESS_BLOCKED 3000 (-2)])
    by reflexivity.
  split; cbn [processes process_count current_index mm sample_table].
  - reflexivity.
  - unfold MAX_PROCESSES. lia.
  - lia.
  - lia.
  - apply (bool_decide_unpack _). vm_compute. exact I.
  - intros a Ha. change (a ∈ [100; 200; 300]) in Ha.
    rewrite !elem_of_cons, elem_of_nil in Ha.
    destruct Ha as [->|[->|[->|[]]]]; (split; [done | vm_compute; eauto]).
  - rewrite Ep. intros [|[|[|i]]] p [= <-]; done.
  - rewrite Ep. intros p Hp. left. rewrite !elem_of_cons, elem_of_nil in Hp.
    by destruct Hp as [->|[->|[->|[]]]].
Qed.

Definition running_table : sched Pmm.state := sample_table (sample_proc 1 PROCESS_RUNNING 1000 (-1)).
Definition blocked_table : sched Pmm.state := sample_table (sample_proc 1 PROCESS_BLOCKED 1000 (-2)).

Lemma running_table_inv : sched_inv running_table.
Proof. by apply sample_table_inv. Qed.

Lemma blocked_table_inv : sched_inv blocked_table.
Proof. by apply sample_table_inv. Qed.

Lemma Schedule_round_robin_witness :
  exists s', Schedule running_table 5000 = Ok (2000, s') /\ current_index s' = 1.
Proof.
  destruct (Schedule_round_robin running_table 5000 running_table_inv)
    as (s' & H & _ & _ & _ & E & _).
  exists s'. split; [exact H | exact E].
Defined.

Lemma ready_process_runs_witness :
  exists k s', (k <= 3)%nat /\ run_ticks running_table (take k [5; 6; 7]) = Ok s' /\
    current_index s' = 1.
Proof.
  destruct (ready_process_runs running_table 1 [5; 6; 7] running_table_inv
    ltac:(cbn; lia) eq_refl eq_refl) as (k & s' & Hk & HR & Hc & _).
  exists k, s'. split; [exact Hk|]. split; [exact HR | exact Hc].
Defined.

Lemma preempted_process_resumes_witness :
  match TimerInterrupt running_table 5000 with
  | Ok (_, s1) => match TimerInterrupt s1 7000 with Ok (r, _) => r = 5000 | _ => False end
  | _ => False
  end.
Proof.
  destruct (TimerInterrupt running_table 5000) as [[r1 s1]|] eqn:E1; [|vm_compute in E1; discriminate E1].
  assert (C1 : current_index s1 = 1) by (vm_compute in E1; injection E1 as _ <-; reflexivity).
  destruct (TimerInterrupt s1 7000) as [[r s3]|] eqn:E3.
  - refine (preempted_process_resumes running_table 0 _ 5000 r1 s1 s1 7000 r s3
      running_table_inv eq_refl ltac:(lia) eq_refl eq_refl E1 _ (rtc_refl _ _) E3 _).
    + rewrite C1. discriminate.
    + vm_compute in E1. injection E1 as _ <-. vm_compute in E3. injection E3 as _ <-. reflexivity.
  - vm_compute in E1. injection E1 as _ <-. vm_compute in E3. discriminate E3.
Defined.

Lemma blocked_process_context_lost_witness :
  exists r s1 s2, TimerInterrupt blocked_table 5000 = Ok (r, s1) /\
    WakeParent s1 (-2) = Ok s2 /\
    forall x r' s3, TimerInterrupt s2 x = Ok (r', s3) -> current_index s3 = 0 -> r' = 1000.
Proof.
  destruct (blocked_process_context_lost blocked_table 0 1 (sample_proc 1 PROCESS_BLOCKED 1000 (-2))
    5000 blocked_table_inv eq_refl ltac:(lia) eq_refl eq_refl ltac:(cbn; lia) eq_refl)
    as (r & s1 & s2 & HT & _ & HW & Hlost).
  exists r, s1, s2. split; [exact HT|]. split; [exact HW | exact Hlost].
Defined.

Lemma NextPID_fresh_witness : NextPID running_table = Ok 4 /\ FindProcess running_table 4 = Ok 0.
Proof.
  destruct (NextPID_fresh running_table running_table_inv) as (m & Hm & _ & Hf & _).
  - intros p Hp. change (procs running_table) with
      [sample_proc 1 PROCESS_RUNNING 1000 (-1); sample_proc 2 PROCESS_READY 2000 (-1);
       sample_proc 3 PROCESS_BLOCKED 3000 (-2)] in Hp.
    rewrite !elem_of_cons, elem_of_nil in Hp.
    destruct Hp as [->|[->|[->|[]]]]; vm_compute; reflexivity.
  - assert (E : m = 4) by (vm_compute in Hm; injection Hm as <-; reflexivity).
    rewrite E in Hm, Hf. split; [exact Hm | exact Hf].
Defined.

Lemma Process_new_enters_user_witness :
  exists (v : Paging.vm Pmm.state) p v' d,
    Process_new v 0x200000 2 0x400000 1 (replicate 1024 7) = Ok (p, v') /\
    Paging.dirs v' !! page_dir p = Some d /\
    user_page v' (Paging.phys_dir d) 0x400010 /\ user_page v' (Paging.phys_dir d) 0xC0FFFC.
Proof.
  destruct Paging.sample_kernel as (v & kd & W & Ek & K & N & Hne & Ht).
  destruct (Process_new_enters_user v 0x200000 2 0x400000 1 (replicate 1024 7) kd W
    ltac:(rewrite Ek; discriminate) ltac:(rewrite Ek; exact K) N Hne
    ltac:(intros j Hj; apply Ht; lia) ltac:(apply length_replicate) ltac:(lia)
    ltac:(vm_compute; reflexivity) ltac:(lia)) as (p & v' & d & HP & _ & Hd & _ & _ & _ & Hu).
  exists v, p, v', d. split; [exact HP|]. split; [exact Hd|].
  split; apply Hu; lia.
Defined.

End Sched.
