(* ===== verification/KeyboardBuffer.v ===== *)
(** The keyboard ring buffer: src/src/kernel/keyboard_buffer.{h,cpp}.

    256 cells with a head and a tail index; one cell stays empty, so the buffer
    holds 255 characters.  The theorem relates every sequence of operations to a
    bounded first-in first-out queue. *)

From stdpp Require Import base numbers list gmap.
From Stdlib Require Import ZArith Lia.
From S2P Require Import Prelude Pmm Paging Scheduler.

Module KeyboardBuffer.

(** ** The code *)

Definition BUFFER_SIZE : Z := 256.

Record t := mkKb { buffer : list Z; head : Z; tail : Z }.

(** [Init] leaves the cells as they are. *)
Definition Init (k : t) : t := mkKb (buffer k) 0 0.

Definition Enqueue (k : t) (c : Z) : result t :=
  let next := Z.rem (tail k + 1) BUFFER_SIZE in
  if next =? head k then Ok k
  else b ← arr_set (buffer k) (tail k) c; Ok (mkKb b (head k) next).

(** [None] when the buffer is empty. *)
Definition Dequeue (k : t) : result (option Z * t) :=
  if head k =? tail k then Ok (None, k)
  else
    c ← arr_get (buffer k) (head k);
    Ok (Some c, mkKb (buffer k) (Z.rem (head k + 1) BUFFER_SIZE) (tail k)).

Definition IsEmpty (k : t) : bool := head k =? tail k.

(** The readers wait with [wait_pid = -2]; [s] is the scheduler instance, if any. *)
Definition WakeWaiters {S : Type} (s : option (Sched.sched S)) : result (option (Sched.sched S)) :=
  match s with
  | Some s => s ← Sched.WakeParent s (-2); Ok (Some s)
  | None => Ok None
  end.

(** ** The queue it implements *)

Inductive op := OpEnqueue (c : Z) | OpDequeue | OpInit.

Definition capacity : nat := 255.

Definition spec_step (o : op) (q : list Z) : option Z * list Z :=
  match o with
  | OpEnqueue c => (None, if decide (length q < capacity)%nat then q ++ [c] else q)
  | OpDequeue => (List.hd_error q, List.tl q)
  | OpInit => (None, [])
  end.

Definition impl_step (o : op) (k : t) : result (option Z * t) :=
  match o with
  | OpEnqueue c => k ← Enqueue k c; Ok (None, k)
  | OpDequeue => Dequeue k
  | OpInit => Ok (None, Init k)
  end.

Fixpoint spec_run (os : list op) (q : list Z) : list (option Z) * list Z :=
  match os with
  | [] => ([], q)
  | o :: os => let '(r, q) := spec_step o q in let '(rs, q) := spec_run os q in (r :: rs, q)
  end.

Fixpoint impl_run (os : list op) (k : t) : result (list (option Z) * t) :=
  match os with
  | [] => Ok ([], k)
  | o :: os =>
      '(r, k) ← impl_step o k;
      '(rs, k) ← impl_run os k;
      Ok (r :: rs, k)
  end.

(** The queue is the cells from [head], as many as the indices are apart. *)
Definition used (k : t) : Z := (tail k - head k) mod 256.

Record queue_of (k : t) (q : list Z) : Prop := {
  qo_len : length (buffer k) = 256%nat;
  qo_head : 0 <= head k < 256;
  qo_tail : 0 <= tail k < 256;
  qo_size : Z.of_nat (length q) = used k;
  qo_cells : forall i, (i < length q)%nat ->
    buffer k !! Z.to_nat ((head k + Z.of_nat i) mod 256) = q !! i;
}.

Lemma used_bound k : 0 <= used k < 256.
Proof. apply Z.mod_pos_bound. lia. Qed.

Lemma Enqueue_acts k q c :
  queue_of k q ->
  exists k', Enqueue k c = Ok k' /\ queue_of k' (spec_step (OpEnqueue c) q).2.
Proof.
  intros [Hl Hh Ht Hs Hc]. unfold Enqueue, BUFFER_SIZE. cbn [spec_step snd].
  rewrite Z.rem_mod_nonneg by lia. unfold used in Hs.
  assert (Hu : (tail k - head k) mod 256 = if head k <=? tail k then tail k - head k
                                           else tail k - head k + 256).
  { destruct (Z.leb_spec (head k) (tail k)); Z.div_mod_to_equations; lia. }
  destruct (Z.eqb_spec ((tail k + 1) mod 256) (head k)) as [E|E].
  - exists k. split; [done|]. rewrite decide_False; [done|]. unfold capacity. rewrite Hu in Hs.
    destruct (Z.leb_spec (head k) (tail k)); Z.div_mod_to_equations; lia.
  - rewrite arr_set_in_range by lia. cbn. eexists. split; [done|].
    rewrite decide_True by (unfold capacity; rewrite Hu in Hs;
      destruct (Z.leb_spec (head k) (tail k)); Z.div_mod_to_equations; lia).
    split; cbn.
    + by rewrite length_insert.
    + done.
    + apply Z.mod_pos_bound. lia.
    + rewrite length_app. cbn. unfold used. cbn. rewrite Hu in Hs.
      destruct (Z.leb_spec (head k) (tail k)); Z.div_mod_to_equations; lia.
    + intros i Hi. rewrite length_app in Hi. cbn in Hi.
      destruct (decide (i = length q)) as [->|Hne].
      * rewrite lookup_app_r, Nat.sub_diag by lia. cbn.
        replace ((head k + Z.of_nat (length q)) mod 256) with (tail k).
        -- apply list_lookup_insert_eq. lia.
        -- rewrite Hs, Hu. destruct (Z.leb_spec (head k) (tail k)); Z.div_mod_to_equations; lia.
      * rewrite lookup_app_l by lia. rewrite list_lookup_insert_ne; [apply Hc; lia|].
        intros E2. apply (f_equal Z.of_nat) in E2.
        rewrite !Z2Nat.id in E2 by (lia || (apply Z.mod_pos_bound; lia)).
        rewrite Hu in Hs.
        destruct (Z.leb_spec (head k) (tail k)); Z.div_mod_to_equations; lia.
Qed.

Lemma Dequeue_acts k q :
  queue_of k q ->
  exists k', Dequeue k = Ok ((spec_step OpDequeue q).1, k') /\
    queue_of k' (spec_step OpDequeue q).2.
Proof.
  intros [Hl Hh Ht Hs Hc]. unfold Dequeue, BUFFER_SIZE. unfold used in Hs.
  destruct (Z.eqb_spec (head k) (tail k)) as [E|E].
  - destruct q as [|c q]; [by exists k|]. cbn [length] in Hs. rewrite E, Z.sub_diag in Hs.
    change (0 mod 256) with 0 in Hs. lia.
  - destruct q as [|c q]; [cbn in Hs; Z.div_mod_to_equations; lia|].
    pose proof (Hc 0%nat ltac:(cbn; lia)) as H0. rewrite Z.add_0_r, Z.mod_small in H0 by lia.
    cbn in H0. rewrite (proj2 (arr_get_Ok (buffer k) (head k) c)) by (split; [lia | done]).
    cbn [mbind result_bind]. eexists. split; [done|]. rewrite Z.rem_mod_nonneg by lia. cbn [length] in Hs.
    split; cbn.
    + done.
    + apply Z.mod_pos_bound. lia.
    + done.
    + unfold used. cbn. Z.div_mod_to_equations; lia.
    + intros i Hi. transitivity ((c :: q) !! Datatypes.S i); [|done].
      rewrite <- Hc by (cbn; lia). do 2 f_equal.
      rewrite Zplus_mod_idemp_l. f_equal. lia.
Qed.

Lemma kb_step_acts o k q :
  queue_of k q ->
  exists k', impl_step o k = Ok ((spec_step o q).1, k') /\ queue_of k' (spec_step o q).2.
Proof.
  intros H. destruct o as [c| |].
  - cbn [impl_step]. destruct (Enqueue_acts k q c H) as (k' & -> & H'). by exists k'.
  - by apply Dequeue_acts.
  - exists (Init k). split; [done|]. destruct H as [H1 _ _ _ _].
    split; cbn; [done | lia | lia | done | lia].
Qed.

(** C16: The ring buffer is a first-in first-out queue of 255 characters.  From any
    state that holds a queue, every sequence of [Enqueue], [Dequeue] and [Init]
    stays inside the array and dequeues what the bounded queue does; characters
    beyond the capacity are dropped. *)
Theorem keyboard_buffer_is_queue os k q :
  queue_of k q ->
  exists k', impl_run os k = Ok ((spec_run os q).1, k') /\ queue_of k' (spec_run os q).2.
Proof.
  revert k q. induction os as [|o os IH]; intros k q H; [by exists k|]. cbn [impl_run spec_run].
  destruct (kb_step_acts o k q H) as (k1 & -> & H1). cbn [mbind result_bind].
  destruct (spec_step o q) as [r q1]. destruct (IH k1 q1 H1) as (k' & HR & H').
  exists k'. cbn in HR. rewrite HR. cbn. destruct (spec_run os q1). done.
Qed.

Lemma keyboard_buffer_is_queue_witness :
  exists k', impl_run [OpEnqueue 104; OpEnqueue 105; OpDequeue; OpEnqueue 10; OpDequeue; OpDequeue; OpDequeue]
      (mkKb (replicate 256 0) 254 254) =
    Ok ([None; None; Some 104; None; Some 105; Some 10; None], k') /\ queue_of k' [].
Proof.
  apply (keyboard_buffer_is_queue
    [OpEnqueue 104; OpEnqueue 105; OpDequeue; OpEnqueue 10; OpDequeue; OpDequeue; OpDequeue]
    (mkKb (replicate 256 0) 254 254) []).
  split; cbn; [apply length_replicate | lia | lia | reflexivity | lia].
Defined.

End KeyboardBuffer.
