(* ===== verification/Net.v ===== *)
(** Bytes on the wire: src/src/net/net.h.

    Byte-order conversions, addresses and the Internet checksum, with the memory
    operations the packet code uses.  Buffers are lists of bytes; a pointer into
    a buffer is the rest of the list from there, so a read past the end of a
    packet reads what the buffer holds and a read past the end of the buffer is a
    fault. *)

From stdpp Require Import base numbers list.
From Stdlib Require Import ZArith Lia.
From S2P Require Import Prelude.

Module Net.

(** ** Memory *)

(** The bytes of a packed little-endian field. *)
Definition le16 (x : Z) : list Z := [x mod 256; x / 256 mod 256].
Definition le32 (x : Z) : list Z :=
  [x mod 256; x / 256 mod 256; x / 65536 mod 256; x / 16777216 mod 256].

Definition get16 (l : list Z) (o : Z) : result Z :=
  a ← arr_get l o; b ← arr_get l (o + 1); Ok (a + 256 * b).
Definition get32 (l : list Z) (o : Z) : result Z :=
  a ← get16 l o; b ← get16 l (o + 2); Ok (a + 65536 * b).

(** [n] bytes from offset [o]. *)
Definition get_bytes (l : list Z) (o n : Z) : result (list Z) :=
  if (0 <=? o) && (o + n <=? Z.of_nat (length l))
  then Ok (take (Z.to_nat n) (drop (Z.to_nat o) l)) else Err OutOfBounds.

(** Storing the bytes [xs] at offset [o]. *)
Definition put_bytes (l : list Z) (o : Z) (xs : list Z) : result (list Z) :=
  if (0 <=? o) && (o + Z.of_nat (length xs) <=? Z.of_nat (length l))
  then Ok (take (Z.to_nat o) l ++ xs ++ drop (Z.to_nat o + length xs) l)
  else Err OutOfBounds.

(** [for (i = 0; i < n; i++) dst[off + i] = src[i]] *)
Definition copy_loop (dst : list Z) (off : Z) (src : list Z) (n : Z) : result (list Z) :=
  for_result 0 n (fun i dst => x ← arr_get src i; arr_set dst (off + i) x) dst.

(** ** net.h *)

Definition htons (x : Z) : Z := u16 (Z.lor (Z.shiftr x 8) (Z.shiftl x 8)).
Definition htonl (x : Z) : Z :=
  Z.lor (Z.lor (Z.lor (Z.shiftr (Z.land x 0xFF000000) 24)
                      (Z.shiftr (Z.land x 0x00FF0000) 8))
               (u32 (Z.shiftl (Z.land x 0x0000FF00) 8)))
        (u32 (Z.shiftl (Z.land x 0x000000FF) 24)).
Definition ntohs := htons.
Definition ntohl := htonl.

(** [MACAddress] and [IPv4Address] are their 6 and 4 bytes. *)
Fixpoint bytes_eqb (a b : list Z) : bool :=
  match a, b with
  | [], [] => true
  | x :: a, y :: b => (x =? y) && bytes_eqb a b
  | _, _ => false
  end.
Definition IsBroadcast (m : list Z) : bool := forallb (fun b => b =? 0xFF) m.
Definition Broadcast : list Z := replicate 6 0xFF.
Definition FromBytes (a b c d : Z) : list Z := [a; b; c; d].

(** The summing loop of [InternetChecksum]. *)
Fixpoint sum_words (l : list Z) (len sum : Z) : result Z :=
  if len >? 1 then
    match l with
    | a :: b :: l => sum_words l (len - 2) (u32 (sum + (a + 256 * b)))
    | _ => Err OutOfBounds
    end
  else if len =? 0 then Ok sum
  else match l with a :: _ => Ok (u32 (sum + a)) | [] => Err OutOfBounds end.

(** The folding loop. *)
Fixpoint fold16 (fuel : nat) (sum : Z) : result Z :=
  if Z.shiftr sum 16 =? 0 then Ok sum
  else match fuel with
       | O => Err OutOfFuel
       | S fuel => fold16 fuel (Z.land sum 0xFFFF + Z.shiftr sum 16)
       end.

Definition InternetChecksum (data : list Z) (length : Z) : result Z :=
  sum ← sum_words data length 0;
  sum ← fold16 3 sum;
  Ok (not16 (u16 sum)).

(** ** Byte order *)

Notation is_bytes := (Forall is_u8).

Lemma htons_val x : is_u16 x -> htons x = x mod 256 * 256 + x / 256.
Proof.
  intros H. unfold htons. rewrite Z.shiftr_div_pow2, Z.shiftl_mul_pow2, Z.lor_comm by lia.
  rewrite lor_add by (zify_words; Z.div_mod_to_equations; lia). word.
Qed.

Lemma htons_u16 x : is_u16 (htons x).
Proof. apply u16_bounds. Qed.

Lemma htons_htons x : is_u16 x -> htons (htons x) = x.
Proof. intros H. rewrite (htons_val (htons x)) by apply htons_u16. rewrite htons_val by done. word. Qed.

Lemma htonl_val x :
  is_u32 x ->
  htonl x = x mod 256 * 16777216 + x / 256 mod 256 * 65536 + x / 65536 mod 256 * 256 + x / 16777216.
Proof.
  intros H. unfold htonl.
  change 0xFF000000 with (Z.ones 8 * 2 ^ 24). change 0xFF0000 with (Z.ones 8 * 2 ^ 16).
  change 0xFF00 with (Z.ones 8 * 2 ^ 8). change 0xFF with (Z.ones 8 * 2 ^ 0).
  rewrite !land_mask, !Z.shiftr_div_pow2, !Z.shiftl_mul_pow2 by lia.
  change (2 ^ 0) with 1. change (2 ^ 8) with 256. change (2 ^ 16) with 65536.
  change (2 ^ 24) with 16777216.
  set (a := x / 16777216 mod 256). set (b := x / 65536 mod 256).
  set (c := x / 256 mod 256). set (d := x / 1 mod 256).
  assert (Hb : forall y, 0 <= y mod 256 < 256) by (intros; apply Z.mod_pos_bound; lia).
  assert (0 <= a < 256) by apply Hb. assert (0 <= b < 256) by apply Hb.
  assert (0 <= c < 256) by apply Hb. assert (0 <= d < 256) by apply Hb.
  rewrite !u32_small by (zify_words; lia).
  replace (a * 16777216 / 16777216) with a by (rewrite Z.div_mul; lia).
  replace (b * 65536 / 256) with (b * 2 ^ 8) by (change 65536 with (256 * 256); rewrite Z.mul_assoc, Z.div_mul; lia).
  rewrite (Z.lor_comm a), lor_add by lia. rewrite (Z.lor_comm _ (c * 256 * 256)).
  replace (c * 256 * 256) with (c * 2 ^ 16) by lia. rewrite lor_add by lia.
  rewrite Z.lor_comm. replace (d * 1 * 16777216) with (d * 2 ^ 24) by lia.
  rewrite lor_add by lia. subst a b c d. rewrite Z.div_1_r.
  change (2 ^ 24) with 16777216. change (2 ^ 16) with 65536. change (2 ^ 8) with 256.
  rewrite (Z.mod_small (x / 16777216)); [lia|]. word.
Qed.

(** A 32-bit value from its bytes. *)
Definition word4 (a b c d : Z) : Z := a * 16777216 + b * 65536 + c * 256 + d.

Lemma word4_digits a b c d :
  is_u8 a -> is_u8 b -> is_u8 c -> is_u8 d ->
  is_u32 (word4 a b c d) /\ word4 a b c d / 16777216 = a /\
  word4 a b c d / 65536 mod 256 = b /\ word4 a b c d / 256 mod 256 = c /\
  word4 a b c d mod 256 = d.
Proof.
  unfold word4. intros. zify_words.
  assert (E1 : (a * 16777216 + b * 65536 + c * 256 + d) / 65536 = a * 256 + b)
    by (Z.div_mod_to_equations; lia).
  assert (E2 : (a * 16777216 + b * 65536 + c * 256 + d) / 256 = a * 65536 + b * 256 + c)
    by (Z.div_mod_to_equations; lia).
  rewrite E1, E2.
  split; [lia|]. split; [Z.div_mod_to_equations; lia|].
  split; [Z.div_mod_to_equations; lia|]. split; Z.div_mod_to_equations; lia.
Qed.

Lemma word4_split x :
  is_u32 x -> exists a b c d, is_u8 a /\ is_u8 b /\ is_u8 c /\ is_u8 d /\ x = word4 a b c d.
Proof.
  intros H. exists (x / 16777216), (x / 65536 mod 256), (x / 256 mod 256), (x mod 256).
  unfold word4. zify_words.
  assert (x / 16777216 = x / 65536 / 256) by (rewrite Z.div_div; [done | lia..]).
  assert (x / 65536 = x / 256 / 256) by (rewrite Z.div_div; [done | lia..]).
  split; [Z.div_mod_to_equations; lia|]. split; [apply Z.mod_pos_bound; lia|].
  split; [apply Z.mod_pos_bound; lia|]. split; [apply Z.mod_pos_bound; lia|].
  Z.div_mod_to_equations; lia.
Qed.

Lemma htonl_word4 a b c d :
  is_u8 a -> is_u8 b -> is_u8 c -> is_u8 d -> htonl (word4 a b c d) = word4 d c b a.
Proof.
  intros Ha Hb Hc Hd. destruct (word4_digits a b c d Ha Hb Hc Hd) as (H & E1 & E2 & E3 & E4).
  rewrite htonl_val by done. rewrite E1, E2, E3, E4. done.
Qed.

Lemma htonl_u32 x : is_u32 x -> is_u32 (htonl x).
Proof.
  intros (a & b & c & d & ? & ? & ? & ? & ->)%word4_split. rewrite htonl_word4 by done.
  by apply word4_digits.
Qed.

Lemma htonl_htonl x : is_u32 x -> htonl (htonl x) = x.
Proof. intros (a & b & c & d & ? & ? & ? & ? & ->)%word4_split. by rewrite !htonl_word4. Qed.

(** What [htons] and [htonl] put on the wire: the most significant byte first. *)
Lemma le16_htons x : is_u16 x -> le16 (htons x) = [x / 256; x mod 256].
Proof. intros H. rewrite htons_val by done. unfold le16. f_equal; [word|]. f_equal. word. Qed.

Lemma le32_word4 a b c d :
  is_u8 a -> is_u8 b -> is_u8 c -> is_u8 d -> le32 (word4 a b c d) = [d; c; b; a].
Proof.
  intros Ha Hb Hc Hd. destruct (word4_digits a b c d Ha Hb Hc Hd) as (H & E1 & E2 & E3 & E4).
  unfold le32. rewrite E1, E2, E3, E4. do 4 f_equal. rewrite Z.mod_small; [done | zify_words; lia].
Qed.

(** *** Reading what was written *)

Lemma get16_app l1 a b l2 :
  get16 (l1 ++ a :: b :: l2) (Z.of_nat (length l1)) = Ok (a + 256 * b).
Proof.
  unfold get16. rewrite (proj2 (arr_get_Ok _ (Z.of_nat (length l1)) a)).
  2:{ split; [lia|]. rewrite lookup_app_r by lia.
      rewrite Nat2Z.id, Nat.sub_diag. done. }
  cbn [mbind result_bind]. rewrite (proj2 (arr_get_Ok _ _ b)); [done|].
  split; [lia|]. rewrite lookup_app_r by lia.
  by replace (Z.to_nat (Z.of_nat (length l1) + 1) - length l1)%nat with 1%nat by lia.
Qed.

Lemma le16_val x : is_u16 x -> x mod 256 + 256 * (x / 256 mod 256) = x.
Proof. intros. word. Qed.

(** ** The checksum *)

(** The sum of the 16-bit words, as a number. *)
Fixpoint wsum (l : list Z) : Z :=
  match l with
  | a :: b :: l => a + 256 * b + wsum l
  | [a] => a
  | [] => 0
  end.

(** Induction over the words of a list. *)
Lemma pair_ind (P : list Z -> Prop) :
  P [] -> (forall a, P [a]) -> (forall a b l, P l -> P (a :: b :: l)) -> forall l, P l.
Proof.
  intros H0 H1 H2 l. enough (P l /\ forall a, P (a :: l)) by tauto.
  induction l as [|b l [IH1 IH2]]; [auto|]. split; [apply IH2|]. intros a. by apply H2.
Qed.

Lemma wsum_bounds l :
  is_bytes l -> 0 <= wsum l <= 65535 * Z.of_nat ((length l + 1) / 2).
Proof.
  induction l as [|a|a b l IH] using pair_ind; intros H.
  - cbn. lia.
  - apply Forall_cons in H as [H _]. cbn. zify_words. lia.
  - rewrite !Forall_cons in H. destruct H as (Ha & Hb & Hl). specialize (IH Hl).
    cbn [wsum length].
    replace ((S (S (length l)) + 1) / 2)%nat with (S ((length l + 1) / 2)).
    2:{ replace (S (S (length l)) + 1)%nat with (length l + 1 + 1 * 2)%nat by lia.
        rewrite Nat.div_add by lia. lia. }
    zify_words. lia.
Qed.

Lemma wsum_app l1 l2 :
  Nat.even (length l1) = true -> wsum (l1 ++ l2) = wsum l1 + wsum l2.
Proof.
  induction l1 as [|a|a b l1 IH] using pair_ind; intros H; [done | done |].
  cbn [app wsum]. rewrite IH by done. lia.
Qed.

Lemma sum_words_val l len s :
  is_bytes l -> 0 <= len <= Z.of_nat (length l) -> 0 <= s ->
  s + wsum (take (Z.to_nat len) l) < 2 ^ 32 ->
  sum_words l len s = Ok (s + wsum (take (Z.to_nat len) l)).
Proof.
  revert len s. induction l as [|a|a b l IH] using pair_ind; intros len s Hl Hlen Hs Hb.
  - cbn in Hlen. assert (len = 0) as -> by lia. change (Ok s = Ok (s + 0)). f_equal. lia.
  - cbn in Hlen. assert (len = 0 \/ len = 1) as [-> | ->] by lia.
    { change (Ok s = Ok (s + 0)). f_equal. lia. }
    change (s + a < 2 ^ 32) in Hb. change (Ok (u32 (s + a)) = Ok (s + a)). f_equal.
    apply u32_small. apply Forall_cons in Hl as [Ha _]. zify_words. lia.
  - rewrite !Forall_cons in Hl. destruct Hl as (Ha & Hb' & Hl). cbn [sum_words].
    cbn [length] in Hlen. destruct (Z.gtb_spec len 1).
    + assert (E : take (Z.to_nat len) (a :: b :: l) = a :: b :: take (Z.to_nat (len - 2)) l).
      { replace (Z.to_nat len) with (S (S (Z.to_nat (len - 2)))) by lia. done. }
      rewrite E in *. cbn [wsum] in *.
      assert (0 <= wsum (take (Z.to_nat (len - 2)) l))
        by (apply wsum_bounds; by apply Forall_take).
      rewrite u32_small by (zify_words; lia). rewrite IH; [f_equal; lia | done | lia | zify_words; lia | lia].
    + assert (len = 0 \/ len = 1) as [-> | ->] by lia.
      { change (Ok s = Ok (s + 0)). f_equal. lia. }
      change (s + a < 2 ^ 32) in Hb. change (Ok (u32 (s + a)) = Ok (s + a)). f_equal.
      apply u32_small. zify_words. lia.
Qed.

(** One round of the folding loop. *)
Lemma fold_round s :
  0 <= s -> exists r, Z.land s 0xFFFF + Z.shiftr s 16 = r /\
    r = s mod 65536 + s / 65536 /\ 0 <= r /\ r mod 65535 = s mod 65535 /\ (r = 0 <-> s = 0).
Proof.
  intros Hs. exists (s mod 65536 + s / 65536). split.
  { change (Z.land s 0xFFFF) with (Z.land s (Z.ones 16)).
    rewrite Z.land_ones, Z.shiftr_div_pow2 by lia. done. }
  split; [done|]. split; [Z.div_mod_to_equations; lia|]. split; [|Z.div_mod_to_equations; lia].
  assert (E : s = s mod 65536 + s / 65536 + s / 65536 * 65535) by (Z.div_mod_to_equations; lia).
  rewrite E at 3. by rewrite Z.mod_add by lia.
Qed.

Lemma fold16_val s :
  is_u32 s ->
  exists f, fold16 3 s = Ok f /\ 0 <= f < 65536 /\ f mod 65535 = s mod 65535 /\ (f = 0 <-> s = 0).
Proof.
  intros Hs. zify_words.
  assert (Hend : forall n x, 0 <= x < 65536 -> fold16 n x = Ok x).
  { intros n x Hx. destruct n; cbn [fold16]; rewrite Z.shiftr_div_pow2 by lia;
      change (2 ^ 16) with 65536; rewrite Z.div_small by done; done. }
  assert (Hstep : forall n x, 65536 <= x -> fold16 (S n) x = fold16 n (Z.land x 0xFFFF + Z.shiftr x 16)).
  { intros n x Hx. cbn [fold16]. destruct (Z.eqb_spec (Z.shiftr x 16) 0) as [E|]; [|done].
    rewrite Z.shiftr_div_pow2 in E by lia. change (2 ^ 16) with 65536 in E.
    Z.div_mod_to_equations; lia. }
  destruct (decide (s < 65536)); [exists s; split; [apply Hend; lia | split; [lia | done]]|].
  destruct (fold_round s) as (r & Er & Vr & Hr & Mr & Zr); [lia|].
  rewrite Hstep, Er by lia.
  assert (r <= 131070) by (Z.div_mod_to_equations; lia).
  destruct (decide (r < 65536)).
  { exists r. split; [apply Hend; lia|]. split; [lia|]. split; [done | lia]. }
  destruct (fold_round r) as (q & Eq & Vq & Hq & Mq & Zq); [lia|].
  rewrite Hstep, Eq by lia.
  assert (q < 65536) by (Z.div_mod_to_equations; lia).
  exists q. split; [apply Hend; lia|]. split; [lia|]. split; [congruence | lia].
Qed.

(** The value of the checksum, for packets of any size the stack builds. *)
Definition csum (l : list Z) : Z :=
  let s := wsum l in if s =? 0 then 65535 else 65534 - (s - 1) mod 65535.

Lemma InternetChecksum_val l n :
  is_bytes l -> 0 <= n <= Z.of_nat (length l) -> n <= 65536 ->
  InternetChecksum l n = Ok (csum (take (Z.to_nat n) l)).
Proof.
  intros Hl Hn Hb. set (p := take (Z.to_nat n) l).
  assert (Hp : is_bytes p) by (by apply Forall_take).
  assert (Hw : 0 <= wsum p <= 65535 * 32768).
  { pose proof (wsum_bounds p Hp) as Hw.
    assert (length p = Z.to_nat n) as Hlp by (unfold p; rewrite length_take; lia).
    rewrite Hlp in Hw.
    assert (Z.of_nat ((Z.to_nat n + 1) / 2) <= 32768); [|lia].
    rewrite Nat2Z.inj_div. Z.div_mod_to_equations; lia. }
  unfold InternetChecksum. rewrite sum_words_val by (done || (fold p; zify_words; lia)).
  cbn [mbind result_bind]. fold p. rewrite Z.add_0_l.
  destruct (fold16_val (wsum p)) as (f & -> & Hf & Mf & Zf); [zify_words; lia|].
  cbn [mbind result_bind]. f_equal.
  rewrite u16_small by (zify_words; lia).
  assert (E : not16 f = 65535 - f).
  { unfold not16, u16, Z.lnot. replace (Z.pred (- f)) with (65535 - f + (-1) * 2 ^ 16) by lia.
    rewrite Z.mod_add, Z.mod_small by lia. done. }
  rewrite E. unfold csum. destruct (Z.eqb_spec (wsum p) 0) as [E0|E0].
  - assert (f = 0) by tauto. lia.
  - assert (f <> 0) by tauto.
    replace ((wsum p - 1) mod 65535) with (f - 1); [lia|].
    rewrite <- (Z.mod_small (f - 1) 65535) by lia.
    rewrite <- (Zminus_mod_idemp_l (wsum p)), <- Mf, Zminus_mod_idemp_l. done.
Qed.

Lemma csum_u16 l : is_u16 (csum l).
Proof.
  unfold csum. destruct (_ =? _); [zify_words; lia|].
  pose proof (Z.mod_pos_bound (wsum l - 1) 65535 ltac:(lia)). zify_words. lia.
Qed.

(** A packet verifies exactly when its words add up to a positive multiple of
    65535. *)
Lemma csum_zero l : is_bytes l -> csum l = 0 <-> wsum l <> 0 /\ wsum l mod 65535 = 0.
Proof.
  intros Hl. pose proof (wsum_bounds l Hl). unfold csum.
  destruct (Z.eqb_spec (wsum l) 0) as [E|E]; [lia|].
  assert ((wsum l - 1) mod 65535 = 65534 <-> wsum l mod 65535 = 0); [|lia].
  Z.div_mod_to_equations; lia.
Qed.

Lemma csum_fill l1 l2 :
  is_bytes l1 -> is_bytes l2 -> Nat.even (length l1) = true ->
  csum (l1 ++ le16 (csum (l1 ++ 0 :: 0 :: l2)) ++ l2) = 0.
Proof.
  intros H1 H2 He. set (c := csum (l1 ++ 0 :: 0 :: l2)).
  pose proof (csum_u16 (l1 ++ 0 :: 0 :: l2)) as Hc. fold c in Hc.
  assert (Hb : is_bytes (l1 ++ le16 c ++ l2)).
  { apply Forall_app. split; [done|]. apply Forall_app. split; [|done].
    unfold le16. repeat constructor; try (apply Z.mod_pos_bound; zify_words; lia). }
  apply csum_zero; [done|].
  rewrite wsum_app by done. unfold le16. cbn [app wsum]. rewrite le16_val by done.
  pose proof (wsum_bounds l1 H1). pose proof (wsum_bounds l2 H2).
  assert (Ew : wsum (l1 ++ 0 :: 0 :: l2) = wsum l1 + wsum l2)
    by (rewrite wsum_app by done; cbn; lia).
  unfold c, csum in *. rewrite Ew in *.
  destruct (Z.eqb_spec (wsum l1 + wsum l2) 0) as [E|E].
  - split; [lia|]. replace (wsum l1 + (65535 + wsum l2)) with 65535 by lia. done.
  - split; [pose proof (Z.mod_pos_bound (wsum l1 + wsum l2 - 1) 65535); lia|].
    Z.div_mod_to_equations; lia.
Qed.

(** Changing one byte changes the sum by less than 65535 either way. *)
Lemma wsum_byte l1 x y l2 :
  exists k, (k = 1 \/ k = 256) /\ wsum (l1 ++ x :: l2) - wsum (l1 ++ y :: l2) = k * (x - y).
Proof.
  induction l1 as [|a|a b l1 IH] using pair_ind.
  - exists 1. split; [by left|]. destruct l2; cbn; lia.
  - exists 256. split; [by right|]. cbn. lia.
  - destruct IH as (k & Hk & E). exists k. split; [done|]. cbn. lia.
Qed.

(** Byte order.  [ntohs] and [ntohl] invert [htons] and [htonl], and a field
    assigned through them lies in memory with its most significant byte first. *)
Theorem byte_order_roundtrip x y :
  is_u16 x -> is_u32 y ->
  ntohs (htons x) = x /\ le16 (htons x) = [x / 256; x mod 256] /\
  ntohl (htonl y) = y /\
  le32 (htonl y) = [y / 16777216; y / 65536 mod 256; y / 256 mod 256; y mod 256].
Proof.
  intros Hx Hy. split; [by apply htons_htons|]. split; [by apply le16_htons|].
  split; [by apply htonl_htonl|].
  apply word4_split in Hy as (a & b & c & d & Ha & Hb & Hc & Hd & ->).
  destruct (word4_digits a b c d Ha Hb Hc Hd) as (_ & -> & -> & -> & ->).
  rewrite htonl_word4, le32_word4 by done. done.
Qed.

Lemma byte_order_roundtrip_witness :
  ntohs (htons 0x0806) = 0x0806 /\ le16 (htons 0x0806) = [8; 6] /\
  ntohl (htonl 0xDEADBEEF) = 0xDEADBEEF /\
  le32 (htonl 0xDEADBEEF) = [0xDE; 0xAD; 0xBE; 0xEF].
Proof. apply (byte_order_roundtrip 0x0806 0xDEADBEEF); u32_lit. Defined.

(** The Internet checksum.  Storing the checksum of a packet in its zeroed
    checksum field, at an even offset, makes the packet verify; a verified packet
    with one byte changed does not verify. *)
Theorem checksum_verifies l1 l2 n :
  is_bytes l1 -> is_bytes l2 -> Nat.even (length l1) = true ->
  Z.of_nat (length l1) + 2 <= n <= Z.of_nat (length l1) + 2 + Z.of_nat (length l2) ->
  n <= 65536 ->
  exists c, InternetChecksum (l1 ++ 0 :: 0 :: l2) n = Ok c /\
    let sent := l1 ++ le16 c ++ l2 in
    InternetChecksum sent n = Ok 0 /\
    forall p1 x p2 y, sent = p1 ++ x :: p2 -> is_u8 y -> y <> x -> Z.of_nat (length p1) < n ->
      InternetChecksum (p1 ++ y :: p2) n <> Ok 0.
Proof.
  intros H1 H2 He Hn Hb.
  assert (Hz : is_u8 0) by (zify_words; lia).
  assert (Etake : forall a b, take (Z.to_nat n) (l1 ++ a :: b :: l2) =
    l1 ++ a :: b :: take (Z.to_nat n - length l1 - 2) l2).
  { intros a b. rewrite take_app_ge by lia. f_equal.
    destruct (Z.to_nat n - length l1)%nat as [|[|m]] eqn:Em; [lia | lia |].
    cbn. by rewrite Nat.sub_0_r. }
  set (k := take (Z.to_nat n - length l1 - 2) l2) in *.
  assert (Hk : is_bytes k) by (by apply Forall_take).
  exists (csum (l1 ++ 0 :: 0 :: k)). split.
  { rewrite InternetChecksum_val; [by rewrite Etake | | | done].
    - apply Forall_app. split; [done|]. by repeat constructor.
    - rewrite length_app. cbn. lia. }
  cbv zeta. set (c := csum (l1 ++ 0 :: 0 :: k)).
  assert (Hc : forall x, is_u8 (x mod 256)) by (intros; apply Z.mod_pos_bound; lia).
  assert (Hs : is_bytes (l1 ++ le16 c ++ l2)).
  { apply Forall_app. split; [done|]. repeat constructor; (apply Hc || done). }
  assert (Hls : Z.of_nat (length (l1 ++ le16 c ++ l2)) = Z.of_nat (length l1) + 2 + Z.of_nat (length l2))
    by (rewrite length_app; cbn; lia).
  assert (Hgood : csum (take (Z.to_nat n) (l1 ++ le16 c ++ l2)) = 0).
  { change (l1 ++ le16 c ++ l2) with (l1 ++ c mod 256 :: c / 256 mod 256 :: l2).
    rewrite Etake. by apply csum_fill. }
  split; [rewrite InternetChecksum_val by (done || lia); by rewrite Hgood|].
  intros p1 x p2 y E Hy Hne Hp. rewrite E in Hs, Hls, Hgood.
  assert (Hs' : is_bytes (p1 ++ y :: p2)).
  { apply Forall_app in Hs as [? Hs]. apply Forall_app. split; [done|].
    apply Forall_cons in Hs as [? ?]. by constructor. }
  assert (El : length (p1 ++ y :: p2) = length (p1 ++ x :: p2)) by (by rewrite !length_app).
  rewrite InternetChecksum_val by (done || lia).
  intros [= Ey].
  assert (Et : forall z, take (Z.to_nat n) (p1 ++ z :: p2) =
    p1 ++ z :: take (Z.to_nat n - length p1 - 1) p2).
  { intros z. rewrite take_app_ge by lia. f_equal.
    destruct (Z.to_nat n - length p1)%nat as [|m] eqn:Em; [lia|].
    cbn. by rewrite Nat.sub_0_r. }
  rewrite Et in *. destruct (wsum_byte p1 x y (take (Z.to_nat n - length p1 - 1) p2)) as (m & Hm & Ew).
  apply Forall_app in Hs as [Hs1 Hs2]. apply Forall_cons in Hs2 as [Hx Hs2].
  apply csum_zero in Hgood as [_ Hg], Ey as [_ Hy'];
    try (apply Forall_app; split; [done|]; constructor; [done | by apply Forall_take]).
  zify_words. Z.div_mod_to_equations. lia.
Qed.

Lemma checksum_verifies_witness :
  exists c, InternetChecksum ([0x45; 0; 0; 28] ++ 0 :: 0 :: [64; 17; 10; 0; 2; 15; 1]) 13 = Ok c /\
    InternetChecksum ([0x45; 0; 0; 28] ++ le16 c ++ [64; 17; 10; 0; 2; 15; 1]) 13 = Ok 0.
Proof.
  destruct (checksum_verifies [0x45; 0; 0; 28] [64; 17; 10; 0; 2; 15; 1] 13) as (c & H & H0 & _).
  - repeat constructor; vm_compute; (discriminate || reflexivity).
  - repeat constructor; vm_compute; (discriminate || reflexivity).
  - reflexivity.
  - cbn. lia.
  - lia.
  - exists c. split; [exact H | exact H0].
Defined.

(** ** Copying *)

Lemma copy_loop_ok dst off src n :
  0 <= n <= Z.of_nat (length src) -> 0 <= off -> off + n <= Z.of_nat (length dst) ->
  copy_loop dst off src n =
  Ok (take (Z.to_nat off) dst ++ take (Z.to_nat n) src ++ drop (Z.to_nat (off + n)) dst).
Proof.
  intros Hn Ho Hd. unfold copy_loop.
  destruct (for_result_inv (fun i d => d = take (Z.to_nat off) dst ++ take (Z.to_nat i) src ++
      drop (Z.to_nat (off + i)) dst) 0 n
    (fun i dst => x ← arr_get src i; arr_set dst (off + i) x) dst) as (d & -> & ->); [lia | | |done].
  - change (Z.to_nat 0) with 0%nat. rewrite take_0, Z.add_0_r. cbn [app]. by rewrite take_drop.
  - intros i d Hi ->. destruct (lookup_lt_is_Some_2 src (Z.to_nat i)) as [x Hx]; [lia|].
    rewrite (proj2 (arr_get_Ok src i x)) by (split; [lia | done]). cbn [mbind result_bind].
    rewrite arr_set_in_range.
    2:{ rewrite !length_app, !length_take, length_drop. lia. }
    eexists. split; [done|].
    replace (Z.to_nat (i + 1)) with (S (Z.to_nat i)) by lia.
    rewrite (take_S_r _ _ _ Hx), <- app_assoc. cbn [app].
    rewrite insert_app_r_alt by (rewrite length_take; lia). f_equal.
    rewrite insert_app_r_alt by (rewrite !length_take; lia). f_equal.
    replace (Z.to_nat (off + i) - length (take (Z.to_nat off) dst) -
      length (take (Z.to_nat i) src))%nat with 0%nat by (rewrite !length_take; lia).
    destruct (lookup_lt_is_Some_2 dst (Z.to_nat (off + i))) as [y Hy]; [lia|].
    rewrite (drop_S _ _ _ Hy). cbn. f_equal. f_equal. lia.
Qed.

Lemma put_bytes_ok l o xs :
  0 <= o -> o + Z.of_nat (length xs) <= Z.of_nat (length l) ->
  put_bytes l o xs = Ok (take (Z.to_nat o) l ++ xs ++ drop (Z.to_nat o + length xs) l).
Proof.
  intros H1 H2. unfold put_bytes.
  rewrite (proj2 (Z.leb_le 0 o)), (proj2 (Z.leb_le _ (Z.of_nat (length l)))) by done. done.
Qed.

Lemma get_bytes_nat (l : list Z) o n :
  (o + n <= length l)%nat -> get_bytes l (Z.of_nat o) (Z.of_nat n) = Ok (take n (drop o l)).
Proof.
  intros Hl. unfold get_bytes.
  rewrite (proj2 (Z.leb_le 0 _)), (proj2 (Z.leb_le _ (Z.of_nat (length l)))) by lia.
  by rewrite !Nat2Z.id.
Qed.

(** Overwriting the middle of a buffer. *)
Lemma put_bytes_app pre mid post xs o :
  o = Z.of_nat (length pre) -> length mid = length xs ->
  put_bytes (pre ++ mid ++ post) o xs = Ok (pre ++ xs ++ post).
Proof.
  intros -> Hl. rewrite put_bytes_ok by (rewrite ?length_app; lia).
  rewrite Nat2Z.id, take_app_length. f_equal. f_equal. f_equal.
  rewrite <- drop_drop, drop_app_length, <- Hl. apply drop_app_length.
Qed.

Lemma copy_loop_app pre mid post src n o :
  o = Z.of_nat (length pre) -> Z.of_nat (length mid) = n -> n <= Z.of_nat (length src) ->
  copy_loop (pre ++ mid ++ post) o src n = Ok (pre ++ take (Z.to_nat n) src ++ post).
Proof.
  intros -> Hl Hn. rewrite copy_loop_ok by (rewrite ?length_app; lia).
  rewrite Nat2Z.id, take_app_length. f_equal. f_equal. f_equal.
  replace (Z.to_nat (Z.of_nat (length pre) + n)) with (length pre + length mid)%nat by lia.
  rewrite <- drop_drop, drop_app_length. apply drop_app_length.
Qed.

(** A buffer in pieces of given sizes. *)
Lemma split_at (l : list Z) (n : nat) :
  (n <= length l)%nat -> exists a b, l = a ++ b /\ length a = n.
Proof. intros H. exists (take n l), (drop n l). rewrite take_drop, length_take. split; [done | lia]. Qed.

Lemma is_bytes_app l1 l2 : is_bytes (l1 ++ l2) <-> is_bytes l1 /\ is_bytes l2.
Proof. apply Forall_app. Qed.

Lemma le16_bytes x : is_bytes (le16 x).
Proof. repeat constructor; apply Z.mod_pos_bound; lia. Qed.

Lemma bytes_eqb_eq a b : bytes_eqb a b = true <-> a = b.
Proof.
  revert b. induction a as [|x a IH]; intros [|y b]; cbn; try done.
  rewrite andb_true_iff, Z.eqb_eq, IH. naive_solver.
Qed.

(** A loop that runs past the destination faults. *)
Lemma copy_overflow dst off src n :
  0 <= off -> n <= Z.of_nat (length src) -> Z.of_nat (length dst) < off + n ->
  off <= Z.of_nat (length dst) ->
  copy_loop dst off src n = Err OutOfBounds.
Proof.
  intros Ho Hn Hd Hoff. set (k := Z.of_nat (length dst) - off).
  assert (E : seqZ 0 n = seqZ 0 k ++ k :: seqZ (k + 1) (n - k - 1)).
  { replace n with (k + (n - k)) at 1 by lia. rewrite seqZ_app by lia. f_equal.
    rewrite seqZ_cons, Z.add_0_l by lia. do 2 f_equal; lia. }
  unfold copy_loop, for_result. rewrite Z.sub_0_r, E, fold_result_app.
  pose proof (copy_loop_ok dst off src k ltac:(lia) Ho ltac:(lia)) as Hk.
  unfold copy_loop, for_result in Hk. rewrite Z.sub_0_r in Hk. rewrite Hk. cbn [mbind result_bind].
  cbn [fold_result].
  destruct (lookup_lt_is_Some_2 src (Z.to_nat k)) as [x Hx]; [lia|].
  rewrite (proj2 (arr_get_Ok src k x)) by (split; [lia | done]). cbn [mbind result_bind].
  rewrite arr_set_out; [done|]. rewrite !length_app, !length_take, length_drop. lia.
Qed.

(** A field read where its bytes were stored. *)
Lemma get16_le16 l o x :
  is_u16 x -> take 2 (drop (Z.to_nat o) l) = le16 x -> 0 <= o -> get16 l o = Ok x.
Proof.
  intros Hx Ht Ho. unfold le16 in Ht.
  assert (H0 : l !! Z.to_nat o = Some (x mod 256)).
  { pose proof (f_equal (fun k => k !! 0%nat) Ht) as E. cbn in E.
    rewrite lookup_take, lookup_drop, Nat.add_0_r in E. done. }
  assert (H1 : l !! Z.to_nat (o + 1) = Some (x / 256 mod 256)).
  { pose proof (f_equal (fun k => k !! 1%nat) Ht) as E. cbn in E.
    rewrite lookup_take, lookup_drop in E.
    by replace (Z.to_nat (o + 1)) with (Z.to_nat o + 1)%nat by lia. }
  unfold get16. rewrite (proj2 (arr_get_Ok l o _)) by (split; [lia | exact H0]).
  cbn [mbind result_bind]. rewrite (proj2 (arr_get_Ok l (o + 1) _)) by (split; [lia | exact H1]).
  cbn [mbind result_bind]. f_equal. by apply le16_val.
Qed.

Lemma get32_le32 l o x :
  is_u32 x -> take 4 (drop (Z.to_nat o) l) = le32 x -> 0 <= o -> get32 l o = Ok x.
Proof.
  intros Hx Ht Ho. unfold get32.
  rewrite (get16_le16 l o (x mod 65536)); [|word| |lia].
  2:{ apply (f_equal (take 2)) in Ht. rewrite take_take in Ht. cbn in Ht. rewrite Ht.
      unfold le16. f_equal; [word|]. f_equal. word. }
  cbn [mbind result_bind]. rewrite (get16_le16 l (o + 2) (x / 65536)); [|word| |lia].
  2:{ apply (f_equal (drop 2)) in Ht. change 4%nat with (2 + 2)%nat in Ht.
      rewrite <- take_drop_commute, drop_drop in Ht.
      replace (Z.to_nat (o + 2)) with (Z.to_nat o + 2)%nat by lia. cbn in Ht. rewrite Ht.
      unfold le16. f_equal. f_equal. rewrite Z.div_div by lia. done. }
  cbn [mbind result_bind]. f_equal. word.
Qed.


End Net.
