(* ===== verification/NetStack.v ===== *)
(** The transmit side of the network stack and its datagram protocols:
    src/src/drivers/rtl8139.cpp ([Send]), src/src/net/arp.cpp, ipv4.cpp ([Send]),
    icmp.cpp, udp.cpp and the sockets of src/src/kernel/syscall.cpp that receive.

    A [host] is the state of one machine's stack: the card, the ARP cache, the
    IPv4 identification counter and the static packet buffers.  [wire] lists the
    frames handed to the card, oldest first. *)

From stdpp Require Import base numbers list.
From Stdlib Require Import ZArith Lia.
From S2P Require Import Prelude Net.

Module Stack.
Import Net.

(** ** State *)

Record ARPCacheEntry := mkEntry { e_ip : list Z; e_mac : list Z; e_valid : bool }.

Inductive TCPState :=
  | TCP_CLOSED | TCP_LISTEN | TCP_SYN_SENT | TCP_SYN_RECEIVED
  | TCP_ESTABLISHED | TCP_FIN_WAIT_1 | TCP_FIN_WAIT_2
  | TCP_CLOSE_WAIT | TCP_LAST_ACK | TCP_TIME_WAIT.

#[export] Instance TCPState_eq_dec : EqDecision TCPState.
Proof. solve_decision. Defined.

Record TCPSocket := mkTcp {
  t_local_port : Z;
  t_remote_port : Z;
  t_remote_ip : list Z;
  t_state : TCPState;
  t_seq : Z;
  t_ack : Z;
  t_rx_buf : list Z;       (** 8192 bytes *)
  t_tx_buf : list Z;       (** 1480 bytes *)
  t_scratch : list Z;      (** 1500 bytes *)
}.

(** What a system-call socket stores of the last delivery. *)
Record rx_slot := mkRx { rx_buf : list Z; rx_len : Z; rx_ready : bool }.

Record host := mkHost {
  mac : list Z;
  tx_buffers : list (list Z);      (** 4 buffers of 1536 bytes *)
  tx_current : Z;
  wire : list (list Z);
  arp_cache : list ARPCacheEntry;  (** 128 entries *)
  arp_ip : list Z;                 (** [ARPHandler::local_ip] *)
  local_ip : list Z;               (** [IPv4Handler::local_ip] *)
  id_counter : Z;
  ip_tx : list Z;                  (** 1500 bytes *)
  icmp_tx : list Z;                (** 64 bytes *)
  udp_port : Z;
  udp_tx : list Z;                 (** 1472 bytes *)
  udp_rx : rx_slot;
  tcp : TCPSocket;
  tcp_rx : rx_slot;
}.

Definition set_card (h : host) txb cur w :=
  mkHost (mac h) txb cur w (arp_cache h) (arp_ip h) (local_ip h) (id_counter h) (ip_tx h)
    (icmp_tx h) (udp_port h) (udp_tx h) (udp_rx h) (tcp h) (tcp_rx h).
Definition set_arp_cache (h : host) c :=
  mkHost (mac h) (tx_buffers h) (tx_current h) (wire h) c (arp_ip h) (local_ip h) (id_counter h)
    (ip_tx h) (icmp_tx h) (udp_port h) (udp_tx h) (udp_rx h) (tcp h) (tcp_rx h).
Definition set_ip (h : host) id tx :=
  mkHost (mac h) (tx_buffers h) (tx_current h) (wire h) (arp_cache h) (arp_ip h) (local_ip h) id
    tx (icmp_tx h) (udp_port h) (udp_tx h) (udp_rx h) (tcp h) (tcp_rx h).
Definition set_icmp_tx (h : host) tx :=
  mkHost (mac h) (tx_buffers h) (tx_current h) (wire h) (arp_cache h) (arp_ip h) (local_ip h)
    (id_counter h) (ip_tx h) tx (udp_port h) (udp_tx h) (udp_rx h) (tcp h) (tcp_rx h).
Definition set_udp_tx (h : host) tx :=
  mkHost (mac h) (tx_buffers h) (tx_current h) (wire h) (arp_cache h) (arp_ip h) (local_ip h)
    (id_counter h) (ip_tx h) (icmp_tx h) (udp_port h) tx (udp_rx h) (tcp h) (tcp_rx h).
Definition set_udp_rx (h : host) r :=
  mkHost (mac h) (tx_buffers h) (tx_current h) (wire h) (arp_cache h) (arp_ip h) (local_ip h)
    (id_counter h) (ip_tx h) (icmp_tx h) (udp_port h) (udp_tx h) r (tcp h) (tcp_rx h).
Definition set_tcp (h : host) t :=
  mkHost (mac h) (tx_buffers h) (tx_current h) (wire h) (arp_cache h) (arp_ip h) (local_ip h)
    (id_counter h) (ip_tx h) (icmp_tx h) (udp_port h) (udp_tx h) (udp_rx h) t (tcp_rx h).
Definition set_tcp_rx (h : host) r :=
  mkHost (mac h) (tx_buffers h) (tx_current h) (wire h) (arp_cache h) (arp_ip h) (local_ip h)
    (id_counter h) (ip_tx h) (icmp_tx h) (udp_port h) (udp_tx h) (udp_rx h) (tcp h) r.

(** ** The card *)

Definition ETHERTYPE_IPV4 : Z := 0x0800.
Definition ETHERTYPE_ARP : Z := 0x0806.

(** [RTL8139Driver::Send].  The card transmits [frame_size] bytes of the buffer. *)
Definition EthSend (h : host) (dst : list Z) (ethertype : Z) (payload : list Z) (size : Z)
    : result (bool * host) :=
  buf ← arr_get (tx_buffers h) (tx_current h);
  buf ← put_bytes buf 0 dst;
  buf ← put_bytes buf 6 (mac h);
  buf ← put_bytes buf 12 [Z.land (Z.shiftr ethertype 8) 0xFF; Z.land ethertype 0xFF];
  buf ← copy_loop buf 14 payload size;
  let frame_size := u32 (14 + size) in
  let frame_size := if frame_size <? 60 then 60 else frame_size in
  txb ← arr_set (tx_buffers h) (tx_current h) buf;
  Ok (true, set_card h txb (Z.rem (tx_current h + 1) 4)
              (wire h ++ [take (Z.to_nat frame_size) buf])).

(** ** ARP *)

Definition ARP_REQUEST : Z := 0x0001.
Definition ARP_REPLY : Z := 0x0002.

Definition hit (ip : list Z) (e : ARPCacheEntry) : bool := e_valid e && bytes_eqb (e_ip e) ip.
Arguments hit : simpl never.

(** The first loop of [CacheSet]: [None] when no entry matches. *)
Fixpoint cache_update (c : list ARPCacheEntry) (ip mac : list Z) : option (list ARPCacheEntry) :=
  match c with
  | [] => None
  | e :: c =>
      if hit ip e then Some (mkEntry (e_ip e) mac (e_valid e) :: c)
      else match cache_update c ip mac with Some c => Some (e :: c) | None => None end
  end.

(** The second loop: the first invalid entry, if any. *)
Fixpoint cache_insert (c : list ARPCacheEntry) (ip mac : list Z) : list ARPCacheEntry :=
  match c with
  | [] => []
  | e :: c => if negb (e_valid e) then mkEntry ip mac true :: c else e :: cache_insert c ip mac
  end.

Definition CacheSet (c : list ARPCacheEntry) (ip mac : list Z) : list ARPCacheEntry :=
  match cache_update c ip mac with Some c => c | None => cache_insert c ip mac end.

Fixpoint CacheGet (c : list ARPCacheEntry) (ip : list Z) : option (list Z) :=
  match c with
  | [] => None
  | e :: c => if hit ip e then Some (e_mac e) else CacheGet c ip
  end.

Definition Resolve (h : host) (ip : list Z) : option (list Z) := CacheGet (arp_cache h) ip.

(** An [ARPPacket] in memory: 28 bytes. *)
Definition arp_packet (opcode : Z) (smac sip tmac tip : list Z) : list Z :=
  le16 (htons 0x0001) ++ le16 (htons 0x0800) ++ [6; 4] ++ le16 (htons opcode) ++
  smac ++ sip ++ tmac ++ tip.

Definition SendRequest (h : host) (target_ip : list Z) : result host :=
  '(_, h) ← EthSend h Broadcast ETHERTYPE_ARP
              (arp_packet ARP_REQUEST (mac h) (arp_ip h) (replicate 6 0) target_ip) 28;
  Ok h.

(** [SendReply] gets the sender's addresses from the request. *)
Definition SendReply (h : host) (sender_mac sender_ip : list Z) : result host :=
  '(_, h) ← EthSend h sender_mac ETHERTYPE_ARP
              (arp_packet ARP_REPLY (mac h) (arp_ip h) sender_mac sender_ip) 28;
  Ok h.

Definition ARP_HandleEthernetPayload (h : host) (payload : list Z) (size : Z) : result host :=
  if size <? 28 then Ok h
  else
    sender_mac ← get_bytes payload 8 6;
    sender_ip ← get_bytes payload 14 4;
    let h := set_arp_cache h (CacheSet (arp_cache h) sender_ip sender_mac) in
    opcode ← get16 payload 6;
    target_ip ← get_bytes payload 24 4;
    if (ntohs opcode =? ARP_REQUEST) && bytes_eqb target_ip (arp_ip h)
    then SendReply h sender_mac sender_ip
    else Ok h.

(** ** IPv4, sending *)

Definition IPV4_PROTO_ICMP : Z := 0x01.
Definition IPV4_PROTO_TCP : Z := 0x06.
Definition IPV4_PROTO_UDP : Z := 0x11.

(** An [IPv4Header] in memory: 20 bytes. *)
Definition ipv4_header (total_length id protocol checksum : Z) (src dst : list Z) : list Z :=
  [0x45; 0] ++ le16 (htons total_length) ++ le16 (htons id) ++ le16 0 ++ [64; protocol] ++
  le16 checksum ++ src ++ dst.

Definition IPv4_Send (h : host) (dst_ip : list Z) (protocol : Z) (payload : list Z) (size : Z)
    : result (bool * host) :=
  match Resolve h dst_ip with
  | None => Ok (false, h)
  | Some dst_mac =>
      tx ← put_bytes (ip_tx h) 0
             (ipv4_header (u16 (20 + size)) (id_counter h) protocol 0 (local_ip h) dst_ip);
      c ← InternetChecksum tx 20;
      tx ← put_bytes tx 10 (le16 c);
      tx ← copy_loop tx 20 payload size;
      let h := set_ip h (u16 (id_counter h + 1)) tx in
      EthSend h dst_mac ETHERTYPE_IPV4 tx (u32 (20 + size))
  end.

(** ** ICMP *)

Definition ICMP_ECHO_REQUEST : Z := 8.
Definition ICMP_ECHO_REPLY : Z := 0.

Definition ICMP_HandleIPv4Payload (h : host) (payload : list Z) (size : Z) (src : list Z)
    : result host :=
  if size <? 8 then Ok h
  else
    type ← arr_get payload 0;
    if negb (type =? ICMP_ECHO_REQUEST) then Ok h
    else
      let reply_size := if size >? 64 then 64 else size in
      tx ← copy_loop (icmp_tx h) 0 payload reply_size;
      tx ← put_bytes tx 0 ([ICMP_ECHO_REPLY; 0] ++ le16 0);
      c ← InternetChecksum tx reply_size;
      tx ← put_bytes tx 2 (le16 c);
      '(_, h) ← IPv4_Send (set_icmp_tx h tx) src IPV4_PROTO_ICMP tx reply_size;
      Ok h.

Definition SendEchoRequest (h : host) (target : list Z) (id seq : Z) : result (bool * host) :=
  tx ← put_bytes (icmp_tx h) 0
         ([ICMP_ECHO_REQUEST; 0] ++ le16 0 ++ le16 (htons id) ++ le16 (htons seq));
  c ← InternetChecksum tx 8;
  tx ← put_bytes tx 2 (le16 c);
  IPv4_Send (set_icmp_tx h tx) target IPV4_PROTO_ICMP tx 8.

(** ** UDP *)

(** [SyscallUDPSocket::OnReceive] *)
Definition UDP_OnReceive (h : host) (data : list Z) (size : Z) : result host :=
  let copy := if size >? 2048 then 2048 else size in
  buf ← copy_loop (rx_buf (udp_rx h)) 0 data copy;
  Ok (set_udp_rx h (mkRx buf copy true)).

Definition UDP_HandleIPv4Payload (h : host) (payload : list Z) (size : Z) : result host :=
  if size <? 8 then Ok h
  else
    dst_port ← get16 payload 2;
    if negb (ntohs dst_port =? udp_port h) then Ok h
    else
      length ← get16 payload 4;
      let data_size := u32 (ntohs length - 8) in
      UDP_OnReceive h (drop 8 payload) data_size.

Definition UDP_Send (h : host) (dst_ip : list Z) (dst_port src_port : Z) (data : list Z) (size : Z)
    : result (bool * host) :=
  let size := if size >? 1472 - 8 then 1472 - 8 else size in
  tx ← put_bytes (udp_tx h) 0
         (le16 (htons src_port) ++ le16 (htons dst_port) ++ le16 (htons (u16 (8 + size))) ++ le16 0);
  tx ← copy_loop tx 8 data size;
  IPv4_Send (set_udp_tx h tx) dst_ip IPV4_PROTO_UDP tx (8 + size).

(** ** Well-formed hosts *)

Definition bytes_of (n : nat) (l : list Z) : Prop := length l = n /\ is_bytes l.

Record host_wf (h : host) : Prop := {
  hw_mac : bytes_of 6 (mac h);
  hw_txb : length (tx_buffers h) = 4%nat /\ Forall (bytes_of 1536) (tx_buffers h);
  hw_cur : 0 <= tx_current h < 4;
  hw_cache : Forall (fun e => e_valid e = true -> bytes_of 6 (e_mac e)) (arp_cache h);
  hw_arp_ip : bytes_of 4 (arp_ip h);
  hw_ip : bytes_of 4 (local_ip h);
  hw_id : is_u16 (id_counter h);
  hw_ip_tx : bytes_of 1500 (ip_tx h);
  hw_icmp_tx : bytes_of 64 (icmp_tx h);
  hw_udp_port : is_u16 (udp_port h);
  hw_udp_tx : bytes_of 1472 (udp_tx h);
  hw_udp_rx : bytes_of 2048 (rx_buf (udp_rx h));
  hw_tcp_rx : bytes_of 2048 (rx_buf (tcp_rx h));
  hw_tcp_ports : is_u16 (t_local_port (tcp h)) /\ is_u16 (t_remote_port (tcp h));
  hw_tcp_ip : bytes_of 4 (t_remote_ip (tcp h));
  hw_tcp_seq : is_u32 (t_seq (tcp h)) /\ is_u32 (t_ack (tcp h));
  hw_tcp_bufs : bytes_of (Z.to_nat 8192) (t_rx_buf (tcp h)) /\ bytes_of 1480 (t_tx_buf (tcp h)) /\
    bytes_of 1500 (t_scratch (tcp h));
}.

(** ** Frames *)

(** A frame for [size] payload bytes, padded to at least 60. *)
Record frame_of (dst src : list Z) (ethertype : Z) (data frame : list Z) : Prop := {
  fr_pad : exists pad, frame = dst ++ src ++ [ethertype / 256; ethertype mod 256] ++ data ++ pad;
  fr_bytes : is_bytes frame;
  fr_len : Z.of_nat (length frame) = Z.max 60 (14 + Z.of_nat (length data));
}.

(** The part of a transmit buffer that goes on the wire. *)
Lemma frame_taken dst src et data rest :
  bytes_of 6 dst -> bytes_of 6 src -> is_u16 et -> is_bytes data -> is_bytes rest ->
  length (data ++ rest) = 1522%nat ->
  let fs := Z.max 60 (14 + Z.of_nat (length data)) in
  frame_of dst src et data (take (Z.to_nat fs) (dst ++ src ++ [et / 256; et mod 256] ++ data ++ rest)).
Proof.
  intros [Ld Bd] [Ls Bs] Het Hdat Hrest Hl fs. rewrite length_app in Hl. split.
  - exists (take (Z.to_nat fs - (14 + length data)) rest).
    rewrite !take_app, (take_ge dst), (take_ge src), (take_ge [_; _]), (take_ge data) by (cbn; lia).
    rewrite Ld, Ls. cbn [length]. do 4 f_equal. f_equal. lia.
  - apply Forall_take. rewrite !is_bytes_app. split; [done|]. split; [done|]. split; [|done].
    repeat constructor; word.
  - rewrite length_take, !length_app. cbn [length]. lia.
Qed.

Lemma EthSend_acts h dst et payload size :
  host_wf h -> bytes_of 6 dst -> is_u16 et -> is_bytes payload ->
  0 <= size <= Z.of_nat (length payload) -> size <= 1522 ->
  exists h' frame, EthSend h dst et payload size = Ok (true, h') /\ host_wf h' /\
    wire h' = wire h ++ [frame] /\ frame_of dst (mac h) et (take (Z.to_nat size) payload) frame /\
    (exists txb, h' = set_card h txb (Z.rem (tx_current h + 1) 4) (wire h ++ [frame])).
Proof.
  intros Hwf [Hdl Hdb] Het Hp Hs Hmax. destruct (hw_mac h Hwf) as [Hml Hmb].
  destruct (hw_txb h Hwf) as [Htl Htb]. pose proof (hw_cur h Hwf) as Hcur.
  destruct (lookup_lt_is_Some_2 (tx_buffers h) (Z.to_nat (tx_current h))) as [buf Hbuf]; [lia|].
  destruct (Forall_lookup_1 _ _ _ _ Htb Hbuf) as [Hbl Hbb].
  destruct (split_at buf 6) as (b0 & r0 & E0 & L0); [lia|].
  assert (Lr0 : length r0 = 1530%nat) by (rewrite E0, length_app in Hbl; lia).
  destruct (split_at r0 6) as (b1 & r1 & E1 & L1); [lia|].
  assert (Lr1 : length r1 = 1524%nat) by (rewrite E1, length_app in Lr0; lia).
  destruct (split_at r1 2) as (b2 & r2 & E2 & L2); [lia|].
  assert (Lr2 : length r2 = 1522%nat) by (rewrite E2, length_app in Lr1; lia).
  destruct (split_at r2 (Z.to_nat size)) as (b3 & r3 & E3 & L3); [lia|].
  set (et2 := [et / 256; et mod 256]).
  assert (Eet : [Z.land (Z.shiftr et 8) 0xFF; Z.land et 0xFF] = et2).
  { unfold et2. change 0xFF with (Z.ones 8). rewrite !Z.land_ones, Z.shiftr_div_pow2 by lia.
    do 2 f_equal. word. }
  unfold EthSend. rewrite (proj2 (arr_get_Ok _ _ buf)) by (split; [lia | done]).
  cbn [mbind result_bind]. rewrite Eet, E0.
  rewrite (put_bytes_app [] b0 r0 dst) by (done || lia). cbn [mbind result_bind app].
  rewrite E1, (put_bytes_app dst b1 r1 (mac h)) by (lia || congruence). cbn [mbind result_bind].
  rewrite E2, app_assoc.
  rewrite (put_bytes_app (dst ++ mac h) b2 r2 et2) by (rewrite ?length_app; cbn; lia).
  cbn [mbind result_bind]. rewrite E3, app_assoc.
  rewrite (copy_loop_app ((dst ++ mac h) ++ et2) b3 r3 payload size)
    by (rewrite ?length_app; cbn; lia).
  cbn [mbind result_bind]. rewrite <- !app_assoc.
  rewrite arr_set_in_range by lia. cbn [mbind result_bind].
  set (frame0 := dst ++ mac h ++ et2 ++ take (Z.to_nat size) payload ++ r3).
  rewrite u32_small by (zify_words; lia).
  set (fs := if 14 + size <? 60 then 60 else 14 + size).
  assert (Hlr3 : length r3 = (1522 - Z.to_nat size)%nat) by (rewrite E3, length_app in Lr2; lia).
  assert (Hb3 : is_bytes r3) by (rewrite E0, E1, E2, E3, !is_bytes_app in Hbb; tauto).
  set (dat := take (Z.to_nat size) payload) in *.
  assert (Ldat : length dat = Z.to_nat size) by (unfold dat; rewrite length_take; lia).
  assert (Hb0 : is_bytes frame0).
  { unfold frame0. rewrite !is_bytes_app. split; [done|]. split; [done|]. split; [|split; [|done]].
    - unfold et2. repeat constructor; word.
    - by apply Forall_take. }
  eexists _, (take (Z.to_nat fs) frame0). split; [reflexivity|]. split; [|split; [done|split; [|by eexists]]].
  - destruct Hwf. split; cbn; try done.
    + split; [by rewrite length_insert|]. apply Forall_insert; [done|]. split; [|done].
      unfold frame0. rewrite !length_app, Ldat, Hlr3. cbn. lia.
    + rewrite Z.rem_mod_nonneg by lia. apply Z.mod_pos_bound. lia.
  - replace fs with (Z.max 60 (14 + Z.of_nat (length dat)))
      by (unfold fs; destruct (Z.ltb_spec (14 + size) 60); lia).
    apply frame_taken; [done | done | done | by apply Forall_take | done | rewrite length_app; lia].
Qed.

(** ** The ARP cache *)

Lemma hit_mac ip e m : hit ip (mkEntry (e_ip e) m (e_valid e)) = hit ip e.
Proof. done. Qed.

Lemma hit_other ip ip' e : hit ip e = true -> ip' <> ip -> hit ip' e = false.
Proof.
  unfold hit. rewrite andb_true_iff, bytes_eqb_eq. intros [-> ->] Hne.
  cbn. apply not_true_iff_false. rewrite bytes_eqb_eq. congruence.
Qed.

Lemma cache_update_None c ip m : cache_update c ip m = None <-> CacheGet c ip = None.
Proof.
  induction c as [|e c IH]; cbn; [done|]. destruct (hit ip e); [done|].
  destruct (cache_update c ip m); [|done]. split; [done|]. intros H. by apply IH in H.
Qed.

Lemma cache_update_get c ip m c' ip' :
  cache_update c ip m = Some c' ->
  CacheGet c' ip' = if bytes_eqb ip' ip then Some m else CacheGet c ip'.
Proof.
  revert c'. induction c as [|e c IH]; cbn; [done|]. intros c'.
  destruct (hit ip e) eqn:Eh.
  - intros [= <-]. cbn. rewrite hit_mac. destruct (bytes_eqb ip' ip) eqn:Ei.
    + apply bytes_eqb_eq in Ei as ->. by rewrite Eh.
    + rewrite (hit_other ip ip' e); [done | done |]. intros ->.
      assert (bytes_eqb ip ip = true) by (by apply bytes_eqb_eq). congruence.
  - destruct (cache_update c ip m) as [c1|] eqn:Eu; [|done]. intros [= <-]. cbn.
    rewrite (IH c1) by done. destruct (bytes_eqb ip' ip) eqn:Ei; [|done].
    apply bytes_eqb_eq in Ei as ->. by rewrite Eh.
Qed.

Lemma hit_new ip ip' m : hit ip' (mkEntry ip m true) = bytes_eqb ip' ip.
Proof.
  unfold hit. cbn. apply eq_true_iff_eq. rewrite !bytes_eqb_eq. naive_solver.
Qed.

Lemma cache_insert_get c ip m ip' :
  CacheGet c ip = None ->
  CacheGet (cache_insert c ip m) ip' =
  if bytes_eqb ip' ip && existsb (fun e => negb (e_valid e)) c then Some m else CacheGet c ip'.
Proof.
  induction c as [|e c IH]; cbn; intros Hn; [by destruct (bytes_eqb _ _)|].
  destruct (hit ip e) eqn:Eh; [done|]. destruct (e_valid e) eqn:Ev; cbn.
  - rewrite IH by done. destruct (bytes_eqb ip' ip) eqn:Ei; cbn; [|done].
    apply bytes_eqb_eq in Ei as ->. rewrite Eh. by destruct (existsb _ c).
  - rewrite hit_new. destruct (bytes_eqb ip' ip); cbn; [done|].
    unfold hit. by rewrite Ev.
Qed.

Lemma CacheSet_get c ip m ip' :
  CacheGet (CacheSet c ip m) ip' =
  if bytes_eqb ip' ip && (match CacheGet c ip with Some _ => true | None => false end ||
                          existsb (fun e => negb (e_valid e)) c)
  then Some m else CacheGet c ip'.
Proof.
  unfold CacheSet. destruct (cache_update c ip m) as [c'|] eqn:Eu.
  - rewrite (cache_update_get c ip m c') by done.
    assert (Hk : CacheGet c ip <> None) by (rewrite <- (cache_update_None c ip m); congruence).
    destruct (CacheGet c ip); [|done]. cbn. by rewrite andb_true_r.
  - apply cache_update_None in Eu. rewrite Eu. by apply cache_insert_get.
Qed.

Lemma CacheSet_length c ip m : length (CacheSet c ip m) = length c.
Proof.
  unfold CacheSet. destruct (cache_update c ip m) as [c'|] eqn:Eu.
  - revert c' Eu. induction c as [|e c IH]; cbn; [done|]. intros c'.
    destruct (hit ip e); [by intros [= <-]|]. destruct (cache_update c ip m); [|done].
    intros [= <-]. cbn. by rewrite IH.
  - clear Eu. induction c as [|e c IH]; cbn; [done|]. destruct (e_valid e); cbn; [by rewrite IH | done].
Qed.

Lemma CacheSet_wf c ip m :
  bytes_of 6 m -> Forall (fun e => e_valid e = true -> bytes_of 6 (e_mac e)) c ->
  Forall (fun e => e_valid e = true -> bytes_of 6 (e_mac e)) (CacheSet c ip m).
Proof.
  intros Hm Hc. unfold CacheSet. destruct (cache_update c ip m) as [c'|] eqn:Eu.
  - revert c' Eu. induction Hc as [|e c He Hc IH]; cbn; [done|]. intros c'.
    destruct (hit ip e); [intros [= <-]; by constructor|].
    destruct (cache_update c ip m) as [c1|]; [|done]. intros [= <-]. constructor; [done | by apply IH].
  - clear Eu. induction Hc as [|e c He Hc IH]; cbn; [done|].
    destruct (negb (e_valid e)); constructor; [intros _; exact Hm | done | exact He | exact IH].
Qed.

Lemma CacheGet_wf c ip m :
  Forall (fun e => e_valid e = true -> bytes_of 6 (e_mac e)) c ->
  CacheGet c ip = Some m -> bytes_of 6 m.
Proof.
  induction 1 as [|e c He Hc IH]; cbn; [done|]. destruct (hit ip e) eqn:Eh; [|done].
  intros [= <-]. apply He. unfold hit in Eh. by destruct (e_valid e).
Qed.

(** The ARP cache is a map of at most 128 addresses.  After [CacheSet], a
    lookup of the address returns the new hardware address whenever the address
    was known or an entry was free, every other lookup is unchanged, and a full
    cache that does not know the address is left as it is. *)
Theorem arp_cache_is_map c ip m ip' :
  CacheGet (CacheSet c ip m) ip' =
    (if bytes_eqb ip' ip && (match CacheGet c ip with Some _ => true | None => false end ||
                             existsb (fun e => negb (e_valid e)) c)
     then Some m else CacheGet c ip') /\
  length (CacheSet c ip m) = length c.
Proof. split; [apply CacheSet_get | apply CacheSet_length]. Qed.

(** ** Sent packets *)

Lemma header_len tl id pr c src dst :
  length src = 4%nat -> length dst = 4%nat -> length (ipv4_header tl id pr c src dst) = 20%nat.
Proof. intros H1 H2. unfold ipv4_header. rewrite !length_app, H1, H2. done. Qed.

Lemma header_bytes tl id pr c src dst :
  is_u8 pr -> is_bytes src -> is_bytes dst -> is_bytes (ipv4_header tl id pr c src dst).
Proof.
  intros Hp Hs Hd. unfold ipv4_header. rewrite !is_bytes_app.
  assert (is_bytes [69; 0]) by (repeat constructor; zify_words; lia).
  assert (is_bytes [64; pr]) by (repeat constructor; zify_words; lia).
  auto 10 using le16_bytes.
Qed.

(** The header with its checksum stored verifies. *)
Lemma header_checksum tl id pr src dst :
  is_u8 pr -> bytes_of 4 src -> bytes_of 4 dst ->
  csum (ipv4_header tl id pr (csum (ipv4_header tl id pr 0 src dst)) src dst) = 0.
Proof.
  intros Hp [Hsl Hs] [Hdl Hd].
  set (pre := [0x45; 0] ++ le16 (htons tl) ++ le16 (htons id) ++ le16 0 ++ [64; pr]).
  pose proof (header_bytes tl id pr 0 src dst Hp Hs Hd) as Hb.
  change (csum (pre ++ le16 (csum (pre ++ 0 :: 0 :: (src ++ dst))) ++ (src ++ dst)) = 0).
  change (ipv4_header tl id pr 0 src dst) with (pre ++ 0 :: 0 :: (src ++ dst)) in Hb.
  apply is_bytes_app in Hb as [Hb1 Hb2]. apply Forall_cons in Hb2 as [_ Hb2].
  apply Forall_cons in Hb2 as [_ Hb2]. by apply csum_fill.
Qed.

Definition sent_header (h : host) (dst_ip : list Z) (protocol size : Z) : list Z :=
  ipv4_header (20 + size) (id_counter h) protocol
    (csum (ipv4_header (20 + size) (id_counter h) protocol 0 (local_ip h) dst_ip))
    (local_ip h) dst_ip.

Lemma sent_header_len h dst_ip protocol size :
  host_wf h -> bytes_of 4 dst_ip -> length (sent_header h dst_ip protocol size) = 20%nat.
Proof.
  intros Hwf [Ld _]. destruct (hw_ip h Hwf) as [Li _]. unfold sent_header.
  by rewrite header_len.
Qed.

Lemma sent_header_bytes h dst_ip protocol size :
  host_wf h -> bytes_of 4 dst_ip -> is_u8 protocol ->
  is_bytes (sent_header h dst_ip protocol size).
Proof.
  intros Hwf [_ Bd] Hp. destruct (hw_ip h Hwf) as [_ Bi]. unfold sent_header.
  by apply header_bytes.
Qed.

Lemma IPv4_Send_acts h dst_ip protocol payload size m :
  host_wf h -> bytes_of 4 dst_ip -> is_u8 protocol -> is_bytes payload ->
  0 <= size <= Z.of_nat (length payload) -> size <= 1480 -> Resolve h dst_ip = Some m ->
  exists h' frame, IPv4_Send h dst_ip protocol payload size = Ok (true, h') /\ host_wf h' /\
    wire h' = wire h ++ [frame] /\
    frame_of m (mac h) ETHERTYPE_IPV4
      (sent_header h dst_ip protocol size ++ take (Z.to_nat size) payload) frame /\
    (exists txb cur tx, h' = set_card (set_ip h (u16 (id_counter h + 1)) tx) txb cur
                                (wire h ++ [frame])).
Proof.
  intros Hwf Hd Hp Hpl Hs Hmax Hr. unfold IPv4_Send. rewrite Hr.
  pose proof (hw_ip h Hwf) as Hip. pose proof (hw_id h Hwf) as Hid.
  destruct (hw_ip_tx h Hwf) as [Hlt Hbt].
  rewrite (u16_small (20 + size)) by (zify_words; lia).
  set (h0 := ipv4_header (20 + size) (id_counter h) protocol 0 (local_ip h) dst_ip).
  assert (Lh : forall c, length (ipv4_header (20 + size) (id_counter h) protocol c (local_ip h) dst_ip) = 20%nat)
    by (intros; apply header_len; [apply Hip | apply Hd]).
  assert (Bh : forall c, is_bytes (ipv4_header (20 + size) (id_counter h) protocol c (local_ip h) dst_ip))
    by (intros; apply header_bytes; [done | apply Hip | apply Hd]).
  destruct (split_at (ip_tx h) 20) as (b0 & r0 & E0 & L0); [lia|].
  assert (Lr0 : length r0 = 1480%nat) by (rewrite E0, length_app in Hlt; lia).
  destruct (split_at r0 (Z.to_nat size)) as (b1 & r1 & E1 & L1); [lia|].
  assert (Br : is_bytes r0 /\ is_bytes r1).
  { rewrite E0, is_bytes_app in Hbt. destruct Hbt as [_ Hr0]. split; [done|].
    rewrite E1, is_bytes_app in Hr0. tauto. }
  rewrite E0, (put_bytes_app [] b0 r0 h0) by (unfold h0; rewrite ?L0, ?Lh; done).
  cbn [mbind result_bind app].
  rewrite InternetChecksum_val; [|apply is_bytes_app; split; [apply Bh | tauto]
    |rewrite length_app; unfold h0; rewrite Lh; lia | lia].
  cbn [mbind result_bind].
  rewrite take_app_le by (unfold h0; rewrite Lh; lia).
  rewrite take_ge by (unfold h0; rewrite Lh; lia).
  set (pre := [0x45; 0] ++ le16 (htons (20 + size)) ++ le16 (htons (id_counter h)) ++ le16 0 ++ [64; protocol]).
  change (h0 ++ r0) with ((pre ++ le16 0 ++ (local_ip h ++ dst_ip)) ++ r0).
  rewrite <- !app_assoc.
  rewrite (put_bytes_app pre (le16 0) _ (le16 (csum h0))) by done.
  cbn [mbind result_bind].
  assert (Ehdr : pre ++ le16 (csum h0) ++ local_ip h ++ dst_ip ++ r0 =
    sent_header h dst_ip protocol size ++ r0).
  { unfold sent_header, ipv4_header. fold h0. unfold pre. by rewrite <- !app_assoc. }
  rewrite Ehdr, E1.
  rewrite (copy_loop_app (sent_header h dst_ip protocol size) b1 r1 payload size)
    by (unfold sent_header; rewrite ?Lh; lia).
  cbn [mbind result_bind]. rewrite u32_small by (zify_words; lia).
  set (tx := sent_header h dst_ip protocol size ++ take (Z.to_nat size) payload ++ r1).
  assert (Btx : is_bytes tx).
  { unfold tx. rewrite !is_bytes_app. split; [apply Bh|]. split; [by apply Forall_take | tauto]. }
  assert (Ltx : length tx = 1500%nat).
  { unfold tx, sent_header. rewrite !length_app, Lh, length_take.
    rewrite E1, length_app in Lr0. lia. }
  assert (Hwf1 : host_wf (set_ip h (u16 (id_counter h + 1)) tx)).
  { destruct Hwf. split; try done. cbn. apply u16_bounds. }
  destruct (EthSend_acts (set_ip h (u16 (id_counter h + 1)) tx) m ETHERTYPE_IPV4 tx (20 + size))
    as (h' & frame & HE & Hwf' & Hw & Hf & txb & Eh); [done | | | done | lia | lia |].
  { eapply CacheGet_wf; [apply (hw_cache h Hwf) | exact Hr]. }
  { unfold ETHERTYPE_IPV4. zify_words. lia. }
  exists h', frame. split; [done|]. split; [done|]. split; [done|]. split; [|by eauto].
  replace (sent_header h dst_ip protocol size ++ take (Z.to_nat size) payload)
    with (take (Z.to_nat (20 + size)) tx); [done|].
  unfold tx. rewrite app_assoc. rewrite take_app_le.
  - apply take_ge. unfold sent_header. rewrite length_app, Lh, length_take. lia.
  - unfold sent_header. rewrite length_app, Lh, length_take. lia.
Qed.

(** ** A sample host

    It knows the hardware address of one peer; all buffers are zero. *)

Definition sample_host (m ip peer_mac peer_ip : list Z) (port : Z) (st : TCPState) (seq : Z) : host :=
  mkHost m (replicate 4 (replicate 1536 0)) 0 []
    (mkEntry peer_ip peer_mac true :: replicate 127 (mkEntry (replicate 4 0) (replicate 6 0) false))
    ip ip 0 (replicate 1500 0) (replicate 64 0) port (replicate 1472 0)
    (mkRx (replicate 2048 0) 0 false)
    (mkTcp port port peer_ip st seq 0 (replicate (Z.to_nat 8192) 0) (replicate 1480 0) (replicate 1500 0))
    (mkRx (replicate 2048 0) 0 false).

Lemma zeros_bytes n : bytes_of n (replicate n 0).
Proof. split; [apply length_replicate|]. apply Forall_replicate. zify_words. lia. Qed.

Lemma sample_host_wf m ip pm pip port st seq :
  bytes_of 6 m -> bytes_of 4 ip -> bytes_of 6 pm -> bytes_of 4 pip -> is_u16 port -> is_u32 seq ->
  host_wf (sample_host m ip pm pip port st seq).
Proof.
  intros Hm Hip Hpm Hpip Hport Hseq.
  split; cbn -[Z.to_nat]; try (done || apply zeros_bytes || (zify_words; lia)).
  - split; [apply length_replicate|]. apply Forall_replicate, zeros_bytes.
  - constructor; [by intros _|]. by apply Forall_replicate.
  - split; [apply zeros_bytes|]. split; apply zeros_bytes.
Qed.

Definition mac_a : list Z := [0x52; 0x54; 0; 0x12; 0x34; 0x56].
Definition mac_b : list Z := [0x52; 0x54; 0; 0x65; 0x43; 0x21].
Definition ip_a : list Z := [10; 0; 2; 15].
Definition ip_b : list Z := [10; 0; 2; 2].
Definition host_a (st : TCPState) : host := sample_host mac_a ip_a mac_b ip_b 1234 st 1000.
Definition host_b (st : TCPState) : host := sample_host mac_b ip_b mac_a ip_a 1234 st 7000.

Lemma sample_addrs : bytes_of 6 mac_a /\ bytes_of 6 mac_b /\ bytes_of 4 ip_a /\ bytes_of 4 ip_b.
Proof.
  repeat split; repeat (apply Forall_cons; split; [u32_lit|]); by apply Forall_nil.
Qed.

Lemma host_a_wf st : host_wf (host_a st).
Proof. destruct sample_addrs as (? & ? & ? & ?). apply sample_host_wf; (done || u32_lit). Qed.

Lemma host_b_wf st : host_wf (host_b st).
Proof. destruct sample_addrs as (? & ? & ? & ?). apply sample_host_wf; (done || u32_lit). Qed.

End Stack.
