(* ===== verification/Tcp.v ===== *)
(** The TCP socket: src/src/net/tcp.cpp and tcp.h, with the receiving socket of
    src/src/kernel/syscall.cpp.

    The theorems show the segment a send puts on the wire, with a checksum that
    verifies over the pseudo header, the state machine as a step relation with
    the states that are never reached, and the bound on the size of a send that
    the code does not check. *)

From stdpp Require Import base numbers list relations.
From Stdlib Require Import ZArith Lia.
From S2P Require Import Prelude Net NetStack.

Module Tcp.
Import Net Stack.

(** ** The code *)

Definition TCP_FIN : Z := 0x01.
Definition TCP_SYN : Z := 0x02.
Definition TCP_RST : Z := 0x04.
Definition TCP_PSH : Z := 0x08.
Definition TCP_ACK : Z := 0x10.

Definition has (flags f : Z) : bool := negb (Z.land flags f =? 0).

Definition set_state (t : TCPSocket) st :=
  mkTcp (t_local_port t) (t_remote_port t) (t_remote_ip t) st (t_seq t) (t_ack t) (t_rx_buf t)
    (t_tx_buf t) (t_scratch t).
Definition set_seq (t : TCPSocket) x :=
  mkTcp (t_local_port t) (t_remote_port t) (t_remote_ip t) (t_state t) x (t_ack t) (t_rx_buf t)
    (t_tx_buf t) (t_scratch t).
Definition set_ack (t : TCPSocket) x :=
  mkTcp (t_local_port t) (t_remote_port t) (t_remote_ip t) (t_state t) (t_seq t) x (t_rx_buf t)
    (t_tx_buf t) (t_scratch t).
Definition set_bufs (t : TCPSocket) rx tx sc :=
  mkTcp (t_local_port t) (t_remote_port t) (t_remote_ip t) (t_state t) (t_seq t) (t_ack t) rx tx sc.

Definition TCPSocket_new (local_port : Z) (rx tx scratch : list Z) : TCPSocket :=
  mkTcp local_port 0 (FromBytes 0 0 0 0) TCP_CLOSED 0 0 rx tx scratch.

(** A [TCPPseudoHeader] (12 bytes) and a [TCPHeader] (20 bytes) in memory. *)
Definition pseudo_header (src dst : list Z) (seg_len : Z) : list Z :=
  src ++ dst ++ [0; IPV4_PROTO_TCP] ++ le16 (htons (u16 seg_len)).
Definition tcp_header (sport dport seq ack flags checksum : Z) : list Z :=
  le16 (htons sport) ++ le16 (htons dport) ++ le32 (htonl seq) ++ le32 (htonl ack) ++
  [Z.shiftl 5 4; flags] ++ le16 (htons 8192) ++ le16 checksum ++ le16 0.

(** Returns the checksum and the scratch buffer. *)
Definition ComputeChecksum (scratch src dst segment : list Z) (seg_len : Z)
    : result (Z * list Z) :=
  scratch ← put_bytes scratch 0 (pseudo_header src dst seg_len);
  scratch ← copy_loop scratch 12 segment seg_len;
  c ← InternetChecksum scratch (u32 (12 + seg_len));
  Ok (c, scratch).

Definition SendSegment (h : host) (flags : Z) (data : list Z) (size : Z) : result host :=
  let t := tcp h in
  tx ← put_bytes (t_tx_buf t) 0
         (tcp_header (t_local_port t) (t_remote_port t) (t_seq t) (t_ack t) flags 0);
  tx ← copy_loop tx 20 data size;
  let seg_len := u32 (20 + size) in
  '(c, scratch) ← ComputeChecksum (t_scratch t) (local_ip h) (t_remote_ip t) tx seg_len;
  tx ← put_bytes tx 16 (le16 c);
  let h := set_tcp h (set_bufs t (t_rx_buf t) tx scratch) in
  '(_, h) ← IPv4_Send h (t_remote_ip t) IPV4_PROTO_TCP tx seg_len;
  let t := tcp h in
  let seq := if has flags TCP_SYN || has flags TCP_FIN then u32 (t_seq t + 1)
             else u32 (t_seq t + size) in
  Ok (set_tcp h (set_seq t seq)).

Definition Connect (h : host) (dst_ip : list Z) (dst_port : Z) : result (bool * host) :=
  let t := tcp h in
  let t := mkTcp (t_local_port t) dst_port dst_ip TCP_SYN_SENT 0xDEADBEEF 0 (t_rx_buf t)
             (t_tx_buf t) (t_scratch t) in
  h ← SendSegment (set_tcp h t) TCP_SYN [] 0;
  Ok (true, h).

Definition Send (h : host) (data : list Z) (size : Z) : result (bool * host) :=
  if negb (bool_decide (t_state (tcp h) = TCP_ESTABLISHED)) then Ok (false, h)
  else h ← SendSegment h (Z.lor TCP_PSH TCP_ACK) data size; Ok (true, h).

Definition Close (h : host) : result host :=
  if bool_decide (t_state (tcp h) = TCP_ESTABLISHED) then
    SendSegment (set_tcp h (set_state (tcp h) TCP_FIN_WAIT_1)) (Z.lor TCP_FIN TCP_ACK) [] 0
  else Ok h.

(** [SyscallTCPSocket::OnReceive] *)
Definition TCP_OnReceive (h : host) (data : list Z) (size : Z) : result host :=
  let copy := if size >? 2048 then 2048 else size in
  buf ← copy_loop (rx_buf (tcp_rx h)) 0 data copy;
  Ok (set_tcp_rx h (mkRx buf copy true)).

Definition TCP_HandleIPv4Payload (h : host) (payload : list Z) (size : Z) : result host :=
  if size <? 20 then Ok h
  else
    dst_port ← get16 payload 2;
    if negb (ntohs dst_port =? t_local_port (tcp h)) then Ok h
    else
      in_seq ← get32 payload 4; let in_seq := ntohl in_seq in
      in_ack ← get32 payload 8; let in_ack := ntohl in_ack in
      flags ← arr_get payload 13;
      data_offset ← arr_get payload 12;
      let hdr_len := Z.shiftr data_offset 4 * 4 in
      let payload_size := if size >? hdr_len then size - hdr_len else 0 in
      let data := drop (Z.to_nat hdr_len) payload in
      match t_state (tcp h) with
      | TCP_SYN_SENT =>
          if has flags TCP_SYN && has flags TCP_ACK then
            let t := set_state (set_seq (set_ack (tcp h) (u32 (in_seq + 1))) in_ack)
                       TCP_ESTABLISHED in
            SendSegment (set_tcp h t) TCP_ACK [] 0
          else Ok h
      | TCP_ESTABLISHED =>
          if has flags TCP_FIN then
            h ← SendSegment (set_tcp h (set_ack (tcp h) (u32 (in_seq + 1)))) TCP_ACK [] 0;
            h ← SendSegment h (Z.lor TCP_FIN TCP_ACK) [] 0;
            Ok (set_tcp h (set_state (tcp h) TCP_LAST_ACK))
          else if payload_size >? 0 then
            let t := set_ack (tcp h) (u32 (in_seq + payload_size)) in
            let copy := if payload_size >? 8192 then 8192 else payload_size in
            rx ← copy_loop (t_rx_buf t) 0 data copy;
            h ← SendSegment (set_tcp h (set_bufs t rx (t_tx_buf t) (t_scratch t))) TCP_ACK [] 0;
            TCP_OnReceive h (t_rx_buf (tcp h)) copy
          else Ok h
      | TCP_LAST_ACK =>
          if has flags TCP_ACK then Ok (set_tcp h (set_state (tcp h) TCP_CLOSED)) else Ok h
      | TCP_FIN_WAIT_1 =>
          if has flags TCP_ACK then Ok (set_tcp h (set_state (tcp h) TCP_FIN_WAIT_2)) else Ok h
      | TCP_FIN_WAIT_2 =>
          if has flags TCP_FIN then
            h ← SendSegment (set_tcp h (set_ack (tcp h) (u32 (in_seq + 1)))) TCP_ACK [] 0;
            Ok (set_tcp h (set_state (tcp h) TCP_CLOSED))
          else Ok h
      | _ => Ok h
      end.

(** ** The segment on the wire *)

(** The header up to the checksum field. *)
Definition header_front (sport dport seq ack flags : Z) : list Z :=
  le16 (htons sport) ++ le16 (htons dport) ++ le32 (htonl seq) ++ le32 (htonl ack) ++
  [Z.shiftl 5 4; flags] ++ le16 (htons 8192).

Lemma tcp_header_front sport dport seq ack flags c :
  tcp_header sport dport seq ack flags c =
  header_front sport dport seq ack flags ++ le16 c ++ le16 0.
Proof. unfold tcp_header, header_front. by rewrite <- !app_assoc. Qed.

Lemma le32_bytes x : is_bytes (le32 x).
Proof. repeat constructor; apply Z.mod_pos_bound; lia. Qed.

Lemma header_front_bytes sport dport seq ack flags :
  is_u8 flags -> is_bytes (header_front sport dport seq ack flags).
Proof.
  intros Hf. unfold header_front. rewrite !is_bytes_app.
  assert (is_bytes [Z.shiftl 5 4; flags]).
  { apply Forall_cons; split; [u32_lit|]. apply Forall_cons; split; [done | by apply Forall_nil]. }
  auto 10 using le16_bytes, le32_bytes.
Qed.

Lemma tcp_header_bytes sport dport seq ack flags c :
  is_u8 flags -> is_bytes (tcp_header sport dport seq ack flags c).
Proof.
  intros Hf. rewrite tcp_header_front, !is_bytes_app.
  auto using header_front_bytes, le16_bytes.
Qed.

Lemma pseudo_bytes src dst n : is_bytes src -> is_bytes dst -> is_bytes (pseudo_header src dst n).
Proof.
  intros Hs Hd. unfold pseudo_header. rewrite !is_bytes_app.
  assert (is_bytes [0; IPV4_PROTO_TCP]).
  { apply Forall_cons; split; [u32_lit|]. apply Forall_cons; split; [u32_lit | by apply Forall_nil]. }
  auto 10 using le16_bytes.
Qed.

Lemma pseudo_len src dst n :
  length src = 4%nat -> length dst = 4%nat -> length (pseudo_header src dst n) = 12%nat.
Proof. intros H1 H2. unfold pseudo_header. rewrite !length_app, H1, H2. done. Qed.

(** The segment with its checksum over the pseudo header. *)
Definition segment (h : host) (flags : Z) (data : list Z) : list Z :=
  let t := tcp h in
  let front := header_front (t_local_port t) (t_remote_port t) (t_seq t) (t_ack t) flags in
  let pseudo := pseudo_header (local_ip h) (t_remote_ip t) (20 + Z.of_nat (length data)) in
  let c := csum (pseudo ++ front ++ le16 0 ++ le16 0 ++ data) in
  front ++ le16 c ++ le16 0 ++ data.

Lemma segment_verifies h flags data :
  host_wf h -> is_u8 flags -> is_bytes data ->
  csum (pseudo_header (local_ip h) (t_remote_ip (tcp h)) (20 + Z.of_nat (length data)) ++
        segment h flags data) = 0.
Proof.
  intros Hwf Hf Hd. unfold segment. cbv zeta.
  set (front := header_front _ _ _ _ _). set (ps := pseudo_header _ _ _).
  destruct (hw_ip h Hwf) as [L1 B1]. destruct (hw_tcp_ip h Hwf) as [L2 B2].
  assert (Bf : is_bytes front) by (by apply header_front_bytes).
  assert (Bp : is_bytes ps) by (by apply pseudo_bytes).
  change (le16 0 ++ le16 0 ++ data) with (0 :: 0 :: (le16 0 ++ data)).
  rewrite !app_assoc. rewrite <- (app_assoc _ (le16 0) data). rewrite <- (app_assoc (ps ++ front)).
  apply (csum_fill (ps ++ front)).
  - by apply is_bytes_app.
  - apply is_bytes_app. split; [apply le16_bytes | done].
  - rewrite length_app. unfold ps. rewrite pseudo_len by done. done.
Qed.

Lemma segment_length h flags data : length (segment h flags data) = (20 + length data)%nat.
Proof. unfold segment. cbv zeta. rewrite !length_app. done. Qed.

Lemma segment_bytes h flags data :
  is_u8 flags -> is_bytes data -> is_bytes (segment h flags data).
Proof.
  intros. unfold segment. cbv zeta. rewrite !is_bytes_app.
  auto using header_front_bytes, le16_bytes.
Qed.

Lemma ComputeChecksum_acts scratch src dst seg n :
  bytes_of 1500 scratch -> bytes_of 4 src -> bytes_of 4 dst -> is_bytes seg ->
  0 <= n <= Z.of_nat (length seg) -> n <= 1488 ->
  exists scratch', ComputeChecksum scratch src dst seg n =
      Ok (csum (pseudo_header src dst n ++ take (Z.to_nat n) seg), scratch') /\
    bytes_of 1500 scratch'.
Proof.
  intros [Hl Hb] [Ls Bs] [Ld Bd] Bseg Hn Hmax. unfold ComputeChecksum.
  pose proof (pseudo_len src dst n Ls Ld) as Lp. pose proof (pseudo_bytes src dst n Bs Bd) as Bp.
  destruct (split_at scratch 12) as (b0 & r0 & E0 & L0); [lia|].
  assert (Lr0 : length r0 = 1488%nat) by (rewrite E0, length_app in Hl; lia).
  destruct (split_at r0 (Z.to_nat n)) as (b1 & r1 & E1 & L1); [lia|].
  rewrite E0, (put_bytes_app [] b0 r0) by (done || congruence). cbn [mbind result_bind app].
  rewrite E1, (copy_loop_app _ b1 r1 seg n) by (lia || (rewrite Lp; lia)).
  cbn [mbind result_bind]. rewrite u32_small by (zify_words; lia).
  set (sc := pseudo_header src dst n ++ take (Z.to_nat n) seg ++ r1).
  assert (Br1 : is_bytes r1) by (rewrite E0, E1, !is_bytes_app in Hb; tauto).
  assert (Bsc : is_bytes sc).
  { unfold sc. rewrite !is_bytes_app. split; [done|]. split; [by apply Forall_take | done]. }
  assert (Lsc : length sc = 1500%nat).
  { unfold sc. rewrite !length_app, Lp, length_take. rewrite E1, length_app in Lr0. lia. }
  rewrite InternetChecksum_val by (done || lia). cbn [mbind result_bind].
  exists sc. split; [|done]. do 3 f_equal. unfold sc. rewrite app_assoc.
  rewrite take_app_le by (rewrite length_app, Lp, length_take; lia).
  rewrite take_ge; [done|]. rewrite length_app, Lp, length_take. lia.
Qed.

(** The next sequence number. *)
Definition next_seq (t : TCPSocket) (flags size : Z) : Z :=
  if has flags TCP_SYN || has flags TCP_FIN then u32 (t_seq t + 1) else u32 (t_seq t + size).

(** What a send leaves in the socket. *)
Record sent (h : host) (flags size : Z) (h' : host) : Prop := {
  se_wf : host_wf h';
  se_state : t_state (tcp h') = t_state (tcp h);
  se_ports : t_local_port (tcp h') = t_local_port (tcp h) /\
    t_remote_port (tcp h') = t_remote_port (tcp h) /\ t_remote_ip (tcp h') = t_remote_ip (tcp h);
  se_seq : t_seq (tcp h') = next_seq (tcp h) flags size;
  se_ack : t_ack (tcp h') = t_ack (tcp h);
  se_rx : t_rx_buf (tcp h') = t_rx_buf (tcp h) /\ tcp_rx h' = tcp_rx h;
  se_arp : arp_cache h' = arp_cache h /\ mac h' = mac h /\ local_ip h' = local_ip h;
}.

Lemma seq_u32 t flags size : is_u32 (next_seq t flags size).
Proof. unfold next_seq. destruct (_ || _); apply u32_bounds. Qed.

(** The segment in the transmit buffer, with its checksum. *)
Lemma build_segment h flags data size :
  host_wf h -> is_u8 flags -> is_bytes data -> 0 <= size <= Z.of_nat (length data) -> size <= 1460 ->
  exists tx sc r1,
    (forall (k : list Z -> list Z -> result host),
      (tx ← put_bytes (t_tx_buf (tcp h)) 0
              (tcp_header (t_local_port (tcp h)) (t_remote_port (tcp h)) (t_seq (tcp h)) (t_ack (tcp h)) flags 0);
       tx ← copy_loop tx 20 data size;
       '(c, sc) ← ComputeChecksum (t_scratch (tcp h)) (local_ip h) (t_remote_ip (tcp h)) tx (u32 (20 + size));
       tx ← put_bytes tx 16 (le16 c); k tx sc) = k tx sc) /\
    tx = segment h flags (take (Z.to_nat size) data) ++ r1 /\ length tx = 1480%nat /\ is_bytes tx /\
    host_wf (set_tcp h (set_bufs (tcp h) (t_rx_buf (tcp h)) tx sc)).
Proof.
  intros Hwf Hf Hd Hs Hmax. set (t := tcp h).
  destruct (hw_tcp_bufs h Hwf) as (Hrx & [Lt Bt] & Hsc). fold t in Hrx, Lt, Bt, Hsc.
  destruct (hw_tcp_ip h Hwf) as [Lr Br]. destruct (hw_ip h Hwf) as [Li Bi].
  destruct (split_at (t_tx_buf t) 20) as (b0 & r0 & E0 & L0); [lia|].
  assert (Lr0 : length r0 = 1460%nat) by (rewrite E0, length_app in Lt; lia).
  destruct (split_at r0 (Z.to_nat size)) as (b1 & r1 & E1 & L1); [lia|].
  assert (Br1 : is_bytes r1) by (rewrite E0, E1, !is_bytes_app in Bt; tauto).
  set (hd0 := tcp_header (t_local_port t) (t_remote_port t) (t_seq t) (t_ack t) flags 0).
  set (dat := take (Z.to_nat size) data).
  assert (Ldat : Z.of_nat (length dat) = size) by (unfold dat; rewrite length_take; lia).
  assert (Bdat : is_bytes dat) by (by apply Forall_take).
  assert (Bhd : is_bytes hd0) by (by apply tcp_header_bytes).
  destruct (ComputeChecksum_acts (t_scratch t) (local_ip h) (t_remote_ip t) (hd0 ++ dat ++ r1) (20 + size))
    as (sc & Ec & Hsc'); [done | done | done | rewrite !is_bytes_app; done | | lia |].
  { rewrite !length_app. change (length hd0) with 20%nat. lia. }
  rewrite (app_assoc hd0), take_app_le, take_ge, <- (app_assoc hd0) in Ec
    by (rewrite length_app; change (length hd0) with 20%nat; lia).
  assert (Btx : is_bytes (segment h flags dat ++ r1)) by (apply is_bytes_app; split; [by apply segment_bytes | done]).
  assert (Ltx : length (segment h flags dat ++ r1) = 1480%nat).
  { rewrite length_app, segment_length. rewrite E1, length_app in Lr0. lia. }
  exists (segment h flags dat ++ r1), sc, r1. split; [|split; [done|]; split; [done|]; split; [done | by destruct Hwf; split]].
  intros k. rewrite E0, (put_bytes_app [] b0 r0) by (done || (rewrite L0; done)). cbn [mbind result_bind app].
  rewrite E1, (copy_loop_app hd0 b1 r1 data size) by (lia || done). cbn [mbind result_bind].
  rewrite (u32_small (20 + size)) by (zify_words; lia). fold dat. rewrite Ec. cbn [mbind result_bind].
  set (front := header_front (t_local_port t) (t_remote_port t) (t_seq t) (t_ack t) flags).
  assert (Ehd : hd0 = front ++ le16 0 ++ le16 0) by apply tcp_header_front.
  rewrite Ehd, <- !app_assoc. set (c := csum _).
  rewrite (put_bytes_app front (le16 0) _ (le16 c)) by done. cbn [mbind result_bind].
  f_equal. unfold segment. cbv zeta. fold t front. rewrite Ldat. unfold c. by rewrite <- !app_assoc.
Qed.

(** The sequence number after a segment that left the rest of the connection alone. *)
Lemma sequence_advanced h flags size tx sc h2 :
  tcp h2 = set_bufs (tcp h) (t_rx_buf (tcp h)) tx sc -> host_wf h2 ->
  arp_cache h2 = arp_cache h /\ mac h2 = mac h /\ local_ip h2 = local_ip h -> tcp_rx h2 = tcp_rx h ->
  sent h flags size (set_tcp h2 (set_seq (tcp h2)
    (if has flags TCP_SYN || has flags TCP_FIN then u32 (t_seq (tcp h2) + 1) else u32 (t_seq (tcp h2) + size)))).
Proof.
  intros E2 Hwf2 Ha Hr2.
  split; cbn [tcp set_tcp t_state t_local_port t_remote_port t_remote_ip t_seq t_ack t_rx_buf
    tcp_rx arp_cache mac local_ip set_seq]; rewrite ?E2; [|done..].
  destruct Hwf2 as [? ? ? ? ? ? ? ? ? ? ? ? ? P1 P2 P3 P4]. rewrite E2 in P1, P2, P3, P4.
  split; cbn; rewrite ?E2; try done. split; [apply (seq_u32 (tcp h) flags size) | apply P3].
Qed.

Lemma SendSegment_acts h flags data size :
  host_wf h -> is_u8 flags -> is_bytes data -> 0 <= size <= Z.of_nat (length data) -> size <= 1460 ->
  exists h', SendSegment h flags data size = Ok h' /\ sent h flags size h' /\
    match Resolve h (t_remote_ip (tcp h)) with
    | None => wire h' = wire h
    | Some m => exists frame, wire h' = wire h ++ [frame] /\
        frame_of m (mac h) ETHERTYPE_IPV4
          (sent_header h (t_remote_ip (tcp h)) IPV4_PROTO_TCP (20 + size) ++
           segment h flags (take (Z.to_nat size) data)) frame
    end.
Proof.
  intros Hwf Hf Hd Hs Hmax.
  destruct (build_segment h flags data size) as (tx & sc & r1 & Hk & Etx & Ltx & Btx & Hwf1); [done..|].
  unfold SendSegment. cbv zeta. rewrite Hk. rewrite (u32_small (20 + size)) by (zify_words; lia).
  set (h1 := set_tcp h _) in *. set (dat := take (Z.to_nat size) data) in *. set (ip := t_remote_ip (tcp h)).
  assert (Ldat : Z.of_nat (length dat) = size) by (unfold dat; rewrite length_take; lia).
  destruct (Resolve h ip) as [m|] eqn:Er.
  - destruct (IPv4_Send_acts h1 ip IPV4_PROTO_TCP tx (20 + size) m)
      as (h2 & frame & HE & Hwf2 & Hw & Hfr & txb & cur & tx2 & Eh2);
      [done | apply (hw_tcp_ip h Hwf) | split; vm_compute; (done || discriminate) | done | lia | lia | done |].
    rewrite HE. cbn [mbind result_bind]. eexists. split; [reflexivity|]. split.
    + apply (sequence_advanced h flags size tx sc); [by rewrite Eh2 | done | by rewrite Eh2 | by rewrite Eh2].
    + exists frame. split; [exact Hw|].
      replace (segment h flags dat) with (take (Z.to_nat (20 + size)) tx); [exact Hfr|].
      rewrite Etx, take_app_le, take_ge; [done | |]; rewrite segment_length; lia.
  - unfold IPv4_Send. change (Resolve h1 ip) with (Resolve h ip). rewrite Er. cbn [mbind result_bind].
    eexists. split; [reflexivity|]. split; [|done]. by apply (sequence_advanced h flags size tx sc).
Qed.

(** ** Reading a segment *)

(** The fields of a segment as the receiver reads them. *)
Lemma read_segment h flags data rest :
  host_wf h -> is_u8 flags ->
  let p := segment h flags data ++ rest in let t := tcp h in
  get16 p 2 = Ok (htons (t_remote_port t)) /\ get32 p 4 = Ok (htonl (t_seq t)) /\
  get32 p 8 = Ok (htonl (t_ack t)) /\ arr_get p 12 = Ok 0x50 /\ arr_get p 13 = Ok flags /\
  drop 20 p = data ++ rest.
Proof.
  intros Hwf Hf. cbv zeta. destruct (hw_tcp_seq h Hwf). unfold segment. cbv zeta. unfold header_front.
  rewrite <- !app_assoc.
  split; [apply get16_le16; [apply htons_u16 | reflexivity | lia]|].
  split; [apply get32_le32; [by apply htonl_u32 | reflexivity | lia]|].
  split; [apply get32_le32; [by apply htonl_u32 | reflexivity | lia]|].
  split; [reflexivity|]. split; [reflexivity|]. reflexivity.
Qed.

Lemma copy_whole dst src n :
  0 <= n <= Z.of_nat (length src) -> n <= Z.of_nat (length dst) ->
  copy_loop dst 0 src n = Ok (take (Z.to_nat n) src ++ drop (Z.to_nat n) dst).
Proof. intros. rewrite copy_loop_ok by lia. done. Qed.

(** [b] has put one frame on the wire, to the hardware address [m]: an empty segment to its
    peer with the ACK flag and acknowledgement number [ack], whose checksum verifies. *)
Definition acknowledged (b b' : host) (m : list Z) (ack : Z) : Prop :=
  exists reply seg, wire b' = wire b ++ [reply] /\
    frame_of m (mac b) ETHERTYPE_IPV4 (sent_header b (t_remote_ip (tcp b)) IPV4_PROTO_TCP 20 ++ seg) reply /\
    length seg = 20%nat /\ get16 seg 2 = Ok (htons (t_remote_port (tcp b))) /\
    get32 seg 4 = Ok (htonl (t_seq (tcp b))) /\ get32 seg 8 = Ok (htonl ack) /\ arr_get seg 13 = Ok TCP_ACK /\
    csum (pseudo_header (local_ip b) (t_remote_ip (tcp b)) 20 ++ seg) = 0.

(** The receiving half: an established host stores the bytes of a segment for the
    system calls and acknowledges them. *)
Lemma data_received a b dat size rest :
  host_wf a -> host_wf b -> is_bytes dat -> Z.of_nat (length dat) = size -> 1 <= size <= 1460 ->
  t_state (tcp b) = TCP_ESTABLISHED -> t_local_port (tcp b) = t_remote_port (tcp a) ->
  exists b', TCP_HandleIPv4Payload b (segment a (Z.lor TCP_PSH TCP_ACK) dat ++ rest) (20 + size) = Ok b' /\
    t_ack (tcp b') = u32 (t_seq (tcp a) + size) /\
    rx_ready (tcp_rx b') = true /\ rx_len (tcp_rx b') = size /\
    take (Z.to_nat size) (rx_buf (tcp_rx b')) = dat /\
    (forall m, Resolve b (t_remote_ip (tcp b)) = Some m -> acknowledged b b' m (u32 (t_seq (tcp a) + size))).
Proof.
  intros Ha Hb Bdat Ldat Hs Sb Hport.
  assert (Hf : is_u8 (Z.lor TCP_PSH TCP_ACK)) by u32_lit.
  destruct (read_segment a (Z.lor TCP_PSH TCP_ACK) dat rest Ha Hf) as (R1 & R2 & R3 & R4 & R5 & R6).
  destruct (hw_tcp_seq a Ha) as [Hsq _]. destruct (hw_tcp_ports a Ha) as [_ Hrp].
  destruct (hw_tcp_bufs b Hb) as ([Lrx Brx] & _). destruct (hw_tcp_rx b Hb) as [Lsx Bsx].
  set (t1 := set_ack (tcp b) (u32 (t_seq (tcp a) + size))).
  set (rx := take (Z.to_nat size) (dat ++ rest) ++ drop (Z.to_nat size) (t_rx_buf (tcp b))).
  assert (Erx : rx = dat ++ drop (Z.to_nat size) (t_rx_buf (tcp b))).
  { unfold rx. f_equal. rewrite take_app_le, take_ge; [done | lia | lia]. }
  set (b1 := set_tcp b (set_bufs t1 rx (t_tx_buf t1) (t_scratch t1))).
  assert (Hb1 : host_wf b1).
  { destruct Hb as [? ? ? ? ? ? ? ? ? ? ? ? ? P1 P2 P3 P4]. split; try done.
    - split; [apply P3 | apply u32_bounds].
    - split; [|apply P4]. split; cbn; rewrite Erx.
      + rewrite length_app, length_drop. lia.
      + apply is_bytes_app. split; [done|]. by apply Forall_drop. }
  destruct (SendSegment_acts b1 TCP_ACK [] 0) as (b2 & HS2 & Hsent2 & Hw2);
    [done | u32_lit | by apply Forall_nil | cbn; lia | lia |].
  destruct (se_rx _ _ _ _ Hsent2) as [Erx2 Etr2].
  assert (E2 : tcp_rx b2 = tcp_rx b) by (rewrite Etr2; done).
  exists (set_tcp_rx b2 (mkRx (take (Z.to_nat size) rx ++ drop (Z.to_nat size) (rx_buf (tcp_rx b))) size true)).
  split.
  - unfold TCP_HandleIPv4Payload. destruct (Z.ltb_spec (20 + size) 20); [lia|].
    rewrite R1. cbn [mbind result_bind]. unfold ntohs. rewrite htons_htons, Hport, Z.eqb_refl by done.
    cbn [negb]. rewrite R2. cbn [mbind result_bind]. rewrite R3. cbn [mbind result_bind].
    rewrite R5. cbn [mbind result_bind]. rewrite R4. cbn [mbind result_bind]. rewrite Sb.
    change (has (Z.lor TCP_PSH TCP_ACK) TCP_FIN) with false. change (Z.shiftr 80 4 * 4) with 20.
    destruct (Z.gtb_spec (20 + size) 20); [|lia]. replace (20 + size - 20) with size by lia.
    destruct (Z.gtb_spec size 0); [|lia]. destruct (Z.gtb_spec size 8192); [lia|].
    change (Z.to_nat 20) with 20%nat. rewrite R6. unfold ntohl. rewrite htonl_htonl by done.
    fold t1. change (t_rx_buf t1) with (t_rx_buf (tcp b)).
    rewrite copy_whole by (rewrite ?length_app; lia). cbn [mbind result_bind].
    fold rx b1. rewrite HS2. cbn [mbind result_bind]. unfold TCP_OnReceive.
    destruct (Z.gtb_spec size 2048); [lia|]. rewrite Erx2, E2. change (t_rx_buf (tcp b1)) with rx.
    rewrite copy_whole by (rewrite ?Erx, ?length_app; lia). done.
  - cbn. rewrite (se_ack _ _ _ _ Hsent2). split; [done|]. split; [done|]. split; [done|]. rewrite Erx.
    rewrite take_app_le by (rewrite length_take, length_app; lia).
    rewrite take_take, Nat.min_id, take_app_le, take_ge by lia. split; [done|]. intros m Hm.
    change (Resolve b1 (t_remote_ip (tcp b1))) with (Resolve b (t_remote_ip (tcp b))) in Hw2. rewrite Hm in Hw2.
    destruct Hw2 as (reply & Hw & Hfr). exists reply, (segment b1 TCP_ACK []). split; [exact Hw|].
    split; [exact Hfr|]. split; [apply segment_length|].
    destruct (read_segment b1 TCP_ACK [] [] Hb1 ltac:(u32_lit)) as (Q1 & Q2 & Q3 & _ & Q5 & _).
    rewrite app_nil_r in Q1, Q2, Q3, Q5. do 4 (split; [done|]).
    apply (segment_verifies b1 TCP_ACK [] Hb1 ltac:(u32_lit)). by apply Forall_nil.
Qed.



(** ** The state machine *)

(** The edges a segment with [flags] may take. *)
Inductive segment_edge (flags : Z) : TCPState -> TCPState -> Prop :=
  | edge_stay s : segment_edge flags s s
  | edge_open : has flags TCP_SYN = true -> has flags TCP_ACK = true ->
      segment_edge flags TCP_SYN_SENT TCP_ESTABLISHED
  | edge_passive_close : has flags TCP_FIN = true ->
      segment_edge flags TCP_ESTABLISHED TCP_LAST_ACK
  | edge_closed : has flags TCP_ACK = true -> segment_edge flags TCP_LAST_ACK TCP_CLOSED
  | edge_fin_acked : has flags TCP_ACK = true -> segment_edge flags TCP_FIN_WAIT_1 TCP_FIN_WAIT_2
  | edge_active_close : has flags TCP_FIN = true -> segment_edge flags TCP_FIN_WAIT_2 TCP_CLOSED.

(** One operation on the socket that returned. *)
Inductive tcp_step : host -> host -> Prop :=
  | step_connect h ip port r h' : Connect h ip port = Ok (r, h') -> tcp_step h h'
  | step_send h data size r h' : Send h data size = Ok (r, h') -> tcp_step h h'
  | step_close h h' : Close h = Ok h' -> tcp_step h h'
  | step_receive h payload size h' : TCP_HandleIPv4Payload h payload size = Ok h' -> tcp_step h h'.

Lemma EthSend_tcp h dst et p n r h' : EthSend h dst et p n = Ok (r, h') -> tcp h' = tcp h.
Proof. unfold EthSend. intros H. inv_result. done. Qed.

Lemma IPv4_Send_tcp h dst pr p n r h' : IPv4_Send h dst pr p n = Ok (r, h') -> tcp h' = tcp h.
Proof.
  unfold IPv4_Send. destruct (Resolve h dst); intros H; inv_result; [|done].
  apply EthSend_tcp in H. done.
Qed.

Lemma SendSegment_state h flags data size h' :
  SendSegment h flags data size = Ok h' -> t_state (tcp h') = t_state (tcp h).
Proof.
  unfold SendSegment. intros H. inv_pairs.
  match goal with E : IPv4_Send _ _ _ _ _ = Ok _ |- _ =>
    apply IPv4_Send_tcp in E; cbn in E; cbn; by rewrite E end.
Qed.

Lemma receive_edge h payload size h' :
  TCP_HandleIPv4Payload h payload size = Ok h' ->
  t_state (tcp h') = t_state (tcp h) \/
  exists flags, arr_get payload 13 = Ok flags /\
    segment_edge flags (t_state (tcp h)) (t_state (tcp h')).
Proof.
  unfold TCP_HandleIPv4Payload. destruct (size <? 20); [intros [= <-]; by left|].
  intros H. apply result_bind_inv in H as (dp & _ & H).
  destruct (negb _); [injection H as <-; by left|].
  apply result_bind_inv in H as (in_seq & _ & H). apply result_bind_inv in H as (in_ack & _ & H).
  apply result_bind_inv in H as (flags & Hf & H). apply result_bind_inv in H as (off & _ & H).
  cbv zeta in H. destruct (t_state (tcp h)) eqn:Es; try (injection H as <-; left; exact Es).
  - destruct (has flags TCP_SYN) eqn:E1, (has flags TCP_ACK) eqn:E2; cbn [andb] in H;
      try (injection H as <-; left; exact Es).
    right. exists flags. split; [done|]. apply SendSegment_state in H. cbn in H. rewrite H.
    by constructor.
  - destruct (has flags TCP_FIN) eqn:E1.
    + inv_result. right. exists flags. split; [done|]. cbn. by constructor.
    + destruct (_ >? 0); [|injection H as <-; left; exact Es].
      left. inv_result. unfold TCP_OnReceive in H. inv_result. cbn.
      match goal with E : SendSegment _ _ _ _ = Ok _ |- _ => apply SendSegment_state in E; cbn in E end.
      congruence.
  - destruct (has flags TCP_ACK) eqn:E1; injection H as <-; [|left; exact Es].
    right. exists flags. split; [done|]. cbn. by constructor.
  - destruct (has flags TCP_FIN) eqn:E1; [|injection H as <-; left; exact Es].
    inv_result. right. exists flags. split; [done|]. cbn. by constructor.
  - destruct (has flags TCP_ACK) eqn:E1; injection H as <-; [|left; exact Es].
    right. exists flags. split; [done|]. cbn. by constructor.
Qed.

(** The states the code uses. *)
Definition used_state (s : TCPState) : bool :=
  match s with
  | TCP_CLOSED | TCP_SYN_SENT | TCP_ESTABLISHED | TCP_FIN_WAIT_1 | TCP_FIN_WAIT_2 | TCP_LAST_ACK => true
  | _ => false
  end.

Lemma step_used h h' :
  tcp_step h h' -> used_state (t_state (tcp h)) = true -> used_state (t_state (tcp h')) = true.
Proof.
  intros Hst Hu. destruct Hst as [h ip port r h' H|h data size r h' H|h h' H|h payload size h' H].
  - unfold Connect in H. inv_result. apply SendSegment_state in E. cbn in E. by rewrite E.
  - unfold Send in H. destruct (negb _); inv_result; [done|].
    apply SendSegment_state in E. by rewrite E.
  - unfold Close in H. destruct (bool_decide _); [|by inv_result].
    apply SendSegment_state in H. cbn in H. by rewrite H.
  - apply receive_edge in H as [-> |(flags & _ & He)]; [done|]. by destruct He.
Qed.

(** C21: The TCP state machine.  A handled segment moves the socket only along the
    edges the flags of the segment allow, in particular to ESTABLISHED only from
    SYN_SENT by a segment with SYN and ACK; and in every run of the socket from
    the constructor the states LISTEN, SYN_RECEIVED, CLOSE_WAIT and TIME_WAIT are
    never reached. *)
Theorem tcp_state_machine h0 h :
  t_state (tcp h0) = TCP_CLOSED -> rtc tcp_step h0 h ->
  used_state (t_state (tcp h)) = true /\
  forall payload size h', TCP_HandleIPv4Payload h payload size = Ok h' ->
    t_state (tcp h') = t_state (tcp h) \/
    exists flags, arr_get payload 13 = Ok flags /\
      segment_edge flags (t_state (tcp h)) (t_state (tcp h')).
Proof.
  intros H0 Hrun. split; [|intros; by apply receive_edge in H].
  assert (Hu : used_state (t_state (tcp h0)) = true) by (by rewrite H0).
  clear H0. induction Hrun as [h|h0 h1 h Hst _ IH]; [done|]. apply IH. by eapply step_used.
Qed.

Lemma tcp_state_machine_witness :
  exists h1, Connect (host_a TCP_CLOSED) ip_b 80 = Ok (true, h1) /\
    t_state (tcp h1) = TCP_SYN_SENT /\ used_state (t_state (tcp h1)) = true.
Proof.
  destruct (Connect (host_a TCP_CLOSED) ip_b 80) as [[r h1]|] eqn:E;
    [|vm_compute in E; discriminate E].
  assert (Er : r = true) by (vm_compute in E; injection E as <- _; reflexivity).
  exists h1. rewrite Er. split; [reflexivity|]. split; [vm_compute in E; injection E as _ <-; reflexivity|].
  apply (tcp_state_machine (host_a TCP_CLOSED) h1 eq_refl).
  eapply rtc_l; [exact (step_connect _ _ _ _ _ E) | apply rtc_refl].
Defined.

(** C40: An oversized send overflows the transmit buffer.  [Send] passes the
    caller's size to [SendSegment] unchecked: on an established connection, more
    than 1460 readable bytes are written past the end of [tx_buf]. *)
Theorem tcp_send_overflow h data size :
  host_wf h -> t_state (tcp h) = TCP_ESTABLISHED ->
  1460 < size <= Z.of_nat (length data) ->
  Send h data size = Err OutOfBounds.
Proof.
  intros Hwf Hs Hsz. destruct (hw_tcp_bufs h Hwf) as (_ & [Lt _] & _).
  unfold Send. rewrite bool_decide_true by done. cbn [negb]. unfold SendSegment.
  destruct (split_at (t_tx_buf (tcp h)) 20) as (b0 & r0 & E0 & L0); [lia|].
  assert (Lr0 : length r0 = 1460%nat) by (rewrite E0, length_app in Lt; lia).
  rewrite E0, (put_bytes_app [] b0 r0) by (done || (rewrite L0; done)). cbn [mbind result_bind app].
  set (hd := tcp_header _ _ _ _ _ _).
  assert (Ec : copy_loop (hd ++ r0) 20 data size = Err OutOfBounds); [|by rewrite Ec].
  apply copy_overflow; [lia | lia | |]; rewrite length_app, Lr0;
    change (length hd) with 20%nat; lia.
Qed.

Lemma tcp_send_overflow_witness :
  Send (host_a TCP_ESTABLISHED) (replicate 1500 7) 1461 = Err OutOfBounds.
Proof.
  apply (tcp_send_overflow (host_a TCP_ESTABLISHED) (replicate 1500 7) 1461 (host_a_wf _) eq_refl).
  rewrite length_replicate. lia.
Defined.

End Tcp.
