(* ===== verification/NetReceive.v ===== *)
(** The receive path: src/src/drivers/rtl8139.cpp ([HandleReceive]),
    src/src/net/ethernet.cpp and ipv4.cpp ([HandleEthernetPayload]).

    A frame in the card's buffer goes through the registered handlers of the
    Ethernet driver and of the IPv4 layer.  The theorems are end to end: what one
    host sends, another that handles the frame delivers. *)

From stdpp Require Import base numbers list.
From Stdlib Require Import ZArith Lia.
From S2P Require Import Prelude Net NetStack Tcp.

Module Receive.
Import Net Stack Tcp.

(** ** The code *)

(** The classes that implement [EthernetPayloadHandler] and [IPv4PayloadHandler]. *)
Inductive eth_handler := HARP | HIPv4.
Inductive ip_handler := HICMP | HUDP | HTCP.

(** A host with its handler tables: the registered entries in order. *)
Record netdev := mkDev {
  hst : host;
  eth_handlers : list (Z * eth_handler);
  ip_handlers : list (Z * ip_handler);
}.

Definition with_host (d : netdev) (h : host) : netdev := mkDev h (eth_handlers d) (ip_handlers d).

(** [EthernetDriver::RegisterHandler] and [IPv4Handler::RegisterHandler] *)
Definition Eth_RegisterHandler (d : netdev) (ethertype : Z) (x : eth_handler) : netdev :=
  if Z.of_nat (length (eth_handlers d)) <? 8
  then mkDev (hst d) (eth_handlers d ++ [(ethertype, x)]) (ip_handlers d) else d.
Definition IPv4_RegisterHandler (d : netdev) (protocol : Z) (x : ip_handler) : netdev :=
  if Z.of_nat (length (ip_handlers d)) <? 4
  then mkDev (hst d) (eth_handlers d) (ip_handlers d ++ [(protocol, x)]) else d.

Definition HandleIPv4Payload (x : ip_handler) (h : host) (payload : list Z) (size : Z)
    (src : list Z) : result host :=
  match x with
  | HICMP => ICMP_HandleIPv4Payload h payload size src
  | HUDP => UDP_HandleIPv4Payload h payload size
  | HTCP => TCP_HandleIPv4Payload h payload size
  end.

Definition IPv4_HandleEthernetPayload (d : netdev) (payload : list Z) (size : Z) : result netdev :=
  if size <? 20 then Ok d
  else
    version_ihl ← arr_get payload 0;
    if negb (Z.shiftr version_ihl 4 =? 4) then Ok d
    else
      dst ← get_bytes payload 16 4;
      if negb (bytes_eqb dst (local_ip (hst d))) then Ok d
      else
        c ← InternetChecksum payload 20;
        if negb (c =? 0) then Ok d
        else
          total_length ← get16 payload 2;
          protocol ← arr_get payload 9;
          src ← get_bytes payload 12 4;
          let payload_size := u32 (ntohs total_length - 20) in
          h ← fold_result (fun e h =>
                if e.1 =? protocol
                then HandleIPv4Payload e.2 h (drop 20 payload) payload_size src
                else Ok h) (ip_handlers d) (hst d);
          Ok (with_host d h).

Definition HandleEthernetPayload (x : eth_handler) (d : netdev) (payload : list Z) (size : Z)
    : result netdev :=
  match x with
  | HARP => h ← ARP_HandleEthernetPayload (hst d) payload size; Ok (with_host d h)
  | HIPv4 => IPv4_HandleEthernetPayload d payload size
  end.

Definition Dispatch (d : netdev) (frame_data : list Z) (size : Z) : result netdev :=
  if size <? 14 then Ok d
  else
    ethertype ← get16 frame_data 12;
    let et := ntohs ethertype in
    let payload_size := size - 14 in
    fold_result (fun e d =>
      if e.1 =? et then HandleEthernetPayload e.2 d (drop 14 frame_data) payload_size
      else Ok d) (eth_handlers d) d.

(** The card's ring: its buffer, the driver's read pointer and the last value
    written to CAPR. *)
Record ring := mkRing { rx_buffer : list Z; rx_read_ptr : Z; capr : Z }.

(** [HandleReceive]; the card reports a frame [pending] times. *)
Fixpoint HandleReceive (pending : nat) (r : ring) (d : netdev) : result (ring * netdev) :=
  match pending with
  | O => Ok (r, d)
  | S pending =>
      let entry := drop (Z.to_nat (rx_read_ptr r mod 8192)) (rx_buffer r) in
      status ← get16 entry 0;
      length ← get16 entry 2;
      d ← (if negb (Z.land status 0x01 =? 0) then Dispatch d (drop 4 entry) (u32 (length - 4))
           else Ok d);
      let ptr := Z.land (u32 (rx_read_ptr r + length + 4 + 3)) (not32 3) in
      HandleReceive pending (mkRing (rx_buffer r) ptr (u16 (u32 (ptr - 16) mod 8192))) d
  end.

(** [RTL8139Driver::HandleInterrupt]; [status] is what the card's ISR reads. *)
Definition HandleInterrupt (status : Z) (pending : nat) (r : ring) (d : netdev)
    : result (ring * netdev) :=
  if negb (Z.land status 0x01 =? 0) then HandleReceive pending r d else Ok (r, d).

(** The tables the kernel registers. *)
Definition register_all (h : host) : netdev :=
  let d := mkDev h [] [] in
  let d := Eth_RegisterHandler d ETHERTYPE_ARP HARP in
  let d := Eth_RegisterHandler d ETHERTYPE_IPV4 HIPv4 in
  let d := IPv4_RegisterHandler d IPV4_PROTO_ICMP HICMP in
  let d := IPv4_RegisterHandler d IPV4_PROTO_UDP HUDP in
  IPv4_RegisterHandler d IPV4_PROTO_TCP HTCP.

(** ** Reading headers *)

Lemma frame_ethertype dst src et data frame rest :
  bytes_of 6 dst -> bytes_of 6 src -> is_u16 et -> frame_of dst src et data frame ->
  get16 (frame ++ rest) 12 = Ok (htons et) /\
  exists pad, drop 14 (frame ++ rest) = data ++ pad ++ rest.
Proof.
  intros [Ld _] [Ls _] Het [(pad & ->) _ _].
  do 7 (destruct dst as [|? dst]; [try discriminate Ld|]); [|discriminate Ld].
  do 7 (destruct src as [|? src]; [try discriminate Ls|]); [|discriminate Ls].
  split.
  - apply get16_le16; [apply htons_u16 | | lia]. cbn. rewrite le16_htons by done. done.
  - exists pad. cbn. by rewrite <- app_assoc.
Qed.

(** A received header that was built by [IPv4_Send]. *)
Lemma read_header h dst_ip protocol size rest :
  host_wf h -> bytes_of 4 dst_ip -> is_u8 protocol -> 0 <= size -> 20 + size < 2 ^ 16 ->
  let p := sent_header h dst_ip protocol size ++ rest in
  is_bytes rest ->
  arr_get p 0 = Ok 0x45 /\ get_bytes p 16 4 = Ok dst_ip /\ InternetChecksum p 20 = Ok 0 /\
  get16 p 2 = Ok (htons (20 + size)) /\ arr_get p 9 = Ok protocol /\
  get_bytes p 12 4 = Ok (local_ip h) /\ drop 20 p = rest.
Proof.
  intros Hwf Hd Hp Hs Hmax p Hr. pose proof (hw_ip h Hwf) as Hip.
  assert (Hck : InternetChecksum p 20 = Ok 0).
  { assert (Lh : length (sent_header h dst_ip protocol size) = 20%nat)
      by (by apply sent_header_len).
    unfold p. rewrite InternetChecksum_val; [| |rewrite length_app, Lh; lia|lia].
    - rewrite take_app_le, take_ge by (rewrite Lh; lia).
      unfold sent_header. by rewrite header_checksum.
    - apply is_bytes_app. split; [|done]. by apply sent_header_bytes. }
  destruct Hip as [Li _], Hd as [Ld _]. unfold p, sent_header, ipv4_header in *.
  set (c := csum _) in *. clearbody c.
  set (ip := local_ip h) in *. clearbody ip.
  do 5 (destruct dst_ip as [|? dst_ip]; [try discriminate Ld|]); [|discriminate Ld].
  do 5 (destruct ip as [|? ip]; [try discriminate Li|]); [|discriminate Li].
  split; [reflexivity|].
  split; [etransitivity; [refine (get_bytes_nat _ 16%nat 4%nat _); cbn; lia | reflexivity]|]. split; [exact Hck|].
  split; [apply get16_le16; [apply htons_u16 | reflexivity | lia]|]. split; [reflexivity|].
  split; [etransitivity; [refine (get_bytes_nat _ 12%nat 4%nat _); cbn; lia | reflexivity] | reflexivity].
Qed.

(** ** From the wire to the protocol handler *)

(** A frame one host sent, received in memory followed by [rest], reaches the
    handler of its protocol on the host it is addressed to. *)
Lemma frame_reaches_handler a b m protocol size data frame rest x :
  host_wf a -> host_wf b -> bytes_of 6 m -> is_u8 protocol -> is_bytes data -> is_bytes rest ->
  Z.of_nat (length data) = size -> size <= 1480 ->
  frame_of m (mac a) ETHERTYPE_IPV4 (sent_header a (local_ip b) protocol size ++ data) frame ->
  (forall h, fold_result (fun e h => if e.1 =? protocol
      then HandleIPv4Payload e.2 h (data ++ drop (34 + length data) (frame ++ rest)) size (local_ip a)
      else Ok h) [(IPV4_PROTO_ICMP, HICMP); (IPV4_PROTO_UDP, HUDP); (IPV4_PROTO_TCP, HTCP)] h =
    HandleIPv4Payload x h (data ++ drop (34 + length data) (frame ++ rest)) size (local_ip a)) ->
  Dispatch (register_all b) (frame ++ rest) (Z.of_nat (length frame)) =
  (h ← HandleIPv4Payload x b (data ++ drop (34 + length data) (frame ++ rest)) size (local_ip a);
   Ok (with_host (register_all b) h)).
Proof.
  intros Ha Hb Hm Hp Hd Hrest Hl Hmax Hf Hx.
  destruct (frame_ethertype m (mac a) ETHERTYPE_IPV4 _ frame rest Hm (hw_mac a Ha) ltac:(u32_lit) Hf)
    as (Het & pad & Edrop).
  assert (Hpb : is_bytes (pad ++ rest)).
  { pose proof (fr_bytes _ _ _ _ _ Hf) as Hfb.
    assert (is_bytes (drop 14 (frame ++ rest))) as Hdb
      by (apply Forall_drop, is_bytes_app; done).
    rewrite Edrop, is_bytes_app in Hdb. tauto. }
  assert (Lsh : length (sent_header a (local_ip b) protocol size) = 20%nat)
    by (apply sent_header_len; [done | apply (hw_ip b Hb)]).
  assert (Epr : pad ++ rest = drop (34 + length data) (frame ++ rest)).
  { replace (34 + length data)%nat with (14 + (20 + length data))%nat by lia.
    rewrite <- drop_drop, Edrop. rewrite <- (app_assoc (sent_header _ _ _ _)).
    rewrite <- drop_drop, <- Lsh, drop_app_length. by rewrite drop_app_length. }
  destruct (read_header a (local_ip b) protocol size (data ++ pad ++ rest) Ha (hw_ip b Hb) Hp)
    as (R0 & R16 & Rc & R2 & R9 & R12 & Rd);
    [lia | zify_words; lia | apply is_bytes_app; done |].
  pose proof (fr_len _ _ _ _ _ Hf) as Hlen. rewrite length_app, Lsh in Hlen.
  unfold Dispatch. destruct (Z.ltb_spec (Z.of_nat (length frame)) 14); [lia|].
  rewrite Het. cbn [mbind result_bind]. unfold ntohs. rewrite htons_htons by u32_lit.
  rewrite Edrop, <- app_assoc.
  change (eth_handlers (register_all b)) with [(ETHERTYPE_ARP, HARP); (ETHERTYPE_IPV4, HIPv4)].
  cbn [fold_result fst snd]. change (ETHERTYPE_ARP =? ETHERTYPE_IPV4) with false. cbn iota.
  rewrite result_bind_Ok. rewrite Z.eqb_refl. cbn [HandleEthernetPayload].
  assert (Eid : forall r : result netdev, (s' ← r; Ok s') = r) by (by intros []).
  rewrite Eid. unfold IPv4_HandleEthernetPayload.
  destruct (Z.ltb_spec (Z.of_nat (length frame) - 14) 20); [lia|].
  rewrite R0. cbn [mbind result_bind]. change (negb (Z.shiftr 69 4 =? 4)) with false. cbn iota.
  rewrite R16. cbn [mbind result_bind]. change (hst (register_all b)) with b.
  rewrite (proj2 (bytes_eqb_eq _ _) eq_refl). cbn [negb].
  rewrite Rc. cbn [mbind result_bind Z.eqb negb]. rewrite R2. cbn [mbind result_bind].
  rewrite R9. cbn [mbind result_bind]. rewrite R12. cbn [mbind result_bind]. rewrite Rd.
  rewrite htons_htons by (zify_words; lia).
  replace (u32 (20 + size - 20)) with size by (rewrite u32_small; zify_words; lia).
  change (ip_handlers (register_all b)) with
    [(IPV4_PROTO_ICMP, HICMP); (IPV4_PROTO_UDP, HUDP); (IPV4_PROTO_TCP, HTCP)].
  rewrite Epr, Hx. done.
Qed.

(** *** UDP *)

Lemma UDP_Send_acts a dst_ip dport sport data size m :
  host_wf a -> bytes_of 4 dst_ip -> is_bytes data -> 0 <= size <= Z.of_nat (length data) ->
  size <= 1464 -> Resolve a dst_ip = Some m ->
  exists a' frame, UDP_Send a dst_ip dport sport data size = Ok (true, a') /\ host_wf a' /\
    wire a' = wire a ++ [frame] /\
    frame_of m (mac a) ETHERTYPE_IPV4 (sent_header a dst_ip IPV4_PROTO_UDP (8 + size) ++
      ((le16 (htons sport) ++ le16 (htons dport) ++ le16 (htons (8 + size)) ++ le16 0) ++
       take (Z.to_nat size) data)) frame.
Proof.
  intros Ha Hd Hb Hs Hmax Hr. unfold UDP_Send.
  destruct (Z.gtb_spec size (1472 - 8)); [lia|].
  destruct (hw_udp_tx a Ha) as [Lt Bt]. rewrite (u16_small (8 + size)) by (zify_words; lia).
  set (hd := le16 (htons sport) ++ le16 (htons dport) ++ le16 (htons (8 + size)) ++ le16 0).
  assert (Bhd : is_bytes hd) by (unfold hd; rewrite !is_bytes_app; auto using le16_bytes).
  destruct (split_at (udp_tx a) 8) as (b0 & r0 & E0 & L0); [lia|].
  assert (Lr0 : length r0 = 1464%nat) by (rewrite E0, length_app in Lt; lia).
  destruct (split_at r0 (Z.to_nat size)) as (b1 & r1 & E1 & L1); [lia|].
  rewrite E0, (put_bytes_app [] b0 r0) by (done || (rewrite L0; done)). cbn [mbind result_bind app].
  rewrite E1, (copy_loop_app hd b1 r1 data size) by (lia || done). cbn [mbind result_bind].
  set (tx := hd ++ take (Z.to_nat size) data ++ r1).
  assert (Btx : is_bytes tx).
  { unfold tx. rewrite !is_bytes_app. split; [done|]. split; [by apply Forall_take|].
    rewrite E0, E1, !is_bytes_app in Bt. tauto. }
  assert (Ltx : length tx = 1472%nat).
  { unfold tx. rewrite !length_app, length_take. change (length hd) with 8%nat.
    rewrite E1, length_app in Lr0. lia. }
  assert (Ha1 : host_wf (set_udp_tx a tx)) by (destruct Ha; split; done).
  destruct (IPv4_Send_acts (set_udp_tx a tx) dst_ip IPV4_PROTO_UDP tx (8 + size) m)
    as (a' & frame & HE & Hwf' & Hw & Hf & _); [done | done | u32_lit | done | lia | lia | done |].
  exists a', frame. split; [done|]. split; [done|]. split; [done|].
  replace (hd ++ take (Z.to_nat size) data) with (take (Z.to_nat (8 + size)) tx); [exact Hf|].
  unfold tx. rewrite app_assoc, take_app_le, take_ge; [done | |];
    rewrite length_app, length_take; change (length hd) with 8%nat; lia.
Qed.

(** The handler of a datagram for this port. *)
Lemma UDP_receive_acts b sport size data rest :
  host_wf b -> is_bytes data -> Z.of_nat (length data) = size -> size <= 1464 ->
  exists b', UDP_HandleIPv4Payload b
      (((le16 (htons sport) ++ le16 (htons (udp_port b)) ++ le16 (htons (8 + size)) ++ le16 0) ++
        data) ++ rest) (8 + size) = Ok b' /\
    rx_ready (udp_rx b') = true /\ rx_len (udp_rx b') = size /\
    take (Z.to_nat size) (rx_buf (udp_rx b')) = data.
Proof.
  intros Hb Hd Hl Hmax. unfold UDP_HandleIPv4Payload.
  destruct (Z.ltb_spec (8 + size) 8); [lia|].
  rewrite (get16_le16 _ 2 (htons (udp_port b))); [|apply htons_u16 | reflexivity | lia].
  cbn [mbind result_bind]. unfold ntohs. rewrite htons_htons, Z.eqb_refl by (apply (hw_udp_port b Hb)).
  cbn [negb]. rewrite (get16_le16 _ 4 (htons (8 + size))); [|apply htons_u16 | reflexivity | lia].
  cbn [mbind result_bind]. rewrite htons_htons by (zify_words; lia).
  replace (u32 (8 + size - 8)) with size by (rewrite u32_small; zify_words; lia).
  unfold UDP_OnReceive. destruct (Z.gtb_spec size 2048); [lia|].
  destruct (hw_udp_rx b Hb) as [Lr _].
  change (drop 8 (((le16 (htons sport) ++ le16 (htons (udp_port b)) ++ le16 (htons (8 + size)) ++
    le16 0) ++ data) ++ rest)) with (data ++ rest).
  rewrite copy_whole by (rewrite ?length_app; lia). cbn [mbind result_bind].
  eexists. split; [reflexivity|]. cbn. split; [done|]. split; [done|].
  rewrite take_app_le by (rewrite length_take, length_app; lia).
  rewrite take_take, Nat.min_id, take_app_le, take_ge by lia. done.
Qed.

(** C19: A UDP datagram arrives.  When [a], with the hardware address of [b]
    resolved, sends at most 1464 bytes to the port of [b], one frame goes out; [b],
    which has the kernel's handlers registered, handles this frame, followed in
    its receive buffer by anything, and its socket holds exactly these bytes. *)
Theorem udp_datagram_delivered a b m sport data size rest :
  host_wf a -> host_wf b -> is_bytes data -> is_bytes rest ->
  0 <= size <= Z.of_nat (length data) -> size <= 1464 ->
  Resolve a (local_ip b) = Some m ->
  exists a' frame b', UDP_Send a (local_ip b) (udp_port b) sport data size = Ok (true, a') /\
    wire a' = wire a ++ [frame] /\
    Dispatch (register_all b) (frame ++ rest) (Z.of_nat (length frame)) =
      Ok (with_host (register_all b) b') /\
    rx_ready (udp_rx b') = true /\ rx_len (udp_rx b') = size /\
    take (Z.to_nat size) (rx_buf (udp_rx b')) = take (Z.to_nat size) data.
Proof.
  intros Ha Hb Hd Hrest Hs Hmax Hr. set (dat := take (Z.to_nat size) data).
  assert (Ldat : Z.of_nat (length dat) = size) by (unfold dat; rewrite length_take; lia).
  assert (Bdat : is_bytes dat) by (by apply Forall_take).
  destruct (UDP_Send_acts a (local_ip b) (udp_port b) sport data size m)
    as (a' & frame & HS & _ & Hw & Hf); [done | apply (hw_ip b Hb) | done..|]. fold dat in Hf.
  set (hd := le16 (htons sport) ++ le16 (htons (udp_port b)) ++ le16 (htons (8 + size)) ++ le16 0) in *.
  destruct (UDP_receive_acts b sport size dat (drop (34 + length (hd ++ dat)) (frame ++ rest)) Hb Bdat Ldat Hmax)
    as (b' & HU & Hrest').
  exists a', frame, b'. split; [done|]. split; [done|]. split; [|done].
  assert (Hm : bytes_of 6 m) by (eapply CacheGet_wf; [apply (hw_cache a Ha) | exact Hr]).
  assert (Bp : is_bytes (hd ++ dat)).
  { apply is_bytes_app. split; [unfold hd; rewrite !is_bytes_app; auto using le16_bytes | done]. }
  assert (Lp : Z.of_nat (length (hd ++ dat)) = 8 + size)
    by (rewrite length_app; change (length hd) with 8%nat; lia).
  rewrite (frame_reaches_handler a b m IPV4_PROTO_UDP (8 + size) (hd ++ dat) frame rest HUDP
    Ha Hb Hm ltac:(u32_lit) Bp Hrest Lp ltac:(lia) Hf).
  - cbn [HandleIPv4Payload]. fold hd in HU. rewrite HU. done.
  - intros h. cbn [fold_result fst snd].
    change (IPV4_PROTO_ICMP =? IPV4_PROTO_UDP) with false.
    change (IPV4_PROTO_UDP =? IPV4_PROTO_UDP) with true.
    change (IPV4_PROTO_TCP =? IPV4_PROTO_UDP) with false. cbn iota.
    rewrite result_bind_Ok. by destruct (HandleIPv4Payload HUDP _ _ _ _).
Qed.

Lemma udp_datagram_delivered_witness :
  exists a' frame b', UDP_Send (host_a TCP_CLOSED) ip_b 1234 99 [104; 105; 33] 3 = Ok (true, a') /\
    wire a' = [frame] /\
    Dispatch (register_all (host_b TCP_CLOSED)) (frame ++ [7; 7]) (Z.of_nat (length frame)) =
      Ok (with_host (register_all (host_b TCP_CLOSED)) b') /\
    take 3 (rx_buf (udp_rx b')) = [104; 105; 33].
Proof.
  destruct (udp_datagram_delivered (host_a TCP_CLOSED) (host_b TCP_CLOSED) mac_b 99 [104; 105; 33] 3 [7; 7]
    (host_a_wf _) (host_b_wf _)
    ltac:(repeat (apply Forall_cons; split; [u32_lit|]); apply Forall_nil; exact I)
    ltac:(repeat (apply Forall_cons; split; [u32_lit|]); apply Forall_nil; exact I)
    ltac:(cbn; lia) ltac:(lia) eq_refl) as (a' & frame & b' & H1 & H2 & H3 & _ & _ & H4).
  exists a', frame, b'. split; [exact H1|]. split; [exact H2|]. split; [exact H3 | exact H4].
Defined.

(** *** ICMP echo *)

(** An echo message of eight bytes with a checksum that verifies. *)
Definition echo (type id seq : Z) : list Z :=
  let tail := le16 (htons id) ++ le16 (htons seq) in
  [type; 0] ++ le16 (csum ([type; 0] ++ 0 :: 0 :: tail)) ++ tail.

Lemma echo_bytes type id seq : is_u8 type -> is_bytes (echo type id seq).
Proof.
  intros Ht. unfold echo. cbv zeta. rewrite !is_bytes_app.
  assert (is_bytes [type; 0]).
  { apply Forall_cons; split; [done|]. apply Forall_cons; split; [u32_lit | by apply Forall_nil]. }
  auto using le16_bytes.
Qed.

Lemma echo_verifies type id seq : is_u8 type -> csum (echo type id seq) = 0.
Proof.
  intros Ht. unfold echo. cbv zeta. apply (csum_fill [type; 0]); [|rewrite is_bytes_app; auto using le16_bytes | done].
  apply Forall_cons; split; [done|]. apply Forall_cons; split; [u32_lit | by apply Forall_nil].
Qed.

(** Building an echo message at the start of a 64-byte buffer. *)
Lemma echo_built type id seq r :
  is_u8 type -> is_bytes r ->
  InternetChecksum (([type; 0] ++ le16 0 ++ le16 (htons id) ++ le16 (htons seq)) ++ r) 8 =
    Ok (csum ([type; 0] ++ 0 :: 0 :: le16 (htons id) ++ le16 (htons seq))) /\
  forall c, put_bytes (([type; 0] ++ le16 0 ++ le16 (htons id) ++ le16 (htons seq)) ++ r) 2 (le16 c) =
    Ok (([type; 0] ++ le16 c ++ le16 (htons id) ++ le16 (htons seq)) ++ r).
Proof.
  intros Ht Hr. split.
  - assert (Hb : is_bytes ([type; 0] ++ le16 0 ++ le16 (htons id) ++ le16 (htons seq))).
    { rewrite !is_bytes_app. split; [|auto using le16_bytes].
      apply Forall_cons; split; [done|]. apply Forall_cons; split; [u32_lit | by apply Forall_nil]. }
    rewrite InternetChecksum_val; [reflexivity | by apply is_bytes_app | | lia].
    rewrite length_app. cbn. lia.
  - intros c. rewrite <- !app_assoc. by apply (put_bytes_app [type; 0] (le16 0)).
Qed.

Lemma SendEchoRequest_acts a dst id seq m :
  host_wf a -> bytes_of 4 dst -> Resolve a dst = Some m ->
  exists a' frame, SendEchoRequest a dst id seq = Ok (true, a') /\ host_wf a' /\
    wire a' = wire a ++ [frame] /\
    frame_of m (mac a) ETHERTYPE_IPV4
      (sent_header a dst IPV4_PROTO_ICMP 8 ++ echo ICMP_ECHO_REQUEST id seq) frame.
Proof.
  intros Ha Hd Hr. unfold SendEchoRequest. destruct (hw_icmp_tx a Ha) as [Lt Bt].
  destruct (split_at (icmp_tx a) 8) as (b0 & r0 & E0 & L0); [lia|].
  assert (Br0 : is_bytes r0) by (rewrite E0, is_bytes_app in Bt; tauto).
  assert (Lr0 : length r0 = 56%nat) by (rewrite E0, length_app in Lt; lia).
  rewrite E0, (put_bytes_app [] b0 r0) by (done || (rewrite L0; done)). cbn [mbind result_bind].
  rewrite (app_nil_l (_ ++ r0)).
  destruct (echo_built ICMP_ECHO_REQUEST id seq r0 ltac:(u32_lit) Br0) as [-> Hput].
  cbn [mbind result_bind]. rewrite Hput. cbn [mbind result_bind].
  set (tx := _ ++ r0).
  assert (Btx : is_bytes tx).
  { apply is_bytes_app. split; [|done]. apply (echo_bytes ICMP_ECHO_REQUEST id seq). u32_lit. }
  assert (Ltx : length tx = 64%nat) by (unfold tx; rewrite length_app, Lr0; done).
  assert (Ha1 : host_wf (set_icmp_tx a tx)) by (destruct Ha; split; done).
  destruct (IPv4_Send_acts (set_icmp_tx a tx) dst IPV4_PROTO_ICMP tx 8 m)
    as (a' & frame & HE & Hwf' & Hw & Hf & _); [done | done | u32_lit | done | lia | lia | done |].
  exists a', frame. split; [done|]. split; [done|]. split; [done|]. exact Hf.
Qed.

(** Ping works.  When [a] sends an echo request to [b] and each knows the
    other's hardware address, [b] answers the frame with one frame to [a] that
    carries the echo reply with the same identifier and sequence number and a
    valid ICMP checksum, and the request's own checksum is valid too. *)
Theorem ping_answered a b ma mb id seq rest :
  host_wf a -> host_wf b -> is_bytes rest ->
  Resolve a (local_ip b) = Some mb -> Resolve b (local_ip a) = Some ma ->
  exists a' request b' reply, SendEchoRequest a (local_ip b) id seq = Ok (true, a') /\
    wire a' = wire a ++ [request] /\
    frame_of mb (mac a) ETHERTYPE_IPV4
      (sent_header a (local_ip b) IPV4_PROTO_ICMP 8 ++ echo ICMP_ECHO_REQUEST id seq) request /\
    Dispatch (register_all b) (request ++ rest) (Z.of_nat (length request)) =
      Ok (with_host (register_all b) b') /\
    wire b' = wire b ++ [reply] /\
    frame_of ma (mac b) ETHERTYPE_IPV4
      (sent_header b (local_ip a) IPV4_PROTO_ICMP 8 ++ echo ICMP_ECHO_REPLY id seq) reply /\
    csum (echo ICMP_ECHO_REQUEST id seq) = 0 /\ csum (echo ICMP_ECHO_REPLY id seq) = 0.
Proof.
  intros Ha Hb Hrest Hra Hrb.
  destruct (SendEchoRequest_acts a (local_ip b) id seq mb Ha (hw_ip b Hb) Hra)
    as (a' & req & HS & _ & Hw & Hf).
  set (e := echo ICMP_ECHO_REQUEST id seq) in *.
  assert (Be : is_bytes e) by (apply echo_bytes; u32_lit).
  set (mem := drop (34 + length e) (req ++ rest)).
  destruct (hw_icmp_tx b Hb) as [Lt Bt].
  destruct (split_at (icmp_tx b) 8) as (b0 & r0 & E0 & L0); [lia|].
  assert (Br0 : is_bytes r0) by (rewrite E0, is_bytes_app in Bt; tauto).
  assert (Lr0 : length r0 = 56%nat) by (rewrite E0, length_app in Lt; lia).
  set (tx := echo ICMP_ECHO_REPLY id seq ++ r0).
  assert (Btx : is_bytes tx) by (apply is_bytes_app; split; [apply echo_bytes; u32_lit | done]).
  assert (Ltx : length tx = 64%nat) by (unfold tx; rewrite length_app, Lr0; done).
  assert (Hb1 : host_wf (set_icmp_tx b tx)) by (destruct Hb; split; done).
  destruct (IPv4_Send_acts (set_icmp_tx b tx) (local_ip a) IPV4_PROTO_ICMP tx 8 ma)
    as (b' & reply & HE & _ & Hwb & Hfb & _);
    [done | apply (hw_ip a Ha) | u32_lit | done | lia | lia | done |].
  assert (HI : ICMP_HandleIPv4Payload b (e ++ mem) 8 (local_ip a) = Ok b').
  { unfold ICMP_HandleIPv4Payload. cbn [Z.ltb Z.compare Pos.compare Pos.compare_cont].
    change (arr_get (e ++ mem) 0) with (Ok 8 : result Z). cbn [mbind result_bind].
    change (negb (8 =? ICMP_ECHO_REQUEST)) with false. change (8 >? 64) with false. cbn iota.
    rewrite E0, (copy_loop_app [] b0 r0 (e ++ mem) 8)
      by (rewrite ?length_app, ?L0; change (length e) with 8%nat; (done || lia)).
    cbn [mbind result_bind]. rewrite app_nil_l.
    change (take (Z.to_nat 8) (e ++ mem)) with e.
    assert (Ee : e = firstn 4 e ++ le16 (htons id) ++ le16 (htons seq)) by reflexivity.
    rewrite Ee, <- !app_assoc.
    rewrite (put_bytes_app [] (firstn 4 e) (le16 (htons id) ++ le16 (htons seq) ++ r0)) by done. cbn [mbind result_bind]. rewrite app_nil_l.
    destruct (echo_built ICMP_ECHO_REPLY id seq r0 ltac:(u32_lit) Br0) as [Hc Hput].
    rewrite <- !app_assoc in Hc, Hput. rewrite <- !app_assoc. rewrite Hc. cbn [mbind result_bind].
    rewrite Hput. cbn [mbind result_bind].
    change (([ICMP_ECHO_REPLY; 0] ++ le16 (csum ([ICMP_ECHO_REPLY; 0] ++ 0 :: 0 ::
      le16 (htons id) ++ le16 (htons seq))) ++ le16 (htons id) ++ le16 (htons seq)) ++ r0) with tx.
    rewrite HE. done. }
  exists a', req, b', reply. split; [done|]. split; [done|]. split; [done|]. split.
  - assert (Hm : bytes_of 6 mb) by (eapply CacheGet_wf; [apply (hw_cache a Ha) | exact Hra]).
    rewrite (frame_reaches_handler a b mb IPV4_PROTO_ICMP 8 e req rest HICMP
      Ha Hb Hm ltac:(u32_lit) Be Hrest eq_refl ltac:(lia) Hf).
    + cbn [HandleIPv4Payload]. fold mem. rewrite HI. done.
    + intros h. cbn [fold_result fst snd].
      change (IPV4_PROTO_ICMP =? IPV4_PROTO_ICMP) with true.
      change (IPV4_PROTO_UDP =? IPV4_PROTO_ICMP) with false.
      change (IPV4_PROTO_TCP =? IPV4_PROTO_ICMP) with false. cbn iota.
      by destruct (HandleIPv4Payload HICMP _ _ _ _).
  - split; [exact Hwb|]. split; [exact Hfb|]. split; apply echo_verifies; u32_lit.
Qed.

Lemma ping_answered_witness :
  exists a' request b' reply, SendEchoRequest (host_a TCP_CLOSED) ip_b 7 1 = Ok (true, a') /\
    wire a' = [request] /\
    Dispatch (register_all (host_b TCP_CLOSED)) (request ++ []) (Z.of_nat (length request)) =
      Ok (with_host (register_all (host_b TCP_CLOSED)) b') /\ wire b' = [reply].
Proof.
  destruct (ping_answered (host_a TCP_CLOSED) (host_b TCP_CLOSED) mac_a mac_b 7 1 []
    (host_a_wf _) (host_b_wf _) (Forall_nil_2 _) eq_refl eq_refl)
    as (a' & req & b' & rep & H1 & H2 & _ & H3 & H4 & _).
  exists a', req, b', rep. split; [exact H1|]. split; [exact H2|]. split; [exact H3 | exact H4].
Defined.

(** *** ARP *)

Lemma read_arp op smac sip tmac tip rest :
  is_u16 op -> length smac = 6%nat -> length sip = 4%nat -> length tmac = 6%nat ->
  length tip = 4%nat ->
  let p := arp_packet op smac sip tmac tip ++ rest in
  get_bytes p 8 6 = Ok smac /\ get_bytes p 14 4 = Ok sip /\ get16 p 6 = Ok (htons op) /\
  get_bytes p 24 4 = Ok tip.
Proof.
  intros Hop L1 L2 L3 L4. cbv zeta.
  do 7 (destruct smac as [|? smac]; [try discriminate L1|]); [|discriminate L1].
  do 5 (destruct sip as [|? sip]; [try discriminate L2|]); [|discriminate L2].
  do 7 (destruct tmac as [|? tmac]; [try discriminate L3|]); [|discriminate L3].
  do 5 (destruct tip as [|? tip]; [try discriminate L4|]); [|discriminate L4].
  split; [etransitivity; [refine (get_bytes_nat _ 8%nat 6%nat _); cbn; lia | reflexivity]|].
  split; [etransitivity; [refine (get_bytes_nat _ 14%nat 4%nat _); cbn; lia | reflexivity]|].
  split; [apply get16_le16; [apply htons_u16 | reflexivity | lia]|].
  etransitivity; [refine (get_bytes_nat _ 24%nat 4%nat _); cbn; lia | reflexivity].
Qed.

Lemma arp_packet_bytes op smac sip tmac tip :
  bytes_of 6 smac -> bytes_of 4 sip -> bytes_of 6 tmac -> bytes_of 4 tip ->
  bytes_of 28 (arp_packet op smac sip tmac tip).
Proof.
  intros [L1 B1] [L2 B2] [L3 B3] [L4 B4]. unfold arp_packet. split.
  - rewrite !length_app, L1, L2, L3, L4. done.
  - rewrite !is_bytes_app. assert (is_bytes [6; 4]).
    { apply Forall_cons; split; [u32_lit|]. apply Forall_cons; split; [u32_lit | by apply Forall_nil]. }
    auto 10 using le16_bytes.
Qed.

(** A sent ARP packet reaches the ARP handler. *)
Lemma arp_frame_dispatch b dst src pkt frame rest :
  bytes_of 6 dst -> bytes_of 6 src -> length pkt = 28%nat ->
  frame_of dst src ETHERTYPE_ARP pkt frame ->
  exists pad, Dispatch (register_all b) (frame ++ rest) (Z.of_nat (length frame)) =
    (h ← ARP_HandleEthernetPayload b (pkt ++ pad) 46; Ok (with_host (register_all b) h)).
Proof.
  intros Hd Hs Hl Hf.
  destruct (frame_ethertype dst src ETHERTYPE_ARP pkt frame rest Hd Hs ltac:(u32_lit) Hf)
    as (Het & pad & Edrop).
  exists (pad ++ rest). unfold Dispatch. pose proof (fr_len _ _ _ _ _ Hf) as Hlen. rewrite Hl in Hlen.
  replace (Z.of_nat (length frame)) with 60 by lia. change (60 <? 14) with false. cbn iota.
  rewrite Het. cbn [mbind result_bind]. unfold ntohs. rewrite htons_htons by u32_lit. rewrite Edrop.
  change (eth_handlers (register_all b)) with [(ETHERTYPE_ARP, HARP); (ETHERTYPE_IPV4, HIPv4)].
  cbn [fold_result fst snd]. rewrite Z.eqb_refl.
  change (ETHERTYPE_IPV4 =? ETHERTYPE_ARP) with false. cbn iota.
  cbn [HandleEthernetPayload]. change (hst (register_all b)) with b. change (60 - 14) with 46.
  by destruct (ARP_HandleEthernetPayload b (pkt ++ pad ++ rest) 46).
Qed.

Lemma arp_handle_acts b op smac sip tmac tip pad :
  host_wf b -> is_u16 op -> bytes_of 6 smac -> bytes_of 4 sip -> bytes_of 6 tmac -> bytes_of 4 tip ->
  exists b', ARP_HandleEthernetPayload b (arp_packet op smac sip tmac tip ++ pad) 46 = Ok b' /\
    host_wf b' /\ mac b' = mac b /\ arp_ip b' = arp_ip b /\
    arp_cache b' = CacheSet (arp_cache b) sip smac /\
    if (op =? ARP_REQUEST) && bytes_eqb tip (arp_ip b)
    then exists frame, wire b' = wire b ++ [frame] /\
           frame_of smac (mac b) ETHERTYPE_ARP (arp_packet ARP_REPLY (mac b) (arp_ip b) smac sip) frame
    else wire b' = wire b.
Proof.
  intros Hb Hop Hsm Hsi Htm Hti. unfold ARP_HandleEthernetPayload.
  change (46 <? 28) with false. cbn iota.
  destruct (read_arp op smac sip tmac tip pad Hop (proj1 Hsm) (proj1 Hsi) (proj1 Htm) (proj1 Hti))
    as (-> & -> & Hg & ->).
  cbn [mbind result_bind]. rewrite Hg. cbn [mbind result_bind].
  unfold ntohs. rewrite htons_htons by done.
  set (b1 := set_arp_cache b (CacheSet (arp_cache b) sip smac)).
  assert (Hb1 : host_wf b1).
  { destruct Hb. split; try done. by apply CacheSet_wf. }
  change (arp_ip b1) with (arp_ip b).
  destruct ((op =? ARP_REQUEST) && bytes_eqb tip (arp_ip b)) eqn:E; [|by exists b1].
  unfold SendReply.
  pose proof (arp_packet_bytes ARP_REPLY (mac b1) (arp_ip b1) smac sip (hw_mac b1 Hb1)
    (hw_arp_ip b1 Hb1) Hsm Hsi) as [Lp Bp].
  destruct (EthSend_acts b1 smac ETHERTYPE_ARP (arp_packet ARP_REPLY (mac b1) (arp_ip b1) smac sip) 28)
    as (b2 & frame & HE & Hwf2 & Hw & Hf & txb & E2);
    [done | done | u32_lit | done | lia | lia |].
  rewrite HE. cbn [mbind result_bind]. exists b2. split; [done|]. split; [done|].
  split; [by rewrite E2|]. split; [by rewrite E2|]. split; [by rewrite E2|].
  exists frame. split; [exact Hw|]. rewrite take_ge in Hf by lia. exact Hf.
Qed.

(** Address resolution works.  A host [a] with room in its cache that asks for
    the address of [b] gets, after [b] has handled the broadcast and [a] the
    answer, the hardware address of [b] from [Resolve]; and [b], with room in its
    cache, has learnt that of [a]. *)
Theorem arp_resolves a b rest1 rest2 :
  host_wf a -> host_wf b ->
  existsb (fun e => negb (e_valid e)) (arp_cache a) = true ->
  existsb (fun e => negb (e_valid e)) (arp_cache b) = true ->
  exists a1 request b1 reply a2, SendRequest a (arp_ip b) = Ok a1 /\
    wire a1 = wire a ++ [request] /\
    Dispatch (register_all b) (request ++ rest1) (Z.of_nat (length request)) =
      Ok (with_host (register_all b) b1) /\
    wire b1 = wire b ++ [reply] /\ Resolve b1 (arp_ip a) = Some (mac a) /\
    Dispatch (register_all a1) (reply ++ rest2) (Z.of_nat (length reply)) =
      Ok (with_host (register_all a1) a2) /\
    Resolve a2 (arp_ip b) = Some (mac b) /\ wire a2 = wire a1.
Proof.
  intros Ha Hb Hfa Hfb.
  assert (Hz : bytes_of 6 (replicate 6 0)) by apply zeros_bytes.
  assert (Hbc : bytes_of 6 Broadcast).
  { split; [apply length_replicate|]. apply Forall_replicate. u32_lit. }
  pose proof (arp_packet_bytes ARP_REQUEST (mac a) (arp_ip a) (replicate 6 0) (arp_ip b)
    (hw_mac a Ha) (hw_arp_ip a Ha) Hz (hw_arp_ip b Hb)) as [Lq Bq].
  destruct (EthSend_acts a Broadcast ETHERTYPE_ARP
      (arp_packet ARP_REQUEST (mac a) (arp_ip a) (replicate 6 0) (arp_ip b)) 28)
    as (a1 & req & HE & Ha1 & Hw & Hf & txb & E1);
    [done | done | u32_lit | done | lia | lia |].
  rewrite take_ge in Hf by lia.
  destruct (arp_frame_dispatch b _ _ _ _ rest1 Hbc (hw_mac a Ha) Lq Hf) as (pad1 & HD1).
  destruct (arp_handle_acts b ARP_REQUEST (mac a) (arp_ip a) (replicate 6 0) (arp_ip b) pad1
    Hb ltac:(u32_lit) (hw_mac a Ha) (hw_arp_ip a Ha) Hz (hw_arp_ip b Hb))
    as (b1 & HH1 & Hb1 & _ & _ & Ec1 & Hrep).
  rewrite Z.eqb_refl, (proj2 (bytes_eqb_eq _ _) eq_refl) in Hrep. cbn [andb] in Hrep.
  destruct Hrep as (rep & Hwb & Hfr).
  pose proof (arp_packet_bytes ARP_REPLY (mac b) (arp_ip b) (mac a) (arp_ip a)
    (hw_mac b Hb) (hw_arp_ip b Hb) (hw_mac a Ha) (hw_arp_ip a Ha)) as [Lr Br].
  destruct (arp_frame_dispatch a1 _ _ _ _ rest2 (hw_mac a Ha) (hw_mac b Hb) Lr Hfr) as (pad2 & HD2).
  destruct (arp_handle_acts a1 ARP_REPLY (mac b) (arp_ip b) (mac a) (arp_ip a) pad2
    Ha1 ltac:(u32_lit) (hw_mac b Hb) (hw_arp_ip b Hb) (hw_mac a Ha) (hw_arp_ip a Ha))
    as (a2 & HH2 & _ & _ & _ & Ec2 & Hnorep).
  exists a1, req, b1, rep, a2.
  split; [unfold SendRequest; by rewrite HE|]. split; [done|].
  split; [by rewrite HD1, HH1|]. split; [done|]. split.
  { unfold Resolve. rewrite Ec1, CacheSet_get, Hfb, orb_true_r.
    by rewrite (proj2 (bytes_eqb_eq _ _) eq_refl). }
  split; [by rewrite HD2, HH2|]. split; [|exact Hnorep].
  unfold Resolve. rewrite Ec2, CacheSet_get.
  replace (arp_cache a1) with (arp_cache a) by (by rewrite E1).
  rewrite Hfa, orb_true_r, (proj2 (bytes_eqb_eq _ _) eq_refl). done.
Qed.

Lemma arp_resolves_witness :
  exists a1 request b1 reply a2, SendRequest (host_a TCP_CLOSED) ip_b = Ok a1 /\
    wire a1 = [request] /\
    Dispatch (register_all (host_b TCP_CLOSED)) (request ++ []) (Z.of_nat (length request)) =
      Ok (with_host (register_all (host_b TCP_CLOSED)) b1) /\
    wire b1 = [reply] /\ Resolve a2 ip_b = Some mac_b.
Proof.
  destruct (arp_resolves (host_a TCP_CLOSED) (host_b TCP_CLOSED) [] [] (host_a_wf _) (host_b_wf _)
    eq_refl eq_refl) as (a1 & req & b1 & rep & a2 & H1 & H2 & H3 & H4 & _ & _ & H5 & _).
  exists a1, req, b1, rep, a2. split; [exact H1|]. split; [exact H2|]. split; [exact H3|].
  split; [exact H4 | exact H5].
Defined.

(** *** Malformed lengths *)

(** A UDP length below the header size is not rejected.  A datagram for this
    port whose length field is below 8 makes the payload size wrap around, and the
    socket takes 2048 bytes, whatever the size of the packet. *)
Theorem udp_short_length_overreads b payload size len :
  host_wf b -> 8 <= size ->
  get16 payload 2 = Ok (htons (udp_port b)) -> get16 payload 4 = Ok (htons len) -> 0 <= len < 8 ->
  2056 <= Z.of_nat (length payload) ->
  exists b', UDP_HandleIPv4Payload b payload size = Ok b' /\
    rx_len (udp_rx b') = 2048 /\ rx_buf (udp_rx b') = take (Z.to_nat 2048) (drop 8 payload).
Proof.
  intros Hb Hs Hp Hl Hlen Hbig. unfold UDP_HandleIPv4Payload.
  destruct (Z.ltb_spec size 8); [lia|]. rewrite Hp. cbn [mbind result_bind].
  unfold ntohs. rewrite htons_htons, Z.eqb_refl by (apply (hw_udp_port b Hb)). cbn [negb].
  rewrite Hl. cbn [mbind result_bind]. rewrite htons_htons by (zify_words; lia).
  unfold UDP_OnReceive.
  assert (E : u32 (len - 8) = len - 8 + 2 ^ 32).
  { unfold u32. replace (len - 8) with (len - 8 + 2 ^ 32 + (-1) * 2 ^ 32) at 1 by lia.
    rewrite Z.mod_add, Z.mod_small by (zify_words; lia). done. }
  rewrite E. destruct (Z.gtb_spec (len - 8 + 2 ^ 32) 2048); [|zify_words; lia].
  destruct (hw_udp_rx b Hb) as [Lr _].
  rewrite copy_whole by (rewrite ?length_drop; lia). cbn [mbind result_bind].
  eexists. split; [reflexivity|]. split; [done|]. cbn.
  rewrite (drop_ge (rx_buf (udp_rx b))) by lia. apply app_nil_r.
Qed.

Lemma udp_short_length_overreads_witness :
  exists b', UDP_HandleIPv4Payload (host_b TCP_CLOSED)
      (le16 (htons 99) ++ le16 (htons 1234) ++ le16 (htons 7) ++ le16 0 ++ replicate 2048 5) 8 = Ok b' /\
    rx_len (udp_rx b') = 2048.
Proof.
  destruct (udp_short_length_overreads (host_b TCP_CLOSED)
    (le16 (htons 99) ++ le16 (htons 1234) ++ le16 (htons 7) ++ le16 0 ++ replicate 2048 5) 8 7
    (host_b_wf _) ltac:(lia) eq_refl eq_refl ltac:(lia)
    ltac:(rewrite !length_app, length_replicate; cbn; lia)) as (b' & H1 & H2 & _).
  exists b'. split; [exact H1 | exact H2].
Defined.

End Receive.
