(* ===== verification/NetSafety.v ===== *)
(** Safety of the network stack: src/src/net and the receive path of
    src/src/drivers/rtl8139.cpp against arbitrary input.

    The handlers are run on frames whose bytes are arbitrary.  The theorems say when no
    access leaves a buffer, that the state stays well formed, and which lengths of a
    packet the code trusts. *)

From stdpp Require Import base numbers list.
From Stdlib Require Import ZArith Lia.
From S2P Require Import Prelude Net NetStack Tcp NetReceive.

Module NetSafety.
Import Net Stack Tcp Receive.

(** ** Buffers keep their size *)

Lemma byte_at l i : is_bytes l -> 0 <= i < Z.of_nat (length l) -> returns (arr_get l i) is_u8.
Proof.
  intros Hb Hi. destruct (arr_get_in_range l i Hi) as [x Ex]. exists x. split; [done|].
  apply arr_get_Ok in Ex as [_ Ex]. by apply (Forall_lookup_1 _ _ _ _ Hb Ex).
Qed.

Lemma half_at l i : is_bytes l -> 0 <= i -> i + 2 <= Z.of_nat (length l) -> returns (get16 l i) is_u16.
Proof.
  intros Hb Hi Hl. unfold get16. step_with byte_at; [done | lia |]. intros a Ha.
  step_with byte_at; [done | lia |]. intros b Hc. apply returns_Ok. zify_words. lia.
Qed.

Lemma word_at l i : is_bytes l -> 0 <= i -> i + 4 <= Z.of_nat (length l) -> returns (get32 l i) is_u32.
Proof.
  intros Hb Hi Hl. unfold get32. step_with half_at; [done | lia | lia |]. intros a Ha.
  step_with half_at; [done | lia | lia |]. intros b Hc. apply returns_Ok. zify_words. lia.
Qed.

Lemma field_at l o n :
  is_bytes l -> 0 <= o -> 0 <= n -> o + n <= Z.of_nat (length l) ->
  returns (get_bytes l o n) (bytes_of (Z.to_nat n)).
Proof.
  intros Hb Ho Hn Hl. exists (take (Z.to_nat n) (drop (Z.to_nat o) l)). split.
  - rewrite <- (Z2Nat.id o), <- (Z2Nat.id n) at 1 by done. rewrite get_bytes_nat by lia. done.
  - split; [rewrite length_take, length_drop; lia | by apply Forall_take, Forall_drop].
Qed.

Lemma stored_bytes n l o xs :
  bytes_of n l -> is_bytes xs -> 0 <= o -> o + Z.of_nat (length xs) <= Z.of_nat n ->
  returns (put_bytes l o xs) (bytes_of n).
Proof.
  intros [Hl Hb] Hx Ho Hn. rewrite put_bytes_ok by lia. apply returns_Ok. split.
  - rewrite !length_app, length_take, length_drop. lia.
  - rewrite !is_bytes_app. repeat split; [by apply Forall_take | done | by apply Forall_drop].
Qed.

Lemma copied_bytes n dst off src k :
  bytes_of n dst -> is_bytes src -> 0 <= k <= Z.of_nat (length src) -> 0 <= off -> off + k <= Z.of_nat n ->
  returns (copy_loop dst off src k) (bytes_of n).
Proof.
  intros [Hl Hb] Hs Hk Ho Hn. rewrite copy_loop_ok by lia. apply returns_Ok. split.
  - rewrite !length_app, !length_take, length_drop. lia.
  - rewrite !is_bytes_app. repeat split; [by apply Forall_take | by apply Forall_take | by apply Forall_drop].
Qed.

Lemma checksum_returns l n :
  is_bytes l -> 0 <= n <= Z.of_nat (length l) -> n <= 65536 -> returns (InternetChecksum l n) is_u16.
Proof. intros. rewrite InternetChecksum_val by done. apply returns_Ok, csum_u16. Qed.

(** ** The configuration never changes *)

(** The addresses and ports of a host. *)
Definition config (h : host) := (mac h, arp_ip h, local_ip h, udp_port h, t_local_port (tcp h)).

Definition kept (h h' : host) : Prop := host_wf h' /\ config h' = config h.

#[export] Instance kept_trans : Transitive kept.
Proof. intros a b c [_ E1] [W E2]. split; [done | congruence]. Qed.

Lemma kept_refl h : host_wf h -> kept h h.
Proof. done. Qed.

Lemma EthSend_kept h dst et payload size :
  host_wf h -> bytes_of 6 dst -> is_u16 et -> is_bytes payload ->
  0 <= size <= Z.of_nat (length payload) -> size <= 1522 ->
  returns (EthSend h dst et payload size) (fun r => kept h r.2).
Proof.
  intros. destruct (EthSend_acts h dst et payload size) as (h' & frame & -> & Hwf & _ & _ & txb & E); [done..|].
  apply returns_Ok. split; [done|]. by rewrite E.
Qed.

Lemma IPv4_Send_kept h dst_ip protocol payload size :
  host_wf h -> bytes_of 4 dst_ip -> is_u8 protocol -> is_bytes payload ->
  0 <= size <= Z.of_nat (length payload) -> size <= 1480 ->
  returns (IPv4_Send h dst_ip protocol payload size) (fun r => kept h r.2).
Proof.
  intros. destruct (Resolve h dst_ip) as [m|] eqn:Er.
  - destruct (IPv4_Send_acts h dst_ip protocol payload size m)
      as (h' & frame & -> & Hwf & _ & _ & txb & cur & tx & E); [done..|].
    apply returns_Ok. split; [done|]. by rewrite E.
  - unfold IPv4_Send. rewrite Er. by apply returns_Ok.
Qed.

(** A host with another connection state. *)
Lemma set_tcp_kept h t :
  host_wf h -> t_local_port t = t_local_port (tcp h) -> is_u16 (t_remote_port t) -> bytes_of 4 (t_remote_ip t) ->
  is_u32 (t_seq t) -> is_u32 (t_ack t) -> bytes_of (Z.to_nat 8192) (t_rx_buf t) ->
  bytes_of 1480 (t_tx_buf t) -> bytes_of 1500 (t_scratch t) -> kept h (set_tcp h t).
Proof.
  intros Hwf Hp Hr Hip Hs Ha Hb1 Hb2 Hb3. split; [|unfold config; cbn; by rewrite Hp].
  destruct Hwf as [? ? ? ? ? ? ? ? ? ? ? ? ? P1 P2 P3 P4]. split; try done; cbn.
  rewrite Hp. split; [apply P1 | done].
Qed.
(** The fields of a connection of a well-formed host, changed where the code changes them. *)
Ltac tcp_fields Hwf :=
  let P := fresh in let Q := fresh in let R := fresh in
  pose proof (hw_tcp_ports _ Hwf) as P; pose proof (hw_tcp_seq _ Hwf) as Q;
  pose proof (hw_tcp_bufs _ Hwf) as R; pose proof (hw_tcp_ip _ Hwf);
  destruct P, Q, R as (? & ? & ?); apply set_tcp_kept; cbn; auto using u32_bounds, htonl_u32.

Lemma SendSegment_kept h flags data size :
  host_wf h -> is_u8 flags -> is_bytes data -> 0 <= size <= Z.of_nat (length data) -> size <= 1460 ->
  returns (SendSegment h flags data size) (kept h).
Proof.
  intros Hwf Hf Hd Hs Hmax.
  destruct (build_segment h flags data size) as (tx & sc & r1 & Hk & Etx & Ltx & Btx & Hwf1); [done..|].
  unfold SendSegment. cbv zeta. rewrite Hk. rewrite (u32_small (20 + size)) by (zify_words; lia).
  step_with IPv4_Send_kept; [done | apply (hw_tcp_ip h Hwf) | u32_lit | done | lia | lia |].
  intros [b h2] [Hwf2 Ec]. apply returns_Ok. change (config h2 = config h) in Ec. cbn in Hwf2.
  transitivity h2; [done|]. tcp_fields Hwf2. destruct (_ || _); apply u32_bounds.
Qed.

(** A segment without data. *)
Lemma control_kept h flags : host_wf h -> is_u8 flags -> returns (SendSegment h flags [] 0) (kept h).
Proof. intros. apply SendSegment_kept; [done | done | apply Forall_nil_2 | cbn; lia | lia]. Qed.

(** ** The handlers on arbitrary bytes *)

Lemma ARP_kept h payload size :
  host_wf h -> is_bytes payload -> Z.min size 28 <= Z.of_nat (length payload) ->
  returns (ARP_HandleEthernetPayload h payload size) (kept h).
Proof.
  intros Hwf Hb Hl. unfold ARP_HandleEthernetPayload. destruct (Z.ltb_spec size 28); [by apply returns_Ok|].
  step_with field_at; [done | lia | lia | lia |]. intros smac Hm.
  step_with field_at; [done | lia | lia | lia |]. intros sip Hi. cbv zeta.
  set (h1 := set_arp_cache h _).
  assert (Hwf1 : host_wf h1) by (destruct Hwf; split; try done; by apply CacheSet_wf).
  step_with half_at; [done | lia | lia |]. intros op Hop.
  step_with field_at; [done | lia | lia | lia |]. intros tip Ht.
  apply returns_if; intros _; [|by apply returns_Ok]. unfold SendReply.
  pose proof (arp_packet_bytes ARP_REPLY (mac h1) (arp_ip h1) smac sip (hw_mac h1 Hwf1) (hw_arp_ip h1 Hwf1) Hm Hi)
    as [Lp Bp].
  step_with EthSend_kept; [done | done | u32_lit | done | lia | lia |].
  intros [b h2] [Hwf2 E2]. apply returns_Ok. by split.
Qed.

Lemma ICMP_kept h payload size src :
  host_wf h -> is_bytes payload -> bytes_of 4 src -> Z.min size 64 <= Z.of_nat (length payload) ->
  returns (ICMP_HandleIPv4Payload h payload size src) (kept h).
Proof.
  intros Hwf Hb Hs Hl. unfold ICMP_HandleIPv4Payload. destruct (Z.ltb_spec size 8); [by apply returns_Ok|].
  step_with byte_at; [done | lia |]. intros type Hty. apply returns_if; intros _; [by apply returns_Ok|].
  cbv zeta. set (n := if size >? 64 then 64 else size).
  assert (Hn : 8 <= n <= 64 /\ n <= Z.of_nat (length payload)) by (unfold n; destruct (Z.gtb_spec size 64); lia).
  step_with copied_bytes; [apply (hw_icmp_tx h Hwf) | done | lia | lia | lia |]. intros tx1 Htx1.
  step_with stored_bytes; [exact Htx1 | | lia | cbn; lia |].
  { repeat (apply Forall_cons; split; [u32_lit|]). apply Forall_nil_2. }
  intros tx2 Htx2. pose proof (proj1 Htx2) as L2.
  step_with checksum_returns; [apply Htx2 | lia | lia |]. intros c Hc.
  step_with stored_bytes; [exact Htx2 | apply le16_bytes | lia | cbn; lia |]. intros tx3 Htx3.
  pose proof (proj1 Htx3) as L3.
  step_with IPv4_Send_kept; [destruct Hwf; split; done | done | u32_lit | apply Htx3 | lia | lia |].
  intros [b h2] [Hwf2 E2]. apply returns_Ok. by split.
Qed.

(** What the UDP handler reads behind its header. *)
Definition udp_taken (length : Z) : Z := Z.min (u32 (ntohs length - 8)) 2048.

Lemma UDP_kept h payload size :
  host_wf h -> is_bytes payload -> Z.min size 8 <= Z.of_nat (length payload) ->
  (forall len, 8 <= size -> get16 payload 4 = Ok len -> 8 + udp_taken len <= Z.of_nat (length payload)) ->
  returns (UDP_HandleIPv4Payload h payload size) (kept h).
Proof.
  intros Hwf Hb Hl Hlen. unfold UDP_HandleIPv4Payload. destruct (Z.ltb_spec size 8); [by apply returns_Ok|].
  step_with half_at; [done | lia | lia |]. intros dp _. apply returns_if; intros _; [by apply returns_Ok|].
  destruct (half_at payload 4) as (len & El & Hu); [done | lia | lia |].
  rewrite El, result_bind_Ok. cbv zeta. unfold UDP_OnReceive. cbv zeta.
  specialize (Hlen len ltac:(lia) El). unfold udp_taken in Hlen.
  set (n := u32 (ntohs len - 8)) in *. pose proof (u32_bounds (ntohs len - 8)) as Hn. fold n in Hn.
  set (k := if n >? 2048 then 2048 else n).
  assert (Hk : 0 <= k <= 2048 /\ 8 + k <= Z.of_nat (length payload))
    by (unfold k; destruct (Z.gtb_spec n 2048); zify_words; lia).
  step_with copied_bytes; [apply (hw_udp_rx h Hwf) | by apply Forall_drop | rewrite length_drop; lia | lia | lia |].
  intros buf Hbuf. apply returns_Ok. split; [|done]. destruct Hwf; by split.
Qed.

Lemma TCP_OnReceive_kept h data size :
  host_wf h -> is_bytes data -> 0 <= size -> Z.min size 2048 <= Z.of_nat (length data) ->
  returns (TCP_OnReceive h data size) (kept h).
Proof.
  intros Hwf Hb Hs Hl. unfold TCP_OnReceive. cbv zeta. set (k := if size >? 2048 then 2048 else size).
  assert (Hk : 0 <= k <= 2048 /\ k <= Z.of_nat (length data)) by (unfold k; destruct (Z.gtb_spec size 2048); lia).
  step_with copied_bytes; [apply (hw_tcp_rx h Hwf) | done | lia | lia | lia |].
  intros buf Hbuf. apply returns_Ok. split; [|done]. destruct Hwf; by split.
Qed.

(** A control segment after a change of the connection. *)
Lemma answer_kept h t flags :
  host_wf h -> kept h (set_tcp h t) -> is_u8 flags -> returns (SendSegment (set_tcp h t) flags [] 0) (kept h).
Proof.
  intros Hwf Hk Hf. eapply returns_mono; [apply control_kept; [apply Hk | done]|].
  intros h' H'. by transitivity (set_tcp h t).
Qed.

(** Data on an established connection: stored, acknowledged and delivered. *)
Lemma TCP_data_kept h data in_seq n :
  host_wf h -> is_bytes data -> 0 <= n -> Z.min n 8192 <= Z.of_nat (length data) ->
  returns (let t := set_ack (tcp h) (u32 (in_seq + n)) in
           let copy := if n >? 8192 then 8192 else n in
           rx ← copy_loop (t_rx_buf t) 0 data copy;
           h ← SendSegment (set_tcp h (set_bufs t rx (t_tx_buf t) (t_scratch t))) TCP_ACK [] 0;
           TCP_OnReceive h (t_rx_buf (tcp h)) copy) (kept h).
Proof.
  intros Hwf Hb Hn Hl. cbv zeta. set (k := if n >? 8192 then 8192 else n).
  assert (Hk : 0 <= k <= 8192 /\ k <= Z.of_nat (length data)) by (unfold k; destruct (Z.gtb_spec n 8192); lia).
  step_with (copied_bytes (Z.to_nat 8192)); [apply (hw_tcp_bufs h Hwf) | done | lia | lia | lia |]. intros rx Hrx.
  step_with answer_kept; [done | tcp_fields Hwf | u32_lit |].
  intros h2 Hk2. destruct (hw_tcp_bufs h2 (proj1 Hk2)) as [[L2 B2] _].
  eapply returns_mono; [apply TCP_OnReceive_kept; [apply Hk2 | done | lia | lia]|].
  intros h3 Hk3. by transitivity h2.
Qed.

Lemma TCP_kept h payload size :
  host_wf h -> is_bytes payload -> Z.min size 8252 <= Z.of_nat (length payload) ->
  returns (TCP_HandleIPv4Payload h payload size) (kept h).
Proof.
  intros Hwf Hb Hl. unfold TCP_HandleIPv4Payload. destruct (Z.ltb_spec size 20); [by apply returns_Ok|].
  step_with half_at; [done | lia | lia |]. intros dp _. apply returns_if; intros _; [by apply returns_Ok|].
  step_with word_at; [done | lia | lia |]. intros in_seq Hseq. cbv zeta.
  step_with word_at; [done | lia | lia |]. intros in_ack Hack. pose proof (htonl_u32 in_ack Hack) as Hack'.
  step_with byte_at; [done | lia |]. intros flags _. step_with byte_at; [done | lia |]. intros off Hoff.
  set (hdr := Z.shiftr off 4 * 4).
  assert (Hh : 0 <= hdr <= 60).
  { unfold hdr. rewrite Z.shiftr_div_pow2 by lia. zify_words. change (2 ^ 4) with 16. Z.div_mod_to_equations. lia. }
  set (n := if size >? hdr then size - hdr else 0).
  assert (Hn : 0 <= n /\ Z.min n 8192 <= Z.of_nat (length (drop (Z.to_nat hdr) payload)))
    by (rewrite length_drop; unfold n; destruct (Z.gtb_spec size hdr); lia).
  assert (Hd : is_bytes (drop (Z.to_nat hdr) payload)) by (by apply Forall_drop).
  destruct (t_state (tcp h)); try by apply returns_Ok.
  - apply returns_if; intros _; [|by apply returns_Ok]. apply answer_kept; [done | tcp_fields Hwf | u32_lit].
  - apply returns_if; intros _.
    + step_with answer_kept; [done | tcp_fields Hwf | u32_lit |]. intros h1 Hk1.
      step_with control_kept; [apply Hk1 | u32_lit |]. intros h2 Hk2. apply returns_Ok.
      transitivity h1; [done|]. transitivity h2; [done|]. pose proof (proj1 Hk2) as Hwf2. tcp_fields Hwf2.
    + apply returns_if; intros _; [|by apply returns_Ok]. apply TCP_data_kept; [done | done | apply Hn | apply Hn].
  - apply returns_if; intros _; apply returns_Ok; [tcp_fields Hwf | done].
  - apply returns_if; intros _; [|by apply returns_Ok].
    step_with answer_kept; [done | tcp_fields Hwf | u32_lit |]. intros h1 Hk1. apply returns_Ok.
    transitivity h1; [done|]. pose proof (proj1 Hk1) as Hwf1. tcp_fields Hwf1.
  - apply returns_if; intros _; apply returns_Ok; [tcp_fields Hwf | done].
Qed.

(** ** Packets whose lengths can be trusted *)

(** A 16-bit field in network order, and a byte. *)
Definition be16 (l : list Z) (o : Z) : Z := match get16 l o with Ok x => ntohs x | Err _ => 0 end.
Definition byte (l : list Z) (o : Z) : Z := match arr_get l o with Ok x => x | Err _ => 0 end.

(** The lengths in the headers of an IPv4 packet of [size] bytes agree with its size. *)
Definition packet_honest (p : list Z) (size : Z) : bool :=
  let total := be16 p 2 in
  (20 <=? total) && (total <=? size) &&
  (negb (byte p 9 =? IPV4_PROTO_UDP) || (total <? 28) || ((8 <=? be16 p 24) && (20 + be16 p 24 <=? total))).

Definition frame_honest (f : list Z) (size : Z) : bool :=
  (size <? 14) || negb (be16 f 12 =? ETHERTYPE_IPV4) || packet_honest (drop 14 f) (size - 14).

(** Enough memory for any packet: the headers and the largest copy of the handlers. *)
Definition SLACK : Z := 14 + 20 + 60 + 8192.

(** What the handler of a protocol may read behind the IPv4 header. *)
Lemma payload_kept x h p n src :
  host_wf h -> is_bytes p -> bytes_of 4 src -> Z.min n 8252 <= Z.of_nat (length p) ->
  (x = HUDP -> 8 <= n -> forall len, get16 p 4 = Ok len -> 8 + udp_taken len <= Z.of_nat (length p)) ->
  returns (HandleIPv4Payload x h p n src) (kept h).
Proof.
  intros Hwf Hb Hs Hl Hu. destruct x; cbn [HandleIPv4Payload].
  - apply ICMP_kept; [done..|lia].
  - apply UDP_kept; [done | done | lia | auto].
  - apply TCP_kept; [done | done | lia].
Qed.

Lemma get16_drop l (k : nat) o : 0 <= o -> get16 (drop k l) o = get16 l (Z.of_nat k + o).
Proof.
  intros Ho. unfold get16. unfold arr_get.
  destruct (Z.ltb_spec o 0), (Z.ltb_spec (o + 1) 0), (Z.ltb_spec (Z.of_nat k + o) 0),
    (Z.ltb_spec (Z.of_nat k + o + 1) 0); try lia.
  rewrite !lookup_drop. by replace (Z.to_nat (Z.of_nat k + o)) with (k + Z.to_nat o)%nat by lia;
    replace (Z.to_nat (Z.of_nat k + o + 1)) with (k + Z.to_nat (o + 1))%nat by lia.
Qed.

(** Behind its header, a packet in memory that is honest or large enough has all bytes its
    handlers read. *)
Lemma lengths_readable p size t pr :
  get16 p 2 = Ok t -> arr_get p 9 = Ok pr ->
  (size <= Z.of_nat (length p) /\ packet_honest p size = true) \/ SLACK - 14 <= Z.of_nat (length p) ->
  20 <= Z.of_nat (length p) ->
  let n := u32 (ntohs t - 20) in
  Z.min n 8252 <= Z.of_nat (length (drop 20 p)) /\
  (pr = IPV4_PROTO_UDP -> 8 <= n -> forall len, get16 (drop 20 p) 4 = Ok len ->
     8 + udp_taken len <= Z.of_nat (length (drop 20 p))).
Proof.
  intros Et Ep Hhon Hl n. subst n. pose proof (htons_u16 t) as Ht'. unfold ntohs in *.
  rewrite length_drop. destruct Hhon as [[Hs Hho]|Hbig].
  - unfold packet_honest, be16, byte, ntohs in Hho. rewrite Et, Ep in Hho. apply andb_prop in Hho as [H1 H2].
    apply andb_prop in H1 as [H1 H1']. apply Z.leb_le in H1, H1'.
    rewrite (u32_small (htons t - 20)) by (zify_words; lia). split; [lia|].
    intros -> H8 len. rewrite get16_drop by lia. intros El. change (Z.of_nat 20 + 4) with 24 in El.
    rewrite Z.eqb_refl, El in H2. destruct (Z.ltb_spec (htons t) 28); [lia|]. cbn [negb orb] in H2.
    apply andb_prop in H2 as [H2 H2']. apply Z.leb_le in H2, H2'. unfold udp_taken, ntohs.
    rewrite u32_small; [lia|]. pose proof (htons_u16 len). zify_words. lia.
  - unfold SLACK in Hbig. split; [lia|]. intros _ _ len _. unfold udp_taken. lia.
Qed.

(** The IPv4 layer, on a packet that is honest or in enough memory. *)
Lemma IPv4_kept h p size :
  host_wf h -> is_bytes p -> Z.min size 20 <= Z.of_nat (length p) ->
  (size <= Z.of_nat (length p) /\ packet_honest p size = true) \/ SLACK - 14 <= Z.of_nat (length p) ->
  returns (IPv4_HandleEthernetPayload (register_all h) p size) (fun d => exists h', d = register_all h' /\ kept h h').
Proof.
  intros Hwf Hb Hl Hhon. assert (Hsame : returns (Ok (register_all h))
    (fun d => exists h', d = register_all h' /\ kept h h')) by (apply returns_Ok; by exists h).
  unfold IPv4_HandleEthernetPayload. destruct (Z.ltb_spec size 20); [done|].
  step_with byte_at; [done | lia |]. intros v _. apply returns_if; intros _; [done|].
  step_with field_at; [done | lia | lia | lia |]. intros dst _. apply returns_if; intros _; [done|].
  step_with checksum_returns; [done | lia | lia |]. intros c _. apply returns_if; intros _; [done|].
  destruct (half_at p 2) as (t & Et & Ht); [done | lia | lia |]. rewrite Et, result_bind_Ok.
  destruct (byte_at p 9) as (pr & Ep & Hpr); [done | lia |]. rewrite Ep, result_bind_Ok.
  step_with field_at; [done | lia | lia | lia |]. intros src Hsrc. cbv zeta.
  set (n := u32 (ntohs t - 20)).
  destruct (lengths_readable p size t pr Et Ep Hhon) as [Hn Hu]; [lia|]. fold n in Hn, Hu.
  eapply returns_bind; [apply (returns_fold _ _ (kept h)); [by apply kept_refl|]|].
  - intros e h1 He Hk1. destruct (Z.eqb_spec e.1 pr) as [E1|]; [|by apply returns_Ok].
    eapply returns_mono; [apply (payload_kept e.2 h1); [apply Hk1 | by apply Forall_drop | done | exact Hn|]|].
    + intros E2. apply Hu. rewrite <- E1.
      change (ip_handlers (register_all h)) with [(IPV4_PROTO_ICMP, HICMP); (IPV4_PROTO_UDP, HUDP); (IPV4_PROTO_TCP, HTCP)] in He.
      rewrite !elem_of_cons in He. destruct He as [->|[->|[->|He]]]; cbn in E2; try discriminate; [done | by inversion He].
    + intros h2 Hk2. by transitivity h1.
  - intros h1 Hk1. apply returns_Ok. by exists h1.
Qed.

(** A frame is honest and complete in memory, or there is enough memory behind it. *)
Definition frame_readable (f : list Z) (size : Z) : Prop :=
  (size <= Z.of_nat (length f) /\ frame_honest f size = true) \/ SLACK <= Z.of_nat (length f).

Lemma Dispatch_kept h f size :
  host_wf h -> is_bytes f -> frame_readable f size ->
  returns (Dispatch (register_all h) f size) (fun d => exists h', d = register_all h' /\ kept h h').
Proof.
  intros Hwf Hb Hr. unfold Dispatch. destruct (Z.ltb_spec size 14) as [|Hs]; [apply returns_Ok; by exists h|].
  assert (Hl : Z.min size SLACK <= Z.of_nat (length f)) by (destruct Hr; lia). unfold SLACK in Hl.
  destruct (half_at f 12) as (et & Ee & _); [done | lia | lia |]. rewrite Ee, result_bind_Ok. cbv zeta.
  apply (returns_fold _ _ (fun d => exists h', d = register_all h' /\ kept h h')); [by exists h|].
  intros e d He (h1 & -> & Hk1). destruct (Z.eqb_spec e.1 (ntohs et)) as [E1|]; [|apply returns_Ok; by exists h1].
  change (eth_handlers (register_all h)) with [(ETHERTYPE_ARP, HARP); (ETHERTYPE_IPV4, HIPv4)] in He.
  rewrite !elem_of_cons in He. destruct He as [->|[->|He]]; [| |by inversion He]; cbn [HandleEthernetPayload snd fst] in *.
  - step_with ARP_kept; [apply Hk1 | by apply Forall_drop | change (hst (register_all h1)) with h1; rewrite length_drop; lia|].
    intros h2 Hk2. apply returns_Ok. exists h2. split; [done|]. by transitivity h1.
  - eapply returns_mono; [apply IPv4_kept; [apply Hk1 | by apply Forall_drop | rewrite length_drop; lia|]|].
    + rewrite length_drop. destruct Hr as [[Hc Hh]|Hbig]; [left | right; lia]. split; [lia|].
      unfold frame_honest, be16 in Hh. rewrite Ee, <- E1, Z.eqb_refl, (proj2 (Z.ltb_ge size 14)) in Hh by lia. done.
    + intros d (h2 & -> & Hk2). exists h2. split; [done|]. by transitivity h1.
Qed.

(** ** The receive ring *)

(** The next [pending] entries of the ring: each lies in the buffer and holds an honest frame. *)
Fixpoint ring_honest (pending : nat) (r : ring) : bool :=
  match pending with
  | O => true
  | S pending =>
      let entry := drop (Z.to_nat (rx_read_ptr r mod 8192)) (rx_buffer r) in
      let len := byte entry 2 + 256 * byte entry 3 in
      (4 <=? len) && (len <=? Z.of_nat (length entry)) && frame_honest (drop 4 entry) (len - 4) &&
      (let ptr := Z.land (u32 (rx_read_ptr r + len + 4 + 3)) (not32 3) in
       ring_honest pending (mkRing (rx_buffer r) ptr (u16 (u32 (ptr - 16) mod 8192))))
  end.

Lemma byte_pair l o x : get16 l o = Ok x -> byte l o + 256 * byte l (o + 1) = x.
Proof.
  unfold get16, byte. intros H. apply result_bind_inv in H as (a & Ea & H). apply result_bind_inv in H as (b & Eb & H).
  rewrite Ea, Eb. congruence.
Qed.

Lemma HandleReceive_kept pending r h :
  host_wf h -> is_bytes (rx_buffer r) -> ring_honest pending r = true ->
  returns (HandleReceive pending r (register_all h)) (fun '(r', d') =>
    rx_buffer r' = rx_buffer r /\ exists h', d' = register_all h' /\ kept h h').
Proof.
  revert r h. induction pending as [|n IH]; intros r h Hwf Hb Hr.
  { apply returns_Ok. split; [done|]. by exists h. }
  cbn [ring_honest] in Hr. cbn [HandleReceive].
  set (entry := drop _ (rx_buffer r)) in *. assert (Be : is_bytes entry) by (by apply Forall_drop).
  apply andb_prop in Hr as [Hr Hn]. apply andb_prop in Hr as [Hr Hf]. apply andb_prop in Hr as [H4 Hl].
  apply Z.leb_le in H4, Hl. step_with half_at; [done | lia | lia |]. intros status _.
  destruct (half_at entry 2) as (len & El & Hlen); [done | lia | lia |].
  pose proof (byte_pair entry 2 len El) as Eb. change (2 + 1) with 3 in Eb. rewrite Eb in *. rewrite El, result_bind_Ok.
  rewrite (u32_small (len - 4)) by (zify_words; lia). set (r' := mkRing _ _ _) in *.
  apply (returns_bind _ _ (fun d => exists h', d = register_all h' /\ kept h h')).
  - apply returns_if; intros _; [|apply returns_Ok; by exists h].
    apply Dispatch_kept; [done | by apply Forall_drop|]. left. split; [rewrite length_drop; lia | done].
  - intros d (h1 & -> & Hk1). eapply returns_mono; [apply (IH r' h1); [apply Hk1 | done | done]|].
    intros [r2 d2] (E2 & h2 & -> & Hk2). split; [done|]. exists h2. split; [done|]. by transitivity h1.
Qed.

(** C17: The network card's interrupt handler is safe for any honest traffic.  However many frames the
    card reports, whatever bytes they hold, as long as each entry of the ring lies in the
    buffer and the lengths in its headers do not exceed its size, the handler returns:
    no access leaves a buffer, the receive buffer is unchanged, and the host is well
    formed with the same addresses and ports. *)
Theorem network_input_safe status pending r h :
  host_wf h -> is_bytes (rx_buffer r) -> ring_honest pending r = true ->
  exists r' h', HandleInterrupt status pending r (register_all h) = Ok (r', register_all h') /\
    rx_buffer r' = rx_buffer r /\ host_wf h' /\ config h' = config h.
Proof.
  intros Hwf Hb Hr. unfold HandleInterrupt. destruct (negb _).
  - destruct (HandleReceive_kept pending r h) as ([r' d'] & -> & Er & h' & -> & Hk & Hc); [done..|].
    by exists r', h'.
  - by exists r, h.
Qed.

(** A UDP frame in the ring. *)
Definition sample_ring : ring :=
  mkRing ([1; 0] ++ le16 64 ++
          match UDP_Send (host_a TCP_CLOSED) ip_b 1234 99 [104; 105; 33] 3 with
          | Ok (_, h) => concat (wire h) | Err _ => [] end ++ replicate (Z.to_nat 9644) 0) 0 0.

Lemma network_input_safe_witness :
  exists r' h', HandleInterrupt 1 1 sample_ring (register_all (host_b TCP_CLOSED)) = Ok (r', register_all h') /\
    rx_buffer r' = rx_buffer sample_ring /\ host_wf h' /\ config h' = config (host_b TCP_CLOSED).
Proof.
  apply (network_input_safe 1 1 sample_ring (host_b TCP_CLOSED) (host_b_wf _)).
  - apply Forall_forall. intros x Hx. revert x Hx. apply Forall_forall.
    apply (bool_decide_unpack (Forall (fun z => is_u8 z) (rx_buffer sample_ring))). vm_compute. exact I.
  - vm_compute. reflexivity.
Defined.

(** ** Sequences of operations *)

(** What happens to the stack of a running kernel: a frame arrives, or a system call or
    the kernel itself sends. *)
Inductive net_op :=
  | OpFrame (f : list Z) (size : Z)
  | OpArpRequest (ip : list Z)
  | OpPing (ip : list Z) (id seq : Z)
  | OpUdpSend (ip : list Z) (dport sport : Z) (data : list Z) (size : Z)
  | OpConnect (ip : list Z) (port : Z)
  | OpTcpSend (data : list Z) (size : Z)
  | OpTcpClose.

Definition on_host (d : netdev) (m : host -> result host) : result netdev := h ← m (hst d); Ok (with_host d h).
Definition drop_flag (m : result (bool * host)) : result host := '(_, h) ← m; Ok h.

Definition exec (op : net_op) (d : netdev) : result netdev :=
  match op with
  | OpFrame f size => Dispatch d f size
  | OpArpRequest ip => on_host d (fun h => SendRequest h ip)
  | OpPing ip id seq => on_host d (fun h => drop_flag (SendEchoRequest h ip id seq))
  | OpUdpSend ip dport sport data size => on_host d (fun h => drop_flag (UDP_Send h ip dport sport data size))
  | OpConnect ip port => on_host d (fun h => drop_flag (Connect h ip port))
  | OpTcpSend data size => on_host d (fun h => drop_flag (Send h data size))
  | OpTcpClose => on_host d Close
  end.

(** The types of the arguments; a memory area holds bytes, a size is an unsigned integer. *)
Definition op_typed (op : net_op) : Prop :=
  match op with
  | OpFrame f size => is_bytes f
  | OpArpRequest ip | OpPing ip _ _ => bytes_of 4 ip
  | OpUdpSend ip _ _ data size => bytes_of 4 ip /\ is_bytes data /\ 0 <= size
  | OpConnect ip port => bytes_of 4 ip /\ is_u16 port
  | OpTcpSend data size => is_bytes data /\ 0 <= size
  | OpTcpClose => True
  end.

(** What the code relies on and does not check: the frame is in readable memory and its
    length fields stay inside it, the data of a send is as long as announced, and a TCP
    segment has at most 1460 bytes. *)
Definition op_fits (op : net_op) : Prop :=
  match op with
  | OpFrame f size => frame_readable f size
  | OpUdpSend _ _ _ data size => Z.min size 1464 <= Z.of_nat (length data)
  | OpTcpSend data size => size <= Z.of_nat (length data) /\ size <= 1460
  | _ => True
  end.

Lemma on_host_kept h m :
  returns (m h) (kept h) ->
  returns (on_host (register_all h) m) (fun d => exists h', d = register_all h' /\ kept h h').
Proof. intros Hm. unfold on_host. step_with Hm. intros h' Hk. apply returns_Ok. by exists h'. Qed.

Lemma drop_flag_kept h m : returns m (fun r => kept h r.2) -> returns (drop_flag m) (kept h).
Proof. intros Hm. unfold drop_flag. step_with Hm. intros [b h'] Hk. by apply returns_Ok. Qed.

Lemma SendEchoRequest_kept h ip id seq :
  host_wf h -> bytes_of 4 ip -> returns (SendEchoRequest h ip id seq) (fun r => kept h r.2).
Proof.
  intros Hwf Hip. unfold SendEchoRequest.
  step_with stored_bytes; [apply (hw_icmp_tx h Hwf) | | lia | cbn; lia |].
  { rewrite !is_bytes_app. repeat split; [|auto using le16_bytes..].
    repeat (apply Forall_cons; split; [u32_lit|]). apply Forall_nil_2. }
  intros tx Htx. pose proof (proj1 Htx) as L.
  step_with checksum_returns; [apply Htx | lia | lia |]. intros c _.
  step_with stored_bytes; [exact Htx | apply le16_bytes | lia | cbn; lia |]. intros tx2 Htx2.
  pose proof (proj1 Htx2) as L2.
  eapply returns_mono; [apply IPv4_Send_kept; [destruct Hwf; by split | done | u32_lit | apply Htx2 | lia | lia]|].
  intros r [Hw Hc]. by split.
Qed.

Lemma UDP_Send_kept h ip dport sport data size :
  host_wf h -> bytes_of 4 ip -> is_bytes data -> 0 <= size -> Z.min size 1464 <= Z.of_nat (length data) ->
  returns (UDP_Send h ip dport sport data size) (fun r => kept h r.2).
Proof.
  intros Hwf Hip Hd Hs Hl. unfold UDP_Send. cbv zeta. set (n := if size >? 1472 - 8 then 1472 - 8 else size).
  assert (Hn : 0 <= n <= 1464 /\ n <= Z.of_nat (length data)) by (unfold n; destruct (Z.gtb_spec size (1472 - 8)); lia).
  step_with stored_bytes; [apply (hw_udp_tx h Hwf) | rewrite !is_bytes_app; auto using le16_bytes | lia | cbn; lia |].
  intros tx Htx. step_with copied_bytes; [exact Htx | done | lia | lia | lia |]. intros tx2 Htx2.
  pose proof (proj1 Htx2) as L2.
  eapply returns_mono; [apply IPv4_Send_kept; [destruct Hwf; by split | done | u32_lit | apply Htx2 | lia | lia]|].
  intros r [Hw Hc]. by split.
Qed.

Lemma TcpSend_kept h data size :
  host_wf h -> is_bytes data -> 0 <= size <= Z.of_nat (length data) -> size <= 1460 ->
  returns (Send h data size) (fun r => kept h r.2).
Proof.
  intros Hwf Hd Hs Hm. unfold Send. apply returns_if; intros _; [by apply returns_Ok|].
  step_with SendSegment_kept; [done | u32_lit | done | done | done |]. intros h' Hk. by apply returns_Ok.
Qed.

Lemma Close_kept h : host_wf h -> returns (Close h) (kept h).
Proof.
  intros Hwf. unfold Close. apply returns_if; intros _; [|by apply returns_Ok].
  apply answer_kept; [done | tcp_fields Hwf | u32_lit].
Qed.

Lemma exec_kept op h :
  host_wf h -> op_typed op -> op_fits op ->
  returns (exec op (register_all h)) (fun d => exists h', d = register_all h' /\ kept h h').
Proof.
  intros Hwf Ht Hfit. destruct op as [f size|ip|ip id seq|ip dport sport data size|ip port|data size|];
    cbn [exec op_typed op_fits] in *; [by apply Dispatch_kept | apply on_host_kept..].
  - unfold SendRequest. pose proof (arp_packet_bytes ARP_REQUEST (mac h) (arp_ip h) (replicate 6 0) ip
      (hw_mac h Hwf) (hw_arp_ip h Hwf) (zeros_bytes 6) Ht) as [Lp Bp].
    step_with EthSend_kept; [done | | u32_lit | done | lia | lia |]; [|intros [b h'] Hk; by apply returns_Ok].
    split; [apply length_replicate | apply Forall_replicate; u32_lit].
  - by apply drop_flag_kept, SendEchoRequest_kept.
  - destruct Ht as (? & ? & ?). by apply drop_flag_kept, UDP_Send_kept.
  - destruct Ht as [Hip Hp]. apply drop_flag_kept. unfold Connect. cbv zeta.
    step_with answer_kept; [done | tcp_fields Hwf; u32_lit | u32_lit |]. intros h' Hk. by apply returns_Ok.
  - destruct Ht as [Hd Hs], Hfit as [Hl Hm]. by apply drop_flag_kept, TcpSend_kept.
  - by apply Close_kept.
Qed.

(** C18: The network stack is safe within its limits.  In any sequence of received frames,
    ARP and echo requests, datagrams, connects, sends and closes whose arguments have the
    right types ([op_typed]) and keep the limits the code does not check ([op_fits]: frames
    in readable memory with length fields that stay inside it, data as long as announced, at
    most 1460 bytes in a TCP send), starting from a well-formed host with the kernel's
    handlers, every operation returns (no access leaves one of the packet buffers) and the
    host is well formed in the end, with the same addresses and ports. *)
Theorem network_type_safety ops h :
  host_wf h -> Forall op_typed ops -> Forall op_fits ops ->
  exists h', fold_result exec ops (register_all h) = Ok (register_all h') /\ host_wf h' /\ config h' = config h.
Proof.
  intros Hwf Ht Hf.
  destruct (returns_fold exec ops (fun d => exists h', d = register_all h' /\ kept h h') (register_all h))
    as (d & E & h' & -> & Hk & Hc); [by exists h | | by exists h'].
  intros op d Hop (h1 & -> & Hk1). rewrite Forall_forall in Ht, Hf.
  eapply returns_mono; [apply exec_kept; [apply Hk1 | by apply Ht | by apply Hf]|].
  intros d (h2 & -> & Hk2). exists h2. split; [done|]. by transitivity h1.
Qed.

Lemma network_type_safety_witness :
  exists h', fold_result exec
      [OpConnect ip_b 80; OpFrame (replicate 60 0xFF) 60; OpUdpSend ip_b 7 9 [1; 2; 3] 3; OpTcpSend [5] 1; OpTcpClose]
      (register_all (host_a TCP_CLOSED)) = Ok (register_all h') /\ host_wf h' /\ config h' = config (host_a TCP_CLOSED).
Proof.
  destruct sample_addrs as (_ & _ & _ & Hb).
  assert (Hs : forall l, bool_decide (Forall (fun z => is_u8 z) l) = true -> is_bytes l)
    by (intros l Hl; exact (bool_decide_eq_true_1 _ Hl)).
  apply (network_type_safety _ (host_a TCP_CLOSED) (host_a_wf _)).
  - apply Forall_cons_2; [split; [exact Hb | u32_lit]|].
    apply Forall_cons_2; [apply Hs; vm_compute; reflexivity|].
    apply Forall_cons_2; [split; [exact Hb|]; split; [apply Hs; vm_compute; reflexivity | lia]|].
    apply Forall_cons_2; [split; [apply Hs; vm_compute; reflexivity | lia]|].
    apply Forall_cons_2; [exact I | apply Forall_nil_2].
  - apply Forall_cons_2; [exact I|].
    apply Forall_cons_2; [left; split; [rewrite length_replicate; lia | vm_compute; reflexivity]|].
    apply Forall_cons_2; [cbn; lia|]. apply Forall_cons_2; [cbn; lia|].
    apply Forall_cons_2; [exact I | apply Forall_nil_2].
Defined.

(** ** Lengths that are not honest *)

(** A copy that runs past its source faults. *)
Lemma copy_overread dst src n :
  Z.of_nat (length src) < n <= Z.of_nat (length dst) -> copy_loop dst 0 src n = Err OutOfBounds.
Proof.
  intros Hn. set (k := Z.of_nat (length src)) in *.
  assert (E : seqZ 0 n = seqZ 0 k ++ k :: seqZ (k + 1) (n - k - 1)).
  { replace n with (k + (n - k)) at 1 by lia. rewrite seqZ_app by lia. f_equal.
    rewrite seqZ_cons, Z.add_0_l by lia. do 2 f_equal; lia. }
  pose proof (copy_loop_ok dst 0 src k ltac:(lia) ltac:(lia) ltac:(lia)) as Hk.
  unfold copy_loop, for_result in *. rewrite Z.sub_0_r in *. rewrite E, fold_result_app, Hk, result_bind_Ok.
  cbn [fold_result]. rewrite arr_get_out by lia. done.
Qed.

(** The length of a UDP header is not compared with the size of the packet: a datagram for
    this port that announces more bytes than the memory behind it holds makes the socket
    read outside the buffer. *)
Theorem udp_length_overreads b payload size len :
  host_wf b -> 8 <= size -> 8 <= Z.of_nat (length payload) ->
  get16 payload 2 = Ok (htons (udp_port b)) -> get16 payload 4 = Ok len ->
  Z.of_nat (length payload) < 8 + udp_taken len ->
  UDP_HandleIPv4Payload b payload size = Err OutOfBounds.
Proof.
  intros Hb Hs Hl Hp El Hover. unfold UDP_HandleIPv4Payload.
  destruct (Z.ltb_spec size 8); [lia|]. rewrite Hp, result_bind_Ok.
  unfold ntohs at 1. rewrite htons_htons, Z.eqb_refl by (apply (hw_udp_port b Hb)). cbn [negb].
  rewrite El, result_bind_Ok. cbv zeta. unfold UDP_OnReceive, udp_taken in *. cbv zeta.
  set (n := u32 (ntohs len - 8)) in *. set (k := if n >? 2048 then 2048 else n).
  assert (Hk : Z.of_nat (length (drop 8 payload)) < k <= 2048)
    by (rewrite length_drop; unfold k; destruct (Z.gtb_spec n 2048); lia).
  destruct (hw_udp_rx b Hb) as [Lr _]. rewrite copy_overread by lia. done.
Qed.

End NetSafety.
