(* ===== verification/Fat32.v ===== *)
(** The FAT32 file system and the partition table: src/src/fs/fat32.{h,cpp} and
    src/src/fs/mbr.{h,cpp}, over the sector transfers of src/src/drivers/ata.cpp.

    The drive is a map from sector numbers to 512 bytes; a sector that is absent
    is one whose read times out.  [junk] and [junk4096] are what the local buffers
    of the functions hold before they are written.  Loops along a cluster chain
    take fuel: a chain on the disk can be cyclic. *)

From stdpp Require Import base numbers list gmap.
From Stdlib Require Import ZArith Lia.
From S2P Require Import Prelude Net.

Module Fat.
Import Net.

(** ** The drive *)

Notation disk := (gmap Z (list Z)).

(** The registers hold 28 bits of the sector number. *)
Definition lba28 (lba : Z) : Z := Z.land lba 0x0FFFFFFF.

(** What one-sector calls of [ATADriver::Read28] and [Write28] do to the drive, with
    the buffer at offset [o].  A write to a sector that does not answer is lost, and
    the driver reports success all the same. *)
Definition drive_read (d : disk) (lba : Z) (buf : list Z) (o : Z) : result (bool * list Z) :=
  match d !! lba28 lba with
  | Some s => buf ← put_bytes buf o s; Ok (true, buf)
  | None => Ok (false, buf)
  end.

Definition drive_write (d : disk) (lba : Z) (buf : list Z) (o : Z) : result (bool * disk) :=
  s ← get_bytes buf o 512;
  Ok (true, match d !! lba28 lba with Some _ => <[lba28 lba := s]> d | None => d end).

(** ** The master boot record *)

Record MBRPartitionEntry := mkPart { p_type : Z; lba_start : Z; sector_count : Z }.

Record MBRParser := mkMbr { mbr : list Z; valid : bool }.

(** [buffer] is the local sector buffer. *)
Definition MBR_Read (d : disk) (buffer : list Z) : result (bool * MBRParser) :=
  '(_, buffer) ← drive_read d 0 buffer 0;
  image ← get_bytes buffer 0 512;
  signature ← get16 image 510;
  Ok (signature =? 0xAA55, mkMbr image (signature =? 0xAA55)).

Definition partition_at (m : MBRParser) (i : Z) : result MBRPartitionEntry :=
  t ← arr_get (mbr m) (446 + 16 * i + 4);
  s ← get32 (mbr m) (446 + 16 * i + 8);
  n ← get32 (mbr m) (446 + 16 * i + 12);
  Ok (mkPart t s n).

Definition PartitionCount (m : MBRParser) : result Z :=
  for_result 0 4 (fun i count =>
    p ← partition_at m i; Ok (if negb (p_type p =? 0) then u8 (count + 1) else count)) 0.

Definition GetPartition (m : MBRParser) (index : Z) : result MBRPartitionEntry :=
  if index <? 4 then partition_at m index else Ok (mkPart 0 0 0).

Definition IsValid (m : MBRParser) : bool := valid m.

(** ** The volume *)

(** The fields of [FAT32BPB] the code reads. *)
Record FAT32BPB := mkBpb {
  bytes_per_sector : Z;
  sectors_per_cluster : Z;
  reserved_sectors : Z;
  fat_count : Z;
  total_sectors_16 : Z;
  total_sectors_32 : Z;
  fat_size_32 : Z;
  root_cluster : Z;
}.

Record FAT32 := mkFat {
  ata : disk;
  partition_lba : Z;
  bpb : FAT32BPB;
  fat_lba : Z;
  data_lba : Z;
  cluster_size : Z;
}.

Definition set_ata (f : FAT32) (d : disk) : FAT32 :=
  mkFat d (partition_lba f) (bpb f) (fat_lba f) (data_lba f) (cluster_size f).

Section code.
Context (junk junk4096 : list Z).

Definition FAT32_new (d : disk) (p : MBRPartitionEntry) (bpb0 : FAT32BPB) : FAT32 :=
  mkFat d (lba_start p) bpb0 0 0 0.

Definition ReadSector (f : FAT32) (lba : Z) (buf : list Z) (o : Z) : result (bool * list Z) :=
  drive_read (ata f) lba buf o.

Definition WriteSector (f : FAT32) (lba : Z) (buf : list Z) (o : Z) : result (bool * FAT32) :=
  '(ok, d) ← drive_write (ata f) lba buf o; Ok (ok, set_ata f d).

(** [fat_mem_copy((uint8_t* )&bpb, sector, sizeof(FAT32BPB))], by field. *)
Definition read_bpb (sector : list Z) : result FAT32BPB :=
  bps ← get16 sector 11;
  spc ← arr_get sector 13;
  res ← get16 sector 14;
  fats ← arr_get sector 16;
  t16 ← get16 sector 19;
  t32 ← get32 sector 32;
  fsz ← get32 sector 36;
  root ← get32 sector 44;
  Ok (mkBpb bps spc res fats t16 t32 fsz root).

Definition Mount (f : FAT32) : result (bool * FAT32) :=
  '(_, sector) ← ReadSector f (partition_lba f) junk 0;
  b ← read_bpb sector;
  let fl := u32 (partition_lba f + reserved_sectors b) in
  let dl := u32 (fl + u32 (fat_count b * fat_size_32 b)) in
  Ok (bytes_per_sector b =? 512,
      mkFat (ata f) (partition_lba f) b fl dl (sectors_per_cluster b * 512)).

Definition ClusterToLBA (f : FAT32) (cluster : Z) : Z :=
  u32 (data_lba f + u32 (u32 (cluster - 2) * sectors_per_cluster (bpb f))).

(** The last cluster of a chain, and everything from it on. *)
Definition EOC : Z := 0x0FFFFFF8.

Definition NextCluster (f : FAT32) (cluster : Z) : result Z :=
  let fat_offset := u32 (cluster * 4) in
  let fat_sector := u32 (fat_lba f + fat_offset / 512) in
  let entry_offset := fat_offset mod 512 in
  '(_, sector) ← ReadSector f fat_sector junk 0;
  w ← get32 sector entry_offset;
  Ok (Z.land w 0x0FFFFFFF).

(** Into [buf] at offset [o]. *)
Definition ReadCluster (f : FAT32) (cluster : Z) (buf : list Z) (o : Z) : result (list Z) :=
  for_result 0 (sectors_per_cluster (bpb f)) (fun i buf =>
    '(_, buf) ← ReadSector f (u32 (ClusterToLBA f cluster + i)) buf (o + i * 512); Ok buf) buf.

(** ** Names *)

Definition upper (c : Z) : Z := if (97 <=? c) && (c <=? 122) then c - 32 else c.

(** The two loops of [ToShortName]; strings end with a zero. *)
Fixpoint short_base (component : list Z) (o : Z) (out : list Z) : result (list Z * list Z) :=
  match component with
  | [] => Err OutOfBounds
  | c :: rest =>
      if negb (c =? 0) && negb (c =? 46) && (o <? 8)
      then out ← arr_set out o (upper c); short_base rest (o + 1) out
      else Ok (component, out)
  end.

Fixpoint short_ext (component : list Z) (o : Z) (out : list Z) : result (list Z) :=
  match component with
  | [] => Err OutOfBounds
  | c :: rest =>
      if negb (c =? 0) && (o <? 11)
      then out ← arr_set out o (upper c); short_ext rest (o + 1) out
      else Ok out
  end.

Definition ToShortName (component : list Z) : result (list Z) :=
  '(rest, out) ← short_base component 0 (replicate 11 32);
  c ← arr_get rest 0;
  if c =? 46 then short_ext (drop 1 rest) 8 out else Ok out.

Definition NamesMatch (dir_name name83 : list Z) : result bool :=
  a ← get_bytes dir_name 0 11; b ← get_bytes name83 0 11; Ok (bytes_eqb a b).

(** ** Directory entries: 32 bytes *)

Definition entry_attr (e : list Z) : result Z := arr_get e 11.
Definition entry_cluster (e : list Z) : result Z :=
  hi ← get16 e 20; lo ← get16 e 26; Ok (Z.lor (Z.shiftl hi 16) lo).
Definition entry_size (e : list Z) : result Z := get32 e 28.

(** What the loops over the entries of a cluster decide for each entry. *)
Inductive verdict := Stop | Skip | Found.

(** The search of [FindEntry] in one cluster, entries [i] on, [n] left. *)
Fixpoint scan_entries (test : list Z -> result verdict) (n : nat) (buf : list Z) (i : Z)
    : result (verdict * Z) :=
  match n with
  | O => Ok (Skip, i)
  | S n =>
      e ← get_bytes buf (i * 32) 32;
      v ← test e;
      match v with Skip => scan_entries test n buf (i + 1) | _ => Ok (v, i) end
  end.

Definition find_test (name83 e : list Z) : result verdict :=
  c ← arr_get e 0;
  if c =? 0x00 then Ok Stop
  else if c =? 0xE5 then Ok Skip
  else
    a ← entry_attr e;
    if a =? 0x0F then Ok Skip
    else m ← NamesMatch e name83; Ok (if (m : bool) then Found else Skip).

Fixpoint find_in_chain (fuel : nat) (f : FAT32) (name83 : list Z) (cluster : Z) (buf : list Z)
    : result (option (list Z)) :=
  if cluster <? EOC then
    match fuel with
    | O => Err OutOfFuel
    | S fuel =>
        buf ← ReadCluster f cluster buf 0;
        '(v, i) ← scan_entries (find_test name83) (Z.to_nat (cluster_size f / 32)) buf 0;
        match v with
        | Stop => Ok None
        | Found => e ← get_bytes buf (i * 32) 32; Ok (Some e)
        | Skip => next ← NextCluster f cluster; find_in_chain fuel f name83 next buf
        end
    end
  else Ok None.

Definition FindEntry (fuel : nat) (f : FAT32) (dir_cluster : Z) (name : list Z)
    : result (option (list Z)) :=
  name83 ← ToShortName name;
  find_in_chain fuel f name83 dir_cluster junk4096.

(** ** Paths *)

(** Up to 12 characters before a slash or the end. *)
Fixpoint take_component (n : nat) (path : list Z) : result (list Z * list Z) :=
  match path with
  | [] => Err OutOfBounds
  | c :: rest =>
      match n with
      | O => Ok ([], path)
      | S n =>
          if negb (c =? 0) && negb (c =? 47)
          then '(comp, rest) ← take_component n rest; Ok (c :: comp, rest)
          else Ok ([], path)
      end
  end.

Fixpoint skip_slashes (path : list Z) : result (list Z) :=
  match path with
  | [] => Err OutOfBounds
  | c :: rest => if c =? 47 then skip_slashes rest else Ok path
  end.

Definition is_dir (e : list Z) : result bool :=
  a ← entry_attr e; Ok (negb (Z.land a 0x10 =? 0)).

Fixpoint resolve_parent (fuel : nat) (f : FAT32) (dir_cluster : Z) (path : list Z)
    : result (option (Z * list Z)) :=
  c ← arr_get path 0;
  if c =? 0 then Ok None
  else match fuel with
  | O => Err OutOfFuel
  | S n =>
      '(comp, path) ← take_component 12 path;
      c ← arr_get path 0;
      let path := if c =? 47 then drop 1 path else path in
      c ← arr_get path 0;
      if c =? 0 then Ok (Some (dir_cluster, comp ++ [0]))
      else
        r ← FindEntry fuel f dir_cluster (comp ++ [0]);
        match r with
        | None => Ok None
        | Some e =>
            d ← is_dir e;
            if negb d then Ok None
            else next ← entry_cluster e; resolve_parent n f next path
        end
  end.

Definition ResolveParentDir (fuel : nat) (f : FAT32) (path : list Z)
    : result (option (Z * list Z)) :=
  c ← arr_get path 0;
  resolve_parent fuel f (root_cluster (bpb f)) (if c =? 47 then drop 1 path else path).

Fixpoint resolve_from (fuel : nat) (f : FAT32) (dir_cluster : Z) (path : list Z)
    : result (option (list Z)) :=
  c ← arr_get path 0;
  if c =? 0 then Ok None
  else match fuel with
  | O => Err OutOfFuel
  | S n =>
      '(comp, path) ← take_component 12 path;
      r ← FindEntry fuel f dir_cluster (comp ++ [0]);
      match r with
      | None => Ok None
      | Some e =>
          path ← skip_slashes path;
          c ← arr_get path 0;
          if c =? 0 then Ok (Some e)
          else
            d ← is_dir e;
            if negb d then Ok None
            else next ← entry_cluster e; resolve_from n f next path
      end
  end.

(** The path of an existing entry, the root, or nothing. *)
Inductive target := Root | Entry (e : list Z).

Definition ResolvePath (fuel : nat) (f : FAT32) (path : list Z) : result (option target) :=
  c ← arr_get path 0;
  if c =? 0 then Ok (Some Root)
  else
    path ← skip_slashes path;
    c ← arr_get path 0;
    if c =? 0 then Ok (Some Root)
    else
      r ← resolve_from fuel f (root_cluster (bpb f)) path;
      Ok (match r with Some e => Some (Entry e) | None => None end).

(** ** Reading a file *)

Fixpoint read_chain (fuel : nat) (f : FAT32) (cluster : Z) (buffer : list Z) (written : Z)
    : result (list Z) :=
  if cluster <? EOC then
    match fuel with
    | O => Err OutOfFuel
    | S fuel =>
        buffer ← ReadCluster f cluster buffer written;
        next ← NextCluster f cluster;
        read_chain fuel f next buffer (u32 (written + cluster_size f))
    end
  else Ok buffer.

(** [None] when the function returns false; otherwise the buffer and [*size]. *)
Definition ReadFile (fuel : nat) (f : FAT32) (path buffer : list Z) : result (option (list Z * Z)) :=
  t ← ResolvePath fuel f path;
  match t with
  | Some (Entry e) =>
      d ← is_dir e;
      if (d : bool) then Ok None
      else
        size ← entry_size e;
        cluster ← entry_cluster e;
        buffer ← read_chain fuel f cluster buffer 0;
        Ok (Some (buffer, size))
  | _ => Ok None
  end.

(** ** Writing *)

(** Sector by sector; a failed write returns at once, so the rest is skipped. *)
Definition WriteCluster (f : FAT32) (cluster : Z) (buffer : list Z) : result (bool * FAT32) :=
  let lba := ClusterToLBA f cluster in
  for_result 0 (sectors_per_cluster (bpb f)) (fun i '(ok, f) =>
    if (ok : bool) then WriteSector f (u32 (lba + i)) buffer (i * 512) else Ok (false, f)) (true, f).

Definition total_sectors (f : FAT32) : Z :=
  if negb (total_sectors_32 (bpb f) =? 0) then total_sectors_32 (bpb f) else total_sectors_16 (bpb f).

(** The number of clusters and the two reserved ones, when the division is defined. *)
Definition max_cluster (f : FAT32) : Z :=
  let data_offset := u32 (data_lba f - partition_lba f) in
  u32 (2 + (if total_sectors f >? data_offset
            then (total_sectors f - data_offset) / sectors_per_cluster (bpb f) else 0)).

(** The entries [i] to 127 of FAT sector [s]: the first free cluster. *)
Fixpoint alloc_in_sector (n : nat) (sector : list Z) (s i maxc : Z) : result (option Z) :=
  match n with
  | O => Ok None
  | S n =>
      let cluster := u32 (s * 128 + i) in
      if (cluster <? 3) || (cluster >=? maxc) then alloc_in_sector n sector s (i + 1) maxc
      else
        w ← get32 sector (i * 4);
        if Z.land w 0x0FFFFFFF =? 0 then Ok (Some cluster)
        else alloc_in_sector n sector s (i + 1) maxc
  end.

Fixpoint alloc_from (n : nat) (f : FAT32) (sector : list Z) (s : Z) : result Z :=
  match n with
  | O => Ok 0
  | S n =>
      '(ok, sector) ← ReadSector f (u32 (fat_lba f + s)) sector 0;
      if negb ok then alloc_from n f sector (s + 1)
      else
        r ← alloc_in_sector 128 sector s 0 (max_cluster f);
        match r with Some c => Ok c | None => alloc_from n f sector (s + 1) end
  end.

(** 0 when the volume is full. *)
Definition AllocCluster (f : FAT32) : result Z :=
  if (total_sectors f >? u32 (data_lba f - partition_lba f)) && (sectors_per_cluster (bpb f) =? 0)
  then Err DivideError
  else alloc_from (Z.to_nat (fat_size_32 (bpb f))) f junk 0.

(** One copy of the FAT. *)
Definition set_fat_word (f : FAT32) (sector_lba entry_offset value : Z) (sector : list Z)
    : result (bool * FAT32 * list Z) :=
  '(ok, sector) ← ReadSector f sector_lba sector 0;
  if negb ok then Ok (false, f, sector)
  else
    sector ← put_bytes sector entry_offset (le32 (Z.land value 0x0FFFFFFF));
    '(ok, f) ← WriteSector f sector_lba sector 0;
    Ok (ok, f, sector).

Definition SetFATEntry (f : FAT32) (cluster value : Z) : result (bool * FAT32) :=
  let fat_offset := u32 (cluster * 4) in
  let entry_offset := fat_offset mod 512 in
  '(ok, f, sector) ← set_fat_word f (u32 (fat_lba f + fat_offset / 512)) entry_offset value junk;
  if negb ok then Ok (false, f)
  else if fat_count (bpb f) >? 1 then
    '(ok, f, _) ← set_fat_word f (u32 (fat_lba f + fat_size_32 (bpb f) + fat_offset / 512))
                    entry_offset value sector;
    Ok (ok, f)
  else Ok (true, f).

Definition buf_size (f : FAT32) : Z := if cluster_size f <? 4096 then cluster_size f else 4096.

(** [for (i = 0; i < buf_size; i++) cluster_buf[i] = (i < to_write) ? buf[written + i] : 0] *)
Definition fill_cluster (f : FAT32) (cluster_buf buf : list Z) (written to_write : Z)
    : result (list Z) :=
  for_result 0 (buf_size f) (fun i cb =>
    x ← (if i <? to_write then arr_get buf (written + i) else Ok 0);
    arr_set cb i x) cluster_buf.

Fixpoint write_chain (fuel : nat) (f : FAT32) (cluster : Z) (buf : list Z) (size written : Z)
    (cluster_buf : list Z) : result (bool * FAT32) :=
  if written <? size then
    match fuel with
    | O => Err OutOfFuel
    | S fuel =>
        let to_write := u32 (size - written) in
        let to_write := if to_write >? buf_size f then buf_size f else to_write in
        cluster_buf ← fill_cluster f cluster_buf buf written to_write;
        '(ok, f) ← WriteCluster f cluster cluster_buf;
        if negb ok then Ok (false, f)
        else
          let written := u32 (written + to_write) in
          if written <? size then
            next ← AllocCluster f;
            if next =? 0 then Ok (false, f)
            else
              '(ok, f) ← SetFATEntry f cluster next;
              if negb ok then Ok (false, f)
              else
                '(ok, f) ← SetFATEntry f next 0x0FFFFFFF;
                if negb ok then Ok (false, f)
                else write_chain fuel f next buf size written cluster_buf
          else
            '(ok, f) ← SetFATEntry f cluster 0x0FFFFFFF;
            if negb ok then Ok (false, f)
            else write_chain fuel f cluster buf size written cluster_buf
    end
  else Ok (true, f).

Definition WriteClusterChain (fuel : nat) (f : FAT32) (first_cluster : Z) (buf : list Z) (size : Z)
    : result (bool * FAT32) :=
  if size =? 0 then
    cluster_buf ← fill_cluster f junk4096 [] 0 0;
    '(_, f) ← WriteCluster f first_cluster cluster_buf;
    SetFATEntry f first_cluster 0x0FFFFFFF
  else write_chain fuel f first_cluster buf size 0 junk4096.

(** The 32 bytes of an entry. *)
Definition BuildDirEntry (name83 : list Z) (attr cluster size : Z) : list Z :=
  take 11 name83 ++ [attr; 0; 0] ++ le16 0x0000 ++ le16 0x4A21 ++ le16 0x4A21 ++
  le16 (u16 (Z.shiftr cluster 16)) ++ le16 0x0000 ++ le16 0x4A21 ++
  le16 (Z.land cluster 0xFFFF) ++ le32 size.

Definition free_test (e : list Z) : result verdict :=
  c ← arr_get e 0; Ok (if (c =? 0x00) || (c =? 0xE5) then Found else Skip).

Fixpoint add_in_chain (fuel : nat) (f : FAT32) (entry : list Z) (cluster prev_cluster : Z)
    (cluster_buf : list Z) : result (bool * FAT32) :=
  if cluster <? EOC then
    match fuel with
    | O => Err OutOfFuel
    | S fuel =>
        cluster_buf ← ReadCluster f cluster cluster_buf 0;
        '(v, i) ← scan_entries free_test (Z.to_nat (buf_size f / 32)) cluster_buf 0;
        match v with
        | Found =>
            cluster_buf ← put_bytes cluster_buf (i * 32) entry;
            WriteCluster f cluster cluster_buf
        | _ =>
            next ← NextCluster f cluster;
            add_in_chain fuel f entry next cluster cluster_buf
        end
    end
  else
    new_cluster ← AllocCluster f;
    if new_cluster =? 0 then Ok (false, f)
    else
      cluster_buf ← fill_cluster f cluster_buf [] 0 0;
      cluster_buf ← put_bytes cluster_buf 0 entry;
      '(ok, f) ← SetFATEntry f prev_cluster new_cluster;
      if negb ok then Ok (false, f)
      else
        '(ok, f) ← SetFATEntry f new_cluster 0x0FFFFFFF;
        if negb ok then Ok (false, f) else WriteCluster f new_cluster cluster_buf.

Definition AddDirEntry (fuel : nat) (f : FAT32) (dir_cluster : Z) (entry : list Z)
    : result (bool * FAT32) :=
  add_in_chain fuel f entry dir_cluster 0 junk4096.

Definition mark_test (name83 e : list Z) : result verdict :=
  c ← arr_get e 0;
  if c =? 0x00 then Ok Stop
  else if c =? 0xE5 then Ok Skip
  else m ← NamesMatch e name83; Ok (if (m : bool) then Found else Skip).

Fixpoint mark_in_chain (fuel : nat) (f : FAT32) (name83 : list Z) (cluster : Z) (cluster_buf : list Z)
    : result (bool * FAT32) :=
  if cluster <? EOC then
    match fuel with
    | O => Err OutOfFuel
    | S fuel =>
        cluster_buf ← ReadCluster f cluster cluster_buf 0;
        '(v, i) ← scan_entries (mark_test name83) (Z.to_nat (buf_size f / 32)) cluster_buf 0;
        match v with
        | Stop => Ok (false, f)
        | Found =>
            cluster_buf ← put_bytes cluster_buf (i * 32) [0xE5];
            WriteCluster f cluster cluster_buf
        | Skip => next ← NextCluster f cluster; mark_in_chain fuel f name83 next cluster_buf
        end
    end
  else Ok (false, f).

Definition MarkEntryDeleted (fuel : nat) (f : FAT32) (dir_cluster : Z) (name83 : list Z)
    : result (bool * FAT32) :=
  mark_in_chain fuel f name83 dir_cluster junk4096.

(** [while (c >= 2 && c < 0x0FFFFFF8)] of [WriteFile] and [DeleteFile] *)
Fixpoint free_chain (fuel : nat) (f : FAT32) (c : Z) : result FAT32 :=
  if (c >=? 2) && (c <? EOC) then
    match fuel with
    | O => Err OutOfFuel
    | S fuel =>
        next ← NextCluster f c;
        '(_, f) ← SetFATEntry f c 0;
        free_chain fuel f next
    end
  else Ok f.

Definition WriteFile (fuel : nat) (f : FAT32) (path buffer : list Z) (size : Z)
    : result (bool * FAT32) :=
  r ← ResolveParentDir fuel f path;
  match r with
  | None => Ok (false, f)
  | Some (dir_cluster, component) =>
      name83 ← ToShortName component;
      existing ← FindEntry fuel f dir_cluster component;
      d ← (match existing with Some e => is_dir e | None => Ok false end);
      if (d : bool) then Ok (false, f)
      else
        f ← (match existing with
             | Some e => c ← entry_cluster e; free_chain fuel f c
             | None => Ok f
             end);
        first ← AllocCluster f;
        if first =? 0 then Ok (false, f)
        else
          '(ok, f) ← SetFATEntry f first 0x0FFFFFFF;
          if negb ok then Ok (false, f)
          else
            '(ok, f) ← WriteClusterChain fuel f first buffer size;
            if negb ok then Ok (false, f)
            else
              f ← (match existing with
                   | Some _ => '(_, f) ← MarkEntryDeleted fuel f dir_cluster name83; Ok f
                   | None => Ok f
                   end);
              AddDirEntry fuel f dir_cluster (BuildDirEntry name83 0x20 first size)
  end.

Definition DeleteFile (fuel : nat) (f : FAT32) (path : list Z) : result (bool * FAT32) :=
  r ← ResolveParentDir fuel f path;
  match r with
  | None => Ok (false, f)
  | Some (dir_cluster, component) =>
      name83 ← ToShortName component;
      existing ← FindEntry fuel f dir_cluster component;
      match existing with
      | None => Ok (false, f)
      | Some e =>
          d ← is_dir e;
          if (d : bool) then Ok (false, f)
          else
            c ← entry_cluster e;
            f ← free_chain fuel f c;
            MarkEntryDeleted fuel f dir_cluster name83
      end
  end.

Definition CreateFile (fuel : nat) (f : FAT32) (path : list Z) : result (bool * FAT32) :=
  WriteFile fuel f path [] 0.

Definition DOT : list Z := 46 :: replicate 10 32.
Definition DOTDOT : list Z := 46 :: 46 :: replicate 9 32.

Definition MakeDir (fuel : nat) (f : FAT32) (path : list Z) : result (bool * FAT32) :=
  r ← ResolveParentDir fuel f path;
  match r with
  | None => Ok (false, f)
  | Some (dir_cluster, component) =>
      name83 ← ToShortName component;
      new_cluster ← AllocCluster f;
      if new_cluster =? 0 then Ok (false, f)
      else
        '(ok, f) ← SetFATEntry f new_cluster 0x0FFFFFFF;
        if negb ok then Ok (false, f)
        else
          cluster_buf ← fill_cluster f junk4096 [] 0 0;
          let parent := if dir_cluster =? root_cluster (bpb f) then 0 else dir_cluster in
          cluster_buf ← put_bytes cluster_buf 0 (BuildDirEntry DOT 0x10 new_cluster 0);
          cluster_buf ← put_bytes cluster_buf 32 (BuildDirEntry DOTDOT 0x10 parent 0);
          '(ok, f) ← WriteCluster f new_cluster cluster_buf;
          if negb ok then Ok (false, f)
          else AddDirEntry fuel f dir_cluster (BuildDirEntry name83 0x10 new_cluster 0)
  end.

Definition IsDirectory (fuel : nat) (f : FAT32) (path : list Z) : result bool :=
  t ← ResolvePath fuel f path;
  match t with
  | None => Ok false
  | Some Root => Ok true
  | Some (Entry e) => is_dir e
  end.

(** ** Directory listings *)

(** The cluster of the directory [path] names. *)
Definition dir_of (fuel : nat) (f : FAT32) (path : list Z) : result (option Z) :=
  t ← ResolvePath fuel f path;
  match t with
  | None => Ok None
  | Some Root => Ok (Some (root_cluster (bpb f)))
  | Some (Entry e) =>
      d ← is_dir e;
      if negb d then Ok None else c ← entry_cluster e; Ok (Some c)
  end.

Definition list_test (e : list Z) : result verdict :=
  c ← arr_get e 0;
  if c =? 0x00 then Ok Stop
  else if c =? 0xE5 then Ok Skip
  else
    a ← entry_attr e;
    if a =? 0x0F then Ok Skip
    else if c =? 46 then Ok Skip else Ok Found.

Section listing.
Context {S : Type} (emit : S -> Z -> result S).

(** The name and the extension of an entry, without the padding. *)
Definition emit_name (e : list Z) (s : S) : result S :=
  s ← for_result 0 8 (fun k s =>
        c ← arr_get e k; if c =? 32 then Ok s else emit s c) s;
  x ← arr_get e 8;
  if x =? 32 then Ok s
  else
    s ← emit s 46;
    for_result 0 3 (fun k s =>
      c ← arr_get e (8 + k); if c =? 32 then Ok s else emit s c) s.

Context (emit_entry : list Z -> S -> result S).

(** The entries of one cluster; the flag is [done]. *)
Fixpoint list_cluster (n : nat) (buf : list Z) (j : Z) (s : S) : result (bool * S) :=
  match n with
  | O => Ok (false, s)
  | Datatypes.S n =>
      e ← get_bytes buf (j * 32) 32;
      v ← list_test e;
      match v with
      | Stop => Ok (true, s)
      | Skip => list_cluster n buf (j + 1) s
      | Found => s ← emit_entry e s; list_cluster n buf (j + 1) s
      end
  end.

Fixpoint list_chain (fuel : nat) (f : FAT32) (epc : Z) (cluster : Z) (buf : list Z) (s : S)
    : result S :=
  if cluster <? EOC then
    match fuel with
    | O => Err OutOfFuel
    | Datatypes.S fuel =>
        buf ← ReadCluster f cluster buf 0;
        '(done, s) ← list_cluster (Z.to_nat epc) buf 0 s;
        next ← NextCluster f cluster;
        if done : bool then Ok s else list_chain fuel f epc next buf s
    end
  else Ok s.
End listing.

(** [buf[out_pos++] = c] *)
Definition emit_buf (s : list Z * Z) (c : Z) : result (list Z * Z) :=
  buf ← arr_set (fst s) (snd s) c; Ok (buf, u32 (snd s + 1)).

Definition emit_line (e : list Z) (s : list Z * Z) : result (list Z * Z) :=
  s ← emit_name emit_buf e s;
  d ← is_dir e;
  s ← (if d : bool then emit_buf s 47 else Ok s);
  emit_buf s 10.

(** The buffer and [*len]. *)
Definition ListDirectoryToBuffer (fuel : nat) (f : FAT32) (path buf : list Z)
    : result (option (list Z * Z)) :=
  d ← dir_of fuel f path;
  match d with
  | None => Ok None
  | Some c => s ← list_chain emit_line fuel f (buf_size f / 32) c junk4096 (buf, 0); Ok (Some s)
  end.

(** The 256-byte output buffer, and what has been flushed from it. *)
Record Output := mkOut { out : list Z; out_pos : Z; flushed : list (list Z) }.

Definition fat_output_flush (o : Output) : result Output :=
  if out_pos o =? 0 then Ok o
  else
    chunk ← get_bytes (out o) 0 (out_pos o);
    Ok (mkOut (out o) 0 (flushed o ++ [chunk])).

Definition fat_output_char (cap : Z) (o : Output) (c : Z) : result Output :=
  o ← (if out_pos o >=? cap then fat_output_flush o else Ok o);
  b ← arr_set (out o) (out_pos o) c;
  Ok (mkOut b (u32 (out_pos o + 1)) (flushed o)).

Fixpoint fat_output_str (cap : Z) (o : Output) (s : list Z) : result Output :=
  match s with
  | [] => Err OutOfBounds
  | c :: s => if c =? 0 then Ok o else o ← fat_output_char cap o c; fat_output_str cap o s
  end.

(** [digits], the last one first in the array. *)
Fixpoint decimal (room : nat) (value : Z) (digits : list Z) : list Z :=
  match room with
  | O => digits
  | S room => if value >? 0 then decimal room (value / 10) (48 + value mod 10 :: digits)
              else digits
  end.

Definition fat_output_u32 (cap : Z) (o : Output) (value : Z) : result Output :=
  if value =? 0 then fat_output_char cap o 48
  else fold_result (fun c o => fat_output_char cap o c) (decimal 10 value []) o.

Definition cap : Z := 256.

(** A character of the name column: [fat_output_char] and [name_len++]. *)
Definition emit_col (s : Output * Z) (c : Z) : result (Output * Z) :=
  o ← fat_output_char cap (fst s) c; Ok (o, u32 (snd s + 1)).

(** One entry; the second component of the state is [rendered]. *)
Definition emit_row (e : list Z) (s : Output * Z) : result (Output * Z) :=
  d ← is_dir e;
  '(o, name_len) ← emit_name emit_col e (fst s, 0);
  '(o, name_len) ← (if d : bool then emit_col (o, name_len) 47 else Ok (o, name_len));
  '(o, _) ← for_result name_len 13 (fun _ s => emit_col s 32) (o, name_len);
  o ← (if d : bool then fat_output_str cap o [60; 68; 73; 82; 62; 0]
       else size ← entry_size e; fat_output_u32 cap o size);
  let rendered := u32 (snd s + 1) in
  o ← (if Z.land rendered 1 =? 0 then fat_output_char cap o 10
       else o ← fat_output_char cap o 32; fat_output_char cap o 32);
  Ok (o, rendered).

(** [out256] is what [out] holds at first; the result is what reached the terminal. *)
Definition ListDirectory (fuel : nat) (f : FAT32) (path out256 : list Z)
    : result (option (list (list Z))) :=
  d ← dir_of fuel f path;
  match d with
  | None => Ok None
  | Some c =>
      '(o, rendered) ← list_chain emit_row fuel f (cluster_size f / 32) c junk4096
                         (mkOut out256 0 [], 0);
      o ← (if negb (Z.land rendered 1 =? 0) then fat_output_char cap o 10 else Ok o);
      o ← fat_output_flush o;
      Ok (Some (flushed o))
  end.

End code.

End Fat.
