(* ===== verification/FatVolume.v ===== *)
(** What a FAT32 volume is, and that the sector- and cluster-level operations of
    src/src/fs/fat32.cpp implement it.

    The abstract state of a volume is a function from cluster numbers to FAT
    entries ([fat_of]) and one from cluster numbers to contents ([data_of]);
    [volume] is the well-formedness of the disk under it, the copies of the FAT
    included.  Every operation is shown to return, to keep [volume] and to update
    the two functions at the clusters it names only. *)

From stdpp Require Import base numbers list gmap.
From Stdlib Require Import ZArith Lia.
From S2P Require Import Prelude Net Fat32.

Module FatVolume.
Import Net Fat.

(** ** The abstract state *)

Definition sector_at (d : disk) (k : Z) : list Z := default [] (d !! k).

Definition word_at (s : list Z) (i : Z) : Z :=
  match get32 s (4 * i) with Ok w => w | Err _ => 0 end.

(** The entry of cluster [c] in the copy of the FAT that starts at [base]. *)
Definition entry_at (d : disk) (base c : Z) : Z :=
  Z.land (word_at (sector_at d (base + c / 128)) (c mod 128)) 0x0FFFFFFF.

Definition fat_of (f : FAT32) (c : Z) : Z := entry_at (ata f) (fat_lba f) c.

Definition cluster_lba (f : FAT32) (c : Z) : Z :=
  data_lba f + (c - 2) * sectors_per_cluster (bpb f).

Definition data_of (f : FAT32) (c : Z) : list Z :=
  mjoin (map (fun i => sector_at (ata f) (cluster_lba f c + i))
             (seqZ 0 (sectors_per_cluster (bpb f)))).

(** The end of the data area. *)
Definition volume_end (f : FAT32) : Z :=
  data_lba f + (max_cluster f - 2) * sectors_per_cluster (bpb f).

Definition sector_ok (s : list Z) : Prop := length s = 512%nat /\ is_bytes s.

Definition disk_ok (f : FAT32) (d : disk) : Prop :=
  forall k, fat_lba f <= k < volume_end f -> exists s, d !! k = Some s /\ sector_ok s.

(** The number of entries of the FAT. *)
Definition fat_len (f : FAT32) : Z := fat_size_32 (bpb f) * 128.

Record geometry (f : FAT32) : Prop := {
  v_spc : 1 <= sectors_per_cluster (bpb f) <= 8;
  v_cluster_size : cluster_size f = sectors_per_cluster (bpb f) * 512;
  v_fats : 1 <= fat_count (bpb f);
  v_fat_size : 1 <= fat_size_32 (bpb f) <= 2 ^ 21;
  v_fat_lba : 0 <= fat_lba f;
  v_data_lba : data_lba f = fat_lba f + fat_count (bpb f) * fat_size_32 (bpb f);
  v_max : 2 <= max_cluster f <= fat_len f;
  v_eoc : max_cluster f <= EOC;
  v_end : volume_end f <= 2 ^ 28;
}.

(** The driver keeps the first two copies of the FAT equal; it never writes a third. *)
Record volume (f : FAT32) : Prop := {
  v_geometry : geometry f;
  v_disk : disk_ok f (ata f);
  v_mirror : 1 < fat_count (bpb f) -> forall c, 0 <= c < fat_len f ->
    entry_at (ata f) (fat_lba f + fat_size_32 (bpb f)) c = fat_of f c;
}.

(** ** Words of a sector *)

Lemma get32_ext (s s' : list Z) o :
  0 <= o -> (forall k, (Z.to_nat o <= k < Z.to_nat o + 4)%nat -> s !! k = s' !! k) ->
  get32 s o = get32 s' o.
Proof.
  intros Ho H. unfold get32, get16, arr_get.
  destruct (Z.ltb_spec o 0), (Z.ltb_spec (o + 1) 0), (Z.ltb_spec (o + 2) 0),
    (Z.ltb_spec (o + 2 + 1) 0); try lia.
  rewrite !H by lia. done.
Qed.

Lemma get32_in_range (s : list Z) o :
  is_bytes s -> 0 <= o -> o + 4 <= Z.of_nat (length s) ->
  exists w, get32 s o = Ok w /\ is_u32 w.
Proof.
  intros Hb Ho Hl. unfold get32, get16.
  assert (G : forall i, 0 <= i < Z.of_nat (length s) -> exists x, arr_get s i = Ok x /\ is_u8 x).
  { intros i Hi. destruct (arr_get_in_range s i Hi) as [x Hx]. exists x. split; [done|].
    apply arr_get_Ok in Hx as [_ Hx]. by eapply Forall_lookup_1 in Hx. }
  destruct (G o ltac:(lia)) as (a & -> & Ha), (G (o + 1) ltac:(lia)) as (b & -> & Hbb),
    (G (o + 2) ltac:(lia)) as (c & -> & Hc), (G (o + 2 + 1) ltac:(lia)) as (e & -> & He).
  cbn [mbind result_bind]. eexists. split; [reflexivity|]. zify_words. lia.
Qed.

(** Storing entry [i] of a FAT sector. *)
Definition set_word (s : list Z) (i w : Z) : list Z :=
  take (Z.to_nat (4 * i)) s ++ le32 w ++ drop (Z.to_nat (4 * i) + 4) s.

Lemma le32_is_bytes x : is_bytes (le32 x).
Proof. repeat constructor; apply Z.mod_pos_bound; lia. Qed.

Lemma set_word_ok s i w : sector_ok s -> 0 <= i < 128 -> sector_ok (set_word s i w).
Proof.
  intros [Hl Hb] Hi. unfold set_word. split.
  - rewrite !length_app, length_take, length_drop. cbn [le32 length]. lia.
  - rewrite !Forall_app. split; [by apply Forall_take|]. split; [apply le32_is_bytes|].
    by apply Forall_drop.
Qed.

Lemma word_at_set s i w j :
  sector_ok s -> 0 <= i < 128 -> 0 <= j < 128 -> is_u32 w ->
  word_at (set_word s i w) j = if j =? i then w else word_at s j.
Proof.
  intros [Hl Hb] Hi Hj Hw. unfold word_at. destruct (Z.eqb_spec j i) as [->|Hne].
  - rewrite (get32_le32 _ _ w); [done | done | | lia]. unfold set_word.
    rewrite drop_app_length' by (rewrite length_take; lia). done.
  - rewrite (get32_ext _ s); [done | lia |]. intros k Hk. unfold set_word.
    destruct (decide (j < i)).
    + rewrite lookup_app_l by (rewrite length_take; lia). rewrite lookup_take_lt by lia. done.
    + rewrite lookup_app_r by (rewrite length_take; lia). rewrite length_take, lookup_app_r.
      2:{ cbn [le32 length]. lia. }
      rewrite lookup_drop. cbn [le32 length]. f_equal. lia.
Qed.

Lemma put_fat_word s i w :
  length s = 512%nat -> 0 <= i < 128 -> put_bytes s (4 * i) (le32 w) = Ok (set_word s i w).
Proof. intros Hl Hi. rewrite put_bytes_ok by (cbn [le32 length]; lia). done. Qed.

Lemma word_at_get s i :
  sector_ok s -> 0 <= i < 128 -> get32 s (4 * i) = Ok (word_at s i) /\ is_u32 (word_at s i).
Proof.
  intros [Hl Hb] Hi. unfold word_at.
  destruct (get32_in_range s (4 * i) Hb ltac:(lia) ltac:(lia)) as (w & -> & Hw). done.
Qed.

(** A cluster number against the sectors of the FAT. *)
Lemma fat_offset c :
  0 <= c < 2 ^ 28 ->
  u32 (c * 4) / 512 = c / 128 /\ u32 (c * 4) mod 512 = 4 * (c mod 128) /\ 0 <= c mod 128 < 128.
Proof.
  intros Hc. change (2 ^ 28) with 268435456 in Hc. rewrite u32_small by (zify_words; lia).
  split; [Z.div_mod_to_equations; lia|]. split; Z.div_mod_to_equations; lia.
Qed.

(** ** Sectors *)

Lemma lba28_small k : 0 <= k < 2 ^ 28 -> lba28 k = k.
Proof.
  intros Hk. unfold lba28. change 0x0FFFFFFF with (Z.ones 28). rewrite Z.land_ones by lia.
  by apply Z.mod_small.
Qed.

Lemma sector_at_ok f d k :
  disk_ok f d -> fat_lba f <= k < volume_end f ->
  d !! k = Some (sector_at d k) /\ sector_ok (sector_at d k).
Proof. intros Hd Hk. destruct (Hd k Hk) as (s & Hs & Hok). unfold sector_at. by rewrite Hs. Qed.

Lemma sector_range f k :
  geometry f -> fat_lba f <= k < volume_end f -> 0 <= k < 2 ^ 28 /\ is_u32 k.
Proof. intros [] Hk. change (2 ^ 28) with 268435456 in *. zify_words. lia. Qed.

Lemma ReadSector_ok f k buf o :
  geometry f -> disk_ok f (ata f) -> fat_lba f <= k < volume_end f ->
  0 <= o -> o + 512 <= Z.of_nat (length buf) ->
  ReadSector f k buf o =
  Ok (true, take (Z.to_nat o) buf ++ sector_at (ata f) k ++ drop (Z.to_nat (o + 512)) buf).
Proof.
  intros Hg Hd Hk Ho Hl. destruct (sector_range f k Hg Hk) as [Hr _].
  destruct (sector_at_ok f _ k Hd Hk) as [Hs [Hlen _]].
  unfold ReadSector, drive_read. rewrite lba28_small, Hs by done.
  rewrite put_bytes_ok by (rewrite ?Hlen; lia). cbn [mbind result_bind].
  rewrite Hlen. do 4 f_equal. f_equal. lia.
Qed.

Lemma ReadSector_whole f k buf :
  geometry f -> disk_ok f (ata f) -> fat_lba f <= k < volume_end f -> length buf = 512%nat ->
  ReadSector f k buf 0 = Ok (true, sector_at (ata f) k).
Proof.
  intros Hg Hd Hk Hl. rewrite ReadSector_ok by (done || lia). cbn [take Z.to_nat app].
  rewrite drop_ge by lia. by rewrite app_nil_r.
Qed.

Lemma WriteSector_ok f k buf o :
  geometry f -> disk_ok f (ata f) -> fat_lba f <= k < volume_end f ->
  0 <= o -> o + 512 <= Z.of_nat (length buf) ->
  WriteSector f k buf o = Ok (true, set_ata f (<[k := take 512 (drop (Z.to_nat o) buf)]> (ata f))).
Proof.
  intros Hg Hd Hk Ho Hl. destruct (sector_range f k Hg Hk) as [Hr _].
  destruct (sector_at_ok f _ k Hd Hk) as [Hs _].
  unfold WriteSector, drive_write, get_bytes.
  rewrite (proj2 (Z.leb_le 0 o)), (proj2 (Z.leb_le (o + 512) _)) by lia.
  cbn [mbind result_bind andb]. rewrite lba28_small, Hs by done. done.
Qed.

Lemma disk_ok_insert f d k s : disk_ok f d -> sector_ok s -> disk_ok f (<[k := s]> d).
Proof.
  intros Hd Hs j Hj. destruct (decide (j = k)) as [->|].
  - exists s. by rewrite lookup_insert_eq.
  - destruct (Hd j Hj) as (s' & ? & ?). exists s'. by rewrite lookup_insert_ne.
Qed.

Lemma sector_at_insert d k s j : sector_at (<[k := s]> d) j = if decide (j = k) then s else sector_at d j.
Proof.
  unfold sector_at. destruct (decide (j = k)) as [->|]; [by rewrite lookup_insert_eq|].
  by rewrite lookup_insert_ne.
Qed.

(** ** The geometry *)

Lemma fat_sector_range f base c :
  geometry f -> fat_lba f <= base -> base + fat_size_32 (bpb f) <= data_lba f ->
  0 <= c < fat_len f -> fat_lba f <= base + c / 128 < volume_end f.
Proof.
  intros [] Hb1 Hb2 Hc. unfold volume_end, fat_len in *.
  assert (0 <= c / 128 < fat_size_32 (bpb f)) by (Z.div_mod_to_equations; lia).
  assert (0 <= (max_cluster f - 2) * sectors_per_cluster (bpb f)) by nia. lia.
Qed.

Lemma cluster_range f c i :
  geometry f -> 2 <= c < max_cluster f -> 0 <= i < sectors_per_cluster (bpb f) ->
  data_lba f <= cluster_lba f c + i < volume_end f.
Proof. intros [] Hc Hi. unfold cluster_lba, volume_end. nia. Qed.

Lemma data_after_fat f : geometry f -> fat_lba f + fat_size_32 (bpb f) <= data_lba f.
Proof. intros []. nia. Qed.

Lemma fat_len_bound f : geometry f -> fat_len f <= 2 ^ 28.
Proof. intros []. unfold fat_len. change (2 ^ 21) with 2097152 in *. change (2 ^ 28) with 268435456. lia. Qed.

Lemma ClusterToLBA_ok f c :
  geometry f -> 2 <= c < max_cluster f -> ClusterToLBA f c = cluster_lba f c.
Proof.
  intros Hg Hc. pose proof (cluster_range f c 0 Hg Hc) as Hr. destruct Hg. unfold ClusterToLBA, cluster_lba in *.
  unfold EOC in *. change (2 ^ 28) with 268435456 in *.
  rewrite (u32_small (c - 2)) by (zify_words; lia).
  rewrite (u32_small (_ * _)) by (zify_words; nia). apply u32_small. zify_words. lia.
Qed.

(** The disk under a volume, replaced. *)
Lemma geometry_set f d : geometry f -> geometry (set_ata f d).
Proof. intros []. by constructor. Qed.

(** ** Operations as updates of the abstract state *)

Definition upd {A} (g : Z -> A) (c : Z) (x : A) : Z -> A := fun k => if k =? c then x else g k.

Lemma upd_eq {A} (g : Z -> A) c x : upd g c x c = x.
Proof. unfold upd. by rewrite Z.eqb_refl. Qed.

Lemma upd_ne {A} (g : Z -> A) c x k : k <> c -> upd g c x k = g k.
Proof. unfold upd. intros H. by destruct (Z.eqb_spec k c). Qed.

(** [f'] is the volume [f] with the abstract state [fat'], [data']. *)
Record updates (f f' : FAT32) (fat' : Z -> Z) (data' : Z -> list Z) : Prop := {
  u_disk : exists d, f' = set_ata f d;
  u_volume : volume f';
  u_fat : forall c, 0 <= c < fat_len f -> fat_of f' c = fat' c;
  u_data : forall c, 2 <= c < max_cluster f -> data_of f' c = data' c;
}.

Lemma mask_idem v : Z.land (Z.land v 0x0FFFFFFF) 0x0FFFFFFF = Z.land v 0x0FFFFFFF.
Proof. rewrite <- Z.land_assoc. f_equal. Qed.

Lemma mask_u32 v : is_u32 v -> is_u32 (Z.land v 0x0FFFFFFF).
Proof. intros H. apply land_u32; [done | lia]. Qed.

(** *** FAT entries *)

Lemma entry_at_set d base c c' w :
  sector_ok (sector_at d (base + c / 128)) -> 0 <= c -> 0 <= c' -> is_u32 w ->
  entry_at (<[base + c / 128 := set_word (sector_at d (base + c / 128)) (c mod 128) w]> d) base c' =
  if c' =? c then Z.land w 0x0FFFFFFF else entry_at d base c'.
Proof.
  intros Hs Hc Hc' Hw. unfold entry_at. rewrite sector_at_insert.
  destruct (decide (base + c' / 128 = base + c / 128)) as [E|E].
  - rewrite word_at_set; [|done | apply Z.mod_pos_bound; lia.. | done].
    rewrite E. destruct (Z.eqb_spec (c' mod 128) (c mod 128)), (Z.eqb_spec c' c); subst; try done.
    exfalso. Z.div_mod_to_equations. lia.
  - destruct (Z.eqb_spec c' c) as [->|]; [done|]. done.
Qed.

Lemma entry_at_elsewhere d base k s c :
  k <> base + c / 128 -> entry_at (<[k := s]> d) base c = entry_at d base c.
Proof. intros H. unfold entry_at. rewrite sector_at_insert, decide_False; [done | lia]. Qed.

Lemma data_of_elsewhere f k s c :
  geometry f -> 2 <= c < max_cluster f -> k < data_lba f ->
  data_of (set_ata f (<[k := s]> (ata f))) c = data_of f c.
Proof.
  intros Hg Hc Hk. unfold data_of. f_equal. apply map_ext_in. intros i Hi.
  apply list_elem_of_In, elem_of_seqZ in Hi. cbn [ata set_ata].
  rewrite sector_at_insert, decide_False; [done|].
  pose proof (cluster_range f c i Hg Hc). unfold cluster_lba in *. cbn [data_lba bpb set_ata] in *. lia.
Qed.

Section fat.
Context (junk : list Z) (Hjunk : length junk = 512%nat).

Lemma NextCluster_ok f c :
  volume f -> 0 <= c < fat_len f -> NextCluster junk f c = Ok (fat_of f c).
Proof using Hjunk.
  intros [Hg Hd _] Hc. pose proof (fat_len_bound f Hg).
  destruct (fat_offset c) as (E1 & E2 & Hm); [lia|].
  pose proof (fat_sector_range f (fat_lba f) c Hg ltac:(lia) (data_after_fat f Hg) Hc) as Hr.
  unfold NextCluster. cbv zeta. rewrite E1, E2, u32_small by apply (sector_range f _ Hg Hr).
  rewrite ReadSector_whole by done. cbn [mbind result_bind].
  destruct (sector_at_ok f _ _ Hd Hr) as [_ Hs].
  destruct (word_at_get _ (c mod 128) Hs Hm) as [-> _]. done.
Qed.

(** One copy of the FAT, the one that starts at [base]. *)
Lemma set_fat_word_ok f base c v buf :
  geometry f -> disk_ok f (ata f) -> fat_lba f <= base ->
  base + fat_size_32 (bpb f) <= data_lba f -> 0 <= c < fat_len f -> length buf = 512%nat ->
  is_u32 v ->
  exists d s,
    set_fat_word f (u32 (base + c / 128)) (4 * (c mod 128)) v buf = Ok (true, set_ata f d, s) /\
    length s = 512%nat /\ disk_ok f d /\
    (forall c', 0 <= c' -> entry_at d base c' = upd (entry_at (ata f) base) c (Z.land v 0x0FFFFFFF) c') /\
    (forall base' c', 0 <= c' < fat_len f -> fat_size_32 (bpb f) <= Z.abs (base' - base) ->
       entry_at d base' c' = entry_at (ata f) base' c') /\
    (forall c', 2 <= c' < max_cluster f -> data_of (set_ata f d) c' = data_of f c').
Proof.
  intros Hg Hd Hb1 Hb2 Hc Hl Hv.
  pose proof (fat_sector_range f base c Hg Hb1 Hb2 Hc) as Hr.
  destruct (sector_at_ok f _ _ Hd Hr) as [_ Hs].
  assert (Hm : 0 <= c mod 128 < 128) by (apply Z.mod_pos_bound; lia).
  set (s := set_word (sector_at (ata f) (base + c / 128)) (c mod 128) (Z.land v 0x0FFFFFFF)).
  assert (Hs' : sector_ok s) by (by apply set_word_ok).
  assert (Hdiv : forall k, 0 <= k < fat_len f -> 0 <= k / 128 < fat_size_32 (bpb f))
    by (unfold fat_len; intros; Z.div_mod_to_equations; lia).
  exists (<[base + c / 128 := s]> (ata f)), s. repeat split.
  - unfold set_fat_word. rewrite u32_small by apply (sector_range f _ Hg Hr).
    rewrite ReadSector_whole by done. cbn [mbind result_bind negb].
    rewrite put_fat_word by (done || apply Hs). cbn [mbind result_bind]. fold s.
    destruct Hs' as [Hsl _].
    rewrite WriteSector_ok by (done || lia). cbn [mbind result_bind].
    change (drop (Z.to_nat 0) s) with s. rewrite (take_ge s) by lia. done.
  - apply Hs'.
  - by apply disk_ok_insert.
  - intros c' Hc'. unfold upd, s. rewrite entry_at_set by (done || lia || by apply mask_u32).
    by rewrite mask_idem.
  - intros base' c' Hc' Hbase. apply entry_at_elsewhere.
    pose proof (Hdiv c Hc). pose proof (Hdiv c' Hc'). lia.
  - intros c' Hc'. apply data_of_elsewhere; [done | done|]. pose proof (Hdiv c Hc). lia.
Qed.

(** [SetFATEntry] changes one entry, in both copies. *)
Lemma SetFATEntry_ok f c v :
  volume f -> 0 <= c < fat_len f -> is_u32 v ->
  exists f', SetFATEntry junk f c v = Ok (true, f') /\
    updates f f' (upd (fat_of f) c (Z.land v 0x0FFFFFFF)) (data_of f).
Proof using Hjunk.
  intros [Hg Hd Hm] Hc Hv. pose proof (fat_len_bound f Hg).
  destruct (fat_offset c) as (E1 & E2 & _); [lia|].
  pose proof (data_after_fat f Hg) as Hb. pose proof (v_fat_size f Hg) as Hsz.
  destruct (set_fat_word_ok f (fat_lba f) c v junk Hg Hd ltac:(lia) Hb Hc Hjunk Hv)
    as (d1 & s1 & W1 & Hs1 & Hd1 & F1 & G1 & D1).
  unfold SetFATEntry. cbv zeta. rewrite E1, E2, W1. cbn [mbind result_bind negb].
  set (f1 := set_ata f d1) in *. assert (Hg1 : geometry f1) by (by apply geometry_set).
  change (fat_count (bpb f1)) with (fat_count (bpb f)).
  change (fat_lba f1) with (fat_lba f). change (fat_size_32 (bpb f1)) with (fat_size_32 (bpb f)).
  destruct (Z.gtb_spec (fat_count (bpb f)) 1) as [H2|H2].
  - set (b2 := fat_lba f + fat_size_32 (bpb f)) in *.
    assert (Hb2 : b2 + fat_size_32 (bpb f) <= data_lba f)
      by (subst b2; destruct Hg; nia).
    destruct (set_fat_word_ok f1 b2 c v s1 Hg1 Hd1) as (d2 & s2 & W2 & _ & Hd2 & F2 & G2 & D2); try done.
    { change (fat_lba f1) with (fat_lba f). unfold b2. lia. }
    rewrite W2. cbn [mbind result_bind]. eexists. split; [reflexivity|].
    assert (F : forall c', 0 <= c' < fat_len f ->
              entry_at d2 (fat_lba f) c' = upd (fat_of f) c (Z.land v 0x0FFFFFFF) c').
    { intros c' Hc'. rewrite G2 by (done || (change (fat_size_32 (bpb f1)) with (fat_size_32 (bpb f)); unfold b2; lia)).
      apply F1. lia. }
    constructor; [by eexists | | exact F |].
    + constructor; [by apply geometry_set | exact Hd2 |]. intros _ c' Hc'.
      etrans; [apply F2; lia|]. etrans; [|symmetry; apply F; exact Hc'].
      unfold upd. destruct (c' =? c); [done|]. rewrite <- Hm by (lia || done).
      apply G1; [done | unfold b2; lia].
    + intros c' Hc'. rewrite <- D1 by done. by apply D2.
  - eexists. split; [reflexivity|]. constructor; [by eexists | | | done].
    + constructor; [done | done |]. change (bpb f1) with (bpb f). lia.
    + intros c' Hc'. apply F1. lia.
Qed.
End fat.

(** *** Clusters *)

Lemma join_seqZ_S (g : Z -> list Z) n :
  0 <= n -> mjoin (map g (seqZ 0 (n + 1))) = mjoin (map g (seqZ 0 n)) ++ g n.
Proof.
  intros Hn. rewrite seqZ_app by lia. rewrite map_app, join_app.
  rewrite (seqZ_cons (0 + n) 1) by lia. change (seqZ _ (Z.pred 1)) with (@nil Z).
  rewrite Z.add_0_l. f_equal. apply app_nil_r.
Qed.

(** The first [n] sectors of a cluster. *)
Definition prefix (f : FAT32) (c n : Z) : list Z :=
  mjoin (map (fun i => sector_at (ata f) (cluster_lba f c + i)) (seqZ 0 n)).

Lemma prefix_S f c n :
  0 <= n -> prefix f c (n + 1) = prefix f c n ++ sector_at (ata f) (cluster_lba f c + n).
Proof.
  intros Hn. unfold prefix. by rewrite join_seqZ_S.
Qed.

Lemma prefix_ok f c n :
  geometry f -> disk_ok f (ata f) -> 2 <= c < max_cluster f ->
  0 <= n <= sectors_per_cluster (bpb f) ->
  Z.of_nat (length (prefix f c n)) = 512 * n /\ is_bytes (prefix f c n).
Proof.
  intros Hg Hd Hc [Hn0 Hn]. revert Hn. pattern n. apply natlike_ind; [done | | exact Hn0].
  clear n Hn0. intros m Hm IH Hm'. destruct IH as [IHl IHb]; [lia|]. rewrite <- Z.add_1_r in *.
  pose proof (cluster_range f c m Hg Hc ltac:(lia)). pose proof (data_after_fat f Hg).
  pose proof (v_fat_size f Hg).
  destruct (sector_at_ok f (ata f) (cluster_lba f c + m) Hd ltac:(lia)) as [_ [Hl Hb]].
  rewrite prefix_S by lia. rewrite length_app. split; [lia|]. by apply Forall_app.
Qed.

Lemma data_of_ok f c :
  volume f -> 2 <= c < max_cluster f ->
  Z.of_nat (length (data_of f c)) = cluster_size f /\ is_bytes (data_of f c).
Proof.
  intros [Hg Hd _] Hc. rewrite (v_cluster_size f Hg).
  destruct (prefix_ok f c (sectors_per_cluster (bpb f)) Hg Hd Hc) as [Hl Hb].
  { pose proof (v_spc f Hg). lia. }
  split; [|done]. unfold data_of, prefix in *. lia.
Qed.

Lemma ReadCluster_ok f c buf o :
  volume f -> 2 <= c < max_cluster f -> 0 <= o -> o + cluster_size f <= Z.of_nat (length buf) ->
  ReadCluster f c buf o =
  Ok (take (Z.to_nat o) buf ++ data_of f c ++ drop (Z.to_nat (o + cluster_size f)) buf).
Proof.
  intros [Hg Hd _] Hc Ho Hl. pose proof (v_spc f Hg) as Hspc. pose proof (v_cluster_size f Hg) as Hcs.
  unfold ReadCluster. rewrite ClusterToLBA_ok by done.
  edestruct (for_result_inv (fun i s => s = take (Z.to_nat o) buf ++ prefix f c i ++
                                           drop (Z.to_nat (o + i * 512)) buf)
               0 (sectors_per_cluster (bpb f))) as (s & -> & ->); [lia | | |].
  - change (prefix f c 0) with (@nil Z). rewrite Z.add_0_r. symmetry. apply take_drop.
  - intros i s Hi ->. pose proof (cluster_range f c i Hg Hc Hi) as Hr.
    pose proof (data_after_fat f Hg). pose proof (v_fat_size f Hg).
    destruct (prefix_ok f c i Hg Hd Hc ltac:(lia)) as [Hp _].
    rewrite u32_small by (apply (sector_range f _ Hg); lia).
    rewrite ReadSector_ok by (rewrite ?length_app, ?length_take, ?length_drop; done || lia).
    cbn [mbind result_bind]. eexists. split; [reflexivity|]. rewrite prefix_S by lia.
    rewrite (app_assoc (take (Z.to_nat o) buf) (prefix f c i) (drop _ _)).
    rewrite take_app_length' by (rewrite length_app, length_take; lia).
    rewrite drop_app_ge by (rewrite length_app, length_take; lia).
    rewrite <- !app_assoc. do 3 f_equal.
    rewrite length_app, length_take, drop_drop. f_equal. lia.
  - unfold data_of, prefix. rewrite Hcs. done.
Qed.

Lemma join_sectors (buf : list Z) n :
  0 <= n -> n * 512 <= Z.of_nat (length buf) ->
  mjoin (map (fun i => take 512 (drop (Z.to_nat (i * 512)) buf)) (seqZ 0 n)) =
  take (Z.to_nat (n * 512)) buf.
Proof.
  revert n. apply (natlike_ind (fun n => n * 512 <= Z.of_nat (length buf) -> _)); [done|].
  intros n Hn IH Hl. replace (Z.succ n) with (n + 1) by lia.
  rewrite join_seqZ_S, IH by lia. rewrite take_take_drop. f_equal. lia.
Qed.

(** The sectors [lba, lba + n) replaced by those of [buf]. *)
Definition written (d d' : disk) (lba n : Z) (buf : list Z) : Prop :=
  forall k, d' !! k = if (lba <=? k) && (k <? lba + n)
                      then Some (take 512 (drop (Z.to_nat ((k - lba) * 512)) buf)) else d !! k.

Lemma WriteCluster_sectors f c buf :
  geometry f -> disk_ok f (ata f) -> 2 <= c < max_cluster f ->
  cluster_size f <= Z.of_nat (length buf) -> is_bytes buf ->
  exists d, WriteCluster f c buf = Ok (true, set_ata f d) /\ disk_ok f d /\
    written (ata f) d (cluster_lba f c) (sectors_per_cluster (bpb f)) buf.
Proof.
  intros Hg Hd Hc Hl Hb. pose proof (v_spc f Hg) as Hspc. pose proof (v_cluster_size f Hg) as Hcs.
  unfold WriteCluster. cbv zeta. rewrite ClusterToLBA_ok by done.
  edestruct (for_result_inv (fun i r => exists d, r = (true, set_ata f d) /\ disk_ok f d /\
                                       written (ata f) d (cluster_lba f c) i buf)
               0 (sectors_per_cluster (bpb f))) as (s & -> & d & -> & Hd' & Hw); [lia | | |].
  - exists (ata f). split; [by destruct f|]. split; [done|]. intros k.
    destruct (Z.leb_spec (cluster_lba f c) k), (Z.ltb_spec k (cluster_lba f c + 0)); (lia || done).
  - intros i f' Hi (d & -> & Hd' & Hw). pose proof (cluster_range f c i Hg Hc Hi) as Hr.
    pose proof (data_after_fat f Hg). pose proof (v_fat_size f Hg).
    rewrite u32_small by (apply (sector_range f _ Hg); lia).
    rewrite WriteSector_ok; [|by apply geometry_set | done | | lia | lia].
    2:{ change (fat_lba (set_ata f d)) with (fat_lba f).
        change (volume_end (set_ata f d)) with (volume_end f). lia. }
    eexists. split; [reflexivity|]. eexists. split; [reflexivity|].
    cbn [ata set_ata]. split.
    + apply disk_ok_insert; [done|]. split; [rewrite length_take, length_drop; lia|].
      by apply Forall_take, Forall_drop.
    + intros k. destruct (decide (k = cluster_lba f c + i)) as [->|].
      * rewrite lookup_insert_eq. rewrite (proj2 (Z.leb_le _ _)), (proj2 (Z.ltb_lt _ _)) by lia.
        cbn. do 3 f_equal. lia.
      * rewrite lookup_insert_ne, Hw by done.
        destruct (Z.ltb_spec k (cluster_lba f c + i)), (Z.ltb_spec k (cluster_lba f c + (i + 1))); (done || lia).
  - eauto.
Qed.

Lemma WriteCluster_ok f c buf :
  volume f -> 2 <= c < max_cluster f -> cluster_size f <= Z.of_nat (length buf) -> is_bytes buf ->
  exists f', WriteCluster f c buf = Ok (true, f') /\
    updates f f' (fat_of f) (upd (data_of f) c (take (Z.to_nat (cluster_size f)) buf)).
Proof.
  intros [Hg Hd Hm] Hc Hl Hb. pose proof (v_spc f Hg) as Hspc. pose proof (v_cluster_size f Hg) as Hcs.
  destruct (WriteCluster_sectors f c buf Hg Hd Hc Hl Hb) as (d & -> & Hd' & Hw).
  assert (Hr : data_lba f <= cluster_lba f c) by (unfold cluster_lba; nia).
  assert (Hs : forall k, sector_at d k = if (cluster_lba f c <=? k) && (k <? cluster_lba f c + sectors_per_cluster (bpb f))
            then take 512 (drop (Z.to_nat ((k - cluster_lba f c) * 512)) buf) else sector_at (ata f) k).
  { intros k. unfold sector_at. rewrite Hw. by destruct (_ && _). }
  assert (Hfat : forall base c', base + fat_size_32 (bpb f) <= data_lba f -> 0 <= c' < fat_len f ->
            entry_at d base c' = entry_at (ata f) base c').
  { intros base c' Hbase Hc'. unfold entry_at. rewrite Hs.
    assert (c' / 128 < fat_size_32 (bpb f)) by (unfold fat_len in Hc'; Z.div_mod_to_equations; lia).
    rewrite (proj2 (Z.leb_gt _ _)) by lia. done. }
  pose proof (data_after_fat f Hg). eexists. split; [reflexivity|]. constructor.
  - by eexists.
  - constructor; [by apply geometry_set | done |]. cbn [bpb set_ata ata fat_lba]. intros H2 c' Hc'.
    unfold fat_of. cbn [ata set_ata fat_lba]. rewrite !Hfat by (done || (destruct Hg; nia)). by apply Hm.
  - intros c' Hc'. apply Hfat; done.
  - intros c' Hc'. unfold upd, data_of. cbn [bpb set_ata ata]. destruct (Z.eqb_spec c' c) as [->|Hne].
    + rewrite Hcs, <- join_sectors by lia. f_equal. apply map_ext_in. intros i Hi.
      apply list_elem_of_In, elem_of_seqZ in Hi. rewrite Hs. unfold cluster_lba.
      cbn [data_lba bpb set_ata]. rewrite (proj2 (Z.leb_le _ _)), (proj2 (Z.ltb_lt _ _)) by lia. cbn.
      do 3 f_equal. lia.
    + f_equal. apply map_ext_in. intros i Hi. apply list_elem_of_In, elem_of_seqZ in Hi.
      rewrite Hs. unfold cluster_lba. cbn [data_lba bpb set_ata].
      destruct (Z.leb_spec (data_lba f + (c - 2) * sectors_per_cluster (bpb f))
                  (data_lba f + (c' - 2) * sectors_per_cluster (bpb f) + i)); [|done].
      rewrite (proj2 (Z.ltb_ge _ _)); [done|]. nia.
Qed.

(** *** Allocation *)

(** The clusters that can be allocated, in order. *)
Definition free_list (f : FAT32) : list Z :=
  filter (fun k => fat_of f k = 0) (seqZ 3 (max_cluster f - 3)).

(** The test of the allocation loop. *)
Definition allocatable (f : FAT32) (k : Z) : Prop := 3 <= k < max_cluster f /\ fat_of f k = 0.

#[local] Instance allocatable_dec f k : Decision (allocatable f k).
Proof. unfold allocatable. apply _. Defined.

Lemma free_list_all f :
  geometry f -> filter (allocatable f) (seqZ 0 (fat_len f)) = free_list f.
Proof.
  intros Hg. pose proof (v_max f Hg) as Hm. pose proof (v_fat_size f Hg) as Hs. unfold fat_len in *.
  set (m := Z.max 3 (max_cluster f)).
  replace (fat_size_32 (bpb f) * 128) with (3 + (m - 3) + (fat_size_32 (bpb f) * 128 - m)) by lia.
  rewrite !seqZ_app, !filter_app by lia.
  rewrite (filter_none _ (seqZ 0 3)), (filter_none _ (seqZ _ (_ - m))).
  2,3: intros x Hx%elem_of_seqZ [? _]; lia.
  rewrite app_nil_r, app_nil_l. unfold free_list.
  replace (seqZ 3 (max_cluster f - 3)) with (seqZ (0 + 3) (m - 3)).
  2:{ subst m. destruct (decide (3 <= max_cluster f)); [f_equal; lia|]. rewrite !seqZ_nil by lia. done. }
  apply filter_ext_in. intros x Hx%elem_of_seqZ. unfold allocatable.
  intuition lia.
Qed.

Lemma alloc_in_sector_ok f s i n :
  volume f -> 0 <= s < fat_size_32 (bpb f) -> 0 <= i -> i + Z.of_nat n = 128 ->
  alloc_in_sector n (sector_at (ata f) (fat_lba f + s)) s i (max_cluster f) =
  Ok (head (filter (allocatable f) (seqZ (s * 128 + i) (Z.of_nat n)))).
Proof.
  intros [Hg Hd _] Hs. pose proof (fat_len_bound f Hg) as Hfl. unfold fat_len in Hfl.
  change (2 ^ 28) with 268435456 in Hfl.
  revert i. induction n as [|n IH]; intros i Hi Hn; [done|].
  cbn [alloc_in_sector]. rewrite u32_small by (zify_words; lia).
  rewrite seqZ_cons, filter_cons by lia.
  replace (Z.pred (Z.of_nat (S n))) with (Z.of_nat n) by lia.
  replace (Z.succ (s * 128 + i)) with (s * 128 + (i + 1)) by lia.
  destruct (Z.ltb_spec (s * 128 + i) 3), (Z.geb_spec (s * 128 + i) (max_cluster f)); cbn [orb].
  1-3: rewrite decide_False by (unfold allocatable; lia); apply IH; lia.
  assert (Hr : fat_lba f <= fat_lba f + s < volume_end f).
  { pose proof (data_after_fat f Hg). pose proof (v_max f Hg). pose proof (v_spc f Hg).
    unfold volume_end. nia. }
  destruct (sector_at_ok f _ _ Hd Hr) as [_ Hok].
  destruct (word_at_get _ i Hok ltac:(lia)) as [Hw _]. rewrite (Z.mul_comm i 4), Hw. cbn [mbind result_bind].
  assert (E : fat_of f (s * 128 + i) = Z.land (word_at (sector_at (ata f) (fat_lba f + s)) i) 0x0FFFFFFF).
  { unfold fat_of, entry_at. replace ((s * 128 + i) / 128) with s by (Z.div_mod_to_equations; lia).
    by replace ((s * 128 + i) mod 128) with i by (Z.div_mod_to_equations; lia). }
  rewrite <- E. destruct (Z.eqb_spec (fat_of f (s * 128 + i)) 0).
  - rewrite decide_True by (unfold allocatable; lia). done.
  - rewrite decide_False by (unfold allocatable; lia). apply IH; lia.
Qed.

Lemma alloc_from_S n f buf s :
  alloc_from (S n) f buf s =
  ('(ok, sector) ← ReadSector f (u32 (fat_lba f + s)) buf 0;
   if negb ok then alloc_from n f sector (s + 1)
   else
     r ← alloc_in_sector 128 sector s 0 (max_cluster f);
     match r with Some c => Ok c | None => alloc_from n f sector (s + 1) end).
Proof. reflexivity. Qed.

(** One step of the outer loop, given the outcome of the inner one. *)
Lemma alloc_from_step n f buf s sector r :
  ReadSector f (u32 (fat_lba f + s)) buf 0 = Ok (true, sector) ->
  alloc_in_sector 128 sector s 0 (max_cluster f) = Ok r ->
  alloc_from (S n) f buf s = match r with Some c => Ok c | None => alloc_from n f sector (s + 1) end.
Proof. intros E1 E2. rewrite alloc_from_S, E1, result_bind_Ok, E2. reflexivity. Qed.

Lemma alloc_from_ok f n buf s :
  volume f -> 0 <= s -> s + Z.of_nat n = fat_size_32 (bpb f) -> length buf = 512%nat ->
  alloc_from n f buf s =
  Ok (default 0 (head (filter (allocatable f) (seqZ (s * 128) (Z.of_nat n * 128))))).
Proof.
  intros Hv. pose proof Hv as [Hg Hd _]. revert buf s.
  induction n as [|n IH]; intros buf s Hs Hn Hl; [done|].
  assert (Hr : fat_lba f <= fat_lba f + s < volume_end f).
  { pose proof (data_after_fat f Hg). pose proof (v_max f Hg). pose proof (v_spc f Hg).
    unfold volume_end. nia. }
  erewrite alloc_from_step.
  2:{ rewrite u32_small by apply (sector_range f _ Hg Hr). by apply ReadSector_whole. }
  2:{ apply alloc_in_sector_ok; (done || lia). }
  replace (Z.of_nat (S n) * 128) with (Z.of_nat 128 + Z.of_nat n * 128) by lia.
  rewrite Z.add_0_r, seqZ_app, filter_app by lia.
  generalize (filter (allocatable f) (seqZ (s * 128) (Z.of_nat 128))). intros l.
  replace (s * 128 + Z.of_nat 128) with ((s + 1) * 128) by lia. destruct l as [|x l]; [|done].
  apply IH; [lia | lia | by apply (sector_at_ok f _ _ Hd Hr)].
Qed.

(** [AllocCluster] returns the first free cluster, and 0 when there is none. *)
Lemma AllocCluster_ok junk f :
  length junk = 512%nat -> volume f -> AllocCluster junk f = Ok (default 0 (head (free_list f))).
Proof.
  intros Hj Hv. pose proof (v_fat_size f (v_geometry f Hv)). pose proof (v_spc f (v_geometry f Hv)).
  unfold AllocCluster. rewrite (proj2 (Z.eqb_neq (sectors_per_cluster (bpb f)) 0)), andb_false_r by lia.
  rewrite alloc_from_ok by (done || lia).
  rewrite Z2Nat.id by lia. rewrite <- free_list_all by apply Hv. done.
Qed.

Lemma free_list_spec f k : k ∈ free_list f <-> fat_of f k = 0 /\ 3 <= k < max_cluster f.
Proof. unfold free_list. rewrite list_elem_of_filter, elem_of_seqZ. intuition lia. Qed.

Lemma free_list_NoDup f : NoDup (free_list f).
Proof. apply NoDup_filter, NoDup_seqZ. Qed.

(** ** The theorems *)

(** C34: The FAT is a table that [SetFATEntry] writes and [NextCluster] reads.  On a
    well-formed volume setting the entry of a cluster succeeds and keeps the volume
    well formed, its FAT copies equal; the next cluster of that cluster is then the 28
    bits of the value, the next cluster of every other one and the contents of every
    cluster are what they were. *)
Theorem fat_entry_roundtrip junk f c v :
  length junk = 512%nat -> volume f -> 0 <= c < fat_len f -> is_u32 v ->
  exists f', SetFATEntry junk f c v = Ok (true, f') /\ volume f' /\
    NextCluster junk f' c = Ok (Z.land v 0x0FFFFFFF) /\
    (forall c', 0 <= c' < fat_len f -> c' <> c -> NextCluster junk f' c' = NextCluster junk f c') /\
    (forall c', 2 <= c' < max_cluster f -> data_of f' c' = data_of f c').
Proof.
  intros Hj Hv Hc Hval. destruct (SetFATEntry_ok junk Hj f c v Hv Hc Hval) as (f' & E & U).
  exists f'. assert (Hlen : fat_len f' = fat_len f) by (by destruct (u_disk _ _ _ _ U) as [d ->]).
  assert (Hv' : volume f') by apply U. split; [done|]. split; [done|]. split; [|split; [|apply U]].
  - rewrite NextCluster_ok, (u_fat _ _ _ _ U), upd_eq by (done || by rewrite Hlen). done.
  - intros c' Hc' Hne.
    rewrite !NextCluster_ok, (u_fat _ _ _ _ U), upd_ne by (done || by rewrite Hlen). done.
Qed.

(** [AllocCluster] returns the least free cluster.  On a well-formed volume it
    always returns; the result is 0 exactly when no cluster from 3 on is free, and
    otherwise a free cluster below which none is. *)
Theorem AllocCluster_least junk f :
  length junk = 512%nat -> volume f ->
  exists c, AllocCluster junk f = Ok c /\
    (c = 0 <-> forall k, 3 <= k < max_cluster f -> fat_of f k <> 0) /\
    (c <> 0 -> 3 <= c < max_cluster f /\ fat_of f c = 0 /\ forall k, 3 <= k < c -> fat_of f k <> 0).
Proof.
  intros Hj Hv. rewrite AllocCluster_ok by done. eexists. split; [reflexivity|].
  destruct (free_list f) as [|x r] eqn:E; cbn [head default].
  - split; [|done]. split; [|done]. intros _ k Hk H0.
    assert (Hin : k ∈ free_list f) by (by apply free_list_spec). rewrite E in Hin. set_solver.
  - assert (Hx : x ∈ free_list f) by (rewrite E; set_solver). apply free_list_spec in Hx as [Hx0 Hx].
    change (id x) with x. split; [split; [intros; lia | intros H; by specialize (H x Hx)]|].
    intros _. split; [done|]. split; [done|]. intros k Hk H0.
    unfold free_list in E.
    replace (max_cluster f - 3) with ((x - 3) + (max_cluster f - x)) in E by lia.
    rewrite seqZ_app, filter_app in E by lia.
    assert (Hin : k ∈ filter (fun k => fat_of f k = 0) (seqZ 3 (x - 3))).
    { apply list_elem_of_filter. split; [done|]. apply elem_of_seqZ. lia. }
    destruct (filter _ (seqZ 3 (x - 3))) as [|y l] eqn:El; [set_solver|]. injection E as -> _.
    assert (Hy : x ∈ filter (fun k => fat_of f k = 0) (seqZ 3 (x - 3))) by (rewrite El; set_solver).
    apply list_elem_of_filter in Hy as [_ Hy%elem_of_seqZ]. lia.
Qed.

(** ** A volume of eight clusters *)

Definition sample_fat : list Z :=
  le32 0x0FFFFFF8 ++ le32 0x0FFFFFFF ++ le32 0x0FFFFFFF ++ replicate 500 0.

Definition sample_disk : disk :=
  list_to_map ((1, sample_fat) :: (2, sample_fat) :: map (fun k => (k, replicate 512 0)) (seqZ 3 8)).

Definition sample_fs : FAT32 :=
  mkFat sample_disk 0 (mkBpb 512 1 1 2 0 11 1 2) 1 3 512.

Definition sector_okb (s : list Z) : bool :=
  Nat.eqb (length s) 512 && forallb (fun b => (0 <=? b) && (b <? 256)) s.

Lemma sector_okb_ok s : sector_okb s = true -> sector_ok s.
Proof.
  unfold sector_okb. rewrite andb_true_iff, forallb_forall. intros [Hl Hb].
  split; [by apply Nat.eqb_eq|]. apply Forall_forall. intros x Hx%list_elem_of_In.
  specialize (Hb x Hx). apply andb_true_iff in Hb as [?%Z.leb_le ?%Z.ltb_lt]. zify_words. lia.
Qed.

(** A disk with that geometry and equal copies of the FAT is a volume. *)
Lemma small_volume (d : disk) fat :
  forallb (fun k => match d !! k with Some s => sector_okb s | None => false end) (seqZ 1 10) = true ->
  d !! 1 = Some fat -> d !! 2 = Some fat -> volume (mkFat d 0 (mkBpb 512 1 1 2 0 11 1 2) 1 3 512).
Proof.
  intros Hs H1 H2. set (f := mkFat _ _ _ _ _ _).
  assert (Hmax : max_cluster f = 10) by (vm_compute; reflexivity).
  assert (Hend : volume_end f = 11) by (unfold volume_end; by rewrite Hmax).
  constructor.
  - constructor; rewrite ?Hend, ?Hmax; unfold fat_len, EOC; cbn; try done; lia.
  - intros k Hk. rewrite Hend in Hk. cbn [fat_lba f] in Hk. rewrite forallb_forall in Hs.
    specialize (Hs k ltac:(apply list_elem_of_In, elem_of_seqZ; lia)).
    cbn [ata f]. destruct (d !! k) as [s|]; [|done]. exists s. split; [done|]. by apply sector_okb_ok.
  - intros _ c Hc. change (fat_len f) with 128 in Hc. unfold fat_of, entry_at. cbn [ata f fat_lba bpb fat_size_32].
    unfold sector_at. rewrite Z.div_small by lia. change (1 + 1 + 0) with 2. change (1 + 0) with 1. by rewrite H1, H2.
Qed.

Lemma sample_max : max_cluster sample_fs = 10.
Proof. vm_compute. reflexivity. Qed.

Lemma sample_volume : volume sample_fs.
Proof. apply (small_volume _ sample_fat); vm_compute; reflexivity. Qed.

Lemma fat_entry_roundtrip_witness :
  exists f', SetFATEntry (replicate 512 7) sample_fs 5 0xF0000009 = Ok (true, f') /\ volume f' /\
    NextCluster (replicate 512 7) f' 5 = Ok 9 /\
    (forall c', 0 <= c' < fat_len sample_fs -> c' <> 5 ->
       NextCluster (replicate 512 7) f' c' = NextCluster (replicate 512 7) sample_fs c') /\
    (forall c', 2 <= c' < max_cluster sample_fs -> data_of f' c' = data_of sample_fs c').
Proof.
  apply (fat_entry_roundtrip (replicate 512 7) sample_fs 5 0xF0000009).
  - reflexivity.
  - exact sample_volume.
  - change (fat_len sample_fs) with 128. lia.
  - u32_lit.
Defined.

Lemma AllocCluster_least_witness :
  exists c, AllocCluster (replicate 512 7) sample_fs = Ok c /\
    (c = 0 <-> forall k, 3 <= k < max_cluster sample_fs -> fat_of sample_fs k <> 0) /\
    (c <> 0 -> 3 <= c < max_cluster sample_fs /\ fat_of sample_fs c = 0 /\
      forall k, 3 <= k < c -> fat_of sample_fs k <> 0).
Proof.
  apply (AllocCluster_least (replicate 512 7) sample_fs); [reflexivity | exact sample_volume].
Defined.

End FatVolume.
