(* ===== verification/FatFiles.v ===== *)
(** Files of a FAT32 volume: the cluster chains of src/src/fs/fat32.cpp.

    A chain is the list of clusters the FAT links from a first one to an
    end-of-chain mark.  The theorems show that what [WriteClusterChain] stores is
    what the reading loop of [ReadFile] returns, with every other cluster of the
    volume unchanged. *)

From stdpp Require Import base numbers list gmap.
From Stdlib Require Import ZArith Lia.
From S2P Require Import Prelude Net Fat32 FatVolume.

Module FatFiles.
Import Net Fat FatVolume.

(** ** Chains *)

Fixpoint chain (f : FAT32) (c : Z) (l : list Z) : Prop :=
  match l with
  | [] => EOC <= c
  | x :: l => c = x /\ 2 <= x < max_cluster f /\ chain f (fat_of f x) l
  end.

Definition contents (f : FAT32) (l : list Z) : list Z := mjoin (map (data_of f) l).

Lemma contents_cons f x l : contents f (x :: l) = data_of f x ++ contents f l.
Proof. done. Qed.

(** [f'] differs from [f] at the clusters [l] at most. *)
Record keeps (f f' : FAT32) (l : list Z) : Prop := {
  k_disk : exists d, f' = set_ata f d;
  k_volume : volume f';
  k_fat : forall c, 0 <= c < fat_len f -> c ∉ l -> fat_of f' c = fat_of f c;
  k_data : forall c, 2 <= c < max_cluster f -> c ∉ l -> data_of f' c = data_of f c;
}.

Lemma updates_keeps f f' F D l :
  updates f f' F D -> (forall c, c ∉ l -> F c = fat_of f c) -> (forall c, c ∉ l -> D c = data_of f c) ->
  keeps f f' l.
Proof.
  intros [Hd Hv Hf Hdt] HF HD. constructor; [done | done | |].
  - intros c Hc Hl. by rewrite Hf, HF.
  - intros c Hc Hl. by rewrite Hdt, HD.
Qed.

Lemma set_ata_geom f f' :
  (exists d, f' = set_ata f d) ->
  fat_len f' = fat_len f /\ max_cluster f' = max_cluster f /\ cluster_size f' = cluster_size f /\
  bpb f' = bpb f.
Proof. by intros [d ->]. Qed.

Lemma keeps_trans f f1 f2 l1 l2 l :
  keeps f f1 l1 -> keeps f1 f2 l2 -> l1 ⊆ l -> l2 ⊆ l -> keeps f f2 l.
Proof.
  intros [[d1 ->] Hv1 F1 D1] [[d2 ->] Hv2 F2 D2] H1 H2. constructor.
  - by exists d2.
  - done.
  - intros c Hc Hl. rewrite F2, F1; [done | done | set_solver | done | set_solver].
  - intros c Hc Hl. rewrite D2, D1; [done | done | set_solver | done | set_solver].
Qed.

Lemma keeps_refl f l : volume f -> keeps f f l.
Proof. intros Hv. constructor; [|done..]. exists (ata f). by destruct f. Qed.

Lemma cluster_in_fat f c : geometry f -> 2 <= c < max_cluster f -> 0 <= c < fat_len f.
Proof. intros Hg Hc. pose proof (v_max f Hg). lia. Qed.

(** A chain none of whose clusters changed. *)
Lemma chain_keeps f f' m c l :
  volume f -> keeps f f' m -> (forall x, x ∈ l -> x ∉ m) -> chain f c l ->
  chain f' c l /\ contents f' l = contents f l.
Proof.
  intros Hv Hk. destruct (set_ata_geom f f' (k_disk _ _ _ Hk)) as (_ & Hmax & _).
  revert c. induction l as [|x l IH]; intros c Hm; [done|]. cbn [chain]. rewrite Hmax.
  intros (-> & Hx & Hl). assert (Hxm : x ∉ m) by (apply Hm; set_solver).
  rewrite (k_fat _ _ _ Hk x (cluster_in_fat f x (v_geometry f Hv) Hx) Hxm).
  destruct (IH (fat_of f x)) as [IH1 IH2]; [|done|].
  { intros y Hy. apply Hm. set_solver. }
  split; [done|]. by rewrite !contents_cons, IH2, (k_data _ _ _ Hk).
Qed.

(** A chain none of whose links changed. *)
Lemma chain_same f f' c l :
  volume f -> (exists d, f' = set_ata f d) ->
  (forall k, 0 <= k < fat_len f -> fat_of f' k = fat_of f k) -> chain f c l -> chain f' c l.
Proof.
  intros Hv Hd Hfat. destruct (set_ata_geom f f' Hd) as (_ & Hmax & _). revert c.
  induction l as [|y l IH]; intros c; cbn [chain]; [done|]. intros (-> & Hy & Hc).
  rewrite Hmax, Hfat by (by apply cluster_in_fat; [apply Hv|]). repeat split; [lia | lia | by apply IH].
Qed.

Lemma chain_det f c l l' : chain f c l -> chain f c l' -> volume f -> l = l'.
Proof.
  intros H H' Hv. pose proof (v_eoc f (v_geometry f Hv)).
  revert c l' H H'. induction l as [|x l IH]; intros c [|y l']; cbn; try lia; [done|].
  intros (-> & _ & H1) (-> & _ & H2). f_equal. eauto.
Qed.

(** A chain that ends has no repetition. *)
Lemma chain_NoDup f c l : volume f -> chain f c l -> NoDup l.
Proof.
  intros Hv. revert c. induction l as [|x l IH]; intros c; [constructor|].
  intros H. pose proof H as (-> & Hx & Hl). constructor; [|by apply IH in Hl].
  intros (l1 & l2 & ->)%list_elem_of_split.
  assert (Hsuf : forall l1 c, chain f c (l1 ++ x :: l2) -> chain f x (x :: l2)).
  { intros m. induction m as [|y m IHm]; intros c; cbn.
    - intros (-> & ? & ?). done.
    - intros (_ & _ & Hc). by apply IHm in Hc. }
  apply Hsuf in Hl. pose proof (chain_det f x _ _ H Hl Hv) as E.
  apply (f_equal length) in E. cbn in E. rewrite length_app in E. cbn in E. lia.
Qed.

Lemma chain_in f c l x : chain f c l -> x ∈ l -> 2 <= x < max_cluster f.
Proof.
  revert c. induction l as [|y l IH]; intros c; [set_solver|]. cbn. intros (-> & ? & ?).
  rewrite elem_of_cons. intros [->|?]; eauto.
Qed.

Lemma contents_length f c l :
  volume f -> chain f c l -> Z.of_nat (length (contents f l)) = Z.of_nat (length l) * cluster_size f.
Proof.
  intros Hv. revert c. induction l as [|x l IH]; intros c; [done|]. cbn [chain]. intros (-> & Hx & Hl).
  specialize (IH _ Hl). rewrite contents_cons, length_app.
  destruct (data_of_ok f x Hv Hx) as [E _]. cbn [length]. lia.
Qed.

(** ** Reading a chain *)

Lemma chain_eoc f c l : volume f -> chain f c l -> (c <? EOC) = negb (bool_decide (l = [])).
Proof.
  intros Hv. pose proof (v_eoc f (v_geometry f Hv)). destruct l; cbn [chain].
  - intros. rewrite bool_decide_true by done. by apply Z.ltb_ge.
  - intros (-> & ? & _). rewrite bool_decide_false by done. apply Z.ltb_lt. lia.
Qed.

Lemma cluster_size_pos f : geometry f -> 512 <= cluster_size f <= 4096.
Proof. intros [Hs Hc]. rewrite Hc. lia. Qed.

Lemma buf_size_eq f : geometry f -> buf_size f = cluster_size f.
Proof.
  intros Hg. pose proof (cluster_size_pos f Hg).
  unfold buf_size. destruct (Z.ltb_spec (cluster_size f) 4096); lia.
Qed.

(** ** Filling a cluster *)

Definition pad (n : Z) (l : list Z) : list Z := l ++ replicate (Z.to_nat n - length l) 0.

Lemma take_insert_step {A} (p cb : list A) i x :
  p !! i = Some x -> (i < length cb)%nat ->
  <[i := x]> (take i p ++ drop i cb) = take (S i) p ++ drop (S i) cb.
Proof.
  intros Hx Hi. assert (i < length p)%nat by (by eapply lookup_lt_Some).
  rewrite insert_app_r_alt by (rewrite length_take; lia).
  rewrite length_take. replace (i - i `min` length p)%nat with 0%nat by lia.
  rewrite (take_S_r _ _ x) by done. rewrite <- app_assoc. f_equal.
  destruct (lookup_lt_is_Some_2 cb i Hi) as [y Hy]. by rewrite (drop_S cb y i).
Qed.

Lemma fill_cluster_ok f cb buf w tw :
  geometry f -> length cb = Z.to_nat 4096 -> 0 <= w -> 0 <= tw <= cluster_size f ->
  w + tw <= Z.of_nat (length buf) ->
  fill_cluster f cb buf w tw =
  Ok (pad (cluster_size f) (take (Z.to_nat tw) (drop (Z.to_nat w) buf)) ++
      drop (Z.to_nat (cluster_size f)) cb).
Proof.
  intros Hg Hcb Hw Htw Hl. pose proof (cluster_size_pos f Hg) as Hcs.
  assert (Hbs : buf_size f = cluster_size f).
  { unfold buf_size. destruct (Z.ltb_spec (cluster_size f) 4096); lia. }
  unfold fill_cluster. rewrite Hbs.
  set (data := take (Z.to_nat tw) (drop (Z.to_nat w) buf)).
  assert (Hd : length data = Z.to_nat tw) by (unfold data; rewrite length_take, length_drop; lia).
  set (p := pad (cluster_size f) data).
  assert (Hp : length p = Z.to_nat (cluster_size f))
    by (unfold p, pad; rewrite length_app, length_replicate; lia).
  edestruct (for_result_inv (fun i s => s = take (Z.to_nat i) p ++ drop (Z.to_nat i) cb)
               0 (cluster_size f)) as (s & -> & ->); [lia | done | |].
  - intros i s Hi ->.
    assert (Hx : exists x, (if i <? tw then arr_get buf (w + i) else Ok 0) = Ok x /\ p !! Z.to_nat i = Some x).
    { unfold p, pad. destruct (Z.ltb_spec i tw).
      - destruct (lookup_lt_is_Some_2 buf (Z.to_nat (w + i))) as [x Hx]; [lia|]. exists x.
        split; [apply arr_get_Ok; split; [lia | done]|].
        rewrite lookup_app_l by lia. unfold data. rewrite lookup_take_lt, lookup_drop by lia.
        rewrite <- Hx. f_equal. lia.
      - exists 0. split; [done|]. rewrite lookup_app_r by lia. apply lookup_replicate. lia. }
    destruct Hx as (x & -> & Hx). cbn [mbind result_bind].
    rewrite arr_set_in_range by (rewrite length_app, length_take, length_drop; lia).
    eexists. split; [reflexivity|]. rewrite take_insert_step by (done || lia).
    by replace (Z.to_nat (i + 1)) with (S (Z.to_nat i)) by lia.
  - rewrite <- Hp, firstn_all. done.
Qed.
(** ** Extending a chain *)

Lemma updates_trans f f1 f2 F1 D1 F2 D2 :
  updates f f1 F1 D1 -> updates f1 f2 F2 D2 -> updates f f2 F2 D2.
Proof. intros [[d1 ->] _ _ _] [[d2 ->] ? ? ?]. constructor; [by exists d2 | done..]. Qed.

Lemma updates_ext f f' F D F' D' :
  updates f f' F D -> (forall c, 0 <= c < fat_len f -> F c = F' c) ->
  (forall c, 2 <= c < max_cluster f -> D c = D' c) -> updates f f' F' D'.
Proof.
  intros [? ? HF HD] EF ED. constructor; [done | done | |].
  - intros c Hc. by rewrite HF, EF.
  - intros c Hc. by rewrite HD, ED.
Qed.

Lemma mask_small x : 0 <= x < 2 ^ 28 -> Z.land x 0x0FFFFFFF = x.
Proof.
  intros Hx. change 0x0FFFFFFF with (Z.ones 28). rewrite Z.land_ones by lia. by apply Z.mod_small.
Qed.

(** Taking the first free cluster. *)
Lemma free_list_pop f f' x r F D :
  geometry f -> free_list f = x :: r -> updates f f' F D ->
  (forall k, 3 <= k < max_cluster f -> F k = 0 <-> fat_of f k = 0 /\ k <> x) -> free_list f' = r.
Proof.
  intros Hg Hx [[d ->] _ HF _] Hk. unfold free_list in *. cbn in HF |- *.
  change (max_cluster (set_ata f d)) with (max_cluster f).
  eapply filter_pop; [apply NoDup_seqZ | exact Hx |].
  intros k Hin%elem_of_seqZ. rewrite HF; [apply Hk; lia | apply cluster_in_fat; [done | lia]].
Qed.

Lemma free_head f x r :
  geometry f -> free_list f = x :: r -> 3 <= x < max_cluster f /\ fat_of f x = 0 /\ 0 <= x < fat_len f /\
  0 <= x < 2 ^ 28.
Proof.
  intros Hg E. assert (Hx : x ∈ free_list f) by (rewrite E; set_solver).
  apply free_list_spec in Hx as [H0 Hx]. pose proof (v_eoc f Hg). unfold EOC in *.
  change (2 ^ 28) with 268435456. repeat split; try lia; apply cluster_in_fat; (done || lia).
Qed.

Lemma pad_bytes n l : is_bytes l -> is_bytes (pad n l).
Proof. intros H. apply Forall_app. split; [done|]. apply Forall_replicate. u32_lit. Qed.

Lemma pad_length n l : Z.of_nat (length l) <= n -> Z.of_nat (length (pad n l)) = n.
Proof. intros H. unfold pad. rewrite length_app, length_replicate. lia. Qed.

Lemma pad_app n m a b :
  Z.of_nat (length a) = n -> 0 <= m -> a ++ pad m b = pad (n + m) (a ++ b).
Proof. intros Ha Hm. unfold pad. rewrite <- app_assoc. do 3 f_equal. rewrite length_app. lia. Qed.

Lemma pad_full n l : Z.of_nat (length l) = n -> pad n l = l.
Proof. intros H. unfold pad. replace (Z.to_nat n - length l)%nat with 0%nat by lia. apply app_nil_r. Qed.

Lemma free_list_same f f' D : geometry f -> updates f f' (fat_of f) D -> free_list f' = free_list f.
Proof.
  intros Hg [[d ->] _ HF _]. unfold free_list. change (max_cluster (set_ata f d)) with (max_cluster f).
  apply filter_ext_in. intros k Hk%elem_of_seqZ.
  rewrite HF; [done | apply cluster_in_fat; [done | lia]].
Qed.

(** The bytes [w, w + tw) of the caller's buffer reach cluster [c]. *)
Lemma store_chunk f c cb buf w tw :
  volume f -> 2 <= c < max_cluster f -> length cb = Z.to_nat 4096 -> is_bytes cb ->
  is_bytes buf -> 0 <= w -> 0 <= tw <= cluster_size f -> w + tw <= Z.of_nat (length buf) ->
  exists cb' f', fill_cluster f cb buf w tw = Ok cb' /\ WriteCluster f c cb' = Ok (true, f') /\
    length cb' = Z.to_nat 4096 /\ is_bytes cb' /\
    updates f f' (fat_of f)
      (upd (data_of f) c (pad (cluster_size f) (take (Z.to_nat tw) (drop (Z.to_nat w) buf)))).
Proof.
  intros Hv Hc Hcb Hcbb Hb Hw Htw Hl. pose proof (v_geometry f Hv) as Hg.
  pose proof (cluster_size_pos f Hg) as Hcs.
  rewrite fill_cluster_ok by done. set (p := pad _ _).
  assert (Hp : Z.of_nat (length p) = cluster_size f).
  { apply pad_length. rewrite length_take. lia. }
  assert (Hpb : is_bytes (p ++ drop (Z.to_nat (cluster_size f)) cb)).
  { apply Forall_app. split; [by apply pad_bytes, Forall_take, Forall_drop | by apply Forall_drop]. }
  destruct (WriteCluster_ok f c (p ++ drop (Z.to_nat (cluster_size f)) cb) Hv Hc) as (f' & E & U);
    [rewrite length_app; lia | done |].
  rewrite take_app_length' in U by lia. eexists _, f'. split; [reflexivity|]. split; [exact E|].
  split; [rewrite length_app, length_drop; lia | done].
Qed.

(** A chain after a cluster that was stored before it. *)
Lemma chain_before f f1 f' c x l chunk :
  volume f -> 2 <= c < max_cluster f -> c ∉ l -> keeps f f1 (c :: l) -> fat_of f1 c = x ->
  data_of f1 c = chunk -> keeps f1 f' l -> chain f' x l ->
  keeps f f' (c :: l) /\ chain f' c (c :: l) /\ contents f' (c :: l) = chunk ++ contents f' l.
Proof.
  intros Hv Hc Hcl Hk1 Hx Hd Hk Hch. pose proof (v_geometry f Hv) as Hg.
  destruct (set_ata_geom f f1 (k_disk _ _ _ Hk1)) as (Hlen & Hmax & _).
  split; [by eapply keeps_trans; [exact Hk1 | exact Hk | done | set_solver]|]. split.
  - cbn [chain]. rewrite (proj1 (proj2 (set_ata_geom f1 f' (k_disk _ _ _ Hk)))), Hmax.
    rewrite (k_fat _ _ _ Hk), Hx by (done || rewrite Hlen; by apply cluster_in_fat). done.
  - by rewrite contents_cons, (k_data _ _ _ Hk), Hd by (done || by rewrite Hmax).
Qed.

(** The clusters after the first that [size] bytes take. *)
Definition more_clusters (f : FAT32) (size : Z) : nat := Z.to_nat ((size - 1) / cluster_size f).

Lemma more_clusters_bounds f size :
  geometry f -> 0 < size ->
  Z.of_nat (more_clusters f size) * cluster_size f < size <=
  (Z.of_nat (more_clusters f size) + 1) * cluster_size f.
Proof.
  intros Hg Hs. pose proof (cluster_size_pos f Hg). unfold more_clusters.
  assert (0 <= (size - 1) / cluster_size f) by (apply Z.div_pos; lia).
  rewrite Z2Nat.id by done. Z.div_mod_to_equations. nia.
Qed.

(** ** The loops *)

Section chains.
Context (junk : list Z).
Context (Hjunk : length junk = 512%nat).

Lemma read_chain_ok fuel f c l buffer w :
  volume f -> chain f c l -> (length l <= fuel)%nat -> 0 <= w ->
  w + Z.of_nat (length l) * cluster_size f <= Z.of_nat (length buffer) ->
  Z.of_nat (length buffer) < 2 ^ 32 ->
  read_chain junk fuel f c buffer w =
  Ok (take (Z.to_nat w) buffer ++ contents f l ++
      drop (Z.to_nat (w + Z.of_nat (length l) * cluster_size f)) buffer).
Proof using Hjunk.
  intros Hv. pose proof (cluster_size_pos f (v_geometry f Hv)) as Hcs.
  revert c l buffer w. induction fuel as [|fuel IH]; intros c l buffer w Hl Hf Hw Hb Hb2;
    (destruct l as [|x l]; [|cbn [length] in Hf; try lia]); cbn [read_chain];
    rewrite (chain_eoc f c _ Hv Hl).
  1,2: rewrite bool_decide_true by done; cbn [negb length]; unfold contents; cbn [map mjoin list_join app];
    rewrite Z.add_0_r, take_drop; done.
  rewrite bool_decide_false by done. cbn [negb]. cbn [length] in Hb. destruct Hl as (-> & Hx & Hl).
  rewrite ReadCluster_ok by (done || lia). cbn [mbind result_bind].
  rewrite NextCluster_ok by (done || by apply cluster_in_fat; [apply Hv|]). cbn [mbind result_bind].
  destruct (data_of_ok f x Hv Hx) as [Hdl _].
  rewrite u32_small by (zify_words; lia).
  rewrite (IH _ l); [|done | lia | lia | |]; [|rewrite !length_app, length_take, length_drop; lia..].
  f_equal. rewrite contents_cons. cbn [length].
  rewrite (app_assoc (take (Z.to_nat w) buffer)).
  rewrite take_app_length' by (rewrite length_app, length_take; lia).
  rewrite <- !app_assoc. do 3 f_equal.
  rewrite (app_assoc (take (Z.to_nat w) buffer)), drop_app_ge by (rewrite length_app, length_take; lia).
  rewrite length_app, length_take, drop_drop. f_equal. lia.
Qed.

Lemma mark_last f c :
  volume f -> 0 <= c < fat_len f -> exists f', SetFATEntry junk f c 0x0FFFFFFF = Ok (true, f') /\
    updates f f' (upd (fat_of f) c 0x0FFFFFFF) (data_of f).
Proof using Hjunk. intros Hv Hc. apply (SetFATEntry_ok junk Hjunk f c 0x0FFFFFFF); [done | done | u32_lit]. Qed.

(** The step of the writing loop: the first free cluster is linked after [c]. *)
Lemma link_next f c x r :
  volume f -> 2 <= c < max_cluster f -> fat_of f c <> 0 -> free_list f = x :: r ->
  exists f1 f2, AllocCluster junk f = Ok x /\ SetFATEntry junk f c x = Ok (true, f1) /\
    SetFATEntry junk f1 x 0x0FFFFFFF = Ok (true, f2) /\
    updates f f2 (upd (upd (fat_of f) c x) x 0x0FFFFFFF) (data_of f) /\ free_list f2 = r.
Proof using Hjunk.
  intros Hv Hc Hfc Hfree. pose proof (v_geometry f Hv) as Hg.
  destruct (free_head f x r Hg Hfree) as (Hx & Hx0 & Hxf & Hx28).
  destruct (SetFATEntry_ok junk Hjunk f c x Hv (cluster_in_fat f c Hg Hc)) as (f1 & E1 & U1).
  { change (2 ^ 28) with 268435456 in Hx28. zify_words. lia. }
  rewrite mask_small in U1 by done.
  pose proof (set_ata_geom f f1 (u_disk _ _ _ _ U1)) as (Hlen & Hmax & _).
  destruct (mark_last f1 x (u_volume _ _ _ _ U1) ltac:(by rewrite Hlen)) as (f2 & E2 & U2).
  exists f1, f2. rewrite AllocCluster_ok, Hfree by done. split; [done|]. split; [done|]. split; [done|].
  assert (U : updates f f2 (upd (upd (fat_of f) c x) x 0x0FFFFFFF) (data_of f)).
  { eapply updates_ext; [eapply updates_trans; [exact U1 | exact U2] | |].
    - intros k Hk. unfold upd at 1 2. destruct (k =? x); [done|]. by apply (u_fat _ _ _ _ U1).
    - intros k Hk. by apply (u_data _ _ _ _ U1). }
  split; [done|]. eapply free_list_pop; [done | exact Hfree | exact U |].
  intros k Hk. unfold upd. destruct (Z.eqb_spec k x) as [->|]; [lia|].
  destruct (Z.eqb_spec k c) as [->|]; [lia|]. tauto.
Qed.

(** ** Writing a chain *)

(** The last iteration of the loop of [WriteClusterChain]. *)
Lemma write_last fuel f c cb buf size w :
  volume f -> 2 <= c < max_cluster f -> length cb = Z.to_nat 4096 -> is_bytes cb -> is_bytes buf ->
  size <= Z.of_nat (length buf) -> size < 2 ^ 32 -> 0 <= w -> 0 < size - w <= cluster_size f ->
  exists f', write_chain junk (S fuel) f c buf size w cb = Ok (true, f') /\
    updates f f' (upd (fat_of f) c 0x0FFFFFFF)
      (upd (data_of f) c (pad (cluster_size f) (take (Z.to_nat (size - w)) (drop (Z.to_nat w) buf)))).
Proof using Hjunk.
  intros Hv Hc Hcb Hcbb Hb Hsz Hsz32 Hw Hn. pose proof (v_geometry f Hv) as Hg.
  cbn [write_chain]. rewrite (proj2 (Z.ltb_lt w size)) by lia. cbv zeta.
  rewrite (u32_small (size - w)), buf_size_eq, Z.gtb_ltb, (proj2 (Z.ltb_ge _ (size - w)))
    by (done || zify_words; lia).
  destruct (store_chunk f c cb buf w (size - w)) as (cb' & f1 & -> & E1 & _ & _ & U1); try (done || lia).
  cbn [mbind result_bind]. rewrite E1. cbn [mbind result_bind negb].
  replace (w + (size - w)) with size by lia. rewrite u32_small, Z.ltb_irrefl by (zify_words; lia).
  destruct (set_ata_geom f f1 (u_disk _ _ _ _ U1)) as (Hlen & _).
  destruct (mark_last f1 c (u_volume _ _ _ _ U1)) as (f2 & E2 & U2).
  { rewrite Hlen. by apply cluster_in_fat. }
  rewrite E2. cbn [mbind result_bind negb]. exists f2. split.
  - destruct fuel; cbn [write_chain]; by rewrite Z.ltb_irrefl.
  - eapply updates_ext; [eapply updates_trans; [exact U1 | exact U2] | |].
    + intros k Hk. unfold upd. destruct (k =? c); [done|]. by apply (u_fat _ _ _ _ U1).
    + intros k Hk. by apply (u_data _ _ _ _ U1).
Qed.

(** An iteration that allocates the next cluster. *)
Lemma write_step fuel f c cb buf size w x r :
  volume f -> 2 <= c < max_cluster f -> fat_of f c <> 0 -> length cb = Z.to_nat 4096 ->
  is_bytes cb -> is_bytes buf -> size <= Z.of_nat (length buf) -> size < 2 ^ 32 -> 0 <= w ->
  cluster_size f < size - w -> free_list f = x :: r ->
  exists f' cb', write_chain junk (S fuel) f c buf size w cb =
      write_chain junk fuel f' x buf size (w + cluster_size f) cb' /\
    length cb' = Z.to_nat 4096 /\ is_bytes cb' /\ free_list f' = r /\
    updates f f' (upd (upd (fat_of f) c x) x 0x0FFFFFFF)
      (upd (data_of f) c (take (Z.to_nat (cluster_size f)) (drop (Z.to_nat w) buf))).
Proof using Hjunk.
  intros Hv Hc Hfc Hcb Hcbb Hb Hsz Hsz32 Hw Hn Hfree. pose proof (v_geometry f Hv) as Hg.
  pose proof (cluster_size_pos f Hg) as Hcs.
  cbn [write_chain]. rewrite (proj2 (Z.ltb_lt w size)) by lia. cbv zeta.
  rewrite (u32_small (size - w)), buf_size_eq, Z.gtb_ltb, (proj2 (Z.ltb_lt _ (size - w)))
    by (done || zify_words; lia).
  destruct (store_chunk f c cb buf w (cluster_size f)) as (cb' & f1 & -> & E1 & Hcb' & Hcbb' & U1);
    try (done || lia).
  cbn [mbind result_bind]. rewrite E1. cbn [mbind result_bind negb].
  rewrite u32_small, (proj2 (Z.ltb_lt _ size)) by (zify_words; lia).
  destruct (set_ata_geom f f1 (u_disk _ _ _ _ U1)) as (_ & Hmax & _).
  assert (Hc1 : fat_of f1 c = fat_of f c) by (apply (u_fat _ _ _ _ U1), cluster_in_fat; done).
  destruct (link_next f1 c x r) as (f2 & f3 & -> & E2 & E3 & U3 & Hr).
  { apply U1. }
  { by rewrite Hmax. }
  { by rewrite Hc1. }
  { by rewrite (free_list_same f f1 _ Hg U1). }
  cbn [mbind result_bind].
  assert (Hx0 : x <> 0) by (destruct (free_head f x r Hg Hfree); lia).
  rewrite (proj2 (Z.eqb_neq x 0)), E2 by done. cbn [mbind result_bind negb]. rewrite E3.
  cbn [mbind result_bind negb]. exists f3, cb'. do 4 (split; [done|]).
  eapply updates_ext; [eapply updates_trans; [exact U1 | exact U3] | |].
  - intros k Hk. unfold upd. destruct (k =? x), (k =? c); try done. by apply (u_fat _ _ _ _ U1).
  - intros k Hk. rewrite (u_data _ _ _ _ U1), pad_full by (done || rewrite length_take, length_drop; lia).
    done.
Qed.

(** The loop of [WriteClusterChain] with [n] more clusters to allocate. *)
Lemma write_chain_ok n fuel f c cb buf size w :
  volume f -> 2 <= c < max_cluster f -> fat_of f c <> 0 ->
  length cb = Z.to_nat 4096 -> is_bytes cb -> is_bytes buf ->
  size <= Z.of_nat (length buf) -> size < 2 ^ 32 -> 0 <= w ->
  Z.of_nat n * cluster_size f < size - w <= (Z.of_nat n + 1) * cluster_size f ->
  (n <= length (free_list f))%nat -> (n < fuel)%nat ->
  exists f', write_chain junk fuel f c buf size w cb = Ok (true, f') /\
    let l := c :: take n (free_list f) in
    keeps f f' l /\ chain f' c l /\
    contents f' l = pad ((Z.of_nat n + 1) * cluster_size f)
                      (take (Z.to_nat (size - w)) (drop (Z.to_nat w) buf)).
Proof using Hjunk.
  revert fuel f c cb w. induction n as [|n IH];
    intros fuel f c cb w Hv Hc Hfc Hcb Hcbb Hb Hsz Hsz32 Hw Hn Hfree Hfuel;
    (destruct fuel as [|fuel]; [lia|]); pose proof (v_geometry f Hv) as Hg;
    pose proof (cluster_size_pos f Hg) as Hcs.
  - destruct (write_last fuel f c cb buf size w) as (f' & E & U); try (done || lia).
    exists f'. split; [done|]. cbn [take]. cbv zeta.
    destruct (set_ata_geom f f' (u_disk _ _ _ _ U)) as (_ & Hmax & _).
    split; [|split].
    + eapply updates_keeps; [exact U | |]; intros k Hk; apply upd_ne; set_solver.
    + cbn [chain]. rewrite Hmax, (u_fat _ _ _ _ U), upd_eq by (by apply cluster_in_fat). by split.
    + rewrite contents_cons, (u_data _ _ _ _ U), upd_eq by done. rewrite app_nil_r. f_equal. lia.
  - destruct (free_list f) as [|x r] eqn:Hfl; [cbn in Hfree; lia|].
    destruct (write_step fuel f c cb buf size w x r) as (f1 & cb' & -> & Hcb' & Hcbb' & Hr & U); try (done || lia).
    destruct (free_head f x r Hg Hfl) as (Hx & Hx0 & Hxf & _).
    destruct (set_ata_geom f f1 (u_disk _ _ _ _ U)) as (Hlen & Hmax & Hsize & _).
    assert (Hcx : c <> x) by (by intros ->).
    assert (Hf1x : fat_of f1 x = 0x0FFFFFFF) by (rewrite (u_fat _ _ _ _ U) by done; apply upd_eq).
    assert (Hf1c : fat_of f1 c = x).
    { rewrite (u_fat _ _ _ _ U) by (by apply cluster_in_fat). rewrite upd_ne by done. apply upd_eq. }
    destruct (IH fuel f1 x cb' (w + cluster_size f)) as (f' & -> & Hk & Hch & Hcon); rewrite ?Hf1x, ?Hmax, ?Hsize; try (done || lia).
    { apply U. }
    { rewrite Hr. cbn in Hfree. lia. }
    exists f'. split; [done|]. rewrite Hr in Hk, Hch, Hcon. cbn [take]. cbv zeta in *.
    set (l := x :: take n r) in *.
    assert (Hcl : c ∉ l).
    { subst l. intros [|Hin]%elem_of_cons; [done|]. apply elem_of_take in Hin as (i & Hi & _).
      apply list_elem_of_lookup_2 in Hi. assert (c ∈ free_list f) as Hcf by (rewrite Hfl; set_solver).
      apply free_list_spec in Hcf as [? _]. done. }
    destruct (chain_before f f1 f' c x l (take (Z.to_nat (cluster_size f)) (drop (Z.to_nat w) buf)))
      as (? & ? & ->); try done.
    { eapply updates_keeps; [exact U | |]; intros k Hkl; rewrite !upd_ne by set_solver; done. }
    { rewrite (u_data _ _ _ _ U) by done. apply upd_eq. }
    split; [done|]. split; [done|].
    rewrite Hcon, Hsize, pad_app with (n := cluster_size f) by (rewrite ?length_take, ?length_drop; lia).
    f_equal; [lia|].
    replace (Z.to_nat (w + cluster_size f)) with (Z.to_nat w + Z.to_nat (cluster_size f))%nat by lia.
    rewrite <- drop_drop, take_take_drop. f_equal. lia.
Qed.
Section write.
Context (junk4096 : list Z).
Context (Hjunk4 : length junk4096 = Z.to_nat 4096) (Hjunkb : is_bytes junk4096).

Lemma WriteClusterChain_ok fuel f c buf size :
  volume f -> 2 <= c < max_cluster f -> fat_of f c <> 0 -> is_bytes buf ->
  0 <= size <= Z.of_nat (length buf) -> size < 2 ^ 32 ->
  (more_clusters f size <= length (free_list f))%nat -> (more_clusters f size < fuel)%nat ->
  exists f', WriteClusterChain junk junk4096 fuel f c buf size = Ok (true, f') /\
    let l := c :: take (more_clusters f size) (free_list f) in
    keeps f f' l /\ chain f' c l /\
    contents f' l = pad ((Z.of_nat (more_clusters f size) + 1) * cluster_size f) (take (Z.to_nat size) buf).
Proof using Hjunk Hjunk4 Hjunkb.
  intros Hv Hc Hfc Hb Hs Hs32 Hfree Hfuel. pose proof (v_geometry f Hv) as Hg.
  unfold WriteClusterChain. destruct (Z.eqb_spec size 0) as [->|Hne].
  - assert (Hm : more_clusters f 0 = 0%nat).
    { pose proof (cluster_size_pos f Hg). unfold more_clusters. Z.div_mod_to_equations. nia. }
    rewrite Hm. cbn [take]. cbv zeta.
    destruct (store_chunk f c junk4096 [] 0 0) as (cb & f1 & -> & E1 & _ & _ & U1);
      try (done || pose proof (cluster_size_pos f Hg); cbn; lia).
    cbn [mbind result_bind]. rewrite E1. cbn [mbind result_bind].
    destruct (set_ata_geom f f1 (u_disk _ _ _ _ U1)) as (Hlen & _).
    destruct (mark_last f1 c (u_volume _ _ _ _ U1)) as (f2 & E2 & U2).
    { rewrite Hlen. by apply cluster_in_fat. }
    exists f2. split; [done|].
    pose proof (updates_trans _ _ _ _ _ _ _ U1 U2) as U.
    destruct (set_ata_geom f f2 (u_disk _ _ _ _ U)) as (_ & Hmax & _).
    split; [|split].
    + eapply keeps_trans with (l1 := [c]) (l2 := [c]); [| |done..];
        [eapply updates_keeps; [exact U1 | |] | eapply updates_keeps; [exact U2 | |]]; intros k Hk;
        rewrite ?upd_ne by set_solver; done.
    + cbn [chain]. rewrite Hmax, (u_fat _ _ _ _ U), upd_eq by (by apply cluster_in_fat). by split.
    + rewrite contents_cons, (u_data _ _ _ _ U), (u_data _ _ _ _ U1), upd_eq by done.
      rewrite app_nil_r. by replace ((Z.of_nat 0 + 1) * cluster_size f) with (cluster_size f) by lia.
  - pose proof (more_clusters_bounds f size Hg ltac:(lia)) as Hn.
    destruct (write_chain_ok (more_clusters f size) fuel f c junk4096 buf size 0) as (f' & E & H);
      try (done || lia).
    exists f'. split; [done|]. cbv zeta in *. rewrite Z.sub_0_r in H. exact H.
Qed.
End write.
End chains.

End FatFiles.
