(* ===== verification/FatDirs.v ===== *)
(** Directories of a FAT32 volume, and whole files: src/src/fs/fat32.cpp.

    A directory is the list of the 32-byte entries of the clusters of its chain.
    The search, insertion and deletion loops are shown to be operations on that
    list, and [WriteFile] followed by [ReadFile] to return what was written. *)

From stdpp Require Import base numbers list gmap.
From Stdlib Require Import ZArith Lia.
From S2P Require Import Prelude Net Fat32 FatVolume FatFiles.

Module FatDirs.
Import Net Fat FatVolume FatFiles.

(** ** Entries *)

Fixpoint chunks (n : nat) (d : list Z) : list (list Z) :=
  match n with O => [] | S n => take 32 d :: chunks n (drop 32 d) end.

Definition epc (f : FAT32) : nat := Z.to_nat (cluster_size f / 32).

Definition cluster_entries (f : FAT32) (c : Z) : list (list Z) := chunks (epc f) (data_of f c).

Definition dir_entries (f : FAT32) (l : list Z) : list (list Z) := mjoin (map (cluster_entries f) l).

Lemma dir_entries_cons f x l : dir_entries f (x :: l) = cluster_entries f x ++ dir_entries f l.
Proof. done. Qed.

Lemma dir_entries_app f l1 l2 : dir_entries f (l1 ++ l2) = dir_entries f l1 ++ dir_entries f l2.
Proof. unfold dir_entries. by rewrite map_app, join_app. Qed.

Definition entry_ok (e : list Z) : Prop := length e = 32%nat /\ is_bytes e.

Lemma chunks_length n d : length (chunks n d) = n.
Proof. revert d. induction n as [|n IH]; intros d; cbn; [done|]. by rewrite IH. Qed.

Lemma chunks_ok n d :
  (32 * n <= length d)%nat -> is_bytes d -> Forall entry_ok (chunks n d).
Proof.
  revert d. induction n as [|n IH]; intros d Hl Hb; cbn [chunks]; constructor.
  - split; [rewrite length_take; lia | by apply Forall_take].
  - apply IH; [rewrite length_drop; lia | by apply Forall_drop].
Qed.

Lemma chunks_app n d r : (32 * n <= length d)%nat -> chunks n (d ++ r) = chunks n d.
Proof.
  revert d. induction n as [|n IH]; intros d Hl; cbn [chunks]; [done|].
  rewrite take_app_le, drop_app_le by lia. f_equal. apply IH. rewrite length_drop. lia.
Qed.

Lemma chunks_insert n d k e :
  (k < n)%nat -> (32 * n <= length d)%nat -> length e = 32%nat ->
  chunks n (take (32 * k) d ++ e ++ drop (32 * k + 32) d) = <[k := e]> (chunks n d).
Proof.
  revert n d. induction k as [|k IH]; intros n d Hk Hl He; (destruct n as [|n]; [lia|]).
  - cbn [chunks Nat.mul Nat.add take app]. rewrite take_0, app_nil_l.
    rewrite take_app_length', drop_app_length' by done. done.
  - transitivity (take 32 d :: <[k := e]> (chunks n (drop 32 d))); [|done].
    rewrite <- IH by (rewrite ?length_drop; lia). cbn [chunks].
    replace (32 * S k)%nat with (32 + 32 * k)%nat by lia.
    rewrite <- take_take_drop, <- app_assoc, drop_drop.
    rewrite take_app_length', drop_app_length' by (rewrite length_take; lia).
    done.
Qed.

Lemma cluster_entries_ok f c :
  volume f -> 2 <= c < max_cluster f ->
  (32 * epc f <= length (data_of f c))%nat /\ Forall entry_ok (cluster_entries f c) /\
  Z.of_nat (32 * epc f) = cluster_size f.
Proof.
  intros Hv Hc. destruct (data_of_ok f c Hv Hc) as [Hl Hb].
  pose proof (v_geometry f Hv) as Hg. pose proof (v_spc f Hg). pose proof (v_cluster_size f Hg) as Hcs.
  assert (E : Z.of_nat (32 * epc f) = cluster_size f).
  { unfold epc. rewrite Hcs.
    replace (sectors_per_cluster (bpb f) * 512 / 32) with (sectors_per_cluster (bpb f) * 16)
      by (Z.div_mod_to_equations; lia). lia. }
  split; [lia|]. split; [|done]. apply chunks_ok; [lia | done].
Qed.

(** ** Scanning *)

Fixpoint scan (t : list Z -> verdict) (es : list (list Z)) (i : Z) : verdict * Z :=
  match es with
  | [] => (Skip, i)
  | e :: es => match t e with Skip => scan t es (i + 1) | v => (v, i) end
  end.

(** The first entry a test stops at or finds. *)
Fixpoint first (t : list Z -> verdict) (es : list (list Z)) : option (list Z) :=
  match es with
  | [] => None
  | e :: es => match t e with Stop => None | Skip => first t es | Found => Some e end
  end.

Definition computes (test : list Z -> result verdict) (t : list Z -> verdict) : Prop :=
  forall e, entry_ok e -> test e = Ok (t e).

Lemma scan_entries_ok test t n buf i :
  computes test t -> 0 <= i -> is_bytes buf -> i * 32 + Z.of_nat n * 32 <= Z.of_nat (length buf) ->
  scan_entries test n buf i = Ok (scan t (chunks n (drop (Z.to_nat (i * 32)) buf)) i).
Proof.
  intros Ht. revert i. induction n as [|n IH]; intros i Hi Hb Hl; [done|].
  cbn [scan_entries chunks scan].
  replace (i * 32) with (Z.of_nat (Z.to_nat (i * 32))) at 1 by lia.
  change 32 with (Z.of_nat 32) at 2. rewrite get_bytes_nat by lia. cbn [mbind result_bind].
  rewrite Ht. 2:{ split; [rewrite length_take, length_drop; lia | by apply Forall_take, Forall_drop]. }
  cbn [mbind result_bind]. destruct (t _); [done | | done].
  rewrite IH by (done || lia). do 3 f_equal. rewrite drop_drop. f_equal. lia.
Qed.

Lemma scan_skip t es i : Forall (fun e => t e = Skip) es -> scan t es i = (Skip, i + Z.of_nat (length es)).
Proof.
  revert i. induction es as [|e es IH]; intros i; cbn [scan length].
  - intros _. f_equal. lia.
  - intros [-> H]%Forall_cons. rewrite IH by done. f_equal. lia.
Qed.

Lemma scan_hit t pre e post i :
  Forall (fun e => t e = Skip) pre -> t e <> Skip ->
  scan t (pre ++ e :: post) i = (t e, i + Z.of_nat (length pre)).
Proof.
  revert i. induction pre as [|x pre IH]; intros i; cbn [app scan length].
  - intros _ He. replace (i + Z.of_nat 0) with i by lia. by destruct (t e).
  - intros [-> H]%Forall_cons He. rewrite IH by done. f_equal. lia.
Qed.

Lemma first_skip t pre es : Forall (fun e => t e = Skip) pre -> first t (pre ++ es) = first t es.
Proof. induction pre as [|x pre IH]; [done|]. intros [Hx H]%Forall_cons. cbn. rewrite Hx. auto. Qed.

(** Where a test ends. *)
Lemma split_scan (t : list Z -> verdict) es :
  Forall (fun e => t e = Skip) es \/
  exists pre e post, es = pre ++ e :: post /\ Forall (fun e => t e = Skip) pre /\ t e <> Skip.
Proof.
  induction es as [|e es IH]; [by left|]. destruct (t e) eqn:E.
  1,3: right; exists [], e, es; repeat split; [constructor | by rewrite E].
  destruct IH as [IH|(pre & e' & post & -> & H & He)]; [left; by constructor|].
  right. exists (e :: pre), e', post. repeat split; [by constructor | done].
Qed.

(** The tests of the three loops. *)

Definition byte (e : list Z) (k : nat) : Z := default 0 (e !! k).

Definition find_v (name83 e : list Z) : verdict :=
  if byte e 0 =? 0x00 then Stop
  else if byte e 0 =? 0xE5 then Skip
  else if byte e 11 =? 0x0F then Skip
  else if bytes_eqb (take 11 e) name83 then Found else Skip.

Definition mark_v (name83 e : list Z) : verdict :=
  if byte e 0 =? 0x00 then Stop
  else if byte e 0 =? 0xE5 then Skip
  else if bytes_eqb (take 11 e) name83 then Found else Skip.

Definition free_v (e : list Z) : verdict :=
  if (byte e 0 =? 0x00) || (byte e 0 =? 0xE5) then Found else Skip.

Lemma entry_byte e z k : entry_ok e -> z = Z.of_nat k -> (k < 32)%nat -> arr_get e z = Ok (byte e k).
Proof.
  intros [Hl _] -> Hk. apply arr_get_Ok. split; [lia|]. rewrite Nat2Z.id. unfold byte.
  destruct (lookup_lt_is_Some_2 e k) as [x ->]; [lia | done].
Qed.

Lemma NamesMatch_ok e name83 :
  entry_ok e -> length name83 = 11%nat -> NamesMatch e name83 = Ok (bytes_eqb (take 11 e) name83).
Proof.
  intros [Hl _] Hn. unfold NamesMatch. change 11 with (Z.of_nat 11). change 0 with (Z.of_nat 0) at 1 2.
  rewrite !get_bytes_nat by lia. cbn [mbind result_bind]. by rewrite !drop_0, (take_ge name83) by lia.
Qed.

Lemma find_computes name83 : length name83 = 11%nat -> computes (find_test name83) (find_v name83).
Proof.
  intros Hn e He. unfold find_test, find_v, entry_attr.
  rewrite (entry_byte e 0 0), (entry_byte e 11 11), NamesMatch_ok by (done || lia). cbn [mbind result_bind].
  destruct (byte e 0 =? 0), (byte e 0 =? 229), (byte e 11 =? 15); done.
Qed.

Lemma mark_computes name83 : length name83 = 11%nat -> computes (mark_test name83) (mark_v name83).
Proof.
  intros Hn e He. unfold mark_test, mark_v.
  rewrite (entry_byte e 0 0), NamesMatch_ok by (done || lia). cbn [mbind result_bind].
  destruct (byte e 0 =? 0), (byte e 0 =? 229); done.
Qed.

Lemma free_computes : computes free_test free_v.
Proof. intros e He. unfold free_test, free_v. by rewrite (entry_byte e 0 0) by (done || lia). Qed.

Lemma chunks_lookup n d k e :
  chunks n d !! k = Some e -> e = take 32 (drop (32 * k) d) /\ (k < n)%nat.
Proof.
  revert d k. induction n as [|n IH]; intros d [|k]; cbn [chunks]; [done | done | |].
  - intros [= <-]. split; [by rewrite drop_0 | lia].
  - cbn. intros [-> Hk]%IH. rewrite drop_drop. split; [do 2 f_equal; lia | lia].
Qed.

(** Entry [k] of a cluster in the buffer. *)
Lemma get_entry f c k e r :
  volume f -> 2 <= c < max_cluster f -> cluster_entries f c !! k = Some e ->
  get_bytes (data_of f c ++ r) (Z.of_nat k * 32) 32 = Ok e.
Proof.
  intros Hv Hc [He Hk]%chunks_lookup. destruct (cluster_entries_ok f c Hv Hc) as (Hle & _ & _).
  replace (Z.of_nat k * 32) with (Z.of_nat (32 * k)) by lia. change 32 with (Z.of_nat 32).
  rewrite get_bytes_nat by (rewrite length_app; lia). rewrite He. f_equal.
  rewrite drop_app_le, take_app_le by (rewrite ?length_drop; lia). done.
Qed.

(** One cluster of a directory, read and scanned. *)
Lemma scan_cluster test t f c buf :
  computes test t -> volume f -> 2 <= c < max_cluster f -> length buf = Z.to_nat 4096 -> is_bytes buf ->
  let buf' := data_of f c ++ drop (Z.to_nat (cluster_size f)) buf in
  ReadCluster f c buf 0 = Ok buf' /\ length buf' = Z.to_nat 4096 /\ is_bytes buf' /\
  scan_entries test (Z.to_nat (cluster_size f / 32)) buf' 0 = Ok (scan t (cluster_entries f c) 0).
Proof.
  intros Ht Hv Hc Hl Hb buf'. destruct (data_of_ok f c Hv Hc) as [Hdl Hdb].
  destruct (cluster_entries_ok f c Hv Hc) as (Hle & _ & Hcs).
  pose proof (cluster_size_pos f (v_geometry f Hv)).
  assert (Hl' : length buf' = Z.to_nat 4096) by (unfold buf'; rewrite length_app, length_drop; lia).
  assert (Hb' : is_bytes buf') by (apply Forall_app; split; [done | by apply Forall_drop]).
  split; [rewrite ReadCluster_ok by (done || lia); done|]. split; [done|]. split; [done|].
  fold (epc f). rewrite (scan_entries_ok test t) by (done || lia). do 2 f_equal.
  apply (chunks_app (epc f) (data_of f c)). done.
Qed.

Section dirs.
Context (junk : list Z) (Hjunk : length junk = 512%nat).

(** ** Searching *)

Lemma find_in_chain_ok fuel f name83 c l buf :
  volume f -> chain f c l -> (length l <= fuel)%nat -> length name83 = 11%nat ->
  length buf = Z.to_nat 4096 -> is_bytes buf ->
  find_in_chain junk fuel f name83 c buf = Ok (first (find_v name83) (dir_entries f l)).
Proof using Hjunk.
  intros Hv Hch Hfuel Hn. revert c l buf Hch Hfuel.
  induction fuel as [|fuel IH]; intros c l buf Hch Hfuel Hl Hb;
    (destruct l as [|x l]; [|cbn [length] in Hfuel; try lia]); cbn [find_in_chain];
    rewrite (chain_eoc f c _ Hv Hch).
  1,2: rewrite bool_decide_true by done; done.
  rewrite bool_decide_false by done. cbn [negb]. destruct Hch as (-> & Hx & Hch).
  destruct (scan_cluster (find_test name83) (find_v name83) f x buf) as (-> & Hl' & Hb' & Es);
    try done; [by apply find_computes|].
  cbn [mbind result_bind]. rewrite Es. cbn [mbind result_bind].
  rewrite dir_entries_cons.
  destruct (split_scan (find_v name83) (cluster_entries f x)) as [Hs|(pre & e & post & E & Hpre & He)].
  - rewrite scan_skip, first_skip by done.
    rewrite NextCluster_ok by (done || by apply cluster_in_fat; [apply Hv|]). cbn [mbind result_bind].
    apply IH; (done || lia).
  - rewrite E, scan_hit, <- app_assoc, first_skip by done. cbn [app first].
    destruct (find_v name83 e) eqn:Hfe; [done | done |].
    rewrite (get_entry f x (length pre) e) by (done || rewrite E; by rewrite lookup_app_r, Nat.sub_diag by lia).
    done.
Qed.
End dirs.

(** ** Storing an entry *)

Lemma put_entry f c k e entry r :
  volume f -> 2 <= c < max_cluster f -> cluster_entries f c !! k = Some e -> entry_ok entry ->
  is_bytes r ->
  exists buf, put_bytes (data_of f c ++ r) (Z.of_nat k * 32) entry = Ok buf /\
    length buf = length (data_of f c ++ r) /\ is_bytes buf /\
    chunks (epc f) (take (Z.to_nat (cluster_size f)) buf) = <[k := entry]> (cluster_entries f c).
Proof.
  intros Hv Hc He [Hel Heb] Hrb. destruct (data_of_ok f c Hv Hc) as [Hdl Hdb].
  destruct (cluster_entries_ok f c Hv Hc) as (Hle & _ & Hcs). apply chunks_lookup in He as [He Hk].
  rewrite put_bytes_ok by (rewrite ?length_app; lia). eexists. split; [reflexivity|].
  split; [rewrite !length_app, length_take, length_drop, length_app; lia|]. split.
  - apply Forall_app. split; [by apply Forall_take, Forall_app|]. apply Forall_app. split; [done|].
    by apply Forall_drop, Forall_app.
  - replace (Z.to_nat (Z.of_nat k * 32)) with (32 * k)%nat by lia. rewrite Hel.
    rewrite (take_app_le (data_of f c) r), (drop_app_le (data_of f c) r) by lia.
    rewrite 2!app_assoc, <- (app_assoc (take _ _) entry).
    rewrite take_app_length'.
    + apply chunks_insert; (done || lia).
    + rewrite !length_app, length_take, length_drop. lia.
Qed.

Lemma store_entry f c k e entry r :
  volume f -> 2 <= c < max_cluster f -> cluster_entries f c !! k = Some e -> entry_ok entry ->
  is_bytes r ->
  exists buf f' D, put_bytes (data_of f c ++ r) (Z.of_nat k * 32) entry = Ok buf /\
    WriteCluster f c buf = Ok (true, f') /\ updates f f' (fat_of f) (upd (data_of f) c D) /\
    cluster_entries f' c = <[k := entry]> (cluster_entries f c).
Proof.
  intros Hv Hc He Hok Hrb. destruct (put_entry f c k e entry r) as (buf & -> & Hl & Hb & Hch); try done.
  destruct (data_of_ok f c Hv Hc) as [Hdl _]. rewrite length_app in Hl.
  destruct (WriteCluster_ok f c buf) as (f' & E & U); [done | done | lia | done |].
  eexists _, f', _. split; [reflexivity|]. split; [done|]. split; [exact U|].
  destruct (u_disk _ _ _ _ U) as [d ->]. unfold cluster_entries at 1.
  rewrite (u_data _ _ _ _ U), upd_eq by done. exact Hch.
Qed.

(** Entries of clusters that did not change. *)
Lemma entries_same f f' c :
  (exists d, f' = set_ata f d) -> data_of f' c = data_of f c -> cluster_entries f' c = cluster_entries f c.
Proof. intros [d ->] E. unfold cluster_entries. by rewrite E. Qed.

Lemma dir_keeps f f' m c l :
  volume f -> keeps f f' m -> (forall x, x ∈ l -> x ∉ m) -> chain f c l -> dir_entries f' l = dir_entries f l.
Proof.
  intros Hv Hk Hm Hch. unfold dir_entries. f_equal. apply map_ext_in. intros x Hx%list_elem_of_In.
  apply entries_same; [apply Hk|]. apply (k_data _ _ _ Hk); [by eapply chain_in | by apply Hm].
Qed.

(** The first entry a test does not skip is determined. *)
Lemma split_unique (t : list Z -> verdict) a e b a' e' b' :
  a ++ e :: b = a' ++ e' :: b' -> Forall (fun e => t e = Skip) a -> Forall (fun e => t e = Skip) a' ->
  t e <> Skip -> t e' <> Skip -> a = a' /\ e = e' /\ b = b'.
Proof.
  revert a'. induction a as [|x a IH]; intros [|x' a']; cbn [app]; intros E Ha Ha' He He'.
  - by injection E.
  - injection E as -> ->. apply Forall_cons in Ha' as [? _]. done.
  - injection E as -> E. apply Forall_cons in Ha as [? _]. done.
  - injection E as -> E. apply Forall_cons in Ha as [_ Ha]. apply Forall_cons in Ha' as [_ Ha'].
    by destruct (IH a') as (-> & -> & ->).
Qed.

Lemma split_after (t : list Z -> verdict) a b pre e post :
  a ++ b = pre ++ e :: post -> Forall (fun e => t e = Skip) a -> t e <> Skip ->
  exists pre', pre = a ++ pre' /\ b = pre' ++ e :: post.
Proof.
  revert pre. induction a as [|x a IH]; intros pre; cbn [app]; [by exists pre|].
  intros E [Hx Ha]%Forall_cons He. destruct pre as [|y pre]; injection E as -> E; [done|].
  destruct (IH pre E Ha He) as (pre' & -> & ->). by exists pre'.
Qed.

(** ** Adding an entry *)

(** What storing entry [k] of the first cluster of a directory does to it. *)
Lemma dir_store f f' x l D pre e post entry :
  volume f -> chain f x (x :: l) -> updates f f' (fat_of f) (upd (data_of f) x D) ->
  cluster_entries f x = pre ++ e :: post ->
  cluster_entries f' x = <[length pre := entry]> (cluster_entries f x) ->
  keeps f f' (x :: l) /\ dir_entries f' (x :: l) = pre ++ entry :: post ++ dir_entries f l.
Proof.
  intros Hv Hch U E E'.
  assert (Hx : x ∉ l) by (apply (chain_NoDup f) in Hch; [by apply NoDup_cons in Hch as [] | done]).
  assert (Hk : keeps f f' [x]).
  { eapply updates_keeps; [exact U | done |]. intros k Hk. apply upd_ne. set_solver. }
  split.
  - eapply keeps_trans; [apply keeps_refl; done | exact Hk | | set_solver]. instantiate (1 := []). set_solver.
  - rewrite dir_entries_cons, E', E, (dir_keeps f f' [x] (fat_of f x) l); [| done | done | set_solver | apply Hch].
    rewrite insert_app_r_alt, Nat.sub_diag by lia. cbn. by rewrite <- app_assoc.
Qed.

Section add.
Context (junk : list Z) (Hjunk : length junk = 512%nat).

Lemma add_slot_ok fuel f entry c l prev buf pre e post :
  volume f -> chain f c l -> (length l <= fuel)%nat -> entry_ok entry ->
  length buf = Z.to_nat 4096 -> is_bytes buf ->
  dir_entries f l = pre ++ e :: post -> Forall (fun e => free_v e = Skip) pre -> free_v e = Found ->
  exists f', add_in_chain junk fuel f entry c prev buf = Ok (true, f') /\ keeps f f' l /\
    (forall k, 0 <= k < fat_len f -> fat_of f' k = fat_of f k) /\
    dir_entries f' l = pre ++ entry :: post.
Proof using Hjunk.
  intros Hv Hch Hfuel Hok. revert c l prev buf pre Hch Hfuel.
  induction fuel as [|fuel IH]; intros c l prev buf pre Hch Hfuel Hl Hb Hdir Hpre He;
    (destruct l as [|x l]; [by destruct pre | cbn [length] in Hfuel; try lia]). cbn [add_in_chain].
  rewrite (chain_eoc f c _ Hv Hch), bool_decide_false by done. cbn [negb].
  pose proof Hch as (-> & Hx & Hl'). pose proof (v_geometry f Hv) as Hg.
  assert (Hxl : x ∉ l) by (apply (chain_NoDup f) in Hch; [by apply NoDup_cons in Hch as [] | done]).
  destruct (scan_cluster free_test free_v f x buf free_computes Hv Hx Hl Hb) as (-> & Hbl & Hbb & Es).
  cbn [mbind result_bind]. rewrite buf_size_eq, Es by done. cbn [mbind result_bind].
  rewrite dir_entries_cons in Hdir.
  destruct (split_scan free_v (cluster_entries f x)) as [Hs|(p & e0 & q & E & Hp & He0)].
  - rewrite scan_skip by done. rewrite (NextCluster_ok junk Hjunk) by (done || by apply cluster_in_fat).
    cbn [mbind result_bind].
    destruct (split_after free_v _ _ _ _ _ Hdir Hs ltac:(by rewrite He)) as (pre' & -> & Hdir').
    apply Forall_app in Hpre as [_ Hpre].
    edestruct (IH (fat_of f x) l x) as (f' & -> & Hk & Hfat & Hd); [done | lia | exact Hbl | done | exact Hdir' | done | done |].
    exists f'. split; [done|]. split; [|split; [done|]].
    + eapply keeps_trans; [by apply (keeps_refl f []) | exact Hk | set_solver | set_solver].
    + rewrite dir_entries_cons, Hd, <- app_assoc. f_equal. apply entries_same; [apply Hk|].
      by apply (k_data _ _ _ Hk).
  - rewrite E, <- app_assoc in Hdir. cbn [app] in Hdir.
    destruct (split_unique free_v _ _ _ _ _ _ Hdir Hp Hpre He0 ltac:(by rewrite He)) as (-> & -> & <-).
    rewrite E, scan_hit, He by (done || by rewrite He).
    destruct (store_entry f x (length pre) e entry (drop (Z.to_nat (cluster_size f)) buf))
      as (buf2 & f' & D & E1 & EW & U & E2); try done.
    { rewrite E, lookup_app_r, Nat.sub_diag by lia. done. }
    { by apply Forall_drop. }
    rewrite Z.add_0_l, E1. cbn [mbind result_bind].
    exists f'. split; [exact EW|].
    destruct (dir_store f f' x l D pre e q entry) as [? ?]; try done.
    split; [done|]. split; [apply U | done].
Qed.

(** No slot: the loop leaves the chain after its last cluster. *)
Lemma add_full fuel f entry c l prev buf :
  volume f -> chain f c l -> (length l <= fuel)%nat -> length buf = Z.to_nat 4096 -> is_bytes buf ->
  Forall (fun e => free_v e = Skip) (dir_entries f l) ->
  exists buf', length buf' = Z.to_nat 4096 /\ is_bytes buf' /\
    add_in_chain junk fuel f entry c prev buf =
    add_in_chain junk 0 f entry 0x0FFFFFFF (default prev (last l)) buf'.
Proof using Hjunk.
  intros Hv Hch Hfuel. revert c l prev buf Hch Hfuel.
  induction fuel as [|fuel IH]; intros c l prev buf Hch Hfuel Hl Hb Hs;
    (destruct l as [|x l]; [|cbn [length] in Hfuel; try lia]).
  1,2: exists buf; split; [done|]; split; [done|]; cbn [add_in_chain];
       rewrite (chain_eoc f c _ Hv Hch), bool_decide_true by done; done.
  cbn [add_in_chain]. rewrite (chain_eoc f c _ Hv Hch), bool_decide_false by done. cbn [negb].
  destruct Hch as (-> & Hx & Hch). rewrite dir_entries_cons in Hs. apply Forall_app in Hs as [Hs1 Hs].
  destruct (scan_cluster free_test free_v f x buf free_computes Hv Hx Hl Hb) as (-> & Hbl & Hbb & Es).
  cbn [mbind result_bind]. rewrite buf_size_eq, Es, scan_skip by (done || apply Hv). cbn [mbind result_bind].
  rewrite NextCluster_ok by (done || by apply cluster_in_fat; [apply Hv|]). cbn [mbind result_bind].
  destruct (IH (fat_of f x) l x _ Hch ltac:(lia) Hbl Hbb Hs) as (buf' & ? & ? & ->).
  exists buf'. split; [done|]. split; [done|]. rewrite last_cons. by destruct (last l).
Qed.
End add.

(** A cluster of a chain is not free. *)
Lemma chain_used f c l x : volume f -> chain f c l -> x ∈ l -> fat_of f x <> 0.
Proof.
  intros Hv. revert c. induction l as [|y l IH]; intros c; [set_solver|]. cbn [chain].
  intros (-> & Hy & Hl) [->|Hx]%elem_of_cons; [|by eapply IH].
  destruct l as [|z l]; cbn in Hl; [unfold EOC in Hl; lia | lia].
Qed.

Lemma chain_not_free f c l x : volume f -> chain f c l -> x ∈ l -> x ∉ free_list f.
Proof. intros Hv Hch Hx [H _]%free_list_spec. by apply (chain_used f c l x) in H. Qed.

Lemma chain_snoc f f' c l p x :
  volume f -> chain f c (l ++ [p]) -> max_cluster f' = max_cluster f -> 2 <= x < max_cluster f ->
  (forall k, k ∈ l -> fat_of f' k = fat_of f k) -> fat_of f' p = x -> fat_of f' x = 0x0FFFFFFF ->
  chain f' c ((l ++ [p]) ++ [x]).
Proof.
  intros Hv Hch Hmax Hx Hl Hp Hfx. revert c Hch. induction l as [|y l IH]; intros c; cbn [app chain].
  - intros (-> & Hpr & _). rewrite Hmax, Hp, Hfx. repeat split; (done || lia).
  - intros (-> & Hy & Hc). rewrite Hmax, Hl by set_solver. repeat split; [lia | lia |].
    apply IH; [|done]. intros k Hk. apply Hl. set_solver.
Qed.

(** What [add_extend] does to the directory. *)
Lemma extend_dir f f' entry c l p x r :
  volume f -> chain f c (l ++ [p]) -> free_list f = x :: r -> entry_ok entry ->
  updates f f' (upd (upd (fat_of f) p x) x 0x0FFFFFFF) (upd (data_of f) x (pad (cluster_size f) entry)) ->
  let l' := (l ++ [p]) ++ [x] in
  chain f' c l' /\ keeps f f' l' /\
  exists post, dir_entries f' l' = dir_entries f (l ++ [p]) ++ entry :: post.
Proof.
  intros Hv Hch Hfl [Hel _] U l'. pose proof (v_geometry f Hv) as Hg.
  destruct (free_head f x r Hg Hfl) as (Hx & Hx0 & Hxf & _).
  destruct (set_ata_geom f f' (u_disk _ _ _ _ U)) as (_ & Hmax & _).
  pose proof (chain_in f c (l ++ [p])) as Hin.
  assert (Hxl : x ∉ l ++ [p]) by (intros Hi; by apply (chain_used f c _ x) in Hi).
  assert (Hpl : p ∉ l).
  { pose proof (chain_NoDup f c _ Hv Hch) as Hnd. apply NoDup_app in Hnd as (_ & Hnp & _).
    intros Hi. apply (Hnp p Hi). set_solver. }
  split; [|split].
  - eapply (chain_snoc f); try done; [lia | | |].
    + intros k Hk. rewrite (u_fat _ _ _ _ U), !upd_ne; [done | set_solver.. |].
      apply cluster_in_fat; [done|]. apply Hin; [done | set_solver].
    + rewrite (u_fat _ _ _ _ U), upd_ne, upd_eq; [done | set_solver |].
      apply cluster_in_fat; [done|]. apply Hin; [done | set_solver].
    + rewrite (u_fat _ _ _ _ U) by done. apply upd_eq.
  - eapply updates_keeps; [exact U | |]; intros k Hk; rewrite !upd_ne by set_solver; done.
  - assert (Hent : exists post, cluster_entries f' x = entry :: post).
    { destruct (cluster_entries_ok f x Hv ltac:(lia)) as (_ & _ & Hepc).
      pose proof (cluster_size_pos f Hg). destruct (u_disk _ _ _ _ U) as [d Hd].
      unfold cluster_entries. rewrite (u_data _ _ _ _ U), upd_eq by lia. subst f'.
      change (epc (set_ata f d)) with (epc f). destruct (epc f) as [|n]; [lia|]. cbn [chunks].
      eexists. f_equal. unfold pad. by apply take_app_length'. }
    destruct Hent as [post Hpost]. exists post. unfold l'. rewrite dir_entries_app. f_equal.
    + unfold dir_entries. f_equal. apply map_ext_in. intros k Hk%list_elem_of_In.
      apply entries_same; [apply U|]. rewrite (u_data _ _ _ _ U), upd_ne; [done | by intros -> | by apply Hin].
    + rewrite dir_entries_cons, Hpost. by rewrite app_nil_r.
Qed.

Section extend.
Context (junk : list Z) (Hjunk : length junk = 512%nat).

Lemma add_extend f entry p buf x r :
  volume f -> 2 <= p < max_cluster f -> fat_of f p <> 0 -> free_list f = x :: r -> entry_ok entry ->
  length buf = Z.to_nat 4096 -> is_bytes buf ->
  exists f', add_in_chain junk 0 f entry 0x0FFFFFFF p buf = Ok (true, f') /\
    updates f f' (upd (upd (fat_of f) p x) x 0x0FFFFFFF)
      (upd (data_of f) x (pad (cluster_size f) entry)).
Proof using Hjunk.
  intros Hv Hp Hfp Hfree [Hel Heb] Hl Hb. pose proof (v_geometry f Hv) as Hg.
  pose proof (cluster_size_pos f Hg) as Hcs.
  destruct (free_head f x r Hg Hfree) as (Hx & _).
  destruct (link_next junk Hjunk f p x r Hv Hp Hfp Hfree) as (f1 & f2 & E0 & E1 & E2 & U & _).
  destruct (set_ata_geom f f2 (u_disk _ _ _ _ U)) as (Hlen & Hmax & Hsize & _).
  cbn [add_in_chain]. change (0x0FFFFFFF <? EOC) with false. cbn iota. rewrite E0. cbn [mbind result_bind].
  rewrite (proj2 (Z.eqb_neq x 0)) by lia.
  rewrite fill_cluster_ok by (done || cbn; lia). cbn [mbind result_bind].
  change (take (Z.to_nat 0) (drop (Z.to_nat 0) [])) with (@nil Z).
  set (zeros := pad (cluster_size f) [] ++ _).
  assert (Hzl : length zeros = Z.to_nat 4096).
  { unfold zeros, pad. rewrite !length_app, length_replicate, length_drop. cbn [length]. lia. }
  rewrite put_bytes_ok by lia. cbn [mbind result_bind]. rewrite E1. cbn [mbind result_bind negb].
  rewrite E2. cbn [mbind result_bind negb].
  set (buf2 := take (Z.to_nat 0) zeros ++ entry ++ _).
  assert (Hb2 : length buf2 = Z.to_nat 4096 /\ is_bytes buf2).
  { unfold buf2. split; [rewrite !length_app, length_drop, length_take; lia|].
    change (is_bytes (entry ++ drop (Z.to_nat 0 + length entry) zeros)).
    apply Forall_app. split; [done|]. apply Forall_drop, Forall_app.
    split; [apply pad_bytes; constructor | by apply Forall_drop]. }
  destruct (WriteCluster_ok f2 x buf2 (u_volume _ _ _ _ U)) as (f3 & E3 & U3);
    [rewrite Hmax; lia | rewrite Hsize; lia | apply Hb2 |].
  exists f3. split; [done|]. rewrite Hsize in U3.
  eapply updates_ext; [eapply updates_trans; [exact U | exact U3] | by apply U |].
  intros k Hk. unfold upd at 1 2. destruct (k =? x); [|by apply U].
  unfold buf2, zeros, pad. change (take (Z.to_nat 0) ?a ++ entry ++ ?b) with (entry ++ b).
  rewrite take_app, take_ge by lia. f_equal. rewrite app_nil_l. cbn [length].
  rewrite drop_app_le by (rewrite length_replicate; lia). rewrite drop_replicate.
  rewrite take_app_le by (rewrite length_replicate; lia). rewrite take_replicate. f_equal. lia.
Qed.

(** [AddDirEntry]: the entry takes the first free slot, or the first slot of a new
    cluster; the other entries stay. *)
Lemma add_ok fuel f entry c l buf :
  volume f -> chain f c l -> l <> [] -> (length l <= fuel)%nat -> entry_ok entry ->
  free_list f <> [] -> length buf = Z.to_nat 4096 -> is_bytes buf ->
  exists f' l' pre post, add_in_chain junk fuel f entry c 0 buf = Ok (true, f') /\
    chain f' c l' /\ dir_entries f' l' = pre ++ entry :: post /\
    Forall (fun e => free_v e = Skip) pre /\ keeps f f' l' /\ (length l' <= S (length l))%nat /\
    (forall x, x ∈ l' -> x ∈ l \/ x ∈ free_list f) /\
    (dir_entries f l = pre \/ exists e, dir_entries f l = pre ++ e :: post /\ free_v e = Found).
Proof using Hjunk.
  intros Hv Hch Hne Hfuel Hok Hfree Hl Hb.
  destruct (split_scan free_v (dir_entries f l)) as [Hs|(pre & e & post & E & Hpre & He)].
  - destruct (add_full junk Hjunk fuel f entry c l 0 buf) as (buf' & Hl' & Hb' & ->); try done.
    destruct (exists_last Hne) as (l0 & p & ->). rewrite last_snoc.
    change (default 0 (Some p)) with p. destruct (free_list f) as [|x r] eqn:Hfl; [done|].
    assert (Hp : p ∈ l0 ++ [p]) by set_solver.
    pose proof (chain_in f c _ p Hch Hp) as Hpr. pose proof (chain_used f c _ p Hv Hch Hp) as Hpu.
    destruct (add_extend f entry p buf' x r) as (f' & -> & U); try done.
    destruct (extend_dir f f' entry c l0 p x r Hv Hch Hfl Hok U) as (Hch' & Hk & post & Hd).
    exists f', ((l0 ++ [p]) ++ [x]), (dir_entries f (l0 ++ [p])), post.
    repeat (split; [done|]). split; [rewrite !length_app; cbn; lia|]. split; [set_solver | by left].
  - assert (He' : free_v e = Found) by (revert He; unfold free_v; by destruct (_ || _)).
    destruct (add_slot_ok junk Hjunk fuel f entry c l 0 buf pre e post) as (f' & -> & Hk & Hfat & Hd); try done.
    exists f', l, pre, post. split; [done|]. split; [|split; [done|]; split; [done|]; split; [done|]].
    + eapply chain_same; [done | apply Hk | done | done].
    + split; [lia|]. split; [by left | right; eauto].
Qed.
End extend.

(** ** Deleting an entry *)

(** The entry with its first byte replaced by the deletion mark. *)
Definition deleted (e : list Z) : list Z := 0xE5 :: drop 1 e.

Lemma deleted_ok e : entry_ok e -> entry_ok (deleted e) /\ free_v (deleted e) = Found.
Proof.
  intros [Hl Hb]. split; [|done]. unfold deleted. split; [cbn [length]; rewrite length_drop; lia|].
  constructor; [u32_lit | by apply Forall_drop].
Qed.

Lemma put_mark buf k e :
  get_bytes buf (Z.of_nat k * 32) 32 = Ok e -> length e = 32%nat ->
  put_bytes buf (Z.of_nat k * 32) [0xE5] = put_bytes buf (Z.of_nat k * 32) (deleted e).
Proof.
  intros Hg Hl. unfold get_bytes in Hg. destruct (_ && _) eqn:E; [|done]. injection Hg as He.
  apply andb_true_iff in E as [_ E%Z.leb_le]. unfold deleted.
  rewrite !put_bytes_ok by (cbn [length]; rewrite ?length_drop; lia). f_equal. f_equal. cbn [app length].
  rewrite length_drop, Hl. f_equal. rewrite <- He, skipn_firstn_comm, drop_drop.
  change (Z.to_nat 32 - 1)%nat with 31%nat. change (S (32 - 1)) with (1 + 31)%nat.
  set (j := Z.to_nat (Z.of_nat k * 32)). rewrite <- (take_drop 31 (drop (j + 1) buf)) at 1.
  f_equal. rewrite drop_drop. f_equal. lia.
Qed.

Section mark.
Context (junk : list Z) (Hjunk : length junk = 512%nat).

Lemma mark_in_chain_ok fuel f name83 c l buf pre e post :
  volume f -> chain f c l -> (length l <= fuel)%nat -> length name83 = 11%nat ->
  length buf = Z.to_nat 4096 -> is_bytes buf ->
  dir_entries f l = pre ++ e :: post -> Forall (fun e => mark_v name83 e = Skip) pre ->
  mark_v name83 e = Found ->
  exists f', mark_in_chain junk fuel f name83 c buf = Ok (true, f') /\ keeps f f' l /\
    (forall k, 0 <= k < fat_len f -> fat_of f' k = fat_of f k) /\
    dir_entries f' l = pre ++ deleted e :: post.
Proof using Hjunk.
  intros Hv Hch Hfuel Hn. revert c l buf pre Hch Hfuel.
  induction fuel as [|fuel IH]; intros c l buf pre Hch Hfuel Hl Hb Hdir Hpre He;
    (destruct l as [|x l]; [by destruct pre | cbn [length] in Hfuel; try lia]). cbn [mark_in_chain].
  rewrite (chain_eoc f c _ Hv Hch), bool_decide_false by done. cbn [negb].
  pose proof Hch as (-> & Hx & Hl'). pose proof (v_geometry f Hv) as Hg.
  assert (Hxl : x ∉ l) by (apply (chain_NoDup f) in Hch; [by apply NoDup_cons in Hch as [] | done]).
  destruct (scan_cluster (mark_test name83) (mark_v name83) f x buf (mark_computes _ Hn) Hv Hx Hl Hb)
    as (-> & Hbl & Hbb & Es).
  cbn [mbind result_bind]. rewrite buf_size_eq, Es by done. cbn [mbind result_bind].
  rewrite dir_entries_cons in Hdir.
  destruct (split_scan (mark_v name83) (cluster_entries f x)) as [Hs|(p & e0 & q & E & Hp & He0)].
  - rewrite scan_skip, (NextCluster_ok junk Hjunk) by (done || by apply cluster_in_fat).
    cbn [mbind result_bind].
    destruct (split_after _ _ _ _ _ _ Hdir Hs ltac:(by rewrite He)) as (pre' & -> & Hdir').
    apply Forall_app in Hpre as [_ Hpre].
    edestruct (IH (fat_of f x) l) as (f' & -> & Hk & Hfat & Hd);
      [done | lia | exact Hbl | done | exact Hdir' | done | done |].
    exists f'. split; [done|]. split; [|split; [done|]].
    + eapply keeps_trans; [by apply (keeps_refl f []) | exact Hk | set_solver | set_solver].
    + rewrite dir_entries_cons, Hd, <- app_assoc. f_equal. apply entries_same; [apply Hk|].
      by apply (k_data _ _ _ Hk).
  - rewrite E, <- app_assoc in Hdir. cbn [app] in Hdir.
    destruct (split_unique _ _ _ _ _ _ _ Hdir Hp Hpre He0 ltac:(by rewrite He)) as (-> & -> & <-).
    rewrite E, scan_hit, He by (done || by rewrite He).
    assert (Hat : cluster_entries f x !! length pre = Some e)
      by (rewrite E, lookup_app_r, Nat.sub_diag by lia; done).
    destruct (cluster_entries_ok f x Hv Hx) as (_ & Hall & _).
    pose proof (Forall_lookup_1 _ _ _ _ Hall Hat) as Hok.
    destruct (store_entry f x (length pre) e (deleted e) (drop (Z.to_nat (cluster_size f)) buf))
      as (buf2 & f' & D & E1 & EW & U & E2); try done; [by apply deleted_ok | by apply Forall_drop |].
    rewrite Z.add_0_l, (put_mark _ _ e), E1 by (apply Hok || by apply get_entry). cbn [mbind result_bind].
    exists f'. split; [exact EW|].
    destruct (dir_store f f' x l D pre e q (deleted e)) as [? ?]; try done.
    split; [done|]. split; [apply U | done].
Qed.

(** ** Freeing a chain *)

Lemma free_chain_ok fuel f c l :
  volume f -> chain f c l -> (length l <= fuel)%nat ->
  exists f', free_chain junk fuel f c = Ok f' /\ keeps f f' l /\
    (forall x, x ∈ l -> fat_of f' x = 0) /\
    (forall x, 2 <= x < max_cluster f -> data_of f' x = data_of f x).
Proof using Hjunk.
  revert f c l. induction fuel as [|fuel IH]; intros f c l Hv Hch Hfuel;
    (destruct l as [|x l]; [|cbn [length] in Hfuel; try lia]).
  1,2: exists f; split; [|split; [by apply keeps_refl | split; [set_solver | done]]];
    cbn [free_chain]; rewrite (chain_eoc f c _ Hv Hch), bool_decide_true, andb_false_r by done; done.
  cbn [free_chain]. rewrite (chain_eoc f c _ Hv Hch), bool_decide_false by done.
  pose proof (chain_NoDup f c _ Hv Hch) as [Hxl Hnd]%NoDup_cons.
  destruct Hch as (-> & Hx & Hch). pose proof (v_geometry f Hv) as Hg.
  pose proof (cluster_in_fat f x Hg Hx) as Hxf.
  rewrite Z.geb_leb, (proj2 (Z.leb_le 2 x)) by lia. cbn [andb negb].
  rewrite (NextCluster_ok junk Hjunk) by done. cbn [mbind result_bind].
  destruct (SetFATEntry_ok junk Hjunk f x 0 Hv Hxf) as (f1 & -> & U); [u32_lit|].
  cbn [mbind result_bind]. change (Z.land 0 0x0FFFFFFF) with 0 in U.
  assert (Hk1 : keeps f f1 [x]).
  { eapply updates_keeps; [exact U | |]; intros k Hk; rewrite ?upd_ne by set_solver; done. }
  destruct (chain_keeps f f1 [x] (fat_of f x) l Hv Hk1) as [Hch1 _]; [set_solver | done |].
  destruct (IH f1 (fat_of f x) l (u_volume _ _ _ _ U) Hch1 ltac:(lia)) as (f' & -> & Hk & Hz & Hd).
  destruct (set_ata_geom f f1 (u_disk _ _ _ _ U)) as (Hlen & Hmax & _).
  exists f'. split; [done|]. split; [|split].
  - eapply keeps_trans; [exact Hk1 | exact Hk | set_solver | set_solver].
  - intros y [->|Hy]%elem_of_cons; [|by apply Hz].
    rewrite (k_fat _ _ _ Hk), (u_fat _ _ _ _ U) by (done || by rewrite Hlen). apply upd_eq.
  - intros y Hy. rewrite Hd, (u_data _ _ _ _ U) by (done || by rewrite Hmax). done.
Qed.
End mark.

End FatDirs.
