(* ===== verification/FatApi.v ===== *)
(** The file operations of src/src/fs/fat32.cpp on whole volumes: names and paths,
    [WriteFile], [ReadFile] and [DeleteFile], and the theorems on files of the root
    directory. *)

From stdpp Require Import base numbers list gmap.
From Stdlib Require Import ZArith Lia.
From S2P Require Import Prelude Net Fat32 FatVolume FatFiles FatDirs.

Module FatApi.
Import Net Fat FatVolume FatFiles FatDirs.

(** ** Names *)

Definition spaces (n : nat) (l : list Z) : list Z := l ++ replicate (n - length l) 32.

Lemma upper_byte c : is_u8 c -> is_u8 (upper c).
Proof.
  unfold upper. destruct (Z.leb_spec 97 c), (Z.leb_spec c 122); cbn; intros; zify_words; lia.
Qed.

(** The characters [base] are copied from position [o] on. *)
Lemma short_base_ok base tail o out :
  Forall (fun c => c <> 0 /\ c <> 46) base -> 0 <= o -> o + Z.of_nat (length base) <= 8 ->
  length out = 11%nat ->
  (head tail = Some 0 \/ head tail = Some 46 \/ tail <> [] /\ o + Z.of_nat (length base) = 8) ->
  short_base (base ++ tail) o out =
  Ok (tail, take (Z.to_nat o) out ++ map upper base ++ drop (Z.to_nat o + length base) out).
Proof.
  revert o out. induction base as [|c base IH]; intros o out Hb Ho Hl Hout Ht.
  - cbn [app map length]. rewrite Nat.add_0_r, take_drop.
    destruct tail as [|c tail]; [naive_solver|]. cbn [head length] in Ht. cbn [short_base].
    destruct Ht as [[= ->]|[[= ->]|[_ Ht]]]; [done | by rewrite andb_false_r|].
    rewrite (proj2 (Z.ltb_ge o 8)), andb_false_r by lia. done.
  - apply Forall_cons in Hb as [[H0 H46] Hb]. cbn [length] in Hl, Ht. cbn [app short_base length map].
    rewrite (proj2 (Z.eqb_neq c 0)), (proj2 (Z.eqb_neq c 46)), (proj2 (Z.ltb_lt o 8)) by lia. cbn [negb andb].
    rewrite arr_set_in_range by lia. cbn [mbind result_bind].
    rewrite IH; [|done | lia | lia | by rewrite length_insert |].
    2:{ destruct Ht as [?|[?|[? ?]]]; [by left | by right; left | right; right; split; [done | lia]]. }
    do 2 f_equal.
    replace (Z.to_nat (o + 1)) with (S (Z.to_nat o)) by lia. rewrite (take_S_r _ _ (upper c)).
    2:{ apply list_lookup_insert_eq. lia. }
    rewrite take_insert_ge, <- app_assoc by lia. cbn [app]. do 3 f_equal.
    rewrite drop_insert_lt by lia. f_equal. lia.
Qed.

Lemma short_ext_ok ext tail o out :
  Forall (fun c => c <> 0) ext -> 0 <= o -> o + Z.of_nat (length ext) <= 11 -> length out = 11%nat ->
  (head tail = Some 0 \/ tail <> [] /\ o + Z.of_nat (length ext) = 11) ->
  short_ext (ext ++ tail) o out =
  Ok (take (Z.to_nat o) out ++ map upper ext ++ drop (Z.to_nat o + length ext) out).
Proof.
  revert o out. induction ext as [|c ext IH]; intros o out Hb Ho Hl Hout Ht.
  - cbn [app map length]. rewrite Nat.add_0_r, take_drop.
    destruct tail as [|c tail]; [naive_solver|]. cbn [head length] in Ht. cbn [short_ext].
    destruct Ht as [[= ->]|[_ Ht]]; [done|].
    rewrite (proj2 (Z.ltb_ge o 11)), andb_false_r by lia. done.
  - apply Forall_cons in Hb as [H0 Hb]. cbn [length] in Hl, Ht. cbn [app short_ext length map].
    rewrite (proj2 (Z.eqb_neq c 0)), (proj2 (Z.ltb_lt o 11)) by lia. cbn [negb andb].
    rewrite arr_set_in_range by lia. cbn [mbind result_bind].
    rewrite IH; [|done | lia | lia | by rewrite length_insert |].
    2:{ destruct Ht as [?|[? ?]]; [by left | right; split; [done | lia]]. }
    f_equal.
    replace (Z.to_nat (o + 1)) with (S (Z.to_nat o)) by lia. rewrite (take_S_r _ _ (upper c)).
    2:{ apply list_lookup_insert_eq. lia. }
    rewrite take_insert_ge, <- app_assoc by lia. cbn [app]. do 3 f_equal.
    rewrite drop_insert_lt by lia. f_equal. lia.
Qed.

(** Every C string splits into the part the first loop takes and the rest. *)
Lemma split_base n body :
  Forall (fun c => c <> 0) body -> exists base tail, body ++ [0] = base ++ tail /\
    Forall (fun c => c <> 0 /\ c <> 46) base /\ (length base <= n)%nat /\
    (head tail = Some 0 \/ head tail = Some 46 \/ tail <> [] /\ length base = n) /\
    (exists t, tail = t ++ [0] /\ Forall (fun c => c <> 0) t).
Proof.
  revert n. induction body as [|c body IH]; intros n Hb.
  - exists [], [0]. repeat split; [constructor | cbn; lia | by left | by exists []].
  - apply Forall_cons in Hb as [Hc Hb]. destruct n as [|n].
    { exists [], (c :: body ++ [0]). repeat split; [constructor | done | right; right; done |].
      exists (c :: body). split; [done | by constructor]. }
    destruct (decide (c = 46)) as [->|].
    { exists [], (46 :: body ++ [0]). repeat split; [constructor | cbn; lia | right; by left |].
      exists (46 :: body). split; [done | by constructor]. }
    destruct (IH n Hb) as (base & tail & E & H1 & H2 & H3 & H4).
    exists (c :: base), tail. cbn [app length]. rewrite E. repeat split; [by constructor | lia | | done].
    destruct H3 as [?|[?|[? ?]]]; [by left | by right; left | right; right; split; [done | lia]].
Qed.

Lemma split_ext n t :
  Forall (fun c => c <> 0) t -> exists ext tail, t ++ [0] = ext ++ tail /\
    Forall (fun c => c <> 0) ext /\ (length ext <= n)%nat /\
    (head tail = Some 0 \/ tail <> [] /\ length ext = n).
Proof.
  revert n. induction t as [|c t IH]; intros n Ht.
  - exists [], [0]. repeat split; [constructor | cbn; lia | by left].
  - apply Forall_cons in Ht as [Hc Ht]. destruct n as [|n].
    { exists [], (c :: t ++ [0]). repeat split; [constructor | done | right; done]. }
    destruct (IH n Ht) as (ext & tail & E & H1 & H2 & H3).
    exists (c :: ext), tail. cbn [app length]. rewrite E. repeat split; [by constructor | lia |].
    destruct H3 as [?|[? ?]]; [by left | right; split; [done | lia]].
Qed.

Definition name_of (base ext : list Z) : list Z :=
  spaces 8 (map upper base) ++ spaces 3 (map upper ext).

Lemma spaces_split b : (length b <= 8)%nat -> spaces 11 b = spaces 8 b ++ spaces 3 [].
Proof.
  intros H. unfold spaces. rewrite <- app_assoc. f_equal. cbn [app length].
  rewrite <- replicate_add. f_equal. lia.
Qed.

(** [ToShortName] on a name the two loops take apart into [base] and [ext]. *)
Lemma short_name_plain base tail :
  Forall (fun c => c <> 0 /\ c <> 46) base -> (length base <= 8)%nat ->
  (head tail = Some 0 \/ exists c t, tail = c :: t /\ c <> 46 /\ length base = 8%nat) ->
  ToShortName (base ++ tail) = Ok (name_of base []).
Proof.
  intros Hb Hl Ht. unfold ToShortName. rewrite short_base_ok; [|done | lia | lia | done |].
  2:{ destruct Ht as [?|(c & t & -> & _ & H8)]; [by left|]. right. right. split; [done | lia]. }
  cbn [mbind result_bind Z.to_nat Nat.add]. rewrite drop_replicate.
  assert (Hc : exists c, arr_get tail 0 = Ok c /\ c <> 46).
  { destruct tail as [|c t]; [naive_solver|]. exists c. split; [done|]. destruct Ht as [[= ->]|(? & ? & ? & ? & _)]; naive_solver. }
  destruct Hc as (c & -> & Hc). cbn [mbind result_bind]. rewrite (proj2 (Z.eqb_neq c 46)) by done.
  unfold name_of. rewrite <- spaces_split by (rewrite length_map; lia).
  unfold spaces. by rewrite length_map.
Qed.

Lemma short_name_ext base ext tail :
  Forall (fun c => c <> 0 /\ c <> 46) base -> (length base <= 8)%nat ->
  Forall (fun c => c <> 0) ext -> (length ext <= 3)%nat ->
  (head tail = Some 0 \/ tail <> [] /\ length ext = 3%nat) ->
  ToShortName (base ++ 46 :: ext ++ tail) = Ok (name_of base ext).
Proof.
  intros Hb Hl He Hle Ht. unfold ToShortName.
  rewrite short_base_ok; [|done | lia | lia | done | right; by left].
  cbn [mbind result_bind Z.to_nat Nat.add app]. rewrite drop_replicate.
  change (arr_get (46 :: ext ++ tail) 0) with (Ok 46). cbn [mbind result_bind].
  change (46 =? 46) with true. cbn iota. change (drop 1 (46 :: ext ++ tail)) with (ext ++ tail).
  match goal with |- context [short_ext _ _ ?o] => set (out := o) end.
  assert (Eo : out = spaces 8 (map upper base) ++ replicate 3 32).
  { unfold out, spaces. rewrite <- app_assoc, <- replicate_add, length_map.
    change (take _ (replicate 11 32)) with (@nil Z). cbn [app]. f_equal. f_equal. lia. }
  assert (H8 : length (spaces 8 (map upper base)) = 8%nat).
  { unfold spaces. rewrite length_app, length_replicate, length_map. lia. }
  rewrite short_ext_ok; [|done | lia | lia | rewrite Eo, length_app, H8; done |].
  2:{ destruct Ht as [?|[? ?]]; [by left | right; split; [done | lia]]. }
  rewrite Eo. f_equal. unfold name_of. rewrite take_app_length' by done. f_equal.
  change (Z.to_nat 8) with 8%nat. rewrite drop_app_ge, H8 by lia. rewrite drop_replicate.
  unfold spaces. rewrite length_map. do 2 f_equal. lia.
Qed.

Lemma spaces_bytes n l : is_bytes l -> is_bytes (spaces n l).
Proof. intros H. apply Forall_app. split; [done|]. apply Forall_replicate. u32_lit. Qed.

Lemma upper_bytes l : is_bytes l -> is_bytes (map upper l).
Proof. intros H. apply Forall_map. eapply Forall_impl; [exact H|]. apply upper_byte. Qed.

(** [ToShortName] returns on every C string. *)
Lemma short_name_total body :
  Forall (fun c => c <> 0) body -> is_bytes body ->
  exists n83, ToShortName (body ++ [0]) = Ok n83 /\ length n83 = 11%nat /\ is_bytes n83 /\
    byte n83 0 = match body with [] => 32 | c :: _ => if c =? 46 then 32 else upper c end.
Proof.
  intros H0 Hb. destruct (split_base 8 body H0) as (base & tail & E & Hbase & Hl & Ht & t & Et & Ht0).
  assert (Hbt : is_bytes (base ++ tail)) by (rewrite <- E; apply Forall_app; repeat constructor; done).
  apply Forall_app in Hbt as [Hbb Htb].
  assert (Hlen : forall ext, (length ext <= 3)%nat -> is_bytes ext ->
    length (name_of base ext) = 11%nat /\ is_bytes (name_of base ext) /\
    byte (name_of base ext) 0 = match body with [] => 32 | c :: _ => if c =? 46 then 32 else upper c end).
  { intros ext Hle Heb. unfold name_of. split; [|split].
    - unfold spaces. rewrite !length_app, !length_replicate, !length_map. lia.
    - apply Forall_app. split; by apply spaces_bytes, upper_bytes.
    - destruct base as [|b base]; cbn [app] in E.
      + destruct body as [|c body]; [done|]. destruct Ht as [Ht|[Ht|[_ Ht]]]; [| |done].
        * rewrite <- E in Ht. injection Ht as Ht. by apply Forall_cons in H0 as [? _].
        * rewrite <- E in Ht. injection Ht as Ht. by rewrite Ht.
      + destruct body as [|c body]; cbn [app] in E; injection E as E _; subst b.
        { by apply Forall_cons in Hbase as [[? _] _]. }
        apply Forall_cons in Hbase as [[_ H46] _]. rewrite (proj2 (Z.eqb_neq c 46)) by done. done. }
  rewrite E. destruct (decide (head tail = Some 46)) as [H46|H46].
  - destruct tail as [|c tl]; [done|]. injection H46 as ->. destruct t as [|c t]; [done|].
    cbn [app] in Et. injection Et as <- ->. apply Forall_cons in Ht0 as [_ Ht0].
    destruct (split_ext 3 t Ht0) as (ext & tail & E2 & He & Hle & Ht2).
    exists (name_of base ext). rewrite E2. rewrite short_name_ext by done. split; [done|].
    apply Hlen; [done|]. rewrite E2 in Htb. apply Forall_cons in Htb as [_ Htb].
    by apply Forall_app in Htb as [? _].
  - exists (name_of base []). rewrite short_name_plain; [split; [done|]; apply Hlen; [cbn; lia | constructor] | done | done |].
    destruct Ht as [?|[?|[Hne H8]]]; [by left | done |].
    destruct tail as [|c tl]; [done|]. right. exists c, tl. repeat split; [|done]. intros ->. done.
Qed.

(** ** Paths *)

(** A file name as a path component. *)
Record component (comp : list Z) : Prop := {
  c_length : (1 <= length comp <= 12)%nat;
  c_chars : Forall (fun c => c <> 0 /\ c <> 47) comp;
  c_bytes : is_bytes comp;
}.

Lemma take_component_ok n comp tail :
  Forall (fun c => c <> 0 /\ c <> 47) comp -> (length comp <= n)%nat -> head tail = Some 0 ->
  take_component n (comp ++ tail) = Ok (comp, tail).
Proof.
  intros Hc Hl Ht. revert n Hl. induction comp as [|c comp IH]; intros n Hl.
  - destruct tail as [|c tail]; [done|]. injection Ht as ->. by destruct n.
  - apply Forall_cons in Hc as [[H0 H47] Hc]. destruct n as [|n]; [cbn in Hl; lia|].
    cbn [app take_component]. rewrite (proj2 (Z.eqb_neq c 0)), (proj2 (Z.eqb_neq c 47)) by done. cbn [negb andb].
    rewrite IH by (done || cbn in Hl; lia). done.
Qed.

(** The path of a file of the root directory, with or without its slash. *)
Definition root_path (lead : bool) (comp : list Z) : list Z :=
  (if lead then [47] else []) ++ comp ++ [0].

Section paths.
Context (junk junk4096 : list Z).

Lemma ResolveParentDir_root fuel f lead comp :
  component comp -> (1 <= fuel)%nat ->
  ResolveParentDir junk junk4096 fuel f (root_path lead comp) =
  Ok (Some (root_cluster (bpb f), comp ++ [0])).
Proof.
  intros [Hl Hc _] Hf. destruct fuel as [|fuel]; [lia|]. destruct comp as [|c comp]; [cbn in Hl; lia|].
  assert (E : resolve_parent junk junk4096 (S fuel) f (root_cluster (bpb f)) ((c :: comp) ++ [0]) =
              Ok (Some (root_cluster (bpb f), (c :: comp) ++ [0]))).
  { pose proof Hc as [[H0 H47] _]%Forall_cons. cbn [resolve_parent].
    change (arr_get ((c :: comp) ++ [0]) 0) with (Ok c). cbn [mbind result_bind].
    rewrite (proj2 (Z.eqb_neq c 0)) by done.
    rewrite take_component_ok by (done || cbn; cbn in Hl; lia). done. }
  apply Forall_cons in Hc as [[H0 H47] _]. unfold ResolveParentDir, root_path. destruct lead.
  - exact E.
  - change (arr_get ([] ++ (c :: comp) ++ [0]) 0) with (Ok c). cbn [mbind result_bind].
    rewrite (proj2 (Z.eqb_neq c 47)) by done. exact E.
Qed.

Lemma ResolvePath_root fuel f lead comp r :
  component comp -> (1 <= fuel)%nat ->
  FindEntry junk junk4096 fuel f (root_cluster (bpb f)) (comp ++ [0]) = Ok r ->
  ResolvePath junk junk4096 fuel f (root_path lead comp) =
  Ok (match r with Some e => Some (Entry e) | None => None end).
Proof.
  intros [Hl Hc _] Hf HF. destruct fuel as [|fuel]; [lia|]. destruct comp as [|c comp]; [cbn in Hl; lia|].
  assert (E : resolve_from junk junk4096 (S fuel) f (root_cluster (bpb f)) ((c :: comp) ++ [0]) = Ok r).
  { pose proof Hc as [[H0 H47] _]%Forall_cons. cbn [resolve_from].
    change (arr_get ((c :: comp) ++ [0]) 0) with (Ok c). cbn [mbind result_bind].
    rewrite (proj2 (Z.eqb_neq c 0)) by done.
    rewrite take_component_ok by (done || cbn; cbn in Hl; lia). cbn [mbind result_bind].
    rewrite HF. cbn [mbind result_bind]. by destruct r. }
  apply Forall_cons in Hc as [[H0 H47] _]. unfold ResolvePath.
  assert (Es : skip_slashes (root_path lead (c :: comp)) = Ok ((c :: comp) ++ [0])).
  { unfold root_path. destruct lead; cbn; by rewrite (proj2 (Z.eqb_neq c 47)). }
  assert (E0 : exists c0, arr_get (root_path lead (c :: comp)) 0 = Ok c0 /\ c0 <> 0)
    by (destruct lead; [by exists 47 | by exists c]).
  destruct E0 as (c0 & -> & Hc0). cbn [mbind result_bind]. rewrite (proj2 (Z.eqb_neq c0 0)), Es by done.
  cbn [mbind result_bind]. change (arr_get ((c :: comp) ++ [0]) 0) with (Ok c). cbn [mbind result_bind].
  rewrite (proj2 (Z.eqb_neq c 0)), E by done. by destruct r.
Qed.
End paths.

(** ** Entries that are built *)

Lemma BuildDirEntry_ok name83 attr cluster size :
  length name83 = 11%nat -> is_bytes name83 -> is_u8 attr -> is_u32 cluster -> is_u32 size ->
  let e := BuildDirEntry name83 attr cluster size in
  entry_ok e /\ take 11 e = name83 /\ byte e 0 = byte name83 0 /\ byte e 11 = attr /\
  entry_cluster e = Ok cluster /\ entry_size e = Ok size /\
  is_dir e = Ok (negb (Z.land attr 0x10 =? 0)).
Proof.
  intros Hl Hb Ha Hc Hs e.
  assert (Ee : e = name83 ++ [attr; 0; 0] ++ le16 0 ++ le16 0x4A21 ++ le16 0x4A21 ++
            le16 (u16 (Z.shiftr cluster 16)) ++ le16 0 ++ le16 0x4A21 ++
            le16 (Z.land cluster 0xFFFF) ++ le32 size).
  { unfold e, BuildDirEntry. by rewrite take_ge by lia. }
  assert (Hhi : u16 (Z.shiftr cluster 16) = cluster / 65536).
  { rewrite Z.shiftr_div_pow2 by lia. word. }
  assert (Hlo : Z.land cluster 0xFFFF = cluster mod 65536).
  { change 0xFFFF with (Z.ones 16). by rewrite Z.land_ones by lia. }
  rewrite Hhi, Hlo in Ee. clearbody e. subst e.
  destruct name83 as [|b0 [|b1 [|b2 [|b3 [|b4 [|b5 [|b6 [|b7 [|b8 [|b9 [|b10 [|? ?]]]]]]]]]]]]; try done.
  repeat split.
  - apply Forall_app. split; [done|]. repeat (apply Forall_app; split); try apply le16_bytes; try apply le32_is_bytes.
    repeat constructor; (done || zify_words; lia).
  - unfold entry_cluster. rewrite (get16_le16 _ 20 (cluster / 65536)); [|word | reflexivity | lia].
    cbn [mbind result_bind]. rewrite (get16_le16 _ 26 (cluster mod 65536)); [|word | reflexivity | lia].
    cbn [mbind result_bind]. rewrite Z.shiftl_mul_pow2, lor_add by (lia || apply Z.mod_pos_bound; lia).
    f_equal. change (2 ^ 16) with 65536. Z.div_mod_to_equations. lia.
  - apply get32_le32; [done | reflexivity | lia].
Qed.

Lemma find_built name83 attr cluster size :
  length name83 = 11%nat -> is_bytes name83 -> is_u8 attr -> is_u32 cluster -> is_u32 size ->
  byte name83 0 <> 0 -> byte name83 0 <> 0xE5 -> attr <> 0x0F ->
  find_v name83 (BuildDirEntry name83 attr cluster size) = Found.
Proof.
  intros Hl Hb Ha Hc Hs H0 HE5 H0F.
  destruct (BuildDirEntry_ok name83 attr cluster size Hl Hb Ha Hc Hs) as (_ & Et & E0 & E11 & _).
  unfold find_v. rewrite E0, E11, Et, (proj2 (Z.eqb_neq (byte name83 0) 0)),
    (proj2 (Z.eqb_neq (byte name83 0) 0xE5)), (proj2 (Z.eqb_neq attr 0x0F)) by done.
  by rewrite (proj2 (bytes_eqb_eq name83 name83)).
Qed.

(** ** Storing the data of a file *)

(** A free cluster that was not taken. *)
Lemma free_left f f' l y :
  volume f -> keeps f f' l -> y ∈ free_list f -> y ∉ l -> free_list f' <> [].
Proof.
  intros Hv Hk [Hy0 Hyr]%free_list_spec Hyl E. assert (Hin : y ∈ free_list f').
  { apply free_list_spec. destruct (set_ata_geom f f' (k_disk _ _ _ Hk)) as (_ & Hmax & _). split; [|lia].
    rewrite (k_fat _ _ _ Hk); [done | | done]. apply cluster_in_fat; [apply Hv | lia]. }
  rewrite E in Hin. set_solver.
Qed.

Section files.
Context (junk junk4096 : list Z).
Context (Hjunk : length junk = 512%nat).
Context (Hjunk4 : length junk4096 = Z.to_nat 4096) (Hjunkb : is_bytes junk4096).

Lemma FindEntry_ok fuel f c l comp n83 :
  volume f -> chain f c l -> (length l <= fuel)%nat -> ToShortName (comp ++ [0]) = Ok n83 ->
  length n83 = 11%nat ->
  FindEntry junk junk4096 fuel f c (comp ++ [0]) = Ok (first (find_v n83) (dir_entries f l)).
Proof using Hjunk Hjunk4 Hjunkb.
  intros Hv Hch Hfuel En Hn. unfold FindEntry. rewrite En. cbn [mbind result_bind].
  by apply find_in_chain_ok.
Qed.

(** The first cluster, and the chain of the data behind it. *)
Lemma store_file fuel f buffer size :
  volume f -> is_bytes buffer -> 0 <= size <= Z.of_nat (length buffer) -> size < 2 ^ 32 ->
  (more_clusters f size + 2 <= length (free_list f))%nat -> (more_clusters f size < fuel)%nat ->
  exists first f1 f2 lf, AllocCluster junk f = Ok first /\ first <> 0 /\ is_u32 first /\
    SetFATEntry junk f first 0x0FFFFFFF = Ok (true, f1) /\
    WriteClusterChain junk junk4096 fuel f1 first buffer size = Ok (true, f2) /\
    keeps f f2 lf /\ chain f2 first lf /\ length lf = S (more_clusters f size) /\
    (forall x, x ∈ lf -> x ∈ free_list f) /\ free_list f2 <> [] /\
    contents f2 lf = pad ((Z.of_nat (more_clusters f size) + 1) * cluster_size f) (take (Z.to_nat size) buffer).
Proof using Hjunk Hjunk4 Hjunkb.
  intros Hv Hb Hs Hs32 Hfree Hfuel. pose proof (v_geometry f Hv) as Hg.
  destruct (free_list f) as [|x r] eqn:Hfl; [cbn in Hfree; lia|].
  destruct (free_head f x r Hg Hfl) as (Hx & Hx0 & Hxf & Hx28).
  destruct (mark_last junk Hjunk f x Hv Hxf) as (f1 & E1 & U).
  destruct (set_ata_geom f f1 (u_disk _ _ _ _ U)) as (Hlen & Hmax & Hsize & _).
  assert (Hr : free_list f1 = r).
  { eapply (free_list_pop f f1 x r); [done | done | exact U |].
    intros k Hk. unfold upd. destruct (Z.eqb_spec k x) as [->|]; [lia | tauto]. }
  assert (Hm : more_clusters f1 size = more_clusters f size) by (unfold more_clusters; by rewrite Hsize).
  cbn [length] in Hfree.
  destruct (WriteClusterChain_ok junk Hjunk junk4096 Hjunk4 Hjunkb fuel f1 x buffer size)
    as (f2 & E2 & Hk & Hch & Hcon); rewrite ?Hmax, ?Hm, ?Hr; try (done || lia); try apply U.
  { rewrite (u_fat _ _ _ _ U), upd_eq by done. lia. }
  rewrite Hm, Hr in *. cbv zeta in *. rewrite Hsize in Hcon. set (lf := x :: take _ r) in *.
  assert (Hlf : forall y, y ∈ lf -> y ∈ x :: r).
  { intros y [->|(i & Hi & _)%elem_of_take]%elem_of_cons; [set_solver|].
    apply list_elem_of_lookup_2 in Hi. set_solver. }
  exists x, f1, f2, lf. rewrite AllocCluster_ok, Hfl by done. split; [done|]. split; [lia|].
  split; [change (2 ^ 28) with 268435456 in Hx28; zify_words; lia|]. do 2 (split; [done|]). split.
  { eapply keeps_trans; [eapply (updates_keeps _ _ _ _ lf); [exact U | |] | exact Hk | done | done];
      intros k Hkl; rewrite ?upd_ne by set_solver; done. }
  split; [done|]. split; [unfold lf; cbn [length]; rewrite length_take; lia|]. split; [exact Hlf|]. split; [|done].
  destruct (lookup_lt_is_Some_2 r (more_clusters f size)) as [y Hy]; [lia|].
  assert (Hyf : y ∈ free_list f1) by (rewrite Hr; by eapply list_elem_of_lookup_2).
  pose proof (free_list_NoDup f) as Hnd. rewrite Hfl in Hnd. apply NoDup_cons in Hnd as [Hxr Hnd].
  assert (Hyl : y ∉ lf).
  { intros [->|(i & Hi & Hi')%elem_of_take]%elem_of_cons; [apply Hxr; by eapply list_elem_of_lookup_2|].
    pose proof (NoDup_lookup r _ _ y Hnd Hi Hy). lia. }
  eapply free_left; [apply U | exact Hk | exact Hyf | exact Hyl].
Qed.

(** The entry of a file goes into its directory; the file stays as it is. *)
Lemma add_file fuel f c l first lf entry :
  volume f -> chain f c l -> l <> [] -> (length l <= fuel)%nat -> free_list f <> [] ->
  chain f first lf -> (forall x, x ∈ lf -> x ∉ l) -> entry_ok entry ->
  exists f' l' pre post, AddDirEntry junk junk4096 fuel f c entry = Ok (true, f') /\
    chain f' c l' /\ (length l' <= S (length l))%nat /\ keeps f f' l' /\
    (forall x, x ∈ l' -> x ∈ l \/ x ∈ free_list f) /\
    dir_entries f' l' = pre ++ entry :: post /\ Forall (fun e => free_v e = Skip) pre /\
    (exists rest, dir_entries f l = pre ++ rest) /\
    chain f' first lf /\ contents f' lf = contents f lf.
Proof using Hjunk Hjunk4 Hjunkb.
  intros Hv Hch Hne Hfuel Hfree Hlf Hdis Hok. unfold AddDirEntry.
  destruct (add_ok junk Hjunk fuel f entry c l junk4096 Hv Hch Hne Hfuel Hok Hfree Hjunk4 Hjunkb)
    as (f' & l' & pre & post & E & Hch' & Hd & Hpre & Hk & Hl' & Hin & Hrest).
  destruct (chain_keeps f f' l' first lf Hv Hk) as [Hlf' Hcon]; [|done|].
  { intros x Hx Hxl'. destruct (Hin x Hxl') as [Hxl|Hxf]; [by apply (Hdis x)|].
    by apply (chain_not_free f first lf x). }
  exists f', l', pre, post. do 7 (split; [done|]). split; [|done].
  destruct Hrest as [->|(e & -> & _)]; [exists []; by rewrite app_nil_r | by eexists].
Qed.

(** Reading a file back through the root directory. *)
Lemma read_back fuel f l lead comp n83 pre post entry start lf size out :
  volume f -> chain f (root_cluster (bpb f)) l -> (length l <= fuel)%nat -> component comp ->
  (1 <= fuel)%nat -> ToShortName (comp ++ [0]) = Ok n83 -> length n83 = 11%nat ->
  dir_entries f l = pre ++ entry :: post -> Forall (fun e => find_v n83 e = Skip) pre ->
  find_v n83 entry = Found -> is_dir entry = Ok false -> entry_cluster entry = Ok start ->
  entry_size entry = Ok size -> chain f start lf -> (length lf <= fuel)%nat ->
  Z.of_nat (length lf) * cluster_size f <= Z.of_nat (length out) -> Z.of_nat (length out) < 2 ^ 32 ->
  ReadFile junk junk4096 fuel f (root_path lead comp) out =
  Ok (Some (contents f lf ++ drop (Z.to_nat (Z.of_nat (length lf) * cluster_size f)) out, size)).
Proof using Hjunk Hjunk4 Hjunkb.
  intros Hv Hch Hfuel Hcomp Hf1 En Hn Hd Hpre Hfe Hdir Hcl Hsz Hlf Hlff Hout Hout32.
  unfold ReadFile. rewrite (ResolvePath_root _ _ fuel f lead comp (Some entry)); [|done | done |].
  2:{ rewrite (FindEntry_ok fuel f _ l comp n83) by done. rewrite Hd, first_skip by done.
      cbn [first]. by rewrite Hfe. }
  cbn [mbind result_bind]. rewrite Hdir. cbn [mbind result_bind]. rewrite Hsz. cbn [mbind result_bind].
  rewrite Hcl. cbn [mbind result_bind].
  rewrite (read_chain_ok junk Hjunk fuel f start lf out 0) by (done || lia). done.
Qed.
End files.

(** ** Which entry a search finds *)

Lemma mark_skip_find n83 e : mark_v n83 e = Skip -> find_v n83 e = Skip.
Proof.
  unfold mark_v, find_v. destruct (byte e 0 =? 0), (byte e 0 =? 229), (byte e 11 =? 15), (bytes_eqb (take 11 e) n83); done.
Qed.

(** Every entry before the first free slot is passed over. *)
Definition ready (n83 : list Z) (D : list (list Z)) : Prop :=
  forall pre rest, D = pre ++ rest -> Forall (fun e => free_v e = Skip) pre ->
    Forall (fun e => find_v n83 e = Skip) pre.

Lemma ready_none n83 D : first (find_v n83) D = None -> ready n83 D.
Proof.
  intros Hf pre rest -> Hpre. induction pre as [|e pre IH]; [constructor|].
  apply Forall_cons in Hpre as [He Hpre]. cbn [app first] in Hf.
  assert (Hb : byte e 0 <> 0).
  { intros E. revert He. unfold free_v. by rewrite E. }
  assert (Hs : find_v n83 e <> Stop).
  { unfold find_v. rewrite (proj2 (Z.eqb_neq _ _) Hb). by destruct (byte e 0 =? 229), (byte e 11 =? 15), (bytes_eqb (take 11 e) n83). }
  destruct (find_v n83 e) eqn:E; [done | | done]. constructor; [done | by apply IH].
Qed.

(** The entry [MarkEntryDeleted] reaches when the search finds one. *)
Lemma find_mark_split n83 D e :
  first (find_v n83) D = Some e ->
  exists p m q, D = p ++ m :: q /\ Forall (fun e => mark_v n83 e = Skip) p /\ mark_v n83 m = Found.
Proof.
  induction D as [|x D IH]; cbn [first]; [done|]. intros Hf. destruct (mark_v n83 x) eqn:Hm.
  - exfalso. revert Hm Hf. unfold mark_v, find_v.
    destruct (byte x 0 =? 0), (byte x 0 =? 229), (bytes_eqb (take 11 x) n83); done.
  - rewrite (mark_skip_find _ _ Hm) in Hf. destruct (IH Hf) as (p & m & q & -> & Hp & Hm').
    exists (x :: p), m, q. repeat split; [by constructor | done].
  - exists [], x, D. repeat split; [constructor | done].
Qed.

Lemma ready_marked n83 p d q :
  Forall (fun e => mark_v n83 e = Skip) p -> free_v d = Found -> ready n83 (p ++ d :: q).
Proof.
  intros Hp Hd pre rest E Hpre. revert p Hp E. induction pre as [|e pre IH]; intros p Hp E; [constructor|].
  apply Forall_cons in Hpre as [He Hpre]. destruct p as [|e' p]; cbn [app] in E; injection E as -> E.
  { by rewrite Hd in He. }
  apply Forall_cons in Hp as [He' Hp]. constructor; [by apply mark_skip_find | by eapply IH].
Qed.

Lemma free_list_grows f f' l :
  volume f -> keeps f f' l -> (forall x, x ∈ l -> fat_of f' x = 0) ->
  (length (free_list f) <= length (free_list f'))%nat.
Proof.
  intros Hv Hk Hz. apply submseteq_length, NoDup_submseteq; [apply free_list_NoDup|].
  destruct (set_ata_geom f f' (k_disk _ _ _ Hk)) as (_ & Hmax & _).
  intros x [Hx0 Hx]%free_list_spec. apply free_list_spec. split; [|lia].
  destruct (decide (x ∈ l)); [by apply Hz|]. rewrite (k_fat _ _ _ Hk); [done | | done].
  apply cluster_in_fat; [apply Hv | lia].
Qed.

Section api.
Context (junk junk4096 : list Z).
Context (Hjunk : length junk = 512%nat).
Context (Hjunk4 : length junk4096 = Z.to_nat 4096) (Hjunkb : is_bytes junk4096).

(** ** The end of [WriteFile] *)

Lemma finish_file fuel f l comp n83 start lf size :
  volume f -> chain f (root_cluster (bpb f)) l -> l <> [] -> (length l < fuel)%nat -> free_list f <> [] ->
  chain f start lf -> (length lf <= fuel)%nat -> (forall x, x ∈ lf -> x ∉ l) -> is_u32 start -> is_u32 size ->
  component comp -> ToShortName (comp ++ [0]) = Ok n83 -> length n83 = 11%nat -> is_bytes n83 ->
  byte n83 0 <> 0 -> byte n83 0 <> 0xE5 -> ready n83 (dir_entries f l) ->
  exists f' l', AddDirEntry junk junk4096 fuel f (root_cluster (bpb f)) (BuildDirEntry n83 0x20 start size) = Ok (true, f') /\
    keeps f f' l' /\ (forall x, x ∈ l' -> x ∈ l \/ x ∈ free_list f) /\
    forall lead out, Z.of_nat (length lf) * cluster_size f <= Z.of_nat (length out) ->
      Z.of_nat (length out) < 2 ^ 32 ->
      ReadFile junk junk4096 fuel f' (root_path lead comp) out =
      Ok (Some (contents f lf ++ drop (Z.to_nat (Z.of_nat (length lf) * cluster_size f)) out, size)).
Proof using Hjunk Hjunk4 Hjunkb.
  intros Hv Hch Hne Hfuel Hfree Hlf Hlff Hdis Hst Hsz Hcomp En Hn Hnb H0 HE5 Hready.
  destruct (BuildDirEntry_ok n83 0x20 start size) as (Hok & _ & _ & _ & Ecl & Esz & Edir); try done.
  destruct (add_file junk junk4096 Hjunk Hjunk4 Hjunkb fuel f (root_cluster (bpb f)) l start lf
              (BuildDirEntry n83 0x20 start size))
    as (f' & l' & pre & post & E & Hch' & Hl' & Hk & Hin & Hd & Hpre & [rest Hrest] & Hlf' & Hcon);
    try done; [lia|].
  exists f', l'. split; [done|]. split; [done|]. split; [done|]. intros lead out Hout Hout32.
  destruct (set_ata_geom f f' (k_disk _ _ _ Hk)) as (_ & _ & Hsize & Hbpb).
  rewrite <- Hcon, <- Hsize.
  eapply (read_back junk junk4096 Hjunk Hjunk4 Hjunkb fuel f' l'); try done; try lia.
  - apply Hk.
  - by rewrite Hbpb.
  - by apply (Hready pre rest).
  - apply find_built; (done || u32_lit).
Qed.

(** ** The steps of [WriteFile] *)

(** The file of that name, if there is one: a regular file whose chain [lold] does
    not meet the chain [l] of the directory. *)
Definition old_file (fuel : nat) (f : FAT32) (l comp lold : list Z) : Prop :=
  match FindEntry junk junk4096 fuel f (root_cluster (bpb f)) (comp ++ [0]) with
  | Ok None => lold = []
  | Ok (Some e) => is_dir e = Ok false /\ (forall x, x ∈ lold -> x ∉ l) /\
                   exists c, entry_cluster e = Ok c /\ chain f c lold
  | Err _ => False
  end.

(** The clusters of the old file are freed. *)
Lemma free_old fuel f l comp lold existing :
  volume f -> chain f (root_cluster (bpb f)) l -> (length lold <= fuel)%nat ->
  FindEntry junk junk4096 fuel f (root_cluster (bpb f)) (comp ++ [0]) = Ok existing ->
  old_file fuel f l comp lold ->
  exists f1, (match existing with
              | Some e => c ← entry_cluster e; free_chain junk fuel f c
              | None => Ok f
              end) = Ok f1 /\
    (match existing with Some e => is_dir e | None => Ok false end) = Ok false /\
    keeps f f1 lold /\ (length (free_list f) <= length (free_list f1))%nat /\
    chain f1 (root_cluster (bpb f)) l /\ dir_entries f1 l = dir_entries f l.
Proof using Hjunk.
  intros Hv Hch Hfuel HF Hold. unfold old_file in Hold. rewrite HF in Hold. destruct existing as [e|].
  - destruct Hold as (Hd & Hdis & c & Hc & Hlo). rewrite Hc, Hd. cbn [mbind result_bind].
    destruct (free_chain_ok junk Hjunk fuel f c lold Hv Hlo Hfuel) as (f1 & -> & Hk & Hz & Hdata).
    assert (Hml : forall x, x ∈ l -> x ∉ lold) by (intros x Hx Hx'; by apply (Hdis x)).
    exists f1. do 3 (split; [done|]). split; [by eapply free_list_grows|].
    split; [by apply (chain_keeps f f1 lold _ l) | by eapply dir_keeps].
  - subst lold. exists f. do 2 (split; [done|]). split; [by apply keeps_refl | done].
Qed.

(** The old entry is marked; the directory is ready for the new one. *)
Lemma mark_old fuel f l n83 existing :
  volume f -> chain f (root_cluster (bpb f)) l -> (length l <= fuel)%nat -> length n83 = 11%nat ->
  first (find_v n83) (dir_entries f l) = existing ->
  exists f', (match existing with
              | Some _ => '(_, f) ← MarkEntryDeleted junk junk4096 fuel f (root_cluster (bpb f)) n83; Ok f
              | None => Ok f
              end) = Ok f' /\
    keeps f f' l /\ (forall k, 0 <= k < fat_len f -> fat_of f' k = fat_of f k) /\
    ready n83 (dir_entries f' l).
Proof using Hjunk Hjunk4 Hjunkb.
  intros Hv Hch Hfuel Hn Hf. destruct existing as [e|].
  - destruct (find_mark_split n83 _ e Hf) as (p & m & q & Hd & Hp & Hm).
    destruct (mark_in_chain_ok junk Hjunk fuel f n83 _ l junk4096 p m q Hv Hch) as (f' & E & Hk & Hfat & Hd');
      try done.
    unfold MarkEntryDeleted. rewrite E. exists f'. do 3 (split; [done|]). rewrite Hd'.
    by apply ready_marked.
  - exists f. split; [done|]. split; [by apply keeps_refl|]. split; [done|]. by apply ready_none.
Qed.

Lemma free_list_fat f f' :
  volume f -> (exists d, f' = set_ata f d) ->
  (forall k, 0 <= k < fat_len f -> fat_of f' k = fat_of f k) -> free_list f' = free_list f.
Proof.
  intros Hv Hd Hfat. destruct (set_ata_geom f f' Hd) as (_ & Hmax & _). unfold free_list. rewrite Hmax.
  apply filter_ext_in. intros k Hk%elem_of_seqZ. rewrite Hfat; [done|].
  apply cluster_in_fat; [apply Hv | lia].
Qed.

(** Clusters in use outside [l] stay as they are. *)
Definition others_kept (f f' : FAT32) (l : list Z) : Prop :=
  forall x, 2 <= x < max_cluster f -> fat_of f x <> 0 -> x ∉ l ->
    fat_of f' x = fat_of f x /\ data_of f' x = data_of f x.

Lemma keeps_others f f1 f2 l m :
  volume f -> others_kept f f1 l -> keeps f1 f2 m -> (exists d, f1 = set_ata f d) ->
  (forall x, x ∈ m -> x ∈ l \/ x ∈ free_list f1) -> others_kept f f2 l.
Proof.
  intros Hv Ho Hk Hd Hm x Hx Hu Hl. destruct (Ho x Hx Hu Hl) as [E1 E2].
  destruct (set_ata_geom f f1 Hd) as (Hlen & Hmax & _).
  assert (Hxm : x ∉ m).
  { intros [?|[H0 _]%free_list_spec]%Hm; [done|]. by rewrite E1 in H0. }
  pose proof (cluster_in_fat f x (v_geometry f Hv) Hx) as Hxf.
  rewrite (k_fat _ _ _ Hk), (k_data _ _ _ Hk) by (rewrite ?Hmax, ?Hlen; done). done.
Qed.

Lemma others_trans f f1 f2 l m :
  others_kept f f1 l -> others_kept f1 f2 m -> (exists d, f1 = set_ata f d) -> m ⊆ l -> others_kept f f2 l.
Proof.
  intros H1 H2 Hd Hm x Hx Hu Hl. destruct (set_ata_geom f f1 Hd) as (_ & Hmax & _).
  destruct (H1 x Hx Hu Hl) as [E1 E2]. destruct (H2 x) as [E3 E4]; [lia | by rewrite E1 | set_solver |].
  by rewrite E3, E4.
Qed.

Lemma others_keeps f f' l m : volume f -> keeps f f' m -> m ⊆ l -> others_kept f f' l.
Proof.
  intros Hv Hk Hm x Hx _ Hl. split; [apply (k_fat _ _ _ Hk) | apply (k_data _ _ _ Hk)]; try done; [|set_solver..].
  apply cluster_in_fat; [apply Hv | done].
Qed.

(** What [WriteFile] does before the new entry is added. *)
Lemma write_data fuel f l n83 existing buffer size :
  volume f -> chain f (root_cluster (bpb f)) l -> length n83 = 11%nat ->
  first (find_v n83) (dir_entries f l) = existing ->
  is_bytes buffer -> 0 <= size <= Z.of_nat (length buffer) -> size < 2 ^ 32 ->
  (more_clusters f size + 2 <= length (free_list f))%nat ->
  (length l <= fuel)%nat -> (more_clusters f size < fuel)%nat ->
  exists start f1 f2 f3 lf, AllocCluster junk f = Ok start /\ start <> 0 /\ is_u32 start /\
    SetFATEntry junk f start 0x0FFFFFFF = Ok (true, f1) /\
    WriteClusterChain junk junk4096 fuel f1 start buffer size = Ok (true, f2) /\
    (match existing with
     | Some _ => '(_, f) ← MarkEntryDeleted junk junk4096 fuel f2 (root_cluster (bpb f)) n83; Ok f
     | None => Ok f2
     end) = Ok f3 /\
    (exists d, f3 = set_ata f d) /\ volume f3 /\ chain f3 (root_cluster (bpb f)) l /\
    ready n83 (dir_entries f3 l) /\ free_list f3 <> [] /\ chain f3 start lf /\
    length lf = S (more_clusters f size) /\ (forall x, x ∈ lf -> x ∉ l) /\ others_kept f f3 l /\
    contents f3 lf = pad ((Z.of_nat (more_clusters f size) + 1) * cluster_size f) (take (Z.to_nat size) buffer).
Proof using Hjunk Hjunk4 Hjunkb.
  intros Hv Hch Hn Hf Hb Hs Hs32 Hfree Hfl Hfm.
  destruct (store_file junk junk4096 Hjunk Hjunk4 Hjunkb fuel f buffer size)
    as (start & f1 & f2 & lf & EA & Hst & Hst32 & ES & EW & Hk2 & Hlf & Hllf & Hlfree & Hleft & Hcon); try done.
  pose proof (k_volume _ _ _ Hk2) as Hv2.
  assert (Hdis : forall x, x ∈ l -> x ∉ lf).
  { intros x Hx Hx'%Hlfree. by apply (chain_not_free f (root_cluster (bpb f)) l x) in Hx'. }
  assert (Hdis' : forall x, x ∈ lf -> x ∉ l) by (intros x Hx Hx'; by apply (Hdis x)).
  destruct (chain_keeps f f2 lf _ l Hv Hk2 Hdis Hch) as [Hch2 _].
  pose proof (dir_keeps f f2 lf _ l Hv Hk2 Hdis Hch) as Hd2.
  destruct (set_ata_geom f f2 (k_disk _ _ _ Hk2)) as (Hlen2 & Hmax2 & Hsize2 & Hbpb2).
  destruct (mark_old fuel f2 l n83 existing) as (f3 & EM & Hk3 & Hfat3 & Hready); try done.
  { by rewrite Hbpb2. }
  { by rewrite Hd2. }
  destruct (chain_keeps f2 f3 l start lf Hv2 Hk3 Hdis' Hlf) as [Hlf3 Hcon3].
  rewrite Hbpb2 in EM.
  exists start, f1, f2, f3, lf. do 6 (split; [done|]).
  split. { destruct (k_disk _ _ _ Hk3) as [d3 ->], (k_disk _ _ _ Hk2) as [d2 ->]. by exists d3. }
  split; [apply Hk3|]. split; [by apply (chain_same f2 f3); [| apply Hk3 | |]|]. split; [done|].
  split; [by rewrite (free_list_fat f2 f3) by (done || apply Hk3)|].
  do 3 (split; [done|]). split; [|by rewrite Hcon3].
  eapply (keeps_others f f2 f3 l l); [done | | exact Hk3 | apply Hk2 | by left].
  eapply (keeps_others f f f2 l lf); [done | by intros x | exact Hk2 | | by auto].
  exists (ata f). by destruct f.
Qed.

(** [WriteFile] of a file of the root directory, new or not. *)
Lemma WriteFile_ok fuel f l lead comp lold buffer size :
  volume f -> chain f (root_cluster (bpb f)) l -> l <> [] -> component comp -> head comp <> Some 0xE5 ->
  old_file fuel f l comp lold -> is_bytes buffer -> 0 <= size <= Z.of_nat (length buffer) -> size < 2 ^ 32 ->
  (more_clusters f size + 2 <= length (free_list f))%nat ->
  (length l < fuel)%nat -> (more_clusters f size < fuel)%nat -> (length lold <= fuel)%nat ->
  let n := (Z.of_nat (more_clusters f size) + 1) * cluster_size f in
  exists f', WriteFile junk junk4096 fuel f (root_path lead comp) buffer size = Ok (true, f') /\
    volume f' /\ others_kept f f' (l ++ lold) /\
    forall lead' out, n <= Z.of_nat (length out) -> Z.of_nat (length out) < 2 ^ 32 ->
      ReadFile junk junk4096 fuel f' (root_path lead' comp) out =
      Ok (Some (pad n (take (Z.to_nat size) buffer) ++ drop (Z.to_nat n) out, size)).
Proof using Hjunk Hjunk4 Hjunkb.
  intros Hv Hch Hne Hcomp HE5 Hold Hb Hs Hs32 Hfree Hfl Hfm Hfo n.
  destruct (short_name_total comp) as (n83 & En & Hn & Hnb & Hn0); [|apply Hcomp|].
  { eapply Forall_impl; [apply (c_chars _ Hcomp)|]. by intros c []. }
  assert (Hbyte : byte n83 0 <> 0 /\ byte n83 0 <> 0xE5).
  { rewrite Hn0. destruct Hcomp as [Hcl Hcc _], comp as [|c comp]; [cbn in Hcl; lia|]. cbn in HE5.
    apply Forall_cons in Hcc as [[? _] _]. unfold upper.
    destruct (c =? 46), (Z.leb_spec 97 c), (Z.leb_spec c 122); cbn; (split; [lia|]); naive_solver lia. }
  pose proof (FindEntry_ok junk junk4096 Hjunk Hjunk4 Hjunkb fuel f _ l comp n83 Hv Hch ltac:(lia) En Hn) as HF.
  destruct (free_old fuel f l comp lold _ Hv Hch Hfo HF Hold) as (f1 & E1 & Edir & Hk1 & Hgrow & Hch1 & Hd1).
  destruct (set_ata_geom f f1 (k_disk _ _ _ Hk1)) as (Hlen1 & Hmax1 & Hsize1 & Hbpb1).
  assert (Hm1 : more_clusters f1 size = more_clusters f size) by (unfold more_clusters; by rewrite Hsize1).
  destruct (write_data fuel f1 l n83 (first (find_v n83) (dir_entries f l)) buffer size)
    as (start & f2 & f3 & f4 & lf & EA & Hst & Hst32 & ES & EW & EM & Hd4 & Hv4 & Hch4 & Hready & Hleft & Hlf4 &
        Hllf & Hdis & Hoth & Hcon);
    rewrite ?Hbpb1, ?Hd1, ?Hm1; try (done || apply Hk1 || lia).
  rewrite Hbpb1 in *. rewrite Hm1, Hsize1 in *.
  destruct (set_ata_geom f1 f4 Hd4) as (Hlen4 & Hmax4 & Hsize4 & Hbpb4).
  destruct (finish_file fuel f4 l comp n83 start lf size)
    as (f5 & l' & E5 & Hk5 & Hin5 & Hread); rewrite ?Hbpb4, ?Hbpb1; try (done || lia || apply Hbyte).
  { zify_words. lia. }
  rewrite Hbpb4, Hbpb1 in E5.
  exists f5. split.
  { unfold WriteFile. rewrite ResolveParentDir_root by (done || lia). cbn [mbind result_bind].
    rewrite En. cbn [mbind result_bind]. rewrite HF. cbn [mbind result_bind]. rewrite Edir.
    cbn [mbind result_bind]. rewrite E1. cbn [mbind result_bind]. rewrite EA. cbn [mbind result_bind].
    rewrite (proj2 (Z.eqb_neq start 0)), ES by done. cbn [mbind result_bind negb]. rewrite EW.
    cbn [mbind result_bind negb]. rewrite EM. exact E5. }
  split; [apply Hk5|]. split.
  - eapply (keeps_others f f4 f5 (l ++ lold) l'); [done | | exact Hk5 | |].
    + eapply others_trans; [by eapply (others_keeps f f1 (l ++ lold)); [| exact Hk1 | set_solver] | exact Hoth | apply Hk1 | set_solver].
    + destruct Hd4 as [d ->], (k_disk _ _ _ Hk1) as [d1 ->]. by exists d.
    + intros x [?|?]%Hin5; [left; set_solver | by right].
  - intros lead' out Ho Ho32. rewrite Hread by (rewrite ?Hllf, ?Hsize4, ?Hsize1; unfold n in *; lia).
    rewrite Hcon, Hllf, Hsize4, Hsize1. do 5 f_equal. unfold n. f_equal. lia.
Qed.

(** ** [DeleteFile] *)

Lemma first_no_match n83 D : Forall (fun e => take 11 e <> n83) D -> first (find_v n83) D = None.
Proof.
  induction D as [|e D IH]; [done|]. intros [He HD]%Forall_cons. cbn [first].
  assert (Hne : find_v n83 e <> Found).
  { unfold find_v. destruct (bytes_eqb (take 11 e) n83) eqn:E; [by apply bytes_eqb_eq in E|].
    by destruct (byte e 0 =? 0), (byte e 0 =? 229), (byte e 11 =? 15). }
  destruct (find_v n83 e); [done | by apply IH | done].
Qed.

Lemma find_deleted n83 e : find_v n83 (deleted e) = Skip.
Proof. done. Qed.

Lemma DeleteFile_ok fuel f l lead comp n83 e lold c :
  volume f -> chain f (root_cluster (bpb f)) l -> component comp -> (length l < fuel)%nat ->
  (length lold <= fuel)%nat -> ToShortName (comp ++ [0]) = Ok n83 -> length n83 = 11%nat ->
  first (find_v n83) (dir_entries f l) = Some e -> is_dir e = Ok false -> entry_cluster e = Ok c ->
  chain f c lold -> (forall x, x ∈ lold -> x ∉ l) ->
  exists f' p m q, DeleteFile junk junk4096 fuel f (root_path lead comp) = Ok (true, f') /\
    volume f' /\ chain f' (root_cluster (bpb f')) l /\ others_kept f f' (l ++ lold) /\
    (forall x, x ∈ lold -> fat_of f' x = 0) /\
    dir_entries f l = p ++ m :: q /\ take 11 m = n83 /\ dir_entries f' l = p ++ deleted m :: q /\
    Forall (fun e => find_v n83 e = Skip) p.
Proof using Hjunk Hjunk4 Hjunkb.
  intros Hv Hch Hcomp Hfl Hfo En Hn Hf Hdir Hcl Hlo Hdis.
  destruct (free_chain_ok junk Hjunk fuel f c lold Hv Hlo Hfo) as (f1 & E1 & Hk1 & Hz & _).
  assert (Hml : forall x, x ∈ l -> x ∉ lold) by (intros x Hx Hx'; by apply (Hdis x)).
  destruct (chain_keeps f f1 lold _ l Hv Hk1 Hml Hch) as [Hch1 _].
  pose proof (dir_keeps f f1 lold _ l Hv Hk1 Hml Hch) as Hd1.
  destruct (set_ata_geom f f1 (k_disk _ _ _ Hk1)) as (Hlen1 & Hmax1 & _ & Hbpb1).
  destruct (find_mark_split n83 _ e Hf) as (p & m & q & Hd & Hp & Hm).
  destruct (mark_in_chain_ok junk Hjunk fuel f1 n83 (root_cluster (bpb f)) l junk4096 p m q)
    as (f2 & E2 & Hk2 & Hfat2 & Hd2); try (done || apply Hk1 || lia); [by rewrite Hd1|].
  destruct (set_ata_geom f1 f2 (k_disk _ _ _ Hk2)) as (_ & _ & _ & Hbpb2).
  exists f2, p, m, q. split.
  { unfold DeleteFile. rewrite ResolveParentDir_root by (done || lia). cbn [mbind result_bind].
    rewrite En. cbn [mbind result_bind].
    rewrite (FindEntry_ok junk junk4096 Hjunk Hjunk4 Hjunkb fuel f _ l comp n83), Hf by (done || lia).
    cbn [mbind result_bind]. rewrite Hdir. cbn [mbind result_bind]. rewrite Hcl. cbn [mbind result_bind].
    rewrite E1. exact E2. }
  split; [apply Hk2|]. split.
  { rewrite Hbpb2, Hbpb1. apply (chain_same f1 f2); [apply Hk1 | apply Hk2 | done | done]. }
  split.
  { eapply others_trans; [by eapply (others_keeps f f1 (l ++ lold)); [| exact Hk1 | set_solver] |
      eapply (others_keeps f1 f2 l); [apply Hk1 | exact Hk2 | done] | apply Hk1 | set_solver]. }
  split.
  { intros x Hx. rewrite Hfat2; [by apply Hz|]. rewrite Hlen1. apply cluster_in_fat; [apply Hv|].
    by apply (chain_in f c lold). }
  split; [done|]. split; [|split; [done|]].
  - revert Hm. unfold mark_v. destruct (byte m 0 =? 0), (byte m 0 =? 229); try done.
    destruct (bytes_eqb (take 11 m) n83) eqn:E; [|done]. by apply bytes_eqb_eq in E.
  - eapply Forall_impl; [exact Hp|]. intros x. apply mark_skip_find.
Qed.

End api.

(** ** Termination *)

(** A chain that ends visits each cluster once at most. *)
Lemma chain_bound f c l : volume f -> chain f c l -> (length l <= Z.to_nat (max_cluster f - 2))%nat.
Proof.
  intros Hv Hch. pose proof (chain_NoDup f c l Hv Hch) as Hnd.
  transitivity (length (seqZ 2 (max_cluster f - 2))); [|by rewrite length_seqZ].
  apply submseteq_length, NoDup_submseteq; [done|]. intros x Hx.
  apply elem_of_seqZ. pose proof (chain_in f c l x Hch Hx). lia.
Qed.

(** A cluster that is its own successor is read for ever. *)
Lemma find_cycle junk fuel f n83 c buf :
  length junk = 512%nat -> volume f -> 2 <= c < max_cluster f -> fat_of f c = c -> length n83 = 11%nat ->
  Forall (fun e => find_v n83 e = Skip) (cluster_entries f c) ->
  length buf = Z.to_nat 4096 -> is_bytes buf ->
  find_in_chain junk fuel f n83 c buf = Err OutOfFuel.
Proof.
  intros Hj Hv Hc Hself Hn Hs. pose proof (v_geometry f Hv) as Hg. pose proof (v_eoc f Hg).
  revert buf. induction fuel as [|fuel IH]; intros buf Hl Hb; cbn [find_in_chain];
    rewrite (proj2 (Z.ltb_lt c EOC)) by lia; [done|].
  destruct (scan_cluster (find_test n83) (find_v n83) f c buf (find_computes n83 Hn) Hv Hc Hl Hb)
    as (-> & Hl' & Hb' & Es).
  cbn [mbind result_bind]. rewrite Es, scan_skip by done. cbn [mbind result_bind].
  rewrite (NextCluster_ok junk Hj) by (done || by apply cluster_in_fat). rewrite Hself. by apply IH.
Qed.

(** ** The theorems *)

(** C22: A file that is written is read back.  On a well-formed volume with room for
    the data and one directory cluster, [WriteFile] of a file of the root directory,
    new or replacing a regular one, succeeds and keeps the volume well formed; [ReadFile]
    of that path, with or without a leading slash, then returns exactly the bytes
    written and their number (padded with zeros to whole clusters), and every cluster in
    use outside the directory and the replaced file keeps its FAT entry and contents. *)
Theorem file_roundtrip junk junk4096 fuel f l lead comp lold buffer size lead' out :
  length junk = 512%nat -> length junk4096 = Z.to_nat 4096 -> is_bytes junk4096 ->
  volume f -> chain f (root_cluster (bpb f)) l -> l <> [] -> component comp -> head comp <> Some 0xE5 ->
  old_file junk junk4096 fuel f l comp lold ->
  is_bytes buffer -> 0 <= size <= Z.of_nat (length buffer) -> size < 2 ^ 32 ->
  (more_clusters f size + 2 <= length (free_list f))%nat ->
  (length l < fuel)%nat -> (more_clusters f size < fuel)%nat -> (length lold <= fuel)%nat ->
  let n := (Z.of_nat (more_clusters f size) + 1) * cluster_size f in
  n <= Z.of_nat (length out) -> Z.of_nat (length out) < 2 ^ 32 ->
  exists f', WriteFile junk junk4096 fuel f (root_path lead comp) buffer size = Ok (true, f') /\
    volume f' /\ others_kept f f' (l ++ lold) /\
    ReadFile junk junk4096 fuel f' (root_path lead' comp) out =
    Ok (Some (pad n (take (Z.to_nat size) buffer) ++ drop (Z.to_nat n) out, size)).
Proof.
  intros Hj Hj4 Hjb Hv Hch Hne Hcomp HE5 Hold Hb Hs Hs32 Hfree Hf1 Hf2 Hf3 n Ho Ho32.
  destruct (WriteFile_ok junk junk4096 Hj Hj4 Hjb fuel f l lead comp lold buffer size)
    as (f' & E & Hv' & Hoth & Hread); try done.
  exists f'. split; [done|]. split; [done|]. split; [done|]. by apply Hread.
Qed.

(** C23: A file that is deleted is gone and its space is free.  On a well-formed volume
    [DeleteFile] of a regular file of the root directory succeeds and keeps the volume
    well formed; every cluster of the file is free afterwards, the first entry of that
    name carries the deletion mark and all other entries are unchanged, every cluster
    in use outside the directory and the file keeps its FAT entry and contents, and when
    no other entry has the name the file is no longer found. *)
Theorem file_deleted junk junk4096 fuel f l lead comp n83 e lold c :
  length junk = 512%nat -> length junk4096 = Z.to_nat 4096 -> is_bytes junk4096 ->
  volume f -> chain f (root_cluster (bpb f)) l -> component comp -> (length l < fuel)%nat ->
  (length lold <= fuel)%nat -> ToShortName (comp ++ [0]) = Ok n83 ->
  FindEntry junk junk4096 fuel f (root_cluster (bpb f)) (comp ++ [0]) = Ok (Some e) ->
  is_dir e = Ok false -> entry_cluster e = Ok c ->
  chain f c lold -> (forall x, x ∈ lold -> x ∉ l) ->
  exists f' p m q, DeleteFile junk junk4096 fuel f (root_path lead comp) = Ok (true, f') /\
    volume f' /\ others_kept f f' (l ++ lold) /\ (forall x, x ∈ lold -> fat_of f' x = 0) /\
    dir_entries f l = p ++ m :: q /\ take 11 m = n83 /\ dir_entries f' l = p ++ deleted m :: q /\
    (Forall (fun e => take 11 e <> n83) q ->
       FindEntry junk junk4096 fuel f' (root_cluster (bpb f')) (comp ++ [0]) = Ok None).
Proof.
  intros Hj Hj4 Hjb Hv Hch Hcomp Hf1 Hf2 En HF Hd Hc Hlo Hdis.
  destruct (short_name_total comp) as (n & En' & Hn & _ & _); [|apply Hcomp|].
  { eapply Forall_impl; [apply (c_chars _ Hcomp)|]. by intros ? []. }
  rewrite En in En'. injection En' as <-.
  rewrite (FindEntry_ok junk junk4096 Hj Hj4 Hjb fuel f _ l comp n83) in HF by (done || lia).
  injection HF as HF.
  destruct (DeleteFile_ok junk junk4096 Hj Hj4 Hjb fuel f l lead comp n83 e lold c)
    as (f' & p & m & q & E & Hv' & Hch' & Hoth & Hz & D1 & Em & D2 & Hp); try done.
  exists f', p, m, q. do 7 (split; [done|]). intros Hq.
  rewrite (FindEntry_ok junk junk4096 Hj Hj4 Hjb fuel f' _ l comp n83) by (done || lia).
  rewrite D2, first_skip by done. cbn [first]. rewrite find_deleted. by rewrite first_no_match.
Qed.

(** C35: When a directory search ends.  On a well-formed volume a search along a chain
    that reaches an end mark returns within as many steps as the volume has clusters,
    with the first matching entry or nothing; along a cluster linked to itself that
    holds neither the name nor an end-of-directory entry it never returns. *)
Theorem directory_search_termination junk junk4096 f c comp n83 :
  length junk = 512%nat -> length junk4096 = Z.to_nat 4096 -> is_bytes junk4096 -> volume f ->
  ToShortName (comp ++ [0]) = Ok n83 -> length n83 = 11%nat ->
  (forall l, chain f c l ->
     FindEntry junk junk4096 (Z.to_nat (max_cluster f - 2)) f c (comp ++ [0]) =
     Ok (first (find_v n83) (dir_entries f l))) /\
  (2 <= c < max_cluster f -> fat_of f c = c ->
     Forall (fun e => find_v n83 e = Skip) (cluster_entries f c) ->
     forall fuel, FindEntry junk junk4096 fuel f c (comp ++ [0]) = Err OutOfFuel).
Proof.
  intros Hj Hj4 Hjb Hv En Hn. split.
  - intros l Hch. apply FindEntry_ok; try done. by eapply chain_bound.
  - intros Hc Hself Hs fuel. unfold FindEntry. rewrite En. by apply find_cycle.
Qed.

(** Short names.  [ToShortName] of a name of up to 8 and up to 3 characters around
    a dot, or of up to 8 without one, is the two parts in upper case, each padded with
    spaces; so two spellings that differ in case alone name the same file. *)
Theorem ToShortName_correct base ext :
  Forall (fun c => c <> 0 /\ c <> 46) base -> (length base <= 8)%nat ->
  Forall (fun c => c <> 0) ext -> (length ext <= 3)%nat ->
  ToShortName (base ++ [0]) = Ok (spaces 8 (map upper base) ++ replicate 3 32) /\
  ToShortName (base ++ 46 :: ext ++ [0]) = Ok (spaces 8 (map upper base) ++ spaces 3 (map upper ext)) /\
  (forall base' ext', map upper base' = map upper base -> map upper ext' = map upper ext ->
     Forall (fun c => c <> 0 /\ c <> 46) base' -> Forall (fun c => c <> 0) ext' ->
     ToShortName (base' ++ 46 :: ext' ++ [0]) = ToShortName (base ++ 46 :: ext ++ [0])).
Proof.
  intros Hb Hbl He Hel. split; [|split].
  - rewrite short_name_plain by (done || by left). done.
  - rewrite short_name_ext by (done || by left). done.
  - intros base' ext' Eb Ee Hb' He'.
    pose proof (f_equal length Eb) as Lb. pose proof (f_equal length Ee) as Le. rewrite !length_map in Lb, Le.
    rewrite !short_name_ext by (done || lia || by left). unfold name_of. by rewrite Eb, Ee.
Qed.

(** ** Witnesses *)

Definition sample_name : list Z := [104; 101; 108; 108; 111; 46; 116; 120; 116].
Definition sample_data : list Z := replicate 700 5.

Lemma sample_component : component sample_name.
Proof.
  constructor; [cbn; lia | |]; repeat (apply Forall_cons; split; [lia || u32_lit|]); apply Forall_nil; done.
Qed.

Lemma sample_root : chain sample_fs (root_cluster (bpb sample_fs)) [2].
Proof.
  cbn [chain]. rewrite sample_max. assert (E : fat_of sample_fs 2 = 0x0FFFFFFF) by (vm_compute; reflexivity).
  rewrite E. unfold EOC. cbn. lia.
Qed.

Lemma sample_no_file :
  FindEntry (replicate 512 7) (replicate (Z.to_nat 4096) 7) 5 sample_fs (root_cluster (bpb sample_fs))
    (sample_name ++ [0]) = Ok None.
Proof. vm_compute. reflexivity. Qed.

Lemma sample_free : free_list sample_fs = [3; 4; 5; 6; 7; 8; 9].
Proof. vm_compute. reflexivity. Qed.

Lemma sevens n : is_bytes (replicate n 7).
Proof. apply Forall_replicate. u32_lit. Qed.

Lemma file_roundtrip_witness :
  exists f', WriteFile (replicate 512 7) (replicate (Z.to_nat 4096) 7) 5 sample_fs (root_path true sample_name) sample_data 700
      = Ok (true, f') /\ volume f' /\ others_kept sample_fs f' ([2] ++ []) /\
    ReadFile (replicate 512 7) (replicate (Z.to_nat 4096) 7) 5 f' (root_path false sample_name) (replicate (Z.to_nat 2000) 0) =
    Ok (Some (pad 1024 (take (Z.to_nat 700) sample_data) ++ drop (Z.to_nat 1024) (replicate (Z.to_nat 2000) 0), 700)).
Proof.
  assert (Hm : more_clusters sample_fs 700 = 1%nat) by (vm_compute; reflexivity).
  assert (Hc : (Z.of_nat (more_clusters sample_fs 700) + 1) * cluster_size sample_fs = 1024)
    by (rewrite Hm; reflexivity).
  rewrite <- Hc.
  apply (file_roundtrip (replicate 512 7) (replicate (Z.to_nat 4096) 7) 5 sample_fs [2] true sample_name []
           sample_data 700 false (replicate (Z.to_nat 2000) 0)).
  - reflexivity.
  - apply length_replicate.
  - apply sevens.
  - exact sample_volume.
  - exact sample_root.
  - discriminate.
  - exact sample_component.
  - discriminate.
  - unfold old_file. rewrite sample_no_file. reflexivity.
  - apply Forall_replicate. u32_lit.
  - unfold sample_data. rewrite length_replicate. lia.
  - lia.
  - rewrite Hm, sample_free. cbn. lia.
  - cbn. lia.
  - rewrite Hm. lia.
  - cbn. lia.
  - rewrite Hc, length_replicate. lia.
  - rewrite length_replicate. lia.
Defined.

(** The sample volume with the file on it. *)
Definition sample_with_file : FAT32 :=
  match WriteFile (replicate 512 7) (replicate (Z.to_nat 4096) 7) 5 sample_fs (root_path true sample_name) sample_data 700 with
  | Ok (_, f) => f
  | Err _ => sample_fs
  end.

Lemma sample_with_file_volume : volume sample_with_file.
Proof.
  assert (Hm : more_clusters sample_fs 700 = 1%nat) by (vm_compute; reflexivity).
  destruct (WriteFile_ok (replicate 512 7) (replicate (Z.to_nat 4096) 7) eq_refl (length_replicate _ _)
              (sevens _) 5 sample_fs [2] true sample_name [] sample_data 700)
    as (f' & E & Hv & _).
  - exact sample_volume.
  - exact sample_root.
  - discriminate.
  - exact sample_component.
  - discriminate.
  - unfold old_file. rewrite sample_no_file. reflexivity.
  - apply Forall_replicate. u32_lit.
  - unfold sample_data. rewrite length_replicate. lia.
  - lia.
  - rewrite Hm, sample_free. cbn. lia.
  - cbn. lia.
  - rewrite Hm. lia.
  - cbn. lia.
  - unfold sample_with_file. by rewrite E.
Qed.

Definition sample_83 : list Z := [72; 69; 76; 76; 79; 32; 32; 32; 84; 88; 84].

Lemma sample_file_chain : chain sample_with_file 3 [3; 4] /\ chain sample_with_file 2 [2].
Proof.
  assert (E2 : fat_of sample_with_file 2 = 0x0FFFFFFF) by (vm_compute; reflexivity).
  assert (E3 : fat_of sample_with_file 3 = 4) by (vm_compute; reflexivity).
  assert (E4 : fat_of sample_with_file 4 = 0x0FFFFFFF) by (vm_compute; reflexivity).
  assert (Em : max_cluster sample_with_file = 10) by (vm_compute; reflexivity).
  cbn [chain]. rewrite E2, E3, E4, Em. unfold EOC. lia.
Qed.

Lemma file_deleted_witness :
  exists f' p m q, DeleteFile (replicate 512 7) (replicate (Z.to_nat 4096) 7) 5 sample_with_file (root_path true sample_name)
      = Ok (true, f') /\
    volume f' /\ others_kept sample_with_file f' ([2] ++ [3; 4]) /\ (forall x, x ∈ [3; 4] -> fat_of f' x = 0) /\
    dir_entries sample_with_file [2] = p ++ m :: q /\ take 11 m = sample_83 /\
    dir_entries f' [2] = p ++ deleted m :: q /\
    (Forall (fun e => take 11 e <> sample_83) q ->
       FindEntry (replicate 512 7) (replicate (Z.to_nat 4096) 7) 5 f' (root_cluster (bpb f')) (sample_name ++ [0]) = Ok None).
Proof.
  apply (file_deleted (replicate 512 7) (replicate (Z.to_nat 4096) 7) 5 sample_with_file [2] true sample_name
           sample_83 (BuildDirEntry sample_83 0x20 3 700) [3; 4] 3).
  - reflexivity.
  - apply length_replicate.
  - apply sevens.
  - exact sample_with_file_volume.
  - exact (proj2 sample_file_chain).
  - exact sample_component.
  - cbn. lia.
  - cbn. lia.
  - vm_compute. reflexivity.
  - vm_compute. reflexivity.
  - vm_compute. reflexivity.
  - vm_compute. reflexivity.
  - exact (proj1 sample_file_chain).
  - intros x Hx Hx2. apply list_elem_of_singleton in Hx2. subst x.
    apply elem_of_cons in Hx as [|Hx]; [discriminate|]. apply list_elem_of_singleton in Hx. discriminate.
Defined.

(** The volume with cluster 3 linked to itself and full of deleted entries. *)
Definition looped_fat : list Z :=
  le32 0x0FFFFFF8 ++ le32 0x0FFFFFFF ++ le32 0x0FFFFFFF ++ le32 3 ++ replicate 496 0.
Definition looped_fs : FAT32 :=
  mkFat (<[1 := looped_fat]> (<[2 := looped_fat]> (<[4 := replicate 512 0xE5]> sample_disk))) 0
    (mkBpb 512 1 1 2 0 11 1 2) 1 3 512.

Lemma looped_volume : volume looped_fs.
Proof. apply (small_volume _ looped_fat); vm_compute; reflexivity. Qed.

Lemma directory_search_termination_witness :
  FindEntry (replicate 512 7) (replicate (Z.to_nat 4096) 7) 8 looped_fs 2 (sample_name ++ [0]) = Ok None /\
  (forall fuel, FindEntry (replicate 512 7) (replicate (Z.to_nat 4096) 7) fuel looped_fs 3 (sample_name ++ [0]) = Err OutOfFuel).
Proof.
  assert (T : forall c, (forall l, chain looped_fs c l ->
      FindEntry (replicate 512 7) (replicate (Z.to_nat 4096) 7) (Z.to_nat (max_cluster looped_fs - 2)) looped_fs c (sample_name ++ [0]) =
      Ok (first (find_v sample_83) (dir_entries looped_fs l))) /\
    (2 <= c < max_cluster looped_fs -> fat_of looped_fs c = c ->
      Forall (fun e => find_v sample_83 e = Skip) (cluster_entries looped_fs c) ->
      forall fuel, FindEntry (replicate 512 7) (replicate (Z.to_nat 4096) 7) fuel looped_fs c (sample_name ++ [0]) = Err OutOfFuel)).
  { intros c.
    apply (directory_search_termination (replicate 512 7) (replicate (Z.to_nat 4096) 7) looped_fs c sample_name sample_83);
      [reflexivity | apply length_replicate | apply sevens | exact looped_volume | vm_compute; reflexivity | reflexivity]. }
  split.
  - assert (Hc : chain looped_fs 2 [2]).
    { cbn [chain]. assert (E : fat_of looped_fs 2 = 0x0FFFFFFF) by (vm_compute; reflexivity). rewrite E. unfold EOC.
      assert (M : max_cluster looped_fs = 10) by (vm_compute; reflexivity). rewrite M. cbn. lia. }
    etransitivity; [exact (proj1 (T 2) [2] Hc) | vm_compute; reflexivity].
  - apply (proj2 (T 3)).
    + assert (M : max_cluster looped_fs = 10) by (vm_compute; reflexivity). rewrite M. lia.
    + vm_compute. reflexivity.
    + assert (E : forallb (fun e => match find_v sample_83 e with Skip => true | _ => false end) (cluster_entries looped_fs 3) = true)
        by (vm_compute; reflexivity).
      rewrite forallb_forall in E. apply Forall_forall. intros e He%list_elem_of_In. specialize (E e He).
      destruct (find_v sample_83 e); [discriminate E | reflexivity | discriminate E].
Defined.

Lemma ToShortName_correct_witness :
  ToShortName ([97; 66] ++ [0]) = Ok (spaces 8 (map upper [97; 66]) ++ replicate 3 32) /\
  ToShortName ([97; 66] ++ 46 :: [99] ++ [0]) = Ok (spaces 8 (map upper [97; 66]) ++ spaces 3 (map upper [99])) /\
  (forall base' ext', map upper base' = map upper [97; 66] -> map upper ext' = map upper [99] ->
     Forall (fun c => c <> 0 /\ c <> 46) base' -> Forall (fun c => c <> 0) ext' ->
     ToShortName (base' ++ 46 :: ext' ++ [0]) = ToShortName ([97; 66] ++ 46 :: [99] ++ [0])).
Proof.
  apply (ToShortName_correct [97; 66] [99]); cbn [length]; try lia;
    repeat (apply Forall_cons; split; [lia|]); apply Forall_nil; exact I.
Defined.

End FatApi.
