(* ===== verification/Cpu.v ===== *)
(** Segmentation and interrupts: src/src/arch/i386/gdt.{h,cpp}, tss.{h,cpp} and
    interrupts.{h,cpp}.

    The tables are the packed structures of the code; beside the encoders stand the
    decoders of the architecture, which read base, limit, privilege level and entry
    point back out of them.  Port writes and the privileged instructions are recorded
    in the order they are made. *)

From stdpp Require Import base numbers list sets.
From Stdlib Require Import ZArith Lia.
From S2P Require Import Prelude Net.

Module Cpu.
Import Net.

(** ** What the code does to the processor and the interrupt controllers *)

Inductive effect :=
  | Lgdt (limit base : Z)
  | Ltr (selector : Z)
  | Lidt (limit base : Z)
  | OutB (port value : Z)
  | Sti
  | Cli.

(** ** The task state segment *)

Definition sizeof_TSS : Z := 104.

(** Offsets of the fields the code sets. *)
Definition off_esp0 : Z := 4.
Definition off_ss0 : Z := 8.
Definition off_iomap_base : Z := 102.

(** [junk] is the memory of the object before. *)
Definition TaskStateSegment_new (junk : list Z) : result (list Z) :=
  tss ← for_result 0 sizeof_TSS (fun i p => arr_set p i 0) junk;
  tss ← put_bytes tss off_ss0 (le16 0x10);
  put_bytes tss off_iomap_base (le16 sizeof_TSS).

Definition SetKernelStack (tss : list Z) (esp : Z) : result (list Z) :=
  put_bytes tss off_esp0 (le32 esp).

(** ** The global descriptor table *)

Record GdtEntry := mkGdt {
  limit_low : Z; base_low : Z; base_mid : Z; access : Z; granularity : Z; base_high : Z }.

Definition EncodeEntry (base limit acc gran_flags : Z) : GdtEntry :=
  mkGdt (Z.land limit 0xFFFF) (Z.land base 0xFFFF) (Z.land (Z.shiftr base 16) 0xFF) acc
    (Z.lor (Z.land gran_flags 0xF0) (Z.land (Z.shiftr limit 16) 0x0F))
    (Z.land (Z.shiftr base 24) 0xFF).

Record GlobalDescriptorTable := mkTable {
  null_descriptor : GdtEntry;
  code_descriptor : GdtEntry;
  data_descriptor : GdtEntry;
  user_code_descriptor : GdtEntry;
  user_data_descriptor : GdtEntry;
  tss_descriptor : GdtEntry;
}.

(** The members lie one after the other, 8 bytes each. *)
Definition sizeof_GdtEntry : Z := 8.
Definition CodeSegmentSelector : Z := 1 * sizeof_GdtEntry.
Definition DataSegmentSelector : Z := 2 * sizeof_GdtEntry.
Definition UserCodeSegmentSelector : Z := Z.lor (3 * sizeof_GdtEntry) 3.
Definition UserDataSegmentSelector : Z := Z.lor (4 * sizeof_GdtEntry) 3.
Definition TSSSelector : Z := 5 * sizeof_GdtEntry.

(** [this] is the address of the object, [tss] the address of the task state segment
    if there is one. *)
Definition GlobalDescriptorTable_new (this : Z) (tss : option Z)
    : GlobalDescriptorTable * list effect :=
  let tss_d := match tss with
               | Some base =>
                   let limit := u32 (sizeof_TSS - 1) in
                   mkGdt (Z.land limit 0xFFFF) (Z.land base 0xFFFF) (Z.land (Z.shiftr base 16) 0xFF)
                     0x89 (Z.land (Z.shiftr limit 16) 0x0F) (Z.land (Z.shiftr base 24) 0xFF)
               | None => EncodeEntry 0 0 0x00 0x00
               end in
  (mkTable (EncodeEntry 0 0 0x00 0x00) (EncodeEntry 0 0xFFFFF 0x9A 0xC0)
     (EncodeEntry 0 0xFFFFF 0x92 0xC0) (EncodeEntry 0 0xFFFFF 0xFA 0xC0)
     (EncodeEntry 0 0xFFFFF 0xF2 0xC0) tss_d,
   Lgdt (sizeof_GdtEntry * 6 - 1) this ::
   match tss with Some _ => [Ltr TSSSelector] | None => [] end).

(** ** The interrupt descriptor table *)

Record GateDescriptor := mkGate {
  offset_low : Z; selector : Z; reserved : Z; type_attr : Z; offset_high : Z }.

Definition SetGate (idt : list GateDescriptor) (interrupt handler sel attr : Z)
    : result (list GateDescriptor) :=
  arr_set idt (u8 interrupt)
    (mkGate (Z.land handler 0xFFFF) sel 0 attr (Z.land (Z.shiftr handler 16) 0xFFFF)).

(** [H] are the handler objects. *)
Record InterruptManager {H : Type} := mkIM {
  idt : list GateDescriptor;
  handlers : list (option H);
  hardware_interrupt_offset : Z;
}.
Arguments InterruptManager : clear implicits.
Arguments mkIM {H} _ _ _.

Section interrupts.
Context {H : Type} `{EqDecision H}.

(** The stubs of interrupts.s, by their addresses. *)
Context (isr : Z -> Z) (ignore_interrupt_request : Z).

(** The controllers are reached through slow ports, which write once more to port 0x80. *)
Definition slow_write (port value : Z) : list effect := [OutB port value; OutB 0x80 0].

Definition PIC_MASTER_COMMAND : Z := 0x20.
Definition PIC_MASTER_DATA : Z := 0x21.
Definition PIC_SLAVE_COMMAND : Z := 0xA0.
Definition PIC_SLAVE_DATA : Z := 0xA1.

(** The gates after the two loops of the constructor. *)
Definition exception_gates : list (Z * Z) :=
  [(8, 0x8E); (10, 0x8E); (11, 0x8E); (12, 0x8E); (13, 0x8E); (14, 0x8E); (128, 0xEF)].

Definition InterruptManager_new (hw_offset idt_addr : Z) (idt0 : list GateDescriptor)
    (handlers0 : list (option H)) : result (InterruptManager H * list effect) :=
  hs ← for_result 0 256 (fun i hs => arr_set hs i None) handlers0;
  let sel := CodeSegmentSelector in
  t ← for_result 0 256 (fun i t => SetGate t i ignore_interrupt_request sel 0x8E) idt0;
  t ← for_result 0 16 (fun i t => SetGate t (hw_offset + i) (isr (32 + i)) sel 0x8E) t;
  t ← fold_result (fun g t => SetGate t (fst g) (isr (fst g)) sel (snd g)) exception_gates t;
  Ok (mkIM t hs hw_offset,
      mjoin [slow_write PIC_MASTER_COMMAND 0x11; slow_write PIC_SLAVE_COMMAND 0x11;
             slow_write PIC_MASTER_DATA (u8 hw_offset); slow_write PIC_SLAVE_DATA (u8 (hw_offset + 8));
             slow_write PIC_MASTER_DATA 0x04; slow_write PIC_SLAVE_DATA 0x02;
             slow_write PIC_MASTER_DATA 0x01; slow_write PIC_SLAVE_DATA 0x01;
             slow_write PIC_MASTER_DATA 0x00; slow_write PIC_SLAVE_DATA 0x00] ++
      [Lidt (256 * 8 - 1) idt_addr]).

(** The constructor and the destructor of [InterruptHandler]. *)
Definition InterruptHandler_new (m : InterruptManager H) (this : H) (interrupt : Z)
    : result (InterruptManager H) :=
  hs ← arr_set (handlers m) interrupt (Some this);
  Ok (mkIM (idt m) hs (hardware_interrupt_offset m)).

Definition InterruptHandler_delete (m : InterruptManager H) (this : H) (interrupt : Z)
    : result (InterruptManager H) :=
  h ← arr_get (handlers m) interrupt;
  if decide (h = Some this)
  then hs ← arr_set (handlers m) interrupt None;
       Ok (mkIM (idt m) hs (hardware_interrupt_offset m))
  else Ok m.

(** [active_manager] is a pointer to the one manager or null. *)
Definition Activate (active : bool) : bool * list effect :=
  (true, (if active then [Cli] else []) ++ [Sti]).
Definition Deactivate : bool * list effect := (false, [Cli]).

(** *** Dispatch *)

(** The rest of the kernel: what a handler object, the system calls and the page
    fault report do to its state [S] and to the stack pointer. *)
Context {S : Type}.
Context (call : H -> Z -> S -> Z * S).
Context (SyscallDispatch : Z -> S -> Z * S).
Context (HandlePageFault : Z -> S -> S).

Definition DoHandleInterrupt (m : InterruptManager H) (cr2 interrupt esp : Z) (s : S)
    : result (Z * S * list effect) :=
  if interrupt =? 14 then Ok (esp, HandlePageFault cr2 s, [])
  else
    h ← arr_get (handlers m) interrupt;
    let '(esp, s) := match h with Some h => call h esp s | None => (esp, s) end in
    if interrupt =? 128 then let '(esp, s) := SyscallDispatch esp s in Ok (esp, s, [])
    else
      let hw := hardware_interrupt_offset m in
      Ok (esp, s,
          if (interrupt >=? hw) && (interrupt <? hw + 16)
          then (if interrupt >=? hw + 8 then slow_write PIC_SLAVE_COMMAND 0x20 else []) ++
               slow_write PIC_MASTER_COMMAND 0x20
          else []).

Definition HandleInterrupt (active : bool) (m : InterruptManager H) (cr2 interrupt esp : Z) (s : S)
    : result (Z * S * list effect) :=
  if active then DoHandleInterrupt m cr2 interrupt esp s else Ok (esp, s, []).

End interrupts.

(** ** The architecture's view of a descriptor *)

Definition desc_base (e : GdtEntry) : Z := base_low e + base_mid e * 2 ^ 16 + base_high e * 2 ^ 24.
Definition desc_limit (e : GdtEntry) : Z := limit_low e + granularity e mod 16 * 2 ^ 16.
(** The last offset of the segment: the limit counts pages when bit 7 is set. *)
Definition desc_top (e : GdtEntry) : Z :=
  if Z.testbit (granularity e) 7 then desc_limit e * 4096 + 4095 else desc_limit e.
Definition desc_dpl (e : GdtEntry) : Z := access e / 32 mod 4.
Definition desc_present (e : GdtEntry) : bool := Z.testbit (access e) 7.
Definition desc_code (e : GdtEntry) : bool := Z.testbit (access e) 4 && Z.testbit (access e) 3.
Definition desc_data (e : GdtEntry) : bool := Z.testbit (access e) 4 && negb (Z.testbit (access e) 3).

(** The descriptor a selector names. *)
Definition descriptor (t : GlobalDescriptorTable) (sel : Z) : option GdtEntry :=
  [null_descriptor t; code_descriptor t; data_descriptor t; user_code_descriptor t;
   user_data_descriptor t; tss_descriptor t] !! Z.to_nat (sel / 8).
Definition rpl (sel : Z) : Z := sel mod 4.

Lemma low16 x : Z.land x 0xFFFF = x mod 2 ^ 16.
Proof. change 0xFFFF with (Z.ones 16). by rewrite Z.land_ones by lia. Qed.
Lemma low8 x : Z.land x 0xFF = x mod 2 ^ 8.
Proof. change 0xFF with (Z.ones 8). by rewrite Z.land_ones by lia. Qed.
Lemma low4 x : Z.land x 0x0F = x mod 2 ^ 4.
Proof. change 0x0F with (Z.ones 4). by rewrite Z.land_ones by lia. Qed.

Lemma fields_base base :
  is_u32 base ->
  Z.land base 0xFFFF + Z.land (Z.shiftr base 16) 0xFF * 2 ^ 16 + Z.land (Z.shiftr base 24) 0xFF * 2 ^ 24 = base.
Proof.
  intros H. rewrite low16, !low8, !Z.shiftr_div_pow2 by lia. zify_words. change (2 ^ 24) with 16777216.
  assert (E : base / 16777216 = base / 65536 / 256) by (rewrite Z.div_div; [done | lia..]).
  Z.div_mod_to_equations. lia.
Qed.

Lemma fields_limit limit flags :
  0 <= limit < 2 ^ 20 -> is_u8 flags ->
  let g := Z.lor (Z.land flags 0xF0) (Z.land (Z.shiftr limit 16) 0x0F) in
  Z.land limit 0xFFFF + g mod 16 * 2 ^ 16 = limit /\ g / 16 = flags / 16.
Proof.
  intros Hl Hf. cbv zeta. change 0xF0 with (Z.ones 4 * 2 ^ 4). rewrite land_mask, low16, low4 by lia.
  rewrite Z.shiftr_div_pow2, lor_add by (lia || apply Z.mod_pos_bound; lia).
  change (2 ^ 20) with 1048576 in *. change (2 ^ 4) with 16. zify_words.
  rewrite (Z.mod_small (flags / 16)) by (Z.div_mod_to_equations; lia). Z.div_mod_to_equations. lia.
Qed.

Lemma EncodeEntry_decodes base limit acc flags :
  is_u32 base -> 0 <= limit < 2 ^ 20 -> is_u8 flags ->
  let e := EncodeEntry base limit acc flags in
  desc_base e = base /\ desc_limit e = limit /\ access e = acc /\ granularity e / 16 = flags / 16.
Proof.
  intros Hb Hl Hf. destruct (fields_limit limit flags Hl Hf) as [E1 E2].
  split; [by apply fields_base|]. split; [exact E1|]. split; [done | exact E2].
Qed.

(** The descriptor table gives the segments the kernel means.  Encoding is inverse
    to the architecture's decoding of base and limit; in the table the constructor
    builds, the kernel and the user selectors name present, flat 4 GiB code and data
    segments, of privilege level 0 and 3 with the matching requested level, the user
    ones are the constants [Process::Process] puts in the frame of a new process, the
    task register is loaded with the selector of a present segment at the address of the
    task state segment and of its size, and the limit loaded covers exactly the six
    descriptors. *)
Theorem gdt_correct this tss_addr :
  is_u32 tss_addr ->
  (forall base limit acc flags, is_u32 base -> 0 <= limit < 2 ^ 20 -> is_u8 flags ->
     desc_base (EncodeEntry base limit acc flags) = base /\
     desc_limit (EncodeEntry base limit acc flags) = limit) /\
  let '(t, effects) := GlobalDescriptorTable_new this (Some tss_addr) in
  effects = [Lgdt 47 this; Ltr TSSSelector] /\
  (forall sel level, (sel, level) ∈ [(CodeSegmentSelector, 0); (UserCodeSegmentSelector, 3)] ->
     exists e, descriptor t sel = Some e /\ desc_base e = 0 /\ desc_top e = 2 ^ 32 - 1 /\
       desc_code e = true /\ desc_present e = true /\ desc_dpl e = level /\ rpl sel = level) /\
  (forall sel level, (sel, level) ∈ [(DataSegmentSelector, 0); (UserDataSegmentSelector, 3)] ->
     exists e, descriptor t sel = Some e /\ desc_base e = 0 /\ desc_top e = 2 ^ 32 - 1 /\
       desc_data e = true /\ desc_present e = true /\ desc_dpl e = level /\ rpl sel = level) /\
  UserCodeSegmentSelector = 0x1B /\ UserDataSegmentSelector = 0x23 /\ DataSegmentSelector = 0x10 /\
  exists e, descriptor t TSSSelector = Some e /\ desc_base e = tss_addr /\
    desc_top e = sizeof_TSS - 1 /\ access e = 0x89.
Proof.
  intros Ht. split.
  { intros base limit acc flags Hb Hl Hf. by destruct (EncodeEntry_decodes base limit acc flags Hb Hl Hf) as (? & ? & _). }
  cbn [GlobalDescriptorTable_new]. split; [done|].
  split; [|split; [|split; [done|]; split; [done|]; split; [done|]]].
  1,2: intros sel level Hin; rewrite !elem_of_cons in Hin;
    destruct Hin as [[= -> ->]|[[= -> ->]|Hin]]; [| |by apply elem_of_nil in Hin];
    (eexists; split; [reflexivity|]; vm_compute; done).
  eexists. split; [reflexivity|]. split; [by apply fields_base | done].
Qed.

Lemma gdt_correct_witness :
  let '(t, _) := GlobalDescriptorTable_new 0x1000 (Some 0x00123456) in
  exists e, descriptor t TSSSelector = Some e /\ desc_base e = 0x00123456 /\
    desc_top e = sizeof_TSS - 1 /\ access e = 0x89.
Proof.
  assert (H : is_u32 0x00123456) by u32_lit.
  destruct (gdt_correct 0x1000 0x00123456 H) as [_ G]. cbn [GlobalDescriptorTable_new] in G.
  apply G.
Defined.

(** ** Gates *)

Definition gate_entry (g : GateDescriptor) : Z := offset_low g + offset_high g * 2 ^ 16.
Definition gate_dpl (g : GateDescriptor) : Z := type_attr g / 32 mod 4.
Definition gate_present (g : GateDescriptor) : bool := Z.testbit (type_attr g) 7.

Lemma gate_offset handler :
  is_u32 handler -> Z.land handler 0xFFFF + Z.land (Z.shiftr handler 16) 0xFFFF * 2 ^ 16 = handler.
Proof.
  intros H. rewrite !low16, Z.shiftr_div_pow2 by lia. zify_words. Z.div_mod_to_equations. lia.
Qed.

Lemma set_loop {A} (l : list A) (body : Z -> A) n :
  length l = n ->
  for_result 0 (Z.of_nat n) (fun i l => arr_set l i (body i)) l = Ok (map body (seqZ 0 (Z.of_nat n))).
Proof.
  intros Hl.
  edestruct (for_result_inv (fun i s => s = map body (seqZ 0 i) ++ drop (Z.to_nat i) l) 0 (Z.of_nat n))
    as (s & -> & ->); [lia | done | |].
  - intros i s Hi ->. rewrite arr_set_in_range.
    2:{ rewrite length_app, length_map, length_seqZ, length_drop. lia. }
    eexists. split; [reflexivity|]. rewrite seqZ_app, map_app, <- app_assoc by lia.
    rewrite insert_app_r_alt by (rewrite length_map, length_seqZ; lia).
    rewrite length_map, length_seqZ, Nat.sub_diag. f_equal.
    destruct (lookup_lt_is_Some_2 l (Z.to_nat i)) as [x Hx]; [lia|].
    rewrite (drop_S l x) by done. replace (Z.to_nat (i + 1)) with (S (Z.to_nat i)) by lia. done.
  - rewrite drop_ge, app_nil_r by lia. done.
Qed.

(** The table as a function from vectors to gates. *)
Definition describes (t : list GateDescriptor) (g : Z -> GateDescriptor) : Prop :=
  length t = 256%nat /\ forall k, 0 <= k < 256 -> t !! Z.to_nat k = Some (g k).

Definition gate (handler sel attr : Z) : GateDescriptor :=
  mkGate (Z.land handler 0xFFFF) sel 0 attr (Z.land (Z.shiftr handler 16) 0xFFFF).

Lemma describes_ext t g g' :
  describes t g -> (forall k, 0 <= k < 256 -> g k = g' k) -> describes t g'.
Proof. intros [Hl Hg] He. split; [done|]. intros k Hk. by rewrite Hg, He. Qed.

Lemma SetGate_describes t g i handler sel attr :
  describes t g -> 0 <= i < 256 ->
  exists t', SetGate t i handler sel attr = Ok t' /\
    describes t' (fun k => if k =? i then gate handler sel attr else g k).
Proof.
  intros [Hl Hg] Hi. unfold SetGate. rewrite u8_small, arr_set_in_range by (zify_words; lia).
  eexists. split; [reflexivity|]. split; [by rewrite length_insert|]. intros k Hk.
  destruct (Z.eqb_spec k i) as [->|Hne].
  - rewrite list_lookup_insert_eq by lia. done.
  - rewrite list_lookup_insert_ne by lia. by apply Hg.
Qed.

Lemma fold_gates (isr : Z -> Z) sel l t g :
  describes t g -> Forall (fun p => 0 <= fst p < 256) l ->
  exists t', fold_result (fun p t => SetGate t (fst p) (isr (fst p)) sel (snd p)) l t = Ok t' /\
    describes t' (fun k => match list_find (fun p => fst p = k) (reverse l) with
                           | Some (_, p) => gate (isr k) sel (snd p)
                           | None => g k
                           end).
Proof.
  revert t g. induction l as [|[v a] l IH]; intros t g Ht Hl; cbn [fold_result].
  - exists t. split; [done|]. done.
  - apply Forall_cons in Hl as [Hv Hl]. cbn [fst snd] in *.
    destruct (SetGate_describes t g v (isr v) sel a Ht Hv) as (t1 & -> & H1). cbn [mbind result_bind].
    destruct (IH t1 _ H1 Hl) as (t2 & -> & H2). exists t2. split; [done|].
    eapply describes_ext; [exact H2|]. intros k Hk. cbn beta. rewrite reverse_cons.
    destruct (list_find _ (reverse l)) as [[j p]|] eqn:E.
    + by rewrite (list_find_app_l _ _ _ _ _ E).
    + rewrite list_find_app_r by done. cbn. destruct (Z.eqb_spec k v) as [->|].
      * rewrite decide_True by done. done.
      * rewrite decide_False by (cbn; lia). done.
Qed.

(** The three parts of the constructor. *)
Lemma idt_ignore ignore t0 :
  length t0 = 256%nat ->
  exists t, for_result 0 256 (fun i t => SetGate t i ignore CodeSegmentSelector 0x8E) t0 = Ok t /\
    describes t (fun _ => gate ignore CodeSegmentSelector 0x8E).
Proof.
  intros Hl.
  edestruct (for_result_inv (fun i t => length t = 256%nat /\ forall k, 0 <= k < i ->
               t !! Z.to_nat k = Some (gate ignore CodeSegmentSelector 0x8E)) 0 256) as (t & E & H1l & H1).
  - lia.
  - split; [exact Hl | lia].
  - intros i t Hi [Htl Ht].
    assert (E : SetGate t i ignore CodeSegmentSelector 0x8E =
                Ok (<[Z.to_nat i := gate ignore CodeSegmentSelector 0x8E]> t)).
    { unfold SetGate. rewrite u8_small, arr_set_in_range by (zify_words; lia). done. }
    eexists. split; [exact E|]. split; [by rewrite length_insert|]. intros k Hk.
    destruct (decide (k = i)) as [->|]; [by rewrite list_lookup_insert_eq by lia|].
    rewrite list_lookup_insert_ne by lia. apply Ht. lia.
  - exists t. split; [exact E|]. split; [done|]. intros k Hk. apply H1. lia.
Qed.

Definition hardware_gates (isr : Z -> Z) (ignore n k : Z) : GateDescriptor :=
  if (32 <=? k) && (k <? 32 + n) then gate (isr k) CodeSegmentSelector 0x8E
  else gate ignore CodeSegmentSelector 0x8E.

Lemma idt_hardware isr ignore t0 :
  describes t0 (fun _ => gate ignore CodeSegmentSelector 0x8E) ->
  exists t, for_result 0 16 (fun i t => SetGate t (0x20 + i) (isr (32 + i)) CodeSegmentSelector 0x8E) t0 = Ok t /\
    describes t (hardware_gates isr ignore 16).
Proof.
  intros H0.
  apply (for_result_inv (fun i t => describes t (hardware_gates isr ignore i)) 0 16); [lia | |].
  - eapply describes_ext; [exact H0|]. intros k Hk. unfold hardware_gates.
    destruct (Z.leb_spec 32 k), (Z.ltb_spec k (32 + 0)); (done || lia).
  - intros i t Hi Ht.
    destruct (SetGate_describes t _ (0x20 + i) (isr (32 + i)) CodeSegmentSelector 0x8E Ht ltac:(lia))
      as (t' & E & Ht'). exists t'. split; [exact E|]. eapply describes_ext; [exact Ht'|].
    intros k Hk. cbn beta. unfold hardware_gates. destruct (Z.eqb_spec k (32 + i)) as [Ek|Ek].
    + rewrite (proj2 (Z.leb_le 32 k)), (proj2 (Z.ltb_lt k (32 + (i + 1)))) by lia. by rewrite Ek.
    + by replace (k <? 32 + (i + 1)) with (k <? 32 + i)
        by (destruct (Z.ltb_spec k (32 + i)), (Z.ltb_spec k (32 + (i + 1))); (done || lia)).
Qed.

Definition exceptions : list Z := [8; 10; 11; 12; 13; 14; 128].

Definition final_gates (isr : Z -> Z) (ignore v : Z) : GateDescriptor :=
  match list_find (fun p => fst p = v) (reverse exception_gates) with
  | Some (_, p) => gate (isr v) CodeSegmentSelector (snd p)
  | None => hardware_gates isr ignore 16 v
  end.

Lemma final_gates_decode isr ignore v :
  (forall v, is_u32 (isr v)) -> is_u32 ignore -> 0 <= v < 256 ->
  let g := final_gates isr ignore v in
  gate_entry g = (if ((32 <=? v) && (v <? 48)) || bool_decide (v ∈ exceptions) then isr v else ignore) /\
  selector g = CodeSegmentSelector /\ gate_present g = true /\ gate_dpl g = (if v =? 128 then 3 else 0).
Proof.
  intros Hisr Hign Hv. cbv zeta. unfold final_gates.
  destruct (decide (v ∈ exceptions)) as [Hin|Hout].
  - rewrite bool_decide_true, orb_true_r by done. unfold exceptions in Hin. rewrite !elem_of_cons, elem_of_nil in Hin.
    destruct Hin as [->|[->|[->|[->|[->|[->|[->|[]]]]]]]]; cbn;
      (split; [by apply gate_offset | done]).
  - rewrite bool_decide_false, orb_false_r by done.
    assert (E : list_find (fun p => fst p = v) (reverse exception_gates) = None).
    { apply list_find_None, Forall_forall. intros p Hp Hpv. rewrite elem_of_reverse in Hp. apply Hout.
      unfold exception_gates in Hp. rewrite !elem_of_cons, elem_of_nil in Hp. subst v. unfold exceptions.
      destruct Hp as [->|[->|[->|[->|[->|[->|[->|[]]]]]]]]; set_solver. }
    rewrite E. assert (v <> 128) by (intros ->; apply Hout; unfold exceptions; set_solver).
    rewrite (proj2 (Z.eqb_neq v 128)) by done. unfold hardware_gates. change (32 + 16) with 48.
    destruct ((32 <=? v) && (v <? 48)); (split; [by apply gate_offset | done]).
Qed.

(** The constructor; the effects on ports reach the interrupt controllers only. *)
Definition pic_port (p : Z) : Prop := p ∈ [PIC_MASTER_COMMAND; PIC_MASTER_DATA; PIC_SLAVE_COMMAND; PIC_SLAVE_DATA; 0x80].

Lemma InterruptManager_new_acts {H : Type} (isr : Z -> Z) ignore addr idt0 (handlers0 : list (option H)) :
  (forall v, is_u32 (isr v)) -> is_u32 ignore -> length idt0 = 256%nat -> length handlers0 = 256%nat ->
  exists m effects, InterruptManager_new isr ignore 0x20 addr idt0 handlers0 = Ok (m, effects) /\
    handlers m = replicate 256 None /\ hardware_interrupt_offset m = 0x20 /\
    Forall (fun e => match e with OutB p _ => pic_port p | _ => True end) effects /\
    OutB PIC_MASTER_DATA 32 ∈ effects /\ OutB PIC_SLAVE_DATA 40 ∈ effects /\ Lidt 2047 addr ∈ effects /\
    forall v, 0 <= v < 256 -> exists g, idt m !! Z.to_nat v = Some g /\
      gate_entry g = (if ((32 <=? v) && (v <? 48)) || bool_decide (v ∈ exceptions)
                      then isr v else ignore) /\
      selector g = CodeSegmentSelector /\ gate_present g = true /\
      gate_dpl g = (if v =? 128 then 3 else 0).
Proof.
  intros Hisr Hign Hidt Hh. unfold InterruptManager_new.
  assert (E0 : for_result 0 256 (fun i hs => arr_set hs i None) handlers0 = Ok (replicate 256 (@None H)))
    by exact (set_loop handlers0 (fun _ => None) 256 Hh).
  destruct (idt_ignore ignore idt0 Hidt) as (t1 & E1 & H1).
  destruct (idt_hardware isr ignore t1 H1) as (t2 & E2 & H2).
  destruct (fold_gates isr CodeSegmentSelector exception_gates t2 _ H2) as (t3 & E3 & _ & H3).
  { repeat constructor; cbn; lia. }
  rewrite E0. cbn [mbind result_bind]. cbv zeta. rewrite E1. cbn [mbind result_bind]. rewrite E2.
  cbn [mbind result_bind]. rewrite E3. cbn [mbind result_bind].
  eexists _, _. split; [reflexivity|]. cbn [handlers idt].
  split; [done|]. split; [done|]. split; [repeat (apply Forall_cons; split; [first [exact I | by apply (bool_decide_unpack (_ ∈ _))]|]); by apply Forall_nil|].
  split; [set_solver|]. split; [set_solver|]. split; [set_solver|].
  intros v Hv. exists (final_gates isr ignore v). split; [by rewrite H3|]. by apply final_gates_decode.
Qed.

(** C30: The interrupt table.  With the vector offset the kernel passes, the constructor
    writes inside the table only and every vector leads to its stub: the 16 hardware
    vectors, the six exceptions with an error code and the system call to theirs, all
    others to the stub that ignores them; every gate is present and uses the kernel code
    segment, user programs can raise vector 128 and no other, no handler is registered
    and the interrupt controllers are told to deliver to vectors 32 and 40 on. *)
Theorem idt_correct {H : Type} (isr : Z -> Z) ignore addr idt0 (handlers0 : list (option H)) :
  (forall v, is_u32 (isr v)) -> is_u32 ignore -> length idt0 = 256%nat -> length handlers0 = 256%nat ->
  exists m effects, InterruptManager_new isr ignore 0x20 addr idt0 handlers0 = Ok (m, effects) /\
    handlers m = replicate 256 None /\
    OutB PIC_MASTER_DATA 32 ∈ effects /\ OutB PIC_SLAVE_DATA 40 ∈ effects /\ Lidt 2047 addr ∈ effects /\
    forall v, 0 <= v < 256 -> exists g, idt m !! Z.to_nat v = Some g /\
      gate_entry g = (if ((32 <=? v) && (v <? 48)) || bool_decide (v ∈ exceptions)
                      then isr v else ignore) /\
      selector g = CodeSegmentSelector /\ gate_present g = true /\
      gate_dpl g = (if v =? 128 then 3 else 0).
Proof.
  intros. destruct (InterruptManager_new_acts isr ignore addr idt0 handlers0) as (m & es & E & Hh & _ & _ & Hrest); [done..|].
  by exists m, es.
Qed.

Lemma idt_correct_witness :
  exists m effects,
    InterruptManager_new (H := unit) (fun v => 0x100000 + u8 v) 0x200000 0x20 0x5000
      (replicate 256 (mkGate 0 0 0 0 0)) (replicate 256 (Some tt)) = Ok (m, effects) /\
    handlers m = replicate 256 None /\
    forall v, 0 <= v < 256 -> exists g, idt m !! Z.to_nat v = Some g /\
      gate_entry g = (if ((32 <=? v) && (v <? 48)) || bool_decide (v ∈ exceptions)
                      then 0x100000 + u8 v else 0x200000).
Proof.
  destruct (idt_correct (H := unit) (fun v => 0x100000 + u8 v) 0x200000 0x5000
              (replicate 256 (mkGate 0 0 0 0 0)) (replicate 256 (Some tt))) as (m & eff & E & Hh & _ & _ & _ & Hg).
  - intros v. pose proof (u8_bounds v). zify_words. lia.
  - u32_lit.
  - reflexivity.
  - reflexivity.
  - exists m, eff. split; [exact E|]. split; [exact Hh|]. intros v Hv.
    destruct (Hg v Hv) as (g & E1 & E2 & _). exists g. split; [exact E1 | exact E2].
Defined.

(** ** Dispatch *)

(** C29: The dispatch of interrupts.  On an active manager with its 256 handler slots, a
    vector other than a page fault runs the handler registered for it, if any, exactly
    once; vector 128 then runs the system call on the stack pointer the handler left and
    is not acknowledged; a hardware vector is acknowledged at the master controller after
    the handler, and at the slave first when it is one of its eight; other vectors are
    not acknowledged.  Vector 14, the page fault, runs the page fault report instead and no
    registered handler.  Registering a handler makes that vector, and no other, run it;
    deleting it empties its slot and leaves every other slot as it is, and changes nothing
    when another handler, or none, is registered there. *)
Theorem interrupt_dispatch {H S : Type} `{EqDecision H} (call : H -> Z -> S -> Z * S) sys pf
    (m : InterruptManager H) cr2 v esp (s : S) h :
  length (handlers m) = 256%nat -> hardware_interrupt_offset m = 0x20 -> 0 <= v < 256 ->
  handlers m !! Z.to_nat v = Some h ->
  let after := match h with Some o => call o esp s | None => (esp, s) end in
  HandleInterrupt call sys pf true m cr2 v esp s =
    (if v =? 14 then Ok (esp, pf cr2 s, [])
     else if v =? 128 then Ok (sys (fst after) (snd after), [])
     else Ok (after, if (32 <=? v) && (v <? 40) then slow_write PIC_MASTER_COMMAND 0x20
                     else if (40 <=? v) && (v <? 48)
                     then slow_write PIC_SLAVE_COMMAND 0x20 ++ slow_write PIC_MASTER_COMMAND 0x20
                     else [])) /\
  (forall o, exists m', InterruptHandler_new m o v = Ok m' /\
     (forall w, 0 <= w < 256 -> handlers m' !! Z.to_nat w = if w =? v then Some (Some o) else handlers m !! Z.to_nat w) /\
     exists m'', InterruptHandler_delete m' o v = Ok m'' /\ idt m'' = idt m /\
       (forall w, 0 <= w < 256 -> handlers m'' !! Z.to_nat w = if w =? v then Some None else handlers m !! Z.to_nat w)) /\
  (forall o, h <> Some o -> InterruptHandler_delete m o v = Ok m).
Proof.
  intros Hl Hhw Hv Hh. cbv zeta. split; [|split].
  - unfold HandleInterrupt, DoHandleInterrupt. destruct (v =? 14); [done|].
    rewrite (proj2 (arr_get_Ok (handlers m) v h)) by (split; [lia | done]). cbn [mbind result_bind].
    destruct (match h with Some o => call o esp s | None => (esp, s) end) as [esp' s']. cbn [fst snd].
    destruct (v =? 128); [by destruct (sys esp' s')|]. rewrite Hhw, !Z.geb_leb.
    destruct (Z.leb_spec 32 v), (Z.ltb_spec v (32 + 16)), (Z.leb_spec (32 + 8) v), (Z.ltb_spec v 40),
      (Z.leb_spec 40 v), (Z.ltb_spec v 48); (done || lia).
  - intros o. unfold InterruptHandler_new. rewrite arr_set_in_range by lia. cbn [mbind result_bind].
    eexists. split; [reflexivity|]. cbn [handlers]. split.
    + intros w Hw. destruct (Z.eqb_spec w v) as [->|].
      * rewrite list_lookup_insert_eq by lia. done.
      * rewrite list_lookup_insert_ne by lia. done.
    + unfold InterruptHandler_delete. cbn [handlers].
      rewrite (proj2 (arr_get_Ok _ v (Some o))).
      2:{ split; [lia|]. apply list_lookup_insert_eq. lia. }
      cbn [mbind result_bind]. rewrite decide_True by done.
      rewrite arr_set_in_range by (rewrite length_insert; lia). cbn [mbind result_bind].
      eexists. split; [reflexivity|]. cbn [handlers idt]. split; [done|]. rewrite list_insert_insert_eq.
      intros w Hw. destruct (Z.eqb_spec w v) as [->|].
      * rewrite list_lookup_insert_eq by lia. done.
      * rewrite list_lookup_insert_ne by lia. done.
  - intros o Hne. unfold InterruptHandler_delete.
    rewrite (proj2 (arr_get_Ok (handlers m) v h)) by (split; [lia | done]). cbn [mbind result_bind].
    by rewrite decide_False.
Qed.

Lemma interrupt_dispatch_witness :
  HandleInterrupt (fun (o : Z) esp (s : Z) => (esp + 4, s + o)) (fun esp s => (esp, s)) (fun _ s => s) true
    (mkIM [] (replicate 256 (Some 5)) 0x20) 0 44 1000 7 =
  Ok ((1004, 12), slow_write PIC_SLAVE_COMMAND 0x20 ++ slow_write PIC_MASTER_COMMAND 0x20).
Proof.
  apply (interrupt_dispatch (fun (o : Z) esp (s : Z) => (esp + 4, s + o)) (fun esp s => (esp, s)) (fun _ s => s)
           (mkIM [] (replicate 256 (Some 5)) 0x20) 0 44 1000 7 (Some 5)).
  - reflexivity.
  - reflexivity.
  - lia.
  - reflexivity.
Defined.

End Cpu.
