(* ===== verification/Console.v ===== *)
(** Character consoles: the contract that the text screen (src/src/ui/vga.cpp) and the
    terminal window (src/src/ui/terminal.cpp) both keep.

    The specification is an endless sheet of paper: characters are struck at the pen,
    and when the pen runs off the sheet one blank row is added.  A console shows the
    last [H] rows.  [Console] is the interface; what is proved here about printing
    holds for every implementation of it. *)

From stdpp Require Import base numbers list.
From Stdlib Require Import ZArith Lia.
From S2P Require Import Prelude.

Module Console.

(** ** The sheet *)

Inductive key (A : Type) :=
  | Glyph (x : A)
  | Newline
  | Tab
  | Backspace.
Arguments Glyph {A} _.
Arguments Newline {A}.
Arguments Tab {A}.
Arguments Backspace {A}.

Record paper (A : Type) := mkPaper { sheet : list A; pen : Z }.
Arguments mkPaper {A} _ _.
Arguments sheet {A} _.
Arguments pen {A} _.

Section paper.
Context {A : Type} (W H : Z).
Implicit Types (p : paper A) (b x : A) (k : key A).

Definition bottom p : Z := Z.of_nat (length (sheet p)).

(** The first cell that is still shown. *)
Definition top p : Z := bottom p - W * H.

Definition feed b p : paper A :=
  if pen p <? bottom p then p
  else mkPaper (sheet p ++ replicate (Z.to_nat W) b) (bottom p).

Definition strike b k p : paper A :=
  match k with
  | Glyph x => feed b (mkPaper (<[Z.to_nat (pen p) := x]> (sheet p)) (pen p + 1))
  | Newline => feed b (mkPaper (sheet p) ((pen p / W + 1) * W))
  | Tab => feed b (mkPaper (sheet p) (pen p + 4))
  | Backspace =>
      let q := if top p <? pen p then pen p - 1 else pen p in
      mkPaper (<[Z.to_nat q := b]> (sheet p)) q
  end.

Definition strikes b (ks : list (key A)) p : paper A := foldl (fun p k => strike b k p) p ks.

Record paper_wf p : Prop := {
  pw_rows : exists n, bottom p = n * W;
  pw_high : W * H <= bottom p;
  pw_pen : top p <= pen p < bottom p;
}.

(** What a screen with cells [cs] and its cursor at [c] shows of the sheet. *)
Record shows p (cs : list A) (c : Z) : Prop := {
  sh_wf : paper_wf p;
  sh_cells : cs = drop (Z.to_nat (top p)) (sheet p);
  sh_cursor : c = pen p - top p;
}.
End paper.

(** ** The interface *)

(** A console of type [C] with cells in [A], [W] wide and [H] high. *)
Class Console (A C : Type) (W H : Z) := {
  cells : C -> list A;
  cur : C -> Z;
  blank : C -> A;
  key_of : C -> Z -> key A;
  con_ok : C -> Prop;
  put_char : C -> Z -> result C;
  put_char_law : forall c p ch, is_u8 ch -> con_ok c -> shows W H p (cells c) (cur c) ->
    exists c', put_char c ch = Ok c' /\ con_ok c' /\
      shows W H (strike W H (blank c) (key_of c ch) p) (cells c') (cur c') /\
      blank c' = blank c /\ (forall x, key_of c' x = key_of c x);
}.

Definition put_all `{Console A C W H} (str : list Z) (c : C) : result C :=
  fold_result (fun ch c => put_char c ch) str c.

(** ** Copying rows *)

Section copy.
Context {A : Type}.
Implicit Types (l : list A) (x : A).

(** One step of a loop that moves the cells from [w] on to the front. *)
Lemma copy_down l w i :
  0 <= i -> 0 <= w -> i + w < Z.of_nat (length l) ->
  let b := take (Z.to_nat i) (drop (Z.to_nat w) l) ++ drop (Z.to_nat i) l in
  exists x, arr_get b (i + w) = Ok x /\
    arr_set b i x = Ok (take (Z.to_nat (i + 1)) (drop (Z.to_nat w) l) ++ drop (Z.to_nat (i + 1)) l).
Proof.
  intros Hi Hw Hl b.
  assert (Hbl : length (take (Z.to_nat i) (drop (Z.to_nat w) l)) = Z.to_nat i)
    by (rewrite length_take, length_drop; lia).
  destruct (lookup_lt_is_Some_2 l (Z.to_nat (i + w))) as [x Hx]; [lia|]. exists x. split.
  - apply arr_get_Ok. split; [lia|]. unfold b. rewrite lookup_app_r, Hbl, lookup_drop by lia.
    rewrite <- Hx. f_equal. lia.
  - rewrite arr_set_in_range by (unfold b; rewrite length_app, Hbl, length_drop; lia). f_equal. unfold b.
    rewrite insert_app_r_alt, Hbl, Nat.sub_diag by lia.
    destruct (lookup_lt_is_Some_2 l (Z.to_nat i)) as [y Hy]; [lia|].
    rewrite (drop_S l y (Z.to_nat i) Hy). cbn [insert list_insert].
    replace (Z.to_nat (i + 1)) with (S (Z.to_nat i)) by lia.
    rewrite (take_S_r (drop (Z.to_nat w) l) (Z.to_nat i) x), <- app_assoc; [done|].
    rewrite lookup_drop, <- Hx. f_equal. lia.
Qed.

(** One step of a loop that fills cells with [x] from [lo] on. *)
Lemma fill_step l x lo i :
  0 <= lo <= i -> i < Z.of_nat (length l) ->
  arr_set (take (Z.to_nat lo) l ++ replicate (Z.to_nat (i - lo)) x ++ drop (Z.to_nat i) l) i x =
  Ok (take (Z.to_nat lo) l ++ replicate (Z.to_nat (i + 1 - lo)) x ++ drop (Z.to_nat (i + 1)) l).
Proof.
  intros Hi Hl.
  assert (Ht : length (take (Z.to_nat lo) l) = Z.to_nat lo) by (rewrite length_take; lia).
  rewrite arr_set_in_range by (rewrite !length_app, length_replicate, length_drop, Ht; lia). f_equal.
  rewrite insert_app_r_alt, Ht by lia. f_equal.
  rewrite insert_app_r_alt, length_replicate by (rewrite length_replicate; lia).
  replace (Z.to_nat i - Z.to_nat lo - Z.to_nat (i - lo))%nat with 0%nat by lia.
  destruct (lookup_lt_is_Some_2 l (Z.to_nat i)) as [y Hy]; [lia|].
  rewrite (drop_S l y (Z.to_nat i) Hy). cbn [insert list_insert].
  replace (Z.to_nat (i + 1)) with (S (Z.to_nat i)) by lia.
  replace (Z.to_nat (i + 1 - lo)) with (Z.to_nat (i - lo) + 1)%nat by lia.
  rewrite replicate_add, <- app_assoc. done.
Qed.

Lemma fill_loop l x lo hi :
  0 <= lo <= hi -> hi <= Z.of_nat (length l) ->
  for_result lo hi (fun i b => arr_set b i x) l =
  Ok (take (Z.to_nat lo) l ++ replicate (Z.to_nat (hi - lo)) x ++ drop (Z.to_nat hi) l).
Proof.
  intros Hl Hh.
  edestruct (for_result_inv (fun i b => b = take (Z.to_nat lo) l ++ replicate (Z.to_nat (i - lo)) x ++
               drop (Z.to_nat i) l) lo hi) as (b & E & ->); [lia | | | exact E].
  - rewrite Z.sub_diag. change (replicate (Z.to_nat 0) x) with (@nil A). rewrite app_nil_l. by rewrite take_drop.
  - intros i b Hi ->. eexists. split; [apply fill_step; lia | done].
Qed.
End copy.

(** ** Facts about the sheet *)

Section paper_proofs.
Context {A : Type} (W H : Z) (HW : 4 <= W) (HH : 1 <= H).
Implicit Types (p : paper A) (b x : A).

Lemma bottom_put p i x q : bottom (mkPaper (<[i := x]> (sheet p)) q) = bottom p.
Proof using. unfold bottom. cbn. by rewrite length_insert. Qed.

(** The two ways in which a screen follows the sheet when the pen moves forward: the
    cursor stays on the screen, or everything moves up by one row. *)
Lemma feed_shows b p cs c :
  (exists n, bottom p = n * W) -> W * H <= bottom p -> top W H p <= pen p -> pen p <= bottom p + W ->
  cs = drop (Z.to_nat (top W H p)) (sheet p) -> c = pen p - top W H p ->
  if c <? W * H then shows W H (feed W b p) cs c
  else shows W H (feed W b p) (drop (Z.to_nat W) cs ++ replicate (Z.to_nat W) b) (W * (H - 1)).
Proof using HW HH.
  intros [n Hn] Hhigh Hpen Hpen' -> ->. unfold feed.
  replace (pen p - top W H p <? W * H) with (pen p <? bottom p)
    by (unfold top; destruct (Z.ltb_spec (pen p) (bottom p)), (Z.ltb_spec (pen p - (bottom p - W * H)) (W * H)); (done || lia)).
  destruct (Z.ltb_spec (pen p) (bottom p)) as [Hlt|Hge].
  - split; [|done|done]. split; [by exists n | done | lia].
  - set (p' := mkPaper _ _).
    assert (Hb : bottom p' = bottom p + W).
    { unfold bottom, p'. cbn. rewrite length_app, length_replicate. lia. }
    assert (Ht : top W H p' = top W H p + W) by (unfold top; lia).
    assert (0 <= top W H p) by (unfold top; lia).
    split.
    + split; [exists (n + 1); lia | lia |]. unfold top. rewrite Hb. cbn [p' pen]. nia.
    + rewrite Ht. cbn [p' sheet]. rewrite drop_drop.
      replace (Z.to_nat (top W H p + W)) with (Z.to_nat (top W H p) + Z.to_nat W)%nat by lia.
      rewrite drop_app_le; [done|]. unfold top, bottom in *. nia.
    + rewrite Ht. cbn [p' pen]. unfold top. lia.
Qed.

Lemma shows_length p cs c : shows W H p cs c -> Z.of_nat (length cs) = W * H.
Proof using HW HH.
  intros [[_ Hh _] -> _]. rewrite length_drop. unfold top, bottom in *. lia.
Qed.

Lemma shows_cursor p cs c : shows W H p cs c -> 0 <= c < W * H.
Proof using HW HH. intros [[_ _ Hp] _ ->]. unfold top in *. lia. Qed.

(** A cell of the screen is a cell of the sheet. *)
Lemma shows_insert p cs c i x :
  shows W H p cs c -> 0 <= i < W * H ->
  <[Z.to_nat i := x]> cs = drop (Z.to_nat (top W H p)) (<[Z.to_nat (top W H p + i) := x]> (sheet p)).
Proof using HW HH.
  intros [[_ Hh _] -> _] Hi. assert (0 <= top W H p) by (unfold top; lia).
  replace (Z.to_nat (top W H p + i)) with (Z.to_nat (top W H p) + Z.to_nat i)%nat by lia.
  apply list_eq. intros j. rewrite lookup_drop. destruct (decide (j = Z.to_nat i)) as [->|Hne].
  - destruct (decide (Z.to_nat i < length (drop (Z.to_nat (top W H p)) (sheet p)))%nat) as [Hl|Hl].
    + rewrite list_lookup_insert_eq, list_lookup_insert_eq; [done | | done].
      rewrite length_drop in Hl. lia.
    + rewrite length_drop in Hl. unfold top, bottom in *. lia.
  - by rewrite !list_lookup_insert_ne, lookup_drop by lia.
Qed.

(** *** Striking glyphs *)

Lemma strike_glyph b x p :
  paper_wf W H p ->
  let p' := strike W H b (Glyph x) p in
  paper_wf W H p' /\ pen p' = pen p + 1 /\ bottom p <= bottom p' /\
  (bottom p' = bottom p \/ bottom p' <= pen p' + W) /\
  sheet p' !! Z.to_nat (pen p) = Some x /\
  (forall i, 0 <= i < bottom p -> i <> pen p -> sheet p' !! Z.to_nat i = sheet p !! Z.to_nat i).
Proof using HW HH.
  intros [[n Hn] Hh Hp]. assert (0 <= top W H p) by (unfold top; lia). cbn [strike]. unfold feed.
  rewrite bottom_put. cbn [pen]. assert (Hlen : (Z.to_nat (pen p) < length (sheet p))%nat)
    by (unfold bottom in *; lia).
  destruct (Z.ltb_spec (pen p + 1) (bottom p)) as [Hlt|Hge].
  - split.
    + split; [by exists n; rewrite bottom_put | by rewrite bottom_put |].
      unfold top. rewrite bottom_put. cbn. unfold top in Hp. lia.
    + cbn [pen sheet]. rewrite bottom_put. split; [done|]. split; [lia|]. split; [by left|].
      split; [by apply list_lookup_insert_eq|]. intros i Hi Hne. apply list_lookup_insert_ne. lia.
  - set (p' := mkPaper _ (bottom p)).
    assert (Hb : bottom p' = bottom p + W).
    { unfold bottom, p'. cbn. rewrite length_app, length_replicate, length_insert. lia. }
    split.
    + split; [exists (n + 1); lia | lia |]. unfold top. rewrite Hb. cbn [p' pen]. nia.
    + cbn [p' pen sheet]. fold p'. rewrite Hb. split; [lia|]. split; [lia|]. split; [right; lia|].
      split.
      * rewrite lookup_app_l by (by rewrite length_insert). by apply list_lookup_insert_eq.
      * intros i Hi Hne. rewrite lookup_app_l by (rewrite length_insert; unfold bottom in Hi; lia).
        apply list_lookup_insert_ne. lia.
Qed.

Lemma strikes_glyphs b xs p :
  paper_wf W H p ->
  let p' := strikes W H b (Glyph <$> xs) p in
  paper_wf W H p' /\ pen p' = pen p + Z.of_nat (length xs) /\ bottom p <= bottom p' /\
  (bottom p' = bottom p \/ bottom p' <= pen p' + W) /\
  (forall i x, xs !! i = Some x -> sheet p' !! Z.to_nat (pen p + Z.of_nat i) = Some x) /\
  (forall i, 0 <= i < pen p -> sheet p' !! Z.to_nat i = sheet p !! Z.to_nat i).
Proof using HW HH.
  revert p. induction xs as [|x xs IH] using rev_ind; intros p Hp; cbv zeta.
  - cbn [fmap list_fmap strikes foldl length]. split; [done|]. split; [lia|]. split; [lia|]. split; [by left|]. done.
  - destruct (IH p Hp) as (Hw & Hpen & Hb & Hor & Hx & Hold). clear IH.
    set (p1 := strikes W H b (Glyph <$> xs) p) in *.
    assert (E : strikes W H b (Glyph <$> (xs ++ [x])) p = strike W H b (Glyph x) p1).
    { unfold p1, strikes. rewrite fmap_app, foldl_app. done. }
    rewrite E. destruct (strike_glyph b x p1 Hw) as (Hw2 & Hpen2 & Hb2 & Hor2 & Hx2 & Hold2).
    set (p2 := strike W H b (Glyph x) p1) in *.
    assert (0 <= pen p < bottom p) by (destruct Hp as [_ Hh Hq]; unfold top in *; lia).
    assert (0 <= pen p1 < bottom p1) by (destruct Hw as [_ Hh Hq]; unfold top in *; lia).
    rewrite length_app. cbn [length].
    split; [done|]. split; [lia|]. split; [lia|]. split; [destruct Hor, Hor2; lia|]. split.
    + intros i y Hy. apply lookup_app_Some in Hy as [Hy|[Hi Hy]].
      * pose proof (lookup_lt_Some _ _ _ Hy). rewrite Hold2 by lia. by apply Hx.
      * destruct (i - length xs)%nat as [|k] eqn:Ek; [|by destruct k]. injection Hy as ->.
        rewrite <- Hx2. f_equal. lia.
    + intros i Hi. rewrite Hold2 by lia. by apply Hold.
Qed.
End paper_proofs.

(** ** Printing on any console *)

Section clients.
Context {A C : Type} {W H : Z} `{!Console A C W H}.
Implicit Types (c : C) (str : list Z).

(** Characters that [c] shows as themselves. *)
Definition printable c (ch : Z) : Prop := exists x, key_of c ch = Glyph x.

Lemma put_all_shows c p str :
  Forall is_u8 str -> con_ok c -> shows W H p (cells c) (cur c) ->
  exists c', put_all str c = Ok c' /\ con_ok c' /\
    shows W H (strikes W H (blank c) (key_of c <$> str) p) (cells c') (cur c') /\
    blank c' = blank c /\ (forall x, key_of c' x = key_of c x).
Proof.
  intros Hs. revert c p. induction Hs as [|ch str Hch Hs IH]; intros c p Hok Hc.
  - by exists c.
  - destruct (put_char_law c p ch Hch Hok Hc) as (c1 & E1 & Hok1 & H1 & Hb1 & Hk1).
    destruct (IH c1 _ Hok1 H1) as (c2 & E2 & Hok2 & H2 & Hb2 & Hk2). exists c2.
    unfold put_all in *. cbn [fold_result]. rewrite E1. cbn [mbind result_bind].
    split; [exact E2|]. split; [exact Hok2|]. split; [|split; [congruence | intros x; by rewrite Hk2, Hk1]].
    rewrite Hb1 in H2. cbn [fmap list_fmap strikes foldl].
    rewrite (list_fmap_ext (key_of c1) (key_of c)) in H2; [exact H2 | by intros ? x _].
Qed.

(** The characters of a printed text stand on the screen just before the cursor, in
    order, when they fit in all but one row. *)
Lemma put_all_visible c p str gs :
  4 <= W -> 1 <= H -> Forall is_u8 str -> key_of c <$> str = Glyph <$> gs ->
  Z.of_nat (length str) <= W * (H - 1) -> con_ok c -> shows W H p (cells c) (cur c) ->
  exists c', put_all str c = Ok c' /\ Z.of_nat (length str) <= cur c' < W * H /\
    forall i g, gs !! i = Some g ->
      cells c' !! Z.to_nat (cur c' - Z.of_nat (length str) + Z.of_nat i) = Some g.
Proof.
  intros HW HH Hs Hg Hfit Hok Hc.
  destruct (put_all_shows c p str Hs Hok Hc) as (c' & E & _ & H' & _). exists c'. split; [done|].
  rewrite Hg in H'.
  destruct (strikes_glyphs W H HW HH (blank c) gs p) as (Hw & Hpen & Hb & Hor & Hx & _); [apply Hc|].
  assert (Hlen : length str = length gs) by (by rewrite <- (length_fmap (key_of c)), Hg, length_fmap).
  pose proof (shows_cursor W H HW HH _ _ _ H') as Hcur.
  destruct H' as [_ Hcs Hc']. set (p' := strikes W H (blank c) (Glyph <$> gs) p) in *.
  assert (Hvis : top W H p' <= pen p).
  { destruct Hc as [[_ Hh Hq] _ _]. unfold top in *. destruct Hor; nia. }
  assert (0 <= top W H p') by (destruct Hw as [_ Hh _]; unfold top; lia).
  split; [lia|]. intros i g Hi. rewrite Hcs, lookup_drop, <- (Hx i g Hi).
  f_equal. lia.
Qed.
End clients.

End Console.
