(* ===== verification/Vga.v ===== *)
(** The text screen: src/src/ui/vga.{h,cpp}, the text half.

    80 by 25 cells at 0xB8000, each a character with its colours, and a cursor.  The
    screen is shown to be a [Console]; the hexadecimal printers are proved against
    the number they print. *)

From stdpp Require Import base numbers list.
From Stdlib Require Import ZArith Lia.
From S2P Require Import Prelude Console.

Module Vga.
Import Console.

(** ** The code *)

Record vga := mkVga {
  buffer : list Z;
  cursor : Z;
  color : Z;
  graphics_mode : bool;
}.

Definition set_buffer (v : vga) b := mkVga b (cursor v) (color v) (graphics_mode v).
Definition set_pos (v : vga) c := mkVga (buffer v) c (color v) (graphics_mode v).

(** [(color << 8) | c] in a 16-bit cell. *)
Definition cell (v : vga) (c : Z) : Z := u16 (Z.lor (Z.shiftl (color v) 8) (u8 c)).

Definition space : Z := 32.

Definition Clear (v : vga) : result vga :=
  b ← for_result 0 (80 * 25) (fun i b => arr_set b i (cell v space)) (buffer v);
  Ok (set_pos (set_buffer v b) 0).

Definition scroll (v : vga) : result vga :=
  b ← for_result 0 (80 * 24) (fun i b => x ← arr_get b (i + 80); arr_set b i x) (buffer v);
  b ← for_result (80 * 24) (80 * 25) (fun i b => arr_set b i (cell v space)) b;
  Ok (set_pos (set_buffer v b) (80 * 24)).

Definition PutChar (v : vga) (c : Z) : result vga :=
  v ← (if c =? 8 then
         let cur := if cursor v >? 0 then u16 (cursor v - 1) else cursor v in
         b ← arr_set (buffer v) cur (cell v space); Ok (set_pos (set_buffer v b) cur)
       else if c =? 10 then Ok (set_pos v (u16 ((cursor v / 80 + 1) * 80)))
       else if c =? 9 then Ok (set_pos v (u16 (cursor v + 4)))
       else b ← arr_set (buffer v) (cursor v) (cell v c);
            Ok (set_pos (set_buffer v b) (u16 (cursor v + 1))));
  if cursor v >=? 80 * 25 then scroll v else Ok v.

(** A string without its terminator is read past its end. *)
Fixpoint Print (v : vga) (str : list Z) : result vga :=
  match str with
  | [] => Err OutOfBounds
  | c :: str => if c =? 0 then Ok v else v ← PutChar v c; Print v str
  end.

(** "0123456789ABCDEF" *)
Definition hex : list Z := [48; 49; 50; 51; 52; 53; 54; 55; 56; 57; 65; 66; 67; 68; 69; 70].

Definition PrintHex (v : vga) (val : Z) : result vga :=
  h ← arr_get hex (Z.shiftr val 4);
  v ← PutChar v h;
  l ← arr_get hex (Z.land val 0xF);
  PutChar v l.

Definition PrintHex16 (v : vga) (val : Z) : result vga :=
  v ← PrintHex v (u8 (Z.shiftr val 8));
  PrintHex v (u8 (Z.land val 0xFF)).

Definition PrintHex32 (v : vga) (val : Z) : result vga :=
  v ← PrintHex16 v (u16 (Z.shiftr val 16));
  PrintHex16 v (u16 (Z.land val 0xFFFF)).

Definition SetColor (v : vga) (fg bg : Z) : vga :=
  mkVga (buffer v) (cursor v) (u8 (Z.lor (Z.shiftl bg 4) (Z.land fg 0x0F))) (graphics_mode v).

Definition SetCursor (v : vga) (pos : Z) : vga := set_pos v pos.
Definition GetCursor (v : vga) : Z := cursor v.
Definition IsGraphicsMode (v : vga) : bool := graphics_mode v.

(** ** The screen is a console *)

Definition key_for (v : vga) (c : Z) : key Z :=
  if c =? 8 then Backspace else if c =? 10 then Newline else if c =? 9 then Tab
  else Glyph (cell v c).

Lemma scroll_ok v :
  length (buffer v) = 2000%nat ->
  scroll v = Ok (set_pos (set_buffer v (drop 80 (buffer v) ++ replicate 80 (cell v space))) 1920).
Proof.
  intros Hl. unfold scroll.
  edestruct (for_result_inv (fun i b => b = take (Z.to_nat i) (drop (Z.to_nat 80) (buffer v)) ++
               drop (Z.to_nat i) (buffer v)) 0 (80 * 24)
             (fun i b => x ← arr_get b (i + 80); arr_set b i x) (buffer v)) as (b & -> & ->).
  - lia.
  - done.
  - intros i b Hi ->. destruct (copy_down (buffer v) 80 i) as (x & -> & E); [lia.. |].
    cbn [mbind result_bind]. eexists. split; [exact E | done].
  - cbn [mbind result_bind]. change (80 * 24) with 1920. change (80 * 25) with 2000.
    set (r := drop 80 (buffer v)). change (drop (Z.to_nat 80) (buffer v)) with r.
    assert (Hr : length r = 1920%nat) by (unfold r; rewrite length_drop; lia).
    rewrite (take_ge r) by lia.
    rewrite fill_loop.
    2: lia.
    2:{ rewrite length_app, Hr, length_drop, Hl. lia. }
    cbn [mbind result_bind]. do 3 f_equal.
    rewrite take_app_length' by lia.
    rewrite (drop_ge (r ++ _)) by (rewrite length_app, Hr, length_drop; lia).
    by rewrite app_nil_r.
Qed.

Lemma advance_ok v b p x :
  (exists n, bottom p = n * 80) -> 80 * 25 <= bottom p -> top 80 25 p <= pen p <= bottom p + 80 ->
  buffer v = drop (Z.to_nat (top 80 25 p)) (sheet p) -> cursor v = pen p - top 80 25 p ->
  b = cell v space -> color v = x ->
  exists v', (if cursor v >=? 80 * 25 then scroll v else Ok v) = Ok v' /\
    shows 80 25 (feed 80 b p) (buffer v') (cursor v') /\ color v' = x.
Proof.
  intros Hn Hh Hp Hb Hc -> <-.
  pose proof (feed_shows 80 25 ltac:(lia) ltac:(lia) (cell v space) p _ _ Hn Hh (proj1 Hp) (proj2 Hp) Hb Hc) as F.
  rewrite Z.geb_leb. change (80 * 25) with 2000 in *.
  destruct (Z.ltb_spec (cursor v) 2000).
  - rewrite (proj2 (Z.leb_gt 2000 (cursor v))) by done. by exists v.
  - rewrite (proj2 (Z.leb_le 2000 (cursor v))) by done. rewrite scroll_ok.
    2:{ rewrite Hb, length_drop. unfold top, bottom in *. lia. }
    eexists. split; [reflexivity|]. split; [exact F | done].
Qed.

Lemma PutChar_shows v p c :
  is_u8 c -> shows 80 25 p (buffer v) (cursor v) ->
  exists v', PutChar v c = Ok v' /\
    shows 80 25 (strike 80 25 (cell v space) (key_for v c) p) (buffer v') (cursor v') /\
    color v' = color v.
Proof.
  intros Hc Hs.
  pose proof (shows_length 80 25 ltac:(lia) ltac:(lia) _ _ _ Hs) as Hlen.
  pose proof (shows_cursor 80 25 ltac:(lia) ltac:(lia) _ _ _ Hs) as Hcur.
  pose proof (fun i x Hi => shows_insert 80 25 ltac:(lia) ltac:(lia) p _ _ i x Hs Hi) as Hins.
  destruct Hs as [[[n Hn] Hh Hp] Hcells Hcursor]. change (80 * 25) with 2000 in *.
  assert (Ht : top 80 25 p = bottom p - 2000) by done.
  unfold PutChar, key_for. destruct (c =? 8); [|destruct (c =? 10); [|destruct (c =? 9)]].
  - cbv zeta. set (q := if cursor v >? 0 then u16 (cursor v - 1) else cursor v).
    assert (Hq : q = (if top 80 25 p <? pen p then pen p - 1 else pen p) - top 80 25 p /\ 0 <= q < 2000).
    { unfold q. rewrite Z.gtb_ltb. destruct (Z.ltb_spec 0 (cursor v)), (Z.ltb_spec (top 80 25 p) (pen p)); try lia.
      rewrite u16_small by (zify_words; lia). lia. }
    rewrite arr_set_in_range by lia. cbn [mbind result_bind set_pos set_buffer cursor buffer color].
    change (80 * 25) with 2000. rewrite Z.geb_leb, (proj2 (Z.leb_gt 2000 q)) by lia.
    eexists. split; [reflexivity|]. split; [|done]. cbn [buffer cursor strike].
    set (q' := if top 80 25 p <? pen p then pen p - 1 else pen p) in *.
    assert (Eq : top 80 25 p + q = q') by lia.
    split; [split|..].
    + exists n. by rewrite bottom_put.
    + by rewrite bottom_put.
    + unfold top. rewrite bottom_put. cbn [pen]. lia.
    + rewrite Hins, Eq by lia. unfold top. by rewrite bottom_put.
    + unfold top. rewrite bottom_put. cbn [pen cursor set_pos]. lia.
  - cbn [mbind result_bind]. apply advance_ok; cbn [sheet pen buffer cursor set_pos color]; try done.
    + by exists n.
    + change (bottom (mkPaper (sheet p) _)) with (bottom p).
      change (top 80 25 (mkPaper (sheet p) _)) with (top 80 25 p). Z.div_mod_to_equations. lia.
    + change (top 80 25 (mkPaper (sheet p) _)) with (top 80 25 p).
      assert (E : pen p / 80 = cursor v / 80 + (n - 25)).
      { replace (pen p) with (cursor v + (n - 25) * 80) by lia. by rewrite Z.div_add by lia. }
      rewrite u16_small; [lia|]. zify_words. Z.div_mod_to_equations. lia.
  - cbn [mbind result_bind]. apply advance_ok; cbn [sheet pen buffer cursor set_pos color]; try done.
    + by exists n.
    + change (bottom (mkPaper (sheet p) _)) with (bottom p).
      change (top 80 25 (mkPaper (sheet p) _)) with (top 80 25 p). lia.
    + change (top 80 25 (mkPaper (sheet p) _)) with (top 80 25 p).
      rewrite u16_small; [lia|]. zify_words. lia.
  - rewrite arr_set_in_range by lia. cbn [mbind result_bind].
    apply advance_ok; cbn [sheet pen buffer cursor set_pos set_buffer color]; try done.
    + exists n. by rewrite bottom_put.
    + by rewrite bottom_put.
    + unfold top. rewrite bottom_put. lia.
    + rewrite Hins by lia. unfold top. rewrite bottom_put. fold (top 80 25 p).
      by replace (top 80 25 p + cursor v) with (pen p) by lia.
    + unfold top. rewrite bottom_put, u16_small by (zify_words; lia). unfold top in *. lia.
Qed.

#[global, refine] Instance vga_console : Console Z vga 80 25 := {
  cells := buffer;
  cur := cursor;
  blank v := cell v space;
  key_of := key_for;
  con_ok _ := True;
  put_char := PutChar;
}.
Proof.
  intros v p c Hc _ Hs. destruct (PutChar_shows v p c Hc Hs) as (v' & E & Hs' & Ec).
  exists v'. split; [done|]. split; [done|]. split; [done|]. unfold key_for, cell. by rewrite Ec.
Defined.

(** ** Printing *)

Lemma Print_put_all v str :
  Forall (fun c => c <> 0) str -> Print v (str ++ [0]) = put_all str v.
Proof.
  intros Hs. revert v. induction Hs as [|c str Hc Hs IH]; intros v; [done|].
  unfold put_all in *. cbn [app Print fold_result]. rewrite (proj2 (Z.eqb_neq c 0)) by done.
  change (put_char v c) with (PutChar v c). destruct (PutChar v c); [apply IH | done].
Qed.

(** A sheet with one blank screen on it. *)
Definition fresh_sheet (b : Z) : paper Z := mkPaper (replicate 2000 b) 0.

Lemma Clear_shows v :
  length (buffer v) = 2000%nat ->
  exists v', Clear v = Ok v' /\ color v' = color v /\
    shows 80 25 (fresh_sheet (cell v space)) (buffer v') (cursor v').
Proof.
  intros Hl. unfold Clear. rewrite fill_loop by (rewrite ?Hl; lia). cbn [mbind result_bind].
  eexists. split; [reflexivity|]. split; [done|]. cbn [buffer cursor set_pos set_buffer].
  assert (Hb : bottom (fresh_sheet (cell v space)) = 2000)
    by (unfold bottom; cbn [sheet fresh_sheet]; by rewrite length_replicate).
  split; [split|..].
  - exists 25. lia.
  - lia.
  - unfold top. rewrite Hb. cbn [pen fresh_sheet]. lia.
  - rewrite drop_ge, app_nil_r by (rewrite Hl; lia). unfold top. rewrite Hb. done.
  - unfold top. rewrite Hb. done.
Qed.

(** C39: The text screen implements the endless sheet.  After [Clear], printing any text
    writes inside the 2000 cells only, and then the screen holds the last 25 rows of the
    sheet on which the text was struck, cell for cell with the colours in force, with
    the cursor at the pen: new lines, tabs, erasing and scrolling included. *)
Theorem screen_shows_sheet v str :
  length (buffer v) = 2000%nat -> Forall (fun c => is_u8 c /\ c <> 0) str ->
  exists v0 v', Clear v = Ok v0 /\ Print v0 (str ++ [0]) = Ok v' /\
    shows 80 25 (strikes 80 25 (cell v space) (key_for v <$> str) (fresh_sheet (cell v space)))
      (buffer v') (cursor v').
Proof.
  intros Hl Hs. apply Forall_and in Hs as [H8 H0].
  destruct (Clear_shows v Hl) as (v0 & E0 & Ec & H1).
  destruct (put_all_shows (Console0 := vga_console) v0 _ str H8 I H1) as (v' & E & _ & H' & _).
  exists v0, v'. split; [done|]. split; [by rewrite Print_put_all|].
  revert H'. cbn [blank key_of vga_console cells cur]. unfold key_for, cell. rewrite Ec. done.
Qed.

Lemma screen_shows_sheet_witness :
  exists v0 v', Clear (mkVga (replicate 2000 0) 77 0x0F false) = Ok v0 /\
    Print v0 ([79; 107; 10; 9; 33] ++ [0]) = Ok v' /\
    shows 80 25 (strikes 80 25 0x0F20 [Glyph 0x0F4F; Glyph 0x0F6B; Newline; Tab; Glyph 0x0F21]
                   (fresh_sheet 0x0F20)) (buffer v') (cursor v').
Proof.
  destruct (screen_shows_sheet (mkVga (replicate 2000 0) 77 0x0F false) [79; 107; 10; 9; 33])
    as (v0 & v' & E0 & E1 & Hs).
  - reflexivity.
  - repeat (apply Forall_cons; split; [zify_words; lia|]). apply Forall_nil. exact I.
  - exists v0, v'. split; [exact E0|]. split; [exact E1 | exact Hs].
Defined.

(** ** Hexadecimal output *)

Definition hex_digit (n : Z) : Z := hex !!! Z.to_nat n.

(** The [n] hexadecimal digits of a number, most significant first. *)
Fixpoint hex_digits (n : nat) (val : Z) : list Z :=
  match n with O => [] | S n => hex_digits n (val / 16) ++ [hex_digit (val mod 16)] end.

Definition digit_value (c : Z) : Z := if c <=? 57 then c - 48 else c - 55.
Definition hex_value (s : list Z) : Z := foldl (fun a c => a * 16 + digit_value c) 0 s.

(** The character of a cell. *)
Definition char_of (x : Z) : Z := x mod 256.

Lemma hex_digit_cases n :
  0 <= n < 16 -> arr_get hex n = Ok (hex_digit n) /\ digit_value (hex_digit n) = n /\ 48 <= hex_digit n <= 70.
Proof.
  intros Hn.
  assert (Hall : Forall (fun n => arr_get hex n = Ok (hex_digit n) /\ digit_value (hex_digit n) = n /\
    48 <= hex_digit n <= 70) (seqZ 0 16)) by (apply (bool_decide_unpack _); vm_compute; exact I).
  rewrite Forall_forall in Hall. apply Hall, elem_of_seqZ. lia.
Qed.

Lemma hex_digits_app n m val : hex_digits (n + m) val = hex_digits n (val / 16 ^ Z.of_nat m) ++ hex_digits m val.
Proof.
  revert val. induction m as [|m IH]; intros val.
  - rewrite Nat.add_0_r, Z.div_1_r. cbn. by rewrite app_nil_r.
  - rewrite Nat.add_succ_r. cbn [hex_digits]. rewrite IH, <- app_assoc. do 2 f_equal.
    rewrite Z.div_div by lia. f_equal. rewrite Nat2Z.inj_succ, Z.pow_succ_r; lia.
Qed.

Lemma hex_digits_mod n val k : Z.of_nat n <= k -> hex_digits n (val mod 16 ^ k) = hex_digits n val.
Proof.
  revert val k. induction n as [|n IH]; intros val k Hk; [done|]. cbn [hex_digits].
  assert (E : 16 ^ k = 16 * 16 ^ (k - 1)) by (rewrite <- Z.pow_succ_r by lia; f_equal; lia).
  f_equal.
  - rewrite <- (IH (val / 16) (k - 1)) by lia. f_equal. rewrite E, Z.rem_mul_r by lia.
    rewrite Z.mul_comm, Z.div_add by lia. rewrite Z.div_small by (apply Z.mod_pos_bound; lia). lia.
  - do 2 f_equal. rewrite E, Z.rem_mul_r by lia.
    rewrite Z.mul_comm, Z.mod_add by lia. by rewrite Z.mod_mod by lia.
Qed.

Lemma hex_value_digits n val : 0 <= val < 16 ^ Z.of_nat n -> hex_value (hex_digits n val) = val.
Proof.
  revert val. induction n as [|n IH]; intros val Hv.
  - change (16 ^ Z.of_nat 0) with 1 in Hv. cbn. lia.
  - rewrite Nat2Z.inj_succ, Z.pow_succ_r in Hv by lia. cbn [hex_digits]. unfold hex_value in *.
    rewrite foldl_app. cbn [foldl]. rewrite IH by (split; [apply Z.div_pos | apply Z.div_lt_upper_bound]; lia).
    destruct (hex_digit_cases (val mod 16)) as (_ & -> & _); [apply Z.mod_pos_bound; lia|].
    pose proof (Z.div_mod val 16 ltac:(lia)). lia.
Qed.

Lemma hex_digits_length n val : length (hex_digits n val) = n.
Proof. revert val. induction n as [|n IH]; intros val; [done|]. cbn. rewrite length_app, IH. cbn. lia. Qed.

Lemma hex_digits_range n val : Forall (fun c => 48 <= c <= 70) (hex_digits n val).
Proof.
  revert val. induction n as [|n IH]; intros val; cbn; [done|]. apply Forall_app. split; [apply IH|].
  apply Forall_singleton. apply hex_digit_cases. apply Z.mod_pos_bound. lia.
Qed.

Lemma put_all_app v s1 s2 : put_all (s1 ++ s2) v = (v ← put_all s1 v; put_all s2 v).
Proof. apply fold_result_app. Qed.

Lemma PrintHex_digits v val : is_u8 val -> PrintHex v val = put_all (hex_digits 2 val) v.
Proof.
  intros Hv. unfold PrintHex, put_all. rewrite Z.shiftr_div_pow2 by lia.
  change 0xF with (Z.ones 4). rewrite Z.land_ones by lia. change (2 ^ 4) with 16. cbn [hex_digits app fold_result].
  rewrite (proj1 (hex_digit_cases (val / 16) ltac:(zify_words; Z.div_mod_to_equations; lia))).
  rewrite (proj1 (hex_digit_cases (val mod 16) ltac:(apply Z.mod_pos_bound; lia))). cbn [mbind result_bind].
  rewrite (Z.mod_small (val / 16)) by (zify_words; Z.div_mod_to_equations; lia).
  change (put_char v) with (PutChar v).
  destruct (PutChar v (hex_digit (val / 16))) as [v1|]; [|done]. cbn [mbind result_bind].
  change (put_char v1) with (PutChar v1). by destruct (PutChar v1 _).
Qed.

Lemma PrintHex16_digits v val : is_u16 val -> PrintHex16 v val = put_all (hex_digits 4 val) v.
Proof.
  intros Hv. unfold PrintHex16. rewrite Z.shiftr_div_pow2 by lia.
  change 0xFF with (Z.ones 8). rewrite Z.land_ones by lia.
  change 4%nat with (2 + 2)%nat. rewrite hex_digits_app, put_all_app.
  change (16 ^ Z.of_nat 2) with (2 ^ 8). rewrite (u8_small (val / 2 ^ 8)) by (zify_words; Z.div_mod_to_equations; lia).
  rewrite u8_small by (apply Z.mod_pos_bound; lia).
  rewrite PrintHex_digits by (zify_words; Z.div_mod_to_equations; lia).
  destruct (put_all (hex_digits 2 (val / 2 ^ 8)) v) as [v1|]; [|done]. cbn [mbind result_bind].
  rewrite PrintHex_digits by (apply Z.mod_pos_bound; lia).
  change (2 ^ 8) with (16 ^ 2). by rewrite hex_digits_mod by lia.
Qed.

Lemma PrintHex32_digits v val : is_u32 val -> PrintHex32 v val = put_all (hex_digits 8 val) v.
Proof.
  intros Hv. unfold PrintHex32. rewrite Z.shiftr_div_pow2 by lia.
  change 0xFFFF with (Z.ones 16). rewrite Z.land_ones by lia.
  change 8%nat with (4 + 4)%nat. rewrite hex_digits_app, put_all_app.
  change (16 ^ Z.of_nat 4) with (2 ^ 16). rewrite (u16_small (val / 2 ^ 16)) by (zify_words; Z.div_mod_to_equations; lia).
  rewrite u16_small by (apply Z.mod_pos_bound; lia).
  rewrite PrintHex16_digits by (zify_words; Z.div_mod_to_equations; lia).
  destruct (put_all (hex_digits 4 (val / 2 ^ 16)) v) as [v1|]; [|done]. cbn [mbind result_bind].
  rewrite PrintHex16_digits by (apply Z.mod_pos_bound; lia).
  change (2 ^ 16) with (16 ^ 4). by rewrite hex_digits_mod by lia.
Qed.

Lemma char_of_cell v c : 0 <= color v < 256 -> is_u8 c -> char_of (cell v c) = c.
Proof.
  intros Hc H8. unfold char_of, cell. rewrite (u8_small c) by done.
  rewrite Z.shiftl_mul_pow2, lor_add by (zify_words; lia).
  rewrite u16_small by (zify_words; lia). zify_words. Z.div_mod_to_equations. lia.
Qed.

(** Hexadecimal output is readable back.  On any screen that shows a sheet,
    [PrintHex32] succeeds and the eight characters before the cursor are hexadecimal
    digits whose value is the number printed. *)
Theorem PrintHex32_roundtrip v p val :
  0 <= color v < 256 -> is_u32 val -> shows 80 25 p (buffer v) (cursor v) ->
  exists v', PrintHex32 v val = Ok v' /\ 8 <= cursor v' < 2000 /\
    hex_value (char_of <$> take 8 (drop (Z.to_nat (cursor v' - 8)) (buffer v'))) = val.
Proof.
  intros Hc Hv Hs. rewrite PrintHex32_digits by done.
  pose proof (hex_digits_range 8 val) as Hr. pose proof (hex_digits_length 8 val) as Hl.
  destruct (put_all_visible (Console0 := vga_console) v p (hex_digits 8 val) (cell v <$> hex_digits 8 val)) as (v' & E & Hcur & Hg);
    try (lia || done).
  - eapply Forall_impl; [exact Hr|]. cbn. intros c ?. zify_words. lia.
  - rewrite <- list_fmap_compose. apply list_fmap_ext. intros i c Hi.
    pose proof (Forall_lookup_1 _ _ _ _ Hr Hi) as Hci. cbn beta in Hci. cbn. unfold key_for.
    rewrite (proj2 (Z.eqb_neq c 8)), (proj2 (Z.eqb_neq c 10)), (proj2 (Z.eqb_neq c 9)) by lia. done.
  - rewrite Hl in *. change (Z.of_nat 8) with 8 in *. change (cur v') with (cursor v') in *.
    change (cells v') with (buffer v') in *. exists v'. split; [done|]. split; [lia|].
    replace (take 8 _) with (cell v <$> hex_digits 8 val).
    + rewrite <- list_fmap_compose. rewrite (list_fmap_ext _ id).
      * rewrite list_fmap_id. apply hex_value_digits. change (16 ^ Z.of_nat 8) with (2 ^ 32). done.
      * intros i c Hi. pose proof (Forall_lookup_1 _ _ _ _ Hr Hi) as Hci. cbn beta in Hci. cbn.
        apply char_of_cell; [done | zify_words; lia].
    + symmetry. apply list_eq_same_length with 8%nat.
      * by rewrite length_fmap.
      * pose proof (Hg 7%nat (cell v (List.nth 7 (hex_digits 8 val) 0)) eq_refl) as H7.
        apply lookup_lt_Some in H7. rewrite length_take, length_drop. lia.
      * intros i x y Hi Hx Hy. rewrite lookup_take, decide_True, lookup_drop in Hx by lia.
        pose proof (Hg i y Hy) as Hy'.
        replace (Z.to_nat (cursor v' - 8 + Z.of_nat i)) with (Z.to_nat (cursor v' - 8) + i)%nat in Hy' by lia.
        congruence.
Qed.

Lemma PrintHex32_roundtrip_witness :
  exists v', PrintHex32 (mkVga (replicate 2000 0x0720) 1995 7 false) 0xDEADBEEF = Ok v' /\
    8 <= cursor v' < 2000 /\
    hex_value (char_of <$> take 8 (drop (Z.to_nat (cursor v' - 8)) (buffer v'))) = 0xDEADBEEF.
Proof.
  apply (PrintHex32_roundtrip (mkVga (replicate 2000 0x0720) 1995 7 false) (mkPaper (replicate 2000 0x0720) 1995)).
  - cbn. lia.
  - u32_lit.
  - split; [split|..]; [exists 25; reflexivity | vm_compute; discriminate | | reflexivity | reflexivity].
    split; [vm_compute; discriminate | vm_compute; reflexivity].
Defined.

End Vga.
