(* ===== verification/Ports.v ===== *)
(** I/O ports: src/src/arch/i386/port.h.

    The devices behind the ports are not code of the kernel: a [PortIO] device says what
    a read returns and how reads and writes change the device.  Drivers are written
    against this interface; the files of the drivers instantiate it. *)

From stdpp Require Import base numbers list.
From Stdlib Require Import ZArith Lia.
From S2P Require Import Prelude.

Module Ports.

(** [outp n p v] writes the [n] bits [v] to port [p]; [inp n p] reads [n] bits. *)
Class PortIO (D : Type) := {
  inp : Z -> Z -> D -> Z * D;
  outp : Z -> Z -> Z -> D -> D;
}.

Section ports.
Context {D : Type} `{PortIO D}.
Implicit Types (d : D) (port value : Z).

Definition Port8Bit_Read port d : Z * D := let '(v, d) := inp 8 port d in (u8 v, d).
Definition Port8Bit_Write port value d : D := outp 8 port (u8 value) d.

(** The slow ports write once more, to port 0x80, to pass time. *)
Definition Port8BitSlow_Write port value d : D := outp 8 0x80 0 (Port8Bit_Write port value d).

Definition Port16Bit_Read port d : Z * D := let '(v, d) := inp 16 port d in (u16 v, d).
Definition Port16Bit_Write port value d : D := outp 16 port (u16 value) d.

Definition Port32Bit_Read port d : Z * D := let '(v, d) := inp 32 port d in (u32 v, d).
Definition Port32Bit_Write port value d : D := outp 32 port (u32 value) d.

(** [index.Write(a); data.Write(b)] for every pair of a table. *)
Definition write_pairs (index data : Z) (vals : list (Z * Z)) d : D :=
  foldl (fun d p => Port8Bit_Write data (snd p) (Port8Bit_Write index (fst p) d)) d vals.
End ports.


(** A machine [D] with the device [M] at the ports [at_]: what the machine does at these
    ports is what the device does, and traffic at other ports does not reach it. *)
Class Attached (D M : Type) `{PortIO D, PortIO M} (at_ : Z -> Prop) := {
  view : D -> M;
  attached_in : forall n p d, at_ p ->
    fst (inp n p d) = fst (inp n p (view d)) /\ view (snd (inp n p d)) = snd (inp n p (view d));
  attached_out : forall n p v d, at_ p -> view (outp n p v d) = outp n p v (view d);
  elsewhere : forall n p v d, ~ at_ p -> view (outp n p v d) = view d /\ view (snd (inp n p d)) = view d;
}.

Section attached.
Context {D M : Type} `{Attached D M at_}.
Implicit Types (d : D) (m : M).

Lemma read8 p d v m :
  at_ p -> inp 8 p (view d) = (v, m) -> exists d', Port8Bit_Read p d = (u8 v, d') /\ view d' = m.
Proof.
  intros Hp E. unfold Port8Bit_Read. destruct (attached_in 8 p d Hp) as [E1 E2].
  rewrite E in E1, E2. destruct (inp 8 p d) as [v' d']. cbn in *. subst. by exists d'.
Qed.

Lemma read16 p d v m :
  at_ p -> inp 16 p (view d) = (v, m) -> exists d', Port16Bit_Read p d = (u16 v, d') /\ view d' = m.
Proof.
  intros Hp E. unfold Port16Bit_Read. destruct (attached_in 16 p d Hp) as [E1 E2].
  rewrite E in E1, E2. destruct (inp 16 p d) as [v' d']. cbn in *. subst. by exists d'.
Qed.

Lemma read32 p d v m :
  at_ p -> inp 32 p (view d) = (v, m) -> exists d', Port32Bit_Read p d = (u32 v, d') /\ view d' = m.
Proof.
  intros Hp E. unfold Port32Bit_Read. destruct (attached_in 32 p d Hp) as [E1 E2].
  rewrite E in E1, E2. destruct (inp 32 p d) as [v' d']. cbn in *. subst. by exists d'.
Qed.

Lemma write8 p v d : at_ p -> view (Port8Bit_Write p v d) = Port8Bit_Write p v (view d).
Proof. apply attached_out. Qed.
Lemma write16 p v d : at_ p -> view (Port16Bit_Write p v d) = Port16Bit_Write p v (view d).
Proof. apply attached_out. Qed.
Lemma write32 p v d : at_ p -> view (Port32Bit_Write p v d) = Port32Bit_Write p v (view d).
Proof. apply attached_out. Qed.
End attached.

End Ports.
