(* ===== verification/Ata.v ===== *)
(** The ATA driver: src/src/drivers/ata.{h,cpp}.

    The driver is written over the port interface.  [drive] is the programmed-I/O
    protocol of a drive as the ATA standard describes it (registers, busy and data
    request bits, one sector per data phase); a machine has such a drive when its
    ports behave like one ([AtaBus]).  The theorems show that one-sector calls are
    the [drive_read] and [drive_write] the file system is built on. *)

From stdpp Require Import base numbers list gmap.
From Stdlib Require Import ZArith Lia.
From S2P Require Import Prelude Net Fat32 Ports Console Vga.

Module Ata.
Import Net Fat Ports.

(** ** The code *)

Definition data_port : Z := 0x1F0.
Definition error_port : Z := 0x1F1.
Definition sector_count_port : Z := 0x1F2.
Definition lba_low_port : Z := 0x1F3.
Definition lba_mid_port : Z := 0x1F4.
Definition lba_hi_port : Z := 0x1F5.
Definition device_port : Z := 0x1F6.
Definition command_port : Z := 0x1F7.

(** "ATA: drive identified\n" and "ATA: no drive found\n" *)
Definition msg_identified : list Z :=
  [65; 84; 65; 58; 32; 100; 114; 105; 118; 101; 32; 105; 100; 101; 110; 116; 105; 102; 105; 101; 100; 10; 0].
Definition msg_not_found : list Z :=
  [65; 84; 65; 58; 32; 110; 111; 32; 100; 114; 105; 118; 101; 32; 102; 111; 117; 110; 100; 10; 0].

Section code.
Context {D : Type} `{PortIO D}.
Implicit Types (d : D) (buf : list Z).

(** The driver of kernel is always made with [master] set. *)
Definition master : bool := true.

(** [for (i = 0; i < n; i++) if (test(command_port.Read())) return true; return false] *)
Fixpoint poll (n : nat) (test : Z -> bool) d : bool * D :=
  match n with
  | O => (false, d)
  | S n => let '(v, d) := Port8Bit_Read command_port d in
           if test v then (true, d) else poll n test d
  end.

Definition WaitBSY d : bool * D := poll (Z.to_nat 0x100000) (fun v => Z.land v 0x80 =? 0) d.
Definition WaitDRQ d : bool * D := poll (Z.to_nat 0x100000) (fun v => negb (Z.land v 0x08 =? 0)) d.

(** [for (i = 0; i < 256; i++) dst[i] = data_port.Read()] with [dst] at byte offset [o]. *)
Definition read_words buf (o : Z) d : result (list Z * D) :=
  for_result 0 256 (fun i '(buf, d) =>
    let '(w, d) := Port16Bit_Read data_port d in
    buf ← put_bytes buf (o + 2 * i) (le16 w); Ok (buf, d)) (buf, d).

(** [for (i = 0; i < 256; i++) data_port.Write(src[i])] *)
Definition write_words buf (o : Z) d : result D :=
  for_result 0 256 (fun i d =>
    w ← get16 buf (o + 2 * i); Ok (Port16Bit_Write data_port w d)) d.

Definition Identify buf d : result (bool * list Z * D) :=
  let d := Port8Bit_Write device_port (if master then 0xA0 else 0xB0) d in
  let d := Port8Bit_Write command_port 0xEC d in
  let '(ok, d) := WaitBSY d in
  if negb ok then Ok (false, buf, d)
  else let '(v, d) := Port8Bit_Read command_port d in
  if v =? 0 then Ok (false, buf, d)
  else let '(ok, d) := WaitDRQ d in
  if negb ok then Ok (false, buf, d)
  else '(buf, d) ← read_words buf 0 d; Ok (true, buf, d).

(** The seven register writes that start a transfer. *)
Definition issue (lba count command : Z) d : D :=
  let d := Port8Bit_Write device_port
             (Z.lor (if master then 0xE0 else 0xF0) (Z.land (Z.shiftr lba 24) 0x0F)) d in
  let d := Port8Bit_Write error_port 0x00 d in
  let d := Port8Bit_Write sector_count_port (u8 count) d in
  let d := Port8Bit_Write lba_low_port (u8 (Z.land lba 0xFF)) d in
  let d := Port8Bit_Write lba_mid_port (u8 (Z.land (Z.shiftr lba 8) 0xFF)) d in
  let d := Port8Bit_Write lba_hi_port (u8 (Z.land (Z.shiftr lba 16) 0xFF)) d in
  Port8Bit_Write command_port command d.

(** The loop over the sectors from [s] on, [n] of them more. *)
Fixpoint read_sectors (n : nat) (s : Z) buf (o : Z) d : result (bool * list Z * D) :=
  match n with
  | O => Ok (true, buf, d)
  | S n =>
      let '(ok, d) := WaitBSY d in
      if negb ok then Ok (false, buf, d)
      else let '(ok, d) := WaitDRQ d in
      if negb ok then Ok (false, buf, d)
      else '(buf, d) ← read_words buf (o + u32 (s * 512)) d; read_sectors n (s + 1) buf o d
  end.

(** The buffer starts at offset [o] of [buf]. *)
Definition Read28 (lba : Z) buf (o count : Z) d : result (bool * list Z * D) :=
  let '(ok, d) := WaitBSY d in
  if negb ok then Ok (false, buf, d)
  else read_sectors (Z.to_nat count) 0 buf o (issue lba count 0x20 d).

Fixpoint write_sectors (n : nat) (s : Z) buf (o : Z) d : result D :=
  match n with
  | O => Ok d
  | S n =>
      let '(_, d) := WaitBSY d in
      let '(_, d) := WaitDRQ d in
      d ← write_words buf (o + u32 (s * 512)) d;
      let d := Port8Bit_Write command_port 0xE7 d in
      let '(_, d) := WaitBSY d in
      write_sectors n (s + 1) buf o d
  end.

Definition Write28 (lba : Z) buf (o count : Z) d : result (bool * D) :=
  let '(_, d) := WaitBSY d in
  d ← write_sectors (Z.to_nat count) 0 buf o (issue lba count 0x30 d);
  Ok (true, d).

Definition HandleInterrupt (esp : Z) d : Z * D := (esp, d).

(** [buf] is the local buffer. *)
Definition Activate buf (v : Vga.vga) d : result (Vga.vga * D) :=
  '(ok, _, d) ← Identify buf d;
  v ← Vga.Print v (if (ok : bool) then msg_identified else msg_not_found);
  Ok (v, d).
End code.

(** ** The drive *)

Inductive phase :=
  | Idle
  | Failed                                        (** the command ended in an error *)
  | DataIn (ws : list Z) (lba : Z) (more : nat)   (** words to hand over, sectors after them *)
  | DataOut (got : list Z) (lba : Z) (more : nat).

(** [busy] is the number of status reads that still find the drive busy, [waits] how
    long each later piece of work takes. *)
Record drive := mkDrive {
  platter : disk;
  identity : list Z;
  r_device : Z; r_count : Z; r_low : Z; r_mid : Z; r_high : Z;
  busy : nat;
  waits : list nat;
  now : phase;
}.

Definition set_now (p : phase) (r : drive) : drive :=
  mkDrive (platter r) (identity r) (r_device r) (r_count r) (r_low r) (r_mid r) (r_high r)
          (busy r) (waits r) p.
Definition set_busy (n : nat) (r : drive) : drive :=
  mkDrive (platter r) (identity r) (r_device r) (r_count r) (r_low r) (r_mid r) (r_high r)
          n (waits r) (now r).
Definition set_platter (k : disk) (r : drive) : drive :=
  mkDrive k (identity r) (r_device r) (r_count r) (r_low r) (r_mid r) (r_high r)
          (busy r) (waits r) (now r).

(** Start a piece of work that leads to phase [p]. *)
Definition work (p : phase) (r : drive) : drive :=
  mkDrive (platter r) (identity r) (r_device r) (r_count r) (r_low r) (r_mid r) (r_high r)
          (default 0%nat (head (waits r))) (tail (waits r)) p.

(** A sector as 16-bit words. *)
Fixpoint words (s : list Z) : list Z :=
  match s with a :: b :: s => a + 256 * b :: words s | _ => [] end.
Definition unwords (ws : list Z) : list Z := mjoin (le16 <$> ws).

Definition fetch (lba : Z) (more : nat) (r : drive) : drive :=
  work (match platter r !! lba with Some s => DataIn (words s) lba more | None => Failed end) r.
Definition offer (lba : Z) (more : nat) (r : drive) : drive :=
  work (match platter r !! lba with Some _ => DataOut [] lba more | None => Failed end) r.

(** The phase after a word was handed over, and after one was taken. *)
Definition after_in (ws : list Z) (lba : Z) (more : nat) (r : drive) : drive :=
  match ws, more with
  | [], O => set_now Idle r
  | [], S more => fetch (lba + 1) more r
  | _, _ => set_now (DataIn ws lba more) r
  end.
Definition after_out (got : list Z) (lba : Z) (more : nat) (r : drive) : drive :=
  if decide (length got = 256%nat) then
    let r := set_platter (<[lba := unwords got]> (platter r)) r in
    match more with O => work Idle r | S more => offer (lba + 1) more r end
  else set_now (DataOut got lba more) r.

Definition selected (r : drive) : bool := negb (Z.testbit (r_device r) 4).
Definition address (r : drive) : Z :=
  Z.land (r_device r) 0x0F * 2 ^ 24 + r_high r * 2 ^ 16 + r_mid r * 2 ^ 8 + r_low r.
(** Sector count 0 stands for 256. *)
Definition sectors (r : drive) : nat := if r_count r =? 0 then 256 else Z.to_nat (r_count r).

(** Status bits: BSY 0x80, DRDY 0x40, DRQ 0x08, ERR 0x01. *)
Definition status (r : drive) : Z :=
  match now r with Idle => 0x40 | Failed => 0x41 | DataIn _ _ _ | DataOut _ _ _ => 0x48 end.

(** A command while a transfer is in progress ends that transfer: the standard leaves
    its outcome open, and no theorem relies on it. *)
Definition command (v : Z) (r : drive) : drive :=
  if negb (selected r) then r
  else match now r with
  | DataIn _ _ _ | DataOut _ _ _ => work Failed r
  | _ =>
      if v =? 0x20 then fetch (address r) (pred (sectors r)) r
      else if v =? 0x30 then offer (address r) (pred (sectors r)) r
      else if v =? 0xEC then work (DataIn (identity r) 0 0) r
      else if v =? 0xE7 then work Idle r
      else work Failed r
  end.

Definition drive_in (p : Z) (r : drive) : Z * drive :=
  if negb (selected r) then (0, r)
  else if p =? command_port then
    match busy r with O => (status r, r) | S n => (0x80, set_busy n r) end
  else if p =? data_port then
    match now r with DataIn (w :: ws) lba more => (w, after_in ws lba more r) | _ => (0, r) end
  else (0, r).

Definition drive_out (p v : Z) (r : drive) : drive :=
  let reg dev cnt low mid high :=
    mkDrive (platter r) (identity r) dev cnt low mid high (busy r) (waits r) (now r) in
  if p =? data_port then
    match now r with DataOut got lba more => after_out (got ++ [v]) lba more r | _ => r end
  else if p =? sector_count_port then reg (r_device r) v (r_low r) (r_mid r) (r_high r)
  else if p =? lba_low_port then reg (r_device r) (r_count r) v (r_mid r) (r_high r)
  else if p =? lba_mid_port then reg (r_device r) (r_count r) (r_low r) v (r_high r)
  else if p =? lba_hi_port then reg (r_device r) (r_count r) (r_low r) (r_mid r) v
  else if p =? device_port then reg v (r_count r) (r_low r) (r_mid r) (r_high r)
  else if p =? command_port then command v r
  else r.

#[export] Instance drive_ports : PortIO drive := {
  inp _ p r := drive_in p r;
  outp _ p v r := drive_out p v r;
}.

(** A machine whose ports 0x1F0-0x1F7 are those of a drive. *)
Definition ata_ports (p : Z) : Prop := data_port <= p <= command_port.
Notation AtaBus D := (Attached D drive ata_ports).

#[export] Instance drive_bus : AtaBus drive.
Proof.
  refine {| view r := r |}; [done | done |].
  intros n p v r Hp. unfold ata_ports, data_port, command_port in Hp. cbn.
  unfold drive_out, drive_in, data_port, sector_count_port, lba_low_port, lba_mid_port, lba_hi_port,
    device_port, command_port.
  split; case_tests; by destruct (negb (selected r)).
Defined.

Definition the_drive {D : Type} `{PortIO D} `{!AtaBus D} : D -> drive := view.

(** ** Words and bytes *)

Lemma words_pairs s i :
  words s !! i = (a ← s !! (2 * i)%nat; b ← s !! (2 * i + 1)%nat; Some (a + 256 * b)).
Proof.
  enough (H : forall n s i, (length s <= n)%nat ->
    words s !! i = (a ← s !! (2 * i)%nat; b ← s !! (2 * i + 1)%nat; Some (a + 256 * b)))
    by (by apply (H (length s))).
  clear s i. induction n as [|n IH]; intros s i Hn; [by destruct s; [|cbn in Hn; lia]|].
  destruct s as [|a [|b s]]; [done | by destruct i |].
  destruct i as [|i]; [done|]. cbn [words]. cbn in Hn.
  replace (2 * S i)%nat with (S (S (2 * i))) by lia.
  replace (S (S (2 * i)) + 1)%nat with (S (S (2 * i + 1))) by lia.
  cbn [lookup list_lookup]. apply IH. lia.
Qed.

Lemma words_length n s : length s = (2 * n)%nat -> length (words s) = n.
Proof.
  revert s. induction n as [|n IH]; intros s Hs; [by destruct s|].
  destruct s as [|a [|b s]]; cbn in Hs; [lia..|]. cbn [words length]. rewrite IH; lia.
Qed.

Lemma unwords_cons w ws : unwords (w :: ws) = le16 w ++ unwords ws.
Proof. done. Qed.

Lemma words_bytes n s :
  length s = (2 * n)%nat -> is_bytes s -> unwords (words s) = s /\ Forall is_u16 (words s).
Proof.
  revert s. induction n as [|n IH]; intros s Hs Hb; [by destruct s|].
  destruct s as [|a [|b s]]; cbn in Hs; [lia..|]. cbn [words].
  apply Forall_cons in Hb as [Ha Hb]. apply Forall_cons in Hb as [Hb' Hb].
  destruct (IH s) as [E F]; [lia | done |]. split.
  - rewrite unwords_cons, E. cbn [app le16].
    f_equal; [word|]. f_equal. word.
  - constructor; [word | done].
Qed.

Lemma unwords_length ws : length (unwords ws) = (2 * length ws)%nat.
Proof. induction ws as [|w ws IH]; [done|]. rewrite unwords_cons. cbn. lia. Qed.

Lemma unwords_snoc ws w : unwords (ws ++ [w]) = unwords ws ++ le16 w.
Proof. unfold unwords. by rewrite fmap_app, join_app. Qed.

Lemma unwords_bytes ws : is_bytes (unwords ws).
Proof.
  induction ws as [|w ws IH]; [constructor|]. rewrite unwords_cons.
  apply Forall_app. split; [apply le16_bytes | done].
Qed.

(** The sector number in the registers. *)
Definition device_byte (lba : Z) : Z := u8 (Z.lor 0xE0 (Z.land (Z.shiftr lba 24) 0x0F)).

Lemma device_byte_val lba : device_byte lba = 0xE0 + lba / 2 ^ 24 mod 16.
Proof.
  unfold device_byte. rewrite Z.shiftr_div_pow2 by lia. change 0x0F with (Z.ones 4) at 1.
  rewrite Z.land_ones by lia. change (2 ^ 4) with 16.
  pose proof (Z.mod_pos_bound (lba / 2 ^ 24) 16 ltac:(lia)).
  change 0xE0 with (14 * 2 ^ 4). rewrite lor_add by lia. change (14 * 2 ^ 4) with 224. word.
Qed.

Lemma device_byte_master lba : Z.testbit (device_byte lba) 4 = false.
Proof.
  unfold device_byte, u8. rewrite Z.mod_pow2_bits_low, Z.lor_spec, Z.land_spec by lia. cbn.
  apply andb_false_r.
Qed.

Lemma lba_registers r lba :
  is_u32 lba ->
  address (mkDrive (platter r) (identity r) (device_byte lba) (r_count r)
             (u8 (u8 (Z.land lba 0xFF))) (u8 (u8 (Z.land (Z.shiftr lba 8) 0xFF)))
             (u8 (u8 (Z.land (Z.shiftr lba 16) 0xFF))) (busy r) (waits r) (now r)) = lba28 lba.
Proof.
  intros Hl. unfold address, lba28. cbn [r_device r_high r_mid r_low]. rewrite device_byte_val.
  change 0xFF with (Z.ones 8). change 0x0F with (Z.ones 4). change 0xFFFFFFF with (Z.ones 28).
  rewrite !Z.land_ones, !Z.shiftr_div_pow2 by lia.
  change (2 ^ 4) with 16. change (2 ^ 28) with 268435456. change (2 ^ 24) with 16777216.
  word.
Qed.

(** ** The driver on a drive *)

(** A drive that answers every command within the patience of the driver. *)
Definition patient (r : drive) : Prop :=
  Z.of_nat (busy r) < 0x100000 /\ Forall (fun w => Z.of_nat w < 0x100000) (waits r).

Record ready (k : disk) (r : drive) : Prop := {
  rd_platter : platter r = k;
  rd_selected : selected r = true;
  rd_patient : patient r;
  rd_rest : now r = Idle \/ now r = Failed;
}.

Lemma work_patient p r : patient r -> patient (work p r).
Proof.
  intros [_ H]. split; cbn; destruct (waits r) as [|w ws]; cbn; try done.
  - by apply Forall_cons in H as [].
  - by apply Forall_cons in H as [].
Qed.

(** The state in which the driver, having waited, finds the drive. *)
Definition settled (r : drive) : drive := set_busy 0 r.

Section driver.
Context {D : Type} `{PortIO D} `{!AtaBus D}.
Implicit Types (d : D) (buf : list Z).

Lemma bus_in8 p d v r :
  ata_ports p -> drive_in p (the_drive d) = (v, r) ->
  exists d', Port8Bit_Read p d = (u8 v, d') /\ the_drive d' = r.
Proof. exact (read8 p d v r). Qed.

Lemma bus_in16 p d v r :
  ata_ports p -> drive_in p (the_drive d) = (v, r) ->
  exists d', Port16Bit_Read p d = (u16 v, d') /\ the_drive d' = r.
Proof. exact (read16 p d v r). Qed.

Lemma bus_out n p v d : ata_ports p -> the_drive (outp n p v d) = drive_out p v (the_drive d).
Proof. exact (attached_out n p v d). Qed.

Lemma poll_ready test n d :
  selected (the_drive d) = true -> (busy (the_drive d) < n)%nat ->
  test 0x80 = false -> test (u8 (status (the_drive d))) = true ->
  exists d', poll n test d = (true, d') /\ the_drive d' = settled (the_drive d).
Proof.
  revert d. induction n as [|n IH]; intros d Hs Hn Hb Ht; [lia|]. cbn [poll].
  destruct (busy (the_drive d)) as [|k] eqn:Ek.
  - destruct (bus_in8 command_port d (status (the_drive d)) (the_drive d)) as (d' & -> & E).
    { unfold ata_ports, data_port, command_port. lia. }
    { unfold drive_in. rewrite Hs, Ek. done. }
    rewrite Ht. exists d'. split; [done|]. rewrite E. unfold settled, set_busy. rewrite <- Ek.
    by destruct (the_drive d).
  - destruct (bus_in8 command_port d 0x80 (set_busy k (the_drive d))) as (d' & -> & E).
    { unfold ata_ports, data_port, command_port. lia. }
    { unfold drive_in. rewrite Hs, Ek. done. }
    change (u8 0x80) with 0x80. rewrite Hb.
    destruct (IH d') as (d'' & -> & E'').
    { by rewrite E. } { rewrite E. cbn. lia. } { done. } { by rewrite E. }
    exists d''. split; [done|]. rewrite E'', E. done.
Qed.

Lemma poll_refused test n d :
  selected (the_drive d) = true -> busy (the_drive d) = 0%nat ->
  test (u8 (status (the_drive d))) = false ->
  exists d', poll n test d = (false, d') /\ the_drive d' = the_drive d.
Proof.
  intros Hs Hb Ht. revert d Hs Hb Ht. induction n as [|n IH]; intros d Hs Hb Ht; [by exists d|].
  cbn [poll]. destruct (bus_in8 command_port d (status (the_drive d)) (the_drive d)) as (d' & -> & E).
  { unfold ata_ports, data_port, command_port. lia. }
  { unfold drive_in. rewrite Hs, Hb. done. }
  rewrite Ht. rewrite <- E. apply IH; by rewrite E.
Qed.

Lemma WaitBSY_ok d :
  selected (the_drive d) = true -> patient (the_drive d) ->
  exists d', WaitBSY d = (true, d') /\ the_drive d' = settled (the_drive d).
Proof.
  intros Hs [Hp _]. unfold WaitBSY. apply poll_ready; [done | lia | done |].
  unfold status. by destruct (now (the_drive d)).
Qed.

Definition data_phase (r : drive) : bool :=
  match now r with DataIn _ _ _ | DataOut _ _ _ => true | _ => false end.

Lemma WaitDRQ_ok d :
  selected (the_drive d) = true -> busy (the_drive d) = 0%nat ->
  exists d', WaitDRQ d = (data_phase (the_drive d), d') /\ the_drive d' = the_drive d.
Proof.
  intros Hs Hb. unfold WaitDRQ, data_phase. destruct (now (the_drive d)) eqn:En.
  1-2: apply poll_refused; [done | done | unfold status; by rewrite En].
  all: destruct (poll_ready (fun v => negb (Z.land v 8 =? 0)) (Z.to_nat 0x100000) d) as (d' & -> & E);
    [done | lia | done | unfold status; by rewrite En |];
    exists d'; split; [done|]; rewrite E; unfold settled, set_busy; rewrite <- Hb; by destruct (the_drive d).
Qed.

Lemma issue_ok lba count c d :
  let r := the_drive d in
  the_drive (issue lba count c d) =
  command (u8 c) (mkDrive (platter r) (identity r) (device_byte lba) (u8 (u8 count))
    (u8 (u8 (Z.land lba 0xFF))) (u8 (u8 (Z.land (Z.shiftr lba 8) 0xFF)))
    (u8 (u8 (Z.land (Z.shiftr lba 16) 0xFF))) (busy r) (waits r) (now r)).
Proof.
  unfold issue, Port8Bit_Write.
  rewrite !bus_out by (unfold ata_ports, data_port, device_port, error_port, sector_count_port, lba_low_port,
    lba_mid_port, lba_hi_port, command_port; lia). reflexivity.
Qed.

Lemma read_words_ok buf o d ws lba more r :
  the_drive d = set_now (DataIn ws lba more) r -> selected r = true ->
  length ws = 256%nat -> Forall is_u16 ws ->
  0 <= o -> o + 512 <= Z.of_nat (length buf) ->
  exists d', read_words buf o d =
      Ok (take (Z.to_nat o) buf ++ unwords ws ++ drop (Z.to_nat o + 512) buf, d') /\
    the_drive d' = after_in [] lba more r.
Proof.
  intros Hd Hs Hl Hu Ho Hb. unfold read_words.
  loop_with (fun i (s : list Z * D) =>
    fst s = take (Z.to_nat o) buf ++ unwords (take (Z.to_nat i) ws) ++
            drop (Z.to_nat o + 2 * Z.to_nat i) buf /\
    the_drive (snd s) = after_in (drop (Z.to_nat i) ws) lba more r) s E HP.
  - lia.
  - cbn [fst snd]. change (Z.to_nat 0) with 0%nat. rewrite take_0, Nat.mul_0_r, Nat.add_0_r, drop_0.
    change (unwords []) with (@nil Z). rewrite app_nil_l, take_drop. split; [done|].
    destruct ws; [done|]. by rewrite Hd.
  - intros i [buf' d'] Hi [Eb Ed]. cbn [fst snd] in Eb, Ed. subst buf'.
    destruct (lookup_lt_is_Some_2 ws (Z.to_nat i)) as [w Hw]; [lia|].
    rewrite (drop_S _ _ _ Hw) in Ed. cbn [after_in] in Ed.
    destruct (bus_in16 data_port d' w (after_in (drop (S (Z.to_nat i)) ws) lba more r)) as (d'' & -> & E'').
    { unfold ata_ports, data_port, command_port. lia. }
    { unfold drive_in. rewrite Ed.
      change (selected (set_now (DataIn (w :: drop (S (Z.to_nat i)) ws) lba more) r)) with (selected r).
      rewrite Hs. reflexivity. }
    rewrite u16_small by (by apply (Forall_lookup_1 _ _ _ _ Hu Hw)).
    set (post := drop (Z.to_nat o + 2 * S (Z.to_nat i)) buf).
    destruct (split_at (drop (Z.to_nat o + 2 * Z.to_nat i) buf) 2) as (mid & post' & Ep & Lm).
    { rewrite length_drop. lia. }
    assert (Epost : post' = post).
    { unfold post. replace (Z.to_nat o + 2 * S (Z.to_nat i))%nat with (Z.to_nat o + 2 * Z.to_nat i + 2)%nat by lia.
      rewrite <- drop_drop, Ep. by rewrite <- Lm, drop_app_length. }
    rewrite Ep, Epost, app_assoc, put_bytes_app.
    + cbn [mbind result_bind]. eexists. split; [reflexivity|]. cbn [fst snd].
      replace (Z.to_nat (i + 1)) with (S (Z.to_nat i)) by lia. split; [|done].
      rewrite (take_S_r _ _ _ Hw), unwords_snoc, <- !app_assoc. done.
    + rewrite length_app, unwords_length, !length_take. lia.
    + by rewrite Lm.
  - destruct s as [buf' d']. cbn [fst snd] in HP. destruct HP as [-> Ed]. rewrite E. exists d'.
    rewrite (take_ge ws) by lia. rewrite (drop_ge ws) in Ed by lia. done.
Qed.

(** The sectors [lba], ..., [lba + n - 1] of the disk. *)
Definition run (k : disk) (lba : Z) (n : nat) : option (list (list Z)) :=
  mapM (fun a => k !! a) (seqZ lba (Z.of_nat n)).

Definition disk_fine (k : disk) : Prop := map_Forall (fun _ s => length s = 512%nat /\ is_bytes s) k.

Lemma run_cons k lba n s rest :
  k !! lba = Some s -> run k (lba + 1) n = Some rest -> run k lba (S n) = Some (s :: rest).
Proof.
  intros H1 H2. unfold run in *. rewrite seqZ_cons by lia.
  replace (Z.pred (Z.of_nat (S n))) with (Z.of_nat n) by lia.
  replace (Z.succ lba) with (lba + 1) by lia. cbn. by rewrite H1, H2.
Qed.

Lemma run_inv k lba n l :
  run k lba (S n) = Some l -> exists s rest, l = s :: rest /\ k !! lba = Some s /\ run k (lba + 1) n = Some rest.
Proof.
  unfold run. rewrite seqZ_cons by lia.
  replace (Z.pred (Z.of_nat (S n))) with (Z.of_nat n) by lia.
  replace (Z.succ lba) with (lba + 1) by lia. cbn.
  destruct (k !! lba) as [s|]; [|done]. cbn. destruct (mapM _ _) as [rest|]; [|done]. cbn.
  intros [= <-]. eauto.
Qed.

(** One turn of the loop, from the state in which the drive fetches the sector. *)
Lemma read_step n more lba r buf o s d sec :
  the_drive d = fetch lba more r -> platter r !! lba = Some sec -> length sec = 512%nat -> is_bytes sec ->
  selected r = true -> patient r ->
  0 <= s -> 0 <= o -> s * 512 < 2 ^ 32 -> o + s * 512 + 512 <= Z.of_nat (length buf) ->
  exists d', read_sectors (S n) s buf o d =
      read_sectors n (s + 1) (take (Z.to_nat (o + s * 512)) buf ++ sec ++
                              drop (Z.to_nat (o + s * 512) + 512) buf) o d' /\
    the_drive d' = after_in [] lba more (settled (work Idle r)).
Proof.
  intros Hd Hsec Lsec Bsec Hs Hp Hge Ho Hw Hb. cbn [read_sectors].
  destruct (WaitBSY_ok d) as (d1 & -> & E1); [by rewrite Hd | rewrite Hd; by apply work_patient |].
  cbn [negb].
  assert (En : the_drive d1 = set_now (DataIn (words sec) lba more) (settled (work Idle r))).
  { rewrite E1, Hd. unfold fetch. by rewrite Hsec. }
  destruct (WaitDRQ_ok d1) as (d2 & -> & E2); [by rewrite En | by rewrite En |].
  rewrite En. cbn [data_phase now set_now negb].
  destruct (words_bytes 256 sec Lsec Bsec) as [Wb Wu].
  rewrite (u32_small (s * 512)) by (zify_words; lia).
  destruct (read_words_ok buf (o + s * 512) d2 (words sec) lba more (settled (work Idle r)))
    as (d3 & -> & E3); [by rewrite E2, En | done | by apply words_length | done | lia | lia |].
  rewrite result_bind_Ok, Wb. by exists d3.
Qed.

Lemma work_settled r : patient r -> patient (settled (work Idle r)).
Proof. intros Hp. destruct (work_patient Idle r Hp). split; cbn; [lia | done]. Qed.

(** The loop over the sectors. *)
Lemma read_sectors_ok n k lba r buf o s d l :
  the_drive d = fetch lba n r -> platter r = k -> disk_fine k -> selected r = true -> patient r ->
  run k lba (S n) = Some l ->
  0 <= s -> 0 <= o -> (s + Z.of_nat (S n)) * 512 < 2 ^ 32 ->
  o + (s + Z.of_nat (S n)) * 512 <= Z.of_nat (length buf) ->
  exists d', read_sectors (S n) s buf o d =
      Ok (true, take (Z.to_nat (o + s * 512)) buf ++ mjoin l ++
                drop (Z.to_nat (o + (s + Z.of_nat (S n)) * 512)) buf, d') /\
    ready k (the_drive d').
Proof.
  revert lba r buf s d l. induction n as [|n IH]; intros lba r buf s d l Hd Hk Hf Hs Hp Hl Hge Ho Hw Hb;
    destruct (run_inv _ _ _ _ Hl) as (sec & rest & -> & Hsec & Hrest);
    destruct (Hf _ _ Hsec) as [Lsec Bsec].
  - destruct (read_step 0 0 lba r buf o s d sec) as (d3 & -> & E3);
      [done | by rewrite Hk | done | done | done | done | lia | lia | lia | lia |].
    assert (rest = []) as -> by (unfold run in Hrest; cbn in Hrest; by injection Hrest). exists d3. split.
    + cbn [read_sectors]. change (mjoin [sec]) with (sec ++ []). rewrite app_nil_r.
      replace (Z.to_nat (o + (s + Z.of_nat 1) * 512)) with (Z.to_nat (o + s * 512) + 512)%nat by lia. done.
    + rewrite E3. split; [done | done | by apply work_settled | by left].
  - destruct (read_step (S n) (S n) lba r buf o s d sec) as (d3 & -> & E3);
      [done | by rewrite Hk | done | done | done | done | lia | lia | lia | lia |].
    set (buf' := take _ buf ++ sec ++ drop _ buf).
    assert (Lb : length buf' = length buf).
    { unfold buf'. rewrite !length_app, length_take, length_drop. lia. }
    destruct (IH (lba + 1) (settled (work Idle r)) buf' (s + 1) d3 rest) as (d4 & E4 & R4);
      [by rewrite E3 | done | done | done | by apply work_settled | done | lia | lia | lia | rewrite Lb; lia |].
    exists d4. split; [|done]. rewrite E4. unfold buf'. do 3 f_equal.
    change (mjoin (sec :: rest)) with (sec ++ mjoin rest).
    set (pre := take (Z.to_nat (o + s * 512)) buf).
    assert (Lp : length pre = Z.to_nat (o + s * 512)) by (unfold pre; rewrite length_take; lia).
    rewrite (app_assoc pre), take_app_length' by (rewrite length_app; lia).
    rewrite drop_app_ge by (rewrite length_app; lia). rewrite drop_drop, <- !app_assoc.
    do 4 f_equal. rewrite length_app. lia.
Qed.

(** Starting a transfer from rest. *)
Lemma issue_start lba count c d k :
  ready k (the_drive d) -> is_u32 lba -> 1 <= count <= 256 ->
  exists d1 r, WaitBSY d = (true, d1) /\ the_drive (issue lba count c d1) = command (u8 c) r /\
    address r = lba28 lba /\ pred (sectors r) = Z.to_nat (count - 1) /\
    ready k r.
Proof.
  intros [Hk Hs Hp Hn] Hl Hc. destruct (WaitBSY_ok d Hs Hp) as (d1 & -> & E1).
  exists d1. eexists. split; [done|]. split; [apply issue_ok|]. rewrite E1. split; [|split; [|split]].
  - by apply (lba_registers (the_drive d)).
  - unfold sectors. cbn [r_count]. destruct (decide (count = 256)) as [->|]; [done|].
    rewrite (u8_small count), (u8_small count) by (zify_words; lia). destruct (Z.eqb_spec count 0); lia.
  - done.
  - unfold selected. cbn. by rewrite device_byte_master.
  - destruct Hp. split; cbn; [lia | done].
  - done.
Qed.

Lemma command_rest k r c :
  ready k r ->
  command c r = (if c =? 0x20 then fetch (address r) (pred (sectors r)) r
                 else if c =? 0x30 then offer (address r) (pred (sectors r)) r
                 else if c =? 0xEC then work (DataIn (identity r) 0 0) r
                 else if c =? 0xE7 then work Idle r else work Failed r).
Proof. intros [_ Hs _ Hn]. unfold command. rewrite Hs. by destruct Hn as [-> | ->]. Qed.

Lemma Read28_absent lba buf o d k :
  ready k (the_drive d) -> is_u32 lba -> k !! lba28 lba = None ->
  exists d', Read28 lba buf o 1 d = Ok (false, buf, d') /\ ready k (the_drive d').
Proof.
  intros Hr Hl Hk. destruct (issue_start lba 1 0x20 d k Hr Hl) as (d1 & r & Ew & Ei & Ea & En & Hr1); [lia|].
  unfold Read28. rewrite Ew. cbn [negb]. rewrite (command_rest k) in Ei by done.
  change (u8 0x20 =? 0x20) with true in Ei. cbn iota in Ei. unfold fetch in Ei.
  rewrite Ea, (rd_platter _ _ Hr1), Hk in Ei.
  change (Z.to_nat 1) with 1%nat. cbn [read_sectors].
  pose proof (rd_selected _ _ Hr1) as Hs1. pose proof (rd_patient _ _ Hr1) as Hp1.
  destruct (WaitBSY_ok (issue lba 1 0x20 d1)) as (d2 & -> & E2);
    [by rewrite Ei | rewrite Ei; by apply work_patient |]. cbn [negb]. rewrite Ei in E2.
  destruct (WaitDRQ_ok d2) as (d3 & -> & E3); [by rewrite E2 | by rewrite E2 |].
  rewrite E2. cbn. exists d3. split; [done|]. rewrite E3, E2.
  split; [apply Hr1 | done | by apply (work_settled r) | by right].
Qed.

Lemma Read28_present lba buf o count d k l :
  ready k (the_drive d) -> disk_fine k -> is_u32 lba -> 1 <= count <= 256 ->
  run k (lba28 lba) (Z.to_nat count) = Some l ->
  0 <= o -> o + count * 512 <= Z.of_nat (length buf) ->
  exists d', Read28 lba buf o count d =
      Ok (true, take (Z.to_nat o) buf ++ mjoin l ++ drop (Z.to_nat (o + count * 512)) buf, d') /\
    ready k (the_drive d').
Proof.
  intros Hr Hf Hl Hc Hrun Ho Hb.
  destruct (issue_start lba count 0x20 d k Hr Hl Hc) as (d1 & r & Ew & Ei & Ea & En & Hr1).
  unfold Read28. rewrite Ew. cbn [negb]. rewrite (command_rest k) in Ei by done.
  change (u8 0x20 =? 0x20) with true in Ei. cbn iota in Ei. rewrite Ea, En in Ei.
  destruct Hr1 as [Hk1 Hs1 Hp1 _].
  assert (Hn : Z.to_nat count = S (Z.to_nat (count - 1))) by lia. rewrite Hn in Hrun |- *.
  destruct (read_sectors_ok _ k (lba28 lba) r buf o 0 _ l Ei) as (d2 & -> & R2);
    [done.. | lia | lia | lia | lia |].
  exists d2. split; [|done]. rewrite Z.mul_0_l, Z.add_0_r, <- Hn, Z.add_0_l, Z2Nat.id by lia. done.
Qed.

Lemma write_words_ok buf o d ws more lba r :
  the_drive d = set_now (DataOut [] lba more) r ->
  ws = words (take 512 (drop (Z.to_nat o) buf)) -> is_bytes (take 512 (drop (Z.to_nat o) buf)) ->
  0 <= o -> o + 512 <= Z.of_nat (length buf) ->
  exists d', write_words buf o d = Ok d' /\ the_drive d' = after_out ws lba more r.
Proof.
  intros Hd -> Hb Ho Hl. unfold write_words. set (sec := take 512 (drop (Z.to_nat o) buf)) in *.
  assert (Lsec : length sec = 512%nat) by (unfold sec; rewrite length_take, length_drop; lia).
  pose proof (words_length 256 sec Lsec) as Lw. destruct (words_bytes 256 sec Lsec Hb) as [_ Hu].
  loop_with (fun i d => the_drive d = after_out (take (Z.to_nat i) (words sec)) lba more r) d' E HP.
  - lia.
  - done.
  - intros i d' Hi Ed.
    destruct (lookup_lt_is_Some_2 (words sec) (Z.to_nat i)) as [w Hw]; [lia|].
    assert (Hg : get16 buf (o + 2 * i) = Ok w).
    { rewrite words_pairs in Hw. unfold sec in Hw. rewrite !lookup_take, !lookup_drop in Hw.
      rewrite !decide_True in Hw by lia. unfold get16, arr_get.
      destruct (Z.ltb_spec (o + 2 * i) 0), (Z.ltb_spec (o + 2 * i + 1) 0); [lia..|].
      replace (Z.to_nat (o + 2 * i)) with (Z.to_nat o + 2 * Z.to_nat i)%nat by lia.
      replace (Z.to_nat (o + 2 * i + 1)) with (Z.to_nat o + (2 * Z.to_nat i + 1))%nat by lia.
      destruct (buf !! (Z.to_nat o + 2 * Z.to_nat i)%nat); cbn [mbind option_bind result_bind] in Hw |- *; [|done].
      destruct (buf !! (Z.to_nat o + (2 * Z.to_nat i + 1))%nat); cbn [mbind option_bind result_bind] in Hw |- *;
        [congruence | done]. }
    rewrite Hg. cbn [mbind result_bind]. eexists. split; [reflexivity|].
    unfold Port16Bit_Write. rewrite bus_out by (unfold ata_ports, data_port, command_port; lia).
    rewrite u16_small by (by apply (Forall_lookup_1 _ _ _ _ Hu Hw)). rewrite Ed.
    replace (Z.to_nat (i + 1)) with (S (Z.to_nat i)) by lia. rewrite (take_S_r _ _ _ Hw).
    unfold after_out at 1. rewrite decide_False by (rewrite length_take; lia).
    change (drive_out data_port w (set_now (DataOut (take (Z.to_nat i) (words sec)) lba more) r))
      with (after_out (take (Z.to_nat i) (words sec) ++ [w]) lba more
              (set_now (DataOut (take (Z.to_nat i) (words sec)) lba more) r)).
    unfold after_out. by case_decide; destruct more.
  - rewrite E. exists d'. split; [done|]. rewrite HP, (take_ge (words sec)) by lia. done.
Qed.

Lemma write_words_ignored buf o d r :
  the_drive d = r -> now r = Failed -> 0 <= o -> o + 512 <= Z.of_nat (length buf) ->
  exists d', write_words buf o d = Ok d' /\ the_drive d' = r.
Proof.
  intros Hd Hr Ho Hl. unfold write_words.
  loop_with (fun (_ : Z) d => the_drive d = r) d' E HP; [lia | done | | by exists d'].
  intros i d' Hi Ed. unfold get16.
  destruct (arr_get_in_range buf (o + 2 * i)) as [a ->]; [lia|].
  destruct (arr_get_in_range buf (o + 2 * i + 1)) as [b ->]; [lia|].
  cbn [mbind result_bind]. eexists. split; [reflexivity|]. unfold Port16Bit_Write.
  rewrite bus_out by (unfold ata_ports, data_port, command_port; lia). rewrite Ed. unfold drive_out. cbn. by rewrite Hr.
Qed.

(** One sector from the buffer to the drive, with the flush that follows it. *)
Lemma write_one lba buf o d r k :
  the_drive d = offer lba 0 r -> ready k r ->
  0 <= o -> o + 512 <= Z.of_nat (length buf) -> is_bytes (take 512 (drop (Z.to_nat o) buf)) ->
  exists d', write_sectors 1 0 buf o d = Ok d' /\
    ready (match k !! lba with
           | Some _ => <[lba := take 512 (drop (Z.to_nat o) buf)]> k
           | None => k
           end) (the_drive d').
Proof.
  intros Hd [Hk Hs Hp Hn] Ho Hl Hb. set (sec := take 512 (drop (Z.to_nat o) buf)) in *.
  assert (Lsec : length sec = 512%nat) by (unfold sec; rewrite length_take, length_drop; lia).
  cbn [write_sectors].
  destruct (WaitBSY_ok d) as (d1 & -> & E1); [by rewrite Hd | rewrite Hd; by apply work_patient |].
  destruct (WaitDRQ_ok d1) as (d2 & -> & E2); [by rewrite E1, Hd | by rewrite E1 |].
  change (u32 (0 * 512)) with 0. rewrite Z.add_0_r.
  assert (exists d3 r3, write_words buf o d2 = Ok d3 /\ the_drive d3 = r3 /\
    ready (match k !! lba with Some _ => <[lba := sec]> k | None => k end) r3) as (d3 & r3 & -> & E3 & H3).
  { rewrite Hd in E1. unfold offer in E1. rewrite Hk in E1. rewrite E1 in E2. destruct (k !! lba) eqn:Ek.
    - destruct (write_words_ok buf o d2 (words sec) 0 lba (settled (work Idle r))) as (d3 & -> & E3);
        [by rewrite E2 | done | done | lia | lia |].
      exists d3. eexists. split; [done|]. split; [exact E3|]. unfold after_out.
      rewrite decide_True by (by apply words_length).
      rewrite (proj1 (words_bytes 256 sec Lsec Hb)).
      split; [cbn; by rewrite Hk | done | | by left].
      apply (work_patient Idle), (work_settled r Hp).
    - destruct (write_words_ignored buf o d2 _ E2) as (d3 & -> & E3); [done | lia | lia |].
      exists d3. eexists. split; [done|]. split; [exact E3|].
      split; [done | done | by apply (work_settled r) | by right]. }
  rewrite result_bind_Ok.
  assert (E4 : the_drive (Port8Bit_Write command_port 0xE7 d3) = work Idle r3).
  { unfold Port8Bit_Write. rewrite bus_out by (unfold ata_ports, data_port, command_port; lia). rewrite E3.
    change (drive_out command_port (u8 0xE7) r3) with (command 0xE7 r3). by rewrite (command_rest _ _ _ H3). }
  destruct H3 as [Hk3 Hs3 Hp3 _].
  destruct (WaitBSY_ok (Port8Bit_Write command_port 0xE7 d3)) as (d5 & -> & E5);
    [by rewrite E4 | rewrite E4; by apply work_patient |].
  exists d5. split; [done|]. rewrite E5, E4.
  split; [done | done | by apply (work_settled r3) | by left].
Qed.

Lemma Write28_one lba buf o d k :
  ready k (the_drive d) -> is_u32 lba ->
  0 <= o -> o + 512 <= Z.of_nat (length buf) -> is_bytes (take 512 (drop (Z.to_nat o) buf)) ->
  exists d', Write28 lba buf o 1 d = Ok (true, d') /\
    ready (match k !! lba28 lba with
           | Some _ => <[lba28 lba := take 512 (drop (Z.to_nat o) buf)]> k
           | None => k
           end) (the_drive d').
Proof.
  intros Hr Hl Ho Hb Hbytes.
  destruct (issue_start lba 1 0x30 d k Hr Hl) as (d1 & r & Ew & Ei & Ea & En & Hr1); [lia|].
  unfold Write28. rewrite Ew. rewrite (command_rest k) in Ei by done.
  change (u8 0x30 =? 0x20) with false in Ei. change (u8 0x30 =? 0x30) with true in Ei.
  cbn iota in Ei. rewrite Ea, En in Ei.
  destruct (write_one (lba28 lba) buf o _ r k Ei) as (d2 & E2 & R2); [done.. |].
  change (Z.to_nat 1) with 1%nat. rewrite E2, result_bind_Ok. by exists d2.
Qed.

(** C24: One-sector transfers of the driver, on any machine whose ports lead to a drive that
    answers within the driver's patience (2^20 status reads), are exactly the sector
    reads and writes the file system is built on: [Read28] returns what [drive_read]
    returns and leaves the disk as it is, [Write28] leaves the disk [drive_write]
    computes, a sector that does not exist is reported by the read and not by the
    write, and the drive is ready again. *)
Theorem ata_implements_disk d k lba buf o :
  ready k (the_drive d) -> disk_fine k -> is_u32 lba ->
  is_bytes buf -> 0 <= o -> o + 512 <= Z.of_nat (length buf) ->
  (exists ok buf' d', drive_read k lba buf o = Ok (ok, buf') /\
     Read28 lba buf o 1 d = Ok (ok, buf', d') /\ ready k (the_drive d')) /\
  (exists ok k' d', drive_write k lba buf o = Ok (ok, k') /\
     Write28 lba buf o 1 d = Ok (ok, d') /\ ready k' (the_drive d') /\ disk_fine k').
Proof.
  intros Hr Hf Hl Hb Ho Hlen. split.
  - unfold drive_read. destruct (k !! lba28 lba) as [s|] eqn:Es.
    + destruct (Hf _ _ Es) as [Ls Bs]. rewrite put_bytes_ok by lia.
      destruct (Read28_present lba buf o 1 d k [s]) as (d' & E & R); [done | done | done | lia | | lia | lia |].
      { apply run_cons; [done | reflexivity]. }
      cbn [mbind result_bind]. do 3 eexists. split; [reflexivity|]. split; [|exact R]. rewrite E.
      change (mjoin [s]) with (s ++ []). rewrite app_nil_r, Ls.
      by replace (Z.to_nat (o + 1 * 512)) with (Z.to_nat o + 512)%nat by lia.
    + destruct (Read28_absent lba buf o d k) as (d' & E & R); [done..|]. eauto 10.
  - unfold drive_write, get_bytes. rewrite (proj2 (Z.leb_le 0 o)), (proj2 (Z.leb_le (o + 512) (Z.of_nat (length buf)))) by lia.
    cbn [andb mbind result_bind]. change (Z.to_nat 512) with 512%nat.
    destruct (Write28_one lba buf o d k) as (d' & E & R); [done | done | lia | lia | |].
    { by apply Forall_take, Forall_drop. }
    do 3 eexists. split; [reflexivity|]. split; [exact E|]. split; [exact R|].
    destruct (k !! lba28 lba); [|done]. apply map_Forall_insert_2; [|done].
    split; [rewrite length_take, length_drop; lia | by apply Forall_take, Forall_drop].
Qed.

Lemma Identify_ok buf d k :
  ready k (the_drive d) -> length (identity (the_drive d)) = 256%nat ->
  Forall is_u16 (identity (the_drive d)) -> length buf = 512%nat ->
  exists d', Identify buf d = Ok (true, unwords (identity (the_drive d)), d') /\ ready k (the_drive d').
Proof.
  intros [Hk Hs Hp Hn] Li Hi Hb. unfold Identify, master.
  set (r := the_drive d) in *. set (d0 := Port8Bit_Write command_port _ _).
  assert (E0 : exists r0, the_drive d0 = work (DataIn (identity r) 0 0) r0 /\ ready k r0) .
  { unfold d0, Port8Bit_Write. rewrite !bus_out by (unfold ata_ports, data_port, device_port, command_port; lia).
    fold r. set (r0 := drive_out device_port _ r). exists r0.
    assert (Hr0 : ready k r0) by (split; done).
    change (drive_out command_port (u8 0xEC) r0) with (command 0xEC r0).
    by rewrite (command_rest _ _ _ Hr0). }
  destruct E0 as (r0 & E0 & [Hk0 Hs0 Hp0 Hn0]).
  destruct (WaitBSY_ok d0) as (d1 & -> & E1); [by rewrite E0 | rewrite E0; by apply work_patient |].
  cbn [negb]. rewrite E0 in E1.
  destruct (bus_in8 command_port d1 0x48 (the_drive d1)) as (d2 & -> & E2).
  { unfold ata_ports, data_port, command_port. lia. }
  { rewrite E1. unfold drive_in. change (selected (settled (work (DataIn (identity r) 0 0) r0))) with (selected r0).
    by rewrite Hs0. }
  change (u8 0x48 =? 0) with false. cbn iota.
  destruct (WaitDRQ_ok d2) as (d3 & -> & E3); [by rewrite E2, E1 | by rewrite E2, E1 |].
  rewrite E2, E1. cbn [data_phase now settled set_busy work negb].
  destruct (read_words_ok buf 0 d3 (identity r) 0 0 (settled (work Idle r0))) as (d4 & -> & E4);
    [by rewrite E3, E2, E1 | done | done | done | lia | lia |].
  rewrite result_bind_Ok. change (Z.to_nat 0) with 0%nat. rewrite take_0, drop_ge by lia.
  rewrite app_nil_l, app_nil_r. exists d4. split; [done|]. rewrite E4.
  split; [done | done | by apply (work_settled r0) | by left].
Qed.

(** Transfers of up to 256 sectors: [Read28] delivers the consecutive sectors of the disk
    in order, storing nothing outside the part of the buffer they fill (the sector
    count register takes 256 as 0), and [Identify] delivers the identification the drive
    reports; the drive is ready afterwards and its contents are unchanged. *)
Theorem ata_reads d k lba buf o count l idbuf :
  ready k (the_drive d) -> disk_fine k -> is_u32 lba -> 1 <= count <= 256 ->
  run k (lba28 lba) (Z.to_nat count) = Some l ->
  0 <= o -> o + count * 512 <= Z.of_nat (length buf) ->
  length (identity (the_drive d)) = 256%nat -> Forall is_u16 (identity (the_drive d)) ->
  length idbuf = 512%nat ->
  (exists d', Read28 lba buf o count d =
      Ok (true, take (Z.to_nat o) buf ++ mjoin l ++ drop (Z.to_nat (o + count * 512)) buf, d') /\
    ready k (the_drive d')) /\
  (exists d', Identify idbuf d = Ok (true, unwords (identity (the_drive d)), d') /\
    ready k (the_drive d')).
Proof. intros. split; [by apply Read28_present | by apply Identify_ok]. Qed.
End driver.

(** ** No drive *)

Section no_drive.
Context {D : Type} `{PortIO D}.
(** The value of a bus nobody drives. *)
Context (floating : forall d, fst (inp 8 command_port d) = 0xFF).
Implicit Types (d : D) (buf : list Z).

Lemma poll_floating n test d :
  exists d', poll n test d = ((negb (Nat.eqb n 0)) && test 0xFF, d').
Proof using floating.
  revert d. induction n as [|n IH]; intros d; [by exists d|]. cbn [poll]. unfold Port8Bit_Read.
  pose proof (floating d) as E. destruct (inp 8 command_port d) as [v d']. cbn in E. subst v.
  change (u8 0xFF) with 0xFF. cbn [Nat.eqb negb andb]. destruct (test 0xFF); [by exists d'|].
  destruct (IH d') as [d'' ->]. exists d''. by rewrite andb_false_r.
Qed.

Lemma WaitBSY_floating d : exists d', WaitBSY d = (false, d').
Proof using floating.
  unfold WaitBSY. destruct (poll_floating (Z.to_nat 0x100000) (fun v => Z.land v 0x80 =? 0) d) as [d' ->].
  exists d'. by rewrite andb_false_r.
Qed.

Lemma write_words_in_range buf o d :
  0 <= o -> o + 512 <= Z.of_nat (length buf) -> exists d', write_words buf o d = Ok d'.
Proof.
  intros Ho Hl. unfold write_words. loop_with (fun (_ : Z) (_ : D) => True) d' E HP; [lia | done | | eauto].
  intros i d' Hi _. unfold get16.
  destruct (arr_get_in_range buf (o + 2 * i)) as [a ->]; [lia|].
  destruct (arr_get_in_range buf (o + 2 * i + 1)) as [b ->]; [lia|]. cbn. eauto.
Qed.

Lemma write_sectors_in_range n s buf o d :
  0 <= s -> 0 <= o -> (s + Z.of_nat n) * 512 <= 2 ^ 32 ->
  o + (s + Z.of_nat n) * 512 <= Z.of_nat (length buf) -> exists d', write_sectors n s buf o d = Ok d'.
Proof.
  revert s d. induction n as [|n IH]; intros s d Hs Ho Hw Hl; [by exists d|]. cbn [write_sectors].
  destruct (WaitBSY d) as [b1 d1]. destruct (WaitDRQ d1) as [b2 d2].
  rewrite (u32_small (s * 512)) by (zify_words; lia).
  destruct (write_words_in_range buf (o + s * 512) d2) as [d3 ->]; [lia | lia |]. rewrite result_bind_Ok.
  destruct (WaitBSY (Port8Bit_Write command_port 0xE7 d3)) as [b4 d4]. apply IH; lia.
Qed.

(** On a bus without a drive (every status read gives 0xFF) the waits give up after 2^20
    reads: [Identify] and [Read28] return false and leave the buffer alone, but
    [Write28] ignores the waits, sends the data to nobody and returns true. *)
Theorem ata_no_drive d lba buf o count :
  0 <= o -> 0 <= count -> count * 512 <= 2 ^ 32 -> o + count * 512 <= Z.of_nat (length buf) ->
  (exists d', Identify buf d = Ok (false, buf, d')) /\
  (exists d', Read28 lba buf o count d = Ok (false, buf, d')) /\
  (exists d', Write28 lba buf o count d = Ok (true, d')).
Proof using floating.
  intros Ho Hc Hw Hl. split; [|split].
  - unfold Identify. set (d0 := Port8Bit_Write command_port _ _).
    destruct (WaitBSY_floating d0) as [d' ->]. eauto.
  - unfold Read28. destruct (WaitBSY_floating d) as [d' ->]. eauto.
  - unfold Write28. destruct (WaitBSY d) as [b d0].
    destruct (write_sectors_in_range (Z.to_nat count) 0 buf o (issue lba count 0x30 d0)) as [d' ->];
      [lia | lia | lia | lia |]. rewrite result_bind_Ok. eauto.
Qed.
End no_drive.

(** ** Witnesses *)

Definition test_disk : disk := {[ 5 := replicate 512 7; 6 := replicate 512 8 ]}.
Definition test_drive : drive := mkDrive test_disk (replicate 256 0) 0 0 0 0 0 3 [2; 1]%nat Idle.

Lemma test_ready : ready test_disk test_drive.
Proof.
  split; [done | done | | by left]. split; [cbn; lia|].
  repeat (apply Forall_cons; split; [lia|]). apply Forall_nil. exact I.
Qed.

Lemma test_fine : disk_fine test_disk.
Proof.
  unfold test_disk, disk_fine. apply map_Forall_insert_2; [|apply map_Forall_singleton];
    (split; [apply length_replicate | apply Forall_replicate; zify_words; lia]).
Qed.

Lemma ata_implements_disk_witness :
  (exists ok buf' d', drive_read test_disk 5 (replicate 512 0) 0 = Ok (ok, buf') /\
     Read28 5 (replicate 512 0) 0 1 test_drive = Ok (ok, buf', d') /\ ready test_disk (the_drive d')) /\
  (exists ok k' d', drive_write test_disk 5 (replicate 512 0) 0 = Ok (ok, k') /\
     Write28 5 (replicate 512 0) 0 1 test_drive = Ok (ok, d') /\ ready k' (the_drive d') /\ disk_fine k').
Proof.
  apply (ata_implements_disk test_drive test_disk 5 (replicate 512 0) 0).
  - exact test_ready.
  - exact test_fine.
  - u32_lit.
  - apply Forall_replicate. zify_words. lia.
  - lia.
  - rewrite length_replicate. lia.
Defined.

Lemma ata_reads_witness :
  exists d', Read28 5 (replicate 1024 0) 0 2 test_drive =
    Ok (true, mjoin [replicate 512 7; replicate 512 8], d') /\ ready test_disk (the_drive d').
Proof.
  destruct (ata_reads test_drive test_disk 5 (replicate 1024 0) 0 2
              [replicate 512 7; replicate 512 8] (replicate 512 0)) as [(d' & E & R) _].
  - exact test_ready.
  - exact test_fine.
  - u32_lit.
  - lia.
  - reflexivity.
  - lia.
  - rewrite length_replicate. lia.
  - apply length_replicate.
  - apply Forall_replicate. zify_words. lia.
  - apply length_replicate.
  - exists d'. split; [|exact R]. rewrite E. rewrite drop_ge by (rewrite length_replicate; lia).
    by rewrite app_nil_r.
Defined.

#[local] Instance floating_bus : PortIO unit := { inp _ _ _ := (0xFF, tt); outp _ _ _ _ := tt }.

Lemma ata_no_drive_witness : exists d', Write28 0 (replicate 512 0) 0 1 tt = Ok (true, d').
Proof.
  apply (ata_no_drive (D := unit) (H := floating_bus) (fun _ => eq_refl) tt 0 (replicate 512 0) 0 1); [lia | lia | lia |].
  rewrite length_replicate. lia.
Defined.

End Ata.
