(* ===== verification/Drivers.v ===== *)
(** The driver manager and the set-up of the network card: src/src/drivers/driver.{h,cpp},
    src/src/drivers/rtl8139.{h,cpp} (constructor, reset, MAC read-out, [Activate]).

    Drivers are reached through pointers, an arbitrary type [P] here; what their virtual
    functions do is an argument of the manager, as it is in the code.  Sending and
    receiving frames is in NetStack.v and NetReceive.v. *)

From stdpp Require Import base numbers list gmap.
From Stdlib Require Import ZArith Lia.
From S2P Require Import Prelude Net Ports Console Vga.

Module Drivers.
Import Net Ports Console.

(** ** DriverManager *)

Definition MAX_DRIVERS : Z := 256.

Record DriverManager {P : Type} := mkDM { drivers : list (option P); count : Z }.
Arguments DriverManager : clear implicits.
Arguments mkDM {P} _ _.

Section manager.
Context {P S : Type}.
Implicit Types (m : DriverManager P) (p : P) (s : S).

(** [junk] is the array before the constructor's loop. *)
Definition DriverManager_new (junk : list (option P)) : result (DriverManager P) :=
  ds ← for_result 0 MAX_DRIVERS (fun i ds => arr_set ds i None) junk;
  Ok (mkDM ds 0).

Definition AddDriver m p : result (DriverManager P) :=
  if count m <? MAX_DRIVERS
  then ds ← arr_set (drivers m) (count m) (Some p); Ok (mkDM ds (count m + 1))
  else Ok m.

(** A virtual call through every pointer, in order. *)
Definition call_all m (method : P -> S -> result S) s : result S :=
  for_result 0 (count m) (fun i s =>
    d ← arr_get (drivers m) i;
    match d with Some p => method p s | None => Err BadPointer end) s.

Definition ActivateAll m (activate : P -> S -> result S) s : result S := call_all m activate s.
Definition DeactivateAll m (deactivate : P -> S -> result S) s : result S := call_all m deactivate s.

Definition Get m (index : Z) : result (option P) :=
  if (index <? 0) || (index >=? count m) then Ok None else arr_get (drivers m) index.

Definition Count m : Z := count m.

(** The manager holds the drivers [l]: these, in order, and no others. *)
Record manages m (l : list P) : Prop := {
  mg_size : length (drivers m) = 256%nat;
  mg_count : count m = Z.of_nat (length l);
  mg_slots : forall i, (i < 256)%nat -> drivers m !! i = Some (l !! i);
  mg_room : (length l <= 256)%nat;
}.

Lemma new_manages junk :
  length junk = 256%nat -> exists m, DriverManager_new junk = Ok m /\ manages m [].
Proof.
  intros Hj. unfold DriverManager_new. change MAX_DRIVERS with 256.
  rewrite fill_loop by (rewrite ?Hj; lia). cbn [mbind result_bind].
  eexists. split; [reflexivity|]. rewrite drop_ge by (rewrite Hj; lia).
  change (take (Z.to_nat 0) junk) with (@nil (option P)). rewrite app_nil_r, app_nil_l.
  split; cbn [drivers count].
  - apply length_replicate.
  - done.
  - intros i Hi. rewrite lookup_nil. apply lookup_replicate. split; [done | lia].
  - cbn. lia.
Qed.

Lemma AddDriver_manages m l p :
  manages m l ->
  exists m', AddDriver m p = Ok m' /\
    manages m' (if decide (length l < 256)%nat then l ++ [p] else l).
Proof.
  intros [Hs Hc Hl Hr]. unfold AddDriver. change MAX_DRIVERS with 256. case_decide.
  - rewrite (proj2 (Z.ltb_lt (count m) 256)) by lia. rewrite arr_set_in_range by lia.
    cbn [mbind result_bind]. eexists. split; [reflexivity|].
    rewrite Hc, Nat2Z.id. split; cbn [drivers count]; rewrite ?length_app, ?length_insert; cbn [length].
    + done.
    + lia.
    + intros i Hi. destruct (decide (i = length l)) as [->|Hne].
      * rewrite list_lookup_insert_eq by lia. by rewrite lookup_app_r, Nat.sub_diag by lia.
      * rewrite list_lookup_insert_ne, Hl by done. destruct (decide (i < length l)%nat).
        -- by rewrite lookup_app_l.
        -- rewrite (lookup_ge_None_2 (l ++ [p])) by (rewrite length_app; cbn; lia).
           by rewrite lookup_ge_None_2 by lia.
    + lia.
  - rewrite (proj2 (Z.ltb_ge (count m) 256)) by lia. exists m. split; [done|]. by split.
Qed.

Lemma call_all_fold m l (method : P -> S -> result S) s :
  manages m l -> call_all m method s = fold_result method l s.
Proof.
  intros [Hs Hc Hl Hr]. unfold call_all, for_result. rewrite Z.sub_0_r, Hc.
  enough (H : forall k r, l = k ++ r -> forall s,
    fold_result (fun i s => d ← arr_get (drivers m) i;
                            match d with Some p => method p s | None => Err BadPointer end)
      (seqZ (Z.of_nat (length k)) (Z.of_nat (length r))) s = fold_result method r s)
    by (by apply (H [] l)).
  intros k r. revert k. induction r as [|p r IH]; intros k E s'; [done|].
  assert (Hp : l !! length k = Some p) by (by rewrite E, lookup_app_r, Nat.sub_diag by lia).
  pose proof (lookup_lt_Some _ _ _ Hp) as Hlt.
  cbn [length]. rewrite seqZ_cons by lia. cbn [fold_result].
  rewrite (proj2 (arr_get_Ok (drivers m) (Z.of_nat (length k)) (Some p))).
  2:{ split; [lia|]. rewrite Nat2Z.id, Hl, Hp by lia. done. }
  cbn [mbind result_bind]. destruct (method p s') as [s1|]; [|done]. cbn [mbind result_bind].
  specialize (IH (k ++ [p])). rewrite <- (IH ltac:(by rewrite <- app_assoc) s1).
  do 2 f_equal; [rewrite length_app; cbn |]; lia.
Qed.

Lemma Get_manages m l i :
  manages m l -> Get m i = Ok (if 0 <=? i then l !! Z.to_nat i else None).
Proof.
  intros [Hs Hc Hl Hr]. unfold Get. rewrite Z.geb_leb.
  destruct (Z.ltb_spec i 0), (Z.leb_spec 0 i), (Z.leb_spec (count m) i); cbn [orb]; try lia; try done.
  - rewrite lookup_ge_None_2 by lia. done.
  - apply arr_get_Ok. split; [done|]. apply Hl. lia.
Qed.
End manager.

(** Adding drivers one after another. *)
Definition add_all {P : Type} (ps : list P) (m : DriverManager P) : result (DriverManager P) :=
  fold_result (fun p m => AddDriver m p) ps m.

Lemma add_all_manages {P : Type} (ps : list P) m l :
  manages m l -> exists m', add_all ps m = Ok m' /\ manages m' (take 256 (l ++ ps)).
Proof.
  revert m l. induction ps as [|p ps IH]; intros m l Hm.
  - exists m. rewrite app_nil_r, take_ge by apply Hm. done.
  - unfold add_all in *. cbn [fold_result]. destruct (AddDriver_manages m l p Hm) as (m1 & -> & H1).
    cbn [mbind result_bind]. destruct (IH m1 _ H1) as (m' & E & H'). exists m'. split; [done|].
    case_decide as Hd.
    + by rewrite <- app_assoc in H'.
    + assert (Hl : length l = 256%nat) by (pose proof (mg_room _ _ Hm); lia).
      rewrite take_app_length' in H' |- * by lia. done.
Qed.

(** The driver manager is a list of at most 256 drivers: after any sequence of
    additions it holds the first 256 in order, [Get] returns the one with that index and
    null for any other index, and [ActivateAll] calls each once, in the order of their
    addition, stopping at the first that fails. *)
Theorem driver_manager_is_list {P S : Type} junk (ps : list P) (activate : P -> S -> result S) :
  length junk = 256%nat ->
  exists m0 m, DriverManager_new junk = Ok m0 /\ add_all ps m0 = Ok m /\
    Count m = Z.min 256 (Z.of_nat (length ps)) /\
    (forall i, Get m i = Ok (if (0 <=? i) && (i <? 256) then ps !! Z.to_nat i else None)) /\
    (forall s, ActivateAll m activate s = fold_result activate (take 256 ps) s) /\
    (forall s, DeactivateAll m activate s = fold_result activate (take 256 ps) s).
Proof.
  intros Hj. destruct (new_manages junk Hj) as (m0 & E0 & H0).
  destruct (add_all_manages ps m0 [] H0) as (m & E & Hm). exists m0, m.
  split; [done|]. split; [done|]. rewrite app_nil_l in Hm.
  split; [unfold Count; rewrite (mg_count _ _ Hm), length_take; lia|].
  split; [|split; intros s; by apply call_all_fold].
  intros i. rewrite (Get_manages m _ i Hm), lookup_take.
  destruct (Z.leb_spec 0 i), (Z.ltb_spec i 256); cbn [andb]; try done.
  - by rewrite decide_True by lia.
  - by rewrite decide_False by lia.
Qed.

Lemma driver_manager_is_list_witness :
  exists m0 m, DriverManager_new (replicate 256 (Some 9)) = Ok m0 /\ add_all [4; 5] m0 = Ok m /\
    Count m = 2 /\ Get m 1 = Ok (Some 5) /\ Get m 2 = Ok None /\
    ActivateAll m (fun p s => Ok (s ++ [p])) [] = Ok [4; 5].
Proof.
  destruct (driver_manager_is_list (replicate 256 (Some 9)) [4; 5] (fun p s => Ok (s ++ [p])))
    as (m0 & m & E0 & E & Hc & Hg & Ha & _).
  - apply length_replicate.
  - exists m0, m. split; [exact E0|]. split; [exact E|]. split; [exact Hc|].
    split; [exact (Hg 1)|]. split; [exact (Hg 2) | exact (Ha [])].
Defined.

End Drivers.
