(* ===== verification/Rtl8139.v ===== *)
(** Setting up the network card: src/src/drivers/rtl8139.{h,cpp}, the constructor, [HwReset],
    [ReadMAC] and [Activate].  Sending and receiving frames is in NetStack.v and
    NetReceive.v.

    [card] is what the driver relies on of the card: station address registers, a reset
    bit that clears itself, and registers that keep what is written. *)

From stdpp Require Import base numbers list gmap.
From Stdlib Require Import ZArith Lia.
From S2P Require Import Prelude Net Ports Console Vga.

Module Rtl.
Import Net Ports Console.

(** ** The code *)

(** [rx_buffer_addr] is the address of the static receive buffer. *)
Record RTL8139Driver := mkRtl { port_base0 : Z; mac : list Z; rx_read_ptr : Z }.

Definition io_base (r : RTL8139Driver) : Z := u16 (port_base0 r).
Definition cr_port (r : RTL8139Driver) : Z := u16 (port_base0 r + 0x37).
Definition isr_port (r : RTL8139Driver) : Z := u16 (port_base0 r + 0x3E).
Definition imr_port (r : RTL8139Driver) : Z := u16 (port_base0 r + 0x3C).
Definition rbstart_port (r : RTL8139Driver) : Z := u16 (port_base0 r + 0x30).
Definition tcr_port (r : RTL8139Driver) : Z := u16 (port_base0 r + 0x40).
Definition rcr_port (r : RTL8139Driver) : Z := u16 (port_base0 r + 0x44).
Definition config1_port (r : RTL8139Driver) : Z := u16 (port_base0 r + 0x50).
Definition capr_port (r : RTL8139Driver) : Z := u16 (port_base0 r + 0x3A).

(** The constructor also resets the static [tx_current], the second component; [mac0] is
    the uninitialised address. *)
Definition RTL8139Driver_new (port_base : Z) (mac0 : list Z) : RTL8139Driver * Z :=
  (mkRtl port_base mac0 0, 0).

(** "RTL8139: MAC ", ":" and "\n" *)
Definition msg_mac : list Z := [82; 84; 76; 56; 49; 51; 57; 58; 32; 77; 65; 67; 32].
Definition colon : list Z := [58].
Definition newline : list Z := [10].

Section code.
Context {D : Type} `{PortIO D}.
Implicit Types (d : D) (r : RTL8139Driver).

(** [for (i = 0; i < n && (cr_port.Read() & 0x10); i++);] *)
Fixpoint wait_reset (n : nat) r d : D :=
  match n with
  | O => d
  | S n => let '(v, d) := Port8Bit_Read (cr_port r) d in
           if Z.land v 0x10 =? 0 then d else wait_reset n r d
  end.

Definition HwReset r d : D :=
  wait_reset (Z.to_nat 0x100000) r (Port8Bit_Write (cr_port r) 0x10 d).

Definition ReadMAC r d : result (RTL8139Driver * D) :=
  '(m, d) ← for_result 0 6 (fun i '(m, d) =>
    let '(v, d) := Port8Bit_Read (u16 (io_base r + i)) d in
    m ← arr_set m i v; Ok (m, d)) (mac r, d);
  Ok (mkRtl (port_base0 r) m (rx_read_ptr r), d).

Definition print_mac (m : list Z) (v : Vga.vga) : result Vga.vga :=
  for_result 0 6 (fun i v =>
    x ← arr_get m i;
    v ← Vga.PrintHex v x;
    if i <? 5 then Vga.Print v (colon ++ [0]) else Ok v) v.

Definition Activate (rx_buffer_addr : Z) r (v : Vga.vga) d : result (RTL8139Driver * Vga.vga * D) :=
  let d := HwReset r d in
  '(r, d) ← ReadMAC r d;
  let d := Port32Bit_Write (rbstart_port r) rx_buffer_addr d in
  let d := Port8Bit_Write (config1_port r) 0x00 d in
  let d := Port8Bit_Write (cr_port r) 0x0C d in
  let d := Port32Bit_Write (rcr_port r) (Z.lor 0x0F (Z.shiftl 1 7)) d in
  let d := Port32Bit_Write (tcr_port r) 0x00 d in
  let d := Port16Bit_Write (imr_port r) 0x0005 d in
  v ← Vga.Print v (msg_mac ++ [0]);
  v ← print_mac (mac r) v;
  v ← Vga.Print v (newline ++ [0]);
  Ok (r, v, d).
End code.

(** ** The card *)

(** [resetting] status reads still find the reset bit set. *)
Record card := mkCard {
  station : list Z;
  regs : gmap Z Z;
  resetting : nat;
  reset_time : nat;
}.

Section card.
Context (base : Z).

Definition card_in (p : Z) (c : card) : Z * card :=
  let o := p - base in
  if o =? 0x37 then
    match resetting c with
    | O => (default 0 (regs c !! 0x37), c)
    | S n => (0x10, mkCard (station c) (regs c) n (reset_time c))
    end
  else if (0 <=? o) && (o <? 6) then (station c !!! Z.to_nat o, c)
  else (default 0 (regs c !! o), c).

Definition card_out (p v : Z) (c : card) : card :=
  let o := p - base in
  if (o <? 0) || (256 <=? o) then c
  else if (o =? 0x37) && Z.testbit v 4 then mkCard (station c) ∅ (reset_time c) (reset_time c)
  else mkCard (station c) (<[o := v]> (regs c)) (resetting c) (reset_time c).

#[export] Instance card_ports : PortIO card := {
  inp _ p c := card_in p c;
  outp _ p v c := card_out p v c;
}.

Definition card_range (p : Z) : Prop := base <= p < base + 256.

#[export] Instance card_self : Attached card card card_range.
Proof.
  refine {| view c := c |}; [done | done |].
  intros n p v c Hp. unfold card_range in Hp. cbn. unfold card_out, card_in. split; case_tests.
Defined.

(** ** The set-up on a card *)

Context {D : Type} `{PortIO D} `{!Attached D card card_range}.
Context (Hbase : 0 <= base <= 0xFF00).
Implicit Types (d : D) (r : RTL8139Driver).

Lemma port_at r o : port_base0 r = base -> 0 <= o < 256 -> u16 (port_base0 r + o) = base + o.
Proof using Hbase. intros -> Ho. apply u16_small. zify_words. lia. Qed.

Lemma wait_reset_ok n r d :
  port_base0 r = base -> (resetting (view d) < n)%nat -> regs (view d) !! 0x37 = None ->
  view (wait_reset n r d) = mkCard (station (view d)) (regs (view d)) 0 (reset_time (view d)).
Proof using Hbase.
  intros Hr. revert d. induction n as [|n IH]; intros d Hn Hc; [lia|]. cbn [wait_reset].
  unfold cr_port. rewrite port_at by (done || lia).
  assert (Hi : forall c, card_in (base + 0x37) c = match resetting c with
    | O => (default 0 (regs c !! 0x37), c)
    | S n => (0x10, mkCard (station c) (regs c) n (reset_time c)) end).
  { intros c. unfold card_in. replace (base + 0x37 - base) with 0x37 by lia. done. }
  assert (Hp : card_range (base + 0x37)) by (unfold card_range; lia).
  destruct (resetting (view d)) as [|k] eqn:Ek.
  - destruct (read8 (base + 0x37) d 0 (view d) Hp) as (d' & -> & E).
    { cbn. by rewrite Hi, Ek, Hc. }
    change (Z.land (u8 0) 0x10 =? 0) with true. cbn iota. rewrite E, <- Ek. by destruct (view d).
  - destruct (read8 (base + 0x37) d 0x10 (mkCard (station (view d)) (regs (view d)) k (reset_time (view d))) Hp)
      as (d' & -> & E).
    { cbn. by rewrite Hi, Ek. }
    change (Z.land (u8 0x10) 0x10 =? 0) with false. cbn iota.
    rewrite IH; rewrite E; cbn; [done | lia | done].
Qed.

Lemma HwReset_ok r d :
  port_base0 r = base -> Z.of_nat (reset_time (view d)) < 0x100000 ->
  view (HwReset r d) = mkCard (station (view d)) ∅ 0 (reset_time (view d)).
Proof using Hbase.
  intros Hr Ht. unfold HwReset.
  assert (E : view (Port8Bit_Write (cr_port r) 0x10 d) =
              mkCard (station (view d)) ∅ (reset_time (view d)) (reset_time (view d))).
  { unfold cr_port. rewrite port_at by (done || lia). rewrite write8 by (unfold card_range; lia).
    unfold Port8Bit_Write. cbn. unfold card_out. replace (base + 0x37 - base) with 0x37 by lia. done. }
  rewrite wait_reset_ok; rewrite ?E; cbn; [done | done | lia | done].
Qed.

Lemma ReadMAC_ok r d :
  port_base0 r = base -> length (mac r) = 6%nat -> length (station (view d)) = 6%nat ->
  is_bytes (station (view d)) ->
  exists d', ReadMAC r d = Ok (mkRtl base (station (view d)) (rx_read_ptr r), d') /\ view d' = view d.
Proof using Hbase.
  intros Hr Hm Hs Hb. unfold ReadMAC, io_base.
  loop_with (fun i (s : list Z * D) => fst s = take (Z.to_nat i) (station (view d)) ++ drop (Z.to_nat i) (mac r) /\
    view (snd s) = view d) s E HP.
  - lia.
  - done.
  - intros i [m d'] Hi [Em Ed]. cbn [fst snd] in Em, Ed.
    assert (Ep : u16 (u16 (port_base0 r) + i) = base + i).
    { rewrite Hr, (u16_small base) by (zify_words; lia). apply u16_small. zify_words. lia. }
    destruct (lookup_lt_is_Some_2 (station (view d)) (Z.to_nat i)) as [x Hx]; [lia|].
    rewrite Ep. destruct (read8 (base + i) d' x (view d)) as (d'' & -> & Ed').
    { unfold card_range. lia. }
    { rewrite Ed. cbn. unfold card_in. replace (base + i - base) with i by lia.
      case_tests. by rewrite (list_lookup_total_correct _ _ _ Hx). }
    rewrite u8_small by (by apply (Forall_lookup_1 _ _ _ _ Hb Hx)).
    rewrite arr_set_in_range.
    2:{ rewrite Em, length_app, length_take, length_drop. lia. }
    cbn [mbind result_bind]. eexists. split; [reflexivity|]. cbn [fst snd]. split; [|done].
    rewrite Em, insert_app_r_alt by (rewrite length_take; lia).
    rewrite length_take, Nat.min_l, Nat.sub_diag by lia.
    replace (Z.to_nat (i + 1)) with (S (Z.to_nat i)) by lia. rewrite (take_S_r _ _ _ Hx), <- app_assoc.
    destruct (lookup_lt_is_Some_2 (mac r) (Z.to_nat i)) as [y Hy]; [lia|]. by rewrite (drop_S _ _ _ Hy).
  - rewrite E. destruct s as [m d']. cbn [fst snd] in HP. destruct HP as [Em Ed].
    cbn [mbind result_bind]. exists d'. split; [|done]. rewrite Hr, Em, take_ge, drop_ge by lia.
    by rewrite app_nil_r.
Qed.

(** The line the driver prints. *)
Definition mac_text (m : list Z) : list Z :=
  mjoin (imap (fun i x => Vga.hex_digits 2 x ++ if decide (i < 5)%nat then colon else []) m).

Lemma print_mac_text m v :
  length m = 6%nat -> is_bytes m -> print_mac m v = put_all (mac_text m) v.
Proof.
  intros Hl Hb. destruct m as [|x0 [|x1 [|x2 [|x3 [|x4 [|x5 [|]]]]]]]; try done.
  repeat (apply Forall_cons in Hb as [? Hb]).
  assert (Step : forall x v, is_u8 x ->
    (v ← Vga.PrintHex v x; Vga.Print v (colon ++ [0])) = put_all (Vga.hex_digits 2 x ++ colon) v).
  { intros x v' Hx. rewrite Vga.put_all_app, Vga.PrintHex_digits by done.
    destruct (put_all _ v'); [|done]. cbn [mbind result_bind]. apply Vga.Print_put_all. by constructor. }
  assert (Last : forall x v, is_u8 x ->
    (v ← Vga.PrintHex v x; Ok v) = put_all (Vga.hex_digits 2 x) v).
  { intros x v' Hx. rewrite Vga.PrintHex_digits by done. by destruct (put_all _ v'). }
  change (mac_text [x0; x1; x2; x3; x4; x5]) with
    ((Vga.hex_digits 2 x0 ++ colon) ++ (Vga.hex_digits 2 x1 ++ colon) ++ (Vga.hex_digits 2 x2 ++ colon) ++
     (Vga.hex_digits 2 x3 ++ colon) ++ (Vga.hex_digits 2 x4 ++ colon) ++ (Vga.hex_digits 2 x5 ++ []) ++ []).
  rewrite !app_nil_r.
  transitivity (fold_result (fun x v => put_all x v)
    [Vga.hex_digits 2 x0 ++ colon; Vga.hex_digits 2 x1 ++ colon; Vga.hex_digits 2 x2 ++ colon;
     Vga.hex_digits 2 x3 ++ colon; Vga.hex_digits 2 x4 ++ colon; Vga.hex_digits 2 x5] v).
  - cbn [fold_result]. rewrite <- !Step by done.
    change (print_mac [x0; x1; x2; x3; x4; x5] v) with
      (v ← (v ← Vga.PrintHex v x0; Vga.Print v (colon ++ [0]));
       v ← (v ← Vga.PrintHex v x1; Vga.Print v (colon ++ [0]));
       v ← (v ← Vga.PrintHex v x2; Vga.Print v (colon ++ [0]));
       v ← (v ← Vga.PrintHex v x3; Vga.Print v (colon ++ [0]));
       v ← (v ← Vga.PrintHex v x4; Vga.Print v (colon ++ [0]));
       v ← (v ← Vga.PrintHex v x5; Ok v); Ok v).
    do 5 (rewrite Step by done; destruct (put_all _ _) as [?v|]; [|done]; cbn [mbind result_bind]).
    rewrite Last by done. done.
  - cbn [fold_result]. rewrite !Vga.put_all_app. repeat (destruct (put_all _ _) as [?v|]; [|done]; cbn [mbind result_bind];
      rewrite ?Vga.put_all_app). done.
Qed.

Lemma mac_text_bytes m : is_bytes (mac_text m).
Proof.
  unfold mac_text. apply Forall_join, Forall_forall. intros l (i & x & -> & _)%elem_of_lookup_imap.
  apply Forall_app. split.
  - eapply Forall_impl; [apply Vga.hex_digits_range|]. intros c Hc. cbn in Hc. zify_words. lia.
  - case_decide; [|done]. repeat constructor; zify_words; lia.
Qed.

(** A write to a register of the card, other than a reset. *)
Lemma store n o v d :
  0 <= o < 256 -> (o =? 0x37) && Z.testbit v 4 = false ->
  view (outp n (base + o) v d) =
  mkCard (station (view d)) (<[o := v]> (regs (view d))) (resetting (view d)) (reset_time (view d)).
Proof.
  intros Ho Hv. rewrite attached_out by (unfold card_range; lia). cbn.
  unfold card_out. replace (base + o - base) with o by lia. rewrite Hv. case_tests.
Qed.

(** Activating the network card leaves it reset, with the receive buffer at the given
    address, receiver and transmitter enabled (0x0C), every frame accepted into a
    wrapping buffer (0x8F), and the receive and transmit interrupts unmasked (0x05); no
    other register is written; the driver holds the card's station address, and the
    screen shows it in hexadecimal.  This holds for every card whose reset ends within
    2^20 reads of its command register. *)
Theorem rtl_activate r d v p rx_addr :
  port_base0 r = base -> length (mac r) = 6%nat -> length (station (view d)) = 6%nat ->
  is_bytes (station (view d)) -> Z.of_nat (reset_time (view d)) < 0x100000 -> is_u32 rx_addr ->
  shows 80 25 p (Vga.buffer v) (Vga.cursor v) ->
  exists v' d', Activate rx_addr r v d = Ok (mkRtl base (station (view d)) (rx_read_ptr r), v', d') /\
    view d' = mkCard (station (view d))
      {[ 0x30 := rx_addr; 0x50 := 0; 0x37 := 0x0C; 0x44 := 0x8F; 0x40 := 0; 0x3C := 5 ]} 0 (reset_time (view d)) /\
    put_all (msg_mac ++ mac_text (station (view d)) ++ newline) v = Ok v'.
Proof using Hbase.
  intros Hr Hm Hs Hb Ht Hx Hv. unfold Activate.
  pose proof (HwReset_ok r d Hr Ht) as E0. set (d0 := HwReset r d) in *.
  destruct (ReadMAC_ok r d0 Hr Hm) as (d1 & -> & E1); [by rewrite E0 | by rewrite E0 |].
  rewrite result_bind_Ok. rewrite E0 in E1 |- *. cbn [station] in *.
  set (r' := mkRtl base (station (view d)) (rx_read_ptr r)). cbn [mac].
  assert (Hp : forall o, 0 <= o < 256 -> u16 (base + o) = base + o) by (intros; apply u16_small; zify_words; lia).
  set (d6 := Port16Bit_Write _ _ _).
  assert (E6 : view d6 = mkCard (station (view d))
      {[ 0x30 := rx_addr; 0x50 := 0; 0x37 := 0x0C; 0x44 := 0x8F; 0x40 := 0; 0x3C := 5 ]} 0 (reset_time (view d))).
  { unfold d6, rbstart_port, config1_port, cr_port, rcr_port, tcr_port, imr_port.
    cbn [port_base0 r']. rewrite !Hp by lia. unfold Port8Bit_Write, Port16Bit_Write, Port32Bit_Write.
    rewrite !store by (done || lia). rewrite E1. cbn [station regs resetting reset_time].
    rewrite (u32_small rx_addr) by done. reflexivity. }
  rewrite Vga.Print_put_all by (by repeat constructor).
  destruct (put_all_shows (Console0 := Vga.vga_console) v p
    (msg_mac ++ mac_text (station (view d)) ++ newline)) as (v' & Ev & _); [|done | done |].
  { apply Forall_app. split; [by repeat (constructor; [zify_words; lia|])|].
    apply Forall_app. split; [by apply mac_text_bytes | by repeat (constructor; [zify_words; lia|])]. }
  exists v', d6. split; [|done]. rewrite !Vga.put_all_app in Ev.
  destruct (put_all msg_mac v) as [v1|]; [|done]. cbn [mbind result_bind] in Ev |- *.
  rewrite Vga.put_all_app in Ev. rewrite print_mac_text by done.
  destruct (put_all (mac_text _) v1) as [v2|]; [|done]. cbn [mbind result_bind] in Ev |- *.
  rewrite Vga.Print_put_all by (by repeat constructor). by rewrite Ev.
Qed.
End card.

Lemma rtl_activate_witness :
  exists v' d', Activate 0x5000 (mkRtl 0xC000 [0; 0; 0; 0; 0; 0] 0) (Vga.mkVga (replicate 2000 0) 0 7 false)
      (D := card) (H := card_ports 0xC000) (mkCard [0x52; 0x54; 0; 0x12; 0x34; 0x56] ∅ 0 9) =
    Ok (mkRtl 0xC000 [0x52; 0x54; 0; 0x12; 0x34; 0x56] 0, v', d') /\
    regs d' !! 0x37 = Some 0x0C.
Proof.
  destruct (rtl_activate 0xC000 (D := card) (H := card_ports 0xC000) ltac:(lia)
    (mkRtl 0xC000 [0; 0; 0; 0; 0; 0] 0) (mkCard [0x52; 0x54; 0; 0x12; 0x34; 0x56] ∅ 0 9)
    (Vga.mkVga (replicate 2000 0) 0 7 false) (mkPaper (replicate 2000 0) 0) 0x5000) as (v' & d' & E & Ed & _).
  - reflexivity.
  - reflexivity.
  - reflexivity.
  - repeat (apply Forall_cons; split; [zify_words; lia|]). apply Forall_nil. exact I.
  - cbn. lia.
  - u32_lit.
  - split; [split|..].
    + exists 25. reflexivity.
    + unfold bottom. cbn [sheet]. rewrite length_replicate. lia.
    + unfold top, bottom. cbn [sheet pen]. rewrite length_replicate. lia.
    + unfold top, bottom. cbn [sheet]. rewrite length_replicate. reflexivity.
    + unfold top, bottom. cbn [sheet pen Vga.cursor]. rewrite length_replicate. reflexivity.
  - exists v', d'. split; [exact E|]. cbn in Ed. rewrite Ed. reflexivity.
Defined.

End Rtl.
