(* ===== verification/Pci.v ===== *)
(** The PCI bus: src/src/drivers/pci.{h,cpp}.

    Probing goes through the configuration ports 0xCF8 and 0xCFC.  [pci] is the
    configuration mechanism of the bus: an address latch and 64 registers for every
    function that is present, reads of absent functions giving all ones.  Only the
    writable bits of a base address register keep what is written, from which the
    driver computes the size of the region. *)

From stdpp Require Import base numbers list gmap.
From Stdlib Require Import ZArith Lia.
From S2P Require Import Prelude Net Cpu Ports Console Vga Drivers Rtl8139.

Module Pci.
Import Net Ports Console Drivers.

(** ** The code *)

Record PCIDeviceDescriptor := mkDesc {
  port_base : list Z;
  mem_base : list Z;
  port_base_is_io : list bool;
  bar_size : list Z;
  bus : Z;
  device : Z;
  function : Z;
  vendor_id : Z;
  device_id : Z;
  class_id : Z;
  subclass_id : Z;
  interface_id : Z;
  revision : Z;
  interrupt : Z;
}.

(** The four arrays of the descriptor, filled by the loop over the base addresses. *)
Record bars := mkBars { b_port : list Z; b_mem : list Z; b_io : list bool; b_size : list Z }.

Definition data_port : Z := 0x0CFC.
Definition address_port : Z := 0x0CF8.

Definition config_address (bus device func offset : Z) : Z :=
  Z.lor (Z.lor (Z.lor (Z.lor 0x80000000 (u32 (Z.shiftl bus 16))) (u32 (Z.shiftl device 11)))
               (u32 (Z.shiftl func 8)))
        (Z.land offset 0xFC).

(** The driver objects: what [new] returns is the number of the object. *)
Inductive driver := DAta | DRtl (r : Rtl.RTL8139Driver).

Section code.
Context {D : Type} `{PortIO D}.
Implicit Types (d : D).

Definition Read (bus device func offset : Z) d : Z * D :=
  let d := Port32Bit_Write address_port (config_address bus device func offset) d in
  let '(v, d) := Port32Bit_Read data_port d in
  (Z.shiftr v (8 * (offset mod 4)), d).

Definition Write (bus device func offset value : Z) d : D :=
  let d := Port32Bit_Write address_port (config_address bus device func offset) d in
  Port32Bit_Write data_port value d.

Definition DeviceHasFunctions (bus device : Z) d : bool * D :=
  let '(v, d) := Read bus device 0 0x0E d in
  (negb (Z.land v (Z.shiftl 1 7) =? 0), d).

(** One turn of the loop: base address register [i]. *)
Definition probe_bar (bus device func i : Z) (b : bars) d : result (bars * D) :=
  pb ← arr_set (b_port b) i 0;
  mb ← arr_set (b_mem b) i 0;
  io ← arr_set (b_io b) i false;
  sz ← arr_set (b_size b) i 0;
  let offset := 0x10 + i * 4 in
  let '(bar, d) := Read bus device func offset d in
  if bar =? 0 then Ok (mkBars pb mb io sz, d)
  else if negb (Z.land bar 0x1 =? 0) then
    io ← arr_set io i true;
    pb ← arr_set pb i (Z.land bar 0xFFFFFFFC);
    let d := Write bus device func offset 0xFFFFFFFF d in
    let '(sized, d) := Read bus device func offset d in
    let d := Write bus device func offset bar d in
    sz ← arr_set sz i (u32 (not32 (Z.land sized 0xFFFFFFFC) + 1));
    Ok (mkBars pb mb io sz, d)
  else
    io ← arr_set io i false;
    mb ← arr_set mb i (Z.land bar 0xFFFFFFF0);
    let d := Write bus device func offset 0xFFFFFFFF d in
    let '(sized, d) := Read bus device func offset d in
    let d := Write bus device func offset bar d in
    sz ← arr_set sz i (u32 (not32 (Z.land sized 0xFFFFFFF0) + 1));
    Ok (mkBars pb mb io sz, d).

(** [b0] is what the arrays of the local [result] hold at first. *)
Definition GetDeviceDescriptor (b0 : bars) (bus device func : Z) d : result (PCIDeviceDescriptor * D) :=
  let '(vendor, d) := Read bus device func 0x00 d in
  let '(dev, d) := Read bus device func 0x02 d in
  let '(cls, d) := Read bus device func 0x0B d in
  let '(sub, d) := Read bus device func 0x0A d in
  let '(itf, d) := Read bus device func 0x09 d in
  let '(rev, d) := Read bus device func 0x08 d in
  let '(int, d) := Read bus device func 0x3C d in
  '(b, d) ← for_result 0 6 (fun i '(b, d) => probe_bar bus device func i b d) (b0, d);
  Ok (mkDesc (b_port b) (b_mem b) (b_io b) (b_size b) bus device func
        (u16 vendor) (u16 dev) (u8 cls) (u8 sub) (u8 itf) (u8 rev) (u8 int), d).

(** What probing works on: the ports, the screen, the interrupt manager, the driver
    objects made so far and the driver manager.  Interrupt handlers of the kernel are
    of type [Hd]; [as_handler] is a driver object seen as one. *)
Context {Hd : Type} (as_handler : nat -> Hd) (mac0 : list Z) (b0 : bars).

Record probe := mkProbe {
  ports : D;
  screen : Vga.vga;
  interrupts : Cpu.InterruptManager Hd;
  objs : list driver;
  manager : DriverManager nat;
  tx_current : Z;
}.

Definition GetDriver (desc : PCIDeviceDescriptor) (s : probe) : result (option nat * probe) :=
  let this := length (objs s) in
  let offset := Cpu.hardware_interrupt_offset (interrupts s) in
  if (class_id desc =? 0x01) && (subclass_id desc =? 0x01) then
    im ← Cpu.InterruptHandler_new (interrupts s) (as_handler this) (u8 (offset + 14));
    Ok (Some this, mkProbe (ports s) (screen s) im (objs s ++ [DAta]) (manager s) (tx_current s))
  else if (class_id desc =? 0x02) && (subclass_id desc =? 0x00) && (vendor_id desc =? 0x10EC) &&
          (device_id desc =? 0x8139) then
    im ← Cpu.InterruptHandler_new (interrupts s) (as_handler this) (u8 (offset + interrupt desc));
    base ← arr_get (port_base desc) 0;
    let '(r, tx) := Rtl.RTL8139Driver_new base mac0 in
    Ok (Some this, mkProbe (ports s) (screen s) im (objs s ++ [DRtl r]) (manager s) tx)
  else Ok (None, s).

(** "PCI 0x" *)
Definition msg_pci : list Z := [80; 67; 73; 32; 48; 120].

Definition report (desc : PCIDeviceDescriptor) (v : Vga.vga) : result Vga.vga :=
  v ← Vga.Print v (msg_pci ++ [0]);
  v ← Vga.PrintHex v (class_id desc);
  v ← Vga.PrintHex v (subclass_id desc);
  v ← Vga.PutChar v 47;
  v ← Vga.PrintHex v (u8 (Z.shiftr (vendor_id desc) 8));
  v ← Vga.PrintHex v (u8 (Z.land (vendor_id desc) 0xFF));
  v ← Vga.PutChar v 58;
  v ← Vga.PrintHex v (u8 (Z.shiftr (device_id desc) 8));
  v ← Vga.PrintHex v (u8 (Z.land (device_id desc) 0xFF));
  Vga.PutChar v 10.

(** The body of the three loops. *)
Definition probe_function (bus device function : Z) (s : probe) : result probe :=
  '(desc, d) ← GetDeviceDescriptor b0 bus device function (ports s);
  let s := mkProbe d (screen s) (interrupts s) (objs s) (manager s) (tx_current s) in
  if vendor_id desc =? 0xFFFF then Ok s
  else
    v ← report desc (screen s);
    '(drv, s) ← GetDriver desc (mkProbe (ports s) v (interrupts s) (objs s) (manager s) (tx_current s));
    match drv with
    | None => Ok s
    | Some p => m ← AddDriver (manager s) p;
                Ok (mkProbe (ports s) (screen s) (interrupts s) (objs s) m (tx_current s))
    end.

Definition probe_device (bus device : Z) (s : probe) : result probe :=
  let '(multi, d) := DeviceHasFunctions bus device (ports s) in
  let s := mkProbe d (screen s) (interrupts s) (objs s) (manager s) (tx_current s) in
  for_result 0 (if (multi : bool) then 8 else 1) (probe_function bus device) s.

Definition SelectDrivers (s : probe) : result probe :=
  for_result 0 8 (fun bus s => for_result 0 32 (fun device s => probe_device bus device s) s) s.
End code.

(** ** The configuration mechanism *)

(** [bar_bits] are the bits of the six base address registers that can be written. *)
Record pci_fn := mkFn { conf : list Z; bar_bits : list Z }.
Record pci := mkPci { latch : Z; fns : gmap (Z * Z * Z) pci_fn }.

Definition slot (a : Z) : Z * Z * Z := (a / 2 ^ 16 mod 2 ^ 8, a / 2 ^ 11 mod 2 ^ 5, a / 2 ^ 8 mod 2 ^ 3).
Definition register (a : Z) : nat := Z.to_nat (a / 4 mod 64).

Definition store (f : pci_fn) (r : nat) (v : Z) : pci_fn :=
  match bar_bits f !! (r - 4)%nat with
  | Some bits =>
      if decide (4 <= r)%nat
      then mkFn (<[r := Z.lor (Z.land v bits) (Z.land (conf f !!! r) (not32 bits))]> (conf f)) (bar_bits f)
      else f
  | None => f
  end.

Definition pci_in (p : Z) (c : pci) : Z * pci :=
  if (p =? data_port) && Z.testbit (latch c) 31 then
    match fns c !! slot (latch c) with
    | Some f => (conf f !!! register (latch c), c)
    | None => (0xFFFFFFFF, c)
    end
  else (0, c).

Definition pci_out (p v : Z) (c : pci) : pci :=
  if p =? address_port then mkPci v (fns c)
  else if (p =? data_port) && Z.testbit (latch c) 31 then
    mkPci (latch c) (alter (fun f => store f (register (latch c)) v) (slot (latch c)) (fns c))
  else c.

#[export] Instance pci_ports : PortIO pci := {
  inp _ p c := pci_in p c;
  outp _ p v c := pci_out p v c;
}.

Definition pci_range (p : Z) : Prop := p = address_port \/ p = data_port.

#[export] Instance pci_self : Attached pci pci pci_range.
Proof.
  refine {| view c := c |}; [done | done |].
  intros n p v c Hp. unfold pci_range in Hp. cbn. unfold pci_out, pci_in.
  destruct (Z.eqb_spec p address_port), (Z.eqb_spec p data_port); tauto.
Defined.

(** ** Addresses *)

Lemma address_val b dv f off :
  0 <= b < 256 -> 0 <= dv < 32 -> 0 <= f < 8 -> 0 <= off < 256 ->
  config_address b dv f off = 2 ^ 31 + b * 2 ^ 16 + dv * 2 ^ 11 + f * 2 ^ 8 + off / 4 * 4.
Proof.
  intros Hb Hd Hf Ho. unfold config_address. rewrite !Z.shiftl_mul_pow2 by lia.
  rewrite !u32_small by (zify_words; lia).
  change 0xFC with (Z.ones 6 * 2 ^ 2). rewrite land_mask by lia.
  replace (off / 2 ^ 2 mod 2 ^ 6) with (off / 4) by (change (2 ^ 2) with 4; change (2 ^ 6) with 64; word).
  change 0x80000000 with (2 ^ 7 * 2 ^ 24).
  rewrite lor_add by (change (2 ^ 24) with 16777216; change (2 ^ 16) with 65536; lia).
  replace (2 ^ 7 * 2 ^ 24 + b * 2 ^ 16) with ((2 ^ 15 + b) * 2 ^ 16) by lia.
  rewrite lor_add by (change (2 ^ 11) with 2048; change (2 ^ 16) with 65536; lia).
  replace ((2 ^ 15 + b) * 2 ^ 16 + dv * 2 ^ 11) with ((2 ^ 20 + b * 2 ^ 5 + dv) * 2 ^ 11) by lia.
  rewrite lor_add by (change (2 ^ 11) with 2048; change (2 ^ 8) with 256; lia).
  replace ((2 ^ 20 + b * 2 ^ 5 + dv) * 2 ^ 11 + f * 2 ^ 8) with ((2 ^ 23 + b * 2 ^ 8 + dv * 2 ^ 3 + f) * 2 ^ 8) by lia.
  rewrite lor_add by (change (2 ^ 8) with 256; change (2 ^ 2) with 4; Z.div_mod_to_equations; lia).
  change (2 ^ 2) with 4. lia.
Qed.

Lemma address_decodes b dv f off :
  0 <= b < 256 -> 0 <= dv < 32 -> 0 <= f < 8 -> 0 <= off < 256 ->
  let a := config_address b dv f off in
  is_u32 a /\ slot a = (b, dv, f) /\ register a = Z.to_nat (off / 4) /\ Z.testbit a 31 = true.
Proof.
  intros Hb Hd Hf Ho. cbv zeta. rewrite address_val by done.
  change (2 ^ 31) with 2147483648. change (2 ^ 16) with 65536. change (2 ^ 11) with 2048. change (2 ^ 8) with 256.
  pose proof (Z.div_mod off 4 ltac:(lia)). pose proof (Z.mod_pos_bound off 4 ltac:(lia)).
  split; [|split; [|split]].
  - zify_words. lia.
  - unfold slot. change (2 ^ 16) with 65536. change (2 ^ 11) with 2048. change (2 ^ 8) with 256.
    change (2 ^ 5) with 32. change (2 ^ 3) with 8. f_equal; [f_equal|]; Z.div_mod_to_equations; lia.
  - unfold register. f_equal. Z.div_mod_to_equations; lia.
  - apply Z.testbit_true; [lia|]. change (2 ^ 31) with 2147483648. Z.div_mod_to_equations; lia.
Qed.

(** ** Functions *)

(** What an absent function looks like. *)
Definition absent : pci_fn := mkFn (replicate 64 0xFFFFFFFF) (replicate 6 0xFFFFFFFF).

Notation space := (gmap (Z * Z * Z) pci_fn).

Definition fn_of (k : space) (s : Z * Z * Z) : pci_fn := default absent (k !! s).

Record fn_wf (f : pci_fn) : Prop := {
  fw_len : length (conf f) = 64%nat;
  fw_conf : Forall is_u32 (conf f);
  fw_bars : length (bar_bits f) = 6%nat;
  fw_bits : Forall is_u32 (bar_bits f);
}.

Definition space_wf (k : space) : Prop := map_Forall (fun _ f => fn_wf f) k.

Lemma absent_wf : fn_wf absent.
Proof.
  split; cbn; [apply length_replicate | apply Forall_replicate; u32_lit |
               apply length_replicate | apply Forall_replicate; u32_lit].
Qed.

Lemma fn_of_wf k s : space_wf k -> fn_wf (fn_of k s).
Proof.
  intros Hk. unfold fn_of. destruct (k !! s) as [f|] eqn:E; [exact (Hk _ _ E) | apply absent_wf].
Qed.

(** The register at byte offset [off], shifted to that byte. *)
Definition field (f : pci_fn) (off : Z) : Z := Z.shiftr (conf f !!! Z.to_nat (off / 4)) (8 * (off mod 4)).

Definition written (f : pci_fn) (i : Z) (v : Z) : Z :=
  let bits := bar_bits f !!! Z.to_nat i in
  Z.lor (Z.land v bits) (Z.land (conf f !!! Z.to_nat (4 + i)) (not32 bits)).

Lemma conf_u32 f r : fn_wf f -> (r < 64)%nat -> is_u32 (conf f !!! r).
Proof.
  intros [Hl Hc _ _] Hr. destruct (lookup_lt_is_Some_2 (conf f) r) as [x Hx]; [lia|].
  rewrite (list_lookup_total_correct _ _ _ Hx). exact (Forall_lookup_1 _ _ _ _ Hc Hx).
Qed.

Lemma bits_u32 f i : fn_wf f -> 0 <= i < 6 -> is_u32 (bar_bits f !!! Z.to_nat i).
Proof.
  intros [_ _ Hl Hb] Hi. destruct (lookup_lt_is_Some_2 (bar_bits f) (Z.to_nat i)) as [x Hx]; [lia|].
  rewrite (list_lookup_total_correct _ _ _ Hx). exact (Forall_lookup_1 _ _ _ _ Hb Hx).
Qed.

Lemma store_bar f i v :
  fn_wf f -> 0 <= i < 6 ->
  store f (Z.to_nat (4 + i)) v = mkFn (<[Z.to_nat (4 + i) := written f i v]> (conf f)) (bar_bits f).
Proof.
  intros Hf Hi. unfold store. destruct (lookup_lt_is_Some_2 (bar_bits f) (Z.to_nat i)) as [x Hx].
  { rewrite (fw_bars _ Hf). lia. }
  replace (Z.to_nat (4 + i) - 4)%nat with (Z.to_nat i) by lia. rewrite Hx, decide_True by lia.
  unfold written. by rewrite (list_lookup_total_correct _ _ _ Hx).
Qed.

Lemma written_u32 f i v : fn_wf f -> 0 <= i < 6 -> is_u32 v -> is_u32 (written f i v).
Proof.
  intros Hf Hi Hv. unfold written. apply lor_u32; apply land_u32.
  - done.
  - apply (bits_u32 f i Hf Hi).
  - apply conf_u32; [done | lia].
  - apply u32_bounds.
Qed.

(** Writing the old value back restores the register, whatever bits can be written. *)
Lemma written_back f i v :
  fn_wf f -> 0 <= i < 6 -> is_u32 v ->
  store (store f (Z.to_nat (4 + i)) v) (Z.to_nat (4 + i)) (conf f !!! Z.to_nat (4 + i)) = f.
Proof.
  intros Hf Hi Hv. rewrite (store_bar f) by done.
  assert (Hf' : fn_wf (mkFn (<[Z.to_nat (4 + i) := written f i v]> (conf f)) (bar_bits f))).
  { destruct Hf. split; cbn; [by rewrite length_insert | | done | done].
    apply Forall_insert; [done|]. by apply written_u32. }
  rewrite store_bar by done. cbn [conf bar_bits]. rewrite list_insert_insert_eq.
  unfold written at 1. cbn [conf bar_bits].
  rewrite list_lookup_total_insert_eq by (rewrite (fw_len _ Hf); lia).
  set (old := conf f !!! Z.to_nat (4 + i)). set (bits := bar_bits f !!! Z.to_nat i).
  assert (E : Z.lor (Z.land old bits) (Z.land (written f i v) (not32 bits)) = old).
  { pose proof (conf_u32 f (Z.to_nat (4 + i)) Hf ltac:(lia)) as Ho. fold old in Ho.
    pose proof (bits_u32 f i Hf Hi) as Hb. fold bits in Hb.
    apply Z.bits_inj'. intros n Hn. unfold written. fold bits old.
    rewrite !Z.lor_spec, !Z.land_spec, !Z.lor_spec, !Z.land_spec.
    destruct (decide (n < 32)).
    - rewrite testbit_not32 by lia. by destruct (Z.testbit old n), (Z.testbit bits n), (Z.testbit v n).
    - rewrite (testbit_above old 32) by (done || lia). rewrite (testbit_above bits 32) by (done || lia).
      rewrite (testbit_above (not32 bits) 32) by (apply u32_bounds || lia). by rewrite !andb_false_r. }
  rewrite E. unfold old. rewrite list_insert_id; [by destruct f|].
  apply list_lookup_lookup_total_lt. rewrite (fw_len _ Hf). lia.
Qed.

(** A region of [2^n] bytes at [base], with [m] flag bits in the register. *)
Record region (f : pci_fn) (i base flags m n : Z) : Prop := {
  rg_size : m <= n <= 31;
  rg_base : 0 <= base /\ base mod 2 ^ n = 0;
  rg_flags : 0 <= flags < 2 ^ m;
  rg_bar : conf f !!! Z.to_nat (4 + i) = base + flags;
  rg_bits : bar_bits f !!! Z.to_nat i = 2 ^ 32 - 2 ^ n;
}.

Lemma region_sized f i base flags m n :
  region f i base flags m n -> fn_wf f -> 0 <= i < 6 -> 0 <= m ->
  Z.land (base + flags) (Z.ones (32 - m) * 2 ^ m) = base /\
  u32 (not32 (Z.land (written f i 0xFFFFFFFF) (Z.ones (32 - m) * 2 ^ m)) + 1) = 2 ^ n.
Proof.
  intros [Hn [Hb0 Hb] Hf Hbar Hbits] Hw Hi Hm.
  pose proof (conf_u32 f (Z.to_nat (4 + i)) Hw ltac:(lia)) as Hu. rewrite Hbar in Hu.
  assert (Hq : 2 ^ n = 2 ^ m * 2 ^ (n - m)) by (rewrite <- Z.pow_add_r; f_equal; lia).
  assert (H32 : 2 ^ 32 = 2 ^ m * 2 ^ (32 - m)) by (rewrite <- Z.pow_add_r; f_equal; lia).
  assert (Hqn : 2 ^ 32 = 2 ^ n * 2 ^ (32 - n)) by (rewrite <- Z.pow_add_r; f_equal; lia).
  pose proof (Z.pow_pos_nonneg 2 m ltac:(lia) Hm). pose proof (Z.pow_pos_nonneg 2 (n - m) ltac:(lia) ltac:(lia)).
  pose proof (Z.pow_pos_nonneg 2 (32 - n) ltac:(lia) ltac:(lia)).
  assert (Hq1 : 2 ^ n < 2 ^ 32) by (apply Z.pow_lt_mono_r; lia).
  assert (Hmask : forall a fl, is_u32 (a * 2 ^ n + fl) -> 0 <= fl < 2 ^ m -> 0 <= a ->
    Z.land (a * 2 ^ n + fl) (Z.ones (32 - m) * 2 ^ m) = a * 2 ^ n).
  { intros a fl Ha Hfl Ha0. rewrite land_mask by lia. rewrite Hq, Z.mul_assoc, (Z.mul_comm (a * 2 ^ m)), Z.mul_assoc.
    rewrite Z.div_add_l, (Z.div_small fl), Z.add_0_r by lia. rewrite Z.mod_small; [lia|].
    split; [lia|]. apply (Z.mul_lt_mono_pos_l (2 ^ m)); [lia|]. rewrite <- H32.
    destruct Ha as [_ Ha]. rewrite Hq in Ha. lia. }
  assert (Eb : base = base / 2 ^ n * 2 ^ n) by (pose proof (Z.div_mod base (2 ^ n) ltac:(lia)); lia).
  assert (0 <= base / 2 ^ n) by (apply Z.div_pos; lia).
  split; [rewrite Eb; apply Hmask; [by rewrite <- Eb | done | done]|].
  assert (Ew : written f i 0xFFFFFFFF = (2 ^ (32 - n) - 1) * 2 ^ n + flags).
  { unfold written. rewrite Hbits, Hbar. change 0xFFFFFFFF with (Z.ones 32). rewrite Z.land_comm, Z.land_ones by lia.
    rewrite Z.mod_small by lia.
    assert (En : not32 (2 ^ 32 - 2 ^ n) = Z.ones n).
    { unfold not32, u32. rewrite Z.ones_equiv. rewrite <- (Z.mod_add _ 1) by lia.
      rewrite Z.mod_small; unfold Z.lnot; lia. }
    rewrite En, Z.land_ones by lia.
    rewrite Eb, Z.add_comm, Z.mod_add, (Z.mod_small flags) by nia.
    replace (2 ^ 32 - 2 ^ n) with ((2 ^ (32 - n) - 1) * 2 ^ n) by lia. apply lor_add; nia. }
  rewrite Ew, Hmask; [|split; nia | done | lia].
  unfold not32. assert (E : u32 (Z.lnot ((2 ^ (32 - n) - 1) * 2 ^ n)) = 2 ^ n - 1).
  { unfold u32, Z.lnot. rewrite <- (Z.mod_add _ 1) by lia. rewrite Z.mod_small; nia. }
  rewrite E. replace (2 ^ n - 1 + 1) with (2 ^ n) by lia. apply u32_small. split; lia.
Qed.

(** The kind bit of the register is that of the flags. *)
Lemma region_kind f i base flags m n :
  region f i base flags m n -> 0 < m -> Z.testbit (base + flags) 0 = Z.testbit flags 0.
Proof.
  intros [Hn [Hge Hal] _ _ _] Hm. rewrite !Z.bit0_odd, Z.odd_add.
  assert (He : Z.even base = true).
  { apply Z.even_spec. exists (base / 2 ^ n * 2 ^ (n - 1)). pose proof (Z.div_mod base (2 ^ n) ltac:(lia)).
    replace (2 ^ n) with (2 * 2 ^ (n - 1)) in * by (rewrite <- Z.pow_succ_r; [f_equal; lia | lia]). nia. }
  rewrite <- Z.negb_even, He. apply xorb_false_l.
Qed.

(** ** Reading and writing *)

Section driver.
Context {D : Type} `{PortIO D} `{!Attached D pci pci_range}.
Implicit Types (d : D) (k : space).

(** The configuration space behind the ports. *)
Definition conf_of d : space := fns (view d).

Lemma Read_ok k b dv f off d :
  conf_of d = k -> space_wf k -> 0 <= b < 256 -> 0 <= dv < 32 -> 0 <= f < 8 -> 0 <= off < 256 ->
  exists d', Read b dv f off d = (field (fn_of k (b, dv, f)) off, d') /\ conf_of d' = k.
Proof.
  intros Hk Hw Hb Hd Hf Ho. destruct (address_decodes b dv f off) as (Ha & Hs & Hr & Ht); [done..|].
  unfold Read. set (d0 := Port32Bit_Write address_port _ d).
  assert (E0 : view d0 = mkPci (config_address b dv f off) (fns (view d))).
  { unfold d0. rewrite write32 by (by left). unfold Port32Bit_Write. rewrite u32_small by done. done. }
  destruct (read32 data_port d0 (conf (fn_of k (b, dv, f)) !!! Z.to_nat (off / 4)) (view d0)) as (d' & -> & E').
  { by right. }
  { rewrite E0. cbn. unfold pci_in. cbn [latch fns]. rewrite Z.eqb_refl, Ht, Hs, Hr. cbn [andb].
    unfold fn_of. unfold conf_of in Hk. rewrite Hk. destruct (k !! (b, dv, f)); [done|]. cbn [default].
    f_equal. symmetry. apply list_lookup_total_correct. apply lookup_replicate. split; [done|].
    Z.div_mod_to_equations; lia. }
  exists d'. split.
  - rewrite u32_small; [done|]. apply conf_u32; [by apply fn_of_wf|]. Z.div_mod_to_equations; lia.
  - unfold conf_of. by rewrite E', E0.
Qed.

Lemma Write_ok k b dv f i v d :
  conf_of d = k -> 0 <= b < 256 -> 0 <= dv < 32 -> 0 <= f < 8 -> 0 <= i < 6 -> is_u32 v ->
  conf_of (Write b dv f (0x10 + i * 4) v d) = alter (fun g => store g (Z.to_nat (4 + i)) v) (b, dv, f) k.
Proof.
  intros Hk Hb Hd Hf Hi Hv. destruct (address_decodes b dv f (0x10 + i * 4)) as (Ha & Hs & Hr & Ht); [lia..|].
  replace ((0x10 + i * 4) / 4) with (4 + i) in Hr by (Z.div_mod_to_equations; lia).
  unfold Write, conf_of. rewrite write32 by (by right). rewrite write32 by (by left).
  unfold Port32Bit_Write. rewrite !u32_small by done. cbn. unfold pci_out. cbn. rewrite Ht, Hs, Hr. cbn.
  by rewrite <- Hk.
Qed.

(** What the descriptor says of a base address register. *)
Record bar_view := mkView { v_port : Z; v_mem : Z; v_io : bool; v_size : Z }.

Definition view_bar (f : pci_fn) (i : Z) : bar_view :=
  let bar := conf f !!! Z.to_nat (4 + i) in
  let sized := written f i 0xFFFFFFFF in
  if bar =? 0 then mkView 0 0 false 0
  else if Z.testbit bar 0 then
    mkView (Z.land bar 0xFFFFFFFC) 0 true (u32 (not32 (Z.land sized 0xFFFFFFFC) + 1))
  else mkView 0 (Z.land bar 0xFFFFFFF0) false (u32 (not32 (Z.land sized 0xFFFFFFF0) + 1)).

Record bars_ok (b : bars) : Prop := {
  bo_port : length (b_port b) = 6%nat;
  bo_mem : length (b_mem b) = 6%nat;
  bo_io : length (b_io b) = 6%nat;
  bo_size : length (b_size b) = 6%nat;
}.

Definition set_bar (b : bars) (i : Z) (w : bar_view) : bars :=
  mkBars (<[Z.to_nat i := v_port w]> (b_port b)) (<[Z.to_nat i := v_mem w]> (b_mem b))
         (<[Z.to_nat i := v_io w]> (b_io b)) (<[Z.to_nat i := v_size w]> (b_size b)).

Lemma field_bar f i : field f (0x10 + i * 4) = conf f !!! Z.to_nat (4 + i).
Proof.
  unfold field. replace ((0x10 + i * 4) / 4) with (4 + i) by (Z.div_mod_to_equations; lia).
  replace ((0x10 + i * 4) mod 4) with 0 by (Z.div_mod_to_equations; lia). done.
Qed.

(** Writing all ones, reading the size and writing the old value back. *)
Lemma size_bar k b dv f i d :
  conf_of d = k -> space_wf k -> 0 <= b < 256 -> 0 <= dv < 32 -> 0 <= f < 8 -> 0 <= i < 6 ->
  let d1 := Write b dv f (0x10 + i * 4) 0xFFFFFFFF d in
  exists d2, Read b dv f (0x10 + i * 4) d1 = (written (fn_of k (b, dv, f)) i 0xFFFFFFFF, d2) /\
    conf_of (Write b dv f (0x10 + i * 4) (conf (fn_of k (b, dv, f)) !!! Z.to_nat (4 + i)) d2) = k.
Proof.
  intros Hk Hw Hb Hd Hf Hi. cbv zeta.
  pose proof (Write_ok k b dv f i 0xFFFFFFFF d Hk Hb Hd Hf Hi ltac:(u32_lit)) as E1.
  set (d1 := Write b dv f (0x10 + i * 4) 0xFFFFFFFF d) in *.
  set (k1 := alter (fun g => store g (Z.to_nat (4 + i)) 0xFFFFFFFF) (b, dv, f) k) in *.
  assert (Hw1 : space_wf k1).
  { intros s g Hg. unfold k1 in Hg. rewrite lookup_alter in Hg. case_decide; [|by apply (Hw s)].
    subst s. destruct (k !! (b, dv, f)) as [g0|] eqn:E; [|done]. injection Hg as <-.
    pose proof (Hw _ _ E) as Hg0. rewrite store_bar by done.
    destruct Hg0 as [? ? ? ?]. split; cbn; [by rewrite length_insert | | done | done].
    apply Forall_insert; [done|]. apply written_u32; [by split | done | u32_lit]. }
  destruct (Read_ok k1 b dv f (0x10 + i * 4) d1 E1 Hw1 Hb Hd Hf) as (d2 & E2 & Hk2); [lia|].
  exists d2. rewrite E2, field_bar. unfold fn_of in *. unfold k1 in *. rewrite lookup_alter_eq.
  destruct (k !! (b, dv, f)) as [g|] eqn:E.
  - pose proof (Hw _ _ E) as Hg. split.
    + change (default absent (_ <$> Some g)) with (store g (Z.to_nat (4 + i)) 0xFFFFFFFF). rewrite store_bar by done. cbn [conf].
      rewrite list_lookup_total_insert_eq by (rewrite (fw_len _ Hg); lia). done.
    + rewrite (Write_ok _ b dv f i _ d2 Hk2) by (done || apply conf_u32; (done || lia)).
      rewrite alter_alter_eq. apply alter_id. intros g' Hg'. assert (g' = g) as -> by congruence.
      cbn. apply written_back; [done | done | u32_lit].
  - cbn [default fmap option_fmap option_map]. pose proof absent_wf as Ha. split.
    + destruct (decide (i = 0)), (decide (i = 1)), (decide (i = 2)), (decide (i = 3)), (decide (i = 4)),
        (decide (i = 5)); subst; try lia; reflexivity.
    + rewrite (Write_ok _ b dv f i _ d2 Hk2) by (done || apply conf_u32; (done || lia)).
      rewrite alter_alter_eq. apply alter_id. intros g' Hg'. congruence.
Qed.

Lemma probe_bar_ok k b dv f i bs d :
  conf_of d = k -> space_wf k -> 0 <= b < 256 -> 0 <= dv < 32 -> 0 <= f < 8 -> 0 <= i < 6 -> bars_ok bs ->
  exists d', probe_bar b dv f i bs d = Ok (set_bar bs i (view_bar (fn_of k (b, dv, f)) i), d') /\ conf_of d' = k.
Proof.
  intros Hk Hw Hb Hd Hf Hi [Lp Lm Li Ls]. unfold probe_bar.
  rewrite !arr_set_in_range by lia. cbn [mbind result_bind].
  destruct (Read_ok k b dv f (0x10 + i * 4) d Hk Hw Hb Hd Hf) as (d1 & -> & Hk1); [lia|].
  rewrite field_bar. unfold view_bar, set_bar.
  set (bar := conf (fn_of k (b, dv, f)) !!! Z.to_nat (4 + i)).
  destruct (Z.eqb_spec bar 0); [by exists d1|].
  change 1 with (2 ^ 0) at 1. rewrite land_pow2_eqb by lia. rewrite negb_involutive.
  destruct (size_bar k b dv f i d1 Hk1 Hw Hb Hd Hf Hi) as (d2 & E2 & Hk2).
  destruct (Z.testbit bar 0).
  all: rewrite ?arr_set_in_range by (rewrite ?length_insert; lia); cbn [mbind result_bind]; rewrite E2;
    rewrite arr_set_in_range by (rewrite ?length_insert; lia); cbn [mbind result_bind];
    eexists; (split; [|exact Hk2]); rewrite !list_insert_insert_eq; reflexivity.
Qed.

(** The descriptor of a function. *)
Definition describe (f : pci_fn) (b dv fn : Z) : PCIDeviceDescriptor :=
  mkDesc ((fun i => v_port (view_bar f i)) <$> [0; 1; 2; 3; 4; 5])
         ((fun i => v_mem (view_bar f i)) <$> [0; 1; 2; 3; 4; 5])
         ((fun i => v_io (view_bar f i)) <$> [0; 1; 2; 3; 4; 5])
         ((fun i => v_size (view_bar f i)) <$> [0; 1; 2; 3; 4; 5]) b dv fn
         (u16 (field f 0x00)) (u16 (field f 0x02)) (u8 (field f 0x0B)) (u8 (field f 0x0A))
         (u8 (field f 0x09)) (u8 (field f 0x08)) (u8 (field f 0x3C)).

Lemma set_bar_ok b i w : bars_ok b -> bars_ok (set_bar b i w).
Proof. intros []. split; cbn; by rewrite length_insert. Qed.

Lemma set_bars (b : bars) (w : Z -> bar_view) :
  bars_ok b ->
  foldl (fun b i => set_bar b i (w i)) b [0; 1; 2; 3; 4; 5] =
  mkBars (v_port ∘ w <$> [0; 1; 2; 3; 4; 5]) (v_mem ∘ w <$> [0; 1; 2; 3; 4; 5])
         (v_io ∘ w <$> [0; 1; 2; 3; 4; 5]) (v_size ∘ w <$> [0; 1; 2; 3; 4; 5]).
Proof.
  assert (Hsix : forall A (l : list A), length l = 6%nat -> exists a1 a2 a3 a4 a5 a6 : A, l = [a1; a2; a3; a4; a5; a6]).
  { intros A l Hl. destruct l as [|a0 [|a1 [|a2 [|a3 [|a4 [|a5 [|]]]]]]]; try done. by exists a0, a1, a2, a3, a4, a5. }
  intros [L1 L2 L3 L4]. destruct b as [p m i z]. cbn in *.
  apply Hsix in L1 as (? & ? & ? & ? & ? & ? & ->). apply Hsix in L2 as (? & ? & ? & ? & ? & ? & ->).
  apply Hsix in L3 as (? & ? & ? & ? & ? & ? & ->). apply Hsix in L4 as (? & ? & ? & ? & ? & ? & ->).
  reflexivity.
Qed.

Lemma GetDeviceDescriptor_ok k b0 b dv f d :
  conf_of d = k -> space_wf k -> bars_ok b0 -> 0 <= b < 256 -> 0 <= dv < 32 -> 0 <= f < 8 ->
  exists d', GetDeviceDescriptor b0 b dv f d = Ok (describe (fn_of k (b, dv, f)) b dv f, d') /\ conf_of d' = k.
Proof.
  intros Hk Hw Hb0 Hb Hd Hf. unfold GetDeviceDescriptor.
  destruct (Read_ok k b dv f 0x00 d) as (d1 & -> & K1); [done || lia ..|].
  destruct (Read_ok k b dv f 0x02 d1) as (d2 & -> & K2); [done || lia ..|].
  destruct (Read_ok k b dv f 0x0B d2) as (d3 & -> & K3); [done || lia ..|].
  destruct (Read_ok k b dv f 0x0A d3) as (d4 & -> & K4); [done || lia ..|].
  destruct (Read_ok k b dv f 0x09 d4) as (d5 & -> & K5); [done || lia ..|].
  destruct (Read_ok k b dv f 0x08 d5) as (d6 & -> & K6); [done || lia ..|].
  destruct (Read_ok k b dv f 0x3C d6) as (d7 & -> & K7); [done || lia ..|].
  assert (Hloop : exists d', for_result 0 6 (fun i '(b1, d) => probe_bar b dv f i b1 d) (b0, d7) =
    Ok (foldl (fun bs i => set_bar bs i (view_bar (fn_of k (b, dv, f)) i)) b0 [0; 1; 2; 3; 4; 5], d') /\ conf_of d' = k).
  { unfold for_result. change (seqZ 0 (6 - 0)) with [0; 1; 2; 3; 4; 5].
    assert (Hin : Forall (fun i => 0 <= i < 6) [0; 1; 2; 3; 4; 5]) by (repeat constructor; lia).
    clear d1 d2 d3 d4 d5 d6 K1 K2 K3 K4 K5 K6. revert b0 Hb0 d7 K7.
    induction Hin as [|i l Hi Hl IH]; intros b0 Hb0 d7 K7; [by exists d7|]. cbn [fold_result foldl].
    destruct (probe_bar_ok k b dv f i b0 d7) as (d8 & -> & K8); [done || lia ..|]. cbn [mbind result_bind].
    apply IH; [by apply set_bar_ok | done]. }
  destruct Hloop as (d' & -> & K'). rewrite result_bind_Ok, set_bars by done. exists d'. done.
Qed.

Lemma six_lookup {A} (g : Z -> A) i : 0 <= i < 6 -> (g <$> [0; 1; 2; 3; 4; 5]) !! Z.to_nat i = Some (g i).
Proof.
  intros Hi. destruct (decide (i = 0)), (decide (i = 1)), (decide (i = 2)), (decide (i = 3)), (decide (i = 4)),
    (decide (i = 5)); subst; try lia; reflexivity.
Qed.

(** C38: Probing a function that is present reads its identification fields exactly, and for
    each of its base address registers reports an unused register as such and an I/O or
    memory region with its kind, base and size, although the size is found by
    overwriting the register: the configuration space is unchanged afterwards. *)
Theorem pci_probe_exact k b0 b dv fn f d :
  conf_of d = k -> space_wf k -> k !! (b, dv, fn) = Some f -> bars_ok b0 ->
  0 <= b < 256 -> 0 <= dv < 32 -> 0 <= fn < 8 ->
  exists desc d', GetDeviceDescriptor b0 b dv fn d = Ok (desc, d') /\ conf_of d' = k /\
    vendor_id desc = (conf f !!! 0%nat) mod 2 ^ 16 /\ device_id desc = (conf f !!! 0%nat) / 2 ^ 16 /\
    class_id desc = (conf f !!! 2%nat) / 2 ^ 24 /\ subclass_id desc = (conf f !!! 2%nat) / 2 ^ 16 mod 2 ^ 8 /\
    interrupt desc = (conf f !!! 15%nat) mod 2 ^ 8 /\
    forall i, 0 <= i < 6 ->
      (conf f !!! Z.to_nat (4 + i) = 0 ->
         port_base desc !! Z.to_nat i = Some 0 /\ mem_base desc !! Z.to_nat i = Some 0 /\
         bar_size desc !! Z.to_nat i = Some 0) /\
      (forall base n, region f i base 1 2 n ->
         port_base_is_io desc !! Z.to_nat i = Some true /\ port_base desc !! Z.to_nat i = Some base /\
         bar_size desc !! Z.to_nat i = Some (2 ^ n)) /\
      (forall base flags n, region f i base flags 4 n -> Z.testbit flags 0 = false -> base + flags <> 0 ->
         port_base_is_io desc !! Z.to_nat i = Some false /\ mem_base desc !! Z.to_nat i = Some base /\
         bar_size desc !! Z.to_nat i = Some (2 ^ n)).
Proof.
  intros Hk Hw Hf Hb0 Hb Hd Hfn.
  destruct (GetDeviceDescriptor_ok k b0 b dv fn d) as (d' & E & Hk'); [done..|].
  assert (Ef : fn_of k (b, dv, fn) = f) by (unfold fn_of; by rewrite Hf). rewrite Ef in E.
  pose proof (Hw _ _ Hf) as Hwf. exists (describe f b dv fn), d'. split; [done|]. split; [done|].
  unfold describe. cbn [vendor_id device_id class_id subclass_id interrupt port_base mem_base port_base_is_io bar_size].
  pose proof (conf_u32 f 0 Hwf ltac:(lia)) as H0. pose proof (conf_u32 f 2 Hwf ltac:(lia)) as H2.
  unfold field. rewrite !Z.shiftr_div_pow2 by (apply Z.mul_nonneg_nonneg; [lia | apply Z.mod_pos_bound; lia]).
  change (Z.to_nat (0 / 4)) with 0%nat. change (Z.to_nat (2 / 4)) with 0%nat. change (Z.to_nat (11 / 4)) with 2%nat.
  change (Z.to_nat (10 / 4)) with 2%nat. change (Z.to_nat (60 / 4)) with 15%nat.
  change (2 ^ (8 * (0 mod 4))) with 1. change (2 ^ (8 * (2 mod 4))) with 65536.
  change (2 ^ (8 * (11 mod 4))) with 16777216. change (2 ^ (8 * (10 mod 4))) with 65536.
  change (2 ^ (8 * (60 mod 4))) with 1. change (2 ^ 24) with 16777216.
  split; [by rewrite Z.div_1_r|]. split; [word|]. split; [word|]. split; [done|]. split; [by rewrite Z.div_1_r|].
  intros i Hi. rewrite !six_lookup by done. unfold view_bar. split; [|split].
  - intros E0. rewrite E0. done.
  - intros base n Hr. destruct (region_sized f i base 1 2 n Hr Hwf Hi ltac:(lia)) as [E1 E2].
    pose proof (rg_base _ _ _ _ _ _ Hr) as [Hge _].
    rewrite (rg_bar _ _ _ _ _ _ Hr), (region_kind _ _ _ _ _ _ Hr) by lia.
    destruct (Z.eqb_spec (base + 1) 0); [lia|]. cbn. split; [done|]. by split; f_equal.
  - intros base flags n Hr Hfl Hnz. destruct (region_sized f i base flags 4 n Hr Hwf Hi ltac:(lia)) as [E1 E2].
    rewrite (rg_bar _ _ _ _ _ _ Hr), (region_kind _ _ _ _ _ _ Hr), Hfl by lia.
    destruct (Z.eqb_spec (base + flags) 0); [done|]. cbn. split; [done|]. by split; f_equal.
Qed.

(** ** The scan *)

Context {Hd : Type} (as_handler : nat -> Hd) (mac0 : list Z) (b0 : bars) (Hb0 : bars_ok b0).
Notation probe := (@probe D Hd).
Implicit Types (s : probe).

(** The driver for a function, and the functions the loops visit. *)
Definition driver_for (desc : PCIDeviceDescriptor) : option driver :=
  if (class_id desc =? 0x01) && (subclass_id desc =? 0x01) then Some DAta
  else if (class_id desc =? 0x02) && (subclass_id desc =? 0x00) && (vendor_id desc =? 0x10EC) &&
          (device_id desc =? 0x8139)
  then Some (DRtl (Rtl.mkRtl (port_base desc !!! 0%nat) mac0 0)) else None.

Definition candidate k (a : Z * Z * Z) : option driver :=
  let desc := describe (fn_of k a) (fst (fst a)) (snd (fst a)) (snd a) in
  if vendor_id desc =? 0xFFFF then None else driver_for desc.

Definition functions k (b dv : Z) : list (Z * Z * Z) :=
  (fun f => (b, dv, f)) <$> seqZ 0 (if Z.testbit (field (fn_of k (b, dv, 0)) 0x0E) 7 then 8 else 1).

Definition slots k : list (Z * Z * Z) :=
  mjoin ((fun b => mjoin ((fun dv => functions k b dv) <$> seqZ 0 32)) <$> seqZ 0 8).

(** A screen that shows a sheet. *)
Definition good (v : Vga.vga) : Prop := exists p, shows 80 25 p (Vga.buffer v) (Vga.cursor v).

Lemma put_good v str : good v -> is_bytes str -> exists v', put_all str v = Ok v' /\ good v'.
Proof.
  intros [p Hp] Hs. destruct (put_all_shows (Console0 := Vga.vga_console) v p str Hs I Hp) as (v' & E & _ & H' & _).
  exists v'. split; [done|]. by eexists.
Qed.

Lemma hex_good v x : good v -> is_u8 x -> exists v', Vga.PrintHex v x = Ok v' /\ good v'.
Proof.
  intros Hv Hx. rewrite Vga.PrintHex_digits by done. apply put_good; [done|].
  eapply Forall_impl; [apply Vga.hex_digits_range|]. intros c Hc. cbn in Hc. zify_words. lia.
Qed.

Lemma char_good v c : good v -> is_u8 c -> exists v', Vga.PutChar v c = Ok v' /\ good v'.
Proof.
  intros [p Hp] Hc. destruct (Vga.PutChar_shows v p c Hc Hp) as (v' & E & H' & _).
  exists v'. split; [done|]. by eexists.
Qed.

Lemma report_good desc v :
  good v -> is_u8 (class_id desc) -> is_u8 (subclass_id desc) -> exists v', report desc v = Ok v' /\ good v'.
Proof.
  intros Hv Hc Hs. unfold report. rewrite Vga.Print_put_all by (by repeat constructor).
  destruct (put_good v msg_pci Hv) as (v1 & -> & H1); [repeat constructor; zify_words; lia|].
  rewrite result_bind_Ok. destruct (hex_good v1 _ H1 Hc) as (v2 & -> & H2).
  rewrite result_bind_Ok. destruct (hex_good v2 _ H2 Hs) as (v3 & -> & H3).
  rewrite result_bind_Ok. destruct (char_good v3 47 H3 ltac:(zify_words; lia)) as (v4 & -> & H4).
  rewrite result_bind_Ok. destruct (hex_good v4 _ H4 (u8_bounds (Z.shiftr (vendor_id desc) 8))) as (v5 & -> & H5).
  rewrite result_bind_Ok. destruct (hex_good v5 _ H5 (u8_bounds (Z.land (vendor_id desc) 0xFF))) as (v6 & -> & H6).
  rewrite result_bind_Ok. destruct (char_good v6 58 H6 ltac:(zify_words; lia)) as (v7 & -> & H7).
  rewrite result_bind_Ok. destruct (hex_good v7 _ H7 (u8_bounds (Z.shiftr (device_id desc) 8))) as (v8 & -> & H8).
  rewrite result_bind_Ok. destruct (hex_good v8 _ H8 (u8_bounds (Z.land (device_id desc) 0xFF))) as (v9 & -> & H9).
  rewrite result_bind_Ok. exact (char_good v9 10 H9 ltac:(zify_words; lia)).
Qed.

(** The state after the drivers [ds] were made: nothing but them was added. *)
Record found k (objs0 ds : list driver) s : Prop := {
  fd_conf : conf_of (ports s) = k;
  fd_screen : good (screen s);
  fd_handlers : length (Cpu.handlers (interrupts s)) = 256%nat;
  fd_objs : objs s = objs0 ++ ds;
  fd_manager : manages (manager s) (take 256 (seq (length objs0) (length ds)));
}.

Lemma handler_ok (im : Cpu.InterruptManager Hd) h v :
  length (Cpu.handlers im) = 256%nat ->
  exists im', Cpu.InterruptHandler_new im h (u8 v) = Ok im' /\ length (Cpu.handlers im') = 256%nat.
Proof.
  intros Hl. unfold Cpu.InterruptHandler_new. pose proof (u8_bounds v) as Hv.
  rewrite arr_set_in_range by (zify_words; lia). cbn [mbind result_bind]. eexists. split; [reflexivity|].
  cbn. by rewrite length_insert.
Qed.

(** One function of the scan. *)
Lemma probe_function_ok k objs0 ds s b dv f :
  found k objs0 ds s -> space_wf k -> 0 <= b < 256 -> 0 <= dv < 32 -> 0 <= f < 8 ->
  exists s', probe_function as_handler mac0 b0 b dv f s = Ok s' /\
    found k objs0 (ds ++ option_list (candidate k (b, dv, f))) s'.
Proof using Hb0.
  intros [Hk Hg Hh Ho Hm] Hw Hb Hd' Hf. unfold probe_function, candidate. cbn [fst snd].
  destruct (GetDeviceDescriptor_ok k b0 b dv f (ports s)) as (d' & -> & K); [done..|]. rewrite result_bind_Ok.
  set (desc := describe (fn_of k (b, dv, f)) b dv f).
  destruct (Z.eqb_spec (vendor_id desc) 0xFFFF); [rewrite app_nil_r; eexists; split; [reflexivity | by split]|].
  cbn [screen ports interrupts objs manager tx_current].
  destruct (report_good desc (screen s) Hg) as (v & -> & Hv); [apply u8_bounds..|]. rewrite result_bind_Ok.
  assert (Hadd : forall p, p = length (objs s) ->
    exists m, AddDriver (manager s) p = Ok m /\
      forall x : driver, manages m (take 256 (seq (length objs0) (length (ds ++ [x]))))).
  { intros p ->. destruct (AddDriver_manages (manager s) _ (length (objs s)) Hm) as (m & -> & H').
    exists m. split; [done|]. intros x. rewrite Ho, length_app in H'. rewrite length_app, seq_app. cbn [length seq].
    rewrite length_take, length_seq in H'. case_decide.
    - rewrite take_ge in H' by (rewrite length_seq; lia).
      rewrite take_ge by (rewrite length_app, length_seq; cbn; lia). done.
    - by rewrite take_app_le by (rewrite length_seq; lia). }
  unfold GetDriver, driver_for. cbn [screen ports interrupts objs manager tx_current].
  destruct ((class_id desc =? 1) && (subclass_id desc =? 1)).
  - destruct (handler_ok (interrupts s) (as_handler (length (objs s)))
      (Cpu.hardware_interrupt_offset (interrupts s) + 14) Hh) as (im & -> & Him). rewrite !result_bind_Ok.
    cbn [manager]. destruct (Hadd _ eq_refl) as (m & -> & Hm'). rewrite result_bind_Ok.
    eexists. split; [reflexivity|]. split; cbn; try done. by rewrite Ho, <- app_assoc.
  - destruct (_ && _).
    + destruct (handler_ok (interrupts s) (as_handler (length (objs s)))
        (Cpu.hardware_interrupt_offset (interrupts s) + interrupt desc) Hh) as (im & -> & Him). rewrite !result_bind_Ok.
      change (arr_get (port_base desc) 0) with (Ok (port_base desc !!! 0%nat)). rewrite !result_bind_Ok.
      cbn [manager Rtl.RTL8139Driver_new]. rewrite result_bind_Ok. cbn [manager].
      destruct (Hadd _ eq_refl) as (m & -> & Hm'). rewrite result_bind_Ok.
      eexists. split; [reflexivity|]. split; cbn; try done. by rewrite Ho, <- app_assoc.
    + rewrite result_bind_Ok, app_nil_r. eexists. split; [reflexivity|]. by split.
Qed.

(** Loops whose turns each contribute drivers. *)
Lemma found_loop {A} (body : A -> probe -> result probe) (g : A -> list driver) l k objs0 ds s :
  (forall x ds s, x ∈ l -> found k objs0 ds s ->
     exists s', body x s = Ok s' /\ found k objs0 (ds ++ g x) s') ->
  found k objs0 ds s ->
  exists s', fold_result body l s = Ok s' /\ found k objs0 (ds ++ mjoin (g <$> l)) s'.
Proof.
  revert ds s. induction l as [|x l IH]; intros ds s Hb Hs.
  - exists s. cbn. by rewrite app_nil_r.
  - cbn [fold_result]. destruct (Hb x ds s) as (s1 & -> & H1); [set_solver | done |]. cbn [mbind result_bind].
    destruct (IH (ds ++ g x) s1) as (s' & -> & H'); [|done|].
    + intros y ds' s'' Hy. apply Hb. set_solver.
    + exists s'. split; [done|]. change (mjoin (g <$> x :: l)) with (g x ++ mjoin (g <$> l)).
      by rewrite app_assoc.
Qed.

Lemma join_options k l : mjoin ((fun a => option_list (candidate k a)) <$> l) = omap (candidate k) l.
Proof.
  induction l as [|a l IH]; [done|].
  change (mjoin ((fun a => option_list (candidate k a)) <$> a :: l))
    with (option_list (candidate k a) ++ mjoin ((fun a => option_list (candidate k a)) <$> l)).
  rewrite IH. cbn. by destruct (candidate k a).
Qed.

Lemma probe_device_ok k objs0 ds s b dv :
  found k objs0 ds s -> space_wf k -> 0 <= b < 256 -> 0 <= dv < 32 ->
  exists s', probe_device as_handler mac0 b0 b dv s = Ok s' /\
    found k objs0 (ds ++ omap (candidate k) (functions k b dv)) s'.
Proof using Hb0.
  intros [Hk Hg Hh Ho Hm] Hw Hb Hd'. unfold probe_device, DeviceHasFunctions.
  destruct (Read_ok k b dv 0 0x0E (ports s)) as (d' & -> & K); [done || lia ..|].
  change (Z.shiftl 1 7) with (2 ^ 7). rewrite land_pow2_eqb, negb_involutive by lia.
  unfold functions, for_result. rewrite Z.sub_0_r. set (n := if Z.testbit _ 7 then 8 else 1).
  assert (Hn : n <= 8) by (unfold n; destruct (Z.testbit _ _); lia).
  destruct (found_loop (probe_function as_handler mac0 b0 b dv) (fun f => option_list (candidate k (b, dv, f)))
    (seqZ 0 n) k objs0 ds (mkProbe d' (screen s) (interrupts s) (objs s) (manager s) (tx_current s)))
    as (s' & E & H').
  - intros f ds' s' Hf Hs. apply elem_of_seqZ in Hf. apply probe_function_ok; (done || lia).
  - by split.
  - exists s'. split; [exact E|]. rewrite <- join_options, <- list_fmap_compose. exact H'.
Qed.

Lemma omap_join {A B C} (f : A -> option B) (g : C -> list A) (l : list C) :
  omap f (mjoin (g <$> l)) = mjoin ((fun x => omap f (g x)) <$> l).
Proof.
  induction l as [|x l IH]; [done|].
  change (mjoin (g <$> x :: l)) with (g x ++ mjoin (g <$> l)). rewrite omap_app, IH. done.
Qed.

(** The state after the scan. *)
Lemma SelectDrivers_found k objs0 s :
  conf_of (ports s) = k -> space_wf k -> good (screen s) ->
  length (Cpu.handlers (interrupts s)) = 256%nat -> objs s = objs0 -> manages (manager s) [] ->
  exists s', SelectDrivers as_handler mac0 b0 s = Ok s' /\ found k objs0 (omap (candidate k) (slots k)) s'.
Proof using Hb0.
  intros Hk Hw Hg Hh Ho Hm. unfold SelectDrivers, for_result.
  destruct (found_loop
    (fun bus s => fold_result (fun device s => probe_device as_handler mac0 b0 bus device s) (seqZ 0 (32 - 0)) s)
    (fun b => mjoin ((fun dv => omap (candidate k) (functions k b dv)) <$> seqZ 0 32))
    (seqZ 0 (8 - 0)) k objs0 [] s) as (s' & E & F).
  - intros b ds s1 Hb Hs. apply elem_of_seqZ in Hb. apply found_loop; [|done].
    intros dv ds' s2 Hd' Hs2. apply elem_of_seqZ in Hd'. apply probe_device_ok; (done || lia).
  - split; try done. by rewrite app_nil_r.
  - exists s'. split; [exact E|]. rewrite app_nil_l in F.
    assert (Es : mjoin ((fun b => mjoin ((fun dv => omap (candidate k) (functions k b dv)) <$> seqZ 0 32)) <$>
      seqZ 0 (8 - 0)) = omap (candidate k) (slots k)).
    { unfold slots. rewrite omap_join. f_equal. apply list_fmap_ext. intros ? b _. symmetry. apply omap_join. }
    by rewrite Es in F.
Qed.

(** C37: The scan of the bus makes one driver for each function it knows, in the order of
    the bus, device and function numbers, and for no other: a disk driver for every IDE
    controller and a network driver for every RTL8139, each with the I/O base its
    descriptor reports.  Functions other than 0 are visited where the header says there
    are several.  The manager holds the first 256 of them, the configuration space is
    unchanged, and the scan always ends without a fault. *)
Theorem pci_scan_complete k objs0 s :
  conf_of (ports s) = k -> space_wf k -> good (screen s) ->
  length (Cpu.handlers (interrupts s)) = 256%nat -> objs s = objs0 -> manages (manager s) [] ->
  exists s', SelectDrivers as_handler mac0 b0 s = Ok s' /\
    conf_of (ports s') = k /\
    objs s' = objs0 ++ omap (candidate k) (slots k) /\
    manages (manager s') (take 256 (seq (length objs0) (length (omap (candidate k) (slots k))))).
Proof using Hb0.
  intros Hk Hw Hg Hh Ho Hm. destruct (SelectDrivers_found k objs0 s) as (s' & E & [K _ _ O M]); [done..|]. by exists s'.
Qed.
End driver.

(** ** A machine with an IDE controller and a network card *)

Definition ide_fn : pci_fn := mkFn (<[2%nat := 0x01018A00]> (<[0%nat := 0x70108086]> (replicate 64 0))) (replicate 6 0).
Definition nic_fn : pci_fn :=
  mkFn (<[15%nat := 11]> (<[4%nat := 0xC001]> (<[2%nat := 0x02000000]> (<[0%nat := 0x813910EC]> (replicate 64 0)))))
       (0xFFFFFF00 :: replicate 5 0).
Definition sample_space : gmap (Z * Z * Z) pci_fn := {[ (0, 1, 0) := ide_fn; (0, 3, 0) := nic_fn ]}.
Definition sample_bars : bars := mkBars (replicate 6 7) (replicate 6 7) (replicate 6 true) (replicate 6 7).

Lemma sample_wf : space_wf sample_space.
Proof.
  assert (Hz : forall n, Forall is_u32 (replicate n 0)) by (intros; apply Forall_replicate; u32_lit).
  unfold space_wf, sample_space. apply map_Forall_insert_2; [|apply map_Forall_singleton].
  - split; [done | | done | apply Hz]. unfold ide_fn; cbn [conf]. repeat (apply Forall_insert; [|u32_lit]). apply Hz.
  - split; [done | | done |].
    + unfold nic_fn; cbn [conf]. repeat (apply Forall_insert; [|u32_lit]). apply Hz.
    + apply Forall_cons. split; [u32_lit | apply Hz].
Qed.

Lemma pci_probe_exact_witness :
  exists desc d', GetDeviceDescriptor sample_bars 0 3 0 (mkPci 0 sample_space) = Ok (desc, d') /\
    fns d' = sample_space /\ device_id desc = 0x8139 /\
    port_base desc !! 0%nat = Some 0xC000 /\ bar_size desc !! 0%nat = Some 256.
Proof.
  destruct (pci_probe_exact (D := pci) sample_space sample_bars 0 3 0 nic_fn (mkPci 0 sample_space))
    as (desc & d' & E & Hk & Hv & Hdv & _ & _ & _ & Hbar).
  - reflexivity.
  - exact sample_wf.
  - reflexivity.
  - split; reflexivity.
  - lia.
  - lia.
  - lia.
  - exists desc, d'. split; [exact E|]. split; [exact Hk|]. split; [exact Hdv|].
    destruct (Hbar 0 ltac:(lia)) as (_ & Hio & _).
    destruct (Hio 0xC000 8) as (_ & Hp & Hs).
    + split; [lia | split; [lia | reflexivity] | lia | reflexivity | reflexivity].
    + split; [exact Hp | exact Hs].
Defined.

Lemma pci_scan_complete_witness :
  let s := mkProbe (mkPci 0 sample_space) (Vga.mkVga (replicate 2000 0) 0 7 false)
             (Cpu.mkIM [] (replicate 256 None) 0x20) [] (mkDM (replicate 256 None) 0) 0 in
  exists s', SelectDrivers (fun n => n) [] sample_bars s = Ok s' /\
    objs s' = [DAta; DRtl (Rtl.mkRtl 0xC000 [] 0)] /\ manages (manager s') [0; 1]%nat.
Proof.
  cbv zeta.
  destruct (pci_scan_complete (D := pci) (fun n => n) [] sample_bars ltac:(split; reflexivity) sample_space []
    (mkProbe (mkPci 0 sample_space) (Vga.mkVga (replicate 2000 0) 0 7 false)
             (Cpu.mkIM [] (replicate 256 None) 0x20) [] (mkDM (replicate 256 None) 0) 0)) as (s' & E & _ & Ho & Hm).
  - reflexivity.
  - exact sample_wf.
  - exists (mkPaper (replicate 2000 0) 0). split; [split|..].
    + exists 25. reflexivity.
    + unfold bottom. cbn [sheet]. rewrite length_replicate. lia.
    + unfold top, bottom. cbn [sheet pen]. rewrite length_replicate. lia.
    + unfold top, bottom. cbn [sheet]. rewrite length_replicate. reflexivity.
    + unfold top, bottom. cbn [sheet pen Vga.cursor]. rewrite length_replicate. reflexivity.
  - apply length_replicate.
  - reflexivity.
  - split; [apply length_replicate | reflexivity | | cbn; lia].
    intros i Hi. rewrite lookup_nil. apply lookup_replicate. split; [done | lia].
  - exists s'. split; [exact E|].
    assert (Ed : omap (candidate [] sample_space) (slots sample_space) = [DAta; DRtl (Rtl.mkRtl 0xC000 [] 0)])
      by (vm_compute; reflexivity).
    rewrite Ed in Ho, Hm. split; [exact Ho | exact Hm].
Defined.

End Pci.
