(* ===== verification/Graphics.v ===== *)
(** Graphics: src/src/ui/vga.{h,cpp}, the drawing half, and the mode switch.

    The frame buffer is the 64 KiB window at 0xA0000, 320 pixels to a row.  Drawing is
    proved against pictures, functions from pixels to colours; the mode switch against
    the registers of a VGA card. *)

From stdpp Require Import base numbers list.
From Stdlib Require Import ZArith Lia.
From S2P Require Import Prelude Ports Console Vga.

Module Graphics.
Import Ports Vga.

(** ** The code *)

(** The glyphs: eight rows of eight pixels for each of the 128 characters. *)
Definition font : list (list Z) := [
  [0x00; 0x00; 0x00; 0x00; 0x00; 0x00; 0x00; 0x00];
  [0x7E; 0x81; 0xA5; 0x81; 0xBD; 0x99; 0x81; 0x7E];
  [0x7E; 0xFF; 0xDB; 0xFF; 0xC3; 0xE7; 0xFF; 0x7E];
  [0x6C; 0xFE; 0xFE; 0xFE; 0x7C; 0x38; 0x10; 0x00];
  [0x10; 0x38; 0x7C; 0xFE; 0x7C; 0x38; 0x10; 0x00];
  [0x38; 0x7C; 0x38; 0xFE; 0xFE; 0x10; 0x10; 0x7C];
  [0x10; 0x10; 0x38; 0x7C; 0xFE; 0x7C; 0x10; 0x7C];
  [0x00; 0x00; 0x18; 0x3C; 0x3C; 0x18; 0x00; 0x00];
  [0xFF; 0xFF; 0xE7; 0xC3; 0xC3; 0xE7; 0xFF; 0xFF];
  [0x00; 0x3C; 0x66; 0x42; 0x42; 0x66; 0x3C; 0x00];
  [0xFF; 0xC3; 0x99; 0xBD; 0xBD; 0x99; 0xC3; 0xFF];
  [0x0F; 0x07; 0x0F; 0x7D; 0xCC; 0xCC; 0xCC; 0x78];
  [0x3C; 0x66; 0x66; 0x66; 0x3C; 0x18; 0x7E; 0x18];
  [0x3F; 0x33; 0x3F; 0x30; 0x30; 0x70; 0xF0; 0xE0];
  [0x7F; 0x63; 0x7F; 0x63; 0x63; 0x67; 0xE6; 0xC0];
  [0x99; 0x5A; 0x3C; 0xE7; 0xE7; 0x3C; 0x5A; 0x99];
  [0x80; 0xE0; 0xF8; 0xFE; 0xF8; 0xE0; 0x80; 0x00];
  [0x02; 0x0E; 0x3E; 0xFE; 0x3E; 0x0E; 0x02; 0x00];
  [0x18; 0x3C; 0x7E; 0x18; 0x18; 0x7E; 0x3C; 0x18];
  [0x66; 0x66; 0x66; 0x66; 0x66; 0x00; 0x66; 0x00];
  [0x7F; 0xDB; 0xDB; 0x7B; 0x1B; 0x1B; 0x1B; 0x00];
  [0x3E; 0x63; 0x38; 0x6C; 0x6C; 0x38; 0xCC; 0x78];
  [0x00; 0x00; 0x00; 0x00; 0x7E; 0x7E; 0x7E; 0x00];
  [0x18; 0x3C; 0x7E; 0x18; 0x7E; 0x3C; 0x18; 0xFF];
  [0x18; 0x3C; 0x7E; 0x18; 0x18; 0x18; 0x18; 0x00];
  [0x18; 0x18; 0x18; 0x18; 0x7E; 0x3C; 0x18; 0x00];
  [0x00; 0x18; 0x0C; 0xFE; 0x0C; 0x18; 0x00; 0x00];
  [0x00; 0x30; 0x60; 0xFE; 0x60; 0x30; 0x00; 0x00];
  [0x00; 0x00; 0xC0; 0xC0; 0xC0; 0xFE; 0x00; 0x00];
  [0x00; 0x24; 0x66; 0xFF; 0x66; 0x24; 0x00; 0x00];
  [0x00; 0x18; 0x3C; 0x7E; 0xFF; 0xFF; 0x00; 0x00];
  [0x00; 0xFF; 0xFF; 0x7E; 0x3C; 0x18; 0x00; 0x00];
  [0x00; 0x00; 0x00; 0x00; 0x00; 0x00; 0x00; 0x00];
  [0x18; 0x3C; 0x3C; 0x18; 0x18; 0x00; 0x18; 0x00];
  [0x6C; 0x6C; 0x48; 0x00; 0x00; 0x00; 0x00; 0x00];
  [0x6C; 0x6C; 0xFE; 0x6C; 0xFE; 0x6C; 0x6C; 0x00];
  [0x18; 0x7E; 0xC0; 0x7C; 0x06; 0xFC; 0x18; 0x00];
  [0x00; 0xC6; 0xCC; 0x18; 0x30; 0x66; 0xC6; 0x00];
  [0x38; 0x6C; 0x38; 0x76; 0xDC; 0xCC; 0x76; 0x00];
  [0x30; 0x30; 0x60; 0x00; 0x00; 0x00; 0x00; 0x00];
  [0x18; 0x30; 0x60; 0x60; 0x60; 0x30; 0x18; 0x00];
  [0x60; 0x30; 0x18; 0x18; 0x18; 0x30; 0x60; 0x00];
  [0x00; 0x66; 0x3C; 0xFF; 0x3C; 0x66; 0x00; 0x00];
  [0x00; 0x18; 0x18; 0x7E; 0x18; 0x18; 0x00; 0x00];
  [0x00; 0x00; 0x00; 0x00; 0x00; 0x18; 0x18; 0x30];
  [0x00; 0x00; 0x00; 0x7E; 0x00; 0x00; 0x00; 0x00];
  [0x00; 0x00; 0x00; 0x00; 0x00; 0x18; 0x18; 0x00];
  [0x06; 0x0C; 0x18; 0x30; 0x60; 0xC0; 0x80; 0x00];
  [0x7C; 0xC6; 0xCE; 0xDE; 0xF6; 0xE6; 0x7C; 0x00];
  [0x30; 0x70; 0x30; 0x30; 0x30; 0x30; 0xFC; 0x00];
  [0x78; 0xCC; 0x0C; 0x38; 0x60; 0xCC; 0xFC; 0x00];
  [0x78; 0xCC; 0x0C; 0x38; 0x0C; 0xCC; 0x78; 0x00];
  [0x1C; 0x3C; 0x6C; 0xCC; 0xFE; 0x0C; 0x1E; 0x00];
  [0xFC; 0xC0; 0xF8; 0x0C; 0x0C; 0xCC; 0x78; 0x00];
  [0x38; 0x60; 0xC0; 0xF8; 0xCC; 0xCC; 0x78; 0x00];
  [0xFC; 0xCC; 0x0C; 0x18; 0x30; 0x30; 0x30; 0x00];
  [0x78; 0xCC; 0xCC; 0x78; 0xCC; 0xCC; 0x78; 0x00];
  [0x78; 0xCC; 0xCC; 0x7C; 0x0C; 0x18; 0x70; 0x00];
  [0x00; 0x18; 0x18; 0x00; 0x00; 0x18; 0x18; 0x00];
  [0x00; 0x18; 0x18; 0x00; 0x00; 0x18; 0x18; 0x30];
  [0x18; 0x30; 0x60; 0xC0; 0x60; 0x30; 0x18; 0x00];
  [0x00; 0x00; 0x7E; 0x00; 0x7E; 0x00; 0x00; 0x00];
  [0x60; 0x30; 0x18; 0x0C; 0x18; 0x30; 0x60; 0x00];
  [0x3C; 0x66; 0x06; 0x1C; 0x18; 0x00; 0x18; 0x00];
  [0x7C; 0xC6; 0xDE; 0xDE; 0xDE; 0xC0; 0x78; 0x00];
  [0x30; 0x78; 0xCC; 0xCC; 0xFC; 0xCC; 0xCC; 0x00];
  [0xFC; 0x66; 0x66; 0x7C; 0x66; 0x66; 0xFC; 0x00];
  [0x3C; 0x66; 0xC0; 0xC0; 0xC0; 0x66; 0x3C; 0x00];
  [0xF8; 0x6C; 0x66; 0x66; 0x66; 0x6C; 0xF8; 0x00];
  [0xFE; 0x62; 0x68; 0x78; 0x68; 0x62; 0xFE; 0x00];
  [0xFE; 0x62; 0x68; 0x78; 0x68; 0x60; 0xF0; 0x00];
  [0x3C; 0x66; 0xC0; 0xC0; 0xCE; 0x66; 0x3A; 0x00];
  [0xCC; 0xCC; 0xCC; 0xFC; 0xCC; 0xCC; 0xCC; 0x00];
  [0x78; 0x30; 0x30; 0x30; 0x30; 0x30; 0x78; 0x00];
  [0x1E; 0x0C; 0x0C; 0x0C; 0xCC; 0xCC; 0x78; 0x00];
  [0xE6; 0x66; 0x6C; 0x78; 0x6C; 0x66; 0xE6; 0x00];
  [0xF0; 0x60; 0x60; 0x60; 0x62; 0x66; 0xFE; 0x00];
  [0xC6; 0xEE; 0xFE; 0xFE; 0xD6; 0xC6; 0xC6; 0x00];
  [0xC6; 0xE6; 0xF6; 0xDE; 0xCE; 0xC6; 0xC6; 0x00];
  [0x38; 0x6C; 0xC6; 0xC6; 0xC6; 0x6C; 0x38; 0x00];
  [0xFC; 0x66; 0x66; 0x7C; 0x60; 0x60; 0xF0; 0x00];
  [0x78; 0xCC; 0xCC; 0xCC; 0xDC; 0x78; 0x1C; 0x00];
  [0xFC; 0x66; 0x66; 0x7C; 0x6C; 0x66; 0xE6; 0x00];
  [0x78; 0xCC; 0xE0; 0x70; 0x1C; 0xCC; 0x78; 0x00];
  [0xFC; 0xB4; 0x30; 0x30; 0x30; 0x30; 0x78; 0x00];
  [0xCC; 0xCC; 0xCC; 0xCC; 0xCC; 0xCC; 0xFC; 0x00];
  [0xCC; 0xCC; 0xCC; 0xCC; 0xCC; 0x78; 0x30; 0x00];
  [0xC6; 0xC6; 0xC6; 0xD6; 0xFE; 0xEE; 0xC6; 0x00];
  [0xC6; 0xC6; 0x6C; 0x38; 0x38; 0x6C; 0xC6; 0x00];
  [0xCC; 0xCC; 0xCC; 0x78; 0x30; 0x30; 0x78; 0x00];
  [0xFE; 0xC6; 0x8C; 0x18; 0x32; 0x66; 0xFE; 0x00];
  [0x78; 0x60; 0x60; 0x60; 0x60; 0x60; 0x78; 0x00];
  [0xC0; 0x60; 0x30; 0x18; 0x0C; 0x06; 0x02; 0x00];
  [0x78; 0x18; 0x18; 0x18; 0x18; 0x18; 0x78; 0x00];
  [0x10; 0x38; 0x6C; 0xC6; 0x00; 0x00; 0x00; 0x00];
  [0x00; 0x00; 0x00; 0x00; 0x00; 0x00; 0x00; 0xFF];
  [0x30; 0x30; 0x18; 0x00; 0x00; 0x00; 0x00; 0x00];
  [0x00; 0x00; 0x78; 0x0C; 0x7C; 0xCC; 0x76; 0x00];
  [0xE0; 0x60; 0x60; 0x7C; 0x66; 0x66; 0xDC; 0x00];
  [0x00; 0x00; 0x78; 0xCC; 0xC0; 0xCC; 0x78; 0x00];
  [0x1C; 0x0C; 0x0C; 0x7C; 0xCC; 0xCC; 0x76; 0x00];
  [0x00; 0x00; 0x78; 0xCC; 0xFC; 0xC0; 0x78; 0x00];
  [0x38; 0x6C; 0x60; 0xF0; 0x60; 0x60; 0xF0; 0x00];
  [0x00; 0x00; 0x76; 0xCC; 0xCC; 0x7C; 0x0C; 0xF8];
  [0xE0; 0x60; 0x6C; 0x76; 0x66; 0x66; 0xE6; 0x00];
  [0x30; 0x00; 0x70; 0x30; 0x30; 0x30; 0x78; 0x00];
  [0x0C; 0x00; 0x0C; 0x0C; 0x0C; 0xCC; 0xCC; 0x78];
  [0xE0; 0x60; 0x66; 0x6C; 0x78; 0x6C; 0xE6; 0x00];
  [0x70; 0x30; 0x30; 0x30; 0x30; 0x30; 0x78; 0x00];
  [0x00; 0x00; 0xCC; 0xFE; 0xFE; 0xD6; 0xC6; 0x00];
  [0x00; 0x00; 0xF8; 0xCC; 0xCC; 0xCC; 0xCC; 0x00];
  [0x00; 0x00; 0x78; 0xCC; 0xCC; 0xCC; 0x78; 0x00];
  [0x00; 0x00; 0xDC; 0x66; 0x66; 0x7C; 0x60; 0xF0];
  [0x00; 0x00; 0x76; 0xCC; 0xCC; 0x7C; 0x0C; 0x1E];
  [0x00; 0x00; 0xDC; 0x76; 0x66; 0x60; 0xF0; 0x00];
  [0x00; 0x00; 0x7C; 0xC0; 0x78; 0x0C; 0xF8; 0x00];
  [0x10; 0x30; 0x7C; 0x30; 0x30; 0x34; 0x18; 0x00];
  [0x00; 0x00; 0xCC; 0xCC; 0xCC; 0xCC; 0x76; 0x00];
  [0x00; 0x00; 0xCC; 0xCC; 0xCC; 0x78; 0x30; 0x00];
  [0x00; 0x00; 0xC6; 0xD6; 0xFE; 0xFE; 0x6C; 0x00];
  [0x00; 0x00; 0xC6; 0x6C; 0x38; 0x6C; 0xC6; 0x00];
  [0x00; 0x00; 0xCC; 0xCC; 0xCC; 0x7C; 0x0C; 0xF8];
  [0x00; 0x00; 0xFC; 0x98; 0x30; 0x64; 0xFC; 0x00];
  [0x1C; 0x30; 0x30; 0xE0; 0x30; 0x30; 0x1C; 0x00];
  [0x18; 0x18; 0x18; 0x00; 0x18; 0x18; 0x18; 0x00];
  [0xE0; 0x30; 0x30; 0x1C; 0x30; 0x30; 0xE0; 0x00];
  [0x76; 0xDC; 0x00; 0x00; 0x00; 0x00; 0x00; 0x00];
  [0x00; 0x10; 0x38; 0x6C; 0xC6; 0xC6; 0xFE; 0x00]].

(** [for (uint16_t i = lo; i < hi; i++)] with an [int] bound: [i] wraps around, so
    the loop ends only if [hi] is at most 65535; 65536 rounds are enough for that. *)
Fixpoint loop_u16 {S : Type} (fuel : nat) (i hi : Z) (body : Z -> S -> result S) (s : S) : result S :=
  if i <? hi then
    match fuel with
    | O => Err OutOfFuel
    | Datatypes.S fuel => s ← body i s; loop_u16 fuel (u16 (i + 1)) hi body s
    end
  else Ok s.
Definition for_u16 {S : Type} (lo hi : Z) := @loop_u16 S (Z.to_nat 65536) lo hi.

Definition DrawPixel (fb : list Z) (x y col : Z) : result (list Z) :=
  arr_set fb (y * 320 + x) (u8 col).

Definition DrawRect (fb : list Z) (x y w h col : Z) : result (list Z) :=
  for_u16 y (y + h) (fun row fb =>
    for_u16 x (x + w) (fun col2 fb => DrawPixel fb col2 row col) fb) fb.

Definition DrawChar (fb : list Z) (x y c fg bg : Z) : result (list Z) :=
  let idx := u8 c in
  let idx := if idx >=? 128 then 0 else idx in
  for_result 0 8 (fun row fb =>
    glyph ← arr_get font idx;
    bits ← arr_get glyph row;
    for_result 0 8 (fun col2 fb =>
      let px := if Z.land bits (Z.shiftr 0x80 col2) =? 0 then bg else fg in
      DrawPixel fb (u16 (x + col2)) (u16 (y + row)) px) fb) fb.

(** *** The mode switch *)

Definition seq_graphics : list (Z * Z) :=
  [(0x00, 0x03); (0x01, 0x01); (0x02, 0x0F); (0x03, 0x00); (0x04, 0x0E)].
Definition crtc_graphics : list (Z * Z) :=
  [(0x00, 0x5F); (0x01, 0x4F); (0x02, 0x50); (0x03, 0x82); (0x04, 0x54); (0x05, 0x80);
   (0x06, 0xBF); (0x07, 0x1F); (0x08, 0x00); (0x09, 0x41); (0x0A, 0x00); (0x0B, 0x00);
   (0x0C, 0x00); (0x0D, 0x00); (0x0E, 0x00); (0x0F, 0x00); (0x10, 0x9C); (0x11, 0x0E);
   (0x12, 0x8F); (0x13, 0x28); (0x14, 0x40); (0x15, 0x96); (0x16, 0xB9); (0x17, 0xA3);
   (0x18, 0xFF)].
Definition gc_graphics : list (Z * Z) :=
  [(0x00, 0x00); (0x01, 0x00); (0x02, 0x00); (0x03, 0x00); (0x04, 0x00); (0x05, 0x40);
   (0x06, 0x05); (0x07, 0x0F); (0x08, 0xFF)].
Definition ac_graphics : list (Z * Z) :=
  [(0x00, 0x00); (0x01, 0x01); (0x02, 0x02); (0x03, 0x03); (0x04, 0x04); (0x05, 0x05);
   (0x06, 0x14); (0x07, 0x07); (0x08, 0x38); (0x09, 0x39); (0x0A, 0x3A); (0x0B, 0x3B);
   (0x0C, 0x3C); (0x0D, 0x3D); (0x0E, 0x3E); (0x0F, 0x3F); (0x10, 0x41); (0x11, 0x00);
   (0x12, 0x0F); (0x13, 0x00); (0x14, 0x00)].
Definition seq_text : list (Z * Z) :=
  [(0x00, 0x03); (0x01, 0x00); (0x02, 0x03); (0x03, 0x00); (0x04, 0x02)].
Definition crtc_text : list (Z * Z) :=
  [(0x00, 0x5F); (0x01, 0x4F); (0x02, 0x50); (0x03, 0x82); (0x04, 0x55); (0x05, 0x81);
   (0x06, 0xBF); (0x07, 0x1F); (0x08, 0x00); (0x09, 0x4F); (0x0A, 0x0D); (0x0B, 0x0E);
   (0x0C, 0x00); (0x0D, 0x00); (0x0E, 0x00); (0x0F, 0x00); (0x10, 0x9C); (0x11, 0x8E);
   (0x12, 0x8F); (0x13, 0x28); (0x14, 0x1F); (0x15, 0x96); (0x16, 0xB9); (0x17, 0xA3);
   (0x18, 0xFF)].
Definition gc_text : list (Z * Z) :=
  [(0x00, 0x00); (0x01, 0x00); (0x02, 0x00); (0x03, 0x00); (0x04, 0x00); (0x05, 0x10);
   (0x06, 0x0E); (0x07, 0x00); (0x08, 0xFF)].
Definition ac_text : list (Z * Z) :=
  [(0x00, 0x00); (0x01, 0x01); (0x02, 0x02); (0x03, 0x03); (0x04, 0x04); (0x05, 0x05);
   (0x06, 0x14); (0x07, 0x07); (0x08, 0x38); (0x09, 0x39); (0x0A, 0x3A); (0x0B, 0x3B);
   (0x0C, 0x3C); (0x0D, 0x3D); (0x0E, 0x3E); (0x0F, 0x3F); (0x10, 0x0C); (0x11, 0x00);
   (0x12, 0x0F); (0x13, 0x08); (0x14, 0x00)].

Section modes.
Context {D : Type} `{PortIO D}.

Definition EnterGraphicsMode (v : vga) (d : D) : vga * D :=
  let d := Port8Bit_Write 0x3C2 0x63 d in
  let d := write_pairs 0x3C4 0x3C5 seq_graphics d in
  let d := Port8Bit_Write 0x3D4 0x11 d in
  let '(x, d) := Port8Bit_Read 0x3D5 d in
  let d := Port8Bit_Write 0x3D5 (Z.land x 0x7F) d in
  let d := write_pairs 0x3D4 0x3D5 crtc_graphics d in
  let d := write_pairs 0x3CE 0x3CF gc_graphics d in
  let '(_, d) := Port8Bit_Read 0x3DA d in
  let d := write_pairs 0x3C0 0x3C0 ac_graphics d in
  let d := Port8Bit_Write 0x3C0 0x20 d in
  (mkVga (buffer v) (cursor v) (color v) true, d).

Definition ExitGraphicsMode (v : vga) (d : D) : vga * D :=
  let d := Port8Bit_Write 0x3C2 0x67 d in
  let d := write_pairs 0x3C4 0x3C5 seq_text d in
  let d := write_pairs 0x3D4 0x3D5 crtc_text d in
  let d := write_pairs 0x3CE 0x3CF gc_text d in
  let '(_, d) := Port8Bit_Read 0x3DA d in
  let d := write_pairs 0x3C0 0x3C0 ac_text d in
  let d := Port8Bit_Write 0x3C0 0x20 d in
  (mkVga (buffer v) (cursor v) (color v) false, d).
End modes.

(** ** The registers of a VGA card *)

Record card := mkCard {
  misc : Z;
  seq_i : Z; seq_regs : Z -> Z;
  crtc_i : Z; crtc_regs : Z -> Z;
  gc_i : Z; gc_regs : Z -> Z;
  ac_i : Z; ac_regs : Z -> Z;
  ac_data : bool;  (** the next write to the attribute port is data *)
}.

Definition upd (f : Z -> Z) (i v : Z) : Z -> Z := fun k => if k =? i then v else f k.

(** Registers 0 to 7 of the CRT controller cannot be written while bit 7 of register
    17 is set (but for one bit of register 7). *)
Definition protected (c : card) : bool := Z.testbit (crtc_regs c 17) 7.

Definition crtc_write (c : card) (v : Z) : Z -> Z :=
  if (crtc_i c <=? 7) && protected c then
    if crtc_i c =? 7 then upd (crtc_regs c) 7 (Z.lor (Z.land (crtc_regs c 7) 0xEF) (Z.land v 0x10)) else crtc_regs c
  else upd (crtc_regs c) (crtc_i c) v.

Definition card_out (port v : Z) (c : card) : card :=
  let '(mkCard m si s ki k gi g ai a b) := c in
  if port =? 0x3C2 then mkCard v si s ki k gi g ai a b
  else if port =? 0x3C4 then mkCard m v s ki k gi g ai a b
  else if port =? 0x3C5 then mkCard m si (upd s si v) ki k gi g ai a b
  else if port =? 0x3D4 then mkCard m si s v k gi g ai a b
  else if port =? 0x3D5 then mkCard m si s ki (crtc_write c v) gi g ai a b
  else if port =? 0x3CE then mkCard m si s ki k v g ai a b
  else if port =? 0x3CF then mkCard m si s ki k gi (upd g gi v) ai a b
  else if port =? 0x3C0 then
    if b then mkCard m si s ki k gi g ai (upd a ai v) false else mkCard m si s ki k gi g v a true
  else c.

Definition card_in (port : Z) (c : card) : Z * card :=
  if port =? 0x3D5 then (crtc_regs c (crtc_i c), c)
  else if port =? 0x3DA then
    (0, mkCard (misc c) (seq_i c) (seq_regs c) (crtc_i c) (crtc_regs c) (gc_i c) (gc_regs c) (ac_i c) (ac_regs c) false)
  else (0, c).

#[global] Instance card_ports : PortIO card := {
  inp _ port c := card_in port c;
  outp _ port v c := card_out port v c;
}.

(** The registers a table leaves. *)
Definition programmed (f : Z -> Z) (vals : list (Z * Z)) : Z -> Z :=
  foldl (fun f p => upd f (fst p) (snd p)) f vals.

Definition bytes_table (vals : list (Z * Z)) : bool :=
  forallb (fun p => (0 <=? fst p) && (fst p <? 256) && (0 <=? snd p) && (snd p <? 256)) vals.

Definition agrees (f : Z -> Z) (vals : list (Z * Z)) : Prop :=
  Forall (fun p => f (fst p) = snd p) vals.

Lemma programmed_other f vals i : i ∉ vals.*1 -> programmed f vals i = f i.
Proof.
  revert f. induction vals as [|[j v] vals IH]; intros f Hi; [done|]. cbn in *.
  apply not_elem_of_cons in Hi as [Hne Hi]. unfold programmed in *. cbn. rewrite IH by done.
  unfold upd. by rewrite (proj2 (Z.eqb_neq i j)) by done.
Qed.

Lemma programmed_agrees f vals : NoDup vals.*1 -> agrees (programmed f vals) vals.
Proof.
  unfold agrees. revert f. induction vals as [|[i v] vals IH]; intros f Hnd; [done|].
  cbn in Hnd. apply NoDup_cons in Hnd as [Hi Hnd]. apply Forall_cons. split; [|by apply IH].
  change (programmed f ((i, v) :: vals)) with (programmed (upd f i v) vals). cbn [fst snd].
  rewrite programmed_other by done. unfold upd. by rewrite Z.eqb_refl.
Qed.

Lemma bytes_table_cons i v vals :
  bytes_table ((i, v) :: vals) = true -> u8 i = i /\ u8 v = v /\ bytes_table vals = true.
Proof.
  cbn. rewrite !andb_true_iff, !Z.leb_le, !Z.ltb_lt. intros [[[[? ?] ?] ?] ?].
  split; [apply u8_small; zify_words; lia|]. split; [apply u8_small; zify_words; lia | done].
Qed.

Section tables.
Implicit Types (c : card) (vals : list (Z * Z)).

(** Run the first pair of a table. *)
Ltac first_pair IH :=
  intros Hb; destruct (bytes_table_cons _ _ _ Hb) as (Hi & Hv & Hb');
  unfold write_pairs, programmed in *; cbn [foldl fst snd];
  unfold Port8Bit_Write; rewrite Hi, Hv; cbn.

Lemma seq_pairs vals m si s ki k gi g ai a b :
  bytes_table vals = true ->
  exists si', write_pairs 0x3C4 0x3C5 vals (mkCard m si s ki k gi g ai a b) =
    mkCard m si' (programmed s vals) ki k gi g ai a b.
Proof.
  revert si s. induction vals as [|[i v] vals IH]; intros si s; [by exists si|].
  first_pair IH. by apply IH.
Qed.

Lemma gc_pairs vals m si s ki k gi g ai a b :
  bytes_table vals = true ->
  exists gi', write_pairs 0x3CE 0x3CF vals (mkCard m si s ki k gi g ai a b) =
    mkCard m si s ki k gi' (programmed g vals) ai a b.
Proof.
  revert gi g. induction vals as [|[i v] vals IH]; intros gi g; [by exists gi|].
  first_pair IH. by apply IH.
Qed.

Lemma ac_pairs vals m si s ki k gi g ai a :
  bytes_table vals = true ->
  exists ai', write_pairs 0x3C0 0x3C0 vals (mkCard m si s ki k gi g ai a false) =
    mkCard m si s ki k gi g ai' (programmed a vals) false.
Proof.
  revert ai a. induction vals as [|[i v] vals IH]; intros ai a; [by exists ai|].
  first_pair IH. by apply IH.
Qed.

(** No pair of the table meets the write protection, given whether it is on. *)
Fixpoint unlocked (on : bool) vals : bool :=
  match vals with
  | [] => true
  | (i, v) :: vals => negb ((i <=? 7) && on) && unlocked (if i =? 17 then Z.testbit v 7 else on) vals
  end.

Lemma crtc_pairs vals m si s ki k gi g ai a b :
  bytes_table vals = true -> unlocked (Z.testbit (k 17) 7) vals = true ->
  exists ki', write_pairs 0x3D4 0x3D5 vals (mkCard m si s ki k gi g ai a b) =
    mkCard m si s ki' (programmed k vals) gi g ai a b.
Proof.
  revert ki k. induction vals as [|[i v] vals IH]; intros ki k; [by exists ki|].
  first_pair IH. intros [Hu Hr]%andb_true_iff. apply negb_true_iff in Hu.
  unfold crtc_write, protected. cbn [crtc_regs crtc_i]. rewrite Hu. apply IH; [done|].
  unfold upd. rewrite (Z.eqb_sym 17 i). by destruct (i =? 17).
Qed.
End tables.

(** Apply the port accesses made on a known card. *)
Ltac run_card :=
  cbn [card_out card_in Z.eqb Pos.eqb misc seq_i seq_regs crtc_i crtc_regs gc_i gc_regs ac_i ac_regs].

(** The mode switch programs the card.  From any state of the registers, with the
    CRT controller locked or not and the attribute port waiting for an index or for
    data, entering graphics mode leaves every register as the table of the 320 by 200
    mode has it, with the display enabled; leaving it again gives the registers of the
    text mode, although that table is written without unlocking first. *)
Theorem mode_switch (v : vga) (c : card) :
  let '(v1, c1) := EnterGraphicsMode v c in
  let '(v2, c2) := ExitGraphicsMode v1 c1 in
  misc c1 = 0x63 /\ agrees (seq_regs c1) seq_graphics /\ agrees (crtc_regs c1) crtc_graphics /\
  agrees (gc_regs c1) gc_graphics /\ agrees (ac_regs c1) ac_graphics /\ ac_i c1 = 0x20 /\
  IsGraphicsMode v1 = true /\
  misc c2 = 0x67 /\ agrees (seq_regs c2) seq_text /\ agrees (crtc_regs c2) crtc_text /\
  agrees (gc_regs c2) gc_text /\ agrees (ac_regs c2) ac_text /\ ac_i c2 = 0x20 /\
  IsGraphicsMode v2 = false.
Proof.
  destruct c as [m si s ki k gi g ai a b].
  unfold EnterGraphicsMode, ExitGraphicsMode, Port8Bit_Write, Port8Bit_Read. cbv zeta.
  cbn [inp outp card_ports]. run_card.
  destruct (seq_pairs seq_graphics (u8 0x63) si s ki k gi g ai a b eq_refl) as [si1 ->]. run_card.
  set (k1 := crtc_write _ _).
  assert (Hk1 : Z.testbit (k1 17) 7 = false).
  { unfold k1, crtc_write, upd. change (u8 17) with 17. cbn. unfold u8. rewrite Z.mod_pow2_bits_low, Z.land_spec by lia.
    by rewrite andb_false_r. }
  destruct (crtc_pairs crtc_graphics (u8 0x63) si1 (programmed s seq_graphics) (u8 17) k1 gi g ai a b eq_refl)
    as [ki1 ->]; [by rewrite Hk1|].
  destruct (gc_pairs gc_graphics (u8 0x63) si1 (programmed s seq_graphics) ki1 (programmed k1 crtc_graphics)
              gi g ai a b eq_refl) as [gi1 ->].
  run_card.
  destruct (ac_pairs ac_graphics (u8 0x63) si1 (programmed s seq_graphics) ki1 (programmed k1 crtc_graphics)
              gi1 (programmed g gc_graphics) ai a eq_refl) as [ai1 ->].
  run_card.
  destruct (seq_pairs seq_text (u8 0x67) si1 (programmed s seq_graphics) ki1 (programmed k1 crtc_graphics)
              gi1 (programmed g gc_graphics) (u8 0x20) (programmed a ac_graphics) true eq_refl) as [si2 ->].
  destruct (crtc_pairs crtc_text (u8 0x67) si2 (programmed (programmed s seq_graphics) seq_text) ki1
              (programmed k1 crtc_graphics) gi1 (programmed g gc_graphics) (u8 0x20)
              (programmed a ac_graphics) true eq_refl eq_refl) as [ki2 ->].
  destruct (gc_pairs gc_text (u8 0x67) si2 (programmed (programmed s seq_graphics) seq_text) ki2
              (programmed (programmed k1 crtc_graphics) crtc_text) gi1 (programmed g gc_graphics) (u8 0x20)
              (programmed a ac_graphics) true eq_refl) as [gi2 ->].
  run_card.
  destruct (ac_pairs ac_text (u8 0x67) si2 (programmed (programmed s seq_graphics) seq_text) ki2
              (programmed (programmed k1 crtc_graphics) crtc_text) gi2 (programmed (programmed g gc_graphics) gc_text)
              (u8 0x20) (programmed a ac_graphics) eq_refl) as [ai2 ->].
  run_card.
  split_and!; try reflexivity; apply programmed_agrees; apply (bool_decide_unpack _); vm_compute; exact I.
Qed.

(** ** Pictures *)

(** What a routine draws: the colour of each pixel it sets. *)
Definition picture : Type := Z -> Z -> option Z.

Definition pixel (fb : list Z) (x y : Z) : option Z := fb !! Z.to_nat (y * 320 + x).

(** [g] drawn over [f]. *)
Definition over (f g : picture) : picture :=
  fun x y => match g x y with Some c => Some c | None => f x y end.

(** [fb'] is [fb] with the picture drawn on it and nothing else changed. *)
Record drawn (fb : list Z) (f : picture) (fb' : list Z) : Prop := {
  dr_len : length fb' = length fb;
  dr_pixels : forall x y, 0 <= x < 320 -> 0 <= y < 200 ->
    pixel fb' x y = match f x y with Some c => Some c | None => pixel fb x y end;
  dr_rest : forall i, 64000 <= Z.of_nat i -> fb' !! i = fb !! i;
}.

Definition rect (x y w h c : Z) : picture := fun a b =>
  if (x <=? a) && (a <? x + w) && (y <=? b) && (b <? y + h) then Some c else None.

Definition glyph_index (c : Z) : Z := let idx := u8 c in if idx >=? 128 then 0 else idx.
Definition glyph_bit (c row col : Z) : bool :=
  Z.testbit ((font !!! Z.to_nat (glyph_index c)) !!! Z.to_nat row) (7 - col).

Definition glyph (x y c fg bg : Z) : picture := fun a b =>
  if (x <=? a) && (a <? x + 8) && (y <=? b) && (b <? y + 8)
  then Some (if glyph_bit c (b - y) (a - x) then fg else bg) else None.

Lemma drawn_refl fb : drawn fb (fun _ _ => None) fb.
Proof. by split. Qed.

Lemma drawn_over fb f fb1 g fb2 : drawn fb f fb1 -> drawn fb1 g fb2 -> drawn fb (over f g) fb2.
Proof.
  intros [L1 P1 R1] [L2 P2 R2]. split; [congruence | | intros i Hi; by rewrite R2, R1].
  intros x y Hx Hy. rewrite P2, P1 by done. unfold over. by destruct (g x y).
Qed.

Lemma drawn_ext fb f g fb' :
  (forall x y, 0 <= x < 320 -> 0 <= y < 200 -> f x y = g x y) -> drawn fb f fb' -> drawn fb g fb'.
Proof. intros E [L P R]. split; [done | | done]. intros x y Hx Hy. by rewrite P, E. Qed.

Lemma DrawPixel_drawn fb x y c :
  64000 <= Z.of_nat (length fb) -> 0 <= x < 320 -> 0 <= y < 200 -> is_u8 c ->
  exists fb', DrawPixel fb x y c = Ok fb' /\ drawn fb (rect x y 1 1 c) fb'.
Proof.
  intros Hl Hx Hy Hc. unfold DrawPixel. rewrite u8_small, arr_set_in_range by (done || lia).
  eexists. split; [reflexivity|]. split; [by rewrite length_insert | | intros i Hi; apply list_lookup_insert_ne; lia].
  intros a b Ha Hb. unfold pixel, rect.
  destruct (decide (a = x /\ b = y)) as [[-> ->]|Hne].
  - rewrite list_lookup_insert_eq by lia. case_tests; (done || lia).
  - rewrite list_lookup_insert_ne by lia. case_tests; (done || lia).
Qed.

Lemma loop_u16_ok {S : Type} fuel lo hi (body : Z -> S -> result S) s :
  0 <= lo <= hi -> hi < 65536 -> hi - lo <= Z.of_nat fuel ->
  loop_u16 fuel lo hi body s = for_result lo hi body s.
Proof.
  intros Hl Hh. revert lo s Hl. induction fuel as [|fuel IH]; intros lo s Hl Hf.
  - cbn [loop_u16]. rewrite (proj2 (Z.ltb_ge lo hi)) by lia. unfold for_result.
    by replace (hi - lo) with 0 by lia.
  - cbn [loop_u16]. destruct (Z.ltb_spec lo hi).
    + unfold for_result at 1. rewrite seqZ_cons by lia. cbn [fold_result].
      destruct (body lo s) as [s1|]; [|done]. cbn [mbind result_bind].
      rewrite u16_small, IH by (zify_words; lia). unfold for_result. do 2 f_equal; lia.
    + unfold for_result. by replace (hi - lo) with 0 by lia.
Qed.

Lemma for_u16_ok {S : Type} lo hi (body : Z -> S -> result S) s :
  0 <= lo <= hi -> hi < 65536 -> for_u16 lo hi body s = for_result lo hi body s.
Proof. intros. apply loop_u16_ok; lia. Qed.

Lemma DrawRect_drawn fb x y w h c :
  64000 <= Z.of_nat (length fb) -> 0 <= x -> 0 <= w -> x + w <= 320 -> 0 <= y -> 0 <= h -> y + h <= 200 ->
  is_u8 c ->
  exists fb', DrawRect fb x y w h c = Ok fb' /\ drawn fb (rect x y w h c) fb'.
Proof.
  intros Hl Hx Hw Hxw Hy Hh Hyh Hc. unfold DrawRect. rewrite for_u16_ok by lia.
  loop_with (fun i b => drawn fb (rect x y w (i - y) c) b) fb' E Hd.
  - lia.
  - eapply drawn_ext; [|apply drawn_refl]. intros a b Ha Hb. cbn. unfold rect. case_tests; (done || lia).
  - intros row b Hrow Hb. rewrite for_u16_ok by lia.
    loop_with (fun i b' => drawn fb (over (rect x y w (row - y) c) (rect x row (i - x) 1 c)) b') b' E Hb'.
    + lia.
    + eapply drawn_ext; [|exact Hb]. intros p q Hp Hq. unfold over, rect. case_tests; (done || lia).
    + intros i s Hi Hs. destruct (DrawPixel_drawn s i row c) as (s' & E & Hs'); [|lia|lia|done|].
      { rewrite (dr_len _ _ _ Hs). done. }
      exists s'. split; [exact E|]. eapply drawn_ext; [|exact (drawn_over _ _ _ _ _ Hs Hs')].
      intros p q Hp Hq. unfold over, rect. case_tests; (done || lia).
    + exists b'. split; [exact E|]. eapply drawn_ext; [|exact Hb']. intros p q Hp Hq. unfold over, rect.
      case_tests; (done || lia).
  - exists fb'. split; [done|]. eapply drawn_ext; [|exact Hd]. intros a b Ha Hb. unfold rect.
    by replace (y + (y + h - y)) with (y + h) by lia.
Qed.

Lemma glyph_index_range c : 0 <= glyph_index c < 128.
Proof. unfold glyph_index. pose proof (u8_bounds c). rewrite Z.geb_leb. case_tests; zify_words; lia. Qed.

Lemma font_rows i : 0 <= i < 128 -> exists g, arr_get font i = Ok g /\ font !!! Z.to_nat i = g /\ length g = 8%nat.
Proof.
  intros Hi. assert (Hl : length font = 128%nat) by reflexivity.
  assert (H8 : Forall (fun g => length g = 8%nat) font) by (apply (bool_decide_unpack _); vm_compute; exact I).
  destruct (arr_get_in_range font i) as [g Eg]; [lia|]. exists g. split; [done|].
  apply arr_get_Ok in Eg as [_ Eg]. split; [by apply list_lookup_total_correct|].
  by apply (Forall_lookup_1 _ _ _ _ H8 Eg).
Qed.

Lemma font_bit bits k : 0 <= k < 8 -> (Z.land bits (Z.shiftr 0x80 k) =? 0) = negb (Z.testbit bits (7 - k)).
Proof.
  intros Hk. replace (Z.shiftr 0x80 k) with (2 ^ (7 - k)); [apply land_pow2_eqb; lia|].
  change 0x80 with (2 ^ 7). rewrite Z.shiftr_div_pow2 by lia. rewrite Z.pow_sub_r by lia. done.
Qed.

Lemma DrawChar_drawn fb x y c fg bg :
  64000 <= Z.of_nat (length fb) -> 0 <= x -> x + 8 <= 320 -> 0 <= y -> y + 8 <= 200 -> is_u8 fg -> is_u8 bg ->
  exists fb', DrawChar fb x y c fg bg = Ok fb' /\ drawn fb (glyph x y c fg bg) fb'.
Proof.
  intros Hl Hx Hxw Hy Hyh Hfg Hbg. unfold DrawChar. cbv zeta. fold (glyph_index c).
  destruct (font_rows (glyph_index c) (glyph_index_range c)) as (g & Eg & Eg' & Hg).
  loop_with (fun i b => drawn fb (fun p q => if q <? y + i then glyph x y c fg bg p q else None) b) fb' E Hd.
  - lia.
  - eapply drawn_ext; [|apply drawn_refl]. intros p q Hp Hq. cbn. unfold glyph. case_tests; (done || lia).
  - intros row b Hrow Hb. rewrite Eg. cbn [mbind result_bind].
    destruct (arr_get_in_range g row) as [bits Ebits]; [lia|]. rewrite Ebits. cbn [mbind result_bind].
    apply arr_get_Ok in Ebits as [_ Ebits]. apply list_lookup_total_correct in Ebits.
    loop_with (fun i b' => drawn fb (fun p q =>
        if (q <? y + row) || ((q =? y + row) && (p <? x + i)) then glyph x y c fg bg p q else None) b') b' E Hb'.
    + lia.
    + eapply drawn_ext; [|exact Hb]. intros p q Hp Hq. unfold glyph. case_tests; (done || lia).
    + intros i s Hi Hs. rewrite !u16_small, font_bit by (zify_words; lia).
      set (px := if negb _ then bg else fg).
      destruct (DrawPixel_drawn s (x + i) (y + row) px) as (s' & E & Hs').
      * rewrite (dr_len _ _ _ Hs). done.
      * lia.
      * lia.
      * unfold px. by destruct (negb _).
      * exists s'. split; [exact E|]. eapply drawn_ext; [|exact (drawn_over _ _ _ _ _ Hs Hs')].
        intros p q Hp Hq. unfold over, rect.
        assert (Ep : p = x + i -> q = y + row -> glyph x y c fg bg p q = Some px).
        { intros -> ->. unfold glyph, px, glyph_bit. rewrite Eg'.
          replace (y + row - y) with row by lia. replace (x + i - x) with i by lia. rewrite Ebits.
          case_tests; try lia. by destruct (Z.testbit bits (7 - i)). }
        destruct (decide (p = x + i /\ q = y + row)) as [[E1 E2]|Hne].
        -- rewrite (Ep E1 E2). case_tests; (done || lia).
        -- unfold glyph. case_tests; (done || lia).
    + exists b'. split; [exact E|]. eapply drawn_ext; [|exact Hb']. intros p q Hp Hq. unfold glyph.
      case_tests; (done || lia).
  - exists fb'. split; [done|]. eapply drawn_ext; [|exact Hd]. intros p q Hp Hq. cbn. unfold glyph.
    case_tests; (done || lia).
Qed.

(** Drawing is exact.  A rectangle inside the 320 by 200 screen sets its pixels to
    its colour, a character sets the 64 pixels of its cell to the foreground where the
    glyph of the font has a bit and to the background elsewhere, both return, and every
    other byte of the frame buffer keeps its value. *)
Theorem drawing_exact fb x y w h c ch fg bg :
  64000 <= Z.of_nat (length fb) -> 0 <= x -> 0 <= y -> is_u8 c -> is_u8 fg -> is_u8 bg ->
  (0 <= w -> x + w <= 320 -> 0 <= h -> y + h <= 200 ->
   exists fb', DrawRect fb x y w h c = Ok fb' /\ drawn fb (rect x y w h c) fb') /\
  (x + 8 <= 320 -> y + 8 <= 200 ->
   exists fb', DrawChar fb x y ch fg bg = Ok fb' /\ drawn fb (glyph x y ch fg bg) fb').
Proof.
  intros Hl Hx Hy Hc Hfg Hbg. split; intros; [by apply DrawRect_drawn | by apply DrawChar_drawn].
Qed.

Lemma drawing_exact_witness :
  (exists fb', DrawRect (replicate (Z.to_nat 64000) 0) 300 190 20 10 7 = Ok fb' /\
     drawn (replicate (Z.to_nat 64000) 0) (rect 300 190 20 10 7) fb') /\
  (exists fb', DrawChar (replicate (Z.to_nat 64000) 0) 300 190 65 15 1 = Ok fb' /\
     drawn (replicate (Z.to_nat 64000) 0) (glyph 300 190 65 15 1) fb').
Proof.
  destruct (drawing_exact (replicate (Z.to_nat 64000) 0) 300 190 20 10 7 65 15 1) as [H1 H2].
  - rewrite length_replicate. lia.
  - lia.
  - lia.
  - zify_words. lia.
  - zify_words. lia.
  - zify_words. lia.
  - split; [apply H1; lia | apply H2; lia].
Defined.

End Graphics.
