(* ===== verification/BootAnim.v ===== *)
(** The boot animation: src/src/ui/boot_anim.cpp.

    A ring that turns: every frame clears a square and draws, row by row, an annulus
    whose width is scaled by the cosine of the angle.  The integer square root it uses is
    proved against the mathematical one, and the frames against the picture they draw. *)

From stdpp Require Import base numbers list.
From Stdlib Require Import ZArith Lia.
From S2P Require Import Prelude Ports Console Graphics.

Module BootAnim.
Import Ports Graphics.

(** ** The code *)

Definition sin_table : list Z :=
  [0; 12; 25; 37; 49; 60; 71; 81; 90; 98; 106; 112; 117; 122; 125; 127;
   127; 127; 125; 122; 117; 112; 106; 98; 90; 81; 71; 60; 49; 37; 25; 12;
   0; -12; -25; -37; -49; -60; -71; -81; -90; -98; -106; -112; -117; -122; -125; -127;
   -127; -127; -125; -122; -117; -112; -106; -98; -90; -81; -71; -60; -49; -37; -25; -12].

Definition sin64 (i : Z) : result Z := arr_get sin_table (Z.rem (Z.rem i 64 + 64) 64).
Definition cos64 (i : Z) : result Z := sin64 (i + 16).

(** [while (y < x) { x = y; y = (x + n / x) >> 1; } return x;] *)
Fixpoint newton (fuel : nat) (n x y : Z) : result Z :=
  if y <? x then
    match fuel with
    | O => Err OutOfFuel
    | S fuel => if y =? 0 then Err DivideError
                else newton fuel n y (Z.shiftr (u32 (y + n / y)) 1)
    end
  else Ok x.

Definition isqrt (n : Z) : result Z :=
  if n =? 0 then Ok 0 else newton 33 n n (Z.shiftr (u32 (n + 1)) 1).

Section ports.
Context {D : Type} `{PortIO D}.

Definition set_palette (idx r g b : Z) (d : D) : D :=
  let d := Port8Bit_Write 0x3C8 idx d in
  let d := Port8Bit_Write 0x3C9 (Z.shiftr r 2) d in
  let d := Port8Bit_Write 0x3C9 (Z.shiftr g 2) d in
  Port8Bit_Write 0x3C9 (Z.shiftr b 2) d.
End ports.

Definition put_px (scr : list Z) (x y col : Z) : result (list Z) :=
  if (u16 x <? 320) && (u16 y <? 200) then arr_set scr (u32 (u32 y * 320 + x)) col else Ok scr.

Definition BG : Z := 240.
Definition GOLD_D : Z := 241.
Definition GOLD_M : Z := 242.
Definition GOLD_B : Z := 243.
Definition GOLD_H : Z := 244.

Definition cx : Z := 160.
Definition cy : Z := 110.
Definition Rout : Z := 44.
Definition Rin : Z := 27.

(** [for (px = a; px <= b; px++) put_px(scr, px, py, col);] *)
Definition span (a b py col : Z) (scr : list Z) : result (list Z) :=
  for_result a (b + 1) (fun px scr => put_px scr px py col) scr.

(** The rows of the ring, one turn of the second loop over [dy]. *)
Definition draw_row (W dy : Z) (scr : list Z) : result (list Z) :=
  let py := cy + dy in
  let disc_o := Rout * Rout - dy * dy in
  if disc_o <? 0 then Ok scr
  else
    ro ← isqrt (u32 disc_o);
    let xo := Z.quot (W * ro) 127 in
    let disc_i := Rin * Rin - dy * dy in
    xi ← (if disc_i >=? 0 then ri ← isqrt (u32 disc_i); Ok (Z.quot (W * ri) 127) else Ok 0);
    let xi := if xi >? xo then xo else xi in
    let col := if dy <? Z.quot (- Rout * 2) 3 then GOLD_H
               else if dy <? Z.quot (- Rout) 3 then GOLD_B
               else if dy <? Z.quot Rout 3 then GOLD_M else GOLD_D in
    scr ← span (cx - xo) (cx - xi - 1) py col scr;
    scr ← span (cx + xi + 1) (cx + xo) py col scr;
    if (xo >? 0) && (xi =? 0) then put_px scr cx py col else Ok scr.

Definition draw_frame (frame : Z) (scr : list Z) : result (list Z) :=
  let ai := Z.land frame 63 in
  W ← cos64 ai;
  let W := if W <? 0 then - W else W in
  scr ← for_result (- (Rout + 2)) (Rout + 2 + 1)
          (fun dy scr => span (cx - Rout - 2) (cx + Rout + 2) (cy + dy) BG scr) scr;
  for_result (- Rout) (Rout + 1) (draw_row W) scr.

(** "FRODO OS", "The One Ring" and "Loading..." *)
Definition title : list Z := [70; 82; 79; 68; 79; 32; 79; 83].
Definition subtitle : list Z := [84; 104; 101; 32; 79; 110; 101; 32; 82; 105; 110; 103].
Definition tagline : list Z := [76; 111; 97; 100; 105; 110; 103; 46; 46; 46].

(** [for (i = 0; s[i]; i++) VGA::DrawChar(x + i * 8, y, s[i], fg, BG);] *)
Definition draw_text (s : list Z) (x y fg : Z) (scr : list Z) : result (list Z) :=
  for_result 0 (Z.of_nat (length s)) (fun i scr =>
    c ← arr_get s i; DrawChar scr (u16 (x + i * 8)) y c fg BG) scr.

Definition fill (v : Z) (scr : list Z) : result (list Z) :=
  for_result 0 (320 * 200) (fun i scr => arr_set scr i v) scr.

(** The delay loops between the frames do nothing else. *)
Definition BootAnimation {D : Type} `{PortIO D} (scr : list Z) (d : D) : result (list Z * D) :=
  let d := set_palette BG 10 10 20 d in
  let d := set_palette GOLD_D 100 50 0 d in
  let d := set_palette GOLD_M 180 110 10 d in
  let d := set_palette GOLD_B 230 175 30 d in
  let d := set_palette GOLD_H 255 240 160 d in
  scr ← fill BG scr;
  let tx := (320 - 8 * 8) / 2 in
  let stx := (320 - 12 * 8) / 2 in
  let ltx := (320 - 10 * 8) / 2 in
  scr ← draw_text title tx 10 GOLD_H scr;
  scr ← draw_text title tx 11 GOLD_B scr;
  scr ← draw_text subtitle stx 22 GOLD_M scr;
  scr ← draw_text tagline ltx 188 GOLD_D scr;
  scr ← for_result 0 192 draw_frame scr;
  scr ← fill 0 scr;
  Ok (scr, d).

(** ** The square root *)

Section newton.
Context (n s : Z) (Hn : 0 < n < 2 ^ 32 - 1) (Hs : s * s <= n < (s + 1) * (s + 1)) (Hs0 : 0 < s).

(** Newton's step stays above the root and, above it, halves the distance. *)
Lemma step_above x : 0 < x -> s <= (x + n / x) / 2.
Proof using Hs Hs0.
  intros Hx. apply Z.div_le_lower_bound; [lia|].
  enough (2 * s - x <= n / x) by lia. apply Z.div_le_lower_bound; [lia|].
  pose proof (Z.square_nonneg (x - s)). nia.
Qed.

Lemma step_below x : s < x -> n / x <= s.
Proof using Hs Hs0.
  intros Hx. apply Z.lt_succ_r. apply Z.div_lt_upper_bound; nia.
Qed.

Lemma step_u32 x : s <= x <= n -> Z.shiftr (u32 (x + n / x)) 1 = (x + n / x) / 2.
Proof using Hn Hs Hs0.
  intros Hx. rewrite Z.shiftr_div_pow2 by lia. change (2 ^ 1) with 2. f_equal. apply u32_small.
  assert (0 <= n / x) by (apply Z.div_pos; lia).
  assert (n / x * x <= n) by (pose proof (Z.div_mod n x ltac:(lia)); pose proof (Z.mod_pos_bound n x ltac:(lia)); lia).
  split; [lia|]. destruct (decide (x = n)) as [->|]; [rewrite Z.div_same by lia; lia|].
  destruct (decide (x = 1)) as [->|]; [lia|]. nia.
Qed.

Lemma newton_ok fuel x y :
  s <= x <= n -> y = (x + n / x) / 2 -> x - s < 2 ^ Z.of_nat fuel -> newton fuel n x y = Ok s.
Proof using Hn Hs Hs0.
  revert x y. induction fuel as [|fuel IH]; intros x y Hx Hy Hf.
  - assert (x = s) by (cbn in Hf; lia). subst x.
    pose proof (step_above s Hs0). cbn [newton]. rewrite (proj2 (Z.ltb_ge y s)) by lia. done.
  - cbn [newton]. pose proof (step_above x ltac:(lia)) as Ha.
    destruct (decide (x = s)) as [->|Hne]; [rewrite (proj2 (Z.ltb_ge y s)) by lia; done|].
    pose proof (step_below x ltac:(lia)) as Hb.
    assert (Hlt : y < x) by (subst y; apply Z.div_lt_upper_bound; lia).
    rewrite (proj2 (Z.ltb_lt y x)) by done. destruct (Z.eqb_spec y 0); [lia|].
    assert (Hhalf : 2 * y <= x + s) by (subst y; pose proof (Z.mul_div_le (x + n / x) 2 ltac:(lia)); lia).
    apply IH; [lia | apply step_u32; lia |].
    rewrite Nat2Z.inj_succ, Z.pow_succ_r in Hf by lia. lia.
Qed.
End newton.

Lemma isqrt_ok n : 0 <= n < 2 ^ 32 - 1 -> isqrt n = Ok (Z.sqrt n).
Proof.
  intros Hn. unfold isqrt. destruct (Z.eqb_spec n 0) as [->|]; [done|].
  pose proof (Z.sqrt_spec n ltac:(lia)) as Hs. cbv zeta in Hs.
  change (Z.succ (Z.sqrt n)) with (Z.sqrt n + 1) in Hs. assert (Hp : 0 < Z.sqrt n) by (apply Z.sqrt_pos; lia).
  apply (newton_ok n (Z.sqrt n)); [lia | lia | done | | | ].
  - split; [nia | lia].
  - rewrite (u32_small (n + 1)), Z.shiftr_div_pow2 by (zify_words; lia). by rewrite Z.div_same by lia.
  - change (2 ^ Z.of_nat 33) with (2 * 2 ^ 32). lia.
Qed.

(** [isqrt] returns the integer square root of every 32-bit number but the last, after at
    most 33 rounds; for 2^32 - 1 its first step wraps to zero and the next divides by
    zero. *)
Theorem isqrt_correct n :
  (0 <= n < 2 ^ 32 - 1 -> exists r, isqrt n = Ok r /\ 0 <= r /\ r * r <= n < (r + 1) * (r + 1)) /\
  isqrt (2 ^ 32 - 1) = Err DivideError.
Proof.
  split; [|reflexivity]. intros Hn. exists (Z.sqrt n). split; [by apply isqrt_ok|].
  pose proof (Z.sqrt_spec n ltac:(lia)) as Hs. cbv zeta in Hs. change (Z.succ (Z.sqrt n)) with (Z.sqrt n + 1) in Hs.
  pose proof (Z.sqrt_nonneg n). done.
Qed.

Lemma isqrt_correct_witness : exists r, isqrt 1936 = Ok r /\ 0 <= r /\ r * r <= 1936 < (r + 1) * (r + 1).
Proof. apply (isqrt_correct 1936). lia. Defined.

(** ** Frames *)

Lemma put_px_drawn scr x y c :
  64000 <= Z.of_nat (length scr) -> 0 <= x < 320 -> 0 <= y < 200 -> is_u8 c ->
  exists scr', put_px scr x y c = Ok scr' /\ drawn scr (rect x y 1 1 c) scr'.
Proof.
  intros Hl Hx Hy Hc. unfold put_px. rewrite !u16_small by (zify_words; lia).
  rewrite (proj2 (Z.ltb_lt x 320)), (proj2 (Z.ltb_lt y 200)) by lia. cbn [andb].
  rewrite (u32_small y), (u32_small (y * 320 + x)) by (zify_words; lia).
  destruct (DrawPixel_drawn scr x y c Hl Hx Hy Hc) as (scr' & E & Hd). exists scr'. split; [|done].
  unfold DrawPixel in E. by rewrite u8_small in E.
Qed.

Lemma span_drawn a b py c scr :
  64000 <= Z.of_nat (length scr) -> 0 <= a -> a <= b + 1 -> b < 320 -> 0 <= py < 200 -> is_u8 c ->
  exists scr', span a b py c scr = Ok scr' /\ drawn scr (rect a py (b + 1 - a) 1 c) scr'.
Proof.
  intros Hl Ha Hab Hb Hy Hc. unfold span.
  loop_with (fun i s => drawn scr (rect a py (i - a) 1 c) s) scr' E Hd.
  - lia.
  - eapply drawn_ext; [|apply drawn_refl]. intros p q Hp Hq. cbn. unfold rect. case_tests; (done || lia).
  - intros i s Hi Hs. destruct (put_px_drawn s i py c) as (s' & E & Hs'); [|lia|lia|done|].
    { rewrite (dr_len _ _ _ Hs). done. }
    exists s'. split; [exact E|]. eapply drawn_ext; [|exact (drawn_over _ _ _ _ _ Hs Hs')].
    intros p q Hp Hq. unfold over, rect. case_tests; (done || lia).
  - by exists scr'.
Qed.

(** The half widths of the ring at height [dy], its hole first, and its colour. *)
Definition outer (W dy : Z) : Z := W * Z.sqrt (Rout * Rout - dy * dy) / 127.
Definition inner (W dy : Z) : Z :=
  if Z.abs dy <=? Rin then Z.min (outer W dy) (W * Z.sqrt (Rin * Rin - dy * dy) / 127) else 0.
Definition shade (dy : Z) : Z :=
  if dy <? -29 then GOLD_H else if dy <? -14 then GOLD_B else if dy <? 14 then GOLD_M else GOLD_D.

(** Is the point at [dx], [dy] from the centre on the ring? *)
Definition on_ring (W dx dy : Z) : bool :=
  (Z.abs dy <=? Rout) &&
  (((inner W dy <? Z.abs dx) && (Z.abs dx <=? outer W dy)) ||
   ((dx =? 0) && (inner W dy =? 0) && (0 <? outer W dy))).

Definition ring (W : Z) : picture := fun x y =>
  if on_ring W (x - cx) (y - cy) then Some (shade (y - cy)) else None.

Definition ring_row (W dy : Z) : picture := fun x y =>
  if (y =? cy + dy) then ring W x y else None.

Lemma outer_bound W dy : 0 <= W <= 127 -> Z.abs dy <= Rout -> 0 <= outer W dy <= Rout.
Proof.
  intros HW Hdy. unfold outer, Rout in *.
  assert (Hs : 0 <= Z.sqrt (44 * 44 - dy * dy) <= 44).
  { split; [apply Z.sqrt_nonneg|]. change 44 with (Z.sqrt (44 * 44)) at 3. apply Z.sqrt_le_mono. nia. }
  split; [apply Z.div_pos; nia|]. apply Z.lt_succ_r, Z.div_lt_upper_bound; nia.
Qed.

Lemma inner_bound W dy : 0 <= W <= 127 -> Z.abs dy <= Rout -> 0 <= inner W dy <= outer W dy.
Proof.
  intros HW Hdy. pose proof (outer_bound W dy HW Hdy) as Ho. unfold inner.
  destruct (Z.leb_spec (Z.abs dy) Rin); [|lia].
  assert (0 <= W * Z.sqrt (Rin * Rin - dy * dy) / 127).
  { apply Z.div_pos; [|lia]. pose proof (Z.sqrt_nonneg (Rin * Rin - dy * dy)). nia. }
  lia.
Qed.

Lemma shade_u8 dy : is_u8 (shade dy).
Proof. unfold shade, GOLD_H, GOLD_B, GOLD_M, GOLD_D. case_tests; zify_words; lia. Qed.

(** The widths the code computes. *)
Lemma draw_row_widths W dy scr :
  0 <= W <= 127 -> Z.abs dy <= Rout ->
  draw_row W dy scr =
    (scr ← span (cx - outer W dy) (cx - inner W dy - 1) (cy + dy) (shade dy) scr;
     scr ← span (cx + inner W dy + 1) (cx + outer W dy) (cy + dy) (shade dy) scr;
     if (outer W dy >? 0) && (inner W dy =? 0) then put_px scr cx (cy + dy) (shade dy) else Ok scr).
Proof.
  intros HW Hdy. unfold draw_row. cbv zeta. unfold Rout in *.
  assert (Hd2 : 0 <= dy * dy <= 1936) by nia.
  destruct (Z.ltb_spec (44 * 44 - dy * dy) 0); [lia|].
  rewrite (u32_small (44 * 44 - dy * dy)) by (zify_words; lia). rewrite (isqrt_ok (44 * 44 - dy * dy)) by lia.
  rewrite result_bind_Ok.
  pose proof (Z.sqrt_nonneg (44 * 44 - dy * dy)) as Hq.
  rewrite (Z.quot_div_nonneg (W * Z.sqrt (44 * 44 - dy * dy))) by nia.
  fold Rout. change (W * Z.sqrt (Rout * Rout - dy * dy) / 127) with (outer W dy).
  change (Z.quot (- Rout * 2) 3) with (-29). change (Z.quot (- Rout) 3) with (-14). change (Z.quot Rout 3) with 14.
  fold (shade dy). rewrite Z.geb_leb. unfold inner, Rin.
  destruct (Z.leb_spec (Z.abs dy) 27).
  - assert (Hd3 : dy * dy <= 729) by nia. rewrite (proj2 (Z.leb_le 0 (27 * 27 - dy * dy))) by lia.
    rewrite u32_small by (zify_words; lia). rewrite isqrt_ok by lia. rewrite !result_bind_Ok.
    pose proof (Z.sqrt_nonneg (27 * 27 - dy * dy)). rewrite Z.quot_div_nonneg by nia.
    set (ri := W * Z.sqrt (27 * 27 - dy * dy) / 127).
    replace (if ri >? outer W dy then outer W dy else ri) with (Z.min (outer W dy) ri); [done|].
    rewrite Z.gtb_ltb. destruct (Z.ltb_spec (outer W dy) ri); lia.
  - rewrite (proj2 (Z.leb_gt 0 (27 * 27 - dy * dy))) by nia. rewrite result_bind_Ok.
    pose proof (outer_bound W dy HW Hdy). rewrite !Z.gtb_ltb.
    by rewrite (proj2 (Z.ltb_ge (outer W dy) 0)) by lia.
Qed.

Lemma draw_row_drawn W dy scr :
  64000 <= Z.of_nat (length scr) -> 0 <= W <= 127 -> Z.abs dy <= Rout ->
  exists scr', draw_row W dy scr = Ok scr' /\ drawn scr (ring_row W dy) scr'.
Proof.
  intros Hl HW Hdy. rewrite draw_row_widths by done. pose proof (shade_u8 dy) as Hc.
  pose proof (outer_bound W dy HW Hdy) as Ho. pose proof (inner_bound W dy HW Hdy) as Hi.
  set (xo := outer W dy) in *. set (xi := inner W dy) in *. unfold Rout, cx, cy in *.
  destruct (span_drawn (160 - xo) (160 - xi - 1) (110 + dy) (shade dy) scr) as (s1 & -> & H1); [lia..|done|].
  rewrite result_bind_Ok. pose proof (dr_len _ _ _ H1) as L1.
  destruct (span_drawn (160 + xi + 1) (160 + xo) (110 + dy) (shade dy) s1) as (s2 & -> & H2); [lia..|done|].
  rewrite result_bind_Ok. pose proof (dr_len _ _ _ H2) as L2.
  pose proof (drawn_over _ _ _ _ _ H1 H2) as H12.
  assert (Hring : forall p q, ring_row W dy p q =
    if (q =? 110 + dy) && (((xi <? Z.abs (p - 160)) && (Z.abs (p - 160) <=? xo)) ||
      ((p - 160 =? 0) && (xi =? 0) && (0 <? xo))) then Some (shade dy) else None).
  { intros p q. unfold ring_row, ring, on_ring, cx, cy, Rout. destruct (Z.eqb_spec q (110 + dy)) as [->|]; [|done].
    replace (110 + dy - 110) with dy by lia. fold xi xo. rewrite (proj2 (Z.leb_le (Z.abs dy) 44)) by done. done. }
  rewrite Z.gtb_ltb. destruct (Z.ltb_spec 0 xo), (Z.eqb_spec xi 0) as [Exi|Exi]; cbn [andb].
  - destruct (put_px_drawn s2 160 (110 + dy) (shade dy)) as (s3 & -> & H3); [lia..|done|].
    exists s3. split; [done|]. eapply drawn_ext; [|exact (drawn_over _ _ _ _ _ H12 H3)].
    intros p q Hp Hq. rewrite Hring. unfold over, rect. case_tests; (done || lia).
  - exists s2. split; [done|]. eapply drawn_ext; [|exact H12].
    intros p q Hp Hq. rewrite Hring. unfold over, rect. case_tests; (done || lia).
  - exists s2. split; [done|]. eapply drawn_ext; [|exact H12].
    intros p q Hp Hq. rewrite Hring. unfold over, rect. case_tests; (done || lia).
  - exists s2. split; [done|]. eapply drawn_ext; [|exact H12].
    intros p q Hp Hq. rewrite Hring. unfold over, rect. case_tests; (done || lia).
Qed.

(** The width factor of a frame. *)
Definition width (frame : Z) : Z := Z.abs (sin_table !!! Z.to_nat ((frame + 16) mod 64)).

Lemma cos64_width frame :
  exists W, cos64 (Z.land frame 63) = Ok W /\ (if W <? 0 then - W else W) = width frame /\ 0 <= width frame <= 127.
Proof.
  unfold cos64, sin64, width. change 63 with (Z.ones 6). rewrite Z.land_ones by lia. change (2 ^ 6) with 64.
  pose proof (Z.mod_pos_bound frame 64 ltac:(lia)).
  assert (E : Z.rem (Z.rem (frame mod 64 + 16) 64 + 64) 64 = (frame + 16) mod 64).
  { rewrite (Z.rem_mod_nonneg (frame mod 64 + 16)) by lia.
    pose proof (Z.mod_pos_bound (frame mod 64 + 16) 64 ltac:(lia)).
    rewrite Z.rem_mod_nonneg by lia. Z.div_mod_to_equations; lia. }
  rewrite E. pose proof (Z.mod_pos_bound (frame + 16) 64 ltac:(lia)) as Hm.
  destruct (arr_get_in_range sin_table ((frame + 16) mod 64)) as [W EW]; [cbn; lia|].
  exists W. split; [done|]. apply arr_get_Ok in EW as [_ EW]. rewrite (list_lookup_total_correct _ _ _ EW).
  assert (Hb : Forall (fun w => -127 <= w <= 127) sin_table) by (repeat constructor; lia).
  pose proof (Forall_lookup_1 _ _ _ _ Hb EW) as HW. cbn in HW.
  split; [destruct (Z.ltb_spec W 0); lia | lia].
Qed.

(** One frame: the square cleared, the ring drawn on it. *)
Definition frame_picture (frame : Z) : picture := over (rect 114 64 93 93 BG) (ring (width frame)).

Lemma clear_box scr :
  64000 <= Z.of_nat (length scr) ->
  exists scr', for_result (- (Rout + 2)) (Rout + 2 + 1)
      (fun dy scr => span (cx - Rout - 2) (cx + Rout + 2) (cy + dy) BG scr) scr = Ok scr' /\
    drawn scr (rect 114 64 93 93 BG) scr'.
Proof.
  intros Hl. unfold Rout, cx, cy.
  loop_with (fun dy s => drawn scr (rect 114 64 93 (dy + 46) BG) s) scr' E Hd.
  - lia.
  - eapply drawn_ext; [|apply drawn_refl]. intros p q Hp Hq. cbn. unfold rect. case_tests; (done || lia).
  - intros dy s Hdy Hs. destruct (span_drawn (160 - 44 - 2) (160 + 44 + 2) (110 + dy) BG s) as (s' & E & Hs').
    { rewrite (dr_len _ _ _ Hs). done. } { lia. } { lia. } { lia. } { lia. } { unfold BG. zify_words. lia. }
    exists s'. split; [exact E|]. eapply drawn_ext; [|exact (drawn_over _ _ _ _ _ Hs Hs')].
    intros p q Hp Hq. unfold over, rect. case_tests; (done || lia).
  - by exists scr'.
Qed.

Lemma draw_frame_drawn frame scr :
  64000 <= Z.of_nat (length scr) ->
  exists scr', draw_frame frame scr = Ok scr' /\ drawn scr (frame_picture frame) scr'.
Proof.
  intros Hl. unfold draw_frame. cbv zeta. destruct (cos64_width frame) as (W & -> & EW & HW).
  rewrite result_bind_Ok, EW. destruct (clear_box scr Hl) as (s0 & -> & H0). rewrite result_bind_Ok.
  pose proof (dr_len _ _ _ H0) as L0. unfold Rout at 1 2.
  loop_with (fun dy s => drawn s0 (fun x y => if y <? cy + dy then ring (width frame) x y else None) s) s1 E H1.
  - lia.
  - eapply drawn_ext; [|apply drawn_refl]. intros p q Hp Hq. cbv beta. destruct (Z.ltb_spec q (cy + Z.opp 44)); [|done].
    unfold ring, on_ring, cy, Rout in *. by rewrite (proj2 (Z.leb_gt (Z.abs (q - 110)) 44)) by lia.
  - intros dy s Hdy Hs. destruct (draw_row_drawn (width frame) dy s) as (s' & E & Hs').
    { rewrite (dr_len _ _ _ Hs), L0. done. } { done. } { unfold Rout. lia. }
    exists s'. split; [exact E|]. eapply drawn_ext; [|exact (drawn_over _ _ _ _ _ Hs Hs')].
    intros p q Hp Hq. unfold over, ring_row.
    destruct (Z.eqb_spec q (cy + dy)), (Z.ltb_spec q (cy + dy)), (Z.ltb_spec q (cy + (dy + 1))); try lia; try done.
    by destruct (ring _ _ _).
  - exists s1. split; [exact E|]. eapply drawn_ext; [|exact (drawn_over _ _ _ _ _ H0 H1)].
    intros p q Hp Hq. unfold frame_picture, over. destruct (Z.ltb_spec q (cy + (44 + 1))); [done|].
    unfold ring, on_ring, cy, Rout in *. by rewrite (proj2 (Z.leb_gt (Z.abs (q - 110)) 44)) by lia.
Qed.

(** [s] differs from [scr] on the screen only. *)
Definition on_screen (scr s : list Z) : Prop :=
  length s = length scr /\ drop (Z.to_nat 64000) s = drop (Z.to_nat 64000) scr.

Lemma drawn_on_screen scr s f s' : on_screen scr s -> drawn s f s' -> on_screen scr s'.
Proof.
  intros [L E] [L' _ R]. split; [congruence|]. rewrite <- E. apply list_eq. intros i.
  rewrite !lookup_drop. apply R. lia.
Qed.

Lemma draw_text_ok str x y fg scr s :
  on_screen scr s -> 64000 <= Z.of_nat (length scr) ->
  0 <= x -> x + 8 * Z.of_nat (length str) <= 320 -> 0 <= y -> y + 8 <= 200 ->
  is_u8 fg -> exists s', draw_text str x y fg s = Ok s' /\ on_screen scr s'.
Proof.
  intros Hs Hl Hx Hw Hy Hh Hf. unfold draw_text.
  loop_with (fun (_ : Z) s => on_screen scr s) s' E Hd; [lia | done | | by exists s'].
  intros i s1 Hi Hs1. destruct (arr_get_in_range str i Hi) as [c ->]. cbn [mbind result_bind].
  rewrite u16_small by (zify_words; lia).
  destruct (DrawChar_drawn s1 (x + i * 8) y c fg BG) as (s2 & E & Hs2);
    [rewrite (proj1 Hs1); done | lia | lia | lia | lia | done | unfold BG; zify_words; lia |].
  exists s2. split; [exact E|]. by apply (drawn_on_screen _ _ _ _ Hs1 Hs2).
Qed.

Lemma fill_ok v scr :
  64000 <= Z.of_nat (length scr) ->
  fill v scr = Ok (replicate (Z.to_nat 64000) v ++ drop (Z.to_nat 64000) scr).
Proof.
  intros Hl. unfold fill. change (320 * 200) with 64000. rewrite Console.fill_loop by lia. done.
Qed.

(** Every frame of the boot animation draws exactly the ring of its angle: in the
    square around the centre the pixels of the annulus, scaled horizontally by the
    cosine, in the shade of their row, and the background elsewhere; nothing outside the
    square changes.  The animation ends, writes only inside the frame buffer, and leaves
    the screen black. *)
Theorem boot_animation_exact {D : Type} `{PortIO D} frame scr (d : D) :
  64000 <= Z.of_nat (length scr) ->
  (exists scr', draw_frame frame scr = Ok scr' /\ drawn scr (frame_picture frame) scr') /\
  (exists d', BootAnimation scr d = Ok (replicate (Z.to_nat 64000) 0 ++ drop (Z.to_nat 64000) scr, d')).
Proof.
  intros Hl. split; [by apply draw_frame_drawn|]. unfold BootAnimation. cbv zeta.
  rewrite fill_ok, result_bind_Ok by done. set (s0 := replicate _ BG ++ _).
  assert (H0 : on_screen scr s0).
  { unfold s0. split; [rewrite length_app, length_replicate, length_drop; lia|].
    by rewrite drop_app_length' by (by rewrite length_replicate). }
  change ((320 - 8 * 8) / 2) with 128. change ((320 - 12 * 8) / 2) with 112. change ((320 - 10 * 8) / 2) with 120.
  assert (Hc : is_u8 GOLD_H /\ is_u8 GOLD_B /\ is_u8 GOLD_M /\ is_u8 GOLD_D)
    by (unfold GOLD_H, GOLD_B, GOLD_M, GOLD_D; zify_words; lia).
  destruct Hc as (C1 & C2 & C3 & C4).
  destruct (draw_text_ok title 128 10 GOLD_H scr s0) as (s1 & -> & H1); [done | done | cbn; lia .. | done |].
  rewrite result_bind_Ok.
  destruct (draw_text_ok title 128 11 GOLD_B scr s1) as (s2 & -> & H2); [done | done | cbn; lia .. | done |].
  rewrite result_bind_Ok.
  destruct (draw_text_ok subtitle 112 22 GOLD_M scr s2) as (s3 & -> & H3); [done | done | cbn; lia .. | done |].
  rewrite result_bind_Ok.
  destruct (draw_text_ok tagline 120 188 GOLD_D scr s3) as (s4 & -> & H4); [done | done | cbn; lia .. | done |].
  rewrite result_bind_Ok.
  loop_with (fun (_ : Z) s => on_screen scr s) s5 E H5; [lia | done | |].
  { intros i s Hi Hs. destruct (draw_frame_drawn i s) as (s' & E & Hs'); [rewrite (proj1 Hs); done|].
    exists s'. split; [exact E|]. by apply (drawn_on_screen _ _ _ _ Hs Hs'). }
  rewrite E, result_bind_Ok. rewrite fill_ok, result_bind_Ok by (rewrite (proj1 H5); done).
  rewrite (proj2 H5). eauto.
Qed.

Lemma boot_animation_exact_witness :
  (exists scr', draw_frame 5 (replicate (Z.to_nat 64000) 3) = Ok scr' /\
     drawn (replicate (Z.to_nat 64000) 3) (frame_picture 5) scr') /\
  frame_picture 5 (160 + 30) 110 = Some GOLD_M /\ frame_picture 5 160 110 = Some BG.
Proof.
  split; [|split; vm_compute; reflexivity].
  apply (boot_animation_exact (D := Graphics.card) 5 (replicate (Z.to_nat 64000) 3)
    (Graphics.mkCard 0 0 (fun _ => 0) 0 (fun _ => 0) 0 (fun _ => 0) 0 (fun _ => 0) false)).
  rewrite length_replicate. lia.
Defined.

End BootAnim.
