(* ===== verification/Boot.v ===== *)
(** Start-up: src/src/kernel/kernel.cpp, the parts of [kernelMain] that decide something.

    The memory map of the boot loader is read as bytes at its address; from it the kernel
    chooses its heap and the pool of page frames.  Then the drivers found by the PCI scan
    are looked up by type and the file system is mounted, from the first partition or
    from the bare disk. *)

From stdpp Require Import base numbers list gmap.
From Stdlib Require Import ZArith Lia.
From S2P Require Import Prelude Pmm Heap Net Fat32 Ports Drivers Pci.

Module Boot.
Import Net Ports.

(** ** The memory map *)

(** The fields of [MultibootInfo] the kernel reads. *)
Record MultibootInfo := mkMb { flags : Z; mem_upper : Z; mmap_length : Z; mmap_addr : Z }.

Record MemoryMapEntry := mkEntry { e_size : Z; base_addr : Z; e_length : Z; e_type : Z }.

Definition get64 (l : list Z) (o : Z) : result Z :=
  a ← get32 l o; b ← get32 l (o + 4); Ok (a + 2 ^ 32 * b).

(** [map] are the bytes from [mmap_addr] on; [entry] is an address. *)
Definition read_entry (map : list Z) (mmap_addr entry : Z) : result MemoryMapEntry :=
  let o := entry - mmap_addr in
  size ← get32 map o;
  base ← get64 map (o + 4);
  len ← get64 map (o + 12);
  type ← get32 map (o + 20);
  Ok (mkEntry size base len type).

(** The body of the loop for one entry: the heap chosen so far and the entry. *)
Definition consider (heap : Z * Z) (e : MemoryMapEntry) : Z * Z :=
  let '(heap_start, heap_size) := heap in
  if (e_type e =? 1) && (base_addr e <? 0xFFFFFFFF) then
    let base := u32 (base_addr e) in
    let len := u32 (e_length e) in
    if (base <? 0x00200000) && (0x00200000 - base >=? len) then (heap_start, heap_size)
    else
      let '(base, len) := if base <? 0x00200000 then (0x00200000, len - (0x00200000 - base)) else (base, len) in
      if len >? heap_size then (base, len) else (heap_start, heap_size)
  else (heap_start, heap_size).

Fixpoint walk (fuel : nat) (map : list Z) (mmap_addr entry fin : Z) (heap : Z * Z) : result (Z * Z) :=
  if entry <? fin then
    match fuel with
    | O => Err OutOfFuel
    | S fuel =>
        e ← read_entry map mmap_addr entry;
        walk fuel map mmap_addr (u32 (u32 (entry + e_size e) + 4)) fin (consider heap e)
    end
  else Ok heap.

(** Every entry takes at least four bytes, so this is enough for any map. *)
Definition walk_fuel (mb : MultibootInfo) : nat := Z.to_nat (mmap_length mb / 4 + 1).

Definition heap_region (mb : MultibootInfo) (map : list Z) : result (Z * Z) :=
  if negb (Z.land (flags mb) (Z.shiftl 1 6) =? 0)
  then walk (walk_fuel mb) map (mmap_addr mb) (mmap_addr mb) (u32 (mmap_addr mb + mmap_length mb)) (0, 0)
  else Ok (0, 0).

Definition PMM_POOL_SIZE : Z := 128 * 4096.

(** The heap, the pool and the number of bytes of memory. *)
Definition layout (mb : MultibootInfo) (map : list Z) : result (Z * Z * Z * Z) :=
  '(heap_start, heap_size) ← heap_region mb map;
  let heap_size := if u32 (heap_start + heap_size) >? 0x01000000
                   then u32 (0x01000000 - heap_start) else heap_size in
  let pmm_pool_base := u32 (heap_start + heap_size - PMM_POOL_SIZE) in
  let heap_size := u32 (heap_size - PMM_POOL_SIZE) in
  Ok (heap_start, heap_size, pmm_pool_base, u32 (mem_upper mb * 1024 + 0x100000)).

(** [pmm_bitmap] is the static array. *)
Definition memory_init (mb : MultibootInfo) (map pmm_bitmap : list Z)
    : result (Heap.MemoryManager * Pmm.state) :=
  '(heap_start, heap_size, pool, total_mem) ← layout mb map;
  let mm := Heap.MemoryManager_new heap_start heap_size in
  s ← Pmm.Init pmm_bitmap total_mem;
  s ← Pmm.MarkFree s pool PMM_POOL_SIZE;
  Ok (mm, s).

(** ** Drivers *)

(** [TypeID] of the driver classes. *)
Definition TypeID (d : Pci.driver) : Z :=
  match d with Pci.DAta => 0x0101 | Pci.DRtl _ => 0x8139 end.

(** The first driver of a type, the loops over the manager. *)
Fixpoint find_from (n : nat) (i : Z) (m : Drivers.DriverManager nat) (objs : list Pci.driver) (t : Z)
    : result (option nat) :=
  match n with
  | O => Ok None
  | S n =>
      d ← Drivers.Get m i;
      match d with
      | Some p => o ← (match objs !! p with Some o => Ok o | None => Err BadPointer end);
                  if TypeID o =? t then Ok (Some p) else find_from n (i + 1) m objs t
      | None => find_from n (i + 1) m objs t
      end
  end.

Definition find_driver (m : Drivers.DriverManager nat) (objs : list Pci.driver) (t : Z) : result (option nat) :=
  find_from (Z.to_nat (Drivers.Count m)) 0 m objs t.

(** ** Mounting *)

Section mount.
(** The local buffers, and the uninitialised fields of a new volume. *)
Context (junk buffer : list Z) (bpb0 : Fat.FAT32BPB).

Definition try_mount (d : Fat.disk) (p : Fat.MBRPartitionEntry) : result (option Fat.FAT32) :=
  '(ok, f) ← Fat.Mount junk (Fat.FAT32_new d p bpb0);
  Ok (if (ok : bool) then Some f else None).

Definition mount_volume (d : Fat.disk) : result (option Fat.FAT32) :=
  '(ok, m) ← Fat.MBR_Read d buffer;
  count ← (if (ok : bool) then Fat.PartitionCount m else Ok 0);
  f ← (if (ok : bool) && (count >? 0) then p ← Fat.GetPartition m 0; try_mount d p else Ok None);
  match f with
  | Some f => Ok (Some f)
  | None => try_mount d (Fat.mkPart 0 0 0)
  end.
End mount.

(** ** The timer and the palette *)

Section devices.
Context {D : Type} `{PortIO D}.

Definition start_timer (d : D) : D :=
  let d := Port8Bit_Write 0x43 0x36 d in
  let d := Port8Bit_Write 0x40 (Z.land 11932 0xFF) d in
  Port8Bit_Write 0x40 (Z.shiftr 11932 8) d.

Definition dac (idx r g b : Z) (d : D) : D :=
  let d := Port8Bit_Write 0x3C8 idx d in
  let d := Port8Bit_Write 0x3C9 r d in
  let d := Port8Bit_Write 0x3C9 g d in
  Port8Bit_Write 0x3C9 b d.

Definition set_colors (d : D) : D :=
  let d := dac 220 10 30 10 d in
  let d := dac 221 63 50 10 d in
  let d := dac 222 40 40 40 d in
  dac 223 5 10 20 d.
End devices.

(** ** The choice of the heap *)

Definition le64 (x : Z) : list Z := le32 (x mod 2 ^ 32) ++ le32 (x / 2 ^ 32).

(** An entry as the boot loader stores it, with [pad] bytes after the fields. *)
Definition encode (e : MemoryMapEntry * list Z) : list Z :=
  le32 (e_size (fst e)) ++ le64 (base_addr (fst e)) ++ le64 (e_length (fst e)) ++ le32 (e_type (fst e)) ++ snd e.

Record entry_wf (e : MemoryMapEntry * list Z) : Prop := {
  ew_size : e_size (fst e) = 20 + Z.of_nat (length (snd e));
  ew_small : is_u32 (e_size (fst e));
  ew_base : 0 <= base_addr (fst e) < 2 ^ 64;
  ew_len : 0 <= e_length (fst e) < 2 ^ 64;
  ew_type : is_u32 (e_type (fst e));
}.

Lemma get32_at pre x post o :
  is_u32 x -> o = Z.of_nat (length pre) -> get32 (pre ++ le32 x ++ post) o = Ok x.
Proof.
  intros Hx ->. apply get32_le32; [done | | lia]. rewrite Nat2Z.id, drop_app_length. done.
Qed.

Lemma get64_at pre x post o :
  0 <= x < 2 ^ 64 -> o = Z.of_nat (length pre) -> get64 (pre ++ le64 x ++ post) o = Ok x.
Proof.
  intros Hx ->. unfold get64, le64. rewrite <- app_assoc.
  change (2 ^ 64) with (2 ^ 32 * 2 ^ 32) in Hx.
  rewrite (get32_at pre (x mod 2 ^ 32) _ (Z.of_nat (length pre))) by (done || apply Z.mod_pos_bound; lia). cbn [mbind result_bind]. rewrite app_assoc.
  rewrite get32_at; [|split; [apply Z.div_pos; lia | apply Z.div_lt_upper_bound; lia] | rewrite length_app; cbn; lia].
  cbn [mbind result_bind]. f_equal. pose proof (Z.div_mod x (2 ^ 32) ltac:(lia)). lia.
Qed.

Lemma read_entry_at pre e post a addr :
  entry_wf e -> addr = a + Z.of_nat (length pre) ->
  read_entry (pre ++ encode e ++ post) a addr = Ok (fst e).
Proof.
  intros [Hs Hsm Hb Hl Ht] ->. unfold read_entry. cbv zeta.
  replace (a + Z.of_nat (length pre) - a) with (Z.of_nat (length pre)) by lia.
  unfold encode. rewrite <- !app_assoc.
  rewrite (get32_at pre (e_size (fst e)) _ (Z.of_nat (length pre))) by done. cbn [mbind result_bind].
  assert (L32 : forall x, length (le32 x) = 4%nat) by done.
  assert (L64 : forall x, length (le64 x) = 8%nat) by done.
  set (sz := le32 (e_size (fst e))). set (tail := le32 (e_type (fst e)) ++ snd e ++ post).
  assert (Eb : get64 (pre ++ sz ++ le64 (base_addr (fst e)) ++ le64 (e_length (fst e)) ++ tail)
                 (Z.of_nat (length pre) + 4) = Ok (base_addr (fst e))).
  { rewrite app_assoc. apply get64_at; [done|]. rewrite length_app. unfold sz. rewrite L32. lia. }
  assert (El : get64 (pre ++ sz ++ le64 (base_addr (fst e)) ++ le64 (e_length (fst e)) ++ tail)
                 (Z.of_nat (length pre) + 12) = Ok (e_length (fst e))).
  { rewrite app_assoc, app_assoc. apply get64_at; [done|]. rewrite !length_app. unfold sz. rewrite L32, L64. lia. }
  assert (Et : get32 (pre ++ sz ++ le64 (base_addr (fst e)) ++ le64 (e_length (fst e)) ++ tail)
                 (Z.of_nat (length pre) + 20) = Ok (e_type (fst e))).
  { unfold tail. rewrite !app_assoc. rewrite <- (app_assoc _ (snd e) post), <- (app_assoc _ (le32 (e_type _))).
    apply get32_at; [done|]. rewrite !length_app. unfold sz. rewrite L32, !L64. lia. }
  rewrite Eb. cbn [mbind result_bind]. rewrite El. cbn [mbind result_bind]. rewrite Et. cbn [mbind result_bind].
  by destruct (fst e).
Qed.

Lemma encode_length e : entry_wf e -> Z.of_nat (length (encode e)) = e_size (fst e) + 4.
Proof. intros [Hs _ _ _ _]. unfold encode, le64. rewrite !length_app. cbn [le32 length]. lia. Qed.

Lemma walk_encoded es pre post a heap fuel :
  Forall entry_wf es ->
  0 <= a -> a + Z.of_nat (length pre) + Z.of_nat (length (mjoin (encode <$> es))) < 2 ^ 32 ->
  (length es <= fuel)%nat ->
  walk fuel (pre ++ mjoin (encode <$> es) ++ post) a (a + Z.of_nat (length pre))
    (a + Z.of_nat (length pre) + Z.of_nat (length (mjoin (encode <$> es)))) heap =
  Ok (foldl consider heap (es.*1)).
Proof.
  intros Hes Ha. revert pre heap fuel. induction Hes as [|e es He Hes IH]; intros pre heap fuel Hb Hf.
  - cbn [fmap list_fmap mjoin list_join length]. destruct fuel; cbn [walk];
      by rewrite (proj2 (Z.ltb_ge _ _)) by (cbn; lia).
  - destruct fuel as [|fuel]; [cbn in Hf; lia|].
    change (mjoin (encode <$> e :: es)) with (encode e ++ mjoin (encode <$> es)) in *.
    pose proof (encode_length e He) as Le. pose proof (ew_small _ He) as Hsm. rewrite length_app in Hb |- *.
    cbn [walk]. rewrite (proj2 (Z.ltb_lt _ _)) by (zify_words; lia).
    rewrite <- app_assoc, (read_entry_at pre e _ a) by done. cbn [mbind result_bind].
    rewrite (u32_small (a + _ + e_size _)) by (zify_words; lia). rewrite u32_small by (zify_words; lia).
    rewrite app_assoc. specialize (IH (pre ++ encode e) (consider heap (fst e)) fuel).
    rewrite length_app in IH. cbn in Hf.
    replace (a + Z.of_nat (length pre) + e_size (fst e) + 4)
      with (a + Z.of_nat (length pre + length (encode e))) by lia.
    replace (a + Z.of_nat (length pre) + Z.of_nat (length (encode e) + length (mjoin (encode <$> es))))
      with (a + Z.of_nat (length pre + length (encode e)) + Z.of_nat (length (mjoin (encode <$> es)))) by lia.
    apply IH; lia.
Qed.

(** The part of an entry the kernel can use: from 2 MB up. *)
Definition usable (e : MemoryMapEntry) : option (Z * Z) :=
  let base := u32 (base_addr e) in
  let top := base + u32 (e_length e) in
  if (e_type e =? 1) && (base_addr e <? 0xFFFFFFFF) && (Z.max base 0x00200000 <? top)
  then Some (Z.max base 0x00200000, top - Z.max base 0x00200000) else None.

Lemma consider_usable heap e :
  0 <= snd heap ->
  consider heap e = match usable e with
                    | Some (b, l) => if snd heap <? l then (b, l) else heap
                    | None => heap
                    end.
Proof.
  intros Hh. destruct heap as [hs hz]. unfold consider, usable. cbn [snd] in *.
  destruct ((e_type e =? 1) && (base_addr e <? 0xFFFFFFFF)); cbn [andb]; [|done].
  pose proof (u32_bounds (base_addr e)) as Hb. pose proof (u32_bounds (e_length e)) as Hl.
  set (b := u32 (base_addr e)) in *. set (l := u32 (e_length e)) in *. rewrite Z.geb_leb.
  destruct (Z.ltb_spec b 0x200000); cbn [andb].
  - rewrite Z.max_r by lia. destruct (Z.leb_spec l (0x200000 - b)), (Z.ltb_spec 0x200000 (b + l)); try lia; try done.
    rewrite Z.gtb_ltb. by replace (l - (0x200000 - b)) with (b + l - 0x200000) by lia.
  - rewrite Z.max_l by lia. rewrite Z.gtb_ltb. destruct (Z.ltb_spec b (b + l)).
    + by replace (b + l - b) with l by lia.
    + by rewrite (proj2 (Z.ltb_ge hz l)) by lia.
Qed.

Lemma usable_pos e b l : usable e = Some (b, l) -> 0 < l.
Proof.
  unfold usable. destruct (_ && _) eqn:E; [|done]. intros [= <- <-].
  apply andb_true_iff in E as [_ E]. apply Z.ltb_lt in E. lia.
Qed.

(** The fold keeps the largest region. *)
Lemma consider_best es heap :
  0 <= snd heap ->
  let r := foldl consider heap es in
  snd heap <= snd r /\ (forall e b l, e ∈ es -> usable e = Some (b, l) -> l <= snd r) /\
  (r = heap \/ exists e, e ∈ es /\ usable e = Some r).
Proof.
  revert heap. induction es as [|e es IH]; intros heap Hh; cbv zeta.
  - split; [done|]. split; [intros e b l He; set_solver | by left].
  - cbn [foldl]. pose proof (consider_usable heap e Hh) as Ec.
    assert (Hh1 : snd heap <= snd (consider heap e) /\
      (forall b l, usable e = Some (b, l) -> l <= snd (consider heap e)) /\
      (consider heap e = heap \/ usable e = Some (consider heap e))).
    { rewrite Ec. destruct (usable e) as [[b l]|] eqn:Eu; [|split; [done|]; split; [done | by left]].
      destruct (Z.ltb_spec (snd heap) l); cbn [snd].
      - split; [lia|]. split; [intros ? ? [= <- <-]; lia | by right].
      - split; [lia|]. split; [intros ? ? [= <- <-]; lia | by left]. }
    destruct Hh1 as (H1 & H2 & H3). destruct (IH (consider heap e) ltac:(lia)) as (J1 & J2 & J3).
    split; [lia|]. split.
    + intros e' b l He' Hu. apply elem_of_cons in He' as [->|He']; [|eauto].
      specialize (H2 b l Hu). lia.
    + destruct J3 as [->|(e' & He' & Hu')].
      * destruct H3 as [->|H3]; [by left|]. right. exists e. split; [set_solver | done].
      * right. exists e'. split; [set_solver | done].
Qed.

(** What a usable region is. *)
Lemma usable_spec e b l :
  usable e = Some (b, l) -> 0 <= base_addr e ->
  e_type e = 1 /\ 0x00200000 <= b /\ base_addr e <= b /\ 0 < l /\ b + l = base_addr e + u32 (e_length e).
Proof.
  unfold usable. destruct (_ && _) eqn:E; [|done]. intros [= <- <-] H0.
  apply andb_true_iff in E as [E1 E3]. apply andb_true_iff in E1 as [E1 E2].
  apply Z.eqb_eq in E1. apply Z.ltb_lt in E2, E3.
  assert (Hb : u32 (base_addr e) = base_addr e) by (apply u32_small; zify_words; lia).
  rewrite Hb in *. lia.
Qed.

(** The heap region the kernel takes from the boot loader's memory map is a largest part,
    from 2 MB up, of an available entry: no available entry offers more, and without one
    the region is empty.  The walk over the map reads each entry at its own size and ends
    exactly at the end of the map. *)
Theorem boot_heap_choice mb es rest :
  Forall entry_wf es -> Z.testbit (flags mb) 6 = true -> 0 <= mmap_addr mb ->
  mmap_length mb = Z.of_nat (length (mjoin (encode <$> es))) -> mmap_addr mb + mmap_length mb < 2 ^ 32 ->
  exists r, heap_region mb (mjoin (encode <$> es) ++ rest) = Ok r /\
    (forall e b l, e ∈ es.*1 -> usable e = Some (b, l) -> l <= snd r) /\
    (r = (0, 0) \/ exists e, e ∈ es.*1 /\ e_type e = 1 /\ 0x00200000 <= fst r /\ base_addr e <= fst r /\
                    fst r + snd r = base_addr e + u32 (e_length e)).
Proof.
  intros Hes Hfl Ha Hlen Hb. unfold heap_region. change (Z.shiftl 1 6) with (2 ^ 6).
  rewrite land_pow2_eqb, Hfl by lia. cbn [negb]. exists (foldl consider (0, 0) (es.*1)).
  rewrite u32_small by (zify_words; lia). split.
  - rewrite Hlen. pose proof (walk_encoded es [] rest (mmap_addr mb) (0, 0) (walk_fuel mb) Hes Ha) as W.
    cbn [length app] in W. rewrite Z.add_0_r in W. apply W; [lia|].
    unfold walk_fuel. rewrite Hlen. apply Nat2Z.inj_le. rewrite Z2Nat.id by (Z.div_mod_to_equations; lia).
    enough (4 * Z.of_nat (length es) <= Z.of_nat (length (mjoin (encode <$> es)))) by (Z.div_mod_to_equations; lia).
    clear -Hes. induction Hes as [|e es He Hes IH]; [done|].
    change (mjoin (encode <$> e :: es)) with (encode e ++ mjoin (encode <$> es)).
    rewrite length_app. pose proof (encode_length e He). pose proof (ew_small _ He). cbn [length]. zify_words. lia.
  - destruct (consider_best (es.*1) (0, 0) ltac:(done)) as (_ & H2 & H3). split; [exact H2|].
    destruct H3 as [->|(e & He & Hu)]; [by left|]. right. exists e. split; [done|].
    destruct (foldl consider (0, 0) (es.*1)) as [b l]. destruct (usable_spec e b l Hu); [|cbn; lia].
    apply list_elem_of_fmap in He as (x & -> & Hx). rewrite Forall_forall in Hes. apply (Hes x Hx).
Qed.

Lemma boot_heap_choice_witness :
  let es := [(mkEntry 20 0 0x9FC00 1, []); (mkEntry 20 0x100000 0x3F00000 1, []); (mkEntry 20 0x4000000 0x1000 2, [])] in
  exists r, heap_region (mkMb 0x40 0 72 0x9000) (mjoin (encode <$> es) ++ []) = Ok r /\
    (forall e b l, e ∈ es.*1 -> usable e = Some (b, l) -> l <= snd r) /\
    (r = (0, 0) \/ exists e, e ∈ es.*1 /\ e_type e = 1 /\ 0x00200000 <= fst r /\ base_addr e <= fst r /\
                    fst r + snd r = base_addr e + u32 (e_length e)).
Proof.
  cbv zeta. apply (boot_heap_choice (mkMb 0x40 0 72 0x9000)
    [(mkEntry 20 0 0x9FC00 1, []); (mkEntry 20 0x100000 0x3F00000 1, []); (mkEntry 20 0x4000000 0x1000 2, [])] []).
  - repeat (apply Forall_cons; split; [split; cbn; try lia; u32_lit|]). apply Forall_nil. exact I.
  - reflexivity.
  - cbn. lia.
  - reflexivity.
  - cbn. lia.
Defined.

(** ** Heap and pool *)

(** The split of a region that starts below 16 MB and holds more than the pool. *)
Lemma layout_split mb map b l :
  heap_region mb map = Ok (b, l) -> 0 <= b -> 0 <= l -> b + l < 2 ^ 32 ->
  let e := Z.min (b + l) 0x01000000 in
  b + PMM_POOL_SIZE <= e ->
  layout mb map = Ok (b, e - PMM_POOL_SIZE - b, e - PMM_POOL_SIZE, u32 (mem_upper mb * 1024 + 0x100000)).
Proof.
  intros Hr Hb Hl Hbl. cbv zeta. intros He. unfold layout. rewrite Hr. cbn [mbind result_bind].
  unfold PMM_POOL_SIZE in *. rewrite (u32_small (b + l)) by (zify_words; lia). rewrite Z.gtb_ltb.
  assert (E : (if 0x1000000 <? b + l then u32 (0x1000000 - b) else l) = Z.min (b + l) 0x1000000 - b).
  { destruct (Z.ltb_spec 0x1000000 (b + l)); [rewrite u32_small by (zify_words; lia)|]; lia. }
  rewrite E. set (e := Z.min (b + l) 0x1000000) in *.
  rewrite (u32_small (b + (e - b) - 128 * 4096)), (u32_small (e - b - 128 * 4096)) by (zify_words; lia).
  do 2 f_equal. f_equal; [f_equal; lia | lia].
Qed.

Lemma memory_init_acts mb map bitmap b l :
  heap_region mb map = Ok (b, l) -> 0 < b -> 0 <= l -> b + l < 2 ^ 32 ->
  let e := Z.min (b + l) 0x01000000 in
  b + Heap.sizeof_chunk + PMM_POOL_SIZE <= e ->
  0 <= mem_upper mb -> e <= mem_upper mb * 1024 + 0x100000 < 2 ^ 32 ->
  length bitmap = Z.to_nat 32768 -> Forall is_u32 bitmap ->
  exists mm s, memory_init mb map bitmap = Ok (mm, s) /\
    Heap.heap_inv b (e - PMM_POOL_SIZE) mm [Heap.mkBlock b (e - PMM_POOL_SIZE - b - Heap.sizeof_chunk) false] /\
    Pmm.inv s /\ Pmm.free_set s = Pmm.frames ((e - PMM_POOL_SIZE) / 4096) (e / 4096).
Proof.
  intros Hr Hb Hl Hbl e He Hmu Hm Hlen Hbm. unfold Heap.sizeof_chunk in He. unfold PMM_POOL_SIZE in *.
  unfold memory_init. rewrite (layout_split mb map b l) by (done || unfold PMM_POOL_SIZE; lia).
  rewrite result_bind_Ok. fold e. unfold PMM_POOL_SIZE.
  rewrite (u32_small (mem_upper mb * 1024 + 0x100000)) by (zify_words; lia).
  destruct (Pmm.Init_safe bitmap (mem_upper mb * 1024 + 0x100000)) as (s0 & -> & Hi0 & Hf0 & Ht0);
    [done | done | zify_words; lia |]. rewrite result_bind_Ok.
  destruct (Pmm.MarkFree_refines s0 (e - 128 * 4096) (128 * 4096)) as (s & -> & Hi & Ht & Hf);
    [done | zify_words; lia | lia | zify_words; lia |]. rewrite result_bind_Ok.
  eexists _, s. split; [reflexivity|]. split; [|split; [done|]].
  - replace (e - 128 * 4096) with (b + (e - 128 * 4096 - b)) at 1 by lia.
    apply Heap.new_inv; unfold Heap.sizeof_chunk; lia.
  - rewrite Hf, Hf0. replace (e - 128 * 4096 + 128 * 4096) with e by lia.
    rewrite Z.min_l; [set_solver|]. unfold Pmm.TotalFrameCount in Ht0. rewrite Ht0. apply Z.div_le_mono; lia.
Qed.

(** C36: The memory the kernel sets up at boot: the chosen region, cut at 16 MB, is split into
    the heap below and the 512 KB pool of page frames above.  The heap is one free block
    that fills its part, the frame allocator owns exactly the 128 frames of the pool, and
    no byte of a frame it hands out belongs to the heap, provided the end of the region
    is page aligned (as it is when it is cut). *)
Theorem boot_memory_split mb map bitmap b l :
  heap_region mb map = Ok (b, l) -> 0 < b -> 0 <= l -> b + l < 2 ^ 32 ->
  let e := Z.min (b + l) 0x01000000 in
  b + Heap.sizeof_chunk + PMM_POOL_SIZE <= e ->
  0 <= mem_upper mb -> e <= mem_upper mb * 1024 + 0x100000 < 2 ^ 32 ->
  length bitmap = Z.to_nat 32768 -> Forall is_u32 bitmap -> e mod 4096 = 0 ->
  exists mm s top, memory_init mb map bitmap = Ok (mm, s) /\
    Heap.heap_inv b top mm [Heap.mkBlock b (top - b - Heap.sizeof_chunk) false] /\
    Pmm.inv s /\ Pmm.FreeFrameCount s = 128 /\
    forall f, f ∈ Pmm.free_set s <-> top <= f * 4096 /\ f * 4096 + 4096 <= e.
Proof.
  intros Hr Hb Hl Hbl e He Hmu Hm Hlen Hbm Hal.
  destruct (memory_init_acts mb map bitmap b l) as (mm & s & E & Hh & Hi & Hf); [done..|]. fold e in Hh, Hf.
  exists mm, s, (e - PMM_POOL_SIZE). split; [done|]. split; [done|]. split; [done|].
  assert (Hq : e = e / 4096 * 4096) by (pose proof (Z.div_mod e 4096 ltac:(lia)); lia).
  assert (Hp : (e - PMM_POOL_SIZE) / 4096 = e / 4096 - 128).
  { unfold PMM_POOL_SIZE. replace (e - 128 * 4096) with (e + (-128) * 4096) by lia. rewrite Z.div_add by lia. lia. }
  rewrite Hp in Hf. split.
  - unfold Pmm.FreeFrameCount. rewrite (Pmm.inv_count _ Hi), Hf. unfold Pmm.frames.
    replace (e / 4096 - (e / 4096 - 128)) with 128 by lia.
    rewrite size_list_to_set by apply NoDup_seqZ. by rewrite length_seqZ.
  - intros f. rewrite Hf, Pmm.elem_of_frames. unfold PMM_POOL_SIZE. lia.
Qed.

Lemma boot_memory_split_witness :
  let mb := mkMb 0x40 0xFC00 24 0x9000 in
  let map := encode (mkEntry 20 0x100000 0x3F00000 1, []) in
  exists mm s top, memory_init mb map (replicate (Z.to_nat 32768) 0) = Ok (mm, s) /\
    Heap.heap_inv 0x200000 top mm [Heap.mkBlock 0x200000 (top - 0x200000 - Heap.sizeof_chunk) false] /\
    Pmm.inv s /\ Pmm.FreeFrameCount s = 128 /\
    forall f, f ∈ Pmm.free_set s <-> top <= f * 4096 /\ f * 4096 + 4096 <= 0x1000000.
Proof.
  cbv zeta.
  apply (boot_memory_split (mkMb 0x40 0xFC00 24 0x9000) (encode (mkEntry 20 0x100000 0x3F00000 1, []))
    (replicate (Z.to_nat 32768) 0) 0x200000 0x3E00000).
  - vm_compute. reflexivity.
  - lia.
  - lia.
  - lia.
  - unfold Heap.sizeof_chunk, PMM_POOL_SIZE. lia.
  - cbn. lia.
  - cbn [mem_upper]. lia.
  - apply length_replicate.
  - apply Forall_replicate. u32_lit.
  - reflexivity.
Defined.

(** When the chosen region ends below 16 MB and not on a page boundary, the first frame
    of the pool also covers the last bytes of the heap: the frame allocator hands out
    memory that the heap owns. *)
Theorem boot_pool_overlaps_heap mb map bitmap b l :
  heap_region mb map = Ok (b, l) -> 0 < b -> 0 <= l -> b + l < 0x01000000 ->
  b + 4096 + PMM_POOL_SIZE <= b + l ->
  0 <= mem_upper mb -> b + l <= mem_upper mb * 1024 + 0x100000 < 2 ^ 32 ->
  length bitmap = Z.to_nat 32768 -> Forall is_u32 bitmap -> (b + l) mod 4096 <> 0 ->
  exists mm s top f, memory_init mb map bitmap = Ok (mm, s) /\
    Heap.heap_inv b top mm [Heap.mkBlock b (top - b - Heap.sizeof_chunk) false] /\
    f ∈ Pmm.free_set s /\ b <= f * 4096 < top.
Proof.
  intros Hr Hb Hl Hbl He Hmu Hm Hlen Hbm Hal.
  destruct (memory_init_acts mb map bitmap b l) as (mm & s & E & Hh & Hi & Hf);
    [done | done | done | lia | unfold Heap.sizeof_chunk; lia | done | lia | done | done |].
  rewrite Z.min_l in Hh, Hf by lia. exists mm, s, (b + l - PMM_POOL_SIZE), ((b + l - PMM_POOL_SIZE) / 4096).
  split; [done|]. split; [done|].
  assert (Hp : (b + l - PMM_POOL_SIZE) / 4096 = (b + l) / 4096 - 128).
  { unfold PMM_POOL_SIZE. replace (b + l - 128 * 4096) with (b + l + (-128) * 4096) by lia. rewrite Z.div_add by lia. lia. }
  rewrite Hf, Pmm.elem_of_frames, Hp. unfold PMM_POOL_SIZE in *.
  pose proof (Z.div_mod (b + l) 4096 ltac:(lia)). pose proof (Z.mod_pos_bound (b + l) 4096 ltac:(lia)). lia.
Qed.

Lemma boot_pool_overlaps_heap_witness :
  exists mm s top f, memory_init (mkMb 0x40 0x1C01 24 0x9000)
      (encode (mkEntry 20 0x100000 0x700400 1, [])) (replicate (Z.to_nat 32768) 0) = Ok (mm, s) /\
    Heap.heap_inv 0x200000 top mm [Heap.mkBlock 0x200000 (top - 0x200000 - Heap.sizeof_chunk) false] /\
    f ∈ Pmm.free_set s /\ 0x200000 <= f * 4096 < top.
Proof.
  apply (boot_pool_overlaps_heap (mkMb 0x40 0x1C01 24 0x9000) (encode (mkEntry 20 0x100000 0x700400 1, []))
    (replicate (Z.to_nat 32768) 0) 0x200000 0x600400).
  - vm_compute. reflexivity.
  - lia.
  - lia.
  - lia.
  - unfold PMM_POOL_SIZE. lia.
  - cbn. lia.
  - cbn [mem_upper]. lia.
  - apply length_replicate.
  - apply Forall_replicate. u32_lit.
  - vm_compute. discriminate.
Defined.

(** ** Finding drivers *)

(** The first of the drivers [ps] whose object has type [t]. *)
Definition first_of_type (objs : list Pci.driver) (t : Z) (ps : list nat) : option nat :=
  head (filter (fun p => TypeID <$> objs !! p = Some t) ps).

Lemma find_from_ok n i m objs t l :
  Drivers.manages m l -> Forall (fun p => is_Some (objs !! p)) l ->
  0 <= i -> (Z.to_nat i + n = length l)%nat ->
  find_from n i m objs t = Ok (first_of_type objs t (drop (Z.to_nat i) l)).
Proof.
  intros Hm Ho. revert i. induction n as [|n IH]; intros i Hi Hn.
  - rewrite drop_ge by lia. done.
  - cbn [find_from]. rewrite (Drivers.Get_manages m l i Hm), (proj2 (Z.leb_le 0 i)) by done. cbn [mbind result_bind].
    destruct (lookup_lt_is_Some_2 l (Z.to_nat i)) as [p Hp]; [lia|]. rewrite Hp, (drop_S _ _ _ Hp).
    destruct (Forall_lookup_1 _ _ _ _ Ho Hp) as [o Eo]. rewrite Eo. cbn [mbind result_bind].
    unfold first_of_type. rewrite filter_cons.
    destruct (Z.eqb_spec (TypeID o) t) as [<-|Hne].
    + rewrite decide_True by (by rewrite Eo). done.
    + rewrite decide_False by (rewrite Eo; cbn; congruence).
      rewrite IH by lia. by replace (Z.to_nat (i + 1)) with (S (Z.to_nat i)) by lia.
Qed.

Lemma find_driver_ok m objs t l :
  Drivers.manages m l -> Forall (fun p => is_Some (objs !! p)) l ->
  find_driver m objs t = Ok (first_of_type objs t l).
Proof.
  intros Hm Ho. unfold find_driver, Drivers.Count. rewrite (Drivers.mg_count _ _ Hm), Nat2Z.id.
  rewrite (find_from_ok _ 0 m objs t l) by (done || lia). done.
Qed.

(** ** Mounting *)

Lemma whole_sector (buf s : list Z) : length buf = 512%nat -> length s = 512%nat -> put_bytes buf 0 s = Ok s.
Proof.
  intros L1 L2. rewrite put_bytes_ok by lia. change (Z.to_nat 0) with 0%nat. rewrite take_0, drop_ge by lia.
  by rewrite app_nil_l, app_nil_r.
Qed.

Lemma partition_ok m i : length (Fat.mbr m) = 512%nat -> 0 <= i < 4 -> exists p, Fat.partition_at m i = Ok p.
Proof.
  intros Hl Hi. unfold Fat.partition_at, get32, get16.
  repeat match goal with |- context [arr_get (Fat.mbr m) ?o] =>
    let x := fresh in destruct (arr_get_in_range (Fat.mbr m) o) as [x ->]; [lia|]; cbn [mbind result_bind] end.
  eauto.
Qed.

(** An entry in use is counted. *)
Lemma PartitionCount_pos m p :
  length (Fat.mbr m) = 512%nat -> Fat.partition_at m 0 = Ok p -> Fat.p_type p <> 0 ->
  exists n, Fat.PartitionCount m = Ok n /\ 0 < n.
Proof.
  intros Hl Hp Ht. unfold Fat.PartitionCount.
  loop_with (fun i n => (0 < i -> 0 < n) /\ 0 <= n <= i) n E Hn; [lia | lia | | exists n; split; [exact E | lia]].
  intros i n Hi [H1 H2]. destruct (partition_ok m i Hl Hi) as [q Eq]. rewrite Eq. cbn [mbind result_bind].
  eexists. split; [reflexivity|]. destruct (Z.eqb_spec (Fat.p_type q) 0) as [Eq0|Hne]; cbn [negb].
  - destruct (decide (i = 0)) as [->|]; [congruence | lia].
  - rewrite u8_small by (zify_words; lia). lia.
Qed.

Section mounting.
Context (junk buffer : list Z) (bpb0 : Fat.FAT32BPB).
Context (Hj : length junk = 512%nat) (Hb : length buffer = 512%nat).

(** The boot sector at [lba] and what it says. *)
Definition volume_at (d : Fat.disk) (lba : Z) (b : Fat.FAT32BPB) : Prop :=
  exists s, d !! Fat.lba28 lba = Some s /\ length s = 512%nat /\ Fat.read_bpb s = Ok b.

Lemma try_mount_ok d p b :
  volume_at d (Fat.lba_start p) b ->
  exists f, try_mount junk bpb0 d p = Ok (if Fat.bytes_per_sector b =? 512 then Some f else None) /\
    Fat.partition_lba f = Fat.lba_start p /\ Fat.bpb f = b /\ Fat.ata f = d.
Proof using Hj.
  intros (s & Hs & Ls & Eb). unfold try_mount, Fat.Mount, Fat.ReadSector, Fat.drive_read, Fat.FAT32_new.
  cbn [Fat.ata Fat.partition_lba]. rewrite Hs, whole_sector by done. cbn [mbind result_bind].
  rewrite Eb. cbn [mbind result_bind]. eexists. split; [reflexivity|]. done.
Qed.

(** The partition table in sector 0. *)
Lemma MBR_Read_ok d s0 sig :
  d !! 0 = Some s0 -> length s0 = 512%nat -> get16 s0 510 = Ok sig ->
  Fat.MBR_Read d buffer = Ok (sig =? 0xAA55, Fat.mkMbr s0 (sig =? 0xAA55)).
Proof using Hb.
  intros Hs Ls Hsig. unfold Fat.MBR_Read, Fat.drive_read. change (Fat.lba28 0) with 0.
  rewrite Hs, whole_sector by done. cbn [mbind result_bind].
  unfold get_bytes. rewrite Ls. change ((0 <=? 0) && (0 + 512 <=? Z.of_nat 512)) with true. cbn iota.
  change (Z.to_nat 0) with 0%nat. change (Z.to_nat 512) with 512%nat. rewrite drop_0, take_ge by (by rewrite Ls).
  cbn [mbind result_bind]. by rewrite Hsig.
Qed.

(** Mounting at boot: a partition table with its signature and a first partition in use,
    whose boot sector announces 512-byte sectors, is mounted at the start of that
    partition; otherwise, with no signature or an unsuitable partition, a file system
    that starts at sector 0 is mounted there, and if that does not announce 512-byte
    sectors either nothing is mounted. *)
Theorem mount_choice d s0 sig p b0 :
  d !! 0 = Some s0 -> length s0 = 512%nat -> get16 s0 510 = Ok sig ->
  Fat.partition_at (Fat.mkMbr s0 (sig =? 0xAA55)) 0 = Ok p -> volume_at d 0 b0 ->
  (forall b, sig = 0xAA55 -> Fat.p_type p <> 0 -> volume_at d (Fat.lba_start p) b ->
     Fat.bytes_per_sector b = 512 ->
     exists f, mount_volume junk buffer bpb0 d = Ok (Some f) /\ Fat.partition_lba f = Fat.lba_start p /\
       Fat.bpb f = b /\ Fat.ata f = d) /\
  (sig <> 0xAA55 \/
     (Fat.p_type p <> 0 /\ exists b, volume_at d (Fat.lba_start p) b /\ Fat.bytes_per_sector b <> 512) ->
   exists f, mount_volume junk buffer bpb0 d = Ok (if Fat.bytes_per_sector b0 =? 512 then Some f else None) /\
     Fat.partition_lba f = 0 /\ Fat.bpb f = b0 /\ Fat.ata f = d).
Proof using Hj Hb.
  intros Hs Ls Hsig Hp Hv0. unfold mount_volume. rewrite (MBR_Read_ok d s0 sig) by done. rewrite result_bind_Ok.
  destruct (try_mount_ok d (Fat.mkPart 0 0 0) b0 Hv0) as (f0 & E0 & F0).
  set (m := Fat.mkMbr s0 (sig =? 0xAA55)) in *.
  assert (Hfirst : sig = 0xAA55 -> Fat.p_type p <> 0 -> exists n, Fat.PartitionCount m = Ok n /\ (n >? 0) = true).
  { intros _ Ht. destruct (PartitionCount_pos m p) as (n & En & Hn); [done..|]. exists n. split; [done|].
    apply Z.gtb_lt. lia. }
  assert (Eg : Fat.GetPartition m 0 = Ok p) by exact Hp. split.
  - intros b -> Ht Hv Hbps. rewrite Z.eqb_refl. destruct (Hfirst eq_refl Ht) as (n & -> & Hn).
    rewrite result_bind_Ok, Hn. cbn [andb]. rewrite Eg, result_bind_Ok.
    destruct (try_mount_ok d p b Hv) as (f & -> & F). rewrite Hbps. cbn. by exists f.
  - intros Hc. exists f0. split; [|exact F0]. destruct (Z.eqb_spec sig 0xAA55) as [E|Hne].
    + destruct Hc as [Hc|(Ht & b & Hv & Hbps)]; [done|]. destruct (Hfirst E Ht) as (n & -> & Hn).
      rewrite result_bind_Ok, Hn. cbn [andb]. rewrite Eg, result_bind_Ok.
      destruct (try_mount_ok d p b Hv) as (f & -> & F). rewrite (proj2 (Z.eqb_neq _ 512)) by done.
      rewrite result_bind_Ok. exact E0.
    + rewrite result_bind_Ok. cbn [andb]. rewrite result_bind_Ok. exact E0.
Qed.
End mounting.

(** A disk with one partition at sector 1. *)
Definition boot_sector : list Z := <[12%nat := 2]> (replicate 512 0).
Definition sample_disk : Fat.disk :=
  {[ 0 := <[454%nat := 1]> (<[450%nat := 0x0C]> (<[511%nat := 0xAA]> (<[510%nat := 0x55]> (replicate 512 0))));
     1 := boot_sector ]}.
Definition no_bpb : Fat.FAT32BPB := Fat.mkBpb 0 0 0 0 0 0 0 0.

Lemma mount_choice_witness :
  exists f, mount_volume (replicate 512 0) (replicate 512 0) no_bpb sample_disk = Ok (Some f) /\
    Fat.partition_lba f = 1.
Proof.
  destruct (mount_choice (replicate 512 0) (replicate 512 0) no_bpb ltac:(apply length_replicate)
    ltac:(apply length_replicate) sample_disk
    (<[454%nat := 1]> (<[450%nat := 0x0C]> (<[511%nat := 0xAA]> (<[510%nat := 0x55]> (replicate 512 0)))))
    0xAA55 (Fat.mkPart 0x0C 1 0) no_bpb) as [H1 _].
  - reflexivity.
  - reflexivity.
  - reflexivity.
  - vm_compute. reflexivity.
  - eexists. split; [reflexivity|]. split; [reflexivity | vm_compute; reflexivity].
  - destruct (H1 (Fat.mkBpb 512 0 0 0 0 0 0 0)) as (f & E & F & _).
    + reflexivity.
    + discriminate.
    + eexists. split; [reflexivity|]. split; [reflexivity | vm_compute; reflexivity].
    + reflexivity.
    + exists f. split; [exact E | exact F].
Defined.


End Boot.
