(* ===== verification/Terminal.v ===== *)
(** The terminal window: src/src/ui/terminal.{h,cpp}.

    A grid of 23 rows of 40 characters, drawn on the frame buffer below a header, and
    the line discipline that collects the typed line for the keyboard buffer. *)

From stdpp Require Import base numbers list gmap.
From Stdlib Require Import ZArith Lia.
From S2P Require Import Prelude Pmm Paging Scheduler KeyboardBuffer Console Graphics.

Module Terminal.
Import Console Graphics.

(** ** The code *)

Definition COL_BG : Z := 0.
Definition COL_TEXT : Z := 220.
Definition COL_GOLD : Z := 221.
Definition COL_DIM : Z := 222.
Definition COL_HDR_BG : Z := 223.
Definition COLS : Z := 40.
Definition ROWS : Z := 23.
Definition HEADER_H : Z := 10.

Record Terminal := mkTerm {
  wx : Z; wy : Z; ww : Z; wh : Z;
  grid : list Z;
  colors : list Z;
  cursor_col : Z;
  cursor_row : Z;
  input_line : list Z;
  input_len : Z;
  raw_input_mode : bool;
}.

Definition set_text (t : Terminal) g k :=
  mkTerm (wx t) (wy t) (ww t) (wh t) g k (cursor_col t) (cursor_row t) (input_line t) (input_len t)
    (raw_input_mode t).
Definition set_at (t : Terminal) row col :=
  mkTerm (wx t) (wy t) (ww t) (wh t) (grid t) (colors t) col row (input_line t) (input_len t)
    (raw_input_mode t).
Definition set_input (t : Terminal) line len :=
  mkTerm (wx t) (wy t) (ww t) (wh t) (grid t) (colors t) (cursor_col t) (cursor_row t) line len
    (raw_input_mode t).
Definition SetRawInputMode (t : Terminal) (enabled : bool) : Terminal :=
  mkTerm (wx t) (wy t) (ww t) (wh t) (grid t) (colors t) (cursor_col t) (cursor_row t) (input_line t)
    (input_len t) enabled.
Definition IsRawInputMode (t : Terminal) : bool := raw_input_mode t.

(** [l[r][c]] of an array of rows of [COLS]. *)
Definition get2 (l : list Z) (r c : Z) : result Z :=
  if (0 <=? c) && (c <? COLS) then arr_get l (r * COLS + c) else Err OutOfBounds.
Definition set2 (l : list Z) (r c v : Z) : result (list Z) :=
  if (0 <=? c) && (c <? COLS) then arr_set l (r * COLS + c) v else Err OutOfBounds.

(** [g0], [k0] and [line0] are the memory of the object before. *)
Definition Terminal_new (x y w h : Z) (g0 k0 line0 : list Z) : result Terminal :=
  '(g, k) ← for_result 0 ROWS (fun r s => for_result 0 COLS (fun c s =>
      let '(g, k) := s in g ← set2 g r c 32; k ← set2 k r c COL_TEXT; Ok (g, k)) s) (g0, k0);
  line ← for_result 0 256 (fun i l => arr_set l i 0) line0;
  Ok (mkTerm x y w h g k 0 0 line 0 false).

Definition ScrollUp (t : Terminal) : result Terminal :=
  '(g, k) ← for_result 0 (ROWS - 1) (fun r s => for_result 0 COLS (fun c s =>
      let '(g, k) := s in
      a ← get2 g (r + 1) c; g ← set2 g r c a;
      b ← get2 k (r + 1) c; k ← set2 k r c b; Ok (g, k)) s) (grid t, colors t);
  '(g, k) ← for_result 0 COLS (fun c s =>
      let '(g, k) := s in
      g ← set2 g (ROWS - 1) c 32; k ← set2 k (ROWS - 1) c COL_TEXT; Ok (g, k)) (g, k);
  let t := set_text t g k in
  Ok (if cursor_row t >? 0 then set_at t (cursor_row t - 1) (cursor_col t) else t).

Definition NewLine (t : Terminal) : result Terminal :=
  let t := set_at t (cursor_row t + 1) 0 in
  if cursor_row t >=? ROWS then ScrollUp t else Ok t.

Definition put_cell (t : Terminal) (c : Z) : result Terminal :=
  g ← set2 (grid t) (cursor_row t) (cursor_col t) c;
  k ← set2 (colors t) (cursor_row t) (cursor_col t) COL_TEXT;
  Ok (set_text t g k).

Definition Erase (t : Terminal) : result Terminal :=
  let t := if cursor_col t >? 0 then set_at t (cursor_row t) (cursor_col t - 1)
           else if cursor_row t >? 0 then set_at t (cursor_row t - 1) (COLS - 1)
           else t in
  put_cell t 32.

Definition PutChar (t : Terminal) (c : Z) : result Terminal :=
  if c =? 10 then NewLine t
  else if c =? 8 then Erase t
  else
    t ← put_cell t c;
    let t := set_at t (cursor_row t) (cursor_col t + 1) in
    if cursor_col t >=? COLS then NewLine t else Ok t.

(** "FRODO OS" and "root@ring" *)
Definition title : list Z := [70; 82; 79; 68; 79; 32; 79; 83].
Definition user : list Z := [114; 111; 111; 116; 64; 114; 105; 110; 103].

Definition DrawHeader (t : Terminal) (fb : list Z) : result (list Z) :=
  fb ← DrawRect fb (u16 (wx t)) (u16 (wy t)) (u16 (ww t)) HEADER_H COL_HDR_BG;
  let tx := wx t + 2 in
  fb ← for_result 0 (Z.of_nat (length title)) (fun i fb =>
         c ← arr_get title i;
         DrawChar fb (u16 (tx + i * 6)) (u16 (wy t + 1)) c COL_GOLD COL_HDR_BG) fb;
  let ux := wx t + ww t - 9 * 6 - 2 in
  fb ← for_result 0 (Z.of_nat (length user)) (fun i fb =>
         c ← arr_get user i;
         DrawChar fb (u16 (ux + i * 6)) (u16 (wy t + 1)) c COL_DIM COL_HDR_BG) fb;
  DrawRect fb (u16 (wx t)) (u16 (wy t + HEADER_H - 1)) (u16 (ww t)) 1 COL_GOLD.

Definition Draw (t : Terminal) (fb : list Z) : result (list Z) :=
  fb ← DrawHeader t fb;
  fb ← for_result 0 ROWS (fun r fb => for_result 0 COLS (fun c fb =>
         ch ← get2 (grid t) r c;
         col ← get2 (colors t) r c;
         DrawChar fb (u16 (wx t + c * 8)) (u16 (wy t + HEADER_H + r * 8)) ch col COL_BG) fb) fb;
  DrawRect fb (u16 (wx t + cursor_col t * 8)) (u16 (wy t + HEADER_H + cursor_row t * 8)) 8 8 COL_TEXT.

(** [PutChar] for each character, then [Draw]: [SetShellOutput], and [Print] with the
    characters before the terminator. *)
Definition SetShellOutput (t : Terminal) (fb str : list Z) (len : Z) : result (Terminal * list Z) :=
  t ← for_result 0 len (fun i t => c ← arr_get str i; PutChar t c) t;
  fb ← Draw t fb;
  Ok (t, fb).

Fixpoint print_chars (t : Terminal) (str : list Z) : result Terminal :=
  match str with
  | [] => Err OutOfBounds
  | c :: str => if c =? 0 then Ok t else t ← PutChar t c; print_chars t str
  end.

Definition Print (t : Terminal) (fb str : list Z) : result (Terminal * list Z) :=
  t ← print_chars t str;
  fb ← Draw t fb;
  Ok (t, fb).

(** *** The line discipline *)

(** What a key press can change. *)
Record tty {S : Type} := mkTty {
  term : Terminal;
  screen : list Z;
  keys : KeyboardBuffer.t;
  waiters : option (Sched.sched S);
}.
Arguments tty : clear implicits.
Arguments mkTty {S} _ _ _ _.

Section discipline.
Context {S : Type} `{FA : FrameAllocator S}.

Definition redraw (t : Terminal) (s : tty S) : result (tty S) :=
  fb ← Draw t (screen s); Ok (mkTty t fb (keys s) (waiters s)).

Definition OnKeyPress (s : tty S) (c : Z) : result (tty S) :=
  let t := term s in
  if raw_input_mode t then
    k ← KeyboardBuffer.Enqueue (keys s) c;
    ws ← KeyboardBuffer.WakeWaiters (waiters s);
    Ok (mkTty t (screen s) k ws)
  else if c =? 8 then
    if input_len t >? 0 then
      t ← Erase (set_input t (input_line t) (input_len t - 1));
      redraw t s
    else Ok s
  else if c =? 10 then
    line ← arr_set (input_line t) (input_len t) 10;
    line ← arr_set line (input_len t + 1) 0;
    t ← PutChar (set_input t line (input_len t + 1)) 10;
    k ← for_result 0 (input_len t) (fun i k => x ← arr_get (input_line t) i; KeyboardBuffer.Enqueue k x) (keys s);
    ws ← KeyboardBuffer.WakeWaiters (waiters s);
    redraw (set_input t (input_line t) 0) (mkTty t (screen s) k ws)
  else if (i8 c >=? 32) && (input_len t <? 255) then
    line ← arr_set (input_line t) (input_len t) c;
    t ← PutChar (set_input t line (input_len t + 1)) c;
    redraw t s
  else Ok s.
End discipline.

(** ** The window is a console *)

Definition cells_of (t : Terminal) : list (Z * Z) := zip (grid t) (colors t).
Definition place (t : Terminal) : Z := cursor_row t * COLS + cursor_col t.
Definition blank_cell : Z * Z := (32, COL_TEXT).
Definition key_for (c : Z) : key (Z * Z) :=
  if c =? 10 then Newline else if c =? 8 then Backspace else Glyph (c, COL_TEXT).

(** The cursor is inside the grid, which has its 920 cells. *)
Record term_wf (t : Terminal) : Prop := {
  tw_grid : length (grid t) = 920%nat;
  tw_colors : length (colors t) = 920%nat;
  tw_u8 : Forall is_u8 (colors t);
  tw_row : 0 <= cursor_row t < ROWS;
  tw_col : 0 <= cursor_col t < COLS;
}.

Lemma get2_eq l r c : 0 <= c < COLS -> get2 l r c = arr_get l (r * COLS + c).
Proof. intros H. unfold get2. by rewrite (proj2 (Z.leb_le 0 c)), (proj2 (Z.ltb_lt c COLS)) by lia. Qed.
Lemma set2_eq l r c v : 0 <= c < COLS -> set2 l r c v = arr_set l (r * COLS + c) v.
Proof. intros H. unfold set2. by rewrite (proj2 (Z.leb_le 0 c)), (proj2 (Z.ltb_lt c COLS)) by lia. Qed.

(** Cells moved up so far. *)
Definition moved (l : list Z) (n : Z) : list Z := take (Z.to_nat n) (drop (Z.to_nat COLS) l) ++ drop (Z.to_nat n) l.

Lemma move_step l r c :
  length l = 920%nat -> 0 <= r < ROWS - 1 -> 0 <= c < COLS ->
  exists a, get2 (moved l (r * COLS + c)) (r + 1) c = Ok a /\
    set2 (moved l (r * COLS + c)) r c a = Ok (moved l (r * COLS + (c + 1))).
Proof.
  unfold ROWS. intros Hl Hr Hc.
  destruct (copy_down l 40 (r * 40 + c)) as (a & E1 & E2); [unfold COLS in *; lia.. |].
  exists a. rewrite get2_eq, set2_eq by done. unfold moved, COLS in *.
  replace ((r + 1) * 40 + c) with (r * 40 + c + 40) by lia. split; [exact E1|].
  replace (r * 40 + (c + 1)) with (r * 40 + c + 1) by lia. exact E2.
Qed.

Definition filled (l : list Z) (v lo i : Z) : list Z :=
  take (Z.to_nat lo) l ++ replicate (Z.to_nat (i - lo)) v ++ drop (Z.to_nat i) l.

Lemma filled_step l v lo r c :
  length l = 920%nat -> 0 <= r < ROWS -> 0 <= c < COLS -> 0 <= lo <= r * COLS + c ->
  set2 (filled l v lo (r * COLS + c)) r c v = Ok (filled l v lo (r * COLS + (c + 1))).
Proof.
  unfold ROWS. intros Hl Hr Hc Hlo. rewrite set2_eq by done. unfold filled, COLS in *.
  rewrite fill_step by lia. by replace (r * 40 + (c + 1)) with (r * 40 + c + 1) by lia.
Qed.

Lemma filled_0 l v lo : filled l v lo lo = l.
Proof.
  unfold filled. rewrite Z.sub_diag. change (replicate (Z.to_nat 0) v) with (@nil Z).
  by rewrite app_nil_l, take_drop.
Qed.

Lemma filled_length l v lo i : 0 <= lo <= i -> i <= Z.of_nat (length l) -> length (filled l v lo i) = length l.
Proof.
  intros. unfold filled. rewrite !length_app, length_take, length_replicate, length_drop. lia.
Qed.

(** The last row is blanked. *)
Lemma blank_row l v :
  length l = 920%nat -> filled l v 880 920 = take 880 l ++ replicate 40 v.
Proof.
  intros Hl. unfold filled. rewrite (drop_ge l) by lia. by rewrite app_nil_r.
Qed.

Lemma moved_all l : length l = 920%nat -> take 880 (moved l 880) = drop 40 l /\ length (moved l 880) = 920%nat.
Proof.
  intros Hl. unfold moved, COLS. rewrite take_app_length' by (rewrite length_take, length_drop; lia).
  split.
  - apply take_ge. change (Z.to_nat 40) with 40%nat. rewrite length_drop. lia.
  - rewrite length_app, length_take, !length_drop. lia.
Qed.

Lemma ScrollUp_ok t :
  length (grid t) = 920%nat -> length (colors t) = 920%nat -> 0 < cursor_row t ->
  ScrollUp t = Ok (set_at (set_text t (drop 40 (grid t) ++ replicate 40 32)
                             (drop 40 (colors t) ++ replicate 40 COL_TEXT)) (cursor_row t - 1) (cursor_col t)).
Proof.
  intros Hg Hk Hr. unfold ScrollUp.
  loop_with (fun r s => s = (moved (grid t) (r * COLS), moved (colors t) (r * COLS))) s E Es.
  - done.
  - done.
  - intros r s Hr' ->.
    loop_with (fun c s => s = (moved (grid t) (r * COLS + c), moved (colors t) (r * COLS + c))) s E Es.
    + done.
    + by rewrite Z.add_0_r.
    + intros c s Hc ->.
      destruct (move_step (grid t) r c) as (a & E1 & E2); [done..|].
      destruct (move_step (colors t) r c) as (b & E3 & E4); [done..|].
      rewrite E1. cbn [mbind result_bind]. rewrite E2. cbn [mbind result_bind]. rewrite E3.
      cbn [mbind result_bind]. rewrite E4. cbn [mbind result_bind]. eexists. split; [reflexivity|]. done.
    + exists s. split; [exact E|]. rewrite Es. by replace (r * COLS + COLS) with ((r + 1) * COLS) by lia.
  - rewrite E, Es. cbn [mbind result_bind]. change ((ROWS - 1) * COLS) with 880.
    destruct (moved_all (grid t) Hg) as [Eg Lg]. destruct (moved_all (colors t) Hk) as [Ek Lk].
    set (g1 := moved (grid t) 880) in *. set (k1 := moved (colors t) 880) in *.
    loop_with (fun c s => s = (filled g1 32 880 ((ROWS - 1) * COLS + c), filled k1 COL_TEXT 880 ((ROWS - 1) * COLS + c)))
      s' E' Es'.
    + done.
    + by rewrite !filled_0.
    + intros c s1 Hc ->. rewrite !filled_step by (done || unfold ROWS, COLS in *; lia).
      cbn [mbind result_bind]. eexists. split; [reflexivity|]. done.
    + rewrite E', Es'. cbn [mbind result_bind]. change ((ROWS - 1) * COLS + COLS) with 920.
      rewrite !blank_row by done. rewrite Eg, Ek. cbn [cursor_row set_text].
      rewrite Z.gtb_ltb, (proj2 (Z.ltb_lt 0 (cursor_row t))) by done. done.
Qed.

(** Only the text and the cursor differ. *)
Definition retext (t t' : Terminal) : Prop := exists g k r c, t' = set_at (set_text t g k) r c.

Lemma retext_trans t1 t2 t3 : retext t1 t2 -> retext t2 t3 -> retext t1 t3.
Proof. intros (g & k & r & c & ->) (g' & k' & r' & c' & ->). by exists g', k', r', c'. Qed.

(** Two grids side by side. *)
Lemma zip_scroll (g k : list Z) a b n m :
  length g = length k ->
  zip (drop n g ++ replicate m a) (drop n k ++ replicate m b) = drop n (zip g k) ++ replicate m (a, b).
Proof.
  intros E. rewrite zip_with_app by (rewrite !length_drop; lia).
  by rewrite zip_with_drop, zip_with_replicate.
Qed.

Lemma COL_TEXT_u8 : is_u8 COL_TEXT.
Proof. unfold COL_TEXT. zify_words. lia. Qed.

Lemma NewLine_shows t p :
  length (grid t) = 920%nat -> length (colors t) = 920%nat -> Forall is_u8 (colors t) ->
  0 <= cursor_row t < ROWS -> (exists n, bottom p = n * 40) -> 920 <= bottom p ->
  cells_of t = drop (Z.to_nat (top 40 23 p)) (sheet p) ->
  pen p = top 40 23 p + (cursor_row t + 1) * 40 ->
  exists t', NewLine t = Ok t' /\ term_wf t' /\ retext t t' /\
    shows 40 23 (feed 40 blank_cell p) (cells_of t') (place t').
Proof.
  intros Hg Hk H8 Hr Hn Hb Hcells Hpen. unfold NewLine. cbv zeta. cbn [cursor_row set_at].
  assert (Ht : top 40 23 p = bottom p - 920) by done. unfold ROWS in *.
  pose proof (feed_shows 40 23 ltac:(lia) ltac:(lia) blank_cell p (cells_of t) ((cursor_row t + 1) * 40)
                Hn Hb ltac:(lia) ltac:(lia) Hcells ltac:(lia)) as F.
  rewrite Z.geb_leb. destruct (Z.leb_spec 23 (cursor_row t + 1)) as [H|H].
  - rewrite (proj2 (Z.ltb_ge _ _)) in F by lia. rewrite ScrollUp_ok by (cbn; lia || done).
    eexists. split; [reflexivity|]. cbn [grid colors cursor_row cursor_col set_at set_text].
    split; [|split; [by eexists _, _, _, _|]].
    + split; cbn [grid colors cursor_row cursor_col set_at set_text]; unfold ROWS, COLS;
        rewrite ?length_app, ?length_drop, ?length_replicate; try lia.
      apply Forall_app. split; [by apply Forall_drop | apply Forall_replicate, COL_TEXT_u8].
    + unfold cells_of, place, COLS. cbn [grid colors cursor_row cursor_col set_at set_text].
      rewrite zip_scroll by congruence. replace ((cursor_row t + 1 - 1) * 40 + 0) with (40 * (23 - 1)) by lia.
      exact F.
  - rewrite (proj2 (Z.ltb_lt _ _)) in F by lia. eexists. split; [reflexivity|].
    split; [|split; [by eexists (grid t), (colors t), _, _|]].
    + split; cbn [grid colors cursor_row cursor_col set_at]; unfold ROWS, COLS; (done || lia).
    + unfold place, COLS. cbn [cursor_row cursor_col set_at]. by rewrite Z.add_0_r.
Qed.

Lemma put_cell_ok t c :
  term_wf t ->
  exists t', put_cell t c = Ok t' /\ cells_of t' = <[Z.to_nat (place t) := (c, COL_TEXT)]> (cells_of t) /\
    exists g k, t' = set_text t g k /\ length g = 920%nat /\ length k = 920%nat /\ Forall is_u8 k.
Proof.
  intros [Hg Hk H8 Hr Hc]. unfold put_cell. rewrite !set2_eq by done. fold (place t).
  assert (0 <= place t < 920) by (unfold place, ROWS, COLS in *; lia).
  rewrite !arr_set_in_range by lia. cbn [mbind result_bind]. eexists. split; [reflexivity|].
  split; [unfold cells_of; cbn; by rewrite insert_zip_with|].
  eexists _, _. split; [reflexivity|]. rewrite !length_insert. split; [done|]. split; [done|].
  by apply Forall_insert; [|apply COL_TEXT_u8].
Qed.

Lemma place_range t : term_wf t -> 0 <= place t < 920.
Proof. intros [_ _ _ Hr Hc]. unfold place, ROWS, COLS in *. lia. Qed.

Lemma Erase_shows t p :
  term_wf t -> shows 40 23 p (cells_of t) (place t) ->
  exists t', Erase t = Ok t' /\ term_wf t' /\ retext t t' /\
    shows 40 23 (strike 40 23 blank_cell Backspace p) (cells_of t') (place t').
Proof.
  intros Hw Hs. pose proof Hs as [[[n Hn] Hh Hp] Hcells Hcursor].
  unfold Erase. cbv zeta. set (t1 := if cursor_col t >? 0 then _ else _).
  assert (H1 : term_wf t1 /\ place t1 = (if 0 <? place t then place t - 1 else place t) /\
               grid t1 = grid t /\ colors t1 = colors t /\ exists r c, t1 = set_at t r c).
  { pose proof Hw as [Hg Hk H8 Hr Hc]. unfold t1, place, ROWS, COLS in *. rewrite !Z.gtb_ltb.
    destruct (Z.ltb_spec 0 (cursor_col t)); [|destruct (Z.ltb_spec 0 (cursor_row t))];
      (split; [split; cbn; (done || unfold ROWS, COLS in *; lia)|]);
      cbn [cursor_row cursor_col set_at grid colors];
      (split; [destruct (Z.ltb_spec 0 (cursor_row t * 40 + cursor_col t)); lia|]).
    1,2: by eauto.
    split; [done|]. split; [done|]. exists (cursor_row t), (cursor_col t). by destruct t. }
  destruct H1 as (Hw1 & Hpl & Eg & Ek & r & c & E1). clearbody t1.
  destruct (put_cell_ok t1 32 Hw1) as (t2 & -> & Hcells2 & g & k & -> & Lg & Lk & L8).
  eexists. split; [reflexivity|].
  split; [destruct Hw1 as [_ _ _ ? ?]; by split|].
  split; [subst t1; by eexists _, _, _, _|].
  change (place (set_text t1 g k)) with (place t1).
  assert (Hc1 : cells_of t1 = cells_of t) by (unfold cells_of; by rewrite Eg, Ek).
  rewrite Hcells2, Hc1. cbn [strike].
  assert (Ht : top 40 23 p = bottom p - 920) by done.
  pose proof (place_range t Hw). pose proof (place_range t1 Hw1).
  set (q := if top 40 23 p <? pen p then pen p - 1 else pen p).
  assert (Eq : q = top 40 23 p + place t1).
  { unfold q. destruct (Z.ltb_spec (top 40 23 p) (pen p)), (Z.ltb_spec 0 (place t)); lia. }
  split; [split|..].
  - exists n. by rewrite bottom_put.
  - by rewrite bottom_put.
  - unfold top. rewrite bottom_put. cbn [pen]. lia.
  - unfold blank_cell. rewrite Eq.
    rewrite (shows_insert 40 23 ltac:(lia) ltac:(lia) p (cells_of t) (place t)); [|done|lia].
    unfold top. by rewrite bottom_put.
  - unfold top. rewrite bottom_put. cbn [pen]. lia.
Qed.

Lemma TermPutChar_shows t p c :
  is_u8 c -> term_wf t -> shows 40 23 p (cells_of t) (place t) ->
  exists t', PutChar t c = Ok t' /\ term_wf t' /\ retext t t' /\
    shows 40 23 (strike 40 23 blank_cell (key_for c) p) (cells_of t') (place t').
Proof.
  intros Hc Hw Hs. unfold PutChar, key_for. pose proof (place_range t Hw) as Hpl.
  destruct (Z.eqb_spec c 10) as [->|H10]; [|destruct (Z.eqb_spec c 8) as [->|H8]; [by apply Erase_shows|]].
  - destruct Hs as [[[n Hn] Hh Hp] Hcells Hcursor]. destruct Hw as [Hg Hk H8' Hr Hcol]. cbn [strike].
    assert (Ht : top 40 23 p = bottom p - 920) by done. apply NewLine_shows; try done; cbn [pen].
    + by exists n.
    + change (top 40 23 (mkPaper (sheet p) _)) with (top 40 23 p).
      assert (E : pen p / 40 = cursor_row t + (n - 23)).
      { unfold place, COLS in *. replace (pen p) with (cursor_col t + (cursor_row t + (n - 23)) * 40) by lia.
        rewrite Z.div_add, Z.div_small by lia. lia. }
      lia.
  - destruct (put_cell_ok t c Hw) as (t1 & -> & Hcells1 & g & k & -> & Lg & Lk & L8). cbn [mbind result_bind].
    rewrite (shows_insert 40 23 ltac:(lia) ltac:(lia) p _ _ _ _ Hs Hpl) in Hcells1.
    destruct Hs as [[[n Hn] Hh Hp] Hcells Hcursor]. destruct Hw as [Hg Hk H8' Hr Hcol].
    assert (Ht : top 40 23 p = bottom p - 920) by done. cbv zeta. cbn [strike cursor_col cursor_row set_at set_text].
    set (p1 := mkPaper (<[Z.to_nat (pen p) := (c, COL_TEXT)]> (sheet p)) (pen p + 1)).
    assert (Eb : bottom p1 = bottom p) by apply bottom_put.
    assert (Et : top 40 23 p1 = top 40 23 p) by (unfold top; by rewrite Eb).
    assert (Ec : cells_of (set_text t g k) = drop (Z.to_nat (top 40 23 p1)) (sheet p1)).
    { rewrite Hcells1, Et. unfold p1. cbn [sheet]. by replace (top 40 23 p + place t) with (pen p) by lia. }
    unfold COLS, ROWS in *. rewrite Z.geb_leb. destruct (Z.leb_spec 40 (cursor_col t + 1)).
    + destruct (NewLine_shows (set_at (set_text t g k) (cursor_row t) (cursor_col t + 1)) p1) as (t' & E & Hw' & Hre & Hs').
      { exact Lg. }
      { exact Lk. }
      { exact L8. }
      { exact Hr. }
      { exists n. lia. }
      { lia. }
      { exact Ec. }
      { rewrite Et. cbn [pen p1 cursor_row set_at set_text]. unfold place, COLS in *. lia. }
      exists t'. split; [exact E|]. split; [done|]. split; [|done].
      eapply retext_trans; [|exact Hre]. by eexists _, _, _, _.
    + eexists. split; [reflexivity|].
      split; [by split; cbn; unfold ROWS, COLS; (done || lia)|].
      split; [by eexists _, _, _, _|].
      pose proof (feed_shows 40 23 ltac:(lia) ltac:(lia) blank_cell p1 _ (place t + 1)
                    ltac:(by exists n; lia) ltac:(lia) ltac:(cbn [pen p1]; lia) ltac:(cbn [pen p1]; lia) Ec
                    ltac:(cbn [pen p1]; lia)) as F.
      unfold place, COLS in *. cbn [cursor_row cursor_col set_at set_text].
      rewrite (proj2 (Z.ltb_lt _ _)) in F by lia. by rewrite Z.add_assoc.
Qed.

#[global, refine] Instance terminal_console : Console (Z * Z) Terminal 40 23 := {
  cells := cells_of;
  cur := place;
  blank _ := blank_cell;
  key_of _ := key_for;
  con_ok := term_wf;
  put_char := PutChar;
}.
Proof.
  intros t p c Hc Hw Hs. destruct (TermPutChar_shows t p c Hc Hw Hs) as (t' & E & Hw' & _ & Hs').
  by exists t'.
Defined.

(** ** What is drawn *)

(** The characters of [str] from pixel [x0] on, six pixels apart. *)
Definition label (x0 col : Z) (str : list Z) (n : nat) : picture :=
  foldl (fun f i => over f (glyph (x0 + Z.of_nat i * 6) 1 (str !!! i) col COL_HDR_BG)) (fun _ _ => None)
    (seq 0 n).

Definition header : picture :=
  over (over (over (rect 0 0 320 10 COL_HDR_BG) (label 2 COL_GOLD title 8)) (label 264 COL_DIM user 9))
    (rect 0 9 320 1 COL_GOLD).

(** The pixel of the character cell a pixel lies in. *)
Definition text (t : Terminal) : picture := fun a b =>
  let r := (b - 10) / 8 in
  let c := a / 8 in
  if (10 <=? b) && (b <? 194) then
    Some (if glyph_bit (grid t !!! Z.to_nat (r * 40 + c)) ((b - 10) mod 8) (a mod 8)
          then colors t !!! Z.to_nat (r * 40 + c) else COL_BG)
  else None.

Definition cursor_block (t : Terminal) : picture :=
  rect (cursor_col t * 8) (10 + cursor_row t * 8) 8 8 COL_TEXT.

(** The window covers the screen, where the kernel puts it. *)
Definition full_screen (t : Terminal) : Prop := wx t = 0 /\ wy t = 0 /\ ww t = 320.

Lemma label_drawn fb x0 str col n :
  64000 <= Z.of_nat (length fb) -> is_u8 col -> 0 <= x0 -> (n <= length str)%nat ->
  x0 + Z.of_nat (length str) * 6 + 2 <= 320 ->
  exists fb', for_result 0 (Z.of_nat n) (fun i fb =>
      c ← arr_get str i; DrawChar fb (u16 (x0 + i * 6)) (u16 (0 + 1)) c col COL_HDR_BG) fb = Ok fb' /\
    drawn fb (label x0 col str n) fb'.
Proof.
  intros Hl Hcol Hx Hn Hfit.
  loop_with (fun i b => drawn fb (label x0 col str (Z.to_nat i)) b) fb' E Hd.
  - lia.
  - apply drawn_refl.
  - intros i b Hi Hb. destruct (arr_get_in_range str i) as [c Ec]; [lia|]. rewrite Ec.
    cbn [mbind result_bind]. rewrite !u16_small by (zify_words; lia).
    destruct (DrawChar_drawn b (x0 + i * 6) (0 + 1) c col COL_HDR_BG) as (b' & E & Hb').
    1: by rewrite (dr_len _ _ _ Hb).
    1-4: lia.
    1: done.
    1: unfold COL_HDR_BG; zify_words; lia.
    exists b'. split; [exact E|]. replace (Z.to_nat (i + 1)) with (Datatypes.S (Z.to_nat i)) by lia.
    unfold label. rewrite seq_S, foldl_app. cbn [foldl Nat.add]. fold (label x0 col str (Z.to_nat i)).
    apply arr_get_Ok in Ec as [_ Ec]. apply list_lookup_total_correct in Ec. rewrite Ec.
    replace (Z.of_nat (Z.to_nat i)) with i by lia. exact (drawn_over _ _ _ _ _ Hb Hb').
  - exists fb'. split; [exact E|]. by rewrite Nat2Z.id in Hd.
Qed.

Lemma DrawHeader_drawn t fb :
  full_screen t -> 64000 <= Z.of_nat (length fb) ->
  exists fb', DrawHeader t fb = Ok fb' /\ drawn fb header fb'.
Proof.
  intros (Ex & Ey & Ew) Hl. unfold DrawHeader. rewrite Ex, Ey, Ew.
  destruct (DrawRect_drawn fb 0 0 320 10 COL_HDR_BG) as (b1 & E1 & D1);
    [done | lia | lia | lia | lia | lia | lia | unfold COL_HDR_BG; zify_words; lia|].
  change (u16 0) with 0. change (u16 320) with 320. unfold HEADER_H. rewrite E1. cbn [mbind result_bind]. cbv zeta.
  destruct (label_drawn b1 2 title COL_GOLD 8) as (b2 & E2 & D2);
    [by rewrite (dr_len _ _ _ D1) | unfold COL_GOLD; zify_words; lia | lia | cbn; lia | cbn; lia|].
  change (0 + 2) with 2. change (Z.of_nat (length title)) with (Z.of_nat 8). rewrite E2. cbn [mbind result_bind].
  destruct (label_drawn b2 264 user COL_DIM 9) as (b3 & E3 & D3);
    [by rewrite (dr_len _ _ _ D2), (dr_len _ _ _ D1) | unfold COL_DIM; zify_words; lia | lia | cbn; lia | cbn; lia|].
  change (0 + 320 - 9 * 6 - 2) with 264. change (Z.of_nat (length user)) with (Z.of_nat 9). rewrite E3.
  cbn [mbind result_bind].
  destruct (DrawRect_drawn b3 0 9 320 1 COL_GOLD) as (b4 & E4 & D4);
    [by rewrite (dr_len _ _ _ D3), (dr_len _ _ _ D2), (dr_len _ _ _ D1) | lia | lia | lia | lia | lia | lia
    | unfold COL_GOLD; zify_words; lia|].
  change (u16 (0 + 10 - 1)) with 9. exists b4. split; [exact E4|].
  exact (drawn_over _ _ _ _ _ (drawn_over _ _ _ _ _ (drawn_over _ _ _ _ _ D1 D2) D3) D4).
Qed.

(** A cell's glyph is its part of the text. *)
Lemma glyph_text t r c a b :
  0 <= r < 23 -> 0 <= c < 40 ->
  glyph (c * 8) (10 + r * 8) (grid t !!! Z.to_nat (r * 40 + c)) (colors t !!! Z.to_nat (r * 40 + c)) COL_BG a b =
  if (c * 8 <=? a) && (a <? c * 8 + 8) && (10 + r * 8 <=? b) && (b <? 10 + r * 8 + 8) then text t a b else None.
Proof.
  intros Hr Hc. unfold glyph. destruct (_ && _ && _ && _) eqn:E; [|done].
  rewrite !andb_true_iff, !Z.leb_le, !Z.ltb_lt in E. unfold text. cbv zeta.
  assert (Ea : a / 8 = c) by (Z.div_mod_to_equations; lia).
  assert (Eb : (b - 10) / 8 = r) by (Z.div_mod_to_equations; lia).
  assert (Ea' : a mod 8 = a - c * 8) by (Z.div_mod_to_equations; lia).
  assert (Eb' : (b - 10) mod 8 = b - (10 + r * 8)) by (Z.div_mod_to_equations; lia).
  rewrite (proj2 (Z.leb_le 10 b)), (proj2 (Z.ltb_lt b 194)) by lia. cbn [andb].
  by rewrite Ea, Eb, Ea', Eb'.
Qed.

(** The text of the first [r] rows and of [c] more cells. *)
Definition text_upto (t : Terminal) (r c : Z) : picture := fun a b =>
  if (b <? 10 + r * 8) || ((b <? 10 + r * 8 + 8) && (a <? c * 8)) then text t a b else None.

Lemma cell_drawn t fb b r c :
  term_wf t -> full_screen t -> 64000 <= Z.of_nat (length fb) -> 0 <= r < 23 -> 0 <= c < 40 ->
  drawn fb (text_upto t r c) b ->
  exists b', (ch ← get2 (grid t) r c; col ← get2 (colors t) r c;
      DrawChar b (u16 (wx t + c * 8)) (u16 (wy t + HEADER_H + r * 8)) ch col COL_BG) = Ok b' /\
    drawn fb (text_upto t r (c + 1)) b'.
Proof.
  intros Hw (Ex & Ey & _) Hl Hr Hc Hb. rewrite Ex, Ey. rewrite !get2_eq by done. unfold HEADER_H, COLS.
  destruct (arr_get_in_range (grid t) (r * 40 + c)) as [ch Ech]; [rewrite (tw_grid t Hw); lia|].
  destruct (arr_get_in_range (colors t) (r * 40 + c)) as [col Ecol]; [rewrite (tw_colors t Hw); lia|].
  rewrite Ech, Ecol. cbn [mbind result_bind]. apply arr_get_Ok in Ech as [_ Ech], Ecol as [_ Ecol].
  pose proof (Forall_lookup_1 _ _ _ _ (tw_u8 t Hw) Ecol) as H8.
  rewrite !u16_small by (zify_words; lia).
  destruct (DrawChar_drawn b (0 + c * 8) (0 + 10 + r * 8) ch col COL_BG) as (b' & E & Hb');
    [by rewrite (dr_len _ _ _ Hb) | lia | lia | lia | lia | done | unfold COL_BG; zify_words; lia|].
  exists b'. split; [exact E|]. eapply drawn_ext; [|exact (drawn_over _ _ _ _ _ Hb Hb')].
  intros p q Hp Hq. unfold over. rewrite !Z.add_0_l.
  apply list_lookup_total_correct in Ech, Ecol. rewrite <- Ech, <- Ecol, glyph_text by done.
  unfold text_upto. case_tests; try (done || lia); by destruct (text t p q).
Qed.

Lemma text_drawn t fb :
  term_wf t -> full_screen t -> 64000 <= Z.of_nat (length fb) ->
  exists fb', for_result 0 ROWS (fun r fb => for_result 0 COLS (fun c fb =>
         ch ← get2 (grid t) r c; col ← get2 (colors t) r c;
         DrawChar fb (u16 (wx t + c * 8)) (u16 (wy t + HEADER_H + r * 8)) ch col COL_BG) fb) fb = Ok fb' /\
    drawn fb (text t) fb'.
Proof.
  intros Hw Hf Hl. unfold ROWS.
  loop_with (fun r b => drawn fb (text_upto t r 0) b) fb' E Hd.
  - lia.
  - eapply drawn_ext; [|apply drawn_refl]. intros p q Hp Hq. unfold text_upto, text. case_tests; (done || lia).
  - intros r b Hr Hb. unfold COLS at 1.
    loop_with (fun c b' => drawn fb (text_upto t r c) b') b' E Hb'.
    + lia.
    + exact Hb.
    + intros c b1 Hc Hb1. by apply cell_drawn.
    + exists b'. split; [exact E|]. eapply drawn_ext; [|exact Hb']. intros p q Hp Hq. unfold text_upto.
      case_tests; (done || lia).
  - exists fb'. split; [exact E|]. eapply drawn_ext; [|exact Hd]. intros p q Hp Hq. unfold text_upto, text.
    case_tests; (done || lia).
Qed.

Definition window (t : Terminal) : picture := over (over header (text t)) (cursor_block t).

Lemma Draw_drawn t fb :
  term_wf t -> full_screen t -> 64000 <= Z.of_nat (length fb) ->
  exists fb', Draw t fb = Ok fb' /\ drawn fb (window t) fb'.
Proof.
  intros Hw Hf Hl. unfold Draw.
  destruct (DrawHeader_drawn t fb Hf Hl) as (b1 & -> & D1). cbn [mbind result_bind].
  destruct (text_drawn t b1 Hw Hf) as (b2 & -> & D2); [by rewrite (dr_len _ _ _ D1)|]. cbn [mbind result_bind].
  destruct Hf as (-> & -> & _). pose proof (tw_row t Hw) as Hr. pose proof (tw_col t Hw) as Hc.
  unfold HEADER_H, ROWS, COLS in *. rewrite !u16_small by (zify_words; lia).
  destruct (DrawRect_drawn b2 (0 + cursor_col t * 8) (0 + 10 + cursor_row t * 8) 8 8 COL_TEXT) as (b3 & E3 & D3);
    [by rewrite (dr_len _ _ _ D2), (dr_len _ _ _ D1) | lia | lia | lia | lia | lia | lia | apply COL_TEXT_u8|].
  exists b3. split; [exact E3|].
  exact (drawn_over _ _ _ _ _ (drawn_over _ _ _ _ _ D1 D2) D3).
Qed.

Lemma output_loop t str p :
  term_wf t -> Forall is_u8 str -> shows 40 23 p (cells_of t) (place t) ->
  exists t', for_result 0 (Z.of_nat (length str)) (fun i t => c ← arr_get str i; PutChar t c) t = Ok t' /\
    term_wf t' /\ retext t t' /\
    shows 40 23 (strikes 40 23 blank_cell (key_for <$> str) p) (cells_of t') (place t').
Proof.
  intros Hw Hs Hp.
  loop_with (fun i t' => term_wf t' /\ retext t t' /\
    shows 40 23 (strikes 40 23 blank_cell (key_for <$> take (Z.to_nat i) str) p) (cells_of t') (place t')) t' E Ht.
  - lia.
  - split; [done|]. split; [|done]. exists (grid t), (colors t), (cursor_row t), (cursor_col t). by destruct t.
  - intros i t1 Hi (Hw1 & Hr1 & H1). destruct (arr_get_in_range str i) as [c Ec]; [lia|]. rewrite Ec.
    cbn [mbind result_bind]. apply arr_get_Ok in Ec as [_ Ec].
    destruct (TermPutChar_shows t1 _ c (Forall_lookup_1 _ _ _ _ Hs Ec) Hw1 H1) as (t2 & E2 & Hw2 & Hr2 & H2).
    exists t2. split; [exact E2|]. split; [done|]. split; [by eapply retext_trans|].
    replace (Z.to_nat (i + 1)) with (Datatypes.S (Z.to_nat i)) by lia. rewrite (take_S_r str _ c Ec).
    rewrite fmap_app. unfold strikes. rewrite foldl_app. exact H2.
  - exists t'. split; [exact E|]. by rewrite Nat2Z.id, firstn_all in Ht.
Qed.

(** C28: The terminal draws its window.  For the full-screen terminal the kernel makes,
    in any state with the cursor inside the grid, the output routine prints exactly its
    [len] characters on the sheet and returns with the screen showing the header, every
    character of the grid as its glyph in the cell's colours and the cursor as a solid
    block; no other byte of the frame buffer changes. *)
Theorem terminal_output t fb p str :
  term_wf t -> full_screen t -> 64000 <= Z.of_nat (length fb) -> Forall is_u8 str ->
  shows 40 23 p (cells_of t) (place t) ->
  exists t' fb', SetShellOutput t fb str (Z.of_nat (length str)) = Ok (t', fb') /\
    term_wf t' /\ retext t t' /\
    shows 40 23 (strikes 40 23 blank_cell (key_for <$> str) p) (cells_of t') (place t') /\
    drawn fb (window t') fb'.
Proof.
  intros Hw Hf Hl Hs Hp.
  destruct (output_loop t str p Hw Hs Hp) as (t' & E & Hw' & Hr & H').
  assert (Hf' : full_screen t') by (destruct Hr as (g & k & r & c & ->); exact Hf).
  destruct (Draw_drawn t' fb Hw' Hf' Hl) as (fb' & E' & D).
  exists t', fb'. split; [|done]. unfold SetShellOutput. rewrite E, result_bind_Ok, E', result_bind_Ok. done.
Qed.

Definition sample_terminal : Terminal :=
  mkTerm 0 0 320 200 (replicate 920 32) (replicate 920 COL_TEXT) 0 0 (replicate 256 0) 0 false.

Lemma sample_terminal_shows :
  term_wf sample_terminal /\ full_screen sample_terminal /\
  shows 40 23 (mkPaper (replicate 920 blank_cell) 0) (cells_of sample_terminal) (place sample_terminal).
Proof.
  split; [|split; [done|]].
  - split; cbn; rewrite ?length_replicate; unfold ROWS, COLS; try (done || lia).
    apply Forall_replicate, COL_TEXT_u8.
  - split; [split|..]; [by exists 23 | done | done | by vm_compute | done].
Qed.

Lemma terminal_output_witness :
  exists t' fb', SetShellOutput sample_terminal (replicate (Z.to_nat 64000) 0) [72; 105; 10; 62] 4 = Ok (t', fb') /\
    shows 40 23 (strikes 40 23 blank_cell [Glyph (72, COL_TEXT); Glyph (105, COL_TEXT); Newline; Glyph (62, COL_TEXT)]
                   (mkPaper (replicate 920 blank_cell) 0)) (cells_of t') (place t') /\
    drawn (replicate (Z.to_nat 64000) 0) (window t') fb'.
Proof.
  destruct sample_terminal_shows as (Hw & Hf & Hs).
  destruct (terminal_output sample_terminal (replicate (Z.to_nat 64000) 0) (mkPaper (replicate 920 blank_cell) 0)
              [72; 105; 10; 62] Hw Hf) as (t' & fb' & E & _ & _ & H1 & H2).
  - rewrite length_replicate. lia.
  - repeat (apply Forall_cons; split; [zify_words; lia|]). apply Forall_nil. exact I.
  - exact Hs.
  - exists t', fb'. split; [exact E|]. split; [exact H1 | exact H2].
Defined.

(** ** The line discipline *)

(** What the user sees of it: the line typed so far, the characters delivered and not
    yet read, the echo on the sheet, and the processes that may wait for input. *)
Record session := mkSes {
  typed : list Z;
  delivered : list Z;
  echo : paper (Z * Z);
  readers : option (list Z * list Sched.Process);  (** addresses and objects *)
}.

(** Everyone who waits for input becomes ready. *)
Definition wake_readers (r : list Z * list Sched.Process) : list Z * list Sched.Process :=
  (fst r, Sched.wake (-2) <$> snd r).

Definition deliver (q : list Z) (c : Z) : list Z := (KeyboardBuffer.spec_step (KeyboardBuffer.OpEnqueue c) q).2.

Definition spec_key (s : session) (c : Z) : session :=
  if c =? 8 then
    match typed s with
    | [] => s
    | _ => mkSes (take (length (typed s) - 1) (typed s)) (delivered s)
             (strike 40 23 blank_cell Backspace (echo s)) (readers s)
    end
  else if c =? 10 then
    mkSes [] (foldl deliver (delivered s) (typed s ++ [10])) (strike 40 23 blank_cell Newline (echo s))
      (wake_readers <$> readers s)
  else if (32 <=? c) && (c <? 128) && (Z.of_nat (length (typed s)) <? 255) then
    mkSes (typed s ++ [c]) (delivered s) (strike 40 23 blank_cell (Glyph (c, COL_TEXT)) (echo s)) (readers s)
  else s.

(** No new line is typed on a line of 255 characters. *)
Fixpoint fits (s : session) (ks : list Z) : Prop :=
  match ks with
  | [] => True
  | k :: ks => (k = 10 -> Z.of_nat (length (typed s)) < 255) /\ fits (spec_key s k) ks
  end.

Section discipline_proofs.
Context {S : Type} `{FA : FrameAllocator S}.
Implicit Types (s : tty S) (e : session).

Definition waiters_are (w : option (Sched.sched S)) (ps : option (list Z * list Sched.Process)) : Prop :=
  match w, ps with
  | Some w, Some ps => Sched.sched_inv w /\ Sched.addrs w = fst ps /\ Sched.procs w = snd ps
  | None, None => True
  | _, _ => False
  end.

Record serves s e : Prop := {
  sv_wf : term_wf (term s);
  sv_full : full_screen (term s);
  sv_cooked : raw_input_mode (term s) = false;
  sv_echo : shows 40 23 (echo e) (cells_of (term s)) (place (term s));
  sv_line_len : length (input_line (term s)) = 256%nat;
  sv_len : input_len (term s) = Z.of_nat (length (typed e));
  sv_short : Z.of_nat (length (typed e)) <= 255;
  sv_line : take (length (typed e)) (input_line (term s)) = typed e;
  sv_keys : KeyboardBuffer.queue_of (keys s) (delivered e);
  sv_screen : 64000 <= Z.of_nat (length (screen s));
  sv_waiters : waiters_are (waiters s) (readers e);
}.

Lemma retext_kept t t' :
  retext t t' -> full_screen t ->
  full_screen t' /\ raw_input_mode t' = raw_input_mode t /\ input_line t' = input_line t /\ input_len t' = input_len t.
Proof using. by intros (g & k & r & c & ->). Qed.

Lemma redraw_ok t s :
  term_wf t -> full_screen t -> 64000 <= Z.of_nat (length (screen s)) ->
  exists fb, redraw t s = Ok (mkTty t fb (keys s) (waiters s)) /\ 64000 <= Z.of_nat (length fb).
Proof using.
  intros Hw Hf Hl. destruct (Draw_drawn t (screen s) Hw Hf Hl) as (fb & E & D). exists fb.
  unfold redraw. rewrite E, result_bind_Ok. split; [done|]. by rewrite (dr_len _ _ _ D).
Qed.

Lemma WakeWaiters_ok w ps :
  waiters_are w ps ->
  exists w', KeyboardBuffer.WakeWaiters w = Ok w' /\ waiters_are w' (wake_readers <$> ps).
Proof using.
  intros Hp. destruct w as [w|], ps as [ps|]; try done; [|by exists None].
  destruct Hp as (Hi & Ea & Ep). destruct (Sched.WakeParent_acts w (-2) Hi) as (w' & E & Hi' & [Et Ec] & _ & _ & Ep').
  exists (Some w'). unfold KeyboardBuffer.WakeWaiters. rewrite E, result_bind_Ok. split; [done|]. cbn.
  split; [done|]. rewrite <- Ea, <- Ep. split; [unfold Sched.addrs; by rewrite Et, Ec | done].
Qed.

Lemma enqueue_line l k q n :
  KeyboardBuffer.queue_of k q -> (n <= length l)%nat ->
  exists k', for_result 0 (Z.of_nat n) (fun i k => x ← arr_get l i; KeyboardBuffer.Enqueue k x) k = Ok k' /\
    KeyboardBuffer.queue_of k' (foldl deliver q (take n l)).
Proof using.
  intros Hq Hn.
  loop_with (fun i k' => KeyboardBuffer.queue_of k' (foldl deliver q (take (Z.to_nat i) l))) k' E Hk.
  - lia.
  - done.
  - intros i k1 Hi H1. destruct (arr_get_in_range l i) as [c Ec]; [lia|]. rewrite Ec, result_bind_Ok.
    apply arr_get_Ok in Ec as [_ Ec].
    destruct (KeyboardBuffer.Enqueue_acts k1 _ c H1) as (k2 & E2 & H2). exists k2. split; [exact E2|].
    replace (Z.to_nat (i + 1)) with (Datatypes.S (Z.to_nat i)) by lia.
    rewrite (take_S_r l _ c Ec), foldl_app. exact H2.
  - exists k'. split; [exact E|]. by rewrite Nat2Z.id in Hk.
Qed.

Lemma take_insert_end (l : list Z) n c :
  (n < length l)%nat -> take (Datatypes.S n) (<[n := c]> l) = take n l ++ [c].
Proof using.
  intros Hn. rewrite (take_S_r _ _ c) by (by apply list_lookup_insert_eq). by rewrite take_insert_ge by lia.
Qed.

Lemma key_erase s e :
  serves s e -> exists s', OnKeyPress s 8 = Ok s' /\ serves s' (spec_key e 8).
Proof using.
  intros [Hw Hf Hc He Hll Hlen Hsh Hl Hk Hs Hwt]. unfold OnKeyPress, spec_key. cbv zeta. rewrite Hc. cbn [Z.eqb Pos.eqb].
  rewrite Z.gtb_ltb, Hlen. destruct (typed e) as [|c0 l0] eqn:El.
  { cbn. exists s. split; [done|]. split; try done; by rewrite El. }
  rewrite <- El in *. set (n := length (typed e)) in *. assert (Hn : (0 < n)%nat) by (unfold n; rewrite El; cbn; lia).
  rewrite (proj2 (Z.ltb_lt 0 (Z.of_nat n))) by lia.
  destruct (Erase_shows (set_input (term s) (input_line (term s)) (Z.of_nat n - 1)) (echo e)) as (t' & E & Hw' & Hre & He');
    [by destruct Hw | done|].
  rewrite E, result_bind_Ok.
  destruct (retext_kept _ _ Hre Hf) as (Hf' & Hc' & Hl' & Hn').
  destruct (redraw_ok t' s Hw' Hf' Hs) as (fb & -> & Hfb). eexists. split; [reflexivity|].
  assert (Ht : length (take (n - 1) (typed e)) = (n - 1)%nat) by (rewrite length_take; fold n; lia).
  split; cbn [term screen keys waiters typed delivered echo readers]; try done.
  - by rewrite Hc'.
  - by rewrite Hl'.
  - rewrite Hn', Ht. cbn [input_len set_input]. lia.
  - rewrite Ht. lia.
  - rewrite Ht, Hl'. cbn [input_line set_input].
    transitivity (take (n - 1) (take n (input_line (term s)))); [rewrite take_take; f_equal; lia | by rewrite Hl].
Qed.

Lemma key_newline s e :
  serves s e -> Z.of_nat (length (typed e)) < 255 ->
  exists s', OnKeyPress s 10 = Ok s' /\ serves s' (spec_key e 10).
Proof using.
  intros [Hw Hf Hc He Hll Hlen Hsh Hl Hk Hs Hwt] Hfit. unfold OnKeyPress, spec_key. cbv zeta. rewrite Hc. cbn [Z.eqb Pos.eqb].
  rewrite Hlen. set (n := length (typed e)) in *. rewrite arr_set_in_range, result_bind_Ok by lia.
  rewrite arr_set_in_range, result_bind_Ok by (rewrite length_insert; lia).
  set (line := <[Z.to_nat (Z.of_nat n + 1) := 0]> _).
  destruct (TermPutChar_shows (set_input (term s) line (Z.of_nat n + 1)) (echo e) 10) as (t' & E & Hw' & Hre & He');
    [zify_words; lia | by destruct Hw | done|].
  rewrite E, result_bind_Ok.
  destruct (retext_kept _ _ Hre Hf) as (Hf' & Hc' & Hl' & Hn'). cbn [input_line input_len set_input raw_input_mode] in *.
  rewrite Hl', Hn'. replace (Z.of_nat n + 1) with (Z.of_nat (Datatypes.S n)) by lia.
  assert (Hline : length line = 256%nat) by (unfold line; by rewrite !length_insert).
  destruct (enqueue_line line (keys s) (delivered e) (Datatypes.S n) Hk) as (k' & Ek & Hk'); [lia|].
  rewrite Ek, result_bind_Ok. destruct (WakeWaiters_ok _ _ Hwt) as (w' & Ew & Hw''). rewrite Ew, result_bind_Ok.
  destruct (redraw_ok (set_input t' line 0) (mkTty t' (screen s) k' w')) as (fb & -> & Hfb); [by destruct Hw' | done | done|].
  eexists. split; [reflexivity|].
  split; cbn [term screen keys waiters typed delivered echo readers length]; try done.
  - by destruct Hw'.
  - cbn. by rewrite Hc'.
  - replace (typed e ++ [10]) with (take (Datatypes.S n) line); [done|]. unfold line.
    rewrite take_insert_ge by lia. rewrite Nat2Z.id, take_insert_end by lia. by rewrite Hl.
Qed.

Lemma key_other s e c :
  serves s e -> is_u8 c -> c <> 8 -> c <> 10 -> exists s', OnKeyPress s c = Ok s' /\ serves s' (spec_key e c).
Proof using.
  intros Hsv H8 Hne8 Hne10. pose proof Hsv as [Hw Hf Hc He Hll Hlen Hsh Hl Hk Hs Hwt].
  unfold OnKeyPress, spec_key. cbv zeta. rewrite Hc.
  rewrite (proj2 (Z.eqb_neq c 8)), (proj2 (Z.eqb_neq c 10)) by done. rewrite Hlen.
  replace (i8 c >=? 32) with ((32 <=? c) && (c <? 128)).
  2:{ rewrite Z.geb_leb. assert (Ec : i8 c = if c <? 128 then c else c - 256).
      { unfold i8. zify_words. destruct (Z.ltb_spec c 128); Z.div_mod_to_equations; lia. }
      rewrite Ec. zify_words. destruct (Z.ltb_spec c 128); case_tests; (done || lia). }
  destruct ((32 <=? c) && (c <? 128) && (Z.of_nat (length (typed e)) <? 255)) eqn:E; [|by exists s].
  apply andb_true_iff in E as [Hpr Hlt]. apply Z.ltb_lt in Hlt. set (n := length (typed e)) in *.
  rewrite arr_set_in_range, result_bind_Ok by lia. rewrite Nat2Z.id.
  set (line := <[n := c]> _).
  destruct (TermPutChar_shows (set_input (term s) line (Z.of_nat n + 1)) (echo e) c) as (t' & E & Hw' & Hre & He');
    [done | by destruct Hw | done|].
  rewrite E, result_bind_Ok.
  destruct (retext_kept _ _ Hre Hf) as (Hf' & Hc' & Hl' & Hn'). cbn [input_line input_len set_input raw_input_mode] in *.
  destruct (redraw_ok t' s Hw' Hf' Hs) as (fb & -> & Hfb). eexists. split; [reflexivity|].
  assert (El : length (typed e ++ [c]) = Datatypes.S n) by (rewrite length_app; cbn; fold n; lia).
  split; cbn [term screen keys waiters typed delivered echo readers]; rewrite ?El; try done.
  - by rewrite Hc'.
  - revert He'. unfold key_for. by rewrite (proj2 (Z.eqb_neq c 8)), (proj2 (Z.eqb_neq c 10)).
  - rewrite Hl'. unfold line. by rewrite length_insert.
  - rewrite Hn'. lia.
  - lia.
  - rewrite Hl'. unfold line. rewrite take_insert_end by lia. by rewrite Hl.
Qed.

Lemma key_press s e c :
  serves s e -> is_u8 c -> (c = 10 -> Z.of_nat (length (typed e)) < 255) ->
  exists s', OnKeyPress s c = Ok s' /\ serves s' (spec_key e c).
Proof using.
  intros Hs H8 Hf. destruct (decide (c = 8)) as [->|]; [by apply key_erase|].
  destruct (decide (c = 10)) as [->|]; [apply key_newline; [done | by apply Hf] | by apply key_other].
Qed.

(** C27: The line discipline.  From a terminal that serves a session, every sequence of
    key presses in which no new line is typed on a full line of 255 characters is handled
    without a write outside the arrays, and does what the session says: printable
    characters are collected and echoed, erasing removes the last character of the
    current line only, a new line delivers the whole line with its terminator to the
    keyboard buffer and makes every process that waits for input ready, and everything
    else is ignored. *)
Theorem line_discipline s e ks :
  serves s e -> Forall is_u8 ks -> fits e ks ->
  exists s', fold_result (fun c s => OnKeyPress s c) ks s = Ok s' /\ serves s' (foldl spec_key e ks).
Proof using.
  revert s e. induction ks as [|c ks IH]; intros s e Hs H8 Hf; [by exists s|].
  apply Forall_cons in H8 as [Hc H8]. destruct Hf as [Hfc Hf].
  destruct (key_press s e c Hs Hc Hfc) as (s1 & E & H1). cbn [fold_result foldl].
  rewrite E, result_bind_Ok. by apply IH.
Qed.

(** A line of 255 characters overflows the input line.  When the user has typed 255
    characters, the new line is stored in the last cell of [input_line] and its
    terminator one cell past the end. *)
Theorem input_line_overflow s e :
  serves s e -> length (typed e) = 255%nat -> OnKeyPress s 10 = Err OutOfBounds.
Proof using.
  intros [Hw Hf Hc He Hll Hlen Hsh Hl Hk Hs Hwt] Hn. unfold OnKeyPress. cbv zeta. rewrite Hc. cbn [Z.eqb Pos.eqb].
  rewrite Hlen, Hn, arr_set_in_range, result_bind_Ok by lia.
  rewrite arr_set_out by (rewrite length_insert; lia). done.
Qed.
End discipline_proofs.

Definition sample_tty (line : list Z) : tty Pmm.state :=
  mkTty (set_input sample_terminal (line ++ replicate (256 - length line) 0) (Z.of_nat (length line)))
    (replicate (Z.to_nat 64000) 0) (KeyboardBuffer.mkKb (replicate 256 0) 0 0) None.

Definition sample_session (line : list Z) : session :=
  mkSes line [] (mkPaper (replicate 920 blank_cell) 0) None.

Lemma sample_serves line :
  Z.of_nat (length line) <= 255 -> serves (sample_tty line) (sample_session line).
Proof.
  intros Hl. destruct sample_terminal_shows as (Hw & Hf & Hs).
  split; cbn [term screen keys waiters typed delivered echo readers sample_tty sample_session]; try done.
  - by destruct Hw.
  - cbn [input_line set_input]. rewrite length_app, length_replicate. lia.
  - cbn [input_line set_input]. by rewrite take_app_length.
  - split; cbn; [apply length_replicate | lia | lia | done | lia].
Qed.

Lemma line_discipline_witness :
  exists s', fold_result (fun c s => OnKeyPress s c) [108; 120; 8; 115; 9; 10; 97] (sample_tty []) = Ok s' /\
    KeyboardBuffer.queue_of (keys s') [108; 115; 10] /\ input_len (term s') = 1.
Proof.
  destruct (line_discipline (sample_tty []) (sample_session []) [108; 120; 8; 115; 9; 10; 97]) as (s' & E & Hs).
  - apply sample_serves. cbn. lia.
  - repeat (apply Forall_cons; split; [zify_words; lia|]). apply Forall_nil. exact I.
  - vm_compute. repeat split.
  - exists s'. split; [exact E|]. split; [exact (sv_keys _ _ Hs) | exact (sv_len _ _ Hs)].
Defined.

Lemma input_line_overflow_witness : OnKeyPress (sample_tty (replicate 255 97)) 10 = Err OutOfBounds.
Proof.
  apply (input_line_overflow (sample_tty (replicate 255 97)) (sample_session (replicate 255 97))).
  - apply sample_serves. rewrite length_replicate. lia.
  - reflexivity.
Defined.

End Terminal.
