(* ===== verification/Gui.v ===== *)
(** Widgets, windows and the desktop: src/src/ui/gui.{h,cpp}.

    The virtual methods of widgets are a class: a [Window] holds widgets of any type
    with these methods, and is itself such a type; the [Desktop] holds windows. *)

From stdpp Require Import base numbers list.
From Stdlib Require Import ZArith Lia.
From S2P Require Import Prelude Graphics.

Module Gui.
Import Graphics.

(** ** The code *)

Definition DarkGray : Z := 0x08.
Definition White : Z := 0x0F.

(** The rectangle of a widget. *)
Record Widget := mkWidget { x : Z; y : Z; w : Z; h : Z }.

Definition ContainsPoint (r : Widget) (px py : Z) : bool :=
  (px >=? x r) && (px <? i32 (x r + w r)) && (py >=? y r) && (py <? i32 (y r + h r)).

(** The methods of the objects of type [G]; events act on a state [S]. *)
Class WidgetOps (G S : Type) := {
  bounds : G -> Widget;
  draw : G -> S -> list Z -> result (list Z);
  mouse_down : G -> Z -> Z -> Z -> S -> result S;
  mouse_up : G -> Z -> Z -> Z -> S -> result S;
  key_press : G -> Z -> S -> result S;
}.

(** A pointer of an array of pointers, followed. *)
Definition follow {G : Type} (l : list (option G)) (i : Z) : result G :=
  p ← arr_get l i; match p with Some g => Ok g | None => Err BadPointer end.

Definition MAX_WIDGETS : Z := 32.
Definition MAX_WINDOWS : Z := 16.

Section windows.
Context {G S : Type} `{WidgetOps G S}.

Record Window := mkWindow {
  frame : Widget;
  title : list Z;
  w_color : Z;
  widgets : list (option G);
  widget_count : Z;
}.

Definition Window_new (r : Widget) (t : list Z) (c : Z) (ws0 : list (option G)) : result Window :=
  ws ← for_result 0 MAX_WIDGETS (fun i ws => arr_set ws i None) ws0;
  Ok (mkWindow r t c ws 0).

(** The title is drawn up to its terminator. *)
Fixpoint draw_title (fb : list Z) (tx ty : Z) (t : list Z) : result (list Z) :=
  match t with
  | [] => Err OutOfBounds
  | c :: t =>
      if c =? 0 then Ok fb
      else fb ← DrawChar fb tx ty c White DarkGray; draw_title fb (u16 (tx + 8)) ty t
  end.

Definition Window_Draw (win : Window) (s : S) (fb : list Z) : result (list Z) :=
  let r := frame win in
  fb ← DrawRect fb (u16 (x r)) (u16 (y r)) (u16 (w r)) (u16 (h r)) (w_color win);
  fb ← DrawRect fb (u16 (x r)) (u16 (y r)) (u16 (w r)) 10 DarkGray;
  fb ← draw_title fb (u16 (x r + 4)) (u16 (y r + 1)) (title win);
  for_result 0 (widget_count win) (fun i fb => g ← follow (widgets win) i; draw g s fb) fb.

Definition AddWidget (win : Window) (g : G) : result Window :=
  if widget_count win <? MAX_WIDGETS then
    ws ← arr_set (widgets win) (widget_count win) (Some g);
    Ok (mkWindow (frame win) (title win) (w_color win) ws (widget_count win + 1))
  else Ok win.

Definition Window_OnMouseDown (win : Window) (px py button : Z) (s : S) : result S :=
  for_result 0 (widget_count win) (fun i s =>
    g ← follow (widgets win) i;
    if ContainsPoint (bounds g) px py then mouse_down g px py button s else Ok s) s.

Definition Window_OnKeyPress (win : Window) (c : Z) (s : S) : result S :=
  if widget_count win >? 0 then g ← follow (widgets win) (widget_count win - 1); key_press g c s
  else Ok s.

(** A window is a widget; [OnMouseUp] is inherited and does nothing. *)
#[global] Instance window_widget : WidgetOps Window S := {
  bounds := frame;
  draw := Window_Draw;
  mouse_down := Window_OnMouseDown;
  mouse_up _ _ _ _ s := Ok s;
  key_press := Window_OnKeyPress;
}.
End windows.
Arguments Window : clear implicits.

Section desktop.
Context {G S : Type} `{WidgetOps G S}.

Record Desktop := mkDesktop {
  d_w : Z; d_h : Z;
  d_color : Z;
  windows : list (option G);
  window_count : Z;
  mouse_x : Z; mouse_y : Z;
  mouse_buttons : Z;
}.

Definition Desktop_new (w h color : Z) (ws0 : list (option G)) : result Desktop :=
  ws ← for_result 0 MAX_WINDOWS (fun i ws => arr_set ws i None) ws0;
  Ok (mkDesktop w h color ws 0 (Z.quot w 2) (Z.quot h 2) 0).

Definition Desktop_Draw (d : Desktop) (s : S) (fb : list Z) : result (list Z) :=
  fb ← DrawRect fb 0 0 (u16 (d_w d)) (u16 (d_h d)) (d_color d);
  fb ← for_result 0 (window_count d) (fun i fb => g ← follow (windows d) i; draw g s fb) fb;
  DrawPixel fb (u16 (mouse_x d)) (u16 (mouse_y d)) White.

Definition AddWindow (d : Desktop) (win : G) : result Desktop :=
  if window_count d <? MAX_WINDOWS then
    ws ← arr_set (windows d) (window_count d) (Some win);
    Ok (mkDesktop (d_w d) (d_h d) (d_color d) ws (window_count d + 1) (mouse_x d) (mouse_y d) (mouse_buttons d))
  else Ok d.

Definition OnMouseMove (d : Desktop) (fb : list Z) (dx dy buttons : Z) : result (Desktop * list Z) :=
  fb ← DrawPixel fb (u16 (mouse_x d)) (u16 (mouse_y d)) (d_color d);
  let mx := i32 (mouse_x d + dx) in
  let my := i32 (mouse_y d - dy) in
  let mx := if mx <? 0 then 0 else mx in
  let mx := if mx >=? d_w d then i32 (d_w d - 1) else mx in
  let my := if my <? 0 then 0 else my in
  let my := if my >=? d_h d then i32 (d_h d - 1) else my in
  fb ← DrawPixel fb (u16 mx) (u16 my) White;
  Ok (mkDesktop (d_w d) (d_h d) (d_color d) (windows d) (window_count d) mx my buttons, fb).

(** [for (int i = n; i >= 0; i--)], ended by a return when the window contains the point. *)
Fixpoint topmost (n : nat) (d : Desktop) (px py : Z) : result (option G) :=
  match n with
  | O => Ok None
  | Datatypes.S n =>
      g ← follow (windows d) (Z.of_nat n);
      if ContainsPoint (bounds g) px py then Ok (Some g) else topmost n d px py
  end.

Definition OnMouseDown (d : Desktop) (px py button : Z) (s : S) : result S :=
  g ← topmost (Z.to_nat (window_count d)) d px py;
  match g with Some g => mouse_down g px py button s | None => Ok s end.

Definition OnMouseUp (d : Desktop) (px py button : Z) (s : S) : result S :=
  g ← topmost (Z.to_nat (window_count d)) d px py;
  match g with Some g => mouse_up g px py button s | None => Ok s end.

Definition OnKeyPress (d : Desktop) (c : Z) (s : S) : result S :=
  if window_count d >? 0 then g ← follow (windows d) (window_count d - 1); key_press g c s
  else Ok s.
End desktop.
Arguments Desktop : clear implicits.

(** ** Proofs *)

Section desktop_proofs.
Context {G S : Type} `{WidgetOps G S}.
Implicit Types (d : Desktop G) (gs : list G).

(** The desktop holds the windows [gs], the first at the bottom. *)
Record holds d gs : Prop := {
  ho_len : length (windows d) = 16%nat;
  ho_count : window_count d = Z.of_nat (length gs);
  ho_room : (length gs <= 16)%nat;
  ho_slots : forall i g, gs !! i = Some g -> windows d !! i = Some (Some g);
}.

(** The pointer is on a screen of at most 320 by 200 pixels. *)
Record pointer_ok d : Prop := {
  po_w : 0 < d_w d <= 320;
  po_h : 0 < d_h d <= 200;
  po_x : 0 <= mouse_x d < d_w d;
  po_y : 0 <= mouse_y d < d_h d;
  po_color : is_u8 (d_color d);
}.

Lemma follow_window d gs i g :
  holds d gs -> gs !! i = Some g -> follow (windows d) (Z.of_nat i) = Ok g.
Proof using.
  intros Hh Hg. unfold follow. rewrite (proj2 (arr_get_Ok (windows d) (Z.of_nat i) (Some g))); [done|].
  split; [lia|]. rewrite Nat2Z.id. by apply (ho_slots d gs Hh).
Qed.

Lemma topmost_ok d gs px py n :
  holds d gs -> (n <= length gs)%nat ->
  topmost n d px py = Ok (List.find (fun g => ContainsPoint (bounds g) px py) (reverse (take n gs))).
Proof using.
  intros Hh. induction n as [|n IH]; intros Hn; [done|]. cbn [topmost].
  destruct (lookup_lt_is_Some_2 gs n) as [g Hg]; [lia|].
  rewrite (follow_window d gs n g Hh Hg), result_bind_Ok.
  rewrite (take_S_r gs n g Hg), reverse_snoc. cbn [List.find].
  destruct (ContainsPoint (bounds g) px py); [done | apply IH; lia].
Qed.

Lemma AddWindow_ok d gs g :
  holds d gs -> exists d', AddWindow d g = Ok d' /\
    holds d' (if decide (length gs < 16)%nat then gs ++ [g] else gs).
Proof using.
  intros Hh. pose proof Hh as [Hl Hc Hr Hs]. unfold AddWindow, MAX_WINDOWS. rewrite Hc.
  destruct (Z.ltb_spec (Z.of_nat (length gs)) 16).
  - rewrite decide_True by lia. rewrite arr_set_in_range, result_bind_Ok by lia.
    eexists. split; [reflexivity|]. rewrite Nat2Z.id. split; cbn [windows window_count].
    + by rewrite length_insert.
    + rewrite length_app. cbn. lia.
    + rewrite length_app. cbn. lia.
    + intros i g' Hi. apply lookup_app_Some in Hi as [Hi|[Hi Hg]].
      * rewrite list_lookup_insert_ne by (apply lookup_lt_Some in Hi; lia). by apply Hs.
      * destruct (i - length gs)%nat as [|k] eqn:E; [|by destruct k]. injection Hg as ->.
        replace i with (length gs) by lia. apply list_lookup_insert_eq. lia.
  - rewrite decide_False by lia. by exists d.
Qed.

Definition clamp (n z : Z) : Z := Z.max 0 (Z.min z (n - 1)).

Lemma OnMouseMove_ok d fb dx dy buttons :
  pointer_ok d -> 64000 <= Z.of_nat (length fb) -> -128 <= dx < 128 -> -128 <= dy < 128 ->
  exists d' fb', OnMouseMove d fb dx dy buttons = Ok (d', fb') /\ pointer_ok d' /\
    mouse_x d' = clamp (d_w d) (mouse_x d + dx) /\ mouse_y d' = clamp (d_h d) (mouse_y d - dy) /\
    mouse_buttons d' = buttons /\ windows d' = windows d /\ window_count d' = window_count d /\
    drawn fb (over (rect (mouse_x d) (mouse_y d) 1 1 (d_color d)) (rect (mouse_x d') (mouse_y d') 1 1 White)) fb'.
Proof using.
  intros [Hw Hh Hx Hy Hc] Hl Hdx Hdy. unfold OnMouseMove.
  rewrite !(u16_small (mouse_x d)), !(u16_small (mouse_y d)) by (zify_words; lia).
  destruct (DrawPixel_drawn fb (mouse_x d) (mouse_y d) (d_color d)) as (b1 & -> & D1); [done | lia | lia | done|].
  rewrite result_bind_Ok. cbv zeta. rewrite !i32_small by (zify_words; lia).
  assert (Ec : forall n z, 0 < n -> (if (if z <? 0 then 0 else z) >=? n then n - 1 else if z <? 0 then 0 else z) = clamp n z).
  { intros n z Hn. unfold clamp. rewrite Z.geb_leb. destruct (Z.ltb_spec z 0); case_tests; lia. }
  rewrite !Ec by lia. remember (clamp (d_w d) (mouse_x d + dx)) as mx eqn:Ex.
  remember (clamp (d_h d) (mouse_y d - dy)) as my eqn:Ey. clear Ec. assert (0 <= mx < d_w d) by (unfold clamp in Ex; lia).
  assert (0 <= my < d_h d) by (unfold clamp in Ey; lia).
  rewrite !u16_small by (zify_words; lia).
  destruct (DrawPixel_drawn b1 mx my White) as (b2 & -> & D2);
    [by rewrite (dr_len _ _ _ D1) | lia | lia | unfold White; zify_words; lia|].
  rewrite result_bind_Ok. eexists _, _. split; [reflexivity|]. cbn.
  split; [by split|]. split; [done|]. split; [done|]. do 3 (split; [done|]).
  exact (drawn_over _ _ _ _ _ D1 D2).
Qed.

(** The desktop.  Windows are added on top, up to sixteen; a mouse press or release
    goes to the topmost window that contains the point and to no other, a key to the top
    window; every movement of the mouse keeps the pointer on the screen, moves it by the
    reported distance as far as the edges allow and changes only the two pixels of the
    old and the new position. *)
Theorem desktop_events d gs fb (s : S) px py button c dx dy buttons :
  holds d gs -> pointer_ok d -> 64000 <= Z.of_nat (length fb) -> -128 <= dx < 128 -> -128 <= dy < 128 ->
  let hit := List.find (fun g => ContainsPoint (bounds g) px py) (reverse gs) in
  OnMouseDown d px py button s = match hit with Some g => mouse_down g px py button s | None => Ok s end /\
  OnMouseUp d px py button s = match hit with Some g => mouse_up g px py button s | None => Ok s end /\
  OnKeyPress d c s = match last gs with Some g => key_press g c s | None => Ok s end /\
  (forall g, exists d', AddWindow d g = Ok d' /\ holds d' (if decide (length gs < 16)%nat then gs ++ [g] else gs)) /\
  exists d' fb', OnMouseMove d fb dx dy buttons = Ok (d', fb') /\ pointer_ok d' /\ holds d' gs /\
    mouse_x d' = clamp (d_w d) (mouse_x d + dx) /\ mouse_y d' = clamp (d_h d) (mouse_y d - dy) /\
    drawn fb (over (rect (mouse_x d) (mouse_y d) 1 1 (d_color d)) (rect (mouse_x d') (mouse_y d') 1 1 White)) fb'.
Proof using.
  intros Hh Hp Hl Hdx Hdy. cbv zeta.
  assert (Et : forall px py, topmost (Z.to_nat (window_count d)) d px py =
                 Ok (List.find (fun g => ContainsPoint (bounds g) px py) (reverse gs))).
  { intros a b. rewrite (topmost_ok d gs) by (done || rewrite (ho_count d gs Hh); lia).
    by rewrite (ho_count d gs Hh), Nat2Z.id, firstn_all. }
  split; [unfold OnMouseDown; by rewrite Et|]. split; [unfold OnMouseUp; by rewrite Et|]. split; [|split].
  - unfold OnKeyPress. rewrite (ho_count d gs Hh), last_lookup. destruct gs as [|g0 gs0]; [done|].
    set (gs := g0 :: gs0) in *. replace (Z.of_nat (length gs) >? 0) with true by (cbn; by rewrite Z.gtb_ltb).
    destruct (lookup_lt_is_Some_2 gs (pred (length gs))) as [g Hg]; [cbn; lia|]. rewrite Hg.
    replace (Z.of_nat (length gs) - 1) with (Z.of_nat (pred (length gs))) by (cbn; lia).
    by rewrite (follow_window d gs _ g Hh Hg).
  - intros g. by apply AddWindow_ok.
  - destruct (OnMouseMove_ok d fb dx dy buttons Hp Hl Hdx Hdy) as (d' & fb' & E & Hp' & Ex & Ey & _ & Ew & Ec & D).
    exists d', fb'. split; [done|]. split; [done|]. split; [|done]. destruct Hh. split; congruence || done || (rewrite Ew; done).
Qed.
End desktop_proofs.

(** Two overlapping windows that log the keys and presses they get. *)
#[global] Instance logging_widget : WidgetOps Widget (list (Widget * Z)) := {
  bounds r := r;
  draw _ _ fb := Ok fb;
  mouse_down r _ _ b s := Ok ((r, b) :: s);
  mouse_up r _ _ b s := Ok ((r, b) :: s);
  key_press r c s := Ok ((r, c) :: s);
}.

Definition back : Widget := mkWidget 0 0 100 100.
Definition front : Widget := mkWidget 50 50 100 100.
Definition two_windows : Desktop Widget :=
  mkDesktop 320 200 0 ([Some back; Some front] ++ replicate 14 None) 2 319 0 0.

Lemma desktop_events_witness :
  OnMouseDown two_windows 60 60 1 [] = Ok [(front, 1)] /\
  OnMouseUp two_windows 10 10 1 [] = Ok [(back, 1)] /\ OnKeyPress two_windows 65 [] = Ok [(front, 65)].
Proof.
  assert (Hh : holds two_windows [back; front]).
  { split; [done | done | cbn; lia |]. intros i g. destruct i as [|[|i]]; cbn; [congruence.. | done]. }
  assert (Hp : pointer_ok two_windows).
  { split; cbn; [lia.. |]. zify_words. lia. }
  assert (Hl : 64000 <= Z.of_nat (length (replicate (Z.to_nat 64000) 0))) by (rewrite length_replicate; lia).
  destruct (desktop_events two_windows [back; front] (replicate (Z.to_nat 64000) 0) [] 60 60 1 65 5 5 0 Hh Hp Hl
              ltac:(lia) ltac:(lia)) as (E1 & _ & E3 & _).
  destruct (desktop_events two_windows [back; front] (replicate (Z.to_nat 64000) 0) [] 10 10 1 65 5 5 0 Hh Hp Hl
              ltac:(lia) ltac:(lia)) as (_ & E2 & _).
  split; [exact E1|]. split; [exact E2 | exact E3].
Defined.

End Gui.
