(* ===== verification/Input.v ===== *)
(** Keyboard and mouse drivers: src/src/drivers/keyboard.{h,cpp} and mouse.{h,cpp}.

    Scan codes become characters for the top window or the keyboard buffer, triples of
    bytes become movements of the pointer.  The composition with the desktop, the
    terminal and the keyboard buffer is proved here. *)

From stdpp Require Import base numbers list gmap.
From Stdlib Require Import ZArith Lia.
From S2P Require Import Prelude Pmm Paging Scheduler KeyboardBuffer Console Vga Ports Graphics Terminal Gui.

Module Input.
Import Ports Graphics Terminal Gui.

(** ** The keyboard *)

Definition normal_table : list Z := [
  0; 0; 49; 50; 51; 52; 53; 54;
  55; 56; 57; 48; 45; 61; 8; 9;
  113; 119; 101; 114; 116; 121; 117; 105;
  111; 112; 91; 93; 10; 0; 97; 115;
  100; 102; 103; 104; 106; 107; 108; 59;
  39; 96; 0; 92; 122; 120; 99; 118;
  98; 110; 109; 44; 46; 47; 0; 42;
  0; 32; 0; 0; 0; 0; 0; 0;
  0; 0; 0; 0; 0; 0; 0; 0;
  0; 0; 0; 0; 0; 0; 0; 0;
  0; 0; 0; 0; 0; 0; 0; 0].

Definition shifted_table : list Z := [
  0; 0; 33; 64; 35; 36; 37; 94;
  38; 42; 40; 41; 95; 43; 8; 9;
  81; 87; 69; 82; 84; 89; 85; 73;
  79; 80; 123; 125; 10; 0; 65; 83;
  68; 70; 71; 72; 74; 75; 76; 58;
  34; 126; 0; 124; 90; 88; 67; 86;
  66; 78; 77; 60; 62; 63; 0; 42;
  0; 32; 0; 0; 0; 0; 0; 0;
  0; 0; 0; 0; 0; 0; 0; 0;
  0; 0; 0; 0; 0; 0; 0; 0;
  0; 0; 0; 0; 0; 0; 0; 0].

Record KeyboardDriver := mkKeyboard { shift : bool; ctrl : bool; caps_lock : bool }.

Definition KeyboardDriver_new : KeyboardDriver := mkKeyboard false false false.

Definition is_letter (c : Z) : bool := ((97 <=? c) && (c <=? 122)) || ((65 <=? c) && (c <=? 90)).

(** The new modifiers and the character, if the code gives one: the part of
    [HandleInterrupt] before the character is delivered. *)
Definition decode (k : KeyboardDriver) (scancode : Z) : result (KeyboardDriver * option Z) :=
  if scancode =? 0x9D then Ok (mkKeyboard (shift k) false (caps_lock k), None)
  else if (scancode =? 0xAA) || (scancode =? 0xB6) then Ok (mkKeyboard false (ctrl k) (caps_lock k), None)
  else if scancode =? 0x1D then Ok (mkKeyboard (shift k) true (caps_lock k), None)
  else if (scancode =? 0x2A) || (scancode =? 0x36) then Ok (mkKeyboard true (ctrl k) (caps_lock k), None)
  else if scancode =? 0x3A then Ok (mkKeyboard (shift k) (ctrl k) (negb (caps_lock k)), None)
  else if negb (Z.land scancode 0x80 =? 0) then Ok (k, None)
  else
    let upper := xorb (shift k) (caps_lock k) in
    let table := if upper then shifted_table else normal_table in
    if scancode >=? 88 then Ok (k, None)
    else
      c ← arr_get table scancode;
      if c =? 0 then Ok (k, None)
      else Ok (k, Some (if ctrl k && is_letter c then Z.land c 0x1F else c)).

Section drivers.
Context {S : Type} `{FA : FrameAllocator S}.

(** The terminal is a window of the desktop; it has no widgets, so mouse events do
    nothing. *)
#[global] Instance terminal_window : WidgetOps Widget (tty S) := {
  bounds r := r;
  draw _ s fb := Draw (term s) fb;
  mouse_down _ _ _ _ s := Ok s;
  mouse_up _ _ _ _ s := Ok s;
  key_press _ c s := Terminal.OnKeyPress s c;
}.

(** What the handlers can change. *)
Record world := mkWorld {
  text_screen : Vga.vga;
  desktop : option (Desktop Widget);
  console : tty S;
}.

Definition deliver_char (c : Z) (u : world) : result world :=
  match (if Vga.IsGraphicsMode (text_screen u) then desktop u else None) with
  | Some d => s ← Gui.OnKeyPress d c (console u); Ok (mkWorld (text_screen u) (desktop u) s)
  | None =>
      let s := console u in
      k ← KeyboardBuffer.Enqueue (keys s) c;
      ws ← KeyboardBuffer.WakeWaiters (waiters s);
      v ← (if Vga.IsGraphicsMode (text_screen u) then Ok (text_screen u) else Vga.PutChar (text_screen u) c);
      Ok (mkWorld v (desktop u) (mkTty (term s) (screen s) k ws))
  end.

(** [scancode] is what the data port returns. *)
Definition Keyboard_HandleInterrupt (k : KeyboardDriver) (scancode : Z) (u : world)
    : result (KeyboardDriver * world) :=
  '(k, c) ← decode k scancode;
  match c with
  | None => Ok (k, u)
  | Some c => u ← deliver_char c u; Ok (k, u)
  end.

(** ** The mouse *)

Record MouseDriver := mkMouse { m_buffer : list Z; m_offset : Z }.

(** [status] and [data] are what the command and the data port return. *)
Definition Mouse_HandleInterrupt (m : MouseDriver) (status data : Z) (u : world)
    : result (MouseDriver * world) :=
  if Z.land status 0x20 =? 0 then Ok (m, u)
  else
    b ← arr_set (m_buffer m) (m_offset m) data;
    let off := u8 (m_offset m + 1) in
    if negb (off =? 3) then Ok (mkMouse b off, u)
    else
      b1 ← arr_get b 1;
      b2 ← arr_get b 2;
      b0 ← arr_get b 0;
      match desktop u with
      | Some d =>
          let s := console u in
          '(d, fb) ← OnMouseMove d (screen s) (i8 b1) (i8 b2) (Z.land b0 0x07);
          Ok (mkMouse b 0, mkWorld (text_screen u) (Some d) (mkTty (term s) fb (keys s) (waiters s)))
      | None => Ok (mkMouse b 0, u)
      end.
End drivers.
Arguments world : clear implicits.

Section setup.
Context {D : Type} `{PortIO D}.

(** [while (command_port.Read() & 0x02);] *)
Fixpoint WaitWrite (fuel : nat) (d : D) : result D :=
  match fuel with
  | O => Err OutOfFuel
  | Datatypes.S fuel =>
      let '(v, d) := Port8Bit_Read 0x64 d in
      if Z.land v 0x02 =? 0 then Ok d else WaitWrite fuel d
  end.

Fixpoint WaitRead (fuel : nat) (d : D) : result D :=
  match fuel with
  | O => Err OutOfFuel
  | Datatypes.S fuel =>
      let '(v, d) := Port8Bit_Read 0x64 d in
      if Z.land v 0x01 =? 0 then WaitRead fuel d else Ok d
  end.

(** The body of the constructor; the buffer keeps the bytes [junk]. *)
Definition MouseDriver_new (fuel : nat) (junk : list Z) (d : D) : result (MouseDriver * D) :=
  d ← WaitWrite fuel d;
  let d := Port8Bit_Write 0x64 0xA8 d in
  d ← WaitWrite fuel d;
  let d := Port8Bit_Write 0x64 0x20 d in
  d ← WaitRead fuel d;
  let '(v, d) := Port8Bit_Read 0x60 d in
  let status := Z.lor v 0x02 in
  d ← WaitWrite fuel d;
  let d := Port8Bit_Write 0x64 0x60 d in
  d ← WaitWrite fuel d;
  let d := Port8Bit_Write 0x60 status d in
  d ← WaitWrite fuel d;
  let d := Port8Bit_Write 0x64 0xD4 d in
  d ← WaitWrite fuel d;
  let d := Port8Bit_Write 0x60 0xF4 d in
  d ← WaitRead fuel d;
  let '(_, d) := Port8Bit_Read 0x60 d in
  Ok (mkMouse junk 0, d).
End setup.

(** ** Typing *)

(** The characters a sequence of scan codes gives. *)
Fixpoint decode_all (k : KeyboardDriver) (codes : list Z) : result (KeyboardDriver * list Z) :=
  match codes with
  | [] => Ok (k, [])
  | sc :: codes =>
      '(k, c) ← decode k sc;
      '(k, cs) ← decode_all k codes;
      Ok (k, match c with Some c => c :: cs | None => cs end)
  end.

(** The codes sent when a key is pressed and released, with the left shift key held
    where the character needs it. *)
Definition keystroke (c : Z) : list Z :=
  match list_find (fun x => x = c) normal_table with
  | Some (i, _) => [Z.of_nat i; Z.of_nat i + 0x80]
  | None =>
      match list_find (fun x => x = c) shifted_table with
      | Some (i, _) => [0x2A; Z.of_nat i; Z.of_nat i + 0x80; 0xAA]
      | None => []
      end
  end.

Definition printable (c : Z) : Prop := 32 <= c <= 126.

Lemma keystroke_decodes c :
  printable c \/ c = 10 -> decode_all KeyboardDriver_new (keystroke c) = Ok (KeyboardDriver_new, [c]).
Proof.
  intros Hc.
  assert (H : forallb (fun c => match decode_all KeyboardDriver_new (keystroke c) with
                | Ok (mkKeyboard false false false, [x]) => x =? c | _ => false end) (10 :: seqZ 32 95) = true)
    by (vm_compute; reflexivity).
  rewrite forallb_forall in H. specialize (H c).
  destruct (decode_all KeyboardDriver_new (keystroke c)) as [[[[] [] []] [|x [|]]]|].
  all: try (discriminate H; apply list_elem_of_In, elem_of_cons; unfold printable in Hc;
            destruct Hc as [Hc| ->]; [right; apply elem_of_seqZ; lia | by left]).
  do 3 f_equal. apply Z.eqb_eq, H. apply list_elem_of_In, elem_of_cons. unfold printable in Hc.
  destruct Hc as [Hc| ->]; [right; apply elem_of_seqZ; lia | by left].
Qed.

Lemma decode_all_app k l1 l2 :
  decode_all k (l1 ++ l2) =
  ('(k, c1) ← decode_all k l1; '(k, c2) ← decode_all k l2; Ok (k, c1 ++ c2)).
Proof.
  revert k. induction l1 as [|sc l1 IH]; intros k; cbn [app decode_all].
  - rewrite result_bind_Ok. by destruct (decode_all k l2) as [[? ?]|].
  - destruct (decode k sc) as [[k1 c]|]; [|done]. rewrite !result_bind_Ok, IH.
    destruct (decode_all k1 l1) as [[k2 cs]|]; [|done]. rewrite !result_bind_Ok.
    destruct (decode_all k2 l2) as [[k3 ds]|]; [|done]. rewrite !result_bind_Ok. by destruct c.
Qed.

Lemma text_decodes text :
  Forall (fun c => printable c \/ c = 10) text ->
  decode_all KeyboardDriver_new (concat (keystroke <$> text)) = Ok (KeyboardDriver_new, text).
Proof.
  induction 1 as [|c text Hc Ht IH]; [done|]. cbn [fmap list_fmap concat].
  rewrite decode_all_app, keystroke_decodes, result_bind_Ok, IH, result_bind_Ok by done. done.
Qed.

Section typing.
Context {S : Type} `{FA : FrameAllocator S}.
Implicit Types (u : world S) (e : session).

Definition keyboard_run (codes : list Z) (st : KeyboardDriver * world S) : result (KeyboardDriver * world S) :=
  fold_result (fun sc st => Keyboard_HandleInterrupt (fst st) sc (snd st)) codes st.

Lemma keyboard_run_decoded codes k k' cs u :
  decode_all k codes = Ok (k', cs) ->
  keyboard_run codes (k, u) = (u ← fold_result deliver_char cs u; Ok (k', u)).
Proof using.
  revert k k' cs u. induction codes as [|sc codes IH]; intros k k' cs u Hd; cbn [decode_all] in Hd.
  - inv_pairs. done.
  - destruct (decode k sc) as [[k1 c]|] eqn:Ed; [|done]. rewrite result_bind_Ok in Hd.
    destruct (decode_all k1 codes) as [[k2 ds]|] eqn:Er; [|done]. rewrite result_bind_Ok in Hd.
    injection Hd as <- <-. unfold keyboard_run in *. cbn [fold_result fst snd].
    unfold Keyboard_HandleInterrupt. rewrite Ed, result_bind_Ok. destruct c as [c|].
    + cbn [fold_result]. destruct (deliver_char c u) as [u1|]; [|done]. rewrite !result_bind_Ok. by apply IH.
    + rewrite result_bind_Ok. by apply IH.
Qed.

(** The terminal is the top window of the active desktop. *)
Record terminal_on_top u : Prop := {
  tt_mode : Vga.graphics_mode (text_screen u) = true;
  tt_top : exists d gs g, desktop u = Some d /\ holds d gs /\ last gs = Some g;
}.

Lemma deliver_to_terminal u c :
  terminal_on_top u ->
  deliver_char c u =
  (s ← Terminal.OnKeyPress (console u) c; Ok (mkWorld (text_screen u) (desktop u) s)).
Proof using.
  intros [Hm (d & gs & g & Ed & Hh & Hg)]. unfold deliver_char, Vga.IsGraphicsMode. rewrite Hm, Ed.
  unfold Gui.OnKeyPress. rewrite (ho_count d gs Hh). rewrite last_lookup in Hg.
  assert (Hl : (0 < length gs)%nat) by (apply lookup_lt_Some in Hg; lia).
  rewrite Z.gtb_ltb, (proj2 (Z.ltb_lt 0 (Z.of_nat (length gs)))) by lia.
  replace (Z.of_nat (length gs) - 1) with (Z.of_nat (pred (length gs))) by lia.
  by rewrite (follow_window d gs _ g Hh Hg), result_bind_Ok.
Qed.

Lemma deliver_all u e text :
  terminal_on_top u -> serves (console u) e -> Forall is_u8 text -> fits e text ->
  exists s, fold_result deliver_char text u = Ok (mkWorld (text_screen u) (desktop u) s) /\
    serves s (foldl spec_key e text).
Proof using.
  revert u e. induction text as [|c text IH]; intros u e Ht Hs H8 Hf.
  - exists (console u). by destruct u.
  - apply Forall_cons in H8 as [Hc H8]. destruct Hf as [Hfc Hf]. cbn [fold_result foldl].
    destruct (Terminal.key_press (console u) e c Hs Hc Hfc) as (s1 & E & H1).
    rewrite deliver_to_terminal, E, !result_bind_Ok by done.
    destruct (IH (mkWorld (text_screen u) (desktop u) s1) (spec_key e c)) as (s2 & E2 & H2);
      [by destruct Ht | done | done | done|].
    exists s2. by split.
Qed.
End typing.

(** What the session says of a typed text. *)
Lemma spec_text e text :
  Forall printable text -> Z.of_nat (length (typed e) + length text) <= 255 ->
  fits e text /\ typed (foldl spec_key e text) = typed e ++ text /\
  delivered (foldl spec_key e text) = delivered e /\ readers (foldl spec_key e text) = readers e.
Proof.
  intros Ht. revert e. induction Ht as [|c text Hc Ht IH]; intros e Hl.
  - cbn. by rewrite app_nil_r.
  - cbn [length] in Hl. unfold printable in Hc. cbn [fits foldl].
    assert (Es : spec_key e c = mkSes (typed e ++ [c]) (delivered e)
                   (Console.strike 40 23 blank_cell (Console.Glyph (c, COL_TEXT)) (echo e)) (readers e)).
    { unfold spec_key. rewrite (proj2 (Z.eqb_neq c 8)), (proj2 (Z.eqb_neq c 10)) by lia.
      rewrite (proj2 (Z.leb_le 32 c)), (proj2 (Z.ltb_lt c 128)) by lia.
      by rewrite (proj2 (Z.ltb_lt (Z.of_nat (length (typed e))) 255)) by lia. }
    rewrite Es. destruct (IH (mkSes (typed e ++ [c]) (delivered e)
                   (Console.strike 40 23 blank_cell (Console.Glyph (c, COL_TEXT)) (echo e)) (readers e)))
      as (Hf & E1 & E2 & E3); [cbn [typed]; rewrite length_app; cbn; lia|].
    split; [split; [lia | done]|]. rewrite E1, E2, E3. cbn [typed delivered readers]. by rewrite <- app_assoc.
Qed.

Lemma deliver_room q l : (length q + length l <= 255)%nat -> foldl deliver q l = q ++ l.
Proof.
  revert q. induction l as [|c l IH]; intros q Hl; cbn [foldl]; [by rewrite app_nil_r|].
  cbn [length] in Hl. unfold deliver at 2. cbn [KeyboardBuffer.spec_step snd].
  rewrite decide_True by (unfold KeyboardBuffer.capacity; lia).
  rewrite IH by (rewrite length_app; cbn; lia). by rewrite <- app_assoc.
Qed.

Lemma fits_app e l1 l2 : fits e (l1 ++ l2) <-> fits e l1 /\ fits (foldl spec_key e l1) l2.
Proof.
  revert e. induction l1 as [|c l1 IH]; intros e; cbn [app fits foldl]; [tauto|]. rewrite IH. tauto.
Qed.

(** A line typed at the keyboard reaches the buffer. *)
Lemma typed_line {S} `{FA : FrameAllocator S} (u : world S) e text :
  terminal_on_top u -> serves (console u) e -> typed e = [] -> Forall printable text ->
  (length (delivered e) + length text < 255)%nat ->
  exists u', keyboard_run (concat (keystroke <$> (text ++ [10]))) (KeyboardDriver_new, u) =
      Ok (KeyboardDriver_new, u') /\
    exists e', serves (console u') e' /\ typed e' = [] /\ delivered e' = delivered e ++ text ++ [10] /\
      readers e' = (wake_readers <$> readers e) /\ terminal_on_top u'.
Proof.
  intros Ht Hs Et Hp Hl.
  destruct (spec_text e text Hp) as (Hf & E1 & E2 & E3); [rewrite Et; cbn; lia|].
  destruct (deliver_all u e (text ++ [10]) Ht Hs) as (s & E & Hs').
  - apply Forall_app. split; [|apply Forall_singleton; zify_words; lia].
    eapply Forall_impl; [exact Hp|]. unfold printable. intros c Hc. zify_words. lia.
  - apply fits_app. split; [done|]. cbn. split; [|done]. intros _. rewrite E1, Et. cbn. lia.
  - exists (mkWorld (text_screen u) (desktop u) s). split.
    + erewrite keyboard_run_decoded.
      2:{ apply text_decodes. apply Forall_app. split; [|by apply Forall_singleton; right].
          eapply Forall_impl; [exact Hp|]. by left. }
      by rewrite E, result_bind_Ok.
    + eexists. split; [exact Hs'|]. rewrite foldl_app. cbn [foldl]. unfold spec_key at 1 3 5. cbn [Z.eqb Pos.eqb].
      cbn [typed delivered readers]. split; [done|]. rewrite E1, E2, E3, Et. cbn [app].
      split; [apply deliver_room; rewrite length_app; cbn; lia|]. split; [done|]. by destruct Ht.
Qed.

Lemma decode_total k sc : is_u8 sc -> exists k' c, decode k sc = Ok (k', c).
Proof.
  intros Hsc. unfold decode. cbv zeta.
  do 6 (match goal with |- context [if ?b then Ok _ else _] => destruct b; [by eexists _, _|] end).
  rewrite Z.geb_leb. destruct (Z.leb_spec 88 sc); [by eexists _, _|].
  set (table := if xorb (shift k) (caps_lock k) then shifted_table else normal_table).
  assert (Hl : length table = 88%nat) by (unfold table; by destruct (xorb _ _)).
  destruct (arr_get_in_range table sc) as [c Ec]; [zify_words; lia|]. rewrite Ec, result_bind_Ok.
  destruct (c =? 0); by eexists _, _.
Qed.

(** A typed line reaches the program's input.  With the graphical desktop active and
    the terminal on top, the scan codes of any line of printable characters and of the
    enter key put exactly these characters in the keyboard buffer, behind what was there,
    make the processes waiting for input ready and leave the terminal with an empty line;
    every printable character of ASCII can be typed, and no scan code makes the driver
    read outside its tables. *)
Theorem typed_line_delivered {S} `{FA : FrameAllocator S} (u : world S) e text :
  terminal_on_top u -> serves (console u) e -> typed e = [] -> Forall printable text ->
  (length (delivered e) + length text < 255)%nat ->
  (exists u', keyboard_run (concat (keystroke <$> (text ++ [10]))) (KeyboardDriver_new, u) =
      Ok (KeyboardDriver_new, u') /\
    KeyboardBuffer.queue_of (keys (console u')) (delivered e ++ text ++ [10]) /\
    waiters_are (waiters (console u')) (wake_readers <$> readers e) /\
    input_len (term (console u')) = 0) /\
  (forall k sc, is_u8 sc -> exists k' c, decode k sc = Ok (k', c)).
Proof.
  intros Ht Hs Et Hp Hl. split; [|exact decode_total].
  destruct (typed_line u e text Ht Hs Et Hp Hl) as (u' & E & e' & Hs' & E1 & E2 & E3 & _).
  exists u'. split; [exact E|]. rewrite <- E2, <- E3. split; [apply Hs'|]. split; [apply Hs'|].
  by rewrite (sv_len _ _ Hs'), E1.
Qed.

Definition sample_world : world Pmm.state :=
  mkWorld (Vga.mkVga [] 0 15 true)
    (Some (mkDesktop 320 200 0 (Some (mkWidget 0 0 320 200) :: replicate 15 None) 1 160 100 0))
    (sample_tty []).

Lemma sample_world_top : terminal_on_top sample_world.
Proof.
  split; [done|]. eexists _, [mkWidget 0 0 320 200], _. split; [reflexivity|]. split; [|done].
  split; [done | done | cbn; lia |]. intros i g. destruct i as [|i]; cbn; [congruence | done].
Qed.

Lemma typed_line_delivered_witness :
  exists u', keyboard_run (concat (keystroke <$> ([76; 115; 32; 47; 126] ++ [10]))) (KeyboardDriver_new, sample_world) =
      Ok (KeyboardDriver_new, u') /\
    KeyboardBuffer.queue_of (keys (console u')) [76; 115; 32; 47; 126; 10].
Proof.
  destruct (typed_line_delivered sample_world (sample_session []) [76; 115; 32; 47; 126]) as [(u' & E & Hq & _) _].
  - exact sample_world_top.
  - apply sample_serves. cbn. lia.
  - reflexivity.
  - repeat (apply Forall_cons; split; [unfold printable; lia|]). apply Forall_nil. exact I.
  - cbn. lia.
  - exists u'. split; [exact E | exact Hq].
Defined.

(** ** Mouse packets *)

Definition mouse_run {S} (bytes : list Z) (st : MouseDriver * world S) : result (MouseDriver * world S) :=
  fold_result (fun b st => Mouse_HandleInterrupt (fst st) 0x20 b (snd st)) bytes st.

(** The bytes of the mouse are read in threes.  From the start of a packet three
    interrupts store inside the three-byte buffer and move the pointer once, by the
    second and third byte as signed numbers, with the pointer kept on the screen; then
    the driver is at the start of a packet again.  An interrupt without mouse data in
    the controller changes nothing. *)
Theorem mouse_packet {S} `{FA : FrameAllocator S} (u : world S) d buf b0 b1 b2 :
  desktop u = Some d -> pointer_ok d -> length buf = 3%nat ->
  64000 <= Z.of_nat (length (screen (console u))) -> is_u8 b0 -> is_u8 b1 -> is_u8 b2 ->
  (exists u' d', mouse_run [b0; b1; b2] (mkMouse buf 0, u) = Ok (mkMouse [b0; b1; b2] 0, u') /\
    desktop u' = Some d' /\ pointer_ok d' /\ windows d' = windows d /\
    mouse_x d' = clamp (d_w d) (mouse_x d + i8 b1) /\ mouse_y d' = clamp (d_h d) (mouse_y d - i8 b2) /\
    mouse_buttons d' = Z.land b0 7 /\ term (console u') = term (console u)) /\
  (forall m st b, Z.land st 0x20 = 0 -> Mouse_HandleInterrupt m st b u = Ok (m, u)).
Proof.
  intros Ed Hp Hb Hl H0 H1 H2. split.
  - destruct buf as [|x0 [|x1 [|x2 [|]]]]; try discriminate Hb.
    assert (Hi : forall b, -128 <= i8 b < 128) by (intros b; unfold i8; zify_words; Z.div_mod_to_equations; lia).
    destruct (OnMouseMove_ok d (screen (console u)) (i8 b1) (i8 b2) (Z.land b0 7) Hp Hl (Hi b1) (Hi b2))
      as (d' & fb' & E & Hp' & Ex & Ey & Eb & Ew & _).
    unfold mouse_run. cbn [fold_result fst snd]. unfold Mouse_HandleInterrupt at 3.
    change (Z.land 0x20 0x20 =? 0) with false. cbn [m_buffer m_offset].
    change (arr_set [x0; x1; x2] 0 b0) with (Ok [b0; x1; x2]). rewrite result_bind_Ok. cbv zeta.
    change (negb (u8 (0 + 1) =? 3)) with true. cbn iota. rewrite result_bind_Ok. cbn [fst snd].
    unfold Mouse_HandleInterrupt at 2. change (Z.land 0x20 0x20 =? 0) with false. cbn [m_buffer m_offset].
    change (arr_set [b0; x1; x2] (u8 (0 + 1)) b1) with (Ok [b0; b1; x2]). rewrite result_bind_Ok. cbv zeta.
    change (negb (u8 (u8 (0 + 1) + 1) =? 3)) with true. cbn iota. rewrite result_bind_Ok. cbn [fst snd].
    unfold Mouse_HandleInterrupt. change (Z.land 0x20 0x20 =? 0) with false. cbn [m_buffer m_offset].
    change (arr_set [b0; b1; x2] (u8 (u8 (0 + 1) + 1)) b2) with (Ok [b0; b1; b2]). rewrite result_bind_Ok. cbv zeta.
    change (negb (u8 (u8 (u8 (0 + 1) + 1) + 1) =? 3)) with false. cbn iota.
    change (arr_get [b0; b1; b2] 1) with (Ok b1). rewrite result_bind_Ok.
    change (arr_get [b0; b1; b2] 2) with (Ok b2). rewrite result_bind_Ok.
    change (arr_get [b0; b1; b2] 0) with (Ok b0). rewrite result_bind_Ok.
    rewrite Ed, E, !result_bind_Ok. eexists _, d'. split; [reflexivity|]. cbn [desktop console term]. done.
  - intros m st b Hst. unfold Mouse_HandleInterrupt. by rewrite Hst.
Qed.

Lemma mouse_packet_witness :
  exists u' d', mouse_run [0x09; 0xFB; 0x03] (mkMouse [1; 2; 3] 0, sample_world) = Ok (mkMouse [0x09; 0xFB; 0x03] 0, u') /\
    desktop u' = Some d' /\ mouse_x d' = 155 /\ mouse_y d' = 97.
Proof.
  edestruct (mouse_packet sample_world _ [1; 2; 3] 0x09 0xFB 0x03 eq_refl) as [(u' & d' & E & Ed & _ & _ & Ex & Ey & _) _].
  - split; cbn; [lia.. |]. zify_words. lia.
  - reflexivity.
  - cbn [console sample_world screen sample_tty]. rewrite length_replicate. lia.
  - zify_words. lia.
  - zify_words. lia.
  - zify_words. lia.
  - exists u', d'. split; [exact E|]. split; [exact Ed|]. split; [exact Ex | exact Ey].
Defined.

End Input.
