(* ===== verification/Ps2.v ===== *)
(** The keyboard controller: what the constructor of src/src/drivers/mouse.cpp talks to.

    [ps2] is the controller with the mouse behind it, from its documented behaviour: a
    status register with the two buffer bits, a configuration byte, an output buffer and
    the byte a command waits for.  It may stay busy for some reads of the status after
    each byte it is sent, which is what the waiting loops of the driver are for. *)

From stdpp Require Import base numbers list.
From Stdlib Require Import ZArith Lia.
From S2P Require Import Prelude Ports Input.

Module Ps2.
Import Ports Input.

(** Where the next byte written to the data port goes. *)
Inductive destination := ToKeyboard | ToConfig | ToMouse.

Record ps2 := mkPs2 {
  config : Z;
  output : list Z;             (** bytes waiting to be read *)
  next : destination;
  mouse_port : bool;           (** the second port is enabled *)
  reporting : bool;            (** the mouse sends packets *)
  busy : nat;                  (** status reads until the last byte is taken *)
  latency : nat;
}.

Definition ack : Z := 0xFA.

Definition status (c : ps2) : Z :=
  match busy c with
  | O => match output c with [] => 0 | _ => 1 end
  | S _ => 2
  end.

Definition ps2_in (p : Z) (c : ps2) : Z * ps2 :=
  if p =? 0x64 then
    (status c, mkPs2 (config c) (output c) (next c) (mouse_port c) (reporting c) (pred (busy c)) (latency c))
  else if p =? 0x60 then
    (default 0 (head (output c)),
     mkPs2 (config c) (tail (output c)) (next c) (mouse_port c) (reporting c) (busy c) (latency c))
  else (0, c).

Definition ps2_out (p v : Z) (c : ps2) : ps2 :=
  let take cfg out nx port rep := mkPs2 cfg out nx port rep (latency c) (latency c) in
  if p =? 0x64 then
    if v =? 0xA8 then take (Z.land (config c) 0xDF) (output c) (next c) true (reporting c)
    else if v =? 0x20 then take (config c) (output c ++ [config c]) (next c) (mouse_port c) (reporting c)
    else if v =? 0x60 then take (config c) (output c) ToConfig (mouse_port c) (reporting c)
    else if v =? 0xD4 then take (config c) (output c) ToMouse (mouse_port c) (reporting c)
    else take (config c) (output c) (next c) (mouse_port c) (reporting c)
  else if p =? 0x60 then
    match next c with
    | ToConfig => take v (output c) ToKeyboard (mouse_port c) (reporting c)
    | ToMouse => take (config c) (output c ++ [ack]) ToKeyboard (mouse_port c) (reporting c || (v =? 0xF4))
    | ToKeyboard => take (config c) (output c ++ [ack]) ToKeyboard (mouse_port c) (reporting c)
    end
  else c.

#[export] Instance ps2_ports : PortIO ps2 := {
  inp _ p c := ps2_in p c;
  outp _ p v c := ps2_out p v c;
}.

Definition ps2_range (p : Z) : Prop := p = 0x60 \/ p = 0x64.

#[export] Instance ps2_self : Attached ps2 ps2 ps2_range.
Proof.
  refine {| view c := c |}; [done | done |].
  intros n p v c Hp. unfold ps2_range in Hp. cbn. unfold ps2_out, ps2_in. cbv zeta. split; case_tests.
Defined.

Lemma config_u8 x : is_u8 x -> is_u8 (Z.land x 0xDF) /\ is_u8 (Z.lor (Z.land x 0xDF) 0x02).
Proof.
  intros Hx. assert (Hb : forall i, 8 <= i -> Z.testbit (Z.land x 0xDF) i = false).
  { intros i Hi. rewrite Z.land_spec, (testbit_above x 8) by (done || lia). done. }
  assert (H0 : 0 <= Z.land x 0xDF) by (apply Z.land_nonneg; left; apply Hx).
  split; (split; [try apply Z.lor_nonneg; lia | apply bits_below_lt; [lia | try apply Z.lor_nonneg; lia |]]); [done|].
  intros i Hi. rewrite Z.lor_spec, Hb, (testbit_above 2 8) by (zify_words; lia). done.
Qed.

(** ** The driver on the controller *)

Section driver.
Context {D : Type} `{PortIO D} `{!Attached D ps2 ps2_range}.
Implicit Types (d : D).

Definition idle (c : ps2) : ps2 :=
  mkPs2 (config c) (output c) (next c) (mouse_port c) (reporting c) 0 (latency c).

Lemma read_status d : exists d', Port8Bit_Read 0x64 d = (status (view d), d') /\
  view d' = mkPs2 (config (view d)) (output (view d)) (next (view d)) (mouse_port (view d))
              (reporting (view d)) (pred (busy (view d))) (latency (view d)).
Proof.
  destruct (read8 0x64 d (status (view d)) (mkPs2 (config (view d)) (output (view d)) (next (view d))
    (mouse_port (view d)) (reporting (view d)) (pred (busy (view d))) (latency (view d)))) as (d' & E & V);
    [by right | done |]. exists d'. split; [|exact V]. rewrite E. f_equal. apply u8_small. unfold status.
  destruct (busy _); [destruct (output _)|]; zify_words; lia.
Qed.

Lemma WaitWrite_ok fuel d :
  (busy (view d) < fuel)%nat -> exists d', WaitWrite fuel d = Ok d' /\ view d' = idle (view d).
Proof.
  revert d. induction fuel as [|fuel IH]; intros d Hb; [lia|]. cbn [WaitWrite].
  destruct (read_status d) as (d1 & -> & V1). unfold status. destruct (busy (view d)) as [|n] eqn:Eb.
  - exists d1. split; [by destruct (output (view d))|]. by rewrite V1.
  - change (Z.land 2 2 =? 0) with false. cbn iota. destruct (IH d1) as (d2 & E & V2); [rewrite V1; cbn; lia|].
    exists d2. split; [done|]. rewrite V2, V1. done.
Qed.

Lemma WaitRead_ok fuel d :
  (busy (view d) < fuel)%nat -> output (view d) <> [] ->
  exists d', WaitRead fuel d = Ok d' /\ view d' = idle (view d).
Proof.
  revert d. induction fuel as [|fuel IH]; intros d Hb Ho; [lia|]. cbn [WaitRead].
  destruct (read_status d) as (d1 & -> & V1). unfold status. destruct (busy (view d)) as [|n] eqn:Eb.
  - exists d1. split; [by destruct (output (view d))|]. by rewrite V1.
  - change (Z.land 2 1 =? 0) with true. cbn iota. destruct (IH d1) as (d2 & E & V2); [rewrite V1; cbn; lia | by rewrite V1 |].
    exists d2. split; [done|]. rewrite V2, V1. done.
Qed.

(** Wait, then write: the controller is idle when the byte arrives. *)
Lemma send fuel p v d :
  ps2_range p -> is_u8 v -> (busy (view d) < fuel)%nat ->
  exists d', WaitWrite fuel d = Ok d' /\ view (Port8Bit_Write p v d') = ps2_out p v (idle (view d)).
Proof.
  intros Hp Hv Hb. destruct (WaitWrite_ok fuel d Hb) as (d' & E & V). exists d'. split; [done|].
  rewrite write8 by done. rewrite V. unfold Port8Bit_Write. by rewrite u8_small.
Qed.

(** Wait, then read the only byte of the output buffer. *)
Lemma receive fuel x d :
  is_u8 x -> (busy (view d) < fuel)%nat -> output (view d) = [x] ->
  exists d' d'', WaitRead fuel d = Ok d' /\ Port8Bit_Read 0x60 d' = (x, d'') /\
    view d'' = mkPs2 (config (view d)) [] (next (view d)) (mouse_port (view d)) (reporting (view d)) 0 (latency (view d)).
Proof.
  intros Hx Hb Ho. destruct (WaitRead_ok fuel d Hb) as (d' & E & V); [by rewrite Ho|]. exists d'.
  destruct (read8 0x60 d' x (mkPs2 (config (view d)) [] (next (view d)) (mouse_port (view d)) (reporting (view d)) 0
    (latency (view d)))) as (d'' & E2 & V2).
  - by left.
  - rewrite V. cbn. by rewrite Ho.
  - exists d''. split; [done|]. split; [|done]. rewrite E2. f_equal. by apply u8_small.
Qed.

(** Setting up the mouse works.  On a controller with nothing in its output buffer
    that takes each byte within the bound of the waiting loops, the constructor of the
    mouse driver ends: the second port is enabled, its interrupt is switched on in the
    configuration (whose other bits keep their values, the disable bit of the port aside),
    the mouse reports its movements, and no byte is left in the buffer. *)
Theorem mouse_setup fuel junk d :
  let c := view d in
  is_u8 (config c) -> output c = [] -> next c = ToKeyboard -> (busy c < fuel)%nat -> (latency c < fuel)%nat ->
  exists d', MouseDriver_new fuel junk d = Ok (mkMouse junk 0, d') /\
    view d' = mkPs2 (Z.lor (Z.land (config c) 0xDF) 0x02) [] ToKeyboard true true 0 (latency c).
Proof.
  intros c Hc Ho Hn Hb Hl. unfold MouseDriver_new. subst c.
  destruct (config_u8 _ Hc) as [Hc1 Hc2].
  destruct (send fuel 0x64 0xA8 d) as (d1 & -> & V1); [by right | u32_lit | done |]. rewrite result_bind_Ok.
  set (e1 := Port8Bit_Write _ _ d1) in *. cbn in V1. rewrite Ho, Hn in V1.
  destruct (send fuel 0x64 0x20 e1) as (d2 & -> & V2); [by right | u32_lit | by rewrite V1 |]. rewrite result_bind_Ok.
  set (e2 := Port8Bit_Write _ _ d2) in *. rewrite V1 in V2. cbn in V2.
  destruct (receive fuel (Z.land (config (view d)) 0xDF) e2) as (d3 & e3 & -> & E3 & V3); [done | by rewrite V2 | by rewrite V2 |].
  rewrite result_bind_Ok, E3. rewrite V2 in V3. cbn in V3.
  destruct (send fuel 0x64 0x60 e3) as (d4 & -> & V4); [by right | u32_lit | rewrite V3; cbn; lia |]. rewrite result_bind_Ok.
  set (e4 := Port8Bit_Write _ _ d4) in *. rewrite V3 in V4. cbn in V4.
  destruct (send fuel 0x60 (Z.lor (Z.land (config (view d)) 0xDF) 0x02) e4) as (d5 & -> & V5);
    [by left | done | by rewrite V4 |]. rewrite result_bind_Ok.
  set (e5 := Port8Bit_Write _ _ d5) in *. rewrite V4 in V5. cbn in V5.
  destruct (send fuel 0x64 0xD4 e5) as (d6 & -> & V6); [by right | u32_lit | by rewrite V5 |]. rewrite result_bind_Ok.
  set (e6 := Port8Bit_Write _ _ d6) in *. rewrite V5 in V6. cbn in V6.
  destruct (send fuel 0x60 0xF4 e6) as (d7 & -> & V7); [by left | u32_lit | by rewrite V6 |]. rewrite result_bind_Ok.
  set (e7 := Port8Bit_Write _ _ d7) in *. rewrite V6 in V7. cbn in V7. rewrite orb_true_r in V7.
  destruct (receive fuel ack e7) as (d8 & e8 & -> & E8 & V8); [u32_lit | by rewrite V7 | by rewrite V7 |].
  rewrite result_bind_Ok, E8. exists e8. split; [done|]. rewrite V8, V7. done.
Qed.
End driver.

Lemma mouse_setup_witness :
  exists d', MouseDriver_new 4 [7; 7; 7] (mkPs2 0x61 [] ToKeyboard false false 0 3) = Ok (mkMouse [7; 7; 7] 0, d') /\
    d' = mkPs2 0x43 [] ToKeyboard true true 0 3.
Proof.
  destruct (mouse_setup 4 [7; 7; 7] (mkPs2 0x61 [] ToKeyboard false false 0 3)) as (d' & E & V).
  - u32_lit.
  - reflexivity.
  - reflexivity.
  - cbn. lia.
  - cbn. lia.
  - exists d'. split; [exact E | exact V].
Defined.

End Ps2.
