(* ===== verification/Syscall.v ===== *)
(** System calls: src/src/kernel/syscall.{h,cpp} and src/src/net/net_shared.h.

    [kernel] gathers what a system call can reach: the screens, the keyboard buffer and
    the scheduler, the file system, the network stack, the kernel heap and the memory
    of user programs.  A call that waits takes the list of the interrupts that arrive while
    it sleeps.  An interrupt comes back to the halted call unless it was a timer tick that
    dispatched another process: the scheduler does not save the context of a blocked
    process, so that call is abandoned where it halted. *)

From stdpp Require Import base numbers list gmap.
From Stdlib Require Import ZArith Lia.
From S2P Require Import Prelude Pmm Heap Paging Scheduler KeyboardBuffer Net NetStack Tcp NetReceive Fat32.
From S2P Require Import Console Vga Graphics Terminal Gui Input.

Module Sys.
#[local] Existing Instance Sched.ProcessState_eq_dec.
#[local] Existing Instance Stack.TCPState_eq_dec.

(** ** The code *)

Definition NET_SHARED_BASE_ADDR : Z := 0x00600000.
Definition NET_BUF_STATUS_ADDR : Z := NET_SHARED_BASE_ADDR + 0.
Definition NET_BUF_DATA_LEN_ADDR : Z := NET_SHARED_BASE_ADDR + 4.
Definition NET_BUF_DATA_ADDR : Z := NET_SHARED_BASE_ADDR + 8.
Definition NET_BUF_MAX_DATA : Z := 4088.

(** [(uint32_t)-1] *)
Definition failed : Z := u32 (-1).

(** The saved registers the calls use; the other members of the frame are never touched. *)
Record SyscallFrame := mkFrame { ebx : Z; edx : Z; ecx : Z; eax : Z }.
Definition set_eax (f : SyscallFrame) v := mkFrame (ebx f) (edx f) (ecx f) v.

Definition IsRing3Range (addr len : Z) : bool :=
  if len =? 0 then true
  else
    let end_ := u32 (addr + len) in
    if end_ <? addr then false
    else if (addr >=? NET_SHARED_BASE_ADDR) && (end_ <=? NET_SHARED_BASE_ADDR + 4096) then true
    else (addr >=? 0x00400000) && (end_ <=? 0x00D00000).

Definition ValidateNetShared (data_len : Z) : bool :=
  if data_len >? NET_BUF_MAX_DATA then false
  else if negb (IsRing3Range NET_BUF_STATUS_ADDR 4) then false
  else if negb (IsRing3Range NET_BUF_DATA_LEN_ADDR 4) then false
  else if negb (IsRing3Range NET_BUF_DATA_ADDR data_len) then false
  else true.

Definition PackedToIPv4 (packed : Z) : list Z :=
  [Z.land (Z.shiftr packed 24) 0xFF; Z.land (Z.shiftr packed 16) 0xFF;
   Z.land (Z.shiftr packed 8) 0xFF; Z.land packed 0xFF].

Definition ms_to_ticks (ms : Z) : Z := u32 (ms / 10 + 1).

Definition TimedOut (pit_ticks start wait_ticks : Z) : bool := u32 (pit_ticks - start) >=? wait_ticks.

(** The test of the calls that take a path. *)
Definition bad_path (addr : Z) : bool := (addr <? 0x00400000) || (addr >=? 0x00D00000).

Section calls.
Context {S : Type} `{FA : FrameAllocator S}.

(** The globals; the three pointers to the network are set together, and
    [active] says whether the terminal is the active one. *)
Record kernel := mkKernel {
  ui : Input.world S;
  active : bool;
  global_fat32 : option Fat.FAT32;
  net : option Receive.netdev;
  heap : option Heap.MemoryManager;
  mem : Z -> Z;
}.

Definition set_ui (k : kernel) x := mkKernel x (active k) (global_fat32 k) (net k) (heap k) (mem k).
Definition set_fat (k : kernel) x := mkKernel (ui k) (active k) x (net k) (heap k) (mem k).
Definition set_net (k : kernel) x := mkKernel (ui k) (active k) (global_fat32 k) x (heap k) (mem k).
Definition set_heap (k : kernel) x := mkKernel (ui k) (active k) (global_fat32 k) (net k) x (mem k).
Definition set_mem (k : kernel) x := mkKernel (ui k) (active k) (global_fat32 k) (net k) (heap k) x.

Definition tty_of (k : kernel) : Terminal.tty S := Input.console (ui k).
Definition set_tty (k : kernel) (t : Terminal.tty S) : kernel :=
  set_ui k (Input.mkWorld (Input.text_screen (ui k)) (Input.desktop (ui k)) t).

(** [Scheduler::GetInstance()], dereferenced. *)
Definition instance (k : kernel) : result (Sched.sched S) :=
  match Terminal.waiters (tty_of k) with Some s => Ok s | None => Err BadPointer end.
Definition set_instance (k : kernel) (s : Sched.sched S) : kernel :=
  let t := tty_of k in
  set_tty k (Terminal.mkTty (Terminal.term t) (Terminal.screen t) (Terminal.keys t) (Some s)).
Definition set_keys (k : kernel) (kb : KeyboardBuffer.t) : kernel :=
  let t := tty_of k in
  set_tty k (Terminal.mkTty (Terminal.term t) (Terminal.screen t) kb (Terminal.waiters t)).

(** User memory.  A store goes to any address it is given: [sys_read] and [sys_waitpid] do
    not check theirs, and in the code such a store could reach the kernel. *)
Definition load8 (k : kernel) (a : Z) : Z := mem k (u32 a).
Definition store8 (k : kernel) (a v : Z) : kernel :=
  set_mem k (fun x => if x =? u32 a then u8 v else mem k x).
Definition load_bytes (k : kernel) (a n : Z) : list Z := (fun i => load8 k (a + i)) <$> seqZ 0 n.
Definition store_bytes (k : kernel) (a : Z) (l : list Z) : kernel :=
  set_mem k (fun x => match l !! Z.to_nat (u32 (x - a)) with Some v => v | None => mem k x end).
Definition load32 (k : kernel) (a : Z) : Z :=
  load8 k a + load8 k (a + 1) * 2 ^ 8 + load8 k (a + 2) * 2 ^ 16 + load8 k (a + 3) * 2 ^ 24.
Definition store32 (k : kernel) (a v : Z) : kernel := store_bytes k a (Net.le32 v).

(** The bytes at [a] up to the terminator; a string longer than [fuel] is cut off,
    which the file system reports as a read past its end. *)
Fixpoint cstring (fuel : nat) (k : kernel) (a : Z) : list Z :=
  match fuel with
  | O => []
  | Datatypes.S fuel =>
      let c := load8 k a in if c =? 0 then [0] else c :: cstring fuel k (a + 1)
  end.

(** An interrupt that is taken while a call is halted: [None] when it returns to the call,
    otherwise the stack pointer of the process it goes to. *)
Definition arrival : Type := kernel -> result (option Z * kernel).

(** [sti; while (!done) hlt; cli] *)
Fixpoint wait_until (done : kernel -> result bool) (env : list arrival) (k : kernel)
    : result (option Z * kernel) :=
  b ← done k;
  if (b : bool) then Ok (None, k)
  else match env with
       | [] => Err OutOfFuel
       | e :: env =>
           '(away, k) ← e k;
           match away with
           | None => wait_until done env k
           | Some esp => Ok (Some esp, k)
           end
       end.

(** A timer interrupt with the halted context at [esp]. *)
Definition tick (esp : Z) : arrival := fun k =>
  s ← instance k;
  '(esp', s) ← Sched.TimerInterrupt s esp;
  Ok (if esp' =? esp then None else Some esp', set_instance k s).

(** [if (p) { p->state = st; p->wait_pid = w; }] *)
Definition mark (k : kernel) (p : Z) (st : Sched.ProcessState) (w : Z) : result kernel :=
  if p =? 0 then Ok k
  else
    s ← instance k;
    pr ← Sched.deref s p;
    Ok (set_instance k (Sched.assign s p (Sched.set_wait (Sched.set_state pr st) w))).

Definition active_process (k : kernel) : result Z := s ← instance k; Sched.GetActive s.

(** The process sleeps with [wait_pid = w] until [done], unless it loses the processor. *)
Definition sleep (w : Z) (done : kernel -> result bool) (env : list arrival) (k : kernel)
    : result (option Z * kernel) :=
  p ← active_process k;
  k ← mark k p Sched.PROCESS_BLOCKED w;
  '(away, k) ← wait_until done env k;
  match away with
  | Some esp => Ok (Some esp, k)
  | None => k ← mark k p Sched.PROCESS_RUNNING (-1); Ok (None, k)
  end.

(** What becomes of a call that may sleep: a value, or the processor is elsewhere. *)
Inductive reply := Value (v : Z) | Away (esp : Z).

(** The rest of a call after its sleep. *)
Definition after (r : result (option Z * kernel)) (rest : kernel -> result (Z * kernel)) : result (reply * kernel) :=
  '(away, k) ← r;
  match away with
  | Some esp => Ok (Away esp, k)
  | None => '(v, k) ← rest k; Ok (Value v, k)
  end.

(** *** Console *)

Definition sys_write (k : kernel) (fd buf n : Z) : result (Z * kernel) :=
  if (buf <? 0x00400000) || (u32 (buf + n) >? 0x00D00000) then Ok (failed, k)
  else if (fd =? 1) || (fd =? 2) then
    let p := load_bytes k buf n in
    if active k then
      let t := tty_of k in
      '(tm, fb) ← Terminal.SetShellOutput (Terminal.term t) (Terminal.screen t) p n;
      Ok (n, set_tty k (Terminal.mkTty tm fb (Terminal.keys t) (Terminal.waiters t)))
    else
      v ← for_result 0 n (fun i v => c ← arr_get p i; Vga.PutChar v c) (Input.text_screen (ui k));
      Ok (n, set_ui k (Input.mkWorld v (Input.desktop (ui k)) (tty_of k)))
  else Ok (failed, k).

(** The copying loop: at most [n] characters, up to a new line. *)
Fixpoint read_chars (n : nat) (buf bytes_read : Z) (k : kernel) : result (Z * kernel) :=
  match n with
  | O => Ok (bytes_read, k)
  | Datatypes.S n =>
      '(c, kb) ← KeyboardBuffer.Dequeue (Terminal.keys (tty_of k));
      match c with
      | None => Ok (bytes_read, set_keys k kb)
      | Some c =>
          let k := store8 (set_keys k kb) (buf + bytes_read) c in
          if c =? 10 then Ok (u32 (bytes_read + 1), k) else read_chars n buf (u32 (bytes_read + 1)) k
      end
  end.

Definition has_input (k : kernel) : result bool :=
  Ok (negb (KeyboardBuffer.IsEmpty (Terminal.keys (tty_of k)))).

Definition sys_read (k : kernel) (fd buf n : Z) (env : list arrival) : result (reply * kernel) :=
  if negb (fd =? 0) then Ok (Value failed, k)
  else
    after (if KeyboardBuffer.IsEmpty (Terminal.keys (tty_of k)) then sleep (-2) has_input env k else Ok (None, k))
      (read_chars (Z.to_nat n) buf 0).

Definition sys_set_raw_input (k : kernel) (enable : Z) : Z * kernel :=
  if active k then
    let t := tty_of k in
    (0, set_tty k (Terminal.mkTty (Terminal.SetRawInputMode (Terminal.term t) (negb (enable =? 0)))
                     (Terminal.screen t) (Terminal.keys t) (Terminal.waiters t)))
  else (failed, k).

(** *** Processes *)

Definition sys_getpid (k : kernel) : result (Z * kernel) :=
  p ← active_process k;
  if p =? 0 then Ok (0, k)
  else s ← instance k; pr ← Sched.deref s p; Ok (Sched.pid pr, k).

Definition is_dead (target : Z) (k : kernel) : result bool :=
  s ← instance k; pr ← Sched.deref s target; Ok (bool_decide (Sched.state pr = Sched.PROCESS_DEAD)).

Definition sys_waitpid (k : kernel) (pid status : Z) (env : list arrival) : result (reply * kernel) :=
  s ← instance k;
  target ← Sched.FindProcess s pid;
  if target =? 0 then Ok (Value failed, k)
  else
    after (sleep pid (is_dead target) env k) (fun k =>
      k ← (if status =? 0 then Ok k
           else s ← instance k; pr ← Sched.deref s target; Ok (store32 k status (u32 (Sched.exit_code pr))));
      Ok (u32 pid, k)).

(** [exit]: the rest of the case of [SyscallDispatch]. *)
Definition sys_exit (k : kernel) (esp code : Z) : result (Z * kernel) :=
  p ← active_process k;
  k ← (if p =? 0 then Ok k
       else
         s ← instance k;
         pr ← Sched.deref s p;
         let s := Sched.assign s p (Sched.set_state (Sched.set_exit_code pr (i32 code)) Sched.PROCESS_DEAD) in
         s ← Sched.WakeParent s (i32 (Sched.pid pr));
         Ok (set_instance k s));
  s ← instance k;
  '(esp, s) ← Sched.Schedule s esp;
  Ok (esp, set_instance k s).

(** *** Files *)

(** What uninitialised buffers hold: a sector, the cluster buffers, a heap block of
    64 KiB and the output buffer of a listing; [fuel] bounds the loops of the file
    system and of the heap, and the length of paths. *)
Context (junk junk4096 junk64k junk256 : list Z) (fuel : nat).

Definition sys_open (k : kernel) (path flags : Z) : result (Z * kernel) :=
  match global_fat32 k with
  | None => Ok (failed, k)
  | Some f =>
      if bad_path path then Ok (failed, k)
      else if flags =? 1 then
        '(_, f) ← Fat.CreateFile junk junk4096 fuel f (cstring fuel k path); Ok (3, set_fat k (Some f))
      else Ok (3, k)
  end.

Definition sys_unlink (k : kernel) (path : Z) : result (Z * kernel) :=
  match global_fat32 k with
  | None => Ok (failed, k)
  | Some f =>
      if bad_path path then Ok (failed, k)
      else '(ok, f) ← Fat.DeleteFile junk junk4096 fuel f (cstring fuel k path);
           Ok (if ok : bool then 0 else failed, set_fat k (Some f))
  end.

Definition sys_mkdir (k : kernel) (path : Z) : result (Z * kernel) :=
  match global_fat32 k with
  | None => Ok (failed, k)
  | Some f =>
      if bad_path path then Ok (failed, k)
      else '(ok, f) ← Fat.MakeDir junk junk4096 fuel f (cstring fuel k path);
           Ok (if ok : bool then 0 else failed, set_fat k (Some f))
  end.

(** Text for the terminal, or for the text screen without one. *)
Definition show_text (k : kernel) (str : list Z) : result kernel :=
  if active k then
    let t := tty_of k in
    '(tm, fb) ← Terminal.SetShellOutput (Terminal.term t) (Terminal.screen t) str (Z.of_nat (length str));
    Ok (set_tty k (Terminal.mkTty tm fb (Terminal.keys t) (Terminal.waiters t)))
  else
    v ← fold_result (fun c v => Vga.PutChar v c) str (Input.text_screen (ui k));
    Ok (set_ui k (Input.mkWorld v (Input.desktop (ui k)) (tty_of k))).

(** "(no disk)\n" *)
Definition no_disk : list Z := [40; 110; 111; 32; 100; 105; 115; 107; 41; 10].

Definition sys_ls (k : kernel) (path : Z) : result (Z * kernel) :=
  if bad_path path then Ok (1, k)
  else
    match global_fat32 k with
    | None => k ← show_text k no_disk; Ok (1, k)
    | Some f =>
        r ← Fat.ListDirectory junk junk4096 fuel f (cstring fuel k path) junk256;
        match r with
        | None => Ok (1, k)
        | Some chunks => k ← fold_result (fun c k => show_text k c) chunks k; Ok (0, k)
        end
    end.

Definition sys_isdir (k : kernel) (path : Z) : result (Z * kernel) :=
  match global_fat32 k with
  | None => Ok (0, k)
  | Some f =>
      if bad_path path then Ok (0, k)
      else d ← Fat.IsDirectory junk junk4096 fuel f (cstring fuel k path);
           Ok (if d : bool then 1 else 0, k)
  end.

(** [new uint8_t[65536]] and [delete[]] *)
Definition new_buffer (k : kernel) : result (Z * kernel) :=
  '(p, h) ← Heap.operator_new fuel (heap k) 65536; Ok (p, set_heap k h).
Definition delete_buffer (k : kernel) (p : Z) : result kernel :=
  h ← Heap.operator_delete (heap k) p; Ok (set_heap k h).

(** The common part of [cp] and [mv]: [None] when the call has failed. *)
Definition copy_file (k : kernel) (f : Fat.FAT32) (src dst : Z) : result (option Fat.FAT32 * kernel) :=
  '(p, k) ← new_buffer k;
  if p =? 0 then Ok (None, k)
  else
    r ← Fat.ReadFile junk junk4096 fuel f (cstring fuel k src) junk64k;
    match r with
    | None => k ← delete_buffer k p; Ok (None, k)
    | Some (buf, size) =>
        '(ok, f) ← Fat.WriteFile junk junk4096 fuel f (cstring fuel k dst) buf size;
        k ← delete_buffer k p;
        Ok (if ok : bool then Some f else None, set_fat k (Some f))
    end.

Definition sys_cp (k : kernel) (src dst : Z) : result (Z * kernel) :=
  match global_fat32 k with
  | None => Ok (failed, k)
  | Some f =>
      if bad_path src then Ok (failed, k)
      else if bad_path dst then Ok (failed, k)
      else '(r, k) ← copy_file k f src dst;
           Ok (match (r : option Fat.FAT32) with Some _ => 0 | None => failed end, k)
  end.

Definition sys_mv (k : kernel) (src dst : Z) : result (Z * kernel) :=
  match global_fat32 k with
  | None => Ok (failed, k)
  | Some f =>
      if bad_path src then Ok (failed, k)
      else if bad_path dst then Ok (failed, k)
      else
        '(r, k) ← copy_file k f src dst;
        match r with
        | None => Ok (failed, k)
        | Some f =>
            '(_, f) ← Fat.DeleteFile junk junk4096 fuel f (cstring fuel k src);
            Ok (0, set_fat k (Some f))
        end
  end.

Definition sys_writefile (k : kernel) (path data len : Z) : result (Z * kernel) :=
  match global_fat32 k with
  | None => Ok (failed, k)
  | Some f =>
      if negb (IsRing3Range path 1) then Ok (failed, k)
      else if negb (IsRing3Range data len) then Ok (failed, k)
      else '(ok, f) ← Fat.WriteFile junk junk4096 fuel f (cstring fuel k path) (load_bytes k data len) len;
           Ok (if ok : bool then 0 else failed, set_fat k (Some f))
  end.

Definition sys_readfile (k : kernel) (path out max_len : Z) : result (Z * kernel) :=
  match global_fat32 k with
  | None => Ok (failed, k)
  | Some f =>
      if max_len >? 65536 then Ok (failed, k)
      else if negb (IsRing3Range path 1) then Ok (failed, k)
      else if negb (IsRing3Range out max_len) then Ok (failed, k)
      else
        '(p, k) ← new_buffer k;
        if p =? 0 then Ok (failed, k)
        else
          r ← Fat.ReadFile junk junk4096 fuel f (cstring fuel k path) junk64k;
          match r with
          | None => k ← delete_buffer k p; Ok (failed, k)
          | Some (tmp, size) =>
              let copy := if size >? max_len then max_len else size in
              k ← for_result 0 copy (fun i k => v ← arr_get tmp i; Ok (store8 k (out + i) v)) k;
              k ← delete_buffer k p;
              Ok (copy, k)
          end
  end.

Definition sizeof_Process : Z := 4168.
Definition sizeof_PageDirectory : Z := 4100.

(** The program is read over the memory from 0x400000 to the end of the user region;
    [stack0] is what the memory of the new process object holds. *)
Definition sys_exec (k : kernel) (path : Z) (stack0 : list Z) : result (Z * kernel) :=
  match global_fat32 k with
  | None => Ok (failed, k)
  | Some f =>
      if (path =? 0) || bad_path path then Ok (failed, k)
      else
        r ← Fat.ReadFile junk junk4096 fuel f (cstring fuel k path)
              (load_bytes k 0x00400000 (0x00D00000 - 0x00400000));
        match r with
        | None => Ok (failed, k)
        | Some (image, _) =>
            let k := store_bytes k 0x00400000 image in
            s ← instance k;
            new_pid ← Sched.NextPID s;
            '(this, h) ← Heap.operator_new fuel (heap k) sizeof_Process;
            '(dir, h) ← (if Paging.GetKernelDirectory (Sched.mm s) =? 0 then Ok (0, h)
                         else Heap.operator_new fuel h sizeof_PageDirectory);
            if this =? 0 then Err BadPointer
            else
              '(child, v) ← Sched.Process_new (Sched.mm s) this dir 0x00400000 (u32 new_pid) stack0;
              caller ← Sched.GetActive s;
              child ← (if caller =? 0 then Ok child
                       else c ← Sched.deref s caller; Ok (Sched.set_parent child (i32 (Sched.pid c))));
              let s := Sched.mkSched (<[this := child]> (Sched.objs s)) (Sched.processes s)
                         (Sched.process_count s) (Sched.current_index s) (Sched.tss_esp0 s)
                         (Sched.pit_ticks s) v in
              s ← Sched.AddProcess s this;
              Ok (u32 new_pid, set_instance (set_heap k h) s)
        end
  end.

(** *** Network *)

Definition ticks (k : kernel) : result Z := s ← instance k; Ok (Sched.pit_ticks s).

(** [udp_rx_*] and [tcp_rx_*] *)
Definition udp_slot (k : kernel) : Stack.rx_slot :=
  match net k with Some d => Stack.udp_rx (Receive.hst d) | None => Stack.mkRx [] 0 false end.
Definition tcp_slot (k : kernel) : Stack.rx_slot :=
  match net k with Some d => Stack.tcp_rx (Receive.hst d) | None => Stack.mkRx [] 0 false end.

Definition with_host (k : kernel) (d : Receive.netdev) (h : Stack.host) : kernel :=
  set_net k (Some (Receive.with_host d h)).

Definition shared_len (k : kernel) : Z :=
  let len := load32 k NET_BUF_DATA_LEN_ADDR in
  if len >? NET_BUF_MAX_DATA then NET_BUF_MAX_DATA else len.

Definition sys_net_send_udp (k : kernel) (dst_ip dst_port src_port : Z) : result (Z * kernel) :=
  match net k with
  | None => Ok (failed, k)
  | Some d =>
      let len := shared_len k in
      if negb (ValidateNetShared len) then Ok (failed, k)
      else
        '(ok, h) ← Stack.UDP_Send (Receive.hst d) (PackedToIPv4 dst_ip) dst_port src_port
                     (load_bytes k NET_BUF_DATA_ADDR len) len;
        Ok (if ok : bool then 0 else failed, with_host k d h)
  end.

(** The copy to the shared page, from the slot of either socket. *)
Definition take_slot (k : kernel) (slot : Stack.rx_slot) (clear : kernel -> Stack.rx_slot -> kernel)
    : result (Z * kernel) :=
  if Stack.rx_ready slot then
    let copy := if Stack.rx_len slot >? NET_BUF_MAX_DATA then NET_BUF_MAX_DATA else Stack.rx_len slot in
    k ← for_result 0 copy (fun i k => v ← arr_get (Stack.rx_buf slot) i; Ok (store8 k (NET_BUF_DATA_ADDR + i) v)) k;
    let k := store32 k NET_BUF_DATA_LEN_ADDR copy in
    let k := store32 k NET_BUF_STATUS_ADDR 0 in
    Ok (0, clear k (Stack.mkRx (Stack.rx_buf slot) 0 false))
  else
    let k := store32 k NET_BUF_DATA_LEN_ADDR 0 in
    let k := store32 k NET_BUF_STATUS_ADDR 1 in
    Ok (1, k).

Definition clear_udp (k : kernel) (r : Stack.rx_slot) : kernel :=
  match net k with Some d => with_host k d (Stack.set_udp_rx (Receive.hst d) r) | None => k end.
Definition clear_tcp (k : kernel) (r : Stack.rx_slot) : kernel :=
  match net k with Some d => with_host k d (Stack.set_tcp_rx (Receive.hst d) r) | None => k end.

(** Both receiving calls: [slot] is the socket's slot, [w] the wait code. *)
Definition receive (slot : kernel -> Stack.rx_slot) (clear : kernel -> Stack.rx_slot -> kernel) (w : Z)
    (k : kernel) (timeout_ms : Z) (env : list arrival) : result (reply * kernel) :=
  if negb (ValidateNetShared NET_BUF_MAX_DATA) then
    let k := store32 k NET_BUF_STATUS_ADDR 1 in
    Ok (Value 1, store32 k NET_BUF_DATA_LEN_ADDR 0)
  else
    after (if negb (Stack.rx_ready (slot k)) && negb (timeout_ms =? 0) then
             start ← ticks k;
             sleep w (fun k => t ← ticks k;
                               Ok (Stack.rx_ready (slot k) || TimedOut t start (ms_to_ticks timeout_ms))) env k
           else Ok (None, k))
      (fun k => take_slot k (slot k) clear).

Definition sys_net_recv_udp := receive udp_slot clear_udp (-3).
Definition sys_net_tcp_recv := receive tcp_slot clear_tcp (-5).

Definition is_established (k : kernel) : bool :=
  match net k with
  | Some d => bool_decide (Stack.t_state (Stack.tcp (Receive.hst d)) = Stack.TCP_ESTABLISHED)
  | None => false
  end.

Definition sys_net_tcp_connect (k : kernel) (dst_ip dst_port : Z) (env : list arrival) : result (reply * kernel) :=
  match net k with
  | None => Ok (Value failed, k)
  | Some d =>
      '(ok, h) ← Tcp.Connect (Receive.hst d) (PackedToIPv4 dst_ip) dst_port;
      let k := with_host k d h in
      if negb ok then Ok (Value failed, k)
      else
        start ← ticks k;
        after (sleep (-4) (fun k => t ← ticks k;
                                    Ok (is_established k || TimedOut t start (ms_to_ticks 5000))) env k)
          (fun k => Ok (if is_established k then 0 else failed, k))
  end.

Definition sys_net_tcp_send (k : kernel) : result (Z * kernel) :=
  match net k with
  | None => Ok (failed, k)
  | Some d =>
      let len := shared_len k in
      if negb (ValidateNetShared len) then Ok (failed, k)
      else
        '(ok, h) ← Tcp.Send (Receive.hst d) (load_bytes k NET_BUF_DATA_ADDR len) len;
        Ok (if ok : bool then 0 else failed, with_host k d h)
  end.

Definition sys_net_tcp_close (k : kernel) : result (Z * kernel) :=
  match net k with
  | None => Ok (0, k)
  | Some d => h ← Tcp.Close (Receive.hst d); Ok (0, with_host k d h)
  end.

(** *** Dispatch *)

(** The call returns to the caller, or to the process of another stack pointer, or the
    machine has been reset. *)
Inductive outcome := Resume (esp : Z) | Reset.

Definition SyscallDispatch (k : kernel) (esp : Z) (f : SyscallFrame)
    (env : list arrival) (stack0 : list Z) : result (outcome * SyscallFrame * kernel) :=
  let return_ (r : result (Z * kernel)) := '(v, k) ← r; Ok (Resume esp, set_eax f v, k) in
  let finish (r : result (reply * kernel)) :=
    '(v, k) ← r; match v with Value v => Ok (Resume esp, set_eax f v, k) | Away esp => Ok (Resume esp, f, k) end in
  let num := eax f in
  if num =? 1 then '(esp, k) ← sys_exit k esp (ebx f); Ok (Resume esp, f, k)
  else if num =? 3 then finish (sys_read k (ebx f) (ecx f) (edx f) env)
  else if num =? 4 then return_ (sys_write k (ebx f) (ecx f) (edx f))
  else if num =? 5 then return_ (sys_open k (ebx f) (ecx f))
  else if num =? 6 then return_ (sys_unlink k (ebx f))
  else if num =? 7 then finish (sys_waitpid k (i32 (ebx f)) (ecx f) env)
  else if num =? 11 then return_ (sys_exec k (ebx f) stack0)
  else if num =? 20 then return_ (sys_getpid k)
  else if num =? 39 then return_ (sys_mkdir k (ebx f))
  else if num =? 40 then return_ (sys_ls k (ebx f))
  else if num =? 41 then return_ (sys_isdir k (ebx f))
  else if num =? 50 then return_ (sys_net_send_udp k (ebx f) (u16 (ecx f)) (u16 (edx f)))
  else if num =? 51 then finish (sys_net_recv_udp k (ebx f) env)
  else if num =? 52 then finish (sys_net_tcp_connect k (ebx f) (u16 (ecx f)) env)
  else if num =? 53 then return_ (sys_net_tcp_send k)
  else if num =? 54 then finish (sys_net_tcp_recv k (ebx f) env)
  else if num =? 55 then return_ (sys_net_tcp_close k)
  else if num =? 90 then return_ (sys_cp k (ebx f) (ecx f))
  else if num =? 91 then return_ (sys_mv k (ebx f) (ecx f))
  else if num =? 92 then return_ (sys_writefile k (ebx f) (ecx f) (edx f))
  else if num =? 93 then return_ (sys_readfile k (ebx f) (ecx f) (edx f))
  else if num =? 94 then return_ (Ok (sys_set_raw_input k (ebx f)))
  else if num =? 88 then Ok (Reset, f, k)
  else Ok (Resume esp, set_eax f failed, k).

End calls.
Arguments kernel : clear implicits.
Arguments arrival : clear implicits.

End Sys.
