(* ===== verification/SyscallProofs.v ===== *)
(** What the system calls promise: the address checks, input and output through user
    memory, files, network data, waiting and termination.  The theorems compose those of
    the keyboard, the terminal, the heap, the file system, the network and the scheduler. *)

From stdpp Require Import base numbers list gmap sets.
From Stdlib Require Import ZArith Lia.
From S2P Require Import Prelude Pmm Heap Paging Scheduler KeyboardBuffer Net NetStack Tcp NetReceive.
From S2P Require Import Fat32 FatVolume FatFiles FatDirs FatApi.
From S2P Require Import Console Vga Graphics Terminal Gui Input Syscall.

Module SysProofs.
Import Sys.
#[local] Existing Instance Sched.ProcessState_eq_dec.

(** ** Address checks *)

Lemma IsRing3Range_spec addr len :
  is_u32 addr -> is_u32 len ->
  IsRing3Range addr len = true <-> len = 0 \/ (0x00400000 <= addr /\ addr + len <= 0x00D00000).
Proof.
  intros Ha Hl. unfold IsRing3Range, NET_SHARED_BASE_ADDR. destruct (Z.eqb_spec len 0); [tauto|].
  cbv zeta. assert (E : u32 (addr + len) = if addr + len <? 2 ^ 32 then addr + len else addr + len - 2 ^ 32).
  { unfold u32. zify_words. destruct (Z.ltb_spec (addr + len) 4294967296); Z.div_mod_to_equations; lia. }
  rewrite E, !Z.geb_leb. zify_words. destruct (Z.ltb_spec (addr + len) 4294967296); case_tests; (tauto || lia || (split; [lia | done])).
Qed.

(** The address check of the system calls is exact.  A range of user memory is
    accepted if and only if it is empty or lies between 0x400000 and 0xD00000 without
    wrapping around the address space, and the shared network page passes for every
    length up to its capacity. *)
Theorem IsRing3Range_exact addr len :
  is_u32 addr -> is_u32 len ->
  (IsRing3Range addr len = true <-> len = 0 \/ (0x00400000 <= addr /\ addr + len <= 0x00D00000)) /\
  (ValidateNetShared len = true <-> len <= NET_BUF_MAX_DATA).
Proof.
  intros Ha Hl. split; [by apply IsRing3Range_spec|].
  unfold ValidateNetShared, NET_BUF_MAX_DATA. rewrite Z.gtb_ltb.
  destruct (Z.ltb_spec 4088 len); [split; [done | lia]|].
  assert (Hd : IsRing3Range NET_BUF_DATA_ADDR len = true).
  { apply IsRing3Range_spec; [u32_lit | done |]. unfold NET_BUF_DATA_ADDR, NET_SHARED_BASE_ADDR. lia. }
  rewrite Hd. change (IsRing3Range NET_BUF_STATUS_ADDR 4) with true.
  change (IsRing3Range NET_BUF_DATA_LEN_ADDR 4) with true. done.
Qed.

Lemma IsRing3Range_exact_witness :
  IsRing3Range 0x004FFF00 0x100 = true /\ ValidateNetShared 4088 = true.
Proof.
  assert (H1 : is_u32 0x004FFF00) by u32_lit. assert (H2 : is_u32 0x100) by u32_lit.
  assert (H3 : is_u32 4088) by u32_lit. split.
  - apply (proj1 (IsRing3Range_exact 0x004FFF00 0x100 H1 H2)). lia.
  - apply (proj2 (IsRing3Range_exact 0x004FFF00 4088 H1 H3)). unfold NET_BUF_MAX_DATA. lia.
Defined.

(** ** User memory *)

Section memory.
Context {S : Type}.
Implicit Types (k : kernel S) (m : Z -> Z).

(** [m'] is [m] with the bytes [l] stored at [a]. *)
Record poked m (a : Z) (l : list Z) m' : Prop := {
  pk_in : forall i v, l !! i = Some v -> m' (u32 (a + Z.of_nat i)) = v;
  pk_out : forall x, is_u32 x -> (forall i, (i < length l)%nat -> u32 (a + Z.of_nat i) <> x) -> m' x = m x;
}.

Lemma store_bytes_poked k a l :
  Z.of_nat (length l) <= 2 ^ 32 -> poked (mem k) a l (mem (store_bytes k a l)).
Proof.
  intros Hl. split.
  - intros i v Hi. cbn. assert (E : u32 (u32 (a + Z.of_nat i) - a) = Z.of_nat i).
    { unfold u32. rewrite Zminus_mod_idemp_l. apply lookup_lt_Some in Hi.
      replace (a + Z.of_nat i - a) with (Z.of_nat i) by lia. apply Z.mod_small. lia. }
    by rewrite E, Nat2Z.id, Hi.
  - intros x Hx Hout. cbn. destruct (l !! Z.to_nat (u32 (x - a))) as [v|] eqn:E; [|done].
    exfalso. apply lookup_lt_Some in E. apply (Hout (Z.to_nat (u32 (x - a))) E).
    rewrite Z2Nat.id by apply u32_bounds. unfold u32. rewrite Zplus_mod_idemp_r.
    replace (a + (x - a)) with x by lia. by apply Z.mod_small.
Qed.

(** The loop that copies [n] bytes of [l] to user memory. *)
Lemma store_loop k a l n :
  0 <= n <= Z.of_nat (length l) -> n <= 2 ^ 32 -> Forall is_u8 l ->
  exists m', for_result 0 n (fun i k => v ← arr_get l i; Ok (store8 k (a + i) v)) k = Ok (set_mem k m') /\
    poked (mem k) a (take (Z.to_nat n) l) m'.
Proof.
  intros Hn Hn32 H8.
  loop_with (fun i k' => exists m', k' = set_mem k m' /\ poked (mem k) a (take (Z.to_nat i) l) m') k' E Hk.
  - lia.
  - exists (mem k). split; [by destruct k|]. split; [intros i v Hi; destruct i; discriminate Hi | done].
  - intros i k1 Hi (m1 & -> & [Hin Hout]). destruct (arr_get_in_range l i) as [v Ev]; [lia|].
    rewrite Ev, result_bind_Ok. eexists. split; [reflexivity|].
    apply arr_get_Ok in Ev as [_ Ev]. pose proof (Forall_lookup_1 _ _ _ _ H8 Ev) as Hv.
    replace (Z.to_nat (i + 1)) with (Datatypes.S (Z.to_nat i)) by lia. rewrite (take_S_r l _ v Ev).
    eexists. split; [reflexivity|]. cbn [mem set_mem].
    assert (Ht : length (take (Z.to_nat i) l) = Z.to_nat i) by (rewrite length_take; lia). split.
    + intros j w Hj. apply lookup_app_Some in Hj as [Hj|[Hge Hj]].
      * rewrite (Hin j w Hj). apply lookup_lt_Some in Hj. rewrite Ht in Hj.
        destruct (Z.eqb_spec (u32 (a + Z.of_nat j)) (u32 (a + i))) as [E|]; [|done]. exfalso.
        unfold u32 in E. zify_words. Z.div_mod_to_equations. lia.
      * rewrite Ht in *. destruct (j - Z.to_nat i)%nat as [|d] eqn:Ed; [|by destruct d]. injection Hj as <-.
        replace (Z.of_nat j) with i by lia. by rewrite Z.eqb_refl, u8_small.
    + intros x Hx Hno. rewrite length_app, Ht in Hno. cbn [length] in Hno.
      destruct (Z.eqb_spec x (u32 (a + i))) as [->|].
      * exfalso. apply (Hno (Z.to_nat i)); [lia|]. by rewrite Z2Nat.id by lia.
      * apply Hout; [done|]. intros j Hj. apply Hno. lia.
  - rewrite E. destruct Hk as (m' & -> & Hp). by exists m'.
Qed.

Lemma load_bytes_poked k a l m' :
  poked (mem k) a l m' -> load_bytes (set_mem k m') a (Z.of_nat (length l)) = l.
Proof.
  intros [Hin _]. unfold load_bytes. apply list_eq_same_length with (length l); [done | by rewrite length_fmap, length_seqZ, Nat2Z.id |].
  intros i x y Hi Hx Hy. rewrite list_lookup_fmap, lookup_seqZ_lt in Hx by lia. cbn in Hx. injection Hx as <-.
  unfold load8. cbn. by apply Hin.
Qed.

(** Bytes elsewhere are not affected. *)
Definition apart (a n b w : Z) : Prop := 0 <= a /\ a + n <= b /\ b + w <= 2 ^ 32 \/ 0 <= b /\ b + w <= a /\ a + n <= 2 ^ 32.

Lemma load8_apart k a l m' b :
  poked (mem k) a l m' -> apart a (Z.of_nat (length l)) b 1 -> load8 (set_mem k m') b = load8 k b.
Proof.
  intros [_ Hout] Hap. unfold load8. cbn. apply Hout; [apply u32_bounds|]. intros i Hi. unfold apart in *.
  rewrite !u32_small by (zify_words; lia). lia.
Qed.

Lemma load_bytes_apart k a l m' b w :
  poked (mem k) a l m' -> apart a (Z.of_nat (length l)) b w -> load_bytes (set_mem k m') b w = load_bytes k b w.
Proof.
  intros Hp Hap. unfold load_bytes. apply list_fmap_ext. intros i x Hx%list_elem_of_lookup_2.
  apply elem_of_seqZ in Hx. eapply load8_apart; [exact Hp|]. unfold apart in *. lia.
Qed.

Lemma load32_bytes k a : load32 k a = match load_bytes k a 4 with
  | [b0; b1; b2; b3] => b0 + b1 * 2 ^ 8 + b2 * 2 ^ 16 + b3 * 2 ^ 24 | _ => 0 end.
Proof. unfold load32, load_bytes. change (seqZ 0 4) with [0; 1; 2; 3]. cbn [fmap list_fmap]. by rewrite Z.add_0_r. Qed.

Lemma load32_le32 k a v m' :
  poked (mem k) a (Net.le32 v) m' -> is_u32 v -> load32 (set_mem k m') a = v.
Proof.
  intros Hp Hv. rewrite load32_bytes. change 4 with (Z.of_nat (length (Net.le32 v))).
  rewrite (load_bytes_poked k a _ m' Hp). unfold Net.le32. zify_words. change (2 ^ 24) with 16777216.
  Z.div_mod_to_equations. lia.
Qed.
End memory.
(** ** Output *)

Section output.
Context {S : Type} `{FA : FrameAllocator S}.
Implicit Types k : kernel S.
Import Console Terminal.

Lemma load_bytes_length k a n : 0 <= n -> Z.of_nat (length (load_bytes k a n)) = n.
Proof using. intros. unfold load_bytes. rewrite length_fmap, length_seqZ. lia. Qed.

Lemma load_bytes_u8 k a n : (forall x, is_u8 (mem k x)) -> Forall is_u8 (load_bytes k a n).
Proof using. intros H. unfold load_bytes. apply Forall_fmap, Forall_true. intros i. apply H. Qed.

(** Writing inside the user region. *)
Lemma sys_write_acts k p fd buf n :
  active k = true -> (forall x, is_u8 (mem k x)) -> term_wf (term (tty_of k)) -> full_screen (term (tty_of k)) ->
  64000 <= Z.of_nat (length (screen (tty_of k))) ->
  shows 40 23 p (cells_of (term (tty_of k))) (place (term (tty_of k))) ->
  0 <= n -> 0x00400000 <= buf -> buf + n <= 0x00D00000 -> fd = 1 \/ fd = 2 ->
  exists t fb, sys_write k fd buf n =
      Ok (n, set_tty k (mkTty t fb (keys (tty_of k)) (waiters (tty_of k)))) /\
    term_wf t /\ retext (term (tty_of k)) t /\
    shows 40 23 (strikes 40 23 blank_cell (key_for <$> load_bytes k buf n) p) (cells_of t) (place t) /\
    Graphics.drawn (screen (tty_of k)) (window t) fb.
Proof using.
  intros Ha H8 Hw Hf Hs Hp Hn Hb Hr Hfd. unfold sys_write.
  rewrite u32_small, Z.gtb_ltb by (zify_words; lia).
  rewrite (proj2 (Z.ltb_ge 0xD00000 (buf + n))), (proj2 (Z.ltb_ge buf 0x400000)) by lia.
  assert (Ef : (fd =? 1) || (fd =? 2) = true) by (by destruct Hfd as [-> | ->]). rewrite Ef. cbn [orb]. cbv zeta. rewrite Ha.
  destruct (output_loop (term (tty_of k)) (load_bytes k buf n) p Hw (load_bytes_u8 k buf n H8) Hp)
    as (t & E & Hw' & Hr' & Hp').
  assert (Hf' : full_screen t) by (destruct Hr' as (g & c & r & j & ->); exact Hf).
  destruct (Draw_drawn t (screen (tty_of k)) Hw' Hf' Hs) as (fb & E' & D).
  exists t, fb. split; [|done]. unfold SetShellOutput. rewrite load_bytes_length in E by done.
  by rewrite E, result_bind_Ok, E', !result_bind_Ok.
Qed.

(** C33: What a program writes is shown.  With the terminal active, as it is whenever a
    process runs, and a buffer that does not wrap around the address space, [sys_write]
    accepts exactly the buffers inside the user region, from 0x400000 to 0xD00000, for the two
    output descriptors: it returns the number of bytes, prints exactly these bytes in order on
    the sheet of the terminal, redraws the window and changes nothing else.  Every other
    descriptor and every other such buffer is refused without effect.  The end of the buffer
    is computed in 32 bits, so buffers that wrap around are outside this statement. *)
Theorem sys_write_prints k p fd buf n :
  active k = true -> (forall x, is_u8 (mem k x)) -> term_wf (term (tty_of k)) -> full_screen (term (tty_of k)) ->
  64000 <= Z.of_nat (length (screen (tty_of k))) ->
  shows 40 23 p (cells_of (term (tty_of k))) (place (term (tty_of k))) ->
  0 <= n -> 0 <= buf -> buf + n < 2 ^ 32 ->
  if (0x00400000 <=? buf) && (buf + n <=? 0x00D00000) && ((fd =? 1) || (fd =? 2)) then
    exists t fb, sys_write k fd buf n =
        Ok (n, set_tty k (mkTty t fb (keys (tty_of k)) (waiters (tty_of k)))) /\
      term_wf t /\ retext (term (tty_of k)) t /\
      shows 40 23 (strikes 40 23 blank_cell (key_for <$> load_bytes k buf n) p) (cells_of t) (place t) /\
      Graphics.drawn (screen (tty_of k)) (window t) fb
  else sys_write k fd buf n = Ok (failed, k).
Proof using.
  intros Ha H8 Hw Hf Hs Hp Hn Hb Hr. destruct (Z.leb_spec 0x400000 buf); cbn [andb].
  2:{ unfold sys_write. by rewrite (proj2 (Z.ltb_lt buf 0x400000)) by lia. }
  destruct (Z.leb_spec (buf + n) 0xD00000); cbn [andb].
  2:{ unfold sys_write. rewrite u32_small, Z.gtb_ltb by (zify_words; lia).
      by rewrite (proj2 (Z.ltb_lt 0xD00000 (buf + n))), orb_true_r by lia. }
  destruct ((fd =? 1) || (fd =? 2)) eqn:Ef.
  - destruct (sys_write_acts k p fd buf n) as (t & fb & E & Hwf & Hre & Hp' & D); try done.
    { apply orb_prop in Ef as [Ef%Z.eqb_eq|Ef%Z.eqb_eq]; auto. }
    by exists t, fb.
  - unfold sys_write. rewrite Ef. by destruct ((buf <? 0x00400000) || _).
Qed.
End output.

Definition sample_kernel (line : list Z) : kernel Pmm.state :=
  mkKernel (Input.mkWorld (Vga.mkVga (replicate 2000 0) 0 15 true) None (Terminal.sample_tty line))
    true None None None (fun x => u8 x).

Lemma sys_write_prints_witness :
  exists t fb, sys_write (sample_kernel []) 1 0x00400041 3 =
      Ok (3, set_tty (sample_kernel []) (Terminal.mkTty t fb (Terminal.keys (tty_of (sample_kernel [])))
                                    (Terminal.waiters (tty_of (sample_kernel []))))) /\
    Console.shows 40 23 (Console.strikes 40 23 Terminal.blank_cell
      [Console.Glyph (65, Terminal.COL_TEXT); Console.Glyph (66, Terminal.COL_TEXT); Console.Glyph (67, Terminal.COL_TEXT)]
      (Console.mkPaper (replicate 920 Terminal.blank_cell) 0)) (Terminal.cells_of t) (Terminal.place t).
Proof.
  destruct (Terminal.sample_serves [] ltac:(cbn; lia)) as [Hw Hf _ Hs _ _ _ _ _ Hl _].
  destruct (sys_write_prints (sample_kernel []) (Console.mkPaper (replicate 920 Terminal.blank_cell) 0) 1 0x00400041 3
              eq_refl ltac:(intros x; apply u8_bounds) Hw Hf Hl Hs ltac:(lia) ltac:(lia) ltac:(lia))
    as (t & fb & E & _ & _ & Hp & _).
  exists t, fb. split; [exact E | exact Hp].
Defined.

(** ** Sleeping *)

Section sleeping.
Context {S : Type} `{FA : FrameAllocator S}.
Implicit Types (k : kernel S) (s : Sched.sched S).

Lemma set_instance_id k s : Terminal.waiters (tty_of k) = Some s -> set_instance k s = k.
Proof using. intros E. destruct k as [[v d [t fb kb w]]]. cbn in E. by subst w. Qed.

(** No process but the current one is ready. *)
Definition alone s : Prop :=
  forall j p, Sched.procs s !! j = Some p -> Z.of_nat j <> Sched.current_index s -> Sched.state p <> Sched.PROCESS_READY.

(** The current process [a], with object [pr], has blocked with [wait_pid = w]. *)
Definition blocked (pr : Sched.Process) (w : Z) : Sched.Process :=
  Sched.set_wait (Sched.set_state pr Sched.PROCESS_BLOCKED) w.

Record put_to_sleep k s w (a : Z) (pr : Sched.Process) : Prop := {
  ps_active : active_process k = Ok a;
  ps_addr : Sched.addrs s !! Z.to_nat (Sched.current_index s) = Some a;
  ps_get : Sched.GetActive s = Ok a;
  ps_obj : Sched.objs s !! a = Some pr;
  ps_proc : Sched.procs s !! Z.to_nat (Sched.current_index s) = Some pr;
  ps_nonzero : a <> 0;
  ps_mark : mark k a Sched.PROCESS_BLOCKED w = Ok (set_instance k (Sched.assign s a (blocked pr w)));
  ps_inv : Sched.sched_inv (Sched.assign s a (blocked pr w));
  ps_procs : Sched.procs (Sched.assign s a (blocked pr w)) =
    <[Z.to_nat (Sched.current_index s) := blocked pr w]> (Sched.procs s);
}.

Lemma sleeps k s w :
  Terminal.waiters (tty_of k) = Some s -> Sched.sched_inv s -> 0 <= Sched.current_index s ->
  exists a pr, put_to_sleep k s w a pr.
Proof using.
  intros Hw Hinv Hc.
  assert (Hlt : Sched.current_index s < Sched.process_count s) by (destruct (Sched.si_cur_lt s Hinv); lia).
  destruct (Sched.slot_ok s (Sched.current_index s) Hinv ltac:(lia)) as (a & pr & Eget & _ & Hne & Ha & Hpr & Ho).
  assert (Hact : Sched.GetActive s = Ok a).
  { unfold Sched.GetActive. by rewrite (proj2 (Z.ltb_ge _ 0)) by lia. }
  exists a, pr. split; try done.
  - unfold active_process, instance. by rewrite Hw, result_bind_Ok.
  - unfold mark, instance. rewrite (proj2 (Z.eqb_neq a 0)), Hw, result_bind_Ok by done.
    unfold Sched.deref. by rewrite Ho, result_bind_Ok.
  - by eapply Sched.inv_assign.
  - apply Sched.procs_assign; [apply Hinv | done].
Qed.

(** With no other process ready, ticks then come back to it. *)
Lemma asleep_idle k s w a pr :
  Sched.sched_inv s -> 0 <= Sched.current_index s -> put_to_sleep k s w a pr -> alone s ->
  Sched.idle (Sched.assign s a (blocked pr w)).
Proof using.
  intros Hinv Hc P Hal. split; [done|]. rewrite (ps_procs _ _ _ _ _ P). apply Forall_lookup_2.
  intros j p [(_ & <- & _)|[Hne Hj]]%list_lookup_insert_Some; [done|].
  assert (Hj' : Z.of_nat j <> Sched.current_index s) by lia.
  split; [by apply (Hal j)|]. intros Hr. by pose proof (Sched.si_run s Hinv j p Hj Hr).
Qed.

Lemma tick_idle k s esp :
  Terminal.waiters (tty_of k) = Some s -> Sched.sched_inv s -> Sched.idle s ->
  tick esp k = Ok (None, set_instance k (Sched.bump s)).
Proof using.
  intros Hw Hinv Hi. unfold tick, instance. rewrite Hw, result_bind_Ok, Sched.idle_tick, result_bind_Ok by done.
  by rewrite Z.eqb_refl.
Qed.

Lemma TimedOut_elapsed start w elapsed :
  is_u32 elapsed -> TimedOut (u32 (start + elapsed)) start w = (w <=? elapsed).
Proof using.
  intros He. unfold TimedOut. rewrite Z.geb_leb. f_equal. unfold u32. rewrite Zminus_mod_idemp_l.
  replace (start + elapsed - start) with elapsed by lia. by apply Z.mod_small.
Qed.

(** Ticks alone end the wait when the time is up, and not before. *)
Lemma wait_timeout (ready : kernel S -> bool) start w esps k s :
  (forall k s, ready (set_instance k s) = ready k) -> ready k = false ->
  Terminal.waiters (tty_of k) = Some s -> Sched.sched_inv s -> Sched.idle s ->
  w < 2 ^ 32 -> u32 (Sched.pit_ticks s - start) + Z.of_nat (length esps) = w ->
  exists s', wait_until (fun k => t ← ticks k; Ok (ready k || TimedOut t start w)) (tick <$> esps) k =
      Ok (None, set_instance k s') /\ Sched.objs s' = Sched.objs s.
Proof using.
  intros Hre. set (stop := fun k => t ← ticks k; Ok (ready k || TimedOut t start w)).
  assert (Hstop : forall k s, ready k = false -> Terminal.waiters (tty_of k) = Some s ->
    stop k = Ok (w <=? u32 (Sched.pit_ticks s - start))).
  { intros k0 s0 Hr0 Hw0. unfold stop, ticks, instance. rewrite Hw0, !result_bind_Ok, Hr0. unfold TimedOut.
    by rewrite Z.geb_leb. }
  revert k s. induction esps as [|esp esps IH]; intros k s Hr Hw Hinv Hi Hlt He; cbn [length fmap list_fmap wait_until] in *;
    rewrite (Hstop k s), result_bind_Ok by done.
  - exists s. rewrite (proj2 (Z.leb_le w _)) by lia. by rewrite set_instance_id.
  - rewrite (proj2 (Z.leb_gt w _)) by lia. rewrite (tick_idle k s), result_bind_Ok by done.
    destruct (IH (set_instance k (Sched.bump s)) (Sched.bump s)) as (s' & E & Ho); try done.
    + by rewrite Hre.
    + by apply Sched.bump_inv.
    + cbn [Sched.pit_ticks Sched.bump]. pose proof (u32_bounds (Sched.pit_ticks s - start)) as Hb.
      assert (E : u32 (u32 (Sched.pit_ticks s + 1) - start) = u32 (Sched.pit_ticks s - start) + 1); [|lia].
      unfold u32 in *. rewrite Zminus_mod_idemp_l. replace (Sched.pit_ticks s + 1 - start) with (Sched.pit_ticks s - start + 1) by lia.
      rewrite Zplus_mod. set (x := (Sched.pit_ticks s - start) mod 2 ^ 32) in *. change (1 mod 2 ^ 32) with 1.
      apply Z.mod_small. zify_words. lia.
    + exists s'. by rewrite E.
Qed.

(** A call that sleeps with a time limit, and is never served. *)
Lemma sleep_timeout (ready : kernel S -> bool) w limit esps k s :
  (forall k s, ready (set_instance k s) = ready k) -> ready k = false ->
  Terminal.waiters (tty_of k) = Some s -> Sched.sched_inv s -> 0 <= Sched.current_index s -> alone s ->
  0 <= limit < 2 ^ 32 -> length esps = Z.to_nat limit ->
  exists s', sleep w (fun k => t ← ticks k; Ok (ready k || TimedOut t (Sched.pit_ticks s) limit)) (tick <$> esps) k =
    Ok (None, set_instance k s').
Proof using.
  intros Hre Hr Hw Hinv Hc Hal Hlim Hl. destruct (sleeps k s w Hw Hinv Hc) as (a & pr & P).
  unfold sleep. rewrite (ps_active _ _ _ _ _ P), result_bind_Ok, (ps_mark _ _ _ _ _ P), result_bind_Ok.
  set (s1 := Sched.assign s a (blocked pr w)).
  destruct (wait_timeout ready (Sched.pit_ticks s) limit esps (set_instance k s1) s1) as (s' & E & Ho); try done.
  - by rewrite Hre.
  - by apply (ps_inv _ _ _ _ _ P).
  - by apply (asleep_idle k s w a pr).
  - lia.
  - change (Sched.pit_ticks s1) with (Sched.pit_ticks s). rewrite Z.sub_diag. change (u32 0) with 0. lia.
  - rewrite E, result_bind_Ok. unfold mark, instance. rewrite (proj2 (Z.eqb_neq a 0)) by apply P.
    cbn [Terminal.waiters tty_of set_instance set_tty set_ui ui Input.console]. rewrite result_bind_Ok.
    unfold Sched.deref. rewrite Ho. unfold s1. cbn [Sched.objs Sched.assign Sched.with_objs].
    rewrite lookup_insert_eq, !result_bind_Ok. by eexists.
Qed.
End sleeping.

(** ** Network data *)

Section network.
Context {S : Type} `{FA : FrameAllocator S}.
Implicit Types k : kernel S.
Import Stack.

(** The shared page after a delivery. *)
Lemma take_slot_ready k slot clear :
  rx_ready slot = true -> 0 <= rx_len slot <= 2048 -> length (rx_buf slot) = 2048%nat -> Forall is_u8 (rx_buf slot) ->
  exists m', take_slot k slot clear = Ok (0, clear (set_mem k m') (mkRx (rx_buf slot) 0 false)) /\
    load_bytes (set_mem k m') NET_BUF_DATA_ADDR (rx_len slot) = take (Z.to_nat (rx_len slot)) (rx_buf slot) /\
    load32 (set_mem k m') NET_BUF_DATA_LEN_ADDR = rx_len slot /\
    load32 (set_mem k m') NET_BUF_STATUS_ADDR = 0 /\
    (forall a, is_u32 a -> a < NET_SHARED_BASE_ADDR \/ NET_SHARED_BASE_ADDR + 4096 <= a -> m' a = mem k a).
Proof using.
  intros Hr Hl Hb H8. unfold take_slot. rewrite Hr. unfold NET_BUF_MAX_DATA.
  rewrite Z.gtb_ltb, (proj2 (Z.ltb_ge 4088 (rx_len slot))) by lia. cbv zeta.
  destruct (store_loop k NET_BUF_DATA_ADDR (rx_buf slot) (rx_len slot)) as (m1 & -> & P1); [lia | lia | done|].
  rewrite result_bind_Ok. set (l := take (Z.to_nat (rx_len slot)) (rx_buf slot)) in *.
  assert (Ll : Z.of_nat (length l) = rx_len slot) by (unfold l; rewrite length_take; lia).
  pose proof (store_bytes_poked (set_mem k m1) NET_BUF_DATA_LEN_ADDR (Net.le32 (rx_len slot)) ltac:(cbn; lia)) as P2.
  set (m2 := mem (store_bytes (set_mem k m1) NET_BUF_DATA_LEN_ADDR (Net.le32 (rx_len slot)))) in *.
  pose proof (store_bytes_poked (set_mem k m2) NET_BUF_STATUS_ADDR (Net.le32 0) ltac:(cbn; lia)) as P3.
  set (m3 := mem (store_bytes (set_mem k m2) NET_BUF_STATUS_ADDR (Net.le32 0))) in *.
  cbn [mem set_mem] in P2, P3.
  exists m3. split; [reflexivity|].
  assert (Len : forall v, length (Net.le32 v) = 4%nat) by done.
  unfold NET_BUF_STATUS_ADDR, NET_BUF_DATA_LEN_ADDR, NET_BUF_DATA_ADDR, NET_SHARED_BASE_ADDR in *.
  split; [|split; [|split]].
  - change (set_mem k m3) with (set_mem (set_mem k m2) m3).
    rewrite (load_bytes_apart (set_mem k m2) _ _ _ _ _ P3) by (rewrite Len; unfold apart; lia).
    change (set_mem k m2) with (set_mem (set_mem k m1) m2).
    rewrite (load_bytes_apart (set_mem k m1) _ _ _ _ _ P2) by (rewrite Len; unfold apart; lia).
    rewrite <- Ll. by apply load_bytes_poked.
  - rewrite load32_bytes. change (set_mem k m3) with (set_mem (set_mem k m2) m3).
    rewrite (load_bytes_apart (set_mem k m2) _ _ _ _ _ P3) by (rewrite Len; unfold apart; lia).
    rewrite <- load32_bytes. change (set_mem k m2) with (set_mem (set_mem k m1) m2).
    apply (load32_le32 (set_mem k m1)); [exact P2 | zify_words; lia].
  - change (set_mem k m3) with (set_mem (set_mem k m2) m3). apply (load32_le32 (set_mem k m2)); [exact P3 | u32_lit].
  - intros a Ha Hr'. rewrite (pk_out _ _ _ _ P3 a Ha), (pk_out _ _ _ _ P2 a Ha), (pk_out _ _ _ _ P1 a Ha); [done|..].
    all: intros i Hi; rewrite ?Len in Hi; rewrite u32_small by (zify_words; lia); lia.
Qed.

(** The shared page when there is nothing. *)
Lemma take_slot_empty k slot clear :
  rx_ready slot = false ->
  exists m', take_slot k slot clear = Ok (1, set_mem k m') /\
    load32 (set_mem k m') NET_BUF_STATUS_ADDR = 1 /\ load32 (set_mem k m') NET_BUF_DATA_LEN_ADDR = 0 /\
    (forall a, is_u32 a -> a < NET_SHARED_BASE_ADDR \/ NET_SHARED_BASE_ADDR + 4096 <= a -> m' a = mem k a).
Proof using.
  intros Hr. unfold take_slot. rewrite Hr. cbv zeta.
  pose proof (store_bytes_poked k NET_BUF_DATA_LEN_ADDR (Net.le32 0) ltac:(cbn; lia)) as P1.
  set (m1 := mem (store_bytes k NET_BUF_DATA_LEN_ADDR (Net.le32 0))) in *.
  pose proof (store_bytes_poked (set_mem k m1) NET_BUF_STATUS_ADDR (Net.le32 1) ltac:(cbn; lia)) as P2.
  set (m2 := mem (store_bytes (set_mem k m1) NET_BUF_STATUS_ADDR (Net.le32 1))) in *. cbn [mem set_mem] in P2.
  exists m2. split; [reflexivity|]. change (set_mem k m2) with (set_mem (set_mem k m1) m2).
  unfold NET_BUF_STATUS_ADDR, NET_BUF_DATA_LEN_ADDR, NET_SHARED_BASE_ADDR in *.
  split; [apply load32_le32; [exact P2 | u32_lit]|]. split.
  - rewrite load32_bytes, (load_bytes_apart _ _ _ _ _ _ P2), <- load32_bytes by (unfold apart; cbn; lia).
    apply load32_le32; [exact P1 | u32_lit].
  - intros a Ha Hr'. rewrite (pk_out _ _ _ _ P2 a Ha), (pk_out _ _ _ _ P1 a Ha); [done|..].
    all: intros i Hi; cbn in Hi; rewrite u32_small by (zify_words; lia); lia.
Qed.

(** What a receiving call reports from a full slot and from an empty one. *)
Definition handed_over k (slot : rx_slot) (r : result (reply * kernel S)) (slot_of : kernel S -> rx_slot) : Prop :=
  exists k', r = Ok (Value 0, k') /\
    load_bytes k' NET_BUF_DATA_ADDR (rx_len slot) = take (Z.to_nat (rx_len slot)) (rx_buf slot) /\
    load32 k' NET_BUF_DATA_LEN_ADDR = rx_len slot /\ load32 k' NET_BUF_STATUS_ADDR = 0 /\
    rx_ready (slot_of k') = false /\
    (forall a, is_u32 a -> a < NET_SHARED_BASE_ADDR \/ NET_SHARED_BASE_ADDR + 4096 <= a -> mem k' a = mem k a).

Definition nothing k (r : result (reply * kernel S)) : Prop :=
  exists k', r = Ok (Value 1, k') /\
    load32 k' NET_BUF_STATUS_ADDR = 1 /\ load32 k' NET_BUF_DATA_LEN_ADDR = 0 /\ net k' = net k /\
    (forall a, is_u32 a -> a < NET_SHARED_BASE_ADDR \/ NET_SHARED_BASE_ADDR + 4096 <= a -> mem k' a = mem k a).

(** Either call without data: at once, or when only ticks come, after the time limit. *)
Lemma receive_nothing (slot : kernel S -> rx_slot) clear w k timeout env :
  (forall k s, slot (set_instance k s) = slot k) -> rx_ready (slot k) = false ->
  timeout = 0 \/ (exists s esps, Terminal.waiters (tty_of k) = Some s /\ Sched.sched_inv s /\ 0 <= Sched.current_index s /\
    alone s /\ is_u32 timeout /\ length esps = Z.to_nat (ms_to_ticks timeout) /\ env = tick <$> esps) ->
  nothing k (receive slot clear w k timeout env).
Proof using.
  intros Hsl Hr Ht. unfold receive. change (ValidateNetShared NET_BUF_MAX_DATA) with true. cbn [negb].
  assert (Hgo : forall k', rx_ready (slot k') = false -> net k' = net k -> mem k' = mem k ->
    nothing k (after (Ok (None, k')) (fun k => take_slot k (slot k) clear))).
  { intros k' Hr' Hn Hm. destruct (take_slot_empty k' (slot k') clear Hr') as (m' & E & E1 & E2 & E3).
    exists (set_mem k' m'). unfold after. rewrite result_bind_Ok, E, result_bind_Ok. rewrite Hm in E3. done. }
  rewrite Hr. cbn [negb andb]. destruct (Z.eqb_spec timeout 0) as [->|Hne]; cbn [negb]; [by apply Hgo|].
  destruct Ht as [->|(s & esps & Hw & Hinv & Hc & Hal & Hu & Hl & ->)]; [done|].
  assert (Ek : ticks k = Ok (Sched.pit_ticks s)) by (unfold ticks, instance; by rewrite Hw). rewrite Ek, result_bind_Ok.
  assert (Hlim : 0 <= ms_to_ticks timeout < 2 ^ 32) by (apply u32_bounds).
  destruct (sleep_timeout (fun k => rx_ready (slot k)) w (ms_to_ticks timeout) esps k s) as (s' & ->); try done.
  { intros k0 s0. by rewrite Hsl. }
  apply Hgo; [by rewrite Hsl | done | done].
Qed.

End network.

Definition sample_net : Receive.netdev :=
  Receive.register_all (Stack.set_udp_rx (Stack.host_a Stack.TCP_CLOSED)
    (Stack.mkRx ([104; 105; 33] ++ replicate 2045 0) 3 true)).

(** A table with one process, which is running. *)
Definition lone_table : Sched.sched Pmm.state :=
  Sched.mkSched {[ 100 := Sched.sample_proc 1 Sched.PROCESS_RUNNING 1000 (-1) ]} (100 :: replicate 15 0) 1 0 0 0
    (Sched.mm Sched.running_table).

Lemma lone_table_inv : Sched.sched_inv lone_table.
Proof.
  split; cbn; try (unfold Sched.MAX_PROCESSES; lia).
  - done.
  - apply (bool_decide_unpack _). vm_compute. exact I.
  - intros a Ha. change (a ∈ [100]) in Ha. apply list_elem_of_singleton in Ha as ->. split; [done | vm_compute; eauto].
  - intros [|i] p Hp Hr; [done|]. vm_compute in Hp. discriminate Hp.
  - intros p Hp. left. change (p ∈ [Sched.sample_proc 1 Sched.PROCESS_RUNNING 1000 (-1)]) in Hp.
    by apply list_elem_of_singleton in Hp as ->.
Qed.

Lemma lone_alone : alone lone_table.
Proof. intros [|j] p Hp Hne; [done|]. vm_compute in Hp. discriminate Hp. Qed.

(** The sample kernel with that process and a network; the TCP socket is empty. *)
Definition online_kernel : kernel Pmm.state :=
  set_instance (set_net (sample_kernel []) (Some sample_net)) lone_table.


(** ** Files *)

Section buffers.
Context {S : Type} `{FA : FrameAllocator S} (fuel : nat).
Implicit Types k : kernel S.

Lemma cstring_mem k k' n a : mem k' = mem k -> cstring n k' a = cstring n k a.
Proof using.
  intros E. revert a. induction n as [|n IH]; intros a; [done|]. cbn [cstring]. unfold load8. rewrite E, IH. done.
Qed.

(** The 64 KiB buffer of a call comes and goes. *)
Lemma buffer_roundtrip k m lo hi bs :
  heap k = Some m -> Heap.heap_inv lo hi m bs -> (length bs <= fuel)%nat ->
  Heap.spec_malloc 65536 bs <> None ->
  exists p m1 m2, new_buffer fuel k = Ok (p, set_heap k (Some m1)) /\ p <> 0 /\
    (forall k', heap k' = Some m1 -> delete_buffer k' p = Ok (set_heap k' (Some m2))) /\
    Heap.heap_inv lo hi m2 bs.
Proof using.
  intros Hh Hi Hf Hr. unfold new_buffer, Heap.operator_new. rewrite Hh.
  pose proof (Heap.malloc_acts lo hi m bs 65536 fuel Hi ltac:(lia) Hf) as Ha.
  destruct (Heap.spec_malloc 65536 bs) as [[p bs']|] eqn:E; [|done].
  destruct Ha as (m1 & Em & Hi1).
  assert (Hp : p <> 0).
  { destruct (Heap.first_fit 65536 bs) as [Hno|(l & b & r & -> & Hl & Hb)].
    - by rewrite (proj2 (Heap.spec_malloc_None 65536 bs) Hno) in E.
    - rewrite (Heap.spec_malloc_Some 65536 l b r Hl Hb) in E. injection E as <- _.
      pose proof (Heap.inv_tiles _ _ _ _ Hi) as Ht. pose proof (Heap.inv_lo _ _ _ _ Hi) as Hlo.
      destruct (Heap.tiles_bounds _ _ _ b Ht) as (Hb1 & _); [set_solver|]. unfold Heap.sizeof_chunk. lia. }
  destruct (Heap.malloc_then_free lo hi m bs 65536 fuel p m1 Hi) as (m2 & Ef & Hi2); [u32_lit | done | done | done|].
  exists p, m1, m2. rewrite Em, !result_bind_Ok. split; [done|]. split; [done|]. split; [|done].
  intros k' Hk'. unfold delete_buffer, Heap.operator_delete. by rewrite Hk', Ef, !result_bind_Ok.
Qed.

End buffers.

Section files.
Context {S : Type} `{FA : FrameAllocator S}.
Context (junk junk4096 junk64k : list Z) (fuel : nat).
Context (Hjunk : length junk = 512%nat) (Hjunk4 : length junk4096 = Z.to_nat 4096).
Context (Hjunkb : Forall is_u8 junk4096).
Context (H64k : Z.of_nat (length junk64k) = 65536) (H64b : Forall is_u8 junk64k).
Implicit Types k : kernel S.
Import Fat FatVolume FatFiles FatApi.

(** C26: A program reads back the file it wrote.  With a mounted volume that has room, a
    heap with a free block of 64 KiB and a path in user memory that names a file of the
    root directory, [sys_writefile] of a range of user memory succeeds; [sys_readfile]
    of the same path into a range at least as long then returns the length and leaves there
    exactly the bytes that were written, changes no other user memory, and gives the heap back
    as it was.  The bounds are those of the buffer of [sys_readfile]: the range it reads into
    has at most 65536 bytes, and the file, rounded up to whole clusters, takes at most 65536
    bytes; [ReadFile] writes a larger file past the end of that buffer. *)
Theorem file_syscalls_roundtrip k f m lo hi bs l lead comp lold path data len out max_len :
  global_fat32 k = Some f -> volume f -> chain f (root_cluster (bpb f)) l -> l <> [] ->
  component comp -> head comp <> Some 0xE5 -> old_file junk junk4096 fuel f l comp lold ->
  (more_clusters f len + 2 <= length (free_list f))%nat ->
  (length l < fuel)%nat -> (more_clusters f len < fuel)%nat -> (length lold <= fuel)%nat ->
  (Z.of_nat (more_clusters f len) + 1) * cluster_size f <= 65536 ->
  heap k = Some m -> Heap.heap_inv lo hi m bs -> (length bs <= fuel)%nat -> Heap.spec_malloc 65536 bs <> None ->
  (forall x, is_u8 (mem k x)) -> cstring fuel k path = root_path lead comp ->
  IsRing3Range path 1 = true -> IsRing3Range data len = true -> IsRing3Range out max_len = true ->
  0 <= len <= max_len -> max_len <= 65536 ->
  exists f', sys_writefile junk junk4096 fuel k path data len = Ok (0, set_fat k (Some f')) /\ volume f' /\
    exists m2 mm', sys_readfile junk junk4096 junk64k fuel (set_fat k (Some f')) path out max_len =
        Ok (len, set_heap (set_mem (set_fat k (Some f')) mm') (Some m2)) /\
      poked (mem k) out (load_bytes k data len) mm' /\ Heap.heap_inv lo hi m2 bs.
Proof using Hjunk Hjunk4 Hjunkb H64k H64b.
  intros Hfs Hv Hch Hne Hcomp HE5 Hold Hfree Hf1 Hf2 Hf3 Hfit Hh Hi Hbs Hroom H8 Hpath Hp1 Hp2 Hp3 Hlen Hmax.
  assert (Hbl : Z.of_nat (length (load_bytes k data len)) = len) by (apply load_bytes_length; lia).
  assert (Hb8 : Forall is_u8 (load_bytes k data len)) by (by apply load_bytes_u8).
  destruct (WriteFile_ok junk junk4096 Hjunk Hjunk4 Hjunkb fuel f l lead comp lold (load_bytes k data len) len)
    as (f' & E & Hv' & _ & Hread); try done; try lia.
  exists f'. split.
  { unfold sys_writefile. rewrite Hfs, Hp1, Hp2. cbn [negb]. by rewrite Hpath, E, result_bind_Ok. }
  split; [done|]. set (k1 := set_fat k (Some f')).
  destruct (buffer_roundtrip fuel k1 m lo hi bs Hh Hi Hbs Hroom) as (p & m1 & m2 & En & Hp & Ed & Hi2).
  specialize (Hread lead junk64k ltac:(lia) ltac:(lia)). set (n := (Z.of_nat (more_clusters f len) + 1) * cluster_size f) in *.
  set (tmp := pad n (take (Z.to_nat len) (load_bytes k data len)) ++ drop (Z.to_nat n) junk64k) in *.
  assert (Ht : take (Z.to_nat len) (load_bytes k data len) = load_bytes k data len) by (apply take_ge; lia).
  assert (Htmp : exists rest, tmp = load_bytes k data len ++ rest /\ Forall is_u8 rest).
  { unfold tmp, pad. rewrite Ht, <- app_assoc. eexists. split; [reflexivity|]. apply Forall_app.
    split; [apply Forall_replicate; zify_words; lia | by apply Forall_drop]. }
  destruct Htmp as (rest & Etmp & Hrest).
  destruct (store_loop (set_heap k1 (Some m1)) out tmp len) as (mm' & El & Pk).
  { rewrite Etmp, length_app. lia. }
  { lia. }
  { rewrite Etmp. by apply Forall_app. }
  rewrite Etmp, take_app_le, Ht in Pk by lia.
  exists m2, mm'. split; [|done]. unfold sys_readfile. cbn [global_fat32 k1 set_fat]. fold k1.
  rewrite Z.gtb_ltb, (proj2 (Z.ltb_ge 65536 max_len)), Hp1, Hp3 by lia. cbn [negb].
  rewrite En, result_bind_Ok, (proj2 (Z.eqb_neq p 0)) by done.
  rewrite (cstring_mem k (set_heap k1 (Some m1))) by done.
  rewrite Hpath, Hread, result_bind_Ok. cbv zeta. rewrite Z.gtb_ltb, (proj2 (Z.ltb_ge max_len len)) by lia.
  rewrite El, result_bind_Ok, Ed by done. by rewrite result_bind_Ok.
Qed.
End files.

(** A kernel with a small volume, a heap and the path "/hello.txt" in user memory. *)
Definition disk_kernel : kernel Pmm.state :=
  mkKernel (ui (sample_kernel [])) true (Some FatVolume.sample_fs) None
    (Some (Heap.MemoryManager_new 0x00200000 0x00100000))
    (fun x => if (0x00400000 <=? x) && (x <? 0x0040000B)
              then u8 (FatApi.root_path true FatApi.sample_name !!! Z.to_nat (x - 0x00400000)) else u8 (x * 7)).

Lemma file_syscalls_roundtrip_witness :
  exists f', sys_writefile (replicate 512 7) (replicate (Z.to_nat 4096) 7) 20 disk_kernel 0x00400000 0x00401000 700 =
      Ok (0, set_fat disk_kernel (Some f')) /\
    exists m2 mm', sys_readfile (replicate 512 7) (replicate (Z.to_nat 4096) 7) (replicate (Z.to_nat 65536) 0) 20
        (set_fat disk_kernel (Some f')) 0x00400000 0x00402000 4096 =
      Ok (700, set_heap (set_mem (set_fat disk_kernel (Some f')) mm') (Some m2)) /\
      poked (mem disk_kernel) 0x00402000 (load_bytes disk_kernel 0x00401000 700) mm'.
Proof.
  destruct (file_syscalls_roundtrip (replicate 512 7) (replicate (Z.to_nat 4096) 7) (replicate (Z.to_nat 65536) 0) 20
    (length_replicate _ _) (length_replicate _ _) (FatApi.sevens _)
    ltac:(rewrite length_replicate; lia) ltac:(apply Forall_replicate; zify_words; lia)
    disk_kernel FatVolume.sample_fs (Heap.MemoryManager_new 0x00200000 0x00100000) 0x00200000 0x00300000
    [Heap.mkBlock 0x00200000 (0x00100000 - Heap.sizeof_chunk) false] [2] true FatApi.sample_name []
    0x00400000 0x00401000 700 0x00402000 4096)
    as (f' & E1 & _ & m2 & mm' & E2 & Pk & _).
  - reflexivity.
  - exact FatVolume.sample_volume.
  - exact FatApi.sample_root.
  - discriminate.
  - exact FatApi.sample_component.
  - discriminate.
  - unfold FatApi.old_file.
    assert (E : Fat.FindEntry (replicate 512 7) (replicate (Z.to_nat 4096) 7) 20 FatVolume.sample_fs
                  (Fat.root_cluster (Fat.bpb FatVolume.sample_fs)) (FatApi.sample_name ++ [0]) = Ok None)
      by (vm_compute; reflexivity).
    rewrite E. reflexivity.
  - rewrite FatApi.sample_free. vm_compute. lia.
  - cbn. lia.
  - vm_compute. lia.
  - cbn. lia.
  - vm_compute. discriminate.
  - reflexivity.
  - apply (Heap.new_inv 0x00200000 0x00100000); unfold Heap.sizeof_chunk; lia.
  - cbn. lia.
  - vm_compute. discriminate.
  - intros x. cbn. destruct (_ && _); apply u8_bounds.
  - vm_compute. reflexivity.
  - reflexivity.
  - reflexivity.
  - reflexivity.
  - lia.
  - lia.
  - exists f'. split; [exact E1|]. exists m2, mm'. split; [exact E2 | exact Pk].
Defined.

(** ** Input *)

Section input.
Context {S : Type} `{FA : FrameAllocator S}.
Implicit Types k : kernel S.
Import Terminal Input.

Lemma poked_cons k a c l m' :
  is_u8 c -> Z.of_nat (length l) + 1 <= 2 ^ 32 ->
  poked (mem (store8 k a c)) (a + 1) l m' -> poked (mem k) a (c :: l) m'.
Proof using FA.
  intros Hc Hl [Hin Hout]. split.
  - intros [|i] v Hi; cbn in Hi.
    + injection Hi as <-. rewrite Z.add_0_r. rewrite Hout; [cbn; by rewrite Z.eqb_refl, u8_small | apply u32_bounds|].
      intros i Hi. unfold u32. zify_words. Z.div_mod_to_equations. lia.
    + rewrite <- (Hin i v Hi). f_equal. f_equal. lia.
  - intros x Hx Hno. rewrite Hout; [|done|].
    + cbn. destruct (Z.eqb_spec x (u32 a)) as [->|]; [|done]. exfalso. apply (Hno 0%nat); [cbn; lia|].
      by rewrite Z.add_0_r.
    + intros i Hi. specialize (Hno (Datatypes.S i) ltac:(cbn; lia)).
      by replace (a + 1 + Z.of_nat i) with (a + Z.of_nat (Datatypes.S i)) by lia.
Qed.

(** One line is taken from the buffer. *)
Lemma read_chars_line l rest buf i n k :
  KeyboardBuffer.queue_of (keys (tty_of k)) (l ++ 10 :: rest) -> Forall (fun c => is_u8 c /\ c <> 10) l ->
  (length l < n)%nat -> 0 <= i -> i + Z.of_nat (length l) + 1 < 2 ^ 32 ->
  exists kb m', read_chars n buf i k = Ok (i + Z.of_nat (length l) + 1, set_mem (set_keys k kb) m') /\
    KeyboardBuffer.queue_of kb rest /\ poked (mem k) (buf + i) (l ++ [10]) m'.
Proof using FA.
  revert i n k. induction l as [|c l IH]; intros i n k Hq Hl Hn Hi Hlen; destruct n as [|n]; try (cbn in Hn; lia).
  - cbn [read_chars]. destruct (KeyboardBuffer.Dequeue_acts _ _ Hq) as (kb & -> & Hq'). rewrite result_bind_Ok.
    cbn [app KeyboardBuffer.spec_step fst snd List.hd_error List.tl] in *. cbv zeta. cbn [Z.eqb Pos.eqb].
    exists kb, (mem (store8 k (buf + i) 10)). cbn [length] in *. rewrite u32_small by (zify_words; lia).
    split; [f_equal; f_equal; lia|]. split; [done|]. apply poked_cons; [zify_words; lia | cbn; lia|].
    split; [intros j v Hj; by rewrite lookup_nil in Hj | done].
  - apply Forall_cons in Hl as [[Hc Hne] Hl]. cbn [read_chars].
    destruct (KeyboardBuffer.Dequeue_acts _ _ Hq) as (kb & -> & Hq'). rewrite result_bind_Ok.
    cbn [app KeyboardBuffer.spec_step fst snd List.hd_error List.tl length] in *. cbv zeta.
    rewrite (proj2 (Z.eqb_neq c 10)), u32_small by (done || zify_words; lia).
    destruct (IH (i + 1) n (store8 (set_keys k kb) (buf + i) c)) as (kb' & m' & E & Hq2 & Hp); [done | done | lia | lia | lia|].
    exists kb', m'. rewrite E. split; [|split; [done|]].
    + f_equal. f_equal. lia.
    + apply poked_cons; [done | rewrite length_app; cbn; lia|]. replace (buf + i + 1) with (buf + (i + 1)) by lia. exact Hp.
Qed.

Lemma IsEmpty_queue kb q : KeyboardBuffer.queue_of kb q -> KeyboardBuffer.IsEmpty kb = bool_decide (q = []).
Proof using FA.
  intros [_ Hh Ht Hs _]. unfold KeyboardBuffer.IsEmpty, KeyboardBuffer.used in *.
  destruct q as [|c q]; cbn [length] in Hs.
  - rewrite bool_decide_true by done. apply Z.eqb_eq. Z.div_mod_to_equations. lia.
  - rewrite bool_decide_false by done. apply Z.eqb_neq. intros E. rewrite E, Z.sub_diag in Hs.
    change (0 mod 256) with 0 in Hs. lia.
Qed.

(** The session with other processes. *)
Definition with_readers (e : session) r : session := mkSes (typed e) (delivered e) (echo e) r.

(** The table of the session replaced. *)
Lemma serves_table (t : tty S) e (s : Sched.sched S) ps :
  serves t e -> Sched.sched_inv s -> Sched.addrs s = ps.1 -> Sched.procs s = ps.2 ->
  serves (mkTty (term t) (screen t) (keys t) (Some s)) (with_readers e (Some ps)).
Proof using FA. intros [S1 S2 S3 S4 S5 S6 S7 S8 S9 S10 _] Hi Ha Hp. by split. Qed.

Lemma serves_inv (t : tty S) e s :
  serves t e -> waiters t = Some s -> Sched.sched_inv s /\ readers e = Some (Sched.addrs s, Sched.procs s).
Proof using FA.
  intros Hs Hw. pose proof (sv_waiters _ _ Hs) as H. rewrite Hw in H. destruct (readers e) as [[adrs ps]|]; [|done].
  destruct H as (Hi & Ha & Hp). cbn in Ha, Hp. by rewrite Ha, Hp.
Qed.

(** Keys do not change which process is current. *)
Lemma redraw_waiters t (s s' : tty S) : redraw t s = Ok s' -> waiters s' = waiters s.
Proof using. unfold redraw. intros (fb & _ & Hr)%result_bind_inv. by injection Hr as <-. Qed.

Lemma key_waiters (s s' : tty S) c :
  OnKeyPress s c = Ok s' ->
  waiters s' = waiters s \/ KeyboardBuffer.WakeWaiters (waiters s) = Ok (waiters s').
Proof using.
  unfold OnKeyPress. cbv zeta. destruct (raw_input_mode _); [|destruct (c =? 8); [|destruct (c =? 10)]].
  - intros (k & _ & (w & Ew & [= <-])%result_bind_inv)%result_bind_inv. by right.
  - destruct (_ >? 0); [|intros [= <-]; by left]. intros (t & _ & E%redraw_waiters)%result_bind_inv. by left.
  - intros (l1 & _ & (l2 & _ & (t & _ & (k & _ & (w & Ew & E%redraw_waiters)%result_bind_inv)%result_bind_inv)%result_bind_inv)%result_bind_inv)%result_bind_inv.
    right. by rewrite E.
  - destruct (_ && _); [|intros [= <-]; by left]. intros (l & _ & (t & _ & E%redraw_waiters)%result_bind_inv)%result_bind_inv.
    by left.
Qed.

Lemma key_current (s s' : tty S) c w :
  OnKeyPress s c = Ok s' -> waiters s = Some w -> Sched.sched_inv w ->
  exists w', waiters s' = Some w' /\ Sched.current_index w' = Sched.current_index w.
Proof using.
  intros E Hw Hi. apply key_waiters in E as [E|E]; rewrite Hw in E; [by exists w|].
  destruct (Sched.WakeParent_acts w (-2) Hi) as (w' & Ew & _ & _ & Ec & _).
  unfold KeyboardBuffer.WakeWaiters in E. rewrite Ew, result_bind_Ok in E. injection E as E. by exists w'.
Qed.

(** What arrives while a program sleeps: a timer interrupt, with the stack pointer of the
    halted context, or a character typed at the keyboard. *)
Inductive interruption := Tick (esp : Z) | Key (c : Z).

Definition arrives (i : interruption) : arrival S :=
  match i with
  | Tick esp => tick esp
  | Key c => fun k => '(_, u) ← keyboard_run (keystroke c) (KeyboardDriver_new, ui k); Ok (None, set_ui k u)
  end.

Definition typed_in (l : list interruption) : list Z :=
  omap (fun i => match i with Key c => Some c | Tick _ => None end) l.

Lemma key_arrives k s e c :
  terminal_on_top (ui k) -> serves (tty_of k) e -> waiters (tty_of k) = Some s ->
  printable c \/ c = 10 -> (c = 10 -> Z.of_nat (length (typed e)) < 255) ->
  exists u s', arrives (Key c) k = Ok (None, set_ui k u) /\ terminal_on_top u /\ serves (console u) (spec_key e c) /\
    waiters (console u) = Some s' /\ Sched.current_index s' = Sched.current_index s.
Proof using FA.
  intros Ht Hs Hw Hc Hfull. cbn [arrives].
  rewrite (keyboard_run_decoded _ _ _ _ _ (keystroke_decodes c Hc)). cbn [fold_result].
  destruct (key_press (console (ui k)) e c Hs) as (t' & Et & Hs').
  { unfold printable in Hc. zify_words. lia. }
  { exact Hfull. }
  destruct (key_current _ _ _ _ Et Hw (proj1 (serves_inv _ _ _ Hs Hw))) as (s' & Hw' & Ec).
  rewrite (deliver_to_terminal _ _ Ht), Et, !result_bind_Ok.
  eexists _, s'. split; [reflexivity|]. split; [by destruct Ht|]. done.
Qed.

(** The caller is asleep: [text] has been typed on the line, nothing has been delivered, and
    no process of the table [ps] is ready. *)
Record dozing (m : Z -> Z) adrs ps cur (text : list Z) k : Prop := {
  dz_top : terminal_on_top (ui k);
  dz_serves : exists e, serves (tty_of k) e /\ typed e = text /\ delivered e = [] /\ readers e = Some (adrs, ps);
  dz_idle : exists s, waiters (tty_of k) = Some s /\ Sched.idle s /\ Sched.current_index s = cur;
  dz_mem : mem k = m;
}.

Lemma dozing_empty m adrs ps cur text k : dozing m adrs ps cur text k -> has_input k = Ok false.
Proof using FA.
  intros [_ (e & He & _ & Ed & _) _ _]. unfold has_input. by rewrite (IsEmpty_queue _ _ (sv_keys _ _ He)), Ed.
Qed.

Lemma dozing_tick m adrs ps cur text k esp :
  dozing m adrs ps cur text k -> exists k', arrives (Tick esp) k = Ok (None, k') /\ dozing m adrs ps cur text k'.
Proof using FA.
  intros [Ht (e & He & E1 & E2 & E3) (s & Hw & Hi & Ec) Hm]. destruct (serves_inv _ _ _ He Hw) as [Hinv Er].
  rewrite E3 in Er. injection Er as Ea Ep.
  exists (set_instance k (Sched.bump s)). split; [by apply tick_idle|]. split; [by destruct Ht | | by exists (Sched.bump s) | done].
  exists (with_readers e (Some (adrs, ps))). split; [|done].
  apply serves_table; [done | by apply Sched.bump_inv | done | done].
Qed.

Lemma dozing_key m adrs ps cur text k c :
  dozing m adrs ps cur text k -> printable c -> (length text < 255)%nat ->
  exists k', arrives (Key c) k = Ok (None, k') /\ dozing m adrs ps cur (text ++ [c]) k'.
Proof using FA.
  intros [Ht (e & He & E1 & E2 & E3) (s & Hw & Hi & Ec) Hm] Hc Hl. pose proof Hc as Hc'. unfold printable in Hc'.
  destruct (key_arrives k s e c Ht He Hw) as (u & s' & E & Ht' & He' & Hw' & Ec'); [by left | lia |].
  destruct (spec_text e [c]) as (_ & T1 & T2 & T3); [by apply Forall_singleton | rewrite E1; cbn; lia|].
  cbn [foldl] in T1, T2, T3. destruct (serves_inv _ _ _ He' Hw') as [_ Er].
  exists (set_ui k u). split; [exact E|]. rewrite T3, E3 in Er. injection Er as Ea Ep.
  destruct (serves_inv _ _ _ He Hw) as [_ Er]. rewrite E3 in Er. injection Er as _ Ep0.
  split; [done | | | done].
  - exists (spec_key e c). split; [done|]. rewrite T1, T2, T3, E1, E2, E3. done.
  - exists s'. split; [done|]. rewrite Ec'. split; [|done]. destruct Hi as [Hi1 Hi2]. split; [lia|]. by rewrite <- Ep, Ep0.
Qed.

(** The line is complete. *)
Lemma wait_line irqs m adrs ps cur text k :
  dozing m adrs ps cur text k -> Forall (fun i => match i with Key c => printable c | Tick _ => True end) irqs ->
  (length (text ++ typed_in irqs) < 255)%nat ->
  exists k' s', wait_until has_input (arrives <$> (irqs ++ [Key 10])) k = Ok (None, k') /\ mem k' = m /\
    KeyboardBuffer.queue_of (keys (tty_of k')) (text ++ typed_in irqs ++ [10]) /\
    waiters (tty_of k') = Some s' /\ Sched.sched_inv s' /\ Sched.addrs s' = adrs.
Proof using FA.
  revert text k. induction irqs as [|i irqs IH]; intros text k Hd Hk Hl; cbn [app fmap list_fmap wait_until];
    rewrite (dozing_empty _ _ _ _ _ _ Hd), result_bind_Ok.
  - destruct Hd as [Ht (e & He & E1 & E2 & E3) (s & Hw & Hi & Ec) Hm].
    destruct (key_arrives k s e 10 Ht He Hw) as (u & s' & E & Ht' & He' & Hw' & Ec'); [by right | |].
    { intros _. rewrite E1. cbn [typed_in omap list_omap] in Hl. rewrite app_nil_r in Hl. lia. }
    rewrite E, result_bind_Ok. destruct (serves_inv _ _ _ He' Hw') as [Hinv Er].
    unfold spec_key in He', Er. cbn [Z.eqb Pos.eqb] in He', Er. cbn [readers] in Er. rewrite E3 in Er.
    injection Er as Ea Ep. pose proof (sv_keys _ _ He') as Hq. cbn [delivered] in Hq.
    cbn [typed_in omap list_omap app] in *. rewrite app_nil_r in Hl. rewrite E1, E2, deliver_room in Hq by (rewrite length_app; cbn; lia).
    cbn [app] in Hq. exists (set_ui k u), s'. split; [|by split].
    cbn [wait_until]. unfold has_input. change (keys (tty_of (set_ui k u))) with (keys (console u)).
    rewrite (IsEmpty_queue _ _ Hq), bool_decide_false, result_bind_Ok; [done|]. intros En. by apply app_eq_nil in En as [_ ?].
  - apply Forall_cons in Hk as [Hi Hk]. destruct i as [esp|c].
    + destruct (dozing_tick _ _ _ _ _ _ esp Hd) as (k1 & E & Hd1). rewrite E, result_bind_Ok.
      apply (IH text k1 Hd1 Hk). exact Hl.
    + change (typed_in (Key c :: irqs)) with (c :: typed_in irqs) in *.
      destruct (dozing_key _ _ _ _ _ _ c Hd Hi) as (k1 & E & Hd1); [rewrite length_app in Hl; lia|].
      rewrite E, result_bind_Ok. change (c :: typed_in irqs) with ([c] ++ typed_in irqs) in *. rewrite app_assoc in Hl.
      destruct (IH (text ++ [c]) k1 Hd1 Hk Hl) as (k' & s' & E' & H1 & H2 & H3). exists k', s'.
      split; [exact E'|]. split; [done|]. rewrite <- !app_assoc in *. done.
Qed.

(** The caller has fallen asleep. *)
Lemma falls_asleep k s e :
  terminal_on_top (ui k) -> serves (tty_of k) e -> delivered e = [] ->
  waiters (tty_of k) = Some s -> 0 <= Sched.current_index s -> alone s ->
  exists a pr, put_to_sleep k s (-2) a pr /\
    dozing (mem k) (Sched.addrs s) (<[Z.to_nat (Sched.current_index s) := blocked pr (-2)]> (Sched.procs s))
      (Sched.current_index s) (typed e) (set_instance k (Sched.assign s a (blocked pr (-2)))).
Proof using FA.
  intros Ht Hs Hd Hw Hc Hal. destruct (serves_inv _ _ _ Hs Hw) as [Hinv Er].
  destruct (sleeps k s (-2) Hw Hinv Hc) as (a & pr & P). exists a, pr. split; [done|].
  split; [by destruct Ht | | | done].
  - exists (with_readers e (Some (Sched.addrs s, <[Z.to_nat (Sched.current_index s) := blocked pr (-2)]> (Sched.procs s)))).
    split; [|done]. apply serves_table; [done | apply P | done | apply P].
  - eexists. split; [reflexivity|]. split; [by apply (asleep_idle k s (-2) a pr) | done].
Qed.

(** The process that calls sleeps, is woken by the line and runs again. *)
Lemma sleep_line k s e irqs :
  terminal_on_top (ui k) -> serves (tty_of k) e -> typed e = [] -> delivered e = [] ->
  waiters (tty_of k) = Some s -> 0 <= Sched.current_index s -> alone s ->
  Forall (fun i => match i with Key c => printable c | Tick _ => True end) irqs -> (length (typed_in irqs) < 255)%nat ->
  exists k' s' a, sleep (-2) has_input (arrives <$> (irqs ++ [Key 10])) k = Ok (None, k') /\ mem k' = mem k /\
    KeyboardBuffer.queue_of (keys (tty_of k')) (typed_in irqs ++ [10]) /\
    instance k' = Ok s' /\ Sched.GetActive s = Ok a /\
    exists pr', Sched.objs s' !! a = Some pr' /\ Sched.state pr' = Sched.PROCESS_RUNNING.
Proof using FA.
  intros Ht Hs Et Ed Hw Hc Hal Hk Hl. destruct (falls_asleep k s e Ht Hs Ed Hw Hc Hal) as (a & pr & P & Hd). rewrite Et in Hd.
  destruct (wait_line irqs _ _ _ _ _ _ Hd Hk Hl) as (k2 & s2 & E & Em & Hq & Hw2 & Hi2 & Ha2).
  destruct (Sched.si_objs s2 Hi2 a) as [_ [p2 Ho2]].
  { rewrite Ha2. eapply list_elem_of_lookup_2. apply (ps_addr _ _ _ _ _ P). }
  exists (set_instance k2 (Sched.assign s2 a (Sched.set_wait (Sched.set_state p2 Sched.PROCESS_RUNNING) (-1)))).
  eexists _, a. split; [|split; [exact Em|split; [exact Hq|split; [reflexivity|split; [apply (ps_get _ _ _ _ _ P)|]]]]].
  - unfold sleep. rewrite (ps_active _ _ _ _ _ P), result_bind_Ok, (ps_mark _ _ _ _ _ P), result_bind_Ok, E, result_bind_Ok.
    unfold mark, instance. rewrite (proj2 (Z.eqb_neq a 0)), Hw2, result_bind_Ok by apply P.
    unfold Sched.deref. by rewrite Ho2, !result_bind_Ok.
  - eexists. split; [cbn; apply lookup_insert_eq | done].
Qed.

(** C25: A typed line is read by the program, as long as the caller keeps the processor.  A
    process calls [sys_read] on an empty keyboard buffer, with a buffer in the user region (the
    call does not check it), and sleeps.  While no other process is ready, timer interrupts
    and characters may arrive in any order: when the user has typed a line of at most 254
    printable characters and the enter key at the terminal, the process is running again and
    the call returns the number of characters of the line with its terminator, which are
    exactly the bytes now at the buffer; no other user memory has changed and the keyboard
    buffer is empty.  If another process is ready, the first timer interrupt goes to a ready
    process, the call is abandoned without a value and without reading anything, and the entry
    of the sleeping process keeps an older stack pointer. *)
Theorem typed_line_read k s e irqs buf n :
  terminal_on_top (ui k) -> serves (tty_of k) e -> typed e = [] -> delivered e = [] ->
  waiters (tty_of k) = Some s -> 0 <= Sched.current_index s ->
  Forall (fun i => match i with Key c => printable c | Tick _ => True end) irqs ->
  let text := typed_in irqs in
  let len := Z.of_nat (length text) + 1 in
  (length text < 255)%nat -> len <= n -> 0x00400000 <= buf -> buf + len <= 0x00D00000 ->
  (alone s ->
   exists k' s' a pr', sys_read k 0 buf n (arrives <$> (irqs ++ [Key 10])) = Ok (Value len, k') /\
    load_bytes k' buf len = text ++ [10] /\
    (forall x, is_u32 x -> ~ (buf <= x < buf + len) -> mem k' x = mem k x) /\
    KeyboardBuffer.queue_of (keys (tty_of k')) [] /\
    instance k' = Ok s' /\ Sched.GetActive s = Ok a /\ Sched.objs s' !! a = Some pr' /\
    Sched.state pr' = Sched.PROCESS_RUNNING) /\
  (forall esp rest j, 0 <= j -> j <> Sched.current_index s -> Sched.ready_at (Sched.procs s) j = true ->
     Forall (fun p => Sched.cpu_esp p <> esp) (Sched.procs s) ->
   exists k' s' q pr pr', sys_read k 0 buf n (tick esp :: rest) = Ok (Away (Sched.cpu_esp q), k') /\
    q ∈ Sched.procs s /\ Sched.state q = Sched.PROCESS_READY /\ mem k' = mem k /\ instance k' = Ok s' /\
    Sched.current_index s' <> Sched.current_index s /\
    Sched.procs s !! Z.to_nat (Sched.current_index s) = Some pr /\
    Sched.procs s' !! Z.to_nat (Sched.current_index s) = Some pr' /\
    Sched.state pr' = Sched.PROCESS_BLOCKED /\ Sched.cpu_esp pr' = Sched.cpu_esp pr).
Proof using FA.
  intros Htop Hs Ht Hd Hw Hc Hk text len Hl Hn Hb Hbn.
  assert (Hread : forall env, sys_read k 0 buf n env =
    after (sleep (-2) has_input env k) (read_chars (Z.to_nat n) buf 0)).
  { intros env. unfold sys_read. cbn [Z.eqb negb]. rewrite (IsEmpty_queue _ _ (sv_keys _ _ Hs)), Hd. done. }
  split.
  - intros Hal.
    destruct (sleep_line k s e irqs Htop Hs Ht Hd Hw Hc Hal Hk Hl) as (k1 & s' & a & E & Em & Hq & Hi & Hact & pr' & Ho & Hst).
    destruct (read_chars_line text [] buf 0 (Z.to_nat n) k1 Hq) as (kb & m' & Er & Hq' & Hpk); [|lia|lia|lia|].
    { apply Forall_forall. intros c (i & Hi' & Ec)%list_elem_of_omap. rewrite Forall_forall in Hk. specialize (Hk i Hi').
      destruct i; [done|]. injection Ec as ->. unfold printable in Hk. split; [zify_words; lia | lia]. }
    rewrite Z.add_0_r in Hpk. rewrite Z.add_0_l in Er. fold len in Er.
    assert (Hlen : Z.of_nat (length (text ++ [10])) = len) by (rewrite length_app; cbn; lia).
    exists (set_mem (set_keys k1 kb) m'), s', a, pr'. rewrite Hread, E. unfold after. rewrite result_bind_Ok, Er, result_bind_Ok.
    split; [done|]. split; [|split; [|done]].
    + rewrite <- Hlen. by apply (load_bytes_poked (set_keys k1 kb)).
    + intros x Hx Hout. cbn. rewrite (pk_out _ _ _ _ Hpk x Hx), Em; [done|].
      intros i Hi'. rewrite u32_small by (zify_words; lia). lia.
  - intros esp rest j Hj Hne Hrdy Hesp. destruct (serves_inv _ _ _ Hs Hw) as [Hinv _].
    destruct (sleeps k s (-2) Hw Hinv Hc) as (a & pr & P).
    set (s1 := Sched.assign s a (blocked pr (-2))).
    assert (Hr1 : Sched.ready_at (Sched.procs s1) j = true).
    { unfold Sched.ready_at, s1. rewrite (ps_procs _ _ _ _ _ P), list_lookup_insert_ne by lia. exact Hrdy. }
    assert (Hp1 : Sched.procs s1 !! Z.to_nat (Sched.current_index s) = Some (blocked pr (-2))).
    { unfold s1. rewrite (ps_procs _ _ _ _ _ P). apply list_lookup_insert_eq, lookup_lt_is_Some. by exists pr; apply P. }
    destruct (Sched.tick_away s1 esp _ j (ps_inv _ _ _ _ _ P) Hc Hp1 eq_refl Hj Hr1) as (s' & q & Et & Hq & Hqs & _ & Hcur & Hp').
    assert (Hqin : q ∈ Sched.procs s).
    { unfold s1 in Hq. rewrite (ps_procs _ _ _ _ _ P) in Hq. apply list_elem_of_lookup_1 in Hq as [x Hx].
      apply list_lookup_insert_Some in Hx as [(_ & <- & _)|[_ Hx]]; [done | by eapply list_elem_of_lookup_2]. }
    exists (set_instance k s'), s', q, pr, (blocked pr (-2)). split; [|split; [done|]; split; [done|]; split; [done|]; split; [done|]; split; [done|]; split; [apply P|]; done].
    rewrite Hread. unfold sleep. rewrite (ps_active _ _ _ _ _ P), result_bind_Ok, (ps_mark _ _ _ _ _ P), result_bind_Ok.
    fold s1. assert (Hin : has_input (set_instance k s1) = Ok false).
    { unfold has_input. change (keys (tty_of (set_instance k s1))) with (keys (tty_of k)).
      by rewrite (IsEmpty_queue _ _ (sv_keys _ _ Hs)), Hd. }
    cbn [wait_until]. rewrite Hin, result_bind_Ok. unfold tick at 1, instance. cbn [waiters tty_of set_instance set_tty set_ui ui console]. rewrite result_bind_Ok, Et, !result_bind_Ok.
    rewrite Forall_forall in Hesp. rewrite (proj2 (Z.eqb_neq _ esp)) by (by apply Hesp). done.
Qed.
End input.

(** The sample desktop with processes. *)
Definition with_processes (s : Sched.sched Pmm.state) : kernel Pmm.state :=
  let t := Terminal.sample_tty [] in
  mkKernel (Input.mkWorld (Input.text_screen Input.sample_world) (Input.desktop Input.sample_world)
              (Terminal.mkTty (Terminal.term t) (Terminal.screen t) (Terminal.keys t) (Some s)))
    true None None None (fun x => u8 x).

(** Three processes, the first one running and the others ready. *)
Definition busy_kernel : kernel Pmm.state := with_processes Sched.running_table.

Definition session_of (s : Sched.sched Pmm.state) : Terminal.session :=
  with_readers (Terminal.sample_session []) (Some (Sched.addrs s, Sched.procs s)).

Lemma processes_serve s : Sched.sched_inv s -> Terminal.serves (tty_of (with_processes s)) (session_of s).
Proof.
  intros Hi. destruct (Terminal.sample_serves [] ltac:(cbn; lia)) as [H1 H2 H3 H4 H5 H6 H7 H8 H9 H10 _].
  by split.
Qed.

Lemma typed_line_read_witness :
  (exists k', sys_read (with_processes lone_table) 0 0x00450000 64
       (arrives <$> ([Tick 7000; Key 108; Tick 7004; Tick 7000; Key 115; Tick 7000] ++ [Key 10])) = Ok (Value 3, k') /\
     load_bytes k' 0x00450000 3 = [108; 115; 10]) /\
  (exists k' s' q, sys_read busy_kernel 0 0x00450000 64 [tick 7000] = Ok (Away (Sched.cpu_esp q), k') /\ instance k' = Ok s' /\
     q ∈ Sched.procs Sched.running_table /\ Sched.state q = Sched.PROCESS_READY /\ Sched.current_index s' <> 0).
Proof.
  assert (Htop : forall s, Input.terminal_on_top (ui (with_processes s))).
  { intros s. destruct Input.sample_world_top as [Hm Ht]. split; [exact Hm | exact Ht]. }
  split.
  - destruct (typed_line_read (with_processes lone_table) lone_table (session_of lone_table)
      [Tick 7000; Key 108; Tick 7004; Tick 7000; Key 115; Tick 7000] 0x00450000 64 (Htop _)
      (processes_serve _ lone_table_inv) eq_refl eq_refl eq_refl) as [H _].
    + cbn. lia.
    + repeat (apply Forall_cons; split; [unfold Input.printable; first [exact I | lia]|]). apply Forall_nil. exact I.
    + cbn. lia.
    + cbn. lia.
    + lia.
    + cbn. lia.
    + destruct (H lone_alone) as (k' & s' & a & pr' & E1 & E2 & _). exists k'. split; [exact E1 | exact E2].
  - destruct (typed_line_read busy_kernel Sched.running_table (session_of Sched.running_table) [] 0x00450000 64 (Htop _)
      (processes_serve _ Sched.running_table_inv) eq_refl eq_refl eq_refl) as [_ H].
    + cbn. lia.
    + apply Forall_nil. exact I.
    + cbn. lia.
    + cbn. lia.
    + lia.
    + cbn. lia.
    + destruct (H 7000 [] 1) as (k' & s' & q & pr & pr' & E1 & E2 & E3 & _ & E4 & E5 & _).
      * lia.
      * discriminate.
      * vm_compute. reflexivity.
      * repeat (apply Forall_cons; split; [discriminate|]). apply Forall_nil. exact I.
      * exists k', s', q. split; [exact E1|]. split; [exact E4|]. split; [exact E2|]. split; [exact E3 | exact E5].
Defined.

(** ** Termination and dispatch *)

Section dispatch.
Context {S : Type} `{FA : FrameAllocator S}.
Context (junk junk4096 junk64k junk256 : list Z) (fuel : nat).
Implicit Types k : kernel S.

(** The table after [exit]: the caller is dead with its code, and those who wait for
    it are ready. *)
Definition exited (s : Sched.sched S) (pr : Sched.Process) (code : Z) : list Sched.Process :=
  Sched.wake (i32 (Sched.pid pr)) <$>
  <[Z.to_nat (Sched.current_index s) := Sched.set_state (Sched.set_exit_code pr (i32 code)) Sched.PROCESS_DEAD]>
    (Sched.procs s).

Lemma sys_exit_acts k s esp code :
  Terminal.waiters (tty_of k) = Some s -> Sched.sched_inv s -> 0 <= Sched.current_index s ->
  exists a pr s', Sched.GetActive s = Ok a /\ Sched.objs s !! a = Some pr /\
    Sched.procs s !! Z.to_nat (Sched.current_index s) = Some pr /\
    Sched.sched_inv s' /\ Sched.addrs s' = Sched.addrs s /\
    let '(esp', ps', cur') := Sched.rr_step (exited s pr code) (Sched.current_index s) esp in
    sys_exit k esp code = Ok (esp', set_instance k s') /\ Sched.procs s' = ps' /\ Sched.current_index s' = cur'.
Proof using FA.
  intros Hw Hinv Hcur.
  assert (Hlt : Sched.current_index s < Sched.process_count s) by (destruct (Sched.si_cur_lt s Hinv); lia).
  destruct (Sched.slot_ok s (Sched.current_index s) Hinv ltac:(lia)) as (a & pr & Eget & _ & Hne & Ha & Hpr & Ho).
  assert (Hact : Sched.GetActive s = Ok a).
  { unfold Sched.GetActive. by rewrite (proj2 (Z.ltb_ge _ 0)) by lia. }
  set (dead := Sched.set_state (Sched.set_exit_code pr (i32 code)) Sched.PROCESS_DEAD).
  assert (Hi1 : Sched.sched_inv (Sched.assign s a dead)) by (eapply Sched.inv_assign; done).
  assert (Hp1 : Sched.procs (Sched.assign s a dead) = <[Z.to_nat (Sched.current_index s) := dead]> (Sched.procs s))
    by (apply Sched.procs_assign; [apply Hinv | done]).
  destruct (Sched.WakeParent_acts _ (i32 (Sched.pid pr)) Hi1) as (s2 & Ewake & Hi2 & [T1 T2] & Hc2 & _ & Hp2).
  destruct (Sched.Schedule_acts s2 esp Hi2) as (s3 & Esch & Hi3 & [T3 T4] & Hp3 & Hc3 & _).
  exists a, pr, s3. split; [done|]. split; [done|]. split; [done|]. split; [done|].
  split; [unfold Sched.addrs; by rewrite T3, T4, T1, T2|].
  change (Sched.current_index (Sched.assign s a dead)) with (Sched.current_index s) in Hc2.
  rewrite Hp1 in Hp2. change (_ <$> _) with (exited s pr code) in Hp2. rewrite Hp2, Hc2 in Esch, Hp3, Hc3.
  destruct (Sched.rr_step (exited s pr code) (Sched.current_index s) esp) as [[esp' ps'] cur']. cbn [fst snd] in *.
  split; [|done]. unfold sys_exit, active_process, instance.
  rewrite Hw, result_bind_Ok, Hact, result_bind_Ok, (proj2 (Z.eqb_neq a 0)) by done.
  rewrite result_bind_Ok. unfold Sched.deref. rewrite Ho, result_bind_Ok. cbv zeta. fold dead.
  rewrite Ewake, !result_bind_Ok. cbn [Terminal.waiters tty_of set_instance set_tty set_ui ui Input.console].
  by rewrite result_bind_Ok, Esch, !result_bind_Ok.
Qed.

(** A call number the dispatcher does not know. *)
Definition known_calls : list Z := [1; 3; 4; 5; 6; 7; 11; 20; 39; 40; 41; 50; 51; 52; 53; 54; 55; 88; 90; 91; 92; 93; 94].

Lemma unknown_call k esp f env stack0 :
  eax f ∉ known_calls ->
  SyscallDispatch junk junk4096 junk64k junk256 fuel k esp f env stack0 =
    Ok (Resume esp, mkFrame (ebx f) (edx f) (ecx f) failed, k).
Proof using.
  unfold known_calls. intros Hn. unfold SyscallDispatch. cbv zeta. rewrite !not_elem_of_cons in Hn.
  repeat match goal with
  | |- context [if eax f =? ?n then _ else _] => rewrite (proj2 (Z.eqb_neq (eax f) n)) by tauto
  end. done.
Qed.

(** C31: [exit] ends the process.  On a well-formed table with a current process, the
    call marks it dead with its exit code, makes the processes that wait for it ready
    and switches, as the round-robin specification does from that table, to the next
    ready process, whose stack pointer is returned.  A number that is not one of the 23 the
    dispatcher knows returns -1 in [eax] and changes nothing else; 89, which the booklet gives
    for [ls], is such a number, the code lists directories under 40. *)
Theorem exit_and_dispatch k s esp code f env stack0 :
  Terminal.waiters (tty_of k) = Some s -> Sched.sched_inv s -> 0 <= Sched.current_index s ->
  (exists a pr s', Sched.GetActive s = Ok a /\ Sched.objs s !! a = Some pr /\
     Sched.sched_inv s' /\
     let '(esp', ps', cur') := Sched.rr_step (exited s pr code) (Sched.current_index s) esp in
     SyscallDispatch junk junk4096 junk64k junk256 fuel k esp (mkFrame code (edx f) (ecx f) 1) env stack0 =
       Ok (Resume esp', mkFrame code (edx f) (ecx f) 1, set_instance k s') /\
     Sched.procs s' = ps' /\ Sched.current_index s' = cur') /\
  (eax f ∉ known_calls ->
   SyscallDispatch junk junk4096 junk64k junk256 fuel k esp f env stack0 =
     Ok (Resume esp, mkFrame (ebx f) (edx f) (ecx f) failed, k)).
Proof using FA.
  intros Hw Hinv Hcur. split; [|apply unknown_call].
  destruct (sys_exit_acts k s esp code Hw Hinv Hcur) as (a & pr & s' & Hact & Ho & _ & Hi & _ & He).
  exists a, pr, s'. split; [done|]. split; [done|]. split; [done|].
  destruct (Sched.rr_step _ _ _) as [[esp' ps'] cur']. destruct He as (E & Hp & Hc). split; [|done].
  unfold SyscallDispatch. cbn [eax Z.eqb Pos.eqb ebx]. by rewrite E, result_bind_Ok.
Qed.
End dispatch.

Lemma exit_and_dispatch_witness :
  exists s', SyscallDispatch [] [] [] [] 0 busy_kernel 5000 (mkFrame 42 0 0 1) [] [] =
    Ok (Resume 2000, mkFrame 42 0 0 1, set_instance busy_kernel s').
Proof.
  destruct (exit_and_dispatch [] [] [] [] 0 busy_kernel Sched.running_table 5000 42 (mkFrame 42 0 0 1) [] [])
    as [(a & pr & s' & Ea & Ep & _ & H) _].
  - reflexivity.
  - exact Sched.running_table_inv.
  - cbn. lia.
  - vm_compute in Ea. injection Ea as <-. vm_compute in Ep. injection Ep as <-. destruct H as [E _]. exists s'. exact E.
Defined.

End SysProofs.
