(* ===== verification/KernelMain.v ===== *)
(** Start-up as a whole: [kernelMain] of src/src/kernel/kernel.cpp.

    The phases of [kernelMain] compose the constructors of the other files in the order of
    the code: memory and paging, screen and interrupts, drivers, file system, network,
    the first program, graphics, and the scheduler with the shell.  The result is the
    state the system calls work on ([Sys.kernel]) together with the interrupt manager, the
    descriptor tables and the machine.

    Parameters stand for what other tools decide: the sizes of the classes (compiler), the
    addresses of static and local objects (linker, stack), the contents of memory that the
    code does not initialise, the stubs of the interrupt vectors (assembly) and the image
    of the shell (linked in).  The drive is the abstract disk that the port-level driver
    implements (Ata.v); frames handed to the network card are the [wire] of its host. *)

From stdpp Require Import base numbers list gmap strings.
From Stdlib Require Import ZArith Lia Ascii.
From S2P Require Import Prelude Pmm Heap Paging Scheduler KeyboardBuffer Net NetStack Tcp NetReceive NetSafety Fat32 Cpu Console Vga Ports Ata Drivers Rtl8139 Pci Graphics BootAnim Boot Terminal Gui Input Ps2 Syscall.

Module Kernel.
Import Ports.

(** ** Parameters *)

(** The interrupt handler objects of the kernel. *)
Inductive handler := KeyboardH | MouseH | DriverH (object : nat) | TimerH.

Record class_sizes := mkSizes {
  sizeof_ATADriver : Z;
  sizeof_RTL8139Driver : Z;
  sizeof_FAT32 : Z;
  sizeof_ARPHandler : Z;
  sizeof_IPv4Handler : Z;
  sizeof_ICMPHandler : Z;
  sizeof_UDPSocket : Z;
  sizeof_TCPSocket : Z;
  sizeof_SchedulerTimer : Z;
}.

Record places := mkPlaces {
  tss_at : Z;
  gdt_at : Z;
  idt_at : Z;
  rx_buffer_at : Z;
  shell_proc_at : Z;
}.

(** Memory the code reads or keeps before it has written it. *)
Record memory0 := mkMem0 {
  tss0 : list Z;
  pmm_bitmap : list Z;
  idt0 : list Cpu.GateDescriptor;
  handlers0 : list (option handler);
  key_buffer0 : KeyboardBuffer.t;
  mouse_buffer0 : list Z;
  drivers0 : list (option nat);
  bars0 : Pci.bars;
  mac0 : list Z;
  identify0 : list Z;
  sector0 : list Z;
  mbr0 : list Z;
  bpb0 : Fat.FAT32BPB;
  windows0 : list (option Gui.Widget);
  grid0 : list Z;
  colors0 : list Z;
  line0 : list Z;
  shell_stack0 : list Z;
  user0 : Z -> Z;
}.

(** The text of a literal, without and with its terminator. *)
Definition chars (s : string) : list Z := (fun c => Z.of_nat (Ascii.nat_of_ascii c)) <$> String.list_ascii_of_string s.
Definition literal (s : string) (tail : list Z) : list Z := chars s ++ tail ++ [0].

(** ** The network objects *)

(** The static variables of the stack are zero at start; [mac] is the card's address. *)
Definition static_host (mac : list Z) (tx_current : Z) : Stack.host :=
  Stack.mkHost mac (replicate 4 (replicate 1536 0)) tx_current []
    (replicate 128 (Stack.mkEntry (replicate 4 0) (replicate 6 0) false)) (replicate 4 0) (replicate 4 0) 0
    (replicate 1500 0) (replicate 64 0) 0 (replicate 1472 0) (Stack.mkRx (replicate 2048 0) 0 false)
    (Tcp.TCPSocket_new 0 (replicate (Z.to_nat 8192) 0) (replicate 1480 0) (replicate 1500 0))
    (Stack.mkRx (replicate 2048 0) 0 false).

(** The base class of the card: no handler is registered. *)
Definition EthernetDriver_new (h : Stack.host) : Receive.netdev := Receive.mkDev h [] [].

Definition ARPHandler_new (local_ip : list Z) (h : Stack.host) : Stack.host :=
  Stack.mkHost (Stack.mac h) (Stack.tx_buffers h) (Stack.tx_current h) (Stack.wire h) (Stack.arp_cache h) local_ip
    (Stack.local_ip h) (Stack.id_counter h) (Stack.ip_tx h) (Stack.icmp_tx h) (Stack.udp_port h) (Stack.udp_tx h)
    (Stack.udp_rx h) (Stack.tcp h) (Stack.tcp_rx h).

Definition IPv4Handler_new (local_ip : list Z) (d : Receive.netdev) : Receive.netdev :=
  let h := Receive.hst d in
  Receive.mkDev
    (Stack.mkHost (Stack.mac h) (Stack.tx_buffers h) (Stack.tx_current h) (Stack.wire h) (Stack.arp_cache h)
       (Stack.arp_ip h) local_ip 0 (Stack.ip_tx h) (Stack.icmp_tx h) (Stack.udp_port h) (Stack.udp_tx h)
       (Stack.udp_rx h) (Stack.tcp h) (Stack.tcp_rx h))
    (Receive.eth_handlers d) [].

Definition SyscallUDPSocket_new (local_port : Z) (h : Stack.host) : Stack.host :=
  Stack.mkHost (Stack.mac h) (Stack.tx_buffers h) (Stack.tx_current h) (Stack.wire h) (Stack.arp_cache h)
    (Stack.arp_ip h) (Stack.local_ip h) (Stack.id_counter h) (Stack.ip_tx h) (Stack.icmp_tx h) local_port
    (Stack.udp_tx h) (Stack.udp_rx h) (Stack.tcp h) (Stack.tcp_rx h).

Definition SyscallTCPSocket_new (local_port : Z) (h : Stack.host) : Stack.host :=
  let t := Stack.tcp h in
  Stack.set_tcp h (Tcp.TCPSocket_new local_port (Stack.t_rx_buf t) (Stack.t_tx_buf t) (Stack.t_scratch t)).

(** ** The phases *)

Section kernel.
Context {D : Type} `{PortIO D}.
Context (sizes : class_sizes) (at_ : places) (m0 : memory0).
Context (isr : Z -> Z) (ignore_interrupt_request : Z).
(** Fuel for the heap walks and for the waiting loops of the mouse. *)
Context (fuel polls : nat).

Notation vm := (Paging.vm Pmm.state).
Notation heap := (option Heap.MemoryManager).

(** [new] runs the constructor on whatever the allocator returns. *)
Definition new (size : Z) (h : heap) : result (Z * heap) :=
  '(p, h) ← Heap.operator_new fuel h size;
  if p =? 0 then Err BadPointer else Ok (p, h).

(** The writes to ports among the effects reach the machine. *)
Definition run_effects (es : list Cpu.effect) (d : D) : D :=
  foldl (fun d e => match e with Cpu.OutB p v => Port8Bit_Write p v d | _ => d end) d es.

(** Segments, heap, frames and paging. *)
Definition start_memory (mb : Boot.MultibootInfo) (map : list Z)
    : result (list Z * Cpu.GlobalDescriptorTable * list Cpu.effect * heap * vm) :=
  tss ← Cpu.TaskStateSegment_new (tss0 m0);
  let '(gdt, es) := Cpu.GlobalDescriptorTable_new (gdt_at at_) (Some (tss_at at_)) in
  '(mm, frames) ← Boot.memory_init mb map (pmm_bitmap m0);
  '(dir, h) ← new Sys.sizeof_PageDirectory (Some mm);
  v ← Paging.PagingManager_Init (Paging.mkVm ∅ frames ∅ 0 0 false) dir;
  v ← Paging.Enable v (Paging.GetKernelDirectory v);
  Ok (tss, gdt, es, h, v).

(** The constructors of the keyboard and of the mouse driver: a handler, and for the mouse
    the dialogue with the controller. *)
Definition start_input (im : Cpu.InterruptManager handler) (d : D)
    : result (Cpu.InterruptManager handler * Input.KeyboardDriver * Input.MouseDriver * D) :=
  im ← Cpu.InterruptHandler_new im KeyboardH (u8 (Cpu.hardware_interrupt_offset im + 0x01));
  im ← Cpu.InterruptHandler_new im MouseH (u8 (Cpu.hardware_interrupt_offset im + 0x0C));
  '(mouse, d) ← Input.MouseDriver_new polls (mouse_buffer0 m0) d;
  Ok (im, Input.KeyboardDriver_new, mouse, d).

(** Allocations for the driver objects, in the order they are found; nothing else uses the
    heap during the scan. *)
Definition sizeof_driver (o : Pci.driver) : Z :=
  match o with Pci.DAta => sizeof_ATADriver sizes | Pci.DRtl _ => sizeof_RTL8139Driver sizes end.
Definition allocate_drivers (objs : list Pci.driver) (h : heap) : result heap :=
  fold_result (fun o h => '(_, h) ← new (sizeof_driver o) h; Ok h) objs h.

(** [Activate] of the driver object [p]. *)
Definition activate (p : nat) (s : list Pci.driver * Vga.vga * D) : result (list Pci.driver * Vga.vga * D) :=
  let '(objs, v, d) := s in
  match objs !! p with
  | None => Err BadPointer
  | Some Pci.DAta => '(v, d) ← Ata.Activate (identify0 m0) v d; Ok (objs, v, d)
  | Some (Pci.DRtl r) =>
      '(r, v, d) ← Rtl.Activate (rx_buffer_at at_) r v d;
      Ok (<[p := Pci.DRtl r]> objs, v, d)
  end.

Record devices := mkDevices {
  dv_interrupts : Cpu.InterruptManager handler;
  dv_keys : KeyboardBuffer.t;
  dv_keyboard : Input.KeyboardDriver;
  dv_mouse : Input.MouseDriver;
  dv_objs : list Pci.driver;
  dv_manager : Drivers.DriverManager nat;
  dv_tx_current : Z;
  dv_screen : Vga.vga;
}.

(** Screen, interrupts, keyboard, mouse, PCI. *)
Definition start_devices (v : Vga.vga) (h : heap) (d : D) : result (devices * list Cpu.effect * heap * D) :=
  v ← Vga.Clear v;
  v ← Vga.Print v (literal "Kernel loaded" [10]);
  '(im, es) ← Cpu.InterruptManager_new isr ignore_interrupt_request 0x20 (idt_at at_) (idt0 m0) (handlers0 m0);
  let d := run_effects es d in
  let keys := KeyboardBuffer.Init (key_buffer0 m0) in
  '(im, keyboard, mouse, d) ← start_input im d;
  dm ← Drivers.DriverManager_new (drivers0 m0);
  s ← Pci.SelectDrivers DriverH (mac0 m0) (bars0 m0) (Pci.mkProbe d v im [] dm 0);
  h ← allocate_drivers (Pci.objs s) h;
  '(objs, v, d) ← Drivers.ActivateAll (Pci.manager s) activate (Pci.objs s, Pci.screen s, Pci.ports s);
  Ok (mkDevices (Pci.interrupts s) keys keyboard mouse objs (Pci.manager s) (Pci.tx_current s) v, es, h, d).

(** One attempt to mount: [new FAT32], [Mount], and [delete] when it fails. *)
Definition new_volume (drive : Fat.disk) (p : Fat.MBRPartitionEntry) (h : heap) : result (option Fat.FAT32 * heap) :=
  '(a, h) ← new (sizeof_FAT32 sizes) h;
  f ← Boot.try_mount (sector0 m0) (bpb0 m0) drive p;
  match f with
  | Some f => Ok (Some f, h)
  | None => h ← Heap.operator_delete h a; Ok (None, h)
  end.

Definition start_storage (dv : devices) (drive : Fat.disk) (h : heap) : result (option Fat.FAT32 * heap) :=
  ata ← Boot.find_driver (dv_manager dv) (dv_objs dv) 0x0101;
  match ata with
  | None => Ok (None, h)
  | Some _ =>
      '(ok, m) ← Fat.MBR_Read drive (mbr0 m0);
      count ← (if (ok : bool) then Fat.PartitionCount m else Ok 0);
      '(f, h) ← (if (ok : bool) && (count >? 0)
                 then p ← Fat.GetPartition m 0; new_volume drive p h
                 else Ok (None, h));
      match f with
      | Some f => Ok (Some f, h)
      | None => new_volume drive (Fat.mkPart 0 0 0) h
      end
  end.

(** The card ([global_nic]), the five network objects, their registration and the first ARP
    request. *)
Definition start_network (dv : devices) (h : heap) : result (option (nat * Receive.netdev) * heap) :=
  nic ← Boot.find_driver (dv_manager dv) (dv_objs dv) 0x8139;
  match nic with
  | None => Ok (None, h)
  | Some p =>
      match dv_objs dv !! p with
      | Some (Pci.DRtl r) =>
          let local_ip := Net.FromBytes 10 0 2 15 in
          let d := EthernetDriver_new (static_host (Rtl.mac r) (dv_tx_current dv)) in
          '(_, h) ← new (sizeof_ARPHandler sizes) h;
          let d := Receive.with_host d (ARPHandler_new local_ip (Receive.hst d)) in
          '(_, h) ← new (sizeof_IPv4Handler sizes) h;
          let d := IPv4Handler_new local_ip d in
          '(_, h) ← new (sizeof_ICMPHandler sizes) h;
          '(_, h) ← new (sizeof_UDPSocket sizes) h;
          let d := Receive.with_host d (SyscallUDPSocket_new 1234 (Receive.hst d)) in
          '(_, h) ← new (sizeof_TCPSocket sizes) h;
          let d := Receive.with_host d (SyscallTCPSocket_new 1234 (Receive.hst d)) in
          let d := Receive.Eth_RegisterHandler d Stack.ETHERTYPE_ARP Receive.HARP in
          let d := Receive.Eth_RegisterHandler d Stack.ETHERTYPE_IPV4 Receive.HIPv4 in
          let d := Receive.IPv4_RegisterHandler d Stack.IPV4_PROTO_ICMP Receive.HICMP in
          let d := Receive.IPv4_RegisterHandler d Stack.IPV4_PROTO_UDP Receive.HUDP in
          let d := Receive.IPv4_RegisterHandler d Stack.IPV4_PROTO_TCP Receive.HTCP in
          host ← Stack.SendRequest (Receive.hst d) (Net.FromBytes 10 0 2 2);
          Ok (Some (p, Receive.with_host d host), h)
      | _ => Err BadPointer
      end
  end.

(** [p[i] = x] on user memory. *)
Definition poke (mem : Z -> Z) (a x : Z) : Z -> Z := fun b => if b =? u32 a then u8 x else mem b.

(** The shell at 0x400000 and a clean network page. *)
Definition load_program (image : list Z) (mem : Z -> Z) : result (Z -> Z) :=
  mem ← for_result 0 (Z.of_nat (length image))
          (fun i mem => x ← arr_get image i; Ok (poke mem (0x00400000 + i) x)) mem;
  Ok (for_range 0 4096 (fun i mem => poke mem (Sys.NET_SHARED_BASE_ADDR + i) 0) mem).

(** Timer, graphics mode, boot animation, desktop and terminal; [fb] is the frame buffer. *)
Definition start_screen (v : Vga.vga) (fb : list Z) (d : D)
    : result (Vga.vga * Gui.Desktop Gui.Widget * Terminal.Terminal * list Z * D) :=
  let d := Boot.start_timer d in
  let '(v, d) := Graphics.EnterGraphicsMode v d in
  let d := Boot.set_colors d in
  '(fb, d) ← BootAnim.BootAnimation fb d;
  desktop ← Gui.Desktop_new 320 200 0 (windows0 m0);
  term ← Terminal.Terminal_new 0 0 320 200 (grid0 m0) (colors0 m0) (line0 m0);
  desktop ← Gui.AddWindow desktop (Gui.mkWidget 0 0 320 200);
  '(term, fb) ← Terminal.Print term fb (literal "Frodo OS 1.0    One Ring to rule them all" [10]);
  '(term, fb) ← Terminal.Print term fb (literal "Type 'help' for available commands." [10; 10]);
  Ok (v, desktop, term, fb, d).

(** The scheduler with its timer, and the shell as process 1. *)
Definition start_shell (tss : list Z) (im : Cpu.InterruptManager handler) (h : heap) (v : vm)
    : result (Sched.sched Pmm.state * Cpu.InterruptManager handler * heap) :=
  esp0 ← Net.get32 tss Cpu.off_esp0;
  '(_, h) ← new (sizeof_SchedulerTimer sizes) h;
  im ← Cpu.InterruptHandler_new im TimerH 32;
  '(dir, h) ← (if Paging.GetKernelDirectory v =? 0 then Ok (0, h) else new Sys.sizeof_PageDirectory h);
  '(shell, v) ← Sched.Process_new v (shell_proc_at at_) dir 0x00400000 1 (shell_stack0 m0);
  let s := Sched.Scheduler_new {[ shell_proc_at at_ := shell ]} esp0 v in
  s ← Sched.AddProcess s (shell_proc_at at_);
  Ok (s, im, h).

(** What start-up leaves. *)
Record system := mkSystem {
  sy_kernel : Sys.kernel Pmm.state;
  sy_interrupts : Cpu.InterruptManager handler;
  sy_gdt : Cpu.GlobalDescriptorTable;
  sy_keyboard : Input.KeyboardDriver;
  sy_mouse : Input.MouseDriver;
  sy_drivers : list Pci.driver;
  sy_manager : Drivers.DriverManager nat;
  sy_nic : option nat;               (** [global_nic] *)
  sy_active : bool;                  (** [InterruptManager::active_manager] is set *)
  sy_effects : list Cpu.effect;      (** in order *)
  sy_machine : D;
}.

Definition kernelMain (mb : Boot.MultibootInfo) (map image : list Z) (drive : Fat.disk) (v : Vga.vga) (fb : list Z)
    (d : D) : result system :=
  '(tss, gdt, es1, h, pages) ← start_memory mb map;
  '(dv, es2, h, d) ← start_devices v h d;
  '(fat, h) ← start_storage dv drive h;
  '(net, h) ← start_network dv h;
  mem ← load_program image (user0 m0);
  '(v, desktop, term, fb, d) ← start_screen (dv_screen dv) fb d;
  '(s, im, h) ← start_shell tss (dv_interrupts dv) h pages;
  let '(active, es3) := Cpu.Activate false in
  let ui := Input.mkWorld v (Some desktop) (Terminal.mkTty term fb (dv_keys dv) (Some s)) in
  Ok (mkSystem (Sys.mkKernel ui true fat (snd <$> net) h mem) im gdt (dv_keyboard dv) (dv_mouse dv) (dv_objs dv)
        (dv_manager dv) (fst <$> net) active (es1 ++ es2 ++ es3) d).
End kernel.
End Kernel.
