(* ===== verification/KernelBoot.v ===== *)
(** Start-up is correct: the phases of [kernelMain] (KernelMain.v) one by one, and the
    theorem on the whole: on a machine with enough memory, a PCI bus and a keyboard
    controller, the kernel reaches its idle loop without a fault, in a state that
    satisfies what the theorems of the other files assume. *)

From stdpp Require Import base numbers list gmap strings.
From Stdlib Require Import ZArith Lia.
From S2P Require Import Prelude Pmm Heap Paging Scheduler KeyboardBuffer Net NetStack Tcp NetReceive NetSafety Fat32 Cpu Console Vga Ports Ata Drivers Rtl8139 Pci Graphics BootAnim Boot Terminal Gui Input Ps2 Syscall SyscallProofs KernelMain.

Module KernelBoot.
Import Ports Kernel.

#[local] Existing Instances Pci.pci_ports Ps2.ps2_ports.

(** ** Allocations at start-up *)

(** All blocks of the heap are in use but the last, which has [f] free bytes and whose
    header is at [a]. *)
Definition room (lo hi a f : Z) (h : option Heap.MemoryManager) : Prop :=
  exists m us, h = Some m /\ Forall (fun b => Heap.bused b = true) us /\
    Heap.heap_inv lo hi m (us ++ [Heap.mkBlock a f false]).

Definition cost (n : Z) : Z := n + Heap.sizeof_chunk.
Fixpoint total {A} (size : A -> Z) (l : list A) : Z :=
  match l with [] => 0 | x :: l => cost (size x) + total size l end.

Lemma total_nonneg {A} (size : A -> Z) (l : list A) : (forall x, x ∈ l -> 0 <= size x) -> 0 <= total size l.
Proof.
  intros Hs. induction l as [|y l IH]; cbn; [done|]. assert (0 <= size y) by (apply Hs; set_solver).
  unfold cost, Heap.sizeof_chunk in *. specialize (IH ltac:(intros z Hz; apply Hs; set_solver)). lia.
Qed.

(** The free block ends the heap. *)
Lemma room_ends lo hi a f h : room lo hi a f h -> lo <= a /\ a + Heap.sizeof_chunk + f = hi.
Proof.
  intros (m & us & _ & _ & Hinv). destruct (proj1 (Heap.tiles_app _ _ _ _) (Heap.inv_tiles _ _ _ _ Hinv)) as (mid & Ht & Hl).
  destruct Hl as (<- & _ & Hl). apply Heap.tiles_le in Ht. cbn in Hl. done.
Qed.

Section allocation.
Context (lo hi : Z) (fuel : nat) (Hfuel : (Heap.heap_fuel lo hi <= fuel)%nat).

(** What [malloc] does to such a heap. *)
Lemma malloc_room m us a f n :
  Forall (fun b => Heap.bused b = true) us -> Heap.heap_inv lo hi m (us ++ [Heap.mkBlock a f false]) ->
  0 <= n -> cost n < f ->
  exists m', Heap.malloc fuel m n = Ok (a + Heap.sizeof_chunk, m') /\ 0 < a /\
    Heap.heap_inv lo hi m' ((us ++ [Heap.mkBlock a n true]) ++ [Heap.mkBlock (a + cost n) (f - cost n) false]).
Proof using Hfuel.
  intros Hus Hinv Hn Hf. unfold cost, Heap.sizeof_chunk in *.
  pose proof (Heap.malloc_acts lo hi m _ n fuel Hinv Hn) as HM.
  rewrite Heap.spec_malloc_Some in HM.
  - destruct HM as (m' & E & Hinv'); [pose proof (Heap.heap_fuel_enough _ _ _ _ Hinv); lia|].
    exists m'. split; [exact E|]. split.
    + destruct (Heap.tiles_bounds _ _ _ (Heap.mkBlock a f false) (Heap.inv_tiles _ _ _ _ Hinv)) as [Hb _]; [set_solver|].
      pose proof (Heap.inv_lo _ _ _ _ Hinv). cbn in Hb. lia.
    + unfold Heap.place in Hinv'. cbn [Heap.bsize Heap.baddr] in Hinv'. unfold Heap.sizeof_chunk in Hinv'.
      rewrite Z.gtb_ltb, (proj2 (Z.ltb_lt (n + 13) f)) in Hinv' by lia.
      rewrite app_nil_r in Hinv'. rewrite <- app_assoc. cbn [app].
      by replace (a + (n + 13)) with (a + 13 + n) by lia; replace (f - (n + 13)) with (f - n - 13) by lia.
  - intros x Hx. unfold Heap.unfit. rewrite Forall_forall in Hus. by rewrite Hus.
  - unfold Heap.unfit. cbn. apply Z.ltb_ge. lia.
Qed.

Lemma new_room h a f n :
  room lo hi a f h -> 0 <= n -> cost n < f ->
  returns (new fuel n h) (fun '(p, h') => p = a + Heap.sizeof_chunk /\ room lo hi (a + cost n) (f - cost n) h').
Proof using Hfuel.
  intros (m & us & -> & Hus & Hinv) Hn Hf. unfold new, Heap.operator_new.
  destruct (malloc_room m us a f n Hus Hinv Hn Hf) as (m' & -> & Ha & Hinv'). rewrite !result_bind_Ok.
  destruct (Z.eqb_spec (a + Heap.sizeof_chunk) 0); [unfold Heap.sizeof_chunk in *; lia|]. apply returns_Ok.
  split; [done|]. exists m', (us ++ [Heap.mkBlock a n true]). split; [done|]. split; [|done].
  apply Forall_app. split; [done|]. by apply Forall_singleton.
Qed.

(** An object that is deleted again. *)
Lemma new_delete h a f n :
  room lo hi a f h -> is_u32 n -> cost n < f ->
  returns (new fuel n h) (fun '(p, h') => room lo hi (a + cost n) (f - cost n) h' /\
    returns (Heap.operator_delete h' p) (room lo hi a f)).
Proof using Hfuel.
  intros Hr Hn Hf. destruct (new_room h a f n Hr (proj1 Hn) Hf) as ([p h'] & E & -> & Hr').
  rewrite E. apply returns_Ok. split; [done|]. destruct Hr as (m & us & -> & Hus & Hinv).
  unfold new, Heap.operator_new in E. destruct (malloc_room m us a f n Hus Hinv (proj1 Hn) Hf) as (m' & Em & Ha & _).
  rewrite Em in E. rewrite !result_bind_Ok in E. case_match; [done|]. injection E as <-.
  destruct (Heap.malloc_then_free lo hi m _ n fuel (a + Heap.sizeof_chunk) m' Hinv Hn) as (m2 & Ef & Hinv2);
    [pose proof (Heap.heap_fuel_enough _ _ _ _ Hinv); lia | exact Em | unfold Heap.sizeof_chunk; lia |].
  unfold Heap.operator_delete. rewrite Ef, result_bind_Ok. apply returns_Ok. by exists m2, us.
Qed.

(** Several objects. *)
Lemma new_all {A} (size : A -> Z) (l : list A) h a f :
  (forall x, x ∈ l -> 0 <= size x) -> room lo hi a f h -> 0 < f - total size l ->
  returns (fold_result (fun x h => '(_, h) ← new fuel (size x) h; Ok h) l h)
    (fun h' => exists a', a <= a' /\ room lo hi a' (f - total size l) h').
Proof using Hfuel.
  revert h a f. induction l as [|x l IH]; intros h a f Hs Hr Hf; cbn [fold_result total] in *.
  - apply returns_Ok. exists a. split; [done|]. by rewrite Z.sub_0_r.
  - assert (Hx : 0 <= size x) by (apply Hs; set_solver).
    assert (Hp : 0 <= total size l) by (apply total_nonneg; intros z Hz; apply Hs; set_solver).
    eapply returns_bind.
    { eapply returns_bind; [apply (new_room h a f (size x)); [done | done | lia]|].
      intros [p h'] [_ Hr']. apply returns_Ok. exact Hr'. }
    cbn beta. intros h' Hr'.
    eapply returns_mono; [apply (IH h' _ _ ltac:(intros y Hy; apply Hs; set_solver) Hr'); lia|].
    intros h2 (a' & Ha & Hr2). exists a'. unfold cost, Heap.sizeof_chunk in *. split; [lia|].
    by replace (f - (size x + 13 + total size l)) with (f - (size x + 13) - total size l) by lia.
Qed.
End allocation.

(** ** Memory and paging *)

(** What the code relies on of the memory it starts from: the sizes of the objects. *)
Record memory0_wf (m : memory0) : Prop := {
  w_tss : length (tss0 m) = 104%nat;
  w_bitmap : length (pmm_bitmap m) = Z.to_nat 32768 /\ Forall is_u32 (pmm_bitmap m);
  w_idt : length (idt0 m) = 256%nat;
  w_handlers : length (handlers0 m) = 256%nat;
  w_keys : length (KeyboardBuffer.buffer (key_buffer0 m)) = 256%nat;
  w_mouse : length (mouse_buffer0 m) = 3%nat;
  w_drivers : length (drivers0 m) = 256%nat;
  w_bars : Pci.bars_ok (bars0 m);
  w_mac : length (mac0 m) = 6%nat;
  w_identify : length (identify0 m) = 512%nat;
  w_windows : length (windows0 m) = 16%nat;
  w_grid : length (grid0 m) = 920%nat;
  w_colors : length (colors0 m) = 920%nat;
  w_line : length (line0 m) = 256%nat;
  w_stack : length (shell_stack0 m) = 1024%nat;
  w_user : forall x, is_u8 (user0 m x);
}.

Lemma tss_made junk : length junk = 104%nat -> returns (Cpu.TaskStateSegment_new junk) (fun t => length t = 104%nat).
Proof.
  intros Hl. unfold Cpu.TaskStateSegment_new, Cpu.sizeof_TSS. rewrite Console.fill_loop, result_bind_Ok by (rewrite ?Hl; lia).
  set (t := take _ junk ++ _).
  assert (Lt : length t = 104%nat) by (unfold t; rewrite !length_app, length_take, length_replicate, length_drop; lia).
  rewrite Net.put_bytes_ok, result_bind_Ok by (unfold Cpu.off_ss0; rewrite ?Lt; cbn; lia). set (t2 := take _ t ++ _).
  assert (Lt2 : length t2 = 104%nat)
    by (unfold t2; rewrite !length_app, length_take, length_drop, Lt; unfold Cpu.off_ss0; cbn; lia).
  rewrite Net.put_bytes_ok by (unfold Cpu.off_iomap_base; rewrite ?Lt2; cbn; lia). apply returns_Ok.
  rewrite !length_app, length_take, length_drop, Lt2. unfold Cpu.off_iomap_base. cbn. lia.
Qed.

(** Paging as start-up leaves it: the kernel directory [k] maps the first 16 MB to itself. *)
Record kernel_paged (k : Z) (v : Paging.vm Pmm.state) : Prop := {
  kp_wf : Paging.vm_wf v;
  kp_on : Paging.paging_on v = true;
  kp_kernel : Paging.kernel_dir v = k;
  kp_dirs : exists kd, Paging.dirs v = {[ k := kd ]} /\
    Paging.cr3 v = Paging.phys_dir kd /\
    (forall j, 0 <= j < 4 -> Paging.tab kd j <> 0) /\
    (forall va, is_u32 va -> Paging.leaf v kd va =
       if va / 4096 <? 4096 then Paging.new_pte (va / 4096 * 4096) Paging.PAGE_KERNEL else 0);
  kp_frames : fa_avail (Paging.pmm v) <> ∅;
}.
Lemma blank_vm_wf frames :
  Pmm.inv frames -> 0 ∉ Pmm.free_set frames -> Paging.vm_wf (Paging.mkVm ∅ frames ∅ 0 0 false).
Proof. intros Hi H0. split; [done | done | ..]; cbn [Paging.dirs]; intros; by simplify_map_eq. Qed.

Section memory.
Context (m0 : memory0) (Hm0 : memory0_wf m0) (at_ : places) (fuel : nat).
Context (mb : Boot.MultibootInfo) (map : list Z) (b l : Z).
Context (Hreg : Boot.heap_region mb map = Ok (b, l)) (Hb : 0 < b) (Hl : 0 <= l) (Hbl : b + l < 2 ^ 32).

(** The end of the region the kernel uses, and of its heap. *)
Definition region_end : Z := Z.min (b + l) 0x01000000.
Definition heap_end : Z := region_end - Boot.PMM_POOL_SIZE.

Context (Hsize : b + Heap.sizeof_chunk + cost Sys.sizeof_PageDirectory < heap_end).
Context (Hmu : 0 <= Boot.mem_upper mb) (Htop : region_end <= Boot.mem_upper mb * 1024 + 0x100000 < 2 ^ 32).
Context (Hfuel : (Heap.heap_fuel b heap_end <= fuel)%nat).

(** The pool has at least 128 frames, none of them frame 0. *)
Lemma pool_frames : 128 <= Z.of_nat (size (Pmm.frames (heap_end / 4096) (region_end / 4096))) /\
  0 ∉ Pmm.frames (heap_end / 4096) (region_end / 4096).
Proof using Hb Hsize.
  clear Hreg Htop Hfuel Hmu. unfold heap_end, cost, Sys.sizeof_PageDirectory, Heap.sizeof_chunk, Boot.PMM_POOL_SIZE in *. split.
  - unfold Pmm.frames. rewrite size_list_to_set by apply NoDup_seqZ. rewrite length_seqZ.
    Z.div_mod_to_equations. lia.
  - rewrite Pmm.elem_of_frames. Z.div_mod_to_equations. lia.
Qed.

Lemma start_memory_ok :
  returns (start_memory at_ m0 fuel mb map) (fun '(tss, gdt, es, h, v) =>
    length tss = 104%nat /\ (gdt, es) = Cpu.GlobalDescriptorTable_new (gdt_at at_) (Some (tss_at at_)) /\
    room b heap_end (b + cost Sys.sizeof_PageDirectory)
      (heap_end - b - Heap.sizeof_chunk - cost Sys.sizeof_PageDirectory) h /\
    kernel_paged (b + Heap.sizeof_chunk) v).
Proof.
  unfold start_memory. step_with tss_made; [apply Hm0|]. intros tss Ht.
  destruct (Cpu.GlobalDescriptorTable_new _ _) as [gdt es] eqn:Eg.
  destruct pool_frames as [Hpool Hz]. destruct (w_bitmap m0 Hm0) as [Hbl1 Hbl2].
  destruct (Boot.memory_init_acts mb map (pmm_bitmap m0) b l) as (mm & s & -> & Hh & Hi & Hf);
    [done | done | done | done | fold region_end; unfold heap_end, cost, Sys.sizeof_PageDirectory, Heap.sizeof_chunk in *; lia
    | done | fold region_end; lia | done | done |].
  fold region_end in Hh, Hf. fold heap_end in Hh, Hf. rewrite result_bind_Ok.
  assert (Hroom : room b heap_end b (heap_end - b - Heap.sizeof_chunk) (Some mm)) by (by exists mm, []).
  eapply returns_bind; [apply (new_room b heap_end fuel Hfuel _ _ _ Sys.sizeof_PageDirectory Hroom); [done | lia]|].
  intros [dir h] [-> Hr]. rewrite <- Hf in Hpool, Hz.
  destruct (Paging.Init_acts (Paging.mkVm ∅ s ∅ 0 0 false) (b + Heap.sizeof_chunk)) as (v1 & d & root & -> & Hd);
    [by apply blank_vm_wf | apply lookup_empty | cbn; lia |]. rewrite result_bind_Ok.
  destruct Hd as [Hwf1 Hdirs Hroot Htab Hav Hleaf].
  assert (Hk1 : Paging.dirs v1 !! (b + Heap.sizeof_chunk) = Some d) by (rewrite Hdirs; apply lookup_insert_eq).
  unfold Paging.Enable, Paging.GetCR3, Paging.get_dir, Paging.GetKernelDirectory. cbn [Paging.dirs Paging.set_kernel_dir Paging.kernel_dir].
  rewrite Hk1, !result_bind_Ok. apply returns_Ok. split; [done|]. split; [done|]. split; [done|]. split.
  - by apply (Paging.wf_ext v1).
  - done.
  - done.
  - exists d. split; [exact Hdirs|]. split; [done|]. split; [|exact Hleaf].
    intros j Hj. apply Htab; [lia|]. change ((4096 + 1023) / 1024) with 4. lia.
  - intros E. change (fa_avail (Paging.pmm v1) = ∅) in E. rewrite E, size_empty in Hav. change ((4096 + 1023) / 1024) with 4 in Hav. cbn in Hav, Hpool. lia.
Qed.
End memory.

(** ** Traffic at other ports *)

Section elsewhere.
Context {D M : Type} `{Attached D M at_}.
Implicit Types (d : D).

Lemma read_elsewhere p d v d' : ~ at_ p -> Port8Bit_Read p d = (v, d') -> view d' = view d.
Proof.
  intros Hp. unfold Port8Bit_Read. pose proof (proj2 (elsewhere 8 p 0 d Hp)) as E.
  destruct (inp 8 p d) as [v1 d1]. intros [= _ <-]. exact E.
Qed.

Lemma write_elsewhere p v d : ~ at_ p -> view (Port8Bit_Write p v d) = view d.
Proof. intros Hp. by apply elsewhere. Qed.

Lemma run_effects_elsewhere es d :
  Forall (fun e => match e with Cpu.OutB p _ => ~ at_ p | _ => True end) es -> view (run_effects es d) = view d.
Proof.
  unfold run_effects. intros Hes. revert d. induction Hes as [|e es He Hes IH]; intros d; [done|]. cbn [foldl].
  rewrite IH. destruct e; try done. by apply write_elsewhere.
Qed.

Context (H60 : ~ at_ 0x60) (H64 : ~ at_ 0x64).

Lemma WaitWrite_elsewhere n d d' : Input.WaitWrite n d = Ok d' -> view d' = view d.
Proof using H64.
  revert d. induction n as [|n IH]; intros d; cbn [Input.WaitWrite]; [done|].
  destruct (Port8Bit_Read 0x64 d) as [v d1] eqn:E. apply read_elsewhere in E; [|done].
  destruct (_ =? 0); [intros [= <-]; done|]. intros Hw. by rewrite (IH _ Hw).
Qed.

Lemma WaitRead_elsewhere n d d' : Input.WaitRead n d = Ok d' -> view d' = view d.
Proof using H64.
  revert d. induction n as [|n IH]; intros d; cbn [Input.WaitRead]; [done|].
  destruct (Port8Bit_Read 0x64 d) as [v d1] eqn:E. apply read_elsewhere in E; [|done].
  destruct (_ =? 0); [|intros [= <-]; done]. intros Hw. by rewrite (IH _ Hw).
Qed.

Lemma mouse_elsewhere n junk d m d' : Input.MouseDriver_new n junk d = Ok (m, d') -> view d' = view d.
Proof using H60 H64.
  unfold Input.MouseDriver_new. intros Hn.
  repeat match type of Hn with
  | (_ ≫= _) = Ok _ => apply result_bind_inv in Hn as (?d & ?E & Hn)
  | context [let '(_, _) := Port8Bit_Read ?p ?d in _] =>
      let E := fresh "E" in destruct (Port8Bit_Read p d) eqn:E; apply read_elsewhere in E; [|done]
  end.
  injection Hn as _ <-.
  repeat match goal with
  | E : Input.WaitWrite _ _ = Ok _ |- _ => apply WaitWrite_elsewhere in E; rewrite ?write_elsewhere in E by done
  | E : Input.WaitRead _ _ = Ok _ |- _ => apply WaitRead_elsewhere in E; rewrite ?write_elsewhere in E by done
  end. congruence.
Qed.
End elsewhere.

(** ** Activating the drivers, on any machine *)

Section activation.
Context {D : Type} `{PortIO D}.
Implicit Types (d : D) (v : Vga.vga).

Lemma text_ok str : forallb (fun c => (1 <=? c) && (c <? 256)) str = true -> Forall (fun c => is_u8 c /\ c <> 0) str.
Proof.
  rewrite forallb_forall. intros Hs. apply Forall_forall. intros c Hc%list_elem_of_In.
  apply Hs, andb_prop in Hc as [H1 H2]. apply Z.leb_le in H1. apply Z.ltb_lt in H2.
  zify_words. lia.
Qed.

Lemma print_good v str :
  Pci.good v -> Forall (fun c => is_u8 c /\ c <> 0) str -> returns (Vga.Print v (str ++ [0])) Pci.good.
Proof.
  intros Hv Hs. apply Forall_and in Hs as [H8 H0]. rewrite Vga.Print_put_all by done.
  destruct (Pci.put_good v str Hv H8) as (v' & E & Hv'). by exists v'.
Qed.

Lemma ata_words buf d :
  length buf = 512%nat -> returns (Ata.read_words buf 0 d) (fun '(buf, _) => length buf = 512%nat).
Proof.
  intros Hl. unfold Ata.read_words.
  loop_with (fun (i : Z) (s : list Z * D) => length s.1 = 512%nat) s E Hs; [lia | done | | exists s; split; [exact E | by destruct s]].
  intros i [buf' d'] Hi Hb. cbn in Hb. destruct (Port16Bit_Read _ d') as [w d2].
  rewrite Net.put_bytes_ok, result_bind_Ok by (rewrite ?Hb; cbn; lia). eexists. split; [reflexivity|]. cbn [fst].
  rewrite !length_app, length_take, length_drop, Hb. cbn [length Net.le16]. lia.
Qed.

Lemma ata_activates buf v d :
  length buf = 512%nat -> Pci.good v -> returns (Ata.Activate buf v d) (fun '(v, _) => Pci.good v).
Proof.
  intros Hl Hv. unfold Ata.Activate.
  assert (Hid : returns (Ata.Identify buf d) (fun _ => True)).
  { unfold Ata.Identify. cbv zeta. destruct (Ata.WaitBSY _) as [ok d1]. destruct (negb ok); [by apply returns_Ok|].
    destruct (Port8Bit_Read _ d1) as [x d2]. destruct (x =? 0); [by apply returns_Ok|].
    destruct (Ata.WaitDRQ d2) as [ok2 d3]. destruct (negb ok2); [by apply returns_Ok|].
    step_with ata_words; [done|]. intros [b3 d4] _. by apply returns_Ok. }
  step_with Hid. intros [[ok b2] d2] _.
  assert (Hm : forall o : bool, (if o then Ata.msg_identified else Ata.msg_not_found) =
    (if o then removelast Ata.msg_identified else removelast Ata.msg_not_found) ++ [0]) by (by intros []).
  rewrite Hm. step_with print_good; [done | |intros v' Hv'; by apply returns_Ok].
  destruct ok; cbn; repeat (apply Forall_cons; split; [zify_words; lia|]); by apply Forall_nil.
Qed.

Lemma mac_read r d :
  length (Rtl.mac r) = 6%nat ->
  returns (Rtl.ReadMAC r d) (fun '(r', _) => Stack.bytes_of 6 (Rtl.mac r')).
Proof.
  intros Hl. unfold Rtl.ReadMAC.
  loop_with (fun (i : Z) (s : list Z * D) => length s.1 = 6%nat /\ Net.is_bytes (take (Z.to_nat i) s.1)) s E Hs.
  - lia.
  - split; [done|]. apply Forall_nil_2.
  - intros i [m d'] Hi [Lm Bm]. cbn in Lm, Bm. destruct (Port8Bit_Read _ d') as [x d2] eqn:Ex.
    assert (Hx : is_u8 x) by (unfold Port8Bit_Read in Ex; destruct (inp _ _ _); injection Ex as <- _; apply u8_bounds).
    rewrite arr_set_in_range, result_bind_Ok by lia. eexists. split; [reflexivity|]. cbn [fst].
    split; [by rewrite length_insert|]. replace (Z.to_nat (i + 1)) with (S (Z.to_nat i)) by lia.
    rewrite (take_S_r _ _ x) by (apply list_lookup_insert_eq; lia). rewrite take_insert_ge by lia.
    apply Forall_app. split; [done|]. by apply Forall_singleton.
  - rewrite E, result_bind_Ok. destruct s as [m d']. apply returns_Ok. destruct Hs as [Lm Bm]. cbn in *.
    split; [done|]. by rewrite take_ge in Bm by lia.
Qed.

Lemma rtl_activates addr r v d :
  length (Rtl.mac r) = 6%nat -> Pci.good v ->
  returns (Rtl.Activate addr r v d) (fun '(r', v', _) => Stack.bytes_of 6 (Rtl.mac r') /\ Pci.good v').
Proof.
  intros Hl Hv. unfold Rtl.Activate. cbv zeta. step_with mac_read; [done|]. intros [r' d'] [Lm Bm].
  eapply returns_bind; [apply (print_good v Rtl.msg_mac Hv)|].
  { repeat (apply Forall_cons; split; [zify_words; lia|]); by apply Forall_nil. }
  intros v1 Hv1. cbn beta. rewrite Rtl.print_mac_text by done.
  destruct (Pci.put_good v1 (Rtl.mac_text (Rtl.mac r')) Hv1 (Rtl.mac_text_bytes _)) as (v2 & -> & Hv2). rewrite result_bind_Ok.
  eapply returns_bind; [apply (print_good v2 Rtl.newline Hv2)|].
  { apply Forall_cons; split; [zify_words; lia | by apply Forall_nil]. }
  intros v3 Hv3. by apply returns_Ok.
Qed.
End activation.

(** ** Interrupt vectors during the scan *)

Lemma fold_preserves {A S} (body : A -> S -> result S) (I : S -> Prop) l s s' :
  (forall x s s', body x s = Ok s' -> I s -> I s') -> fold_result body l s = Ok s' -> I s -> I s'.
Proof.
  intros Hb. revert s. induction l as [|x l IH]; intros s E Hs; cbn [fold_result] in E; [by injection E as <-|].
  apply result_bind_inv in E as (s1 & E1 & E2). eauto.
Qed.

(** Only PCI drivers have taken vectors since [im0]. *)
Record taken_by_drivers (im0 im : Cpu.InterruptManager handler) : Prop := {
  tb_idt : Cpu.idt im = Cpu.idt im0;
  tb_offset : Cpu.hardware_interrupt_offset im = Cpu.hardware_interrupt_offset im0;
  tb_slots : forall v h, Cpu.handlers im0 !! v = Some h ->
    Cpu.handlers im !! v = Some h \/ exists p, Cpu.handlers im !! v = Some (Some (DriverH p));
}.

Lemma driver_takes im0 im p v im' :
  Cpu.InterruptHandler_new im (DriverH p) v = Ok im' -> taken_by_drivers im0 im -> taken_by_drivers im0 im'.
Proof.
  unfold Cpu.InterruptHandler_new. intros E [Hi Ho Hs]. inv_result. apply arr_set_Ok in E0 as [Hr ->].
  split; [done | done|]. intros w h Hw. cbn [Cpu.handlers]. destruct (decide (w = Z.to_nat v)) as [->|].
  - right. exists p. apply list_lookup_insert_eq. lia.
  - rewrite list_lookup_insert_ne by done. by apply Hs.
Qed.

Section scan.
Context {D : Type} `{PortIO D}.
Notation probe := (@Pci.probe D handler).

(** Vectors are taken by objects that exist. *)
Definition known (n : nat) (im : Cpu.InterruptManager handler) : Prop :=
  forall v p, Cpu.handlers im !! v = Some (Some (DriverH p)) -> (p < n)%nat.

Lemma driver_known im p v im' n :
  Cpu.InterruptHandler_new im (DriverH p) v = Ok im' -> known n im -> (p < n)%nat -> known n im'.
Proof.
  unfold Cpu.InterruptHandler_new. intros E Hk Hp w q. inv_result. apply arr_set_Ok in E0 as [Hr ->]. cbn [Cpu.handlers].
  rewrite list_lookup_insert_Some. intros [(_ & [= <-] & _)|[_ Hw]]; [done | by apply (Hk w)].
Qed.

Definition scan_inv (im0 : Cpu.InterruptManager handler) (s : probe) : Prop :=
  taken_by_drivers im0 (Pci.interrupts s) /\ Pci.tx_current s = 0 /\ known (length (Pci.objs s)) (Pci.interrupts s).

Lemma known_more n n' im : known n im -> (n <= n')%nat -> known n' im.
Proof. intros Hk Hn v p Hv. apply Hk in Hv. lia. Qed.

Lemma probe_function_inv mac0 b0 im0 b dv f (s s' : probe) :
  Pci.probe_function DriverH mac0 b0 b dv f s = Ok s' -> scan_inv im0 s -> scan_inv im0 s'.
Proof.
  unfold Pci.probe_function. intros E (Ht & Hx & Hn). apply result_bind_inv in E as ([desc d] & _ & E). cbn beta iota zeta in E.
  destruct (_ =? 0xFFFF); [injection E as <-; by split|].
  apply result_bind_inv in E as (v & _ & E). apply result_bind_inv in E as ([drv s1] & E1 & E).
  assert (H1 : scan_inv im0 s1).
  { unfold Pci.GetDriver in E1. cbn [Pci.interrupts Pci.tx_current Pci.objs] in E1.
    assert (Hadd : forall (o : Pci.driver) im v, Cpu.InterruptHandler_new (Pci.interrupts s) (DriverH (length (Pci.objs s))) v = Ok im ->
      taken_by_drivers im0 im /\ known (length (Pci.objs s ++ [o])) im).
    { intros o im w Ei. rewrite length_app. split; [by eapply driver_takes|].
      eapply driver_known; [exact Ei | eapply known_more; [exact Hn | lia] | cbn; lia]. }
    destruct (_ && _) in E1; [|destruct (_ && _) in E1].
    - apply result_bind_inv in E1 as (im & Ei & E1). injection E1 as _ <-. by destruct (Hadd Pci.DAta _ _ Ei).
    - apply result_bind_inv in E1 as (im & Ei & E1). apply result_bind_inv in E1 as (base & _ & E1).
      injection E1 as _ <-. cbn. by destruct (Hadd (Pci.DRtl (Rtl.mkRtl base mac0 0)) _ _ Ei).
    - injection E1 as _ <-. by split. }
  destruct drv; [|by injection E as <-]. apply result_bind_inv in E as (m & _ & E). by injection E as <-.
Qed.

Lemma SelectDrivers_inv mac0 b0 im0 (s s' : probe) :
  Pci.SelectDrivers DriverH mac0 b0 s = Ok s' -> scan_inv im0 s -> scan_inv im0 s'.
Proof.
  unfold Pci.SelectDrivers, for_result. apply (fold_preserves _ (scan_inv im0)). intros b s1 s2.
  apply (fold_preserves _ (scan_inv im0)). intros dv s3 s4. unfold Pci.probe_device.
  destruct (Pci.DeviceHasFunctions b dv (Pci.ports s3)) as [multi d]. intros E H3.
  eapply (fold_preserves _ (scan_inv im0)); [|exact E|exact H3]. intros f s5 s6. apply probe_function_inv.
Qed.
End scan.

(** ** The network objects *)

(** The host the constructors build. *)
Definition boot_host (mac : list Z) : Stack.host :=
  SyscallTCPSocket_new 1234 (SyscallUDPSocket_new 1234 (Receive.hst (IPv4Handler_new (Net.FromBytes 10 0 2 15)
    (EthernetDriver_new (ARPHandler_new (Net.FromBytes 10 0 2 15) (static_host mac 0)))))).

Lemma boot_host_wf mac : Stack.bytes_of 6 mac -> Stack.host_wf (boot_host mac).
Proof.
  intros Hm. assert (Hip : Stack.bytes_of 4 (Net.FromBytes 10 0 2 15)).
  { split; [done|]. repeat (apply Forall_cons; split; [u32_lit|]). by apply Forall_nil. }
  assert (Hz : Stack.bytes_of 4 (Net.FromBytes 0 0 0 0)) by apply (Stack.zeros_bytes 4).
  split; cbn -[Z.to_nat]; try (done || apply Stack.zeros_bytes || (zify_words; lia)).
  - split; [apply length_replicate|]. apply Forall_replicate, Stack.zeros_bytes.
  - by apply Forall_replicate.
  - split; [apply Stack.zeros_bytes|]. split; apply Stack.zeros_bytes.
Qed.

(** The network after start-up: the handlers are registered, and one frame, the ARP
    request for the gateway, has gone out. *)
Record network_up (mac : list Z) (d : Receive.netdev) : Prop := {
  nu_handlers : exists h, d = Receive.register_all h /\ Stack.host_wf h /\
    NetSafety.config h = (mac, [10; 0; 2; 15], [10; 0; 2; 15], 1234, 1234) /\
    exists frame, Stack.wire h = [frame] /\
      Stack.frame_of Net.Broadcast mac Stack.ETHERTYPE_ARP
        (Stack.arp_packet Stack.ARP_REQUEST mac [10; 0; 2; 15] (replicate 6 0) [10; 0; 2; 2]) frame;
}.

Lemma first_request mac :
  Stack.bytes_of 6 mac ->
  returns (Stack.SendRequest (boot_host mac) (Net.FromBytes 10 0 2 2)) (fun h => network_up mac (Receive.register_all h)).
Proof.
  intros Hm. pose proof (boot_host_wf mac Hm) as Hwf. unfold Stack.SendRequest.
  assert (Hip : Stack.bytes_of 4 (Net.FromBytes 10 0 2 2)).
  { split; [done|]. repeat (apply Forall_cons; split; [u32_lit|]). by apply Forall_nil. }
  destruct (Receive.arp_packet_bytes Stack.ARP_REQUEST mac (Net.FromBytes 10 0 2 15) (replicate 6 0) (Net.FromBytes 10 0 2 2)
    Hm (Stack.hw_arp_ip _ Hwf) (Stack.zeros_bytes 6) Hip) as [Lp Bp].
  destruct (Stack.EthSend_acts (boot_host mac) Net.Broadcast Stack.ETHERTYPE_ARP
    (Stack.arp_packet Stack.ARP_REQUEST mac (Net.FromBytes 10 0 2 15) (replicate 6 0) (Net.FromBytes 10 0 2 2)) 28)
    as (h' & frame & E & Hwf' & Hw & Hf & txb & Eh); [done | | u32_lit | done | lia | lia |].
  { split; [apply length_replicate | apply Forall_replicate; u32_lit]. }
  change (Stack.mac (boot_host mac)) with mac in *. change (Stack.arp_ip (boot_host mac)) with (Net.FromBytes 10 0 2 15).
  rewrite E, result_bind_Ok. apply returns_Ok. split. exists h'. split; [done|]. split; [done|].
  split; [by rewrite Eh|]. exists frame. split; [exact Hw|]. by rewrite take_ge in Hf by lia.
Qed.

(** ** Devices *)

(** The objects after activation: of the same types, the network cards with their address. *)
Definition same_types (objs objs' : list Pci.driver) : Prop := Boot.TypeID <$> objs' = Boot.TypeID <$> objs.

Definition has_mac (o : Pci.driver) : Prop :=
  match o with Pci.DRtl r => Stack.bytes_of 6 (Rtl.mac r) | Pci.DAta => True end.

Section devices.
Context {D : Type} `{PortIO D} `{!Attached D Pci.pci Pci.pci_range} `{!Attached D Ps2.ps2 Ps2.ps2_range}.
Context (sizes : class_sizes) (at_ : places) (m0 : memory0) (Hm0 : memory0_wf m0).

Lemma activate_ok p (objs : list Pci.driver) v (d : D) :
  (p < length objs)%nat -> (forall o, objs !! p = Some o -> match o with Pci.DRtl r => length (Rtl.mac r) = 6%nat | _ => True end) ->
  Pci.good v ->
  returns (activate at_ m0 p (objs, v, d)) (fun '(objs', v', _) =>
    Pci.good v' /\ same_types objs objs' /\ (forall q, q <> p -> objs' !! q = objs !! q) /\
    forall o, objs' !! p = Some o -> has_mac o).
Proof using Hm0.
  intros Hp Ho Hv. unfold activate. destruct (lookup_lt_is_Some_2 objs p Hp) as [o Eo]. rewrite Eo.
  specialize (Ho o Eo). destruct o as [|r].
  - step_with ata_activates; [apply Hm0 | done |]. intros [v' d'] Hv'. apply returns_Ok.
    split; [done|]. split; [done|]. split; [done|]. intros o. rewrite Eo. by intros [= <-].
  - step_with rtl_activates; [done | done |]. intros [[r' v'] d'] [Hr Hv']. apply returns_Ok.
    split; [done|]. split; [|split].
    + unfold same_types. rewrite list_fmap_insert. cbn [Boot.TypeID]. apply list_insert_id.
      by rewrite list_lookup_fmap, Eo.
    + intros q Hq. by rewrite list_lookup_insert_ne.
    + intros o. rewrite list_lookup_insert_eq by done. by intros [= <-].
Qed.

(** All of them, in order. *)
Lemma activate_all ps (objs : list Pci.driver) v (d : D) :
  NoDup ps -> Forall (fun p => (p < length objs)%nat) ps ->
  (forall p r, p ∈ ps -> objs !! p = Some (Pci.DRtl r) -> length (Rtl.mac r) = 6%nat) -> Pci.good v ->
  returns (fold_result (activate at_ m0) ps (objs, v, d)) (fun '(objs', v', _) =>
    Pci.good v' /\ same_types objs objs' /\ (forall q, q ∉ ps -> objs' !! q = objs !! q) /\
    forall p o, p ∈ ps -> objs' !! p = Some o -> has_mac o).
Proof using Hm0.
  revert objs v d. induction ps as [|p ps IH]; intros objs v d Hnd Hin Hmac Hv; cbn [fold_result].
  { apply returns_Ok. split; [done|]. split; [done|]. split; [done|]. set_solver. }
  apply NoDup_cons in Hnd as [Hp Hnd]. apply Forall_cons in Hin as [Hlt Hin].
  eapply returns_bind; [apply activate_ok; [done| |done]|].
  { intros [|r] Ho; [done|]. apply (Hmac p); [set_solver | done]. }
  intros [[objs1 v1] d1] (Hv1 & Ht1 & Ho1 & Hm1).
  assert (Hl1 : length objs1 = length objs) by (rewrite <- (length_fmap Boot.TypeID objs1), Ht1; apply length_fmap).
  eapply returns_mono; [apply (IH objs1 v1 d1 Hnd); [by rewrite Hl1| |done]|].
  { intros q r Hq Hr. apply (Hmac q); [set_solver|]. rewrite <- Ho1 by set_solver. done. }
  intros [[objs2 v2] d2] (Hv2 & Ht2 & Ho2 & Hm2). split; [done|]. split; [unfold same_types in *; congruence|]. split.
  - intros q Hq. rewrite Ho2, Ho1 by set_solver. done.
  - intros q o [->|Hq]%elem_of_cons Ho; [apply Hm1; rewrite <- Ho2 by done; done | by apply (Hm2 q)].
Qed.

Context (isr : Z -> Z) (ignore : Z) (Hisr : forall v, is_u32 (isr v)) (Hign : is_u32 ignore).
Context (fuel polls : nat).

(** A controller the constructor of the mouse driver can talk to. *)
Record kbc_ready (c : Ps2.ps2) : Prop := {
  kr_config : is_u8 (Ps2.config c);
  kr_output : Ps2.output c = [];
  kr_next : Ps2.next c = Ps2.ToKeyboard;
  kr_busy : (Ps2.busy c < polls)%nat;
  kr_latency : (Ps2.latency c < polls)%nat;
}.

(** The drivers for the functions of a configuration space, in the order of the scan. *)
Definition found_drivers (k : gmap (Z * Z * Z) Pci.pci_fn) : list Pci.driver :=
  omap (Pci.candidate (mac0 m0) k) (Pci.slots k).

Definition managed (ds : list Pci.driver) : list nat := take 256 (seq 0 (length ds)).

(** The table of vectors before the scan: the gates, and the two input drivers. *)
Record vectors_set (im : Cpu.InterruptManager handler) : Prop := {
  vs_gates : forall v, 0 <= v < 256 -> exists g, Cpu.idt im !! Z.to_nat v = Some g /\
    Cpu.gate_entry g = (if ((32 <=? v) && (v <? 48)) || bool_decide (v ∈ Cpu.exceptions) then isr v else ignore) /\
    Cpu.selector g = Cpu.CodeSegmentSelector /\ Cpu.gate_present g = true /\
    Cpu.gate_dpl g = (if v =? 128 then 3 else 0);
  vs_size : length (Cpu.handlers im) = 256%nat;
  vs_offset : Cpu.hardware_interrupt_offset im = 0x20;
  vs_keyboard : Cpu.handlers im !! 33%nat = Some (Some KeyboardH);
  vs_mouse : Cpu.handlers im !! 44%nat = Some (Some MouseH);
  vs_others : forall w, (w < 256)%nat -> w <> 33%nat -> w <> 44%nat -> Cpu.handlers im !! w = Some None;
}.

Record devices_ok (k : gmap (Z * Z * Z) Pci.pci_fn) (dv : devices) : Prop := {
  do_vectors : exists im, vectors_set im /\ taken_by_drivers im (dv_interrupts dv);
  do_slots : length (Cpu.handlers (dv_interrupts dv)) = 256%nat;
  do_known : known (length (dv_objs dv)) (dv_interrupts dv);
  do_keys : KeyboardBuffer.queue_of (dv_keys dv) [];
  do_keyboard : dv_keyboard dv = Input.KeyboardDriver_new;
  do_mouse : dv_mouse dv = Input.mkMouse (mouse_buffer0 m0) 0;
  do_objs : same_types (found_drivers k) (dv_objs dv);
  do_manager : Drivers.manages (dv_manager dv) (managed (found_drivers k));
  do_macs : forall p o, p ∈ managed (found_drivers k) -> dv_objs dv !! p = Some o -> has_mac o;
  do_tx : dv_tx_current dv = 0;
  do_screen : Pci.good (dv_screen dv);
}.

Lemma pic_elsewhere {M : Type} `{PortIO M} (at1 : Z -> Prop) (es : list Cpu.effect) :
  (forall p, at1 p -> ~ Cpu.pic_port p) ->
  Forall (fun e => match e with Cpu.OutB p _ => Cpu.pic_port p | _ => True end) es ->
  Forall (fun e => match e with Cpu.OutB p _ => ~ at1 p | _ => True end) es.
Proof using.
  intros Hp Hes. eapply Forall_impl; [exact Hes|]. intros [] He; try done. intros Ha. by apply (Hp _ Ha).
Qed.

Lemma input_ports_apart : (forall p, Pci.pci_range p -> ~ Cpu.pic_port p) /\ (forall p, Ps2.ps2_range p -> ~ Cpu.pic_port p) /\
  ~ Pci.pci_range 0x60 /\ ~ Pci.pci_range 0x64.
Proof using.
  unfold Pci.pci_range, Ps2.ps2_range, Cpu.pic_port. repeat split.
  - intros p [->| ->]; by apply (bool_decide_unpack (~ _ ∈ _)).
  - intros p [->| ->]; by apply (bool_decide_unpack (~ _ ∈ _)).
  - intros [E|E]; discriminate E.
  - intros [E|E]; discriminate E.
Qed.

Lemma start_input_ok im (d : D) :
  length (Cpu.handlers im) = 256%nat -> Cpu.hardware_interrupt_offset im = 0x20 -> kbc_ready (view d) ->
  returns (start_input m0 polls im d) (fun '(im', kb, mouse, d') =>
    Cpu.idt im' = Cpu.idt im /\ Cpu.hardware_interrupt_offset im' = 0x20 /\
    Cpu.handlers im' = <[44%nat := Some MouseH]> (<[33%nat := Some KeyboardH]> (Cpu.handlers im)) /\
    kb = Input.KeyboardDriver_new /\ mouse = Input.mkMouse (mouse_buffer0 m0) 0 /\ Pci.conf_of d' = Pci.conf_of d).
Proof using.
  intros Hl Ho [Hc Hout Hn Hb Hlat]. unfold start_input, Cpu.InterruptHandler_new. rewrite Ho.
  rewrite (u8_small (0x20 + 0x01)) by (zify_words; lia). rewrite arr_set_in_range, !result_bind_Ok by lia.
  cbn [Cpu.handlers Cpu.hardware_interrupt_offset]. rewrite (u8_small (0x20 + 0x0C)) by (zify_words; lia).
  rewrite arr_set_in_range, !result_bind_Ok by (rewrite length_insert; lia).
  destruct (Ps2.mouse_setup polls (mouse_buffer0 m0) d Hc Hout Hn Hb Hlat) as (d' & Em & _). rewrite Em, result_bind_Ok.
  apply returns_Ok. cbn [Cpu.idt Cpu.handlers Cpu.hardware_interrupt_offset]. do 5 (split; [done|]).
  destruct input_ports_apart as (_ & _ & H60 & H64). unfold Pci.conf_of.
  by rewrite (mouse_elsewhere (M := Pci.pci) H60 H64 _ _ _ _ _ Em).
Qed.

Definition sizes_ok : Prop :=
  0 <= sizeof_ATADriver sizes /\ 0 <= sizeof_RTL8139Driver sizes /\ is_u32 (sizeof_FAT32 sizes) /\
  0 <= sizeof_ARPHandler sizes /\ 0 <= sizeof_IPv4Handler sizes /\ 0 <= sizeof_ICMPHandler sizes /\
  0 <= sizeof_UDPSocket sizes /\ 0 <= sizeof_TCPSocket sizes /\ 0 <= sizeof_SchedulerTimer sizes.

Lemma found_mac k r : Pci.DRtl r ∈ found_drivers k -> Rtl.mac r = mac0 m0.
Proof using.
  unfold found_drivers. intros (x & _ & Hx)%list_elem_of_omap. unfold Pci.candidate in Hx. cbv zeta in Hx.
  destruct (_ =? 0xFFFF) in Hx; [done|]. unfold Pci.driver_for in Hx.
  destruct (_ && _) in Hx; [done|]. destruct (_ && _) in Hx; [|done]. by injection Hx as <-.
Qed.

Lemma managed_in (ds : list Pci.driver) p : p ∈ managed ds -> (p < length ds)%nat.
Proof using. unfold managed. intros Hp. apply (subseteq_take 256) in Hp. apply elem_of_seq in Hp. lia. Qed.

(** Activation of everything the manager holds. *)
Lemma activate_found k dm v (d : D) :
  Drivers.manages dm (managed (found_drivers k)) -> Pci.good v ->
  returns (Drivers.ActivateAll dm (activate at_ m0) (found_drivers k, v, d)) (fun '(objs', v', _) =>
    Pci.good v' /\ same_types (found_drivers k) objs' /\
    forall p o, p ∈ managed (found_drivers k) -> objs' !! p = Some o -> has_mac o).
Proof using Hm0.
  intros Hdm Hv. unfold Drivers.ActivateAll. rewrite (Drivers.call_all_fold dm _ _ _ Hdm).
  eapply returns_mono; [apply activate_all; [| | |done]|].
  - eapply sublist_NoDup; [apply NoDup_seq | apply sublist_take].
  - apply Forall_forall. intros p. apply managed_in.
  - intros p r _ Hr. rewrite (found_mac k r) by (by eapply list_elem_of_lookup_2). apply Hm0.
  - intros [[objs' v'] d'] (? & ? & _ & ?). done.
Qed.

Context (lo hi : Z) (Hfuel : (Heap.heap_fuel lo hi <= fuel)%nat).

Lemma start_devices_ok k v h (d : D) a f :
  length (Vga.buffer v) = 2000%nat -> Pci.conf_of d = k -> Pci.space_wf k -> kbc_ready (view d) ->
  sizes_ok -> room lo hi a f h -> 0 < f - total (sizeof_driver sizes) (found_drivers k) ->
  returns (start_devices sizes at_ m0 isr ignore fuel polls v h d) (fun '(dv, es, h', _) =>
    devices_ok k dv /\ Cpu.Lidt 2047 (idt_at at_) ∈ es /\
    exists a', a <= a' /\ room lo hi a' (f - total (sizeof_driver sizes) (found_drivers k)) h').
Proof.
  intros Hbuf Hk Hw Hkbc Hsz Hr Hf. unfold start_devices.
  destruct (Vga.Clear_shows v Hbuf) as (v0 & -> & _ & Hs0). rewrite result_bind_Ok.
  eapply returns_bind; [apply (print_good v0 (chars "Kernel loaded" ++ [10])); [by eexists | by apply text_ok]|].
  intros v1 Hv1. cbn beta.
  destruct (Cpu.InterruptManager_new_acts isr ignore (idt_at at_) (idt0 m0) (handlers0 m0))
    as (im & es & -> & Hh & Hoff & Hpic & _ & _ & Hlidt & Hg); [done | done | apply Hm0 | apply Hm0 |].
  rewrite result_bind_Ok. cbv zeta. destruct input_ports_apart as (Hp1 & Hp2 & _).
  set (d1 := run_effects es d).
  assert (V1 : Pci.conf_of d1 = k)
    by (unfold Pci.conf_of, d1; rewrite (run_effects_elsewhere (M := Pci.pci)) by (by apply (pic_elsewhere (M := Pci.pci))); done).
  assert (V2 : (view d1 : Ps2.ps2) = view d)
    by (apply (run_effects_elsewhere (M := Ps2.ps2)), (pic_elsewhere (M := Ps2.ps2)); done).
  eapply returns_bind; [apply (start_input_ok im d1); [by rewrite Hh | done | by rewrite V2]|].
  intros [[[im1 kb] mouse] d2] (Ei & Eo & Eh & -> & Hmo & Ec2). cbn beta iota.
  destruct (Drivers.new_manages (drivers0 m0) (w_drivers m0 Hm0)) as (dm & -> & Hdm). rewrite result_bind_Ok.
  assert (Hl1 : length (Cpu.handlers im1) = 256%nat) by (rewrite Eh, !length_insert, Hh; apply length_replicate).
  destruct (Pci.SelectDrivers_found (D := D) DriverH (mac0 m0) (bars0 m0) (w_bars m0 Hm0) k []
    (Pci.mkProbe d2 v1 im1 [] dm 0)) as (s & Es & [K G L O M]); [by rewrite <- V1 | done..|].
  rewrite Es, result_bind_Ok. rewrite app_nil_l in O. change (omap _ _) with (found_drivers k) in O, M.
  destruct (SelectDrivers_inv (mac0 m0) (bars0 m0) im1 _ s Es) as (Hvec & Htx & Hknown).
  { split; [split; auto|]. split; [done|]. intros w q. cbn [Pci.interrupts]. rewrite Eh, Hh.
    rewrite !list_lookup_insert_Some. intros [(_ & ? & _)|[_ [(_ & ? & _)|[_ Hl]]]]; [done..|].
    by apply lookup_replicate in Hl as [? _]. }
  rewrite O. unfold allocate_drivers.
  eapply returns_bind; [apply (new_all lo hi fuel Hfuel (sizeof_driver sizes) (found_drivers k) h a f); [|done|done]|].
  { intros [|r] _; apply Hsz. }
  intros h' Hr'. cbn beta. eapply returns_bind; [apply (activate_found k (Pci.manager s) (Pci.screen s) (Pci.ports s) M G)|].
  intros [[objs' v'] d'] (Hv' & Ht' & Hm'). cbn beta iota. apply returns_Ok. split; [|done].
  split; cbn [dv_interrupts dv_keys dv_keyboard dv_mouse dv_objs dv_manager dv_tx_current dv_screen]; try done.
  - exists im1. split; [|done]. split; [by rewrite Ei | done | done | | |]; rewrite Eh.
    + rewrite list_lookup_insert_ne by done. apply list_lookup_insert_eq. rewrite Hh, length_replicate. lia.
    + apply list_lookup_insert_eq. rewrite length_insert, Hh, length_replicate. lia.
    + intros w Hlt H33 H44. rewrite !list_lookup_insert_ne, Hh by done. by apply lookup_replicate.
  - rewrite <- (length_fmap Boot.TypeID objs'), Ht', length_fmap, <- O. done.
  - unfold KeyboardBuffer.Init. pose proof (w_keys m0 Hm0). split; try done; cbn; lia.
Qed.

(** ** File system and network *)

(** The first managed driver of type [t], if any. *)
Definition driver_of (k : gmap (Z * Z * Z) Pci.pci_fn) (t : Z) : option nat :=
  Boot.first_of_type (found_drivers k) t (managed (found_drivers k)).

Lemma find_found k dv t :
  devices_ok k dv -> Boot.find_driver (dv_manager dv) (dv_objs dv) t = Ok (driver_of k t).
Proof using.
  intros Hdv. pose proof (do_objs k dv Hdv) as Ht.
  assert (Hty : forall p, Boot.TypeID <$> dv_objs dv !! p = Boot.TypeID <$> found_drivers k !! p)
    by (intros p; by rewrite <- !list_lookup_fmap, Ht).
  rewrite (Boot.find_driver_ok _ _ _ _ (do_manager k dv Hdv)).
  - unfold driver_of, Boot.first_of_type. do 2 f_equal. apply filter_ext_in. intros p _. by rewrite Hty.
  - apply Forall_forall. intros p Hp%managed_in. apply lookup_lt_is_Some_2.
    by rewrite <- (length_fmap Boot.TypeID (dv_objs dv)), Ht, length_fmap.
Qed.

Lemma driver_of_managed k t p : driver_of k t = Some p -> p ∈ managed (found_drivers k) /\
  Boot.TypeID <$> found_drivers k !! p = Some t.
Proof using.
  unfold driver_of, Boot.first_of_type. intros Hh. apply head_Some_elem_of in Hh.
  apply list_elem_of_filter in Hh as [Ht Hp]. done.
Qed.

Lemma new_volume_ok drive p h a f r :
  Boot.try_mount (sector0 m0) (bpb0 m0) drive p = Ok r -> sizes_ok -> room lo hi a f h -> cost (sizeof_FAT32 sizes) < f ->
  returns (new_volume sizes m0 fuel drive p h) (fun '(r', h') => r' = r /\
    match r with
    | Some _ => room lo hi (a + cost (sizeof_FAT32 sizes)) (f - cost (sizeof_FAT32 sizes)) h'
    | None => room lo hi a f h'
    end).
Proof using Hfuel.
  intros Hm Hsz Hr Hf. unfold new_volume.
  eapply returns_bind; [apply (new_delete lo hi fuel Hfuel h a f _ Hr); [apply Hsz | done]|].
  intros [q h1] [Hr1 Hdel]. cbn beta iota. rewrite Hm, result_bind_Ok. destruct r as [fs|].
  - by apply returns_Ok.
  - eapply returns_bind; [exact Hdel|]. intros h2 Hr2. by apply returns_Ok.
Qed.

(** The kernel mounts what [mount_volume] finds, when there is a disk driver, and keeps
    one object on the heap at most. *)
Lemma start_storage_ok k dv drive h a f r :
  devices_ok k dv -> Boot.mount_volume (sector0 m0) (mbr0 m0) (bpb0 m0) drive = Ok r -> sizes_ok ->
  room lo hi a f h -> cost (sizeof_FAT32 sizes) < f ->
  returns (start_storage sizes m0 fuel dv drive h) (fun '(r', h') =>
    r' = (if driver_of k 0x0101 then r else None) /\
    exists a' f', a <= a' /\ f - cost (sizeof_FAT32 sizes) <= f' /\ room lo hi a' f' h').
Proof using Hfuel.
  intros Hdv Hm Hsz Hr Hf. unfold start_storage. rewrite (find_found k dv) by done. rewrite result_bind_Ok.
  assert (Hc : 0 <= cost (sizeof_FAT32 sizes)) by (destruct Hsz as (_ & _ & [? _] & _); unfold cost, Heap.sizeof_chunk; lia).
  destruct (driver_of k 0x0101); [|apply returns_Ok; split; [done|]; exists a, f; split; [lia|]; split; [lia | done]].
  unfold Boot.mount_volume in Hm. apply result_bind_inv in Hm as ([ok m] & -> & Hm). rewrite result_bind_Ok.
  apply result_bind_inv in Hm as (count & -> & Hm). rewrite result_bind_Ok.
  apply result_bind_inv in Hm as (f1 & E1 & Hm).
  eapply (returns_bind _ _ (fun '(r1, h1) => r1 = f1 /\ match f1 with
    | Some _ => room lo hi (a + cost (sizeof_FAT32 sizes)) (f - cost (sizeof_FAT32 sizes)) h1
    | None => room lo hi a f h1 end)).
  - destruct (ok && _); [|injection E1 as <-; by apply returns_Ok].
    apply result_bind_inv in E1 as (p & -> & E1). rewrite result_bind_Ok. by apply new_volume_ok.
  - intros [r1 h1] [-> Hr1]. destruct f1 as [fs|].
    + injection Hm as <-. apply returns_Ok. split; [done|]. eexists _, _. split; [|split; [reflexivity | exact Hr1]]. lia.
    + eapply returns_mono; [by apply (new_volume_ok drive _ h1 a f r)|].
      intros [r2 h2] [-> Hr2]. split; [done|].
      destruct r; eexists _, _; (split; [|split; [|exact Hr2]]; lia).
Qed.

(** The five objects of the stack. *)
Definition network_size : Z :=
  cost (sizeof_ARPHandler sizes) + cost (sizeof_IPv4Handler sizes) + cost (sizeof_ICMPHandler sizes) +
  cost (sizeof_UDPSocket sizes) + cost (sizeof_TCPSocket sizes).

Lemma start_network_ok k dv h a f :
  devices_ok k dv -> sizes_ok -> room lo hi a f h -> network_size < f ->
  returns (start_network sizes fuel dv h) (fun '(net, h') =>
    match driver_of k 0x8139 with
    | Some p => exists mac d, net = Some (p, d) /\ network_up mac d
    | None => net = None
    end /\ exists a' f', a <= a' /\ f - network_size <= f' /\ room lo hi a' f' h').
Proof using Hfuel.
  intros Hdv Hsz Hr Hf. unfold start_network. rewrite (find_found k dv) by done. rewrite result_bind_Ok.
  destruct Hsz as (_ & _ & _ & S1 & S2 & S3 & S4 & S5 & _).
  destruct (driver_of k 0x8139) as [p|] eqn:Ep.
  2:{ apply returns_Ok. split; [done|]. exists a, f. unfold network_size, cost, Heap.sizeof_chunk in *. split; [lia|]. split; [lia | done]. }
  apply driver_of_managed in Ep as [Hp Hty].
  assert (Hty' : Boot.TypeID <$> dv_objs dv !! p = Some 0x8139)
    by (rewrite <- Hty, <- !list_lookup_fmap; by rewrite (do_objs k dv Hdv)).
  destruct (dv_objs dv !! p) as [[|r]|] eqn:Eo; [discriminate Hty' | | discriminate Hty'].
  pose proof (do_macs k dv Hdv p _ Hp Eo) as Hmac. cbn in Hmac. rewrite (do_tx k dv Hdv). cbv zeta.
  unfold network_size, cost, Heap.sizeof_chunk in Hf.
  eapply returns_bind; [apply (new_room lo hi fuel Hfuel h a f _ Hr); [done | unfold cost, Heap.sizeof_chunk; lia]|].
  intros [q1 h1] [_ R1]. eapply returns_bind; [apply (new_room lo hi fuel Hfuel h1 _ _ _ R1); [done | unfold cost, Heap.sizeof_chunk; lia]|].
  intros [q2 h2] [_ R2]. eapply returns_bind; [apply (new_room lo hi fuel Hfuel h2 _ _ _ R2); [done | unfold cost, Heap.sizeof_chunk; lia]|].
  intros [q3 h3] [_ R3]. eapply returns_bind; [apply (new_room lo hi fuel Hfuel h3 _ _ _ R3); [done | unfold cost, Heap.sizeof_chunk; lia]|].
  intros [q4 h4] [_ R4]. eapply returns_bind; [apply (new_room lo hi fuel Hfuel h4 _ _ _ R4); [done | unfold cost, Heap.sizeof_chunk; lia]|].
  intros [q5 h5] [_ R5]. eapply returns_bind; [exact (first_request (Rtl.mac r) Hmac)|].
  intros host Hup. apply returns_Ok. split.
  - exists (Rtl.mac r), (Receive.register_all host). done.
  - eexists _, _. split; [|split; [|exact R5]]; unfold network_size, cost, Heap.sizeof_chunk; lia.
Qed.
End devices.

(** ** The first program *)

(** User memory with the image at 0x400000 and zeros in the network page. *)
Definition loaded (image : list Z) (mem mem' : Z -> Z) : Prop := forall x,
  mem' x = if (Sys.NET_SHARED_BASE_ADDR <=? x) && (x <? Sys.NET_SHARED_BASE_ADDR + 4096) then 0
           else if (0x400000 <=? x) && (x <? 0x400000 + Z.of_nat (length image))
           then image !!! Z.to_nat (x - 0x400000) else mem x.

Lemma load_program_ok image mem :
  Net.is_bytes image -> Z.of_nat (length image) <= 0x200000 -> returns (load_program image mem) (loaded image mem).
Proof.
  intros Hb Hl. unfold load_program.
  loop_with (fun (i : Z) (m : Z -> Z) => forall x, m x =
    if (0x400000 <=? x) && (x <? 0x400000 + i) then image !!! Z.to_nat (x - 0x400000) else mem x) m1 E1 H1.
  - lia.
  - intros x. by case_tests.
  - intros i m Hi Hm. destruct (lookup_lt_is_Some_2 image (Z.to_nat i)) as [c Hc]; [lia|].
    rewrite (proj2 (arr_get_Ok image i c)), result_bind_Ok by (split; [lia | done]). eexists. split; [reflexivity|].
    intros x. unfold poke. rewrite u32_small, Hm by (zify_words; lia).
    assert (Hcu : u8 c = c) by (apply u8_small; exact (Forall_lookup_1 _ _ _ _ Hb Hc)).
    destruct (Z.eqb_spec x (0x400000 + i)) as [->|]; [|by case_tests].
    case_tests. rewrite Hcu. replace (Z.to_nat (0x400000 + i - 0x400000)) with (Z.to_nat i) by lia.
    symmetry. by apply list_lookup_total_correct.
  - rewrite E1, result_bind_Ok. apply returns_Ok. unfold Sys.NET_SHARED_BASE_ADDR.
    pose proof (for_range_inv (fun (i : Z) (m : Z -> Z) => forall x, m x =
      if (0x600000 <=? x) && (x <? 0x600000 + i) then 0 else m1 x) 0 4096
      (fun i mem => poke mem (0x600000 + i) 0) m1) as Hz.
    intros x. rewrite Hz; [by rewrite H1 | lia | intros y; by case_tests |].
    intros i m Hi Hm y. unfold poke. rewrite u32_small, Hm by (zify_words; lia). change (u8 0) with 0.
    destruct (Z.eqb_spec y (0x600000 + i)); case_tests.
Qed.

(** A loaded memory is made of bytes. *)
Lemma loaded_bytes image mem mem' :
  Net.is_bytes image -> (forall x, is_u8 (mem x)) -> loaded image mem mem' -> forall x, is_u8 (mem' x).
Proof.
  intros Hi Hm Hl x. rewrite Hl. destruct (_ && _); [u32_lit|]. destruct (_ && _) eqn:E; [|done].
  apply andb_prop in E as [E1 E2]. apply Z.leb_le in E1. apply Z.ltb_lt in E2.
  destruct (lookup_lt_is_Some_2 image (Z.to_nat (x - 0x400000))) as [c Hc]; [lia|].
  rewrite (list_lookup_total_correct _ _ _ Hc). exact (Forall_lookup_1 _ _ _ _ Hi Hc).
Qed.

(** ** The screen *)

Lemma terminal_made g k line :
  length g = 920%nat -> length k = 920%nat -> length line = 256%nat ->
  Terminal.Terminal_new 0 0 320 200 g k line = Ok Terminal.sample_terminal.
Proof.
  intros Hg Hk Hl. unfold Terminal.Terminal_new.
  loop_with (fun (r : Z) (s : list Z * list Z) => s = (Terminal.filled g 32 0 (r * 40), Terminal.filled k Terminal.COL_TEXT 0 (r * 40)))
    s1 E1 H1.
  - unfold Terminal.ROWS. lia.
  - by rewrite !Terminal.filled_0.
  - intros r s Hr ->.
    loop_with (fun (c : Z) (s : list Z * list Z) => s = (Terminal.filled g 32 0 (r * 40 + c), Terminal.filled k Terminal.COL_TEXT 0 (r * 40 + c)))
      s2 E2 H2.
    + unfold Terminal.COLS. lia.
    + by rewrite Z.add_0_r.
    + intros c s Hc ->. change 40 with Terminal.COLS. unfold Terminal.ROWS in Hr.
      rewrite (Terminal.filled_step g), result_bind_Ok by (done || unfold Terminal.ROWS, Terminal.COLS in *; lia).
      rewrite (Terminal.filled_step k), result_bind_Ok by (done || unfold Terminal.ROWS, Terminal.COLS in *; lia). eexists. by split.
    + exists s2. split; [exact E2|]. rewrite H2. unfold Terminal.COLS. by replace (r * 40 + 40) with ((r + 1) * 40) by lia.
  - rewrite E1, result_bind_Ok, H1. rewrite Console.fill_loop, result_bind_Ok by (rewrite ?Hl; lia).
    unfold Terminal.filled, Terminal.ROWS. rewrite !drop_ge by (rewrite ?Hg, ?Hk, ?Hl; lia). rewrite !app_nil_r. reflexivity.
Qed.

Lemma print_chars_ok t p str :
  Forall (fun c => is_u8 c /\ c <> 0) str -> Terminal.term_wf t ->
  Console.shows 40 23 p (Terminal.cells_of t) (Terminal.place t) ->
  returns (Terminal.print_chars t (str ++ [0])) (fun t' => Terminal.term_wf t' /\ Terminal.retext t t' /\
    Console.shows 40 23 (Console.strikes 40 23 Terminal.blank_cell (Terminal.key_for <$> str) p)
      (Terminal.cells_of t') (Terminal.place t')).
Proof.
  intros Hs. revert t p. induction Hs as [|c str [Hc H0] Hs IH]; intros t p Hw Hp; cbn [app Terminal.print_chars].
  - apply returns_Ok. split; [done|]. split; [|done].
    exists (Terminal.grid t), (Terminal.colors t), (Terminal.cursor_row t), (Terminal.cursor_col t). by destruct t.
  - rewrite (proj2 (Z.eqb_neq c 0)) by done.
    destruct (Terminal.TermPutChar_shows t p c Hc Hw Hp) as (t1 & -> & Hw1 & Hr1 & Hp1). rewrite result_bind_Ok.
    eapply returns_mono; [apply (IH t1 _ Hw1 Hp1)|]. intros t2 (Hw2 & Hr2 & Hp2). split; [done|].
    split; [by eapply Terminal.retext_trans | exact Hp2].
Qed.

Lemma term_print_ok t p fb str :
  Forall (fun c => is_u8 c /\ c <> 0) str -> Terminal.term_wf t -> Terminal.full_screen t ->
  64000 <= Z.of_nat (length fb) -> Console.shows 40 23 p (Terminal.cells_of t) (Terminal.place t) ->
  returns (Terminal.Print t fb (str ++ [0])) (fun '(t', fb') => Terminal.term_wf t' /\ Terminal.retext t t' /\
    Console.shows 40 23 (Console.strikes 40 23 Terminal.blank_cell (Terminal.key_for <$> str) p)
      (Terminal.cells_of t') (Terminal.place t') /\
    Graphics.drawn fb (Terminal.window t') fb').
Proof.
  intros Hs Hw Hf Hl Hp. unfold Terminal.Print. step_with print_chars_ok; [done | done | exact Hp |].
  intros t' (Hw' & Hr' & Hp').
  assert (Hf' : Terminal.full_screen t') by (destruct Hr' as (? & ? & ? & ? & ->); exact Hf).
  destruct (Terminal.Draw_drawn t' fb Hw' Hf' Hl) as (fb' & -> & Hd). rewrite result_bind_Ok. by apply returns_Ok.
Qed.

(** What the terminal shows when the shell starts. *)
Definition banner : list Z :=
  (chars "Frodo OS 1.0    One Ring to rule them all" ++ [10]) ++ (chars "Type 'help' for available commands." ++ [10; 10]).
Definition banner_sheet : Console.paper (Z * Z) :=
  Console.strikes 40 23 Terminal.blank_cell (Terminal.key_for <$> banner)
    (Console.mkPaper (replicate 920 Terminal.blank_cell) 0).

Record screen_up (v : Vga.vga) (desktop : Gui.Desktop Gui.Widget) (t : Terminal.Terminal) (fb : list Z) : Prop := {
  su_mode : Vga.graphics_mode v = true;
  su_window : Gui.holds desktop [Gui.mkWidget 0 0 320 200];
  su_pointer : Gui.pointer_ok desktop;
  su_wf : Terminal.term_wf t;
  su_text : Terminal.retext Terminal.sample_terminal t;
  su_banner : Console.shows 40 23 banner_sheet (Terminal.cells_of t) (Terminal.place t);
  su_fb : 64000 <= Z.of_nat (length fb);
  su_drawn : exists fb0, Graphics.drawn fb0 (Terminal.window t) fb;
}.

Lemma start_screen_ok {D : Type} `{PortIO D} m0 v fb (d : D) :
  memory0_wf m0 -> 64000 <= Z.of_nat (length fb) ->
  returns (start_screen m0 v fb d) (fun '(v', desktop, t, fb', _) => screen_up v' desktop t fb').
Proof.
  intros Hm0 Hl. unfold start_screen. cbv zeta. destruct (Graphics.EnterGraphicsMode v _) as [v' d1] eqn:Eg.
  assert (Hmode : Vga.graphics_mode v' = true).
  { unfold Graphics.EnterGraphicsMode in Eg. cbv zeta in Eg.
    destruct (Port8Bit_Read 0x3D5 _), (Port8Bit_Read 0x3DA _) in Eg. by injection Eg as <- _. }
  destruct (proj2 (BootAnim.boot_animation_exact 0 fb (Boot.set_colors d1) Hl)) as (d2 & ->). rewrite result_bind_Ok.
  set (fb1 := replicate _ 0 ++ _).
  assert (L1 : 64000 <= Z.of_nat (length fb1)) by (unfold fb1; rewrite length_app, length_replicate; lia).
  unfold Gui.Desktop_new, Gui.MAX_WINDOWS. pose proof (w_windows m0 Hm0) as Hwin.
  rewrite Console.fill_loop, !result_bind_Ok by (rewrite ?Hwin; lia).
  rewrite terminal_made, result_bind_Ok by apply Hm0.
  edestruct (Gui.AddWindow_ok (Gui.mkDesktop 320 200 0 (replicate 16 None) 0 160 100 0) [] (Gui.mkWidget 0 0 320 200))
    as (desktop & Ed & Hd); [split; cbn; [by rewrite ?length_replicate | done | lia | intros i g Hi; by rewrite lookup_nil in Hi]|].
  rewrite (drop_ge (windows0 m0)), app_nil_r by (rewrite Hwin; lia). change (take (Z.to_nat 0) _) with (@nil (option Gui.Widget)).
  rewrite app_nil_l. change (Z.to_nat (16 - 0)) with 16%nat. change (Z.quot 320 2) with 160. change (Z.quot 200 2) with 100.
  rewrite Ed, result_bind_Ok. destruct Terminal.sample_terminal_shows as (Hw & Hf & Hs).
  eapply returns_bind; [refine (term_print_ok Terminal.sample_terminal _ fb1 (chars "Frodo OS 1.0    One Ring to rule them all" ++ [10])
    _ Hw Hf L1 Hs); by apply text_ok|].
  intros [t1 fb2] (Hw1 & Hr1 & Hs1 & Hd1). cbn beta iota.
  assert (Hf1 : Terminal.full_screen t1) by (destruct Hr1 as (? & ? & ? & ? & ->); exact Hf).
  assert (L2 : 64000 <= Z.of_nat (length fb2)) by (by rewrite (Graphics.dr_len _ _ _ Hd1)).
  eapply returns_bind; [refine (term_print_ok t1 _ fb2 (chars "Type 'help' for available commands." ++ [10; 10])
    _ Hw1 Hf1 L2 Hs1); by apply text_ok|].
  intros [t2 fb3] (Hw2 & Hr2 & Hs2 & Hd2). cbn beta iota. apply returns_Ok. split; [done | done | | done | | | |].
  - assert (Ep : Gui.d_w desktop = 320 /\ Gui.d_h desktop = 200 /\ Gui.mouse_x desktop = 160 /\ Gui.mouse_y desktop = 100 /\ Gui.d_color desktop = 0)
      by (unfold Gui.AddWindow in Ed; cbn in Ed; injection Ed as <-; done).
    destruct Ep as (E1 & E2 & E3 & E4 & E5). split; rewrite ?E1, ?E2, ?E3, ?E4, ?E5; try lia. u32_lit.
  - by eapply Terminal.retext_trans.
  - unfold banner_sheet, banner. rewrite fmap_app. unfold Console.strikes. rewrite foldl_app. exact Hs2.
  - by rewrite (Graphics.dr_len _ _ _ Hd2).
  - by exists fb2.
Qed.

(** ** The scheduler and the shell *)

Lemma word_in_range l o : 0 <= o -> o + 4 <= Z.of_nat (length l) -> returns (Net.get32 l o) (fun _ => True).
Proof.
  intros Ho Hl. unfold Net.get32, Net.get16.
  repeat match goal with |- context [arr_get l ?i] =>
    let x := fresh in destruct (arr_get_in_range l i) as [x ->]; [lia|]; rewrite ?result_bind_Ok end.
  by apply returns_Ok.
Qed.

(** The part of its address space the shell may touch: program and stack. *)
Definition shell_area (va : Z) : bool :=
  ((0x00400000 <=? va) && (va <? 0x00500000)) || ((0x00C00000 <=? va) && (va <? 0x00C10000)).

(** The first process: it enters 0x400000 in ring 3 on its own stack with interrupts
    enabled; the first 16 MB are mapped to themselves, only its own area for the user. *)
Record shell_ready (at_shell : Z) (v : Paging.vm Pmm.state) (p : Sched.Process) : Prop := {
  sr_pid : Sched.pid p = 1;
  sr_state : Sched.state p = Sched.PROCESS_READY;
  sr_frame : Sched.pop_frame (Sched.kernel_stack p)
      (Z.to_nat ((Sched.cpu_esp p - (Sched.KernelStackTop at_shell - Sched.KERNEL_STACK_SIZE)) / 4)) =
    Some (Sched.mkFrame 0x10 0x23 0x23 0x23 0x23 0 0 0 0 0 0 0 0 0x00400000 0x1B 0x202 0x00C10000 0x23);
  sr_own : Sched.page_dir p <> 0;
  sr_space : exists d, Paging.dirs v !! Sched.page_dir p = Some d /\
    forall va, is_u32 va -> Paging.mmu v (Paging.phys_dir d) va =
      if shell_area va then Some (Paging.mkTr va true true)
      else if va <? 0x1000000 then Some (Paging.mkTr va true false) else None;
}.

Lemma Process_new_dir (v v' : Paging.vm Pmm.state) this dir entry n stack0 p :
  Sched.Process_new v this dir entry n stack0 = Ok (p, v') -> Paging.kernel_dir v <> 0 -> Sched.page_dir p = dir.
Proof.
  unfold Sched.Process_new, Paging.GetKernelDirectory. intros E Hk. apply result_bind_inv in E as ([sp st] & _ & E).
  rewrite (proj2 (Z.eqb_neq _ _) Hk) in E. cbn beta iota zeta delta [negb] in E.
  apply result_bind_inv in E as ([pd v3] & E1 & E). injection E as <- _. cbn [Sched.page_dir].
  apply result_bind_inv in E1 as (v1 & _ & E1). apply result_bind_inv in E1 as (v2 & _ & E1).
  apply result_bind_inv in E1 as (v4 & _ & E1). by injection E1 as <- _.
Qed.

Lemma shell_made kdir v dir at_shell stack0 :
  kernel_paged kdir v -> kdir <> 0 -> dir <> kdir -> dir <> 0 -> length stack0 = 1024%nat ->
  0 <= at_shell -> at_shell + 4168 < 2 ^ 32 ->
  returns (Sched.Process_new v at_shell dir 0x00400000 1 stack0) (fun '(p, v') =>
    Paging.vm_wf v' /\ is_Some (Paging.dirs v' !! Sched.page_dir p) /\ shell_ready at_shell v' p).
Proof.
  intros [Hwf _ Hkd (kd & Hdirs & _ & Htab & Hleaf) Hav] Hk0 Hne Hd0 Hst Ha Ha2.
  destruct (Sched.Process_new_acts v at_shell dir 0x00400000 1 stack0 kd)
    as (p & v' & d & E & Hwf' & Hd & Hp & Hs & Hf & Hu & Ho);
    [done | by rewrite Hkd | rewrite Hkd, Hdirs; apply lookup_singleton_eq | rewrite Hdirs; by apply lookup_singleton_ne
    | done | intros j Hj; apply Htab; lia | done | done | done | lia |].
  rewrite E. apply returns_Ok. split; [done|]. split; [by exists d|].
  split; [done | done | exact Hf | rewrite (Process_new_dir _ _ _ _ _ _ _ _ E); [done | by rewrite Hkd] |].
  exists d. split; [done|]. intros va Hva. destruct (shell_area va) eqn:Ea.
  - apply Hu. unfold shell_area in Ea. apply orb_prop in Ea as [Ea|Ea]; apply andb_prop in Ea as [E1 E2];
      apply Z.leb_le in E1; apply Z.ltb_lt in E2; lia.
  - assert (Hn : ~ (0x00400000 <= va < 0x00500000 \/ 0x00C00000 + (1 - 1) * 0x10000 <= va < 0x00C00000 + 1 * 0x10000)).
    { unfold shell_area in Ea. revert Ea. case_tests; intros; lia. }
    rewrite Paging.mmu_leaf by (done || by eapply (Paging.vw_dir v' Hwf')). rewrite Ho, Hleaf by done.
    assert (Hr' : is_u32 (va / 4096 * 4096)) by (zify_words; Z.div_mod_to_equations; lia).
    destruct (Paging.new_pte_kernel _ Hr') as (K1 & K2 & K3 & K4).
    destruct (Z.ltb_spec (va / 4096) 4096), (Z.ltb_spec va 0x1000000); try (exfalso; Z.div_mod_to_equations; lia).
    + rewrite K1, K2, K3, K4, Z.div_mul, andb_false_r by lia. do 2 f_equal. Z.div_mod_to_equations; lia.
    + by rewrite Z.bits_0.
Qed.

(** The empty scheduler. *)
Lemma empty_sched_inv objs esp0 v : Sched.sched_inv (Sched.Scheduler_new (S := Pmm.state) objs esp0 v).
Proof.
  split; unfold Sched.procs, Sched.addrs, Sched.MAX_PROCESSES; cbn; try done; try lia; try set_solver.
  apply NoDup_nil_2.
Qed.

Lemma start_shell_ok sizes at_ m0 fuel lo hi tss im h v kdir a f :
  (Heap.heap_fuel lo hi <= fuel)%nat -> memory0_wf m0 -> sizes_ok sizes ->
  length tss = 104%nat -> length (Cpu.handlers im) = 256%nat -> kernel_paged kdir v -> 0 < kdir < a ->
  room lo hi a f h -> cost (sizeof_SchedulerTimer sizes) + cost Sys.sizeof_PageDirectory < f ->
  0 < shell_proc_at at_ -> shell_proc_at at_ + 4168 < 2 ^ 32 ->
  returns (start_shell sizes at_ m0 fuel tss im h v) (fun '(s, im', h') =>
    Sched.sched_inv s /\ Sched.current_index s = -1 /\ Sched.addrs s = [shell_proc_at at_] /\
    Paging.vm_wf (Sched.mm s) /\
    (exists p, Sched.procs s = [p] /\ shell_ready (shell_proc_at at_) (Sched.mm s) p) /\
    Cpu.idt im' = Cpu.idt im /\ Cpu.handlers im' = <[32%nat := Some TimerH]> (Cpu.handlers im) /\
    Cpu.hardware_interrupt_offset im' = Cpu.hardware_interrupt_offset im /\
    room lo hi (a + (cost (sizeof_SchedulerTimer sizes) + cost Sys.sizeof_PageDirectory))
      (f - (cost (sizeof_SchedulerTimer sizes) + cost Sys.sizeof_PageDirectory)) h').
Proof.
  intros Hfuel Hm0 Hsz Ht Him Hkp Hk Hr Hf Ha Ha2. unfold start_shell.
  step_with word_in_range; [unfold Cpu.off_esp0; lia | rewrite Ht; unfold Cpu.off_esp0; lia |]. intros esp0 _.
  assert (Hst : 0 <= sizeof_SchedulerTimer sizes) by apply Hsz.
  eapply returns_bind; [apply (new_room lo hi fuel Hfuel h a f _ Hr);
    [done | unfold cost, Sys.sizeof_PageDirectory, Heap.sizeof_chunk in *; lia]|].
  intros [q1 h1] [_ R1]. cbn beta iota. unfold Cpu.InterruptHandler_new. rewrite arr_set_in_range, !result_bind_Ok by lia.
  assert (Ek : (Paging.GetKernelDirectory v =? 0) = false)
    by (apply Z.eqb_neq; unfold Paging.GetKernelDirectory; rewrite (kp_kernel _ _ Hkp); lia). rewrite Ek.
  eapply returns_bind; [apply (new_room lo hi fuel Hfuel h1 _ _ _ R1); [done | lia]|].
  intros [dir h2] [-> R2]. cbn beta iota.
  eapply returns_bind; [apply (shell_made kdir); [done | lia | | | apply Hm0 | lia | lia]|].
  { unfold cost, Heap.sizeof_chunk. lia. }
  { unfold cost, Heap.sizeof_chunk. lia. }
  intros [p v'] (Hwf' & Hd & Hp). cbn beta iota. set (s0 := Sched.Scheduler_new _ esp0 v').
  destruct (Sched.AddProcess_acts s0 (shell_proc_at at_) p) as (s & Es & Hi & Hc & Hps);
    [apply empty_sched_inv | apply lookup_singleton_eq | lia | apply not_elem_of_nil | by right |].
  assert (Es' : Sched.addrs s = [shell_proc_at at_] /\ Sched.mm s = v').
  { revert Es. unfold Sched.AddProcess, Sched.deref, s0. cbn [Sched.process_count Sched.Scheduler_new Sched.objs].
    rewrite lookup_singleton_eq. change (0 >=? Sched.MAX_PROCESSES) with false. cbn iota. rewrite result_bind_Ok.
    cbv zeta. cbn [Sched.assign Sched.with_objs Sched.processes Sched.process_count].
    rewrite arr_set_in_range, result_bind_Ok by (by vm_compute). intros [= <-]. by split. }
  rewrite Es, result_bind_Ok. apply returns_Ok. destruct Es' as [Eaddr Emm]. rewrite Emm.
  split; [done|]. split; [done|]. split; [done|]. split; [done|]. split.
  - exists (Sched.set_state p Sched.PROCESS_READY). split; [exact Hps|]. destruct Hp. by split.
  - split; [done|]. split; [done|]. split; [done|]. by rewrite Z.add_assoc, Z.sub_add_distr.
Qed.

(** ** The whole *)

(** A tick changes which address space is in force, not the spaces. *)
Lemma tick_memory (s s' : Sched.sched Pmm.state) esp e :
  Sched.TimerInterrupt s esp = Ok (e, s') ->
  Paging.phys (Sched.mm s') = Paging.phys (Sched.mm s) /\ Paging.dirs (Sched.mm s') = Paging.dirs (Sched.mm s).
Proof.
  unfold Sched.TimerInterrupt, Sched.Schedule. intros E. apply result_bind_inv in E as ([w s1] & E1 & E).
  assert (M1 : Sched.mm s1 = Sched.mm s).
  { revert E1. cbn [Sched.current_index Sched.processes]. destruct (_ >=? 0); [|by intros [= _ <-]].
    intros E1. apply result_bind_inv in E1 as (a & _ & E1). apply result_bind_inv in E1 as (cur & _ & E1).
    case_decide; by injection E1 as _ <-. }
  apply result_bind_inv in E as (found & _ & E). rewrite <- M1. destruct (found >=? 0); [|by injection E as _ <-].
  apply result_bind_inv in E as (a & _ & E). apply result_bind_inv in E as (nx & _ & E).
  case_decide; [|by injection E as _ <-]. apply result_bind_inv in E as (v & Ev & E).
  assert (Hv : Paging.phys v = Paging.phys (Sched.mm s1) /\ Paging.dirs v = Paging.dirs (Sched.mm s1)).
  { destruct (negb _) in Ev; [|by injection Ev as <-]. unfold Paging.SwitchDirectory in Ev.
    apply result_bind_inv in Ev as (c & _ & Ev). by injection Ev as <-. }
  destruct (_ && _) in E; injection E as _ <-; exact Hv.
Qed.

Lemma rr_first p esp :
  Sched.state p = Sched.PROCESS_READY -> Sched.rr_step [p] (-1) esp = (Sched.cpu_esp p, [Sched.set_state p Sched.PROCESS_RUNNING], 0).
Proof.
  intros Hst. unfold Sched.rr_step. change (Sched.preempt [p] (-1) esp) with (false, [p]). cbn beta iota.
  assert (Hn : Sched.next_ready [p] (-1) = Some 0)
    by (change (List.find (Sched.ready_at [p]) [0] = Some 0); cbn [List.find];
        unfold Sched.ready_at; change ([p] !! Z.to_nat 0) with (Some p); cbn iota; by rewrite bool_decide_true).
  by rewrite Hn.
Qed.

(** The first tick of a scheduler with one ready process dispatches it. *)
Lemma first_tick (s : Sched.sched Pmm.state) a p esp :
  Sched.sched_inv s -> Sched.current_index s = -1 -> Sched.addrs s = [a] -> Sched.procs s = [p] ->
  shell_ready a (Sched.mm s) p ->
  returns (Sched.TimerInterrupt s esp) (fun '(e, s') => e = Sched.cpu_esp p /\
    Sched.sched_inv s' /\ Sched.current_index s' = 0 /\ Sched.addrs s' = [a] /\
    Sched.procs s' = [Sched.set_state p Sched.PROCESS_RUNNING] /\ Sched.tss_esp0 s' = Sched.KernelStackTop a /\
    forall va, is_u32 va -> Paging.mmu (Sched.mm s') (Paging.cr3 (Sched.mm s')) va =
      if shell_area va then Some (Paging.mkTr va true true)
      else if va <? 0x1000000 then Some (Paging.mkTr va true false) else None).
Proof.
  intros Hi Hc Ha Hp [_ Hst _ Hpd (d & Hd & Hmap)].
  destruct (Sched.Schedule_acts (Sched.bump s) esp (Sched.bump_inv s Hi)) as (s' & E & Hi' & [T1 T2] & Hps & Hcur & Hdis).
  change (Sched.procs (Sched.bump s)) with (Sched.procs s) in *. change (Sched.current_index (Sched.bump s)) with (Sched.current_index s) in *.
  rewrite Hp, Hc, rr_first in * by done. cbn [fst snd] in *.
  assert (Hn : Sched.next_ready (Sched.preempt [p] (-1) esp).2 (-1) = Some 0).
  { pose proof (rr_first p esp Hst) as E1. unfold Sched.rr_step in E1. change (Sched.preempt [p] (-1) esp) with (false, [p]) in *.
    cbn [snd] in *. destruct (Sched.next_ready [p] (-1)) as [j|]; [by injection E1 as _ _ -> | done]. }
  rewrite Hn in Hdis.
  destruct Hdis as (a' & p' & Ha' & Hp' & Htss & Hdir). rewrite Hps in Hp'. injection Hp' as <-.
  assert (Ea : Sched.addrs s' = [a]) by (unfold Sched.addrs; rewrite T1, T2; exact Ha). rewrite Ea in Ha'. injection Ha' as <-.
  unfold Sched.TimerInterrupt. change (Sched.mkSched _ _ _ _ _ _ _) with (Sched.bump s). rewrite E. apply returns_Ok.
  split; [done|]. split; [done|]. split; [done|]. split; [done|]. split; [done|]. split; [done|].
  destruct (tick_memory s s' esp _ E) as [Mp Md]. destruct (Hdir Hpd) as (d' & Hd' & ->).
  rewrite Md in Hd'. change (Sched.page_dir (Sched.set_state _ _)) with (Sched.page_dir p) in Hd'. rewrite Hd in Hd'. injection Hd' as <-.
  intros va Hva. rewrite <- Hmap by done. unfold Paging.mmu. by rewrite Mp.
Qed.

Section whole.
Context {D : Type} `{PortIO D} `{!Attached D Pci.pci Pci.pci_range} `{!Attached D Ps2.ps2 Ps2.ps2_range}.
Context (sizes : class_sizes) (at_ : places) (m0 : memory0) (isr : Z -> Z) (ignore : Z) (fuel polls : nat).
Notation config_space := (gmap (Z * Z * Z) Pci.pci_fn).

(** What start-up takes from the heap, at most. *)
Definition footprint (k : config_space) : Z :=
  cost Sys.sizeof_PageDirectory + total (sizeof_driver sizes) (found_drivers m0 k) + cost (sizeof_FAT32 sizes) +
  network_size sizes + (cost (sizeof_SchedulerTimer sizes) + cost Sys.sizeof_PageDirectory).

(** What start-up relies on: of the tools ([be_memory] to [be_image]), of the machine
    ([be_region] to [be_screens]), and of the fuel of the model.  The heap leaves the
    objects below the first program and the pool above its stack. *)
Record bootable (mb : Boot.MultibootInfo) (map image : list Z) (drive : Fat.disk) (v : Vga.vga) (fb : list Z) (d : D)
    (b l : Z) (r : option Fat.FAT32) : Prop := {
  be_memory : memory0_wf m0;
  be_sizes : sizes_ok sizes;
  be_stubs : (forall v, is_u32 (isr v)) /\ is_u32 ignore;
  be_shell : 0 < shell_proc_at at_ /\ shell_proc_at at_ + 4168 < 2 ^ 32;
  be_image : Net.is_bytes image /\ Z.of_nat (length image) <= 0x100000;
  be_region : Boot.heap_region mb map = Ok (b, l);
  be_bounds : 0 < b /\ 0 <= l /\ b + l < 2 ^ 32;
  be_total : 0 <= Boot.mem_upper mb /\ region_end b l <= Boot.mem_upper mb * 1024 + 0x100000 < 2 ^ 32;
  be_room : b + Heap.sizeof_chunk + footprint (Pci.conf_of d) < 0x00400000 /\ 0x00C10000 <= heap_end b l;
  be_pci : Pci.space_wf (Pci.conf_of d);
  be_kbc : kbc_ready polls (view d);
  be_volume : Boot.mount_volume (sector0 m0) (mbr0 m0) (bpb0 m0) drive = Ok r;
  be_screens : length (Vga.buffer v) = 2000%nat /\ 64000 <= Z.of_nat (length fb);
  be_fuel : (Heap.heap_fuel b (heap_end b l) <= fuel)%nat;
}.

(** What start-up promises: the state in which the processor idles.  It is one the
    theorems on the terminal, the scheduler, the heap, the file system and the network
    start from. *)
Record booted (image : list Z) (b l : Z) (k : config_space) (r : option Fat.FAT32) (sy : system (D := D)) : Prop := {
  bt_heap : exists a f, room b (heap_end b l) a f (Sys.heap (sy_kernel sy)) /\ a + Heap.sizeof_chunk <= 0x00400000;
  bt_volume : Sys.global_fat32 (sy_kernel sy) = if driver_of m0 k 0x0101 then r else None;
  bt_network : sy_nic sy = driver_of m0 k 0x8139 /\
               match driver_of m0 k 0x8139 with
               | Some _ => exists mac n, Sys.net (sy_kernel sy) = Some n /\ network_up mac n
               | None => Sys.net (sy_kernel sy) = None
               end;
  bt_program : loaded image (user0 m0) (Sys.mem (sy_kernel sy));
  bt_terminal : Sys.active (sy_kernel sy) = true;
  bt_top : Input.terminal_on_top (Sys.ui (sy_kernel sy));
  bt_shell : exists s p, Terminal.waiters (Sys.tty_of (sy_kernel sy)) = Some s /\
    Terminal.serves (Sys.tty_of (sy_kernel sy))
      (Terminal.mkSes [] [] banner_sheet (Some ([shell_proc_at at_], [p]))) /\
    Sched.current_index s = -1 /\ Paging.vm_wf (Sched.mm s) /\ shell_ready (shell_proc_at at_) (Sched.mm s) p;
  bt_vectors : exists im, vectors_set isr ignore im /\
    exists im', taken_by_drivers im im' /\ Cpu.idt (sy_interrupts sy) = Cpu.idt im' /\
      Cpu.handlers (sy_interrupts sy) = <[32%nat := Some TimerH]> (Cpu.handlers im');
  bt_tables : exists before after, sy_effects sy = before ++ after ++ [Cpu.Sti] /\
    (sy_gdt sy, before) = Cpu.GlobalDescriptorTable_new (gdt_at at_) (Some (tss_at at_)) /\
    Cpu.Lidt 2047 (idt_at at_) ∈ after;
  bt_active : sy_active sy = true;
  bt_slots : length (Cpu.handlers (sy_interrupts sy)) = 256%nat /\
    Cpu.hardware_interrupt_offset (sy_interrupts sy) = 0x20 /\ known (length (sy_drivers sy)) (sy_interrupts sy) /\
    same_types (found_drivers m0 k) (sy_drivers sy);
  bt_input : sy_keyboard sy = Input.KeyboardDriver_new /\ sy_mouse sy = Input.mkMouse (mouse_buffer0 m0) 0 /\
    exists dt, Input.desktop (Sys.ui (sy_kernel sy)) = Some dt /\ Gui.pointer_ok dt;
}.

Lemma footprint_parts k : sizes_ok sizes ->
  0 <= total (sizeof_driver sizes) (found_drivers m0 k) /\ 0 <= cost (sizeof_FAT32 sizes) /\ 0 <= network_size sizes /\
  0 <= cost (sizeof_SchedulerTimer sizes) /\ 0 <= cost Sys.sizeof_PageDirectory.
Proof.
  intros (H1 & H2 & [H3 _] & H4 & H5 & H6 & H7 & H8 & H9).
  split; [apply total_nonneg; by intros [|r] _|]. unfold network_size, cost, Heap.sizeof_chunk, Sys.sizeof_PageDirectory. lia.
Qed.

(** The console, from its parts. *)
Lemma console_serves v desktop t fb keys (s : Sched.sched Pmm.state) p :
  screen_up v desktop t fb -> KeyboardBuffer.queue_of keys [] ->
  Sched.sched_inv s -> Sched.addrs s = [shell_proc_at at_] -> Sched.procs s = [p] ->
  Terminal.serves (Terminal.mkTty t fb keys (Some s)) (Terminal.mkSes [] [] banner_sheet (Some ([shell_proc_at at_], [p]))).
Proof.
  intros [_ _ _ Hw (g & k & r & c & ->) Hs Hfb _] Hk Hi Ha Hp. split; try done; cbn; lia.
Qed.

Lemma kernelMain_booted mb map image drive v fb d b l r :
  bootable mb map image drive v fb d b l r ->
  returns (kernelMain sizes at_ m0 isr ignore fuel polls mb map image drive v fb d) (booted image b l (Pci.conf_of d) r).
Proof.
  intros [Hm0 Hsz [Hisr Hign] [Hsh1 Hsh2] [Hib Hil] Hreg (Hb & Hl & Hbl) [Hmu Htop] [Hroom Hend] Hpci Hkbc Hvol [Hbuf Hfb] Hfuel].
  pose proof (footprint_parts (Pci.conf_of d) Hsz) as (P1 & P2 & P3 & P4 & P5). unfold footprint in Hroom. unfold kernelMain.
  eapply returns_bind; [apply (start_memory_ok m0 Hm0 at_ fuel mb map b l); try done; lia|].
  intros [[[[tss gdt] es1] h1] pages] (Htss & Hgdt & R1 & Hkp). cbn beta iota.
  eapply returns_bind; [apply (start_devices_ok sizes at_ m0 Hm0 isr ignore Hisr Hign fuel polls b _ Hfuel _ v h1 d _ _ Hbuf eq_refl Hpci Hkbc Hsz R1)|].
  { unfold Heap.sizeof_chunk in *. lia. }
  intros [[[dv es2] h2] d2] (Hdv & Hlidt & a2 & Ha2 & R2). cbn beta iota.
  eapply returns_bind; [apply (start_storage_ok sizes m0 isr ignore fuel b _ Hfuel _ dv drive h2 a2 _ r Hdv Hvol Hsz R2); unfold Heap.sizeof_chunk in *; lia|].
  intros [fat h3] (Hfat & a3 & f3 & Ha3 & Hf3 & R3). cbn beta iota.
  eapply returns_bind; [apply (start_network_ok sizes m0 isr ignore fuel b _ Hfuel _ dv h3 a3 f3 Hdv Hsz R3); unfold Heap.sizeof_chunk in *; lia|].
  intros [net h4] (Hnet & a4 & f4 & Ha4 & Hf4 & R4). cbn beta iota.
  eapply returns_bind; [apply (load_program_ok image (user0 m0) Hib); lia|]. intros mem Hmem. cbn beta.
  eapply returns_bind; [apply (start_screen_ok m0 (dv_screen dv) fb d2 Hm0 Hfb)|].
  intros [[[[v' desktop] t] fb'] d3] Hscr. cbn beta iota.
  assert (Hk4 : 0 < b + Heap.sizeof_chunk < a4) by (clear -Hb Ha2 Ha3 Ha4; unfold cost, Sys.sizeof_PageDirectory, Heap.sizeof_chunk in *; lia).
  assert (Hf5 : cost (sizeof_SchedulerTimer sizes) + cost Sys.sizeof_PageDirectory < f4)
    by (clear -Hroom Hend Hf3 Hf4 P5; unfold Heap.sizeof_chunk in *; lia).
  eapply returns_bind; [exact (start_shell_ok sizes at_ m0 fuel b _ tss (dv_interrupts dv) h4 pages (b + Heap.sizeof_chunk) a4 f4
    Hfuel Hm0 Hsz Htss (do_slots _ _ _ _ _ Hdv) Hkp Hk4 R4 Hf5 Hsh1 Hsh2)|].
  intros [[s im] h5] (Hi & Hc & Hadr & Hwf & (p & Hps & Hp) & Eidt & Eh & Eoff & R5). cbn beta iota.
  apply returns_Ok. split; cbn [sy_kernel sy_interrupts sy_gdt sy_effects sy_active sy_nic sy_drivers sy_keyboard sy_mouse Sys.heap Sys.global_fat32 Sys.net Sys.mem Sys.ui].
  - eexists _, _. split; [exact R5|]. apply room_ends in R5. unfold Heap.sizeof_chunk in *. lia.
  - exact Hfat.
  - destruct (driver_of m0 _ 0x8139) as [nic|]; [|rewrite Hnet; split; reflexivity]. destruct Hnet as (mac & n & -> & Hn).
    split; [reflexivity|]. by exists mac, n.
  - exact Hmem.
  - reflexivity.
  - destruct Hscr as [Hmode Hwin _ _ _ _ _ _]. split; [exact Hmode|]. eexists desktop, _, _. split; [reflexivity|]. by split; [exact Hwin|].
  - exists s, p. split; [reflexivity|]. split; [|split; [exact Hc | split; [exact Hwf | exact Hp]]].
    exact (console_serves v' desktop t fb' (dv_keys dv) s p Hscr (do_keys _ _ _ _ _ Hdv) Hi Hadr Hps).
  - destruct (do_vectors _ _ _ _ _ Hdv) as (im0 & Hv0 & Htk). exists im0. split; [exact Hv0|].
    exists (dv_interrupts dv). split; [exact Htk|]. split; [exact Eidt | exact Eh].
  - exists es1, es2. split; [reflexivity|]. split; [exact Hgdt | exact Hlidt].
  - reflexivity.
  - destruct (do_vectors _ _ _ _ _ Hdv) as (im0 & Hv0 & Htk). split; [|split; [|split; [|apply Hdv]]].
    + rewrite Eh, length_insert. apply Hdv.
    + rewrite Eoff, (tb_offset _ _ Htk). apply Hv0.
    + intros w q. rewrite Eh, list_lookup_insert_Some. intros [(_ & Hq & _)|[_ Hq]]; [discriminate Hq|].
      exact (do_known _ _ _ _ _ Hdv w q Hq).
  - split; [apply Hdv|]. split; [apply Hdv|]. exists desktop. split; [reflexivity | apply Hscr].
Qed.

(** C1: The kernel boots into its shell.  On a machine whose memory map has a usable region
    up to 0xC90000 at least, with a PCI bus, a keyboard controller that answers within the
    polls, any drive and any contents of uninitialised memory, [kernelMain] runs to its idle
    loop without a fault.  It leaves a consistent heap whose objects lie below the program,
    the volume that was found (if there is a disk driver), the network stack with its
    handlers registered and one ARP request for the gateway on the wire (if there is a
    card), the program at 0x400000, the terminal with its banner on top of the screen, the
    gates and the handlers of the interrupts, and interrupts on.  The first timer tick from
    there enters the shell: it returns the stack on which the shell's ring 3 frame lies,
    on the shell's own page directory, in which exactly its program and its stack are
    accessible to it; the network page at 0x600000, which the shell uses, is not. *)
Theorem kernel_boots mb map image drive v fb d b l r :
  bootable mb map image drive v fb d b l r ->
  exists sy, kernelMain sizes at_ m0 isr ignore fuel polls mb map image drive v fb d = Ok sy /\
    booted image b l (Pci.conf_of d) r sy /\
    forall s esp, Terminal.waiters (Sys.tty_of (sy_kernel sy)) = Some s ->
    exists p s', Sched.TimerInterrupt s esp = Ok (Sched.cpu_esp p, s') /\
      shell_ready (shell_proc_at at_) (Sched.mm s) p /\
      Terminal.serves (Sys.tty_of (Sys.set_instance (sy_kernel sy) s'))
        (Terminal.mkSes [] [] banner_sheet (Some ([shell_proc_at at_], [Sched.set_state p Sched.PROCESS_RUNNING]))) /\
      Sched.current_index s' = 0 /\ Sched.tss_esp0 s' = Sched.KernelStackTop (shell_proc_at at_) /\
      (forall va, is_u32 va -> Paging.mmu (Sched.mm s') (Paging.cr3 (Sched.mm s')) va =
         if shell_area va then Some (Paging.mkTr va true true)
         else if va <? 0x1000000 then Some (Paging.mkTr va true false) else None) /\
      Paging.mmu (Sched.mm s') (Paging.cr3 (Sched.mm s')) Sys.NET_SHARED_BASE_ADDR =
        Some (Paging.mkTr Sys.NET_SHARED_BASE_ADDR true false).
Proof.
  intros Hboot. destruct (kernelMain_booted _ _ _ _ _ _ _ _ _ _ Hboot) as (sy & E & Hsy). exists sy.
  split; [exact E|]. split; [exact Hsy|]. intros s esp Hw.
  destruct (bt_shell _ _ _ _ _ _ Hsy) as (s0 & p & Hw0 & Hsv & Hc & _ & Hp). rewrite Hw in Hw0. injection Hw0 as <-.
  pose proof (Terminal.sv_waiters _ _ Hsv) as Hws. rewrite Hw in Hws. destruct Hws as (Hi & Ha & Hps).
  destruct (first_tick s (shell_proc_at at_) p esp Hi Hc Ha Hps Hp) as ([e s'] & Et & -> & Hi' & Hc' & Ha' & Hp' & Htss & Hmap).
  exists p, s'. split; [exact Et|]. split; [exact Hp|]. split.
  { destruct Hsv as [S1 S2 S3 S4 S5 S6 S7 S8 S9 S10 _]. by split. }
  split; [exact Hc'|]. split; [exact Htss|]. split; [exact Hmap|]. rewrite Hmap; [done | u32_lit].
Qed.
End whole.

(** ** A machine that boots *)

(** A bus and a keyboard controller; no other port answers. *)
Record pc := mkPc { bus : Pci.pci; kbc : Ps2.ps2 }.

#[export] Instance pc_ports : PortIO pc := {
  inp n p m :=
    if bool_decide (p = 0x60 \/ p = 0x64) then let '(v, c) := inp n p (kbc m) in (v, mkPc (bus m) c)
    else if bool_decide (Pci.pci_range p) then let '(v, c) := inp n p (bus m) in (v, mkPc c (kbc m))
    else (0, m);
  outp n p v m :=
    if bool_decide (p = 0x60 \/ p = 0x64) then mkPc (bus m) (outp n p v (kbc m))
    else if bool_decide (Pci.pci_range p) then mkPc (outp n p v (bus m)) (kbc m)
    else m;
}.

Lemma pc_apart p : p = 0x60 \/ p = 0x64 -> ~ Pci.pci_range p.
Proof. intros [->| ->]; apply input_ports_apart. Qed.

#[export] Instance pc_bus : Attached pc Pci.pci Pci.pci_range.
Proof.
  refine {| view := bus |}; unfold inp, outp; cbn [pc_ports].
  - intros n p m Hp. rewrite bool_decide_false, bool_decide_true by (done || intros ?; by apply (pc_apart p)).
    by destruct (inp n p (bus m)) as [v c] eqn:E; unfold inp in E; cbn in *; rewrite E.
  - intros n p v m Hp. by rewrite bool_decide_false, bool_decide_true by (done || intros ?; by apply (pc_apart p)).
  - intros n p v m Hp. rewrite (bool_decide_false (Pci.pci_range p)) by done. split; case_bool_decide; try done.
    by destruct (Ps2.ps2_ports.(inp) n p (kbc m)).
Defined.

#[export] Instance pc_kbc : Attached pc Ps2.ps2 Ps2.ps2_range.
Proof.
  refine {| view := kbc |}; unfold inp, outp; cbn [pc_ports].
  - intros n p m Hp. rewrite bool_decide_true by done. by destruct (inp n p (kbc m)) as [v c] eqn:E; unfold inp in E; cbn in *; rewrite E.
  - intros n p v m Hp. by rewrite bool_decide_true by done.
  - intros n p v m Hp. rewrite bool_decide_false by done. split; case_bool_decide; try done.
    by destruct (Pci.pci_ports.(inp) n p (bus m)).
Defined.

Definition sample_sizes : class_sizes := mkSizes 64 64 128 1024 64 16 4096 16384 32.
Definition sample_places : places := mkPlaces 0x105000 0x106000 0x107000 0x110000 0x104000.
Definition sample_memory0 : memory0 :=
  mkMem0 (replicate 104 0) (replicate (Z.to_nat 32768) 0) (replicate 256 (Cpu.mkGate 0 0 0 0 0)) (replicate 256 None)
    (KeyboardBuffer.mkKb (replicate 256 0) 3 4) [0; 0; 0] (replicate 256 None) Pci.sample_bars (replicate 6 0)
    (replicate 512 0) (replicate 512 0) (replicate 512 0) Boot.no_bpb (replicate 16 None) (replicate 920 0) (replicate 920 0)
    (replicate 256 0) (replicate 1024 0) (fun _ => 0).
Definition sample_pc : pc := mkPc (Pci.mkPci 0 Pci.sample_space) (Ps2.mkPs2 0x47 [] Ps2.ToKeyboard false false 2 3).
Definition sample_mb : Boot.MultibootInfo := Boot.mkMb 0x40 0xFC00 24 0x9000.
Definition sample_map : list Z := Boot.encode (Boot.mkEntry 20 0x100000 0x3F00000 1, []).
Definition sample_vga : Vga.vga := Vga.mkVga (replicate 2000 0) 0 7 false.

Lemma sample_memory0_wf : memory0_wf sample_memory0.
Proof.
  split; try reflexivity; try apply length_replicate.
  - split; [apply length_replicate | apply Forall_replicate; u32_lit].
  - split; reflexivity.
  - intros x. u32_lit.
Qed.

Lemma sample_drivers : found_drivers sample_memory0 (Pci.conf_of sample_pc) =
  [Pci.DAta; Pci.DRtl (Rtl.mkRtl 0xC000 (replicate 6 0) 0)].
Proof. vm_compute. reflexivity. Qed.

Definition sample_isr (v : Z) : Z := 0x101000 + 16 * v mod 256.
Definition sample_fuel : nat := Heap.heap_fuel 0x200000 0xF80000.

(** That machine with any bus whose drivers fit. *)
Lemma pc_bootable space r :
  Pci.space_wf space -> total (sizeof_driver sample_sizes) (found_drivers sample_memory0 space) < 0x100000 ->
  Boot.mount_volume (replicate 512 0) (replicate 512 0) Boot.no_bpb Boot.sample_disk = Ok r ->
  bootable sample_sizes sample_places sample_memory0 sample_isr 0x100F00 sample_fuel 10 sample_mb sample_map [0xEB; 0xFE]
    Boot.sample_disk sample_vga (replicate (Z.to_nat 64000) 0)
    (mkPc (Pci.mkPci 0 space) (Ps2.mkPs2 0x47 [] Ps2.ToKeyboard false false 2 3)) 0x200000 0x3E00000 r.
Proof.
  intros Hw Ht Ev. split.
  - exact sample_memory0_wf.
  - repeat split; (reflexivity || (cbn; lia)).
  - unfold sample_isr. split; [intros v; pose proof (Z.mod_pos_bound (16 * v) 256 ltac:(lia)); zify_words; lia | u32_lit].
  - cbn. lia.
  - split; [repeat (apply Forall_cons; split; [u32_lit|]); by apply Forall_nil | cbn; lia].
  - vm_compute. reflexivity.
  - lia.
  - cbn [Boot.mem_upper sample_mb]. unfold region_end. lia.
  - split; [|unfold heap_end, region_end, Boot.PMM_POOL_SIZE; lia]. unfold footprint.
    change (Pci.conf_of _) with space. revert Ht. generalize (total (sizeof_driver sample_sizes) (found_drivers sample_memory0 space)).
    intros t Ht. unfold network_size, cost, Sys.sizeof_PageDirectory, Heap.sizeof_chunk. cbn. lia.
  - exact Hw.
  - split; try reflexivity; [u32_lit | cbn; lia | cbn; lia].
  - exact Ev.
  - split; [reflexivity | rewrite length_replicate; lia].
  - reflexivity.
Qed.

Lemma sample_bootable r :
  Boot.mount_volume (replicate 512 0) (replicate 512 0) Boot.no_bpb Boot.sample_disk = Ok r ->
  bootable sample_sizes sample_places sample_memory0 sample_isr 0x100F00 sample_fuel 10 sample_mb sample_map [0xEB; 0xFE]
    Boot.sample_disk sample_vga (replicate (Z.to_nat 64000) 0) sample_pc 0x200000 0x3E00000 r.
Proof.
  intros Ev. apply pc_bootable; [exact Pci.sample_wf | | exact Ev].
  pose proof sample_drivers as E. change (Pci.conf_of sample_pc) with Pci.sample_space in E. rewrite E. reflexivity.
Qed.

Lemma kernel_boots_witness :
  exists sy n mac, kernelMain sample_sizes sample_places sample_memory0 sample_isr 0x100F00 sample_fuel 10 sample_mb sample_map
      [0xEB; 0xFE] Boot.sample_disk sample_vga (replicate (Z.to_nat 64000) 0) sample_pc = Ok sy /\
    Sys.mem (sy_kernel sy) 0x400001 = 0xFE /\ is_Some (Sys.global_fat32 (sy_kernel sy)) /\
    Sys.net (sy_kernel sy) = Some n /\ network_up mac n /\ last (sy_effects sy) = Some Cpu.Sti.
Proof.
  destruct (Boot.mount_volume (replicate 512 0) (replicate 512 0) Boot.no_bpb Boot.sample_disk) as [r|e] eqn:Ev;
    [|vm_compute in Ev; discriminate Ev].
  destruct (kernel_boots (D := pc) sample_sizes sample_places sample_memory0 sample_isr 0x100F00 sample_fuel 10 sample_mb
    sample_map [0xEB; 0xFE] Boot.sample_disk sample_vga (replicate (Z.to_nat 64000) 0) sample_pc 0x200000 0x3E00000 r
    (sample_bootable r Ev)) as (sy & E & [_ Bv Bn Bp _ _ _ _ Be _ _ _] & _).
  unfold driver_of in Bv, Bn. rewrite sample_drivers in Bv, Bn.
  change (Boot.first_of_type _ _ _) with (Some 0%nat) in Bv. change (Boot.first_of_type _ _ _) with (Some 1%nat) in Bn.
  destruct Bn as [_ (mac & n & En & Hn)]. exists sy, n, mac. split; [exact E|].
  split; [rewrite Bp; reflexivity|]. split; [rewrite Bv; vm_compute in Ev; injection Ev as <-; by eexists|].
  split; [exact En|]. split; [exact Hn|]. destruct Be as (es1 & es2 & -> & _). rewrite !last_app. reflexivity.
Defined.

End KernelBoot.
