(* ===== verification/KernelRun.v ===== *)
(** The kernel after start-up: what an interrupt does to the whole system
    (src/src/arch/i386/interrupts.cpp over the handlers of the drivers, the scheduler, the
    system calls and the page fault report).

    [Cpu.HandleInterrupt] is instantiated with the handler objects [kernelMain] registers.
    Its state is the system ([Kernel.system]) with the registers the stub has saved, and
    what the devices answer while the handler runs is an input.  An abstract machine, the
    keyboard's modifiers, the terminal session and the round-robin table, says what
    hardware interrupts mean; the handlers implement it, and a page fault stops the
    machine.  KernelCalls.v adds the system calls. *)

From stdpp Require Import base numbers list gmap strings relations.
From Stdlib Require Import ZArith Lia.
From S2P Require Import Prelude Pmm Heap Paging Scheduler KeyboardBuffer Net NetStack Tcp NetReceive NetSafety Fat32 Cpu Console Vga Ports Ata Drivers Rtl8139 Pci Graphics Boot Terminal Gui Input Ps2 Syscall SyscallProofs KernelMain KernelBoot.

Module KernelRun.
Import Ports Kernel KernelBoot.

#[local] Existing Instances Pci.pci_ports Ps2.ps2_ports Vga.vga_console.

(** ** Interrupts of the whole system *)

(** What the devices answer, what the processor and the interrupted code supply. *)
Record inputs := mkInputs {
  in_scancode : Z;                   (** port 0x60, for the keyboard *)
  in_mouse_status : Z;               (** port 0x64 *)
  in_mouse_data : Z;                 (** port 0x60, for the mouse *)
  in_card_status : Z;                (** interrupt status of the network card *)
  in_card_pending : nat;             (** frames it has stored *)
  in_rx_buffer : list Z;             (** the receive buffer as the card has filled it *)
  in_cr2 : Z;
  in_env : list (Sys.arrival Pmm.state);  (** interrupts while a call sleeps *)
  in_stack0 : list Z;
}.

Section run.
Context {D : Type}.
Notation system := (@system D).
(** The buffers on the stack of the system calls, and fuel for the heap. *)
Context (junk junk4096 junk64k junk256 : list Z) (fuel : nat).

Definition with_kernel (sy : system) (k : Sys.kernel Pmm.state) : system :=
  mkSystem k (sy_interrupts sy) (sy_gdt sy) (sy_keyboard sy) (sy_mouse sy) (sy_drivers sy) (sy_manager sy)
    (sy_nic sy) (sy_active sy) (sy_effects sy) (sy_machine sy).
Definition with_ui (sy : system) (u : Input.world Pmm.state) : system := with_kernel sy (Sys.set_ui (sy_kernel sy) u).
Definition with_input (sy : system) (k : Input.KeyboardDriver) (m : Input.MouseDriver) : system :=
  mkSystem (sy_kernel sy) (sy_interrupts sy) (sy_gdt sy) k m (sy_drivers sy) (sy_manager sy)
    (sy_nic sy) (sy_active sy) (sy_effects sy) (sy_machine sy).
Definition with_drivers (sy : system) (ds : list Pci.driver) : system :=
  mkSystem (sy_kernel sy) (sy_interrupts sy) (sy_gdt sy) (sy_keyboard sy) (sy_mouse sy) ds (sy_manager sy)
    (sy_nic sy) (sy_active sy) (sy_effects sy) (sy_machine sy).

(** A network card: its frames go to the handlers registered with it, which only the card
    that start-up chose has. *)
Definition card_interrupt (inp : inputs) (p : nat) (r : Rtl.RTL8139Driver) (sy : system) : result system :=
  let chosen := match sy_nic sy with Some q => bool_decide (p = q) | None => false end in
  let d := match (if chosen then Sys.net (sy_kernel sy) else None) with
           | Some d => d | None => EthernetDriver_new (static_host (Rtl.mac r) 0) end in
  '(ring, d) ← Receive.HandleInterrupt (in_card_status inp) (in_card_pending inp)
                 (Receive.mkRing (in_rx_buffer inp) (Rtl.rx_read_ptr r) 0) d;
  let r := Rtl.mkRtl (Rtl.port_base0 r) (Rtl.mac r) (Receive.rx_read_ptr ring) in
  let sy := with_drivers sy (<[p := Pci.DRtl r]> (sy_drivers sy)) in
  Ok (if chosen then with_kernel sy (Sys.set_net (sy_kernel sy) (match Sys.net (sy_kernel sy) with Some _ => Some d | None => None end))
      else sy).

(** [HandleInterrupt] of a handler object. *)
Definition handle (inp : inputs) (o : handler) (esp : Z) (sy : system) : result (Z * system) :=
  match o with
  | TimerH =>
      s ← Sys.instance (sy_kernel sy);
      '(esp, s) ← Sched.TimerInterrupt s esp;
      Ok (esp, with_kernel sy (Sys.set_instance (sy_kernel sy) s))
  | KeyboardH =>
      '(k, u) ← Input.Keyboard_HandleInterrupt (sy_keyboard sy) (in_scancode inp) (Sys.ui (sy_kernel sy));
      Ok (esp, with_input (with_ui sy u) k (sy_mouse sy))
  | MouseH =>
      '(m, u) ← Input.Mouse_HandleInterrupt (sy_mouse sy) (in_mouse_status inp) (in_mouse_data inp)
                  (Sys.ui (sy_kernel sy));
      Ok (esp, with_input (with_ui sy u) (sy_keyboard sy) m)
  | DriverH p =>
      match sy_drivers sy !! p with
      | None => Err BadPointer
      | Some Pci.DAta => Ok (esp, sy)
      | Some (Pci.DRtl r) => sy ← card_interrupt inp p r sy; Ok (esp, sy)
      end
  end.

(** The report of a page fault on the text screen; the processor stops after it. *)
Definition HandlePageFault (v : Vga.vga) (faulting_addr error_code : Z) : result Vga.vga :=
  v ← Vga.Print v (literal "PAGE FAULT at 0x" []);
  v ← Vga.PrintHex32 v faulting_addr;
  v ← Vga.Print v (literal " error=0x" []);
  v ← Vga.PrintHex v (u8 error_code);
  Vga.Print v (literal "" [10]).

(** The machine runs, with the registers saved at the stack pointer, or has stopped. *)
Inductive status := Running (sy : system) (f : Sys.SyscallFrame) | Halted (screen : Vga.vga) | Restarted.

Definition on_running (g : system -> Sys.SyscallFrame -> result (Z * status)) (esp : Z) (st : result status)
    : Z * result status :=
  match st with
  | Ok (Running sy f) => match g sy f with Ok (esp, st) => (esp, Ok st) | Err e => (esp, Err e) end
  | _ => (esp, st)
  end.

Definition call (inp : inputs) (o : handler) (esp : Z) : result status -> Z * result status :=
  on_running (fun sy f => '(esp, sy) ← handle inp o esp sy; Ok (esp, Running sy f)) esp.

Definition syscall (inp : inputs) (esp : Z) : result status -> Z * result status :=
  on_running (fun sy f =>
    '(o, f, k) ← Sys.SyscallDispatch junk junk4096 junk64k junk256 fuel (sy_kernel sy) esp f (in_env inp) (in_stack0 inp);
    match o with
    | Sys.Resume esp => Ok (esp, Running (with_kernel sy k) f)
    | Sys.Reset => Ok (esp, Restarted)
    end) esp.

Definition page_fault (cr2 : Z) (st : result status) : result status :=
  snd (on_running (fun sy _ =>
    v ← HandlePageFault (Input.text_screen (Sys.ui (sy_kernel sy))) cr2 0; Ok (0, Halted v)) 0 st).

(** [InterruptManager::HandleInterrupt], entered from the stub of vector [v]. *)
Definition interrupt (inp : inputs) (v esp : Z) (sy : system) (f : Sys.SyscallFrame)
    : result (Z * status * list Cpu.effect) :=
  '(esp, st, es) ← Cpu.HandleInterrupt (call inp) (syscall inp) page_fault (sy_active sy) (sy_interrupts sy)
                     (in_cr2 inp) v esp (Ok (Running sy f));
  st ← st;
  Ok (esp, st, es).
End run.

(** ** What hardware interrupts mean *)

(** The keyboard's modifiers, the terminal session with the processes, the index of the
    process that runs, and the memory of the programs. *)
Record desk := mkDesk {
  dk_keys : Input.KeyboardDriver;
  dk_session : Terminal.session;
  dk_current : Z;
  dk_mem : Z -> Z;
}.

Definition spec_timer (esp : Z) (a : desk) : Z * desk :=
  let e := dk_session a in
  match Terminal.readers e with
  | Some (adrs, ps) =>
      let '(esp, ps, cur) := Sched.rr_step ps (dk_current a) esp in
      (esp, mkDesk (dk_keys a) (Terminal.mkSes (Terminal.typed e) (Terminal.delivered e) (Terminal.echo e) (Some (adrs, ps))) cur (dk_mem a))
  | None => (esp, a)
  end.

Definition spec_handle (inp : inputs) (o : handler) (esp : Z) (a : desk) : Z * desk :=
  match o with
  | TimerH => spec_timer esp a
  | KeyboardH =>
      match Input.decode (dk_keys a) (in_scancode inp) with
      | Ok (k, Some c) => (esp, mkDesk k (Terminal.spec_key (dk_session a) c) (dk_current a) (dk_mem a))
      | Ok (k, None) => (esp, mkDesk k (dk_session a) (dk_current a) (dk_mem a))
      | Err _ => (esp, a)
      end
  | MouseH | DriverH _ => (esp, a)
  end.

(** The acknowledgement of a hardware vector. *)
Definition end_of_interrupt (v : Z) : list Cpu.effect :=
  (if v <? 40 then [] else Cpu.slow_write Cpu.PIC_SLAVE_COMMAND 0x20) ++ Cpu.slow_write Cpu.PIC_MASTER_COMMAND 0x20.

Section meaning.
Context {D : Type}.
Implicit Types (sy : @system D) (a : desk).

(** The system shows [a] and is ready for the next interrupt. *)
Record alive sy a : Prop := {
  al_active : sy_active sy = true;
  al_size : length (Cpu.handlers (sy_interrupts sy)) = 256%nat;
  al_offset : Cpu.hardware_interrupt_offset (sy_interrupts sy) = 0x20;
  al_known : known (length (sy_drivers sy)) (sy_interrupts sy);
  al_keys : sy_keyboard sy = dk_keys a;
  al_top : Input.terminal_on_top (Sys.ui (sy_kernel sy));
  al_serves : Terminal.serves (Sys.tty_of (sy_kernel sy)) (dk_session a);
  al_current : exists s, Terminal.waiters (Sys.tty_of (sy_kernel sy)) = Some s /\ Sched.current_index s = dk_current a;
  al_mouse : length (Input.m_buffer (sy_mouse sy)) = 3%nat /\ 0 <= Input.m_offset (sy_mouse sy) < 3;
  al_pointer : exists dt, Input.desktop (Sys.ui (sy_kernel sy)) = Some dt /\ Gui.pointer_ok dt;
  al_memory : Sys.mem (sy_kernel sy) = dk_mem a /\ forall x, is_u8 (dk_mem a x);
  al_terminal : Sys.active (sy_kernel sy) = true;
  al_net : forall d, Sys.net (sy_kernel sy) = Some d -> exists h, d = Receive.register_all h /\ Stack.host_wf h;
}.

(** What interrupts leave alone. *)
Definition untouched sy sy' : Prop :=
  sy_interrupts sy' = sy_interrupts sy /\ Sys.mem (sy_kernel sy') = Sys.mem (sy_kernel sy) /\
  Sys.heap (sy_kernel sy') = Sys.heap (sy_kernel sy) /\ Sys.global_fat32 (sy_kernel sy') = Sys.global_fat32 (sy_kernel sy).

(** Bytes from the controller, no new line on a full line, and frames whose lengths fit. *)
Definition admissible (inp : inputs) (o : handler) sy : Prop :=
  match o with
  | TimerH | MouseH => True
  | KeyboardH => is_u8 (in_scancode inp) /\
      forall k, Input.decode (sy_keyboard sy) (in_scancode inp) = Ok (k, Some 10) ->
        Terminal.input_len (Terminal.term (Sys.tty_of (sy_kernel sy))) < 255
  | DriverH p => forall r, sy_drivers sy !! p = Some (Pci.DRtl r) -> Net.is_bytes (in_rx_buffer inp) /\
      NetSafety.ring_honest (in_card_pending inp) (Receive.mkRing (in_rx_buffer inp) (Rtl.rx_read_ptr r) 0) = true
  end.
End meaning.

(** ** The handlers *)

Lemma decode_ok k sc :
  is_u8 sc -> returns (Input.decode k sc) (fun '(_, c) => match c with Some c => is_u8 c | None => True end).
Proof.
  intros Hsc. unfold Input.decode. do 6 (apply returns_if; intros ?; [by apply returns_Ok|]). cbv zeta.
  apply returns_if; intros H88; [by apply returns_Ok|].
  set (table := if xorb _ _ then _ else _).
  assert (Ht : length table = 88%nat /\ Net.is_bytes table).
  { unfold table. destruct (xorb _ _); (split; [reflexivity|]); apply Forall_forall; intros x Hx%list_elem_of_In;
      cbn in Hx; zify_words; lia. }
  destruct Ht as [Hl Hb]. rewrite Z.geb_leb in H88. apply Z.leb_gt in H88.
  destruct (arr_get_in_range table sc) as [c Hc]; [rewrite Hl; zify_words; lia|]. rewrite Hc, result_bind_Ok.
  apply returns_if; intros _; [by apply returns_Ok|]. apply returns_Ok.
  apply arr_get_Ok in Hc as [_ Hc]. pose proof (Forall_lookup_1 _ _ _ _ Hb Hc) as H8. destruct (_ && _); [|done].
  change 0x1F with (Z.ones 5). rewrite Z.land_ones by lia. zify_words. Z.div_mod_to_equations. lia.
Qed.

(** A card without registered handlers drops its frames. *)
Lemma idle_card pending ring h :
  Net.is_bytes (Receive.rx_buffer ring) -> NetSafety.ring_honest pending ring = true ->
  returns (Receive.HandleReceive pending ring (Receive.mkDev h [] [])) (fun _ => True).
Proof.
  revert ring. induction pending as [|n IH]; intros ring Hb Hr; [by apply returns_Ok|].
  cbn [NetSafety.ring_honest] in Hr. cbn [Receive.HandleReceive]. set (entry := drop _ _) in *.
  assert (Be : Net.is_bytes entry) by (by apply Forall_drop).
  apply andb_prop in Hr as [Hr Hn]. apply andb_prop in Hr as [Hr _]. apply andb_prop in Hr as [H4 Hl].
  apply Z.leb_le in H4, Hl. step_with NetSafety.half_at; [done | lia | lia |]. intros st _.
  destruct (NetSafety.half_at entry 2) as (len & El & Hlen); [done | lia | lia |].
  pose proof (NetSafety.byte_pair entry 2 len El) as Eb. change (2 + 1) with 3 in Eb. rewrite Eb in *. rewrite El, result_bind_Ok.
  rewrite (u32_small (len - 4)) by (zify_words; lia).
  apply (returns_bind _ _ (fun d => d = Receive.mkDev h [] [])).
  - apply returns_if; intros _; [|by apply returns_Ok]. unfold Receive.Dispatch.
    destruct (Z.ltb_spec (len - 4) 14); [by apply returns_Ok|].
    step_with NetSafety.half_at; [by apply Forall_drop | lia | rewrite length_drop; lia |]. intros et _. by apply returns_Ok.
  - intros d ->. apply IH; [exact Hb | exact Hn].
Qed.

Section handlers.
Context {D : Type}.
Implicit Types (sy : @system D) (a : desk).

Lemma timer_alive sy a inp esp :
  alive sy a -> returns (handle inp TimerH esp sy) (fun '(e, sy') =>
    e = (spec_handle inp TimerH esp a).1 /\ alive sy' (spec_handle inp TimerH esp a).2 /\ untouched sy sy').
Proof.
  intros [A1 A2 A3 A4 A5 [T1 T2] A7 (s & Hw & Hc) A9 A10 A11 A12 A13]. cbn [handle spec_handle]. unfold Sys.instance. rewrite Hw, result_bind_Ok.
  pose proof (Terminal.sv_waiters _ _ A7) as Hws. rewrite Hw in Hws. unfold spec_timer.
  destruct (Terminal.readers (dk_session a)) as [[adrs ps]|]; [|done]. destruct Hws as (Hi & Ha & Hp). cbn [fst snd] in Ha, Hp.
  destruct (Sched.Schedule_acts (Sched.bump s) esp (Sched.bump_inv s Hi)) as (s' & E & Hi' & [E1 E2] & Hp' & Hc' & _).
  change (Sched.procs (Sched.bump s)) with (Sched.procs s) in *. change (Sched.current_index (Sched.bump s)) with (Sched.current_index s) in *.
  rewrite Hp, Hc in *. unfold Sched.TimerInterrupt. change (Sched.mkSched _ _ _ _ _ _ _) with (Sched.bump s).
  rewrite E, result_bind_Ok. apply returns_Ok. destruct (Sched.rr_step ps (dk_current a) esp) as [[e ps'] cur]. cbn [fst snd] in *.
  split; [done|]. split; [|done]. split; try done.
  - apply SysProofs.serves_table; [done | done | | done]. unfold Sched.addrs. cbn [fst]. rewrite E1, E2. exact Ha.
  - by exists s'.
Qed.

Lemma keyboard_alive sy a inp esp :
  alive sy a -> admissible inp KeyboardH sy -> returns (handle inp KeyboardH esp sy) (fun '(e, sy') =>
    e = (spec_handle inp KeyboardH esp a).1 /\ alive sy' (spec_handle inp KeyboardH esp a).2 /\ untouched sy sy').
Proof.
  intros [A1 A2 A3 A4 A5 A6 A7 (s & Hw & Hc) A9 A10 A11 A12 A13] [H8 Hfull]. cbn [handle spec_handle].
  unfold Input.Keyboard_HandleInterrupt. rewrite A5 in *.
  destruct (decode_ok (dk_keys a) (in_scancode inp) H8) as ([k c] & Ed & Hcu). rewrite Ed, result_bind_Ok. destruct c as [c|].
  2:{ rewrite result_bind_Ok. apply returns_Ok. split; [done|]. split; [|done]. split; try done. by exists s. }
  rewrite (Input.deliver_to_terminal _ _ A6).
  destruct (Terminal.key_press (Sys.tty_of (sy_kernel sy)) (dk_session a) c A7 Hcu) as (t' & Et & Hs').
  { intros ->. rewrite <- (Terminal.sv_len _ _ A7). by apply (Hfull k). }
  assert (Hi : Sched.sched_inv s).
  { pose proof (Terminal.sv_waiters _ _ A7) as Hws. rewrite Hw in Hws. by destruct (Terminal.readers _), Hws. }
  destruct (SysProofs.key_current _ _ _ _ Et Hw Hi) as (w' & Hw' & Ec'). unfold Sys.tty_of in Et.
  rewrite Et, !result_bind_Ok. apply returns_Ok. split; [done|]. split; [|done]. split; try done.
  - by destruct A6.
  - exists w'. split; [exact Hw'|]. by rewrite Ec'.
Qed.

Lemma i8_bounds b : -128 <= i8 b < 128.
Proof. unfold i8. zify_words. Z.div_mod_to_equations. lia. Qed.

(** A byte of the mouse: at most the pointer moves. *)
Lemma mouse_byte m st b (u : Input.world Pmm.state) dt :
  length (Input.m_buffer m) = 3%nat -> 0 <= Input.m_offset m < 3 ->
  Input.desktop u = Some dt -> Gui.pointer_ok dt -> 64000 <= Z.of_nat (length (Terminal.screen (Input.console u))) ->
  returns (Input.Mouse_HandleInterrupt m st b u) (fun '(m', u') =>
    length (Input.m_buffer m') = 3%nat /\ 0 <= Input.m_offset m' < 3 /\
    exists dt' fb', u' = Input.mkWorld (Input.text_screen u) (Some dt')
        (Terminal.mkTty (Terminal.term (Input.console u)) fb' (Terminal.keys (Input.console u)) (Terminal.waiters (Input.console u))) /\
      Gui.pointer_ok dt' /\ Gui.windows dt' = Gui.windows dt /\ Gui.window_count dt' = Gui.window_count dt /\
      length fb' = length (Terminal.screen (Input.console u))).
Proof.
  intros Hl Ho Hd Hp Hs. unfold Input.Mouse_HandleInterrupt.
  assert (Hsame : u = Input.mkWorld (Input.text_screen u) (Some dt) (Terminal.mkTty (Terminal.term (Input.console u))
    (Terminal.screen (Input.console u)) (Terminal.keys (Input.console u)) (Terminal.waiters (Input.console u)))).
  { destruct u as [v d [t fb k w]]. cbn in *. by rewrite Hd. }
  destruct (_ =? 0); [apply returns_Ok; split; [done|]; split; [done|]; eexists dt, _; by split; [exact Hsame|]|].
  rewrite arr_set_in_range, result_bind_Ok by (rewrite Hl; lia). set (buf := <[_ := b]> _).
  assert (Lb : length buf = 3%nat) by (unfold buf; by rewrite length_insert).
  rewrite u8_small by (zify_words; lia). destruct (Z.eqb_spec (Input.m_offset m + 1) 3); cbn [negb].
  2:{ apply returns_Ok. split; [done|]. split; [cbn; lia|]. eexists dt, _. by split; [exact Hsame|]. }
  destruct (arr_get_in_range buf 1) as [b1 ->]; [lia|]. rewrite result_bind_Ok.
  destruct (arr_get_in_range buf 2) as [b2 ->]; [lia|]. rewrite result_bind_Ok.
  destruct (arr_get_in_range buf 0) as [b0 ->]; [lia|]. rewrite result_bind_Ok, Hd. cbv zeta.
  destruct (Gui.OnMouseMove_ok dt (Terminal.screen (Input.console u)) (i8 b1) (i8 b2) (Z.land b0 7) Hp Hs (i8_bounds b1) (i8_bounds b2))
    as (dt' & fb' & -> & Hp' & _ & _ & _ & Ew & Ec & Hdr).
  rewrite result_bind_Ok. apply returns_Ok. split; [done|]. split; [cbn; lia|]. exists dt', fb'.
  split; [done|]. split; [done|]. split; [done|]. split; [done|]. apply (Graphics.dr_len _ _ _ Hdr).
Qed.

Lemma mouse_alive sy a inp esp :
  alive sy a -> returns (handle inp MouseH esp sy) (fun '(e, sy') => e = esp /\ alive sy' a /\ untouched sy sy').
Proof.
  intros [A1 A2 A3 A4 A5 [T1 (d & gs & g & Ed & Hh & Hg)] A7 A8 [Hl Ho] (dt & Edt & Hp) A11 A12 A13]. cbn [handle].
  rewrite Ed in Edt. injection Edt as <-.
  eapply returns_bind; [apply (mouse_byte _ _ _ _ d Hl Ho Ed Hp (Terminal.sv_screen _ _ A7))|].
  intros [m' u'] (Hl' & Ho' & d' & fb' & -> & Hp' & Ew & Ec & Hfb). cbn beta iota. apply returns_Ok.
  split; [done|]. split; [|done]. split; try done.
  - split; [done|]. exists d', gs, g. split; [done|]. split; [|done]. destruct Hh as [H1 H2 H3 H4]. split; [by rewrite Ew | by rewrite Ec | done | by rewrite Ew].
  - destruct A7 as [S1 S2 S3 S4 S5 S6 S7 S8 S9 S10 S11]. split; try done. cbn. by rewrite Hfb.
  - by exists d'.
Qed.

Lemma driver_alive sy a inp p esp :
  alive sy a -> (p < length (sy_drivers sy))%nat -> admissible inp (DriverH p) sy ->
  returns (handle inp (DriverH p) esp sy) (fun '(e, sy') => e = esp /\ alive sy' a /\ untouched sy sy').
Proof.
  intros Ha Hp Hadm. cbn [handle]. destruct (lookup_lt_is_Some_2 _ _ Hp) as [o Eo]. rewrite Eo.
  destruct o as [|r]; [by apply returns_Ok|]. destruct (Hadm r Eo) as [Hb Hr]. unfold card_interrupt. cbv zeta.
  set (chosen := match sy_nic sy with Some q => _ | None => _ end). set (ring := Receive.mkRing _ _ _) in *.
  assert (Hrun : returns (Receive.HandleInterrupt (in_card_status inp) (in_card_pending inp) ring
      match (if chosen then Sys.net (sy_kernel sy) else None) with
      | Some d => d | None => EthernetDriver_new (static_host (Rtl.mac r) 0) end)
    (fun '(_, d') => chosen = true -> is_Some (Sys.net (sy_kernel sy)) -> exists h, d' = Receive.register_all h /\ Stack.host_wf h)).
  { unfold Receive.HandleInterrupt. destruct chosen, (Sys.net (sy_kernel sy)) as [d|] eqn:En.
    2-4: apply returns_if; intros _; [eapply returns_mono; [by apply (idle_card _ ring)|]; intros [? ?] _ ? [? ?]; done
                                     | apply returns_Ok; intros ? [? ?]; done].
    destruct (al_net _ _ Ha d En) as (h & -> & Hwf). apply returns_if; intros _; [|apply returns_Ok; intros _ _; by exists h].
    eapply returns_mono; [by apply NetSafety.HandleReceive_kept|]. intros [r' d'] (_ & h' & -> & Hk & _) _ _. by exists h'. }
  destruct Hrun as ([ring' d'] & -> & Hd'). rewrite !result_bind_Ok. apply returns_Ok. split; [done|].
  destruct Ha as [A1 A2 A3 A4 A5 A6 A7 A8 A9 A10 A11 A12 A13]. split; [|by destruct chosen].
  assert (Hkn : forall r', known (length (<[p := Pci.DRtl r']> (sy_drivers sy))) (sy_interrupts sy))
    by (intros r'; by rewrite length_insert).
  destruct chosen; split; try done; try apply Hkn.
  cbn. intros d E. destruct (Sys.net (sy_kernel sy)) eqn:En; [|done]. injection E as <-. apply Hd'; [done | by eexists].
Qed.
End handlers.

(** ** Hardware interrupts *)

Definition registered {D : Type} (sy : @system D) (v : Z) : option handler :=
  default None (Cpu.handlers (sy_interrupts sy) !! Z.to_nat v).

(** A hardware interrupt with what the devices and the interrupted code supply. *)
Record event := mkEvent { ev_vector : Z; ev_esp : Z; ev_frame : Sys.SyscallFrame; ev_inputs : inputs }.

Definition spec_event (slot : Z -> option handler) (a : desk) (ev : event) : Z * desk :=
  match slot (ev_vector ev) with
  | Some o => spec_handle (ev_inputs ev) o (ev_esp ev) a
  | None => (ev_esp ev, a)
  end.

Section hardware.
Context {D : Type} (junk junk4096 junk64k junk256 : list Z) (fuel : nat).
Implicit Types (sy : @system D) (a : desk).
Notation interrupt := (interrupt junk junk4096 junk64k junk256 fuel).

(** A hardware vector, and devices that behave. *)
Definition permitted sy (ev : event) : Prop :=
  32 <= ev_vector ev < 48 /\ forall o, registered sy (ev_vector ev) = Some o -> admissible (ev_inputs ev) o sy.

Lemma handle_alive sy a inp o esp :
  alive sy a -> (forall p, o = DriverH p -> (p < length (sy_drivers sy))%nat) -> admissible inp o sy ->
  returns (handle inp o esp sy) (fun '(e, sy') =>
    e = (spec_handle inp o esp a).1 /\ alive sy' (spec_handle inp o esp a).2 /\ untouched sy sy').
Proof using.
  intros Ha Hp Hadm. destruct o as [| |p|].
  - by apply keyboard_alive.
  - by apply mouse_alive.
  - apply driver_alive; [done | by apply Hp | done].
  - by apply timer_alive.
Qed.

(** One interrupt does what it means, is acknowledged, and leaves the system ready. *)
Lemma interrupt_alive sy a ev :
  alive sy a -> permitted sy ev ->
  exists sy', interrupt (ev_inputs ev) (ev_vector ev) (ev_esp ev) sy (ev_frame ev) =
      Ok ((spec_event (registered sy) a ev).1, Running sy' (ev_frame ev), end_of_interrupt (ev_vector ev)) /\
    alive sy' (spec_event (registered sy) a ev).2 /\ untouched sy sy'.
Proof using.
  intros Ha [Hv Hadm]. destruct ev as [v esp f inp]. cbn [ev_vector ev_esp ev_frame ev_inputs] in *.
  unfold KernelRun.interrupt, Cpu.HandleInterrupt, Cpu.DoHandleInterrupt. rewrite (al_active _ _ Ha), (al_offset _ _ Ha).
  rewrite (proj2 (Z.eqb_neq v 14)), (proj2 (Z.eqb_neq v 128)) by lia.
  destruct (lookup_lt_is_Some_2 (Cpu.handlers (sy_interrupts sy)) (Z.to_nat v)) as [h Hh]; [rewrite (al_size _ _ Ha); lia|].
  rewrite (proj2 (arr_get_Ok _ v h)), result_bind_Ok by (split; [lia | done]).
  unfold spec_event, registered in *. cbn [ev_vector ev_inputs ev_esp]. rewrite Hh in *. cbn [default from_option id] in *.
  assert (Heoi : (if (v >=? 32) && (v <? 32 + 16)
    then (if v >=? 32 + 8 then Cpu.slow_write Cpu.PIC_SLAVE_COMMAND 32 else []) ++ Cpu.slow_write Cpu.PIC_MASTER_COMMAND 32
    else []) = end_of_interrupt v).
  { unfold end_of_interrupt. rewrite !Z.geb_leb. by case_tests. }
  destruct h as [o|]; [|rewrite !result_bind_Ok, Heoi; by exists sy].
  destruct (handle_alive sy a inp o esp Ha) as ([e sy'] & E & Ee & Ha' & Hu); [|by apply Hadm|].
  { intros p ->. apply (al_known _ _ Ha (Z.to_nat v) p Hh). }
  unfold call, on_running. rewrite E, !result_bind_Ok, Heoi. exists sy'. by rewrite Ee.
Qed.

End hardware.

(** ** Page faults *)

Definition fault_text (addr : Z) : list Z :=
  chars "PAGE FAULT at 0x" ++ Vga.hex_digits 8 addr ++ chars " error=0x00" ++ [10].

Lemma fault_text_printed v addr : is_u32 addr -> HandlePageFault v addr 0 = Console.put_all (fault_text addr) v.
Proof.
  intros Ha. unfold HandlePageFault, literal, fault_text. rewrite !app_nil_l.
  assert (Hp : forall (w : Vga.vga) s, forallb (fun c => (1 <=? c) && (c <? 256)) s = true -> Vga.Print w (s ++ [0]) = Console.put_all s w).
  { intros w s Hs. apply Vga.Print_put_all. eapply Forall_impl; [by apply text_ok|]. by intros c []. }
  change (chars " error=0x00") with (chars " error=0x" ++ Vga.hex_digits 2 0). rewrite <- app_assoc, Vga.put_all_app.
  rewrite (Hp v) by done. destruct (Console.put_all _ v) as [v1|]; [|done]. rewrite !result_bind_Ok, Vga.PrintHex32_digits by done.
  rewrite Vga.put_all_app. destruct (Console.put_all (Vga.hex_digits 8 addr) v1) as [v2|]; [|done]. rewrite !result_bind_Ok, (Hp v2) by done.
  rewrite Vga.put_all_app. destruct (Console.put_all _ v2) as [v3|]; [|done]. rewrite !result_bind_Ok. change (u8 0) with 0. rewrite Vga.PrintHex_digits by u32_lit.
  rewrite Vga.put_all_app. destruct (Console.put_all _ v3) as [v4|]; [|done]. rewrite !result_bind_Ok. by apply Hp.
Qed.

(** A page fault is reported on the text screen, with the address in hexadecimal, and stops
    the machine; nothing is scheduled, no handler runs and nothing is acknowledged. *)
Theorem page_fault_halts {D : Type} junk junk4096 junk64k junk256 fuel inp esp (sy : @system D) f :
  sy_active sy = true -> is_u32 (in_cr2 inp) -> Pci.good (Input.text_screen (Sys.ui (sy_kernel sy))) ->
  exists v, interrupt junk junk4096 junk64k junk256 fuel inp 14 esp sy f = Ok (esp, Halted v, []) /\
    Console.put_all (fault_text (in_cr2 inp)) (Input.text_screen (Sys.ui (sy_kernel sy))) = Ok v /\ Pci.good v.
Proof.
  intros Ha Hc Hg. unfold interrupt, Cpu.HandleInterrupt, Cpu.DoHandleInterrupt. rewrite Ha.
  change (14 =? 14) with true. cbn iota. rewrite result_bind_Ok. unfold page_fault, on_running. rewrite fault_text_printed by done.
  destruct (Pci.put_good _ (fault_text (in_cr2 inp)) Hg) as (v & E & Hv).
  { assert (Hs : forall s, forallb (fun c => (1 <=? c) && (c <? 256)) s = true -> Net.is_bytes s)
      by (intros s Hs; eapply Forall_impl; [by apply text_ok|]; by intros c []).
    unfold fault_text. rewrite !Forall_app. split; [by apply Hs|]. split; [|split; by apply Hs].
    eapply Forall_impl; [apply Vga.hex_digits_range|]. intros c Hc'. cbn in Hc'. zify_words. lia. }
  exists v. rewrite E, !result_bind_Ok. cbn [snd]. by rewrite result_bind_Ok.
Qed.

End KernelRun.
