(* ===== verification/KernelCalls.v ===== *)
(** System calls between interrupts, and the kernel from start-up on.

    KernelRun.v says what hardware interrupts do to the system.  Here the calls that do not
    wait and do not touch files (exit, read of typed input, write, getpid, the sends and the
    close of the network, unknown numbers) become steps of the same abstract machine, and
    any interleaving of interrupts, calls and the program's own work on its memory after
    start-up is shown to run, and to change no memory outside the program's own. *)

From stdpp Require Import base numbers list gmap strings relations.
From Stdlib Require Import ZArith Lia.
From S2P Require Import Prelude Pmm Heap Paging Scheduler KeyboardBuffer Net NetStack Tcp NetReceive NetSafety Fat32 Cpu Console Vga Ports Ata Drivers Rtl8139 Pci Graphics Boot Terminal Gui Input Ps2 Syscall SyscallProofs KernelMain KernelBoot KernelRun.

Module KernelCalls.
Import Ports Kernel KernelBoot KernelRun.

#[local] Existing Instances Pci.pci_ports Ps2.ps2_ports.

(** ** What the calls mean *)

(** The process that runs, if any. *)
Definition running (a : desk) : option Sched.Process :=
  match Terminal.readers (dk_session a) with
  | Some (_, ps) => if dk_current a <? 0 then None else ps !! Z.to_nat (dk_current a)
  | None => None
  end.

Definition with_table (a : desk) (ps : list Sched.Process) (cur : Z) : desk :=
  let e := dk_session a in
  mkDesk (dk_keys a)
    (Terminal.mkSes (Terminal.typed e) (Terminal.delivered e) (Terminal.echo e)
       (match Terminal.readers e with Some (adrs, _) => Some (adrs, ps) | None => None end)) cur (dk_mem a).

(** The caller dies, those who wait for it are ready, and the next process runs. *)
Definition spec_exit (code esp : Z) (a : desk) : Z * desk :=
  match Terminal.readers (dk_session a), running a with
  | Some (_, ps), Some pr =>
      let dead := Sched.set_state (Sched.set_exit_code pr (i32 code)) Sched.PROCESS_DEAD in
      let '(esp, ps, cur) := Sched.rr_step (Sched.wake (i32 (Sched.pid pr)) <$> <[Z.to_nat (dk_current a) := dead]> ps)
                               (dk_current a) esp in
      (esp, with_table a ps cur)
  | _, _ => (esp, a)
  end.

(** Typed characters up to a new line, at most [n], into memory at [buf + i]. *)
Fixpoint spec_chars (n : nat) (buf i : Z) (q : list Z) (mem : Z -> Z) : Z * list Z * (Z -> Z) :=
  match n, q with
  | S n, c :: q =>
      let mem := poke mem (buf + i) c in
      if c =? 10 then (u32 (i + 1), q, mem) else spec_chars n buf (u32 (i + 1)) q mem
  | _, _ => (i, q, mem)
  end.

Definition spec_read (fd buf n : Z) (a : desk) : Z * desk :=
  if fd =? 0 then
    let e := dk_session a in
    let '(i, q, mem) := spec_chars (Z.to_nat n) buf 0 (Terminal.delivered e) (dk_mem a) in
    (i, mkDesk (dk_keys a) (Terminal.mkSes (Terminal.typed e) q (Terminal.echo e) (Terminal.readers e)) (dk_current a) mem)
  else (Sys.failed, a).

(** The bytes of a user buffer on the paper of the terminal. *)
Definition spec_write (fd buf n : Z) (a : desk) : Z * desk :=
  if (0x00400000 <=? buf) && (buf + n <=? 0x00D00000) && ((fd =? 1) || (fd =? 2)) then
    let e := dk_session a in
    let text := (fun i => dk_mem a (u32 (buf + i))) <$> seqZ 0 n in
    (n, mkDesk (dk_keys a)
          (Terminal.mkSes (Terminal.typed e) (Terminal.delivered e)
             (Console.strikes 40 23 Terminal.blank_cell (Terminal.key_for <$> text) (Terminal.echo e)) (Terminal.readers e))
          (dk_current a) (dk_mem a))
  else (Sys.failed, a).

(** The stack pointer to resume, the value returned where it is determined, and the state. *)
Definition spec_call (f : Sys.SyscallFrame) (esp : Z) (a : desk) : Z * option Z * desk :=
  let num := Sys.eax f in
  if num =? 1 then let '(esp, a) := spec_exit (Sys.ebx f) esp a in (esp, Some 1, a)
  else if num =? 3 then let '(v, a) := spec_read (Sys.ebx f) (Sys.ecx f) (Sys.edx f) a in (esp, Some v, a)
  else if num =? 4 then let '(v, a) := spec_write (Sys.ebx f) (Sys.ecx f) (Sys.edx f) a in (esp, Some v, a)
  else if num =? 20 then (esp, Some (match running a with Some p => Sched.pid p | None => 0 end), a)
  else if bool_decide (num ∈ [50; 53; 55]) then (esp, None, a)
  else (esp, Some Sys.failed, a).

(** A buffer inside the memory of the program. *)
Definition own_buffer (buf n : Z) : Prop :=
  is_u32 buf /\ 0 <= n /\ forall j, 0 <= j < n -> shell_area (buf + j) = true.

(** The calls of this file: a process runs; for a read, input has been typed and the buffer is
    the program's own; the end of a buffer that is written does not wrap around; and a TCP
    segment fits its buffer. *)
Definition plain_call (k : Sys.kernel Pmm.state) (f : Sys.SyscallFrame) (a : desk) : Prop :=
  is_Some (running a) /\
  (Sys.eax f ∈ [1; 20; 50; 55] \/
   Sys.eax f = 3 /\ (Sys.ebx f = 0 -> Terminal.delivered (dk_session a) <> [] /\ own_buffer (Sys.ecx f) (Sys.edx f)) \/
   Sys.eax f = 4 /\ 0 <= Sys.ecx f /\ 0 <= Sys.edx f /\ Sys.ecx f + Sys.edx f < 2 ^ 32 \/
   Sys.eax f = 53 /\ Sys.shared_len k <= 1460 \/
   Sys.eax f ∉ SysProofs.known_calls).

(** Calls change no memory but the program's. *)
Lemma own_small buf n j : own_buffer buf n -> 0 <= j < n -> u32 (buf + j) = buf + j /\ buf + j < 0x00D00000.
Proof.
  intros (Hb & _ & Hown) Hj. pose proof (Hown j Hj) as E. unfold shell_area in E.
  assert (Hr : buf + j < 0x00D00000) by (revert E; case_tests; intros; done || lia).
  split; [apply u32_small; zify_words; lia | done].
Qed.

Lemma spec_chars_frame n buf i q mem x :
  0 <= i -> own_buffer buf (i + Z.of_nat n) -> shell_area x = false -> (spec_chars n buf i q mem).2 x = mem x.
Proof.
  revert i q mem. induction n as [|n IH]; intros i q mem Hi Hown Hx; [done|]. destruct q as [|c q]; [done|]. cbn [spec_chars].
  destruct (own_small buf _ i Hown ltac:(lia)) as [Eu Hlt].
  assert (Hp : poke mem (buf + i) c x = mem x).
  { unfold poke. rewrite Eu. destruct (Z.eqb_spec x (buf + i)) as [->|]; [|done].
    destruct Hown as (_ & _ & Hown). by rewrite (Hown i ltac:(lia)) in Hx. }
  cbv zeta. destruct (c =? 10); [exact Hp|]. destruct Hown as (Hb & _ & Hown).
  rewrite u32_small by (zify_words; lia). rewrite IH; [exact Hp | lia | | done].
  split; [done|]. split; [lia|]. intros j Hj. apply Hown. lia.
Qed.

Lemma spec_call_frame k f esp a x :
  plain_call k f a -> shell_area x = false -> dk_mem (spec_call f esp a).2 x = dk_mem a x.
Proof.
  intros [_ Hf] Hx. unfold spec_call. destruct (Z.eqb_spec (Sys.eax f) 1).
  { unfold spec_exit, with_table. repeat case_match; simplify_eq; done. }
  destruct (Z.eqb_spec (Sys.eax f) 3) as [E3|].
  - unfold spec_read. destruct (Z.eqb_spec (Sys.ebx f) 0) as [E0|]; [|done].
    assert (Hown : own_buffer (Sys.ecx f) (Sys.edx f)).
    { destruct Hf as [Hf | [[_ Hd] | [(Ef & _) | [[Ef _] | Hf]]]]; [| by apply Hd | congruence | congruence |].
      - rewrite E3 in Hf. set_solver.
      - rewrite E3 in Hf. unfold SysProofs.known_calls in Hf. set_solver. }
    pose proof (spec_chars_frame (Z.to_nat (Sys.edx f)) (Sys.ecx f) 0 (Terminal.delivered (dk_session a)) (dk_mem a) x ltac:(lia)) as Hfr.
    rewrite Z2Nat.id in Hfr by apply Hown. specialize (Hfr Hown Hx). destruct (spec_chars _ _ _ _ _) as [[v q] m]. exact Hfr.
  - unfold spec_write. repeat case_match; simplify_eq; done.
Qed.

(** ** The calls *)

(** The part of [alive] that is about the state of the calls. *)
Record kernel_ok (k : Sys.kernel Pmm.state) (a : desk) : Prop := {
  ko_top : Input.terminal_on_top (Sys.ui k);
  ko_serves : Terminal.serves (Sys.tty_of k) (dk_session a);
  ko_current : exists s, Terminal.waiters (Sys.tty_of k) = Some s /\ Sched.current_index s = dk_current a;
  ko_pointer : exists dt, Input.desktop (Sys.ui k) = Some dt /\ Gui.pointer_ok dt;
  ko_memory : Sys.mem k = dk_mem a /\ forall x, is_u8 (dk_mem a x);
  ko_terminal : Sys.active k = true;
  ko_net : forall d, Sys.net k = Some d -> exists h, d = Receive.register_all h /\ Stack.host_wf h;
}.

(** A call has led to [k'], which shows [a']; heap and volume are the same. *)
Definition moved (k k' : Sys.kernel Pmm.state) (a' : desk) : Prop :=
  kernel_ok k' a' /\ Sys.heap k' = Sys.heap k /\ Sys.global_fat32 k' = Sys.global_fat32 k.

Lemma alive_kernel {D : Type} (sy : @system D) a : alive sy a -> kernel_ok (sy_kernel sy) a.
Proof. by intros []. Qed.

Lemma kernel_alive {D : Type} (sy : @system D) a k a' :
  alive sy a -> kernel_ok k a' -> dk_keys a' = dk_keys a -> alive (with_kernel sy k) a'.
Proof. intros [] [] Hk. split; try done. cbn. by rewrite Hk. Qed.

Lemma exit_ok k a code esp :
  kernel_ok k a -> is_Some (running a) ->
  returns (Sys.sys_exit k esp code) (fun '(e, k') => e = (spec_exit code esp a).1 /\ moved k k' (spec_exit code esp a).2).
Proof.
  intros [K1 K2 (s & Hw & Hc) K4 K5 K6 K7] Hrun. unfold spec_exit. destruct (running a) as [pr0|] eqn:Er; [|by destruct Hrun].
  pose proof (Terminal.sv_waiters _ _ K2) as Hws. rewrite Hw in Hws. unfold running in Er.
  destruct (Terminal.readers (dk_session a)) as [[adrs ps]|] eqn:Ers; [|done]. destruct Hws as (Hi & Ha & Hp). cbn [fst snd] in Ha, Hp.
  destruct (Z.ltb_spec (dk_current a) 0); [done|].
  destruct (SysProofs.sys_exit_acts k s esp code Hw Hi) as (ad & pr & s' & _ & _ & Hpr & Hi' & Ha' & He); [lia|].
  unfold SysProofs.exited in He. rewrite Hp, Hc in *. rewrite Hpr in Er. injection Er as ->.
  destruct (Sched.rr_step _ _ _) as [[e ps'] cur']. destruct He as (-> & Hps & Hcur). apply returns_Ok.
  split; [done|]. unfold with_table. rewrite Ers. split; [|done]. split; try done.
  - by destruct K1.
  - apply (SysProofs.serves_table (Sys.tty_of k) (dk_session a) s' (adrs, ps')); [done | done | by rewrite Ha' | done].
  - by exists s'.
Qed.

Lemma write_ok k a fd buf n :
  kernel_ok k a -> 0 <= buf -> 0 <= n -> buf + n < 2 ^ 32 ->
  returns (Sys.sys_write k fd buf n) (fun '(v, k') => v = (spec_write fd buf n a).1 /\ moved k k' (spec_write fd buf n a).2).
Proof.
  intros Hk Hb Hn Hw. unfold spec_write.
  destruct (Z.leb_spec 0x00400000 buf); cbn [andb].
  2:{ unfold Sys.sys_write. rewrite (proj2 (Z.ltb_lt buf 0x400000)) by lia. by apply returns_Ok. }
  destruct (Z.leb_spec (buf + n) 0x00D00000); cbn [andb].
  2:{ unfold Sys.sys_write. rewrite u32_small, Z.gtb_ltb, (proj2 (Z.ltb_lt 0xD00000 (buf + n))), orb_true_r by (zify_words; lia).
      by apply returns_Ok. }
  destruct ((fd =? 1) || (fd =? 2)) eqn:Ef.
  2:{ unfold Sys.sys_write. rewrite Ef. apply returns_if; intros _; by apply returns_Ok. }
  destruct Hk as [K1 K2 K3 K4 [K5 K5'] K6 K7]. pose proof K2 as [S1 S2 S3 S4 S5 S6 S7 S8 S9 S10 S11].
  destruct (SysProofs.sys_write_acts k (Terminal.echo (dk_session a)) fd buf n) as (t & fb & E & Hwf & (g & c & r & j & ->) & Hsh & Hd); try done.
  { intros x. by rewrite K5. }
  { apply orb_prop in Ef as [Ef%Z.eqb_eq|Ef%Z.eqb_eq]; auto. }
  rewrite E. apply returns_Ok. split; [done|]. split; [|done]. split; try done.
  - by destruct K1.
  - split; try done.
    + cbn [Terminal.echo]. unfold Sys.load_bytes, Sys.load8 in Hsh. rewrite K5 in Hsh. exact Hsh.
    + cbn. by rewrite (Graphics.dr_len _ _ _ Hd).
Qed.

(** Reading is taking from the queue. *)
Lemma read_chars_ok n buf i (k : Sys.kernel Pmm.state) q :
  KeyboardBuffer.queue_of (Terminal.keys (Sys.tty_of k)) q ->
  let '(v, q', m) := spec_chars n buf i q (Sys.mem k) in
  exists kb, Sys.read_chars n buf i k = Ok (v, Sys.set_mem (Sys.set_keys k kb) m) /\ KeyboardBuffer.queue_of kb q'.
Proof.
  revert i k q. induction n as [|n IH]; intros i k q Hq.
  { exists (Terminal.keys (Sys.tty_of k)). split; [|exact Hq]. by destruct k as [[? ? []]]. }
  destruct (KeyboardBuffer.Dequeue_acts _ _ Hq) as (kb & Ed & Hq'). cbn [Sys.read_chars spec_chars]. rewrite Ed, result_bind_Ok.
  destruct q as [|c q]; cbn [KeyboardBuffer.spec_step fst snd List.hd_error List.tl] in *.
  { exists kb. split; [|done]. by destruct k. }
  cbv zeta. destruct (c =? 10); [by exists kb|].
  specialize (IH (u32 (i + 1)) (Sys.store8 (Sys.set_keys k kb) (buf + i) c) q Hq').
  change (Sys.mem (Sys.store8 (Sys.set_keys k kb) (buf + i) c)) with (poke (Sys.mem k) (buf + i) c) in IH.
  destruct (spec_chars n buf (u32 (i + 1)) q (poke (Sys.mem k) (buf + i) c)) as [[v q'] m].
  destruct IH as (kb' & E & Hq2). exists kb'. rewrite E. split; [|done]. by destruct k.
Qed.

Lemma spec_chars_bytes n buf i q mem :
  (forall x, is_u8 (mem x)) -> forall x, is_u8 ((spec_chars n buf i q mem).2 x).
Proof.
  revert i q mem. induction n as [|n IH]; intros i q mem Hm x; [done|]. destruct q as [|c q]; [done|]. cbn [spec_chars].
  assert (Hp : forall y, is_u8 (poke mem (buf + i) c y)) by (intros y; unfold poke; destruct (_ =? _); [apply u8_bounds | done]).
  cbv zeta. destruct (c =? 10); [apply Hp | by apply IH].
Qed.

Lemma read_ok k a fd buf n env :
  kernel_ok k a -> (fd = 0 -> Terminal.delivered (dk_session a) <> []) ->
  returns (Sys.sys_read k fd buf n env) (fun '(v, k') => v = Sys.Value (spec_read fd buf n a).1 /\ moved k k' (spec_read fd buf n a).2).
Proof.
  intros [K1 K2 K3 K4 [K5 K5'] K6 K7] Hne. unfold Sys.sys_read, spec_read. destruct (Z.eqb_spec fd 0) as [->|]; cbn [negb].
  2:{ apply returns_Ok. split; [done|]. split; [by split | done]. }
  pose proof (Terminal.sv_keys _ _ K2) as Hq. rewrite (SysProofs.IsEmpty_queue _ _ Hq), bool_decide_false by auto.
  unfold Sys.after. rewrite result_bind_Ok. pose proof (read_chars_ok (Z.to_nat n) buf 0 k _ Hq) as Hr. rewrite K5 in Hr.
  pose proof (spec_chars_bytes (Z.to_nat n) buf 0 (Terminal.delivered (dk_session a)) (dk_mem a) K5') as Hb.
  destruct (spec_chars _ _ _ _ _) as [[v q'] m]. destruct Hr as (kb & -> & Hq'). rewrite result_bind_Ok. apply returns_Ok. split; [done|].
  split; [|done]. split; try done.
  - by destruct K1.
  - destruct K2. by split.
Qed.

(** The caller of [getpid]. *)
Lemma getpid_ok k a p :
  kernel_ok k a -> running a = Some p -> Sys.sys_getpid k = Ok (Sched.pid p, k).
Proof.
  intros [K1 K2 (s & Hw & Hc) K4 K5 K6 K7] Hr. unfold running in Hr.
  pose proof (Terminal.sv_waiters _ _ K2) as Hws. rewrite Hw in Hws.
  destruct (Terminal.readers (dk_session a)) as [[adrs ps]|]; [|done]. destruct Hws as (Hi & _ & Hp). cbn [snd] in Hp.
  destruct (Z.ltb_spec (dk_current a) 0); [done|]. rewrite <- Hp, <- Hc in Hr.
  assert (Hlt : Sched.current_index s < Sched.process_count s) by (destruct (Sched.si_cur_lt s Hi); lia).
  destruct (Sched.slot_ok s (Sched.current_index s) Hi ltac:(lia)) as (ad & pr & Eg & Ed & Hne & _ & Hpr & _).
  rewrite Hpr in Hr. injection Hr as ->.
  unfold Sys.sys_getpid, Sys.active_process, Sys.instance, Sched.GetActive. rewrite Hw, result_bind_Ok.
  rewrite (proj2 (Z.ltb_ge _ 0)), Eg, result_bind_Ok, (proj2 (Z.eqb_neq ad 0)), result_bind_Ok, Ed by (done || lia). done.
Qed.

(** A call that only changes the host keeps the rest. *)
Lemma host_ok k a h h' :
  kernel_ok k a -> Sys.net k = Some (Receive.register_all h) -> NetSafety.kept h h' ->
  moved k (Sys.with_host k (Receive.register_all h) h') a.
Proof.
  intros [] Hn [Hwf _]. split; [|done]. split; try done. cbn. intros d [= <-]. by exists h'.
Qed.

Lemma shared_len_bounds (k : Sys.kernel Pmm.state) : (forall x, is_u8 (Sys.mem k x)) -> 0 <= Sys.shared_len k <= 4088.
Proof.
  intros Hm. unfold Sys.shared_len, Sys.NET_BUF_MAX_DATA. cbv zeta.
  assert (H8 : forall x, 0 <= Sys.load8 k x) by (intros x; unfold Sys.load8; pose proof (Hm (u32 x)); zify_words; lia).
  destruct (Z.gtb_spec (Sys.load32 k Sys.NET_BUF_DATA_LEN_ADDR) 4088); [lia|]. split; [|lia].
  unfold Sys.load32. pose proof (H8 Sys.NET_BUF_DATA_LEN_ADDR). pose proof (H8 (Sys.NET_BUF_DATA_LEN_ADDR + 1)).
  pose proof (H8 (Sys.NET_BUF_DATA_LEN_ADDR + 2)). pose proof (H8 (Sys.NET_BUF_DATA_LEN_ADDR + 3)). lia.
Qed.

Lemma packed_bytes x : Stack.bytes_of 4 (Sys.PackedToIPv4 x).
Proof.
  assert (Hl : forall y, is_u8 (Z.land y 0xFF)).
  { intros y. change 0xFF with (Z.ones 8). rewrite Z.land_ones by lia. apply u8_bounds. }
  split; [done|]. unfold Sys.PackedToIPv4, Net.FromBytes. repeat (apply Forall_cons; split; [apply Hl|]). by apply Forall_nil.
Qed.

(** The sends and the close of the network keep everything but the host. *)
Lemma net_calls_ok k a (m : Sys.kernel Pmm.state -> result (Z * Sys.kernel Pmm.state)) f :
  kernel_ok k a ->
  (m = (fun k => Sys.sys_net_send_udp k (Sys.ebx f) (u16 (Sys.ecx f)) (u16 (Sys.edx f))) \/
   m = Sys.sys_net_tcp_send /\ Sys.shared_len k <= 1460 \/ m = Sys.sys_net_tcp_close) ->
  returns (m k) (fun '(_, k') => moved k k' a).
Proof.
  intros Hk Hm. destruct (ko_memory k a Hk) as [Em Hb]. rewrite <- Em in Hb.
  pose proof (shared_len_bounds k Hb) as Hlen. set (data := Sys.load_bytes k Sys.NET_BUF_DATA_ADDR (Sys.shared_len k)).
  assert (Hd : Net.is_bytes data) by (by apply SysProofs.load_bytes_u8).
  assert (Hl : Z.of_nat (length data) = Sys.shared_len k) by (apply SysProofs.load_bytes_length; lia).
  assert (Hsend : forall h (p : result (bool * Stack.host)), Sys.net k = Some (Receive.register_all h) ->
    returns p (fun r => NetSafety.kept h r.2) ->
    returns ('(ok, h') ← p; Ok (if ok : bool then 0 else Sys.failed, Sys.with_host k (Receive.register_all h) h'))
      (fun '(_, k') => moved k k' a)).
  { intros h p Hn Hp. step_with Hp. intros [ok h'] Hkept. apply returns_Ok. by apply host_ok. }
  destruct (Sys.net k) as [d|] eqn:En.
  2:{ destruct Hm as [-> | [[-> _] | ->]]; unfold Sys.sys_net_send_udp, Sys.sys_net_tcp_send, Sys.sys_net_tcp_close;
      rewrite En; by apply returns_Ok. }
  destruct (ko_net k a Hk d En) as (h & -> & Hwf).
  destruct Hm as [-> | [[-> Hs] | ->]]; unfold Sys.sys_net_send_udp, Sys.sys_net_tcp_send, Sys.sys_net_tcp_close; rewrite En.
  - cbv zeta. apply returns_if; intros _; [by apply returns_Ok|]. apply Hsend; [done|].
    apply NetSafety.UDP_Send_kept; [done | apply packed_bytes | done | lia | fold data; lia].
  - cbv zeta. apply returns_if; intros _; [by apply returns_Ok|]. apply Hsend; [done|]. fold data.
    apply NetSafety.TcpSend_kept; [done | done | lia | lia].
  - step_with NetSafety.Close_kept; [done|]. intros h' Hkept. apply returns_Ok. by apply host_ok.
Qed.

Section steps.
Context (junk junk4096 junk64k junk256 : list Z) (fuel : nat).
Notation SyscallDispatch := (Sys.SyscallDispatch junk junk4096 junk64k junk256 fuel).
Notation interrupt := (interrupt junk junk4096 junk64k junk256 fuel).

(** The dispatcher does what the calls mean. *)
Lemma call_ok k a esp f env stack0 :
  kernel_ok k a -> plain_call k f a ->
  exists v k', SyscallDispatch k esp f env stack0 = Ok (Sys.Resume (spec_call f esp a).1.1, Sys.set_eax f v, k') /\
    (forall w, (spec_call f esp a).1.2 = Some w -> v = w) /\ moved k k' (spec_call f esp a).2.
Proof using.
  intros Hk [[p Hp] Hf].
  assert (Hret : forall (m : result (Z * Sys.kernel Pmm.state)) w a',
    returns m (fun '(v, k') => (forall x, w = Some x -> v = x) /\ moved k k' a') ->
    exists v k', ('(v, k) ← m; Ok (Sys.Resume esp, Sys.set_eax f v, k)) = Ok (Sys.Resume esp, Sys.set_eax f v, k') /\
      (forall x, w = Some x -> v = x) /\ moved k k' a').
  { intros m w a' ([v k'] & -> & Hw & Hk'). rewrite result_bind_Ok. by exists v, k'. }
  unfold spec_call. destruct Hf as [Hf | [[Ef Hd] | [(Ef & Hb & Hn & Hw) | [[Ef Hs] | Hf]]]].
  - rewrite !elem_of_cons in Hf. unfold Sys.SyscallDispatch. cbv zeta. destruct Hf as [Ef|[Ef|[Ef|[Ef|Hf]]]];
      [rewrite Ef; cbn [Z.eqb Pos.eqb] .. | by apply elem_of_nil in Hf].
    + destruct (exit_ok k a (Sys.ebx f) esp Hk ltac:(by exists p)) as ([e k'] & -> & -> & Hk').
      rewrite result_bind_Ok. destruct (spec_exit (Sys.ebx f) esp a) as [e a']. exists 1, k'. cbn [fst snd] in *.
      destruct f as [fb fd fc fa]. cbn in Ef. subst fa. split; [done|]. split; [by intros w [= <-] | done].
    + rewrite (getpid_ok k a p Hk Hp), result_bind_Ok, Hp. exists (Sched.pid p), k. split; [done|].
      split; [by intros w [= <-] | done].
    + rewrite bool_decide_true by set_solver. apply Hret. eapply returns_mono;
        [apply (net_calls_ok k a (fun k => Sys.sys_net_send_udp k (Sys.ebx f) (u16 (Sys.ecx f)) (u16 (Sys.edx f))) f Hk); by left|].
      by intros [v k'] Hk'.
    + rewrite bool_decide_true by set_solver. apply Hret. eapply returns_mono;
        [apply (net_calls_ok k a Sys.sys_net_tcp_close f Hk); by right; right|]. by intros [v k'] Hk'.
  - unfold Sys.SyscallDispatch. cbv zeta. rewrite Ef. cbn [Z.eqb Pos.eqb].
    destruct (read_ok k a (Sys.ebx f) (Sys.ecx f) (Sys.edx f) env Hk) as ([v k'] & E & Hv & Hk'); [by intros E0; apply Hd|].
    destruct (spec_read _ _ _ a) as [x a']. rewrite E, result_bind_Ok, Hv. exists x, k'. split; [done|].
    split; [by intros w [= <-] | done].
  - unfold Sys.SyscallDispatch. cbv zeta. rewrite Ef. cbn [Z.eqb Pos.eqb].
    pose proof (write_ok k a (Sys.ebx f) (Sys.ecx f) (Sys.edx f) Hk Hb Hn Hw) as Hr. destruct (spec_write _ _ _ a) as [x a'].
    apply Hret. eapply returns_mono; [exact Hr|]. intros [v k'] [-> Hk']. split; [by intros w [= <-] | done].
  - unfold Sys.SyscallDispatch. cbv zeta. rewrite Ef. cbn [Z.eqb Pos.eqb].
    rewrite bool_decide_true by set_solver. apply Hret. eapply returns_mono;
      [apply (net_calls_ok k a Sys.sys_net_tcp_send f Hk); by right; left|]. by intros [v k'] Hk'.
  - rewrite (SysProofs.unknown_call junk junk4096 junk64k junk256 fuel k esp f env stack0 Hf).
    unfold SysProofs.known_calls in Hf. rewrite !not_elem_of_cons in Hf.
    repeat match goal with |- context [if Sys.eax f =? ?n then _ else _] => rewrite (proj2 (Z.eqb_neq (Sys.eax f) n)) by tauto end.
    rewrite bool_decide_false by (rewrite !elem_of_cons, elem_of_nil; tauto). exists Sys.failed, k.
    split; [done|]. split; [by intros w [= <-] | done].
Qed.

(** ** Interrupts and calls in any order *)

Section systems.
Context {D : Type}.
Implicit Types (sy : @system D) (a : desk).

(** A hardware interrupt, a system call, or the work of the program between them, which
    leaves its memory as [m]. *)
Inductive happening :=
  | Irq (ev : event)
  | Trap (esp : Z) (f : Sys.SyscallFrame) (inp : inputs)
  | Work (esp : Z) (f : Sys.SyscallFrame) (m : Z -> Z).

Definition accept (sy : @system D) (h : happening) : result (Z * status * list Cpu.effect) :=
  match h with
  | Irq ev => interrupt (ev_inputs ev) (ev_vector ev) (ev_esp ev) sy (ev_frame ev)
  | Trap esp f inp => interrupt inp 128 esp sy f
  | Work esp f m => Ok (esp, Running (with_kernel sy (Sys.set_mem (sy_kernel sy) m)) f, [])
  end.

(** The stack pointer it returns and the state it leads to. *)
Definition meaning (slot : Z -> option handler) (a : desk) (h : happening) : Z * desk :=
  match h with
  | Irq ev => spec_event slot a ev
  | Trap esp f _ => let '(esp, _, a) := spec_call f esp a in (esp, a)
  | Work esp f m => (esp, mkDesk (dk_keys a) (dk_session a) (dk_current a) m)
  end.

(** The value in [eax] afterwards, where it is determined. *)
Definition answer (a : desk) (h : happening) : option Z :=
  match h with
  | Irq ev => Some (Sys.eax (ev_frame ev))
  | Trap esp f _ => (spec_call f esp a).1.2
  | Work _ f _ => Some (Sys.eax f)
  end.

Definition history (slot : Z -> option handler) (a : desk) (hs : list happening) : desk :=
  foldl (fun a h => (meaning slot a h).2) a hs.

(** A permitted hardware interrupt, a call of this file when no driver has taken its
    vector, or a program that writes bytes to its own memory. *)
Definition may sy a (h : happening) : Prop :=
  match h with
  | Irq ev => permitted sy ev
  | Trap _ f _ => registered sy 128 = None /\ plain_call (sy_kernel sy) f a
  | Work _ _ m => (forall x, is_u8 (m x)) /\ forall x, shell_area x = false -> m x = dk_mem a x
  end.

(** Vectors, heap and volume. *)
Definition settled sy sy' : Prop :=
  sy_interrupts sy' = sy_interrupts sy /\ Sys.heap (sy_kernel sy') = Sys.heap (sy_kernel sy) /\
  Sys.global_fat32 (sy_kernel sy') = Sys.global_fat32 (sy_kernel sy).

(** Nothing that happens changes memory outside the program. *)
Lemma meaning_frame sy slot a h x :
  may sy a h -> shell_area x = false -> dk_mem (meaning slot a h).2 x = dk_mem a x.
Proof using.
  intros Hm Hx. destruct h as [ev|esp f inp|esp f m]; cbn [may meaning] in *.
  - unfold spec_event. destruct (slot (ev_vector ev)) as [[]|]; cbn [spec_handle]; try done.
    + destruct (Input.decode _ _) as [[k [c|]]|]; done.
    + unfold spec_timer. destruct (Terminal.readers _) as [[adrs ps]|]; [|done]. by destruct (Sched.rr_step _ _ _) as [[? ?] ?].
  - pose proof (spec_call_frame _ f esp a x (proj2 Hm) Hx) as E. by destruct (spec_call f esp a) as [[e w] a'].
  - by apply Hm.
Qed.

Lemma trap_alive sy a esp f inp :
  alive sy a -> may sy a (Trap esp f inp) ->
  exists sy' f', accept sy (Trap esp f inp) = Ok ((meaning (registered sy) a (Trap esp f inp)).1, Running sy' f', []) /\
    alive sy' (meaning (registered sy) a (Trap esp f inp)).2 /\ settled sy sy' /\
    (forall w, (spec_call f esp a).1.2 = Some w -> Sys.eax f' = w).
Proof using.
  intros Ha [Hr Hc]. cbn [accept meaning].
  destruct (call_ok (sy_kernel sy) a esp f (in_env inp) (in_stack0 inp) (alive_kernel sy a Ha) Hc) as (v & k' & E & Hv & Hk' & Hh & Hf).
  assert (Hkeys : dk_keys (spec_call f esp a).2 = dk_keys a).
  { unfold spec_call, spec_exit, spec_read, spec_write, with_table. repeat case_match; simplify_eq; done. }
  destruct (spec_call f esp a) as [[e w] a']. cbn [fst snd] in *. exists (with_kernel sy k'), (Sys.set_eax f v). split.
  - unfold KernelRun.interrupt, Cpu.HandleInterrupt, Cpu.DoHandleInterrupt. rewrite (al_active _ _ Ha).
    change (128 =? 14) with false. cbn iota.
    destruct (lookup_lt_is_Some_2 (Cpu.handlers (sy_interrupts sy)) (Z.to_nat 128)) as [h Hh']; [rewrite (al_size _ _ Ha); lia|].
    rewrite (proj2 (arr_get_Ok _ 128 h)), result_bind_Ok by (split; [lia | done]).
    unfold registered in Hr. rewrite Hh' in Hr. cbn in Hr. rewrite Hr. change (128 =? 128) with true. cbn iota.
    unfold syscall, on_running. rewrite E, !result_bind_Ok. done.
  - split; [by apply (kernel_alive sy a)|]. split; [done|]. intros x Hx. by rewrite <- (Hv x Hx).
Qed.

Lemma accept_alive sy a h :
  alive sy a -> may sy a h ->
  exists sy' f' es, accept sy h = Ok ((meaning (registered sy) a h).1, Running sy' f', es) /\
    alive sy' (meaning (registered sy) a h).2 /\ settled sy sy' /\ (forall w, answer a h = Some w -> Sys.eax f' = w).
Proof using.
  intros Ha Hm. destruct h as [ev|esp f inp|esp f m].
  - destruct (interrupt_alive junk junk4096 junk64k junk256 fuel sy a ev Ha Hm) as (sy' & E & Ha' & U1 & _ & U3 & U4).
    exists sy', (ev_frame ev), (end_of_interrupt (ev_vector ev)). split; [done|]. split; [done|]. split; [done|]. by intros w [= <-].
  - destruct (trap_alive sy a esp f inp Ha Hm) as (sy' & f' & E & Ha' & Hs & Hw). by exists sy', f', [].
  - destruct Hm as [Hm _]. eexists _, f, []. split; [reflexivity|]. split; [|split; [done | by intros w [= <-]]].
    apply (kernel_alive sy a); [done | | done]. destruct (alive_kernel sy a Ha) as [K1 K2 K3 K4 K5 K6 K7]. split; done.
Qed.

(** The systems that a sequence of them leads to. *)
Inductive leads sy a : list happening -> @system D -> Prop :=
  | leads_start : leads sy a [] sy
  | leads_more hs sy1 h e sy2 f es :
      leads sy a hs sy1 -> may sy1 (history (registered sy) a hs) h ->
      accept sy1 h = Ok (e, Running sy2 f, es) ->
      leads sy a (hs ++ [h]) sy2.

Lemma leads_alive sy a hs sy' :
  alive sy a -> leads sy a hs sy' -> alive sy' (history (registered sy) a hs) /\ settled sy sy' /\
    forall x, shell_area x = false -> dk_mem (history (registered sy) a hs) x = dk_mem a x.
Proof using.
  intros Ha Hl. induction Hl as [|hs sy1 h e sy2 f es Hl (IH & Hs & Hfr) Hm E]; [by split|].
  destruct (accept_alive sy1 _ h IH Hm) as (sy2' & f' & es' & E' & Ha' & Hs' & _). rewrite E in E'. injection E' as _ <- _ _.
  destruct Hs as (U1 & U2 & U3), Hs' as (V1 & V2 & V3).
  unfold history. rewrite foldl_app. cbn [foldl]. fold (history (registered sy) a hs). split.
  - unfold registered in *. by rewrite U1 in Ha'.
  - split; [split; [congruence|]; split; congruence|]. intros x Hx. rewrite (meaning_frame sy1) by done. by apply Hfr.
Qed.
End systems.
End steps.
Arguments happening : clear implicits.

(** ** From start-up on *)

Section from_boot.
Context {D : Type} `{PortIO D} `{!Attached D Pci.pci Pci.pci_range} `{!Attached D Ps2.ps2 Ps2.ps2_range}.
Context (sizes : class_sizes) (at_ : places) (m0 : memory0) (isr : Z -> Z) (ignore : Z) (fuel polls : nat).
Context (junk junk4096 junk64k junk256 : list Z).

(** The abstract machine when the shell has been loaded. *)
Definition desk0 (shell : Sched.Process) (mem : Z -> Z) : desk :=
  mkDesk Input.KeyboardDriver_new (Terminal.mkSes [] [] banner_sheet (Some ([shell_proc_at at_], [shell]))) (-1) mem.

Lemma booted_alive image b l k r (sy : @system D) :
  memory0_wf m0 -> Net.is_bytes image -> booted at_ m0 isr ignore image b l k r sy ->
  exists s p, Terminal.waiters (Sys.tty_of (sy_kernel sy)) = Some s /\
    shell_ready (shell_proc_at at_) (Sched.mm s) p /\ alive sy (desk0 p (Sys.mem (sy_kernel sy))).
Proof.
  intros Hm0 Hi [_ _ [_ Hn] Hl Ht Htop (s & p & Hw & Hsv & Hc & _ & Hp) _ _ Hact (S1 & S2 & S3 & _) (I1 & I2 & I3)].
  exists s, p. split; [exact Hw|]. split; [exact Hp|].
  split; [exact Hact | exact S1 | exact S2 | exact S3 | exact I1 | exact Htop | exact Hsv
    | exists s; split; [exact Hw | exact Hc] | | exact I3 | | exact Ht |].
  - rewrite I2. cbn. split; [apply Hm0 | lia].
  - split; [reflexivity|]. exact (loaded_bytes image (user0 m0) _ Hi (w_user m0 Hm0) Hl).
  - intros d Ed. destruct (driver_of m0 k 0x8139) as [q|].
    + destruct Hn as (mac & n & En & Hup). rewrite Ed in En. injection En as <-.
      destruct (nu_handlers _ _ Hup) as (h & -> & Hwf & _). by exists h.
    + by rewrite Ed in Hn.
Qed.

Lemma booted_vectors image b l k r (sy : @system D) :
  booted at_ m0 isr ignore image b l k r sy ->
  registered sy 32 = Some TimerH /\
  (registered sy 33 = Some KeyboardH \/ exists q, registered sy 33 = Some (DriverH q)) /\
  forall v, 0 <= v < 256 -> v <> 32 -> v <> 33 -> v <> 44 ->
    registered sy v = None \/ exists q, registered sy v = Some (DriverH q) /\ (q < length (found_drivers m0 k))%nat.
Proof.
  intros [_ _ _ _ _ _ _ (im & Hv & im' & Htk & _ & Eh) _ _ (S1 & _ & S3 & S4) _].
  assert (El : length (sy_drivers sy) = length (found_drivers m0 k))
    by (rewrite <- (length_fmap Boot.TypeID), <- (length_fmap Boot.TypeID (found_drivers m0 k)); by rewrite S4).
  unfold registered. rewrite Eh in *. rewrite length_insert in S1.
  split; [rewrite list_lookup_insert_eq by lia; reflexivity|]. split.
  - rewrite list_lookup_insert_ne by (vm_compute; discriminate). change (Z.to_nat 33) with 33%nat.
    destruct (tb_slots im im' Htk 33%nat _ (vs_keyboard _ _ _ Hv)) as [-> | [q ->]]; [by left | right; by exists q].
  - intros v Hr H32 H33 H44. rewrite list_lookup_insert_ne by lia.
    destruct (tb_slots im im' Htk (Z.to_nat v) None) as [Ev | [q Ev]]; [apply (vs_others _ _ _ Hv); lia | |]; rewrite Ev; [by left|].
    right. exists q. split; [reflexivity|]. rewrite <- El. apply (S3 (Z.to_nat v) q). rewrite Eh, list_lookup_insert_ne by lia. exact Ev.
Qed.

End from_boot.

(** A key that is not the enter key, an empty card. *)
Definition sample_inputs : inputs := mkInputs 0x26 0 0 0 0 [] 0 [] [].
Definition sample_event (v : Z) : event := mkEvent v 0x104F00 (Sys.mkFrame 0 0 0 0) sample_inputs.

Lemma sample_permitted (sy : @system pc) v : 32 <= v < 48 -> permitted sy (sample_event v).
Proof.
  intros Hv. split; [exact Hv|]. intros [| |p|] _; [|done..].
  split; [u32_lit|]. intros k E. destruct (sy_keyboard sy) as [[] [] []]; vm_compute in E; discriminate E.
Qed.

(** The machine without PCI devices. *)
Definition bare_pc : pc := mkPc (Pci.mkPci 0 ∅) (Ps2.mkPs2 0x47 [] Ps2.ToKeyboard false false 2 3).

(** The shell after the first tick. *)
Lemma first_desk slot p mem :
  Sched.state p = Sched.PROCESS_READY -> slot 32 = Some TimerH ->
  running (history slot (desk0 sample_places p mem) [Irq (sample_event 32)]) = Some (Sched.set_state p Sched.PROCESS_RUNNING) /\
  dk_mem (history slot (desk0 sample_places p mem) [Irq (sample_event 32)]) = mem.
Proof.
  intros Hst Hslot. unfold history. cbn [foldl meaning]. unfold spec_event. cbn [sample_event ev_vector ev_inputs ev_esp].
  rewrite Hslot. cbn [spec_handle]. unfold spec_timer, desk0. cbn [dk_session Terminal.readers dk_current].
  rewrite rr_first by done. cbn [snd]. split; reflexivity.
Qed.


End KernelCalls.
